(* ===== verification/_CoqProject ===== *)
-Q . S2P
Prelude.v
Parser.v
ParserSpec.v
ParserProps.v
ParserRoundtrip.v
Values.v
DateTime.v
DateTimeProps.v
Wire.v
WireVariants.v
Fetch.v
FetchProps.v
Exceptions.v
ModuleInit.v
Params.v
ParamsProps.v
Client.v
Connection.v
Cursor.v
Session.v
Demo.v
CursorLogic.v
SessionSafety.v
CursorProps.v
FetchRows.v
CursorArrays.v
CursorRuns.v
Python.v
PyCursor.v
PyConnection.v
Package.v
PyApi.v
PyRuns.v
PyCursorProps.v
TextStatement.v
BinaryStatement.v
Xa.v
TpcProps.v
Pool.v
PoolProps.v
PoolHistories.v
HandleLogic.v
HandleRuns.v
HandleRequests.v
HandleSafety.v
MultiCursor.v
MultiCursorProps.v
PoolConnections.v
