(* ===== verification/Prelude.v ===== *)
(** * MariaDB Connector/Python: a verified model

    The connector is a C extension module, [_mariadb], with a thin Python layer
    over it.  An application calls [Cursor.execute] or [Cursor.executemany]
    with a statement and parameters.  The statement is parsed to find its
    parameter markers ([mariadb_parser.c]); the parameters are inspected, given
    column types and loaded into bind structures ([mariadb_codecs.c], the
    parameter half); MariaDB Connector/C sends the statement, in the text
    protocol or as a prepared statement; the columns of the result come back as
    text or as bytes and are turned into Python objects ([mariadb_codecs.c], the
    fetch half, over the byte-order macros of [mariadb_python.h]).  Errors of
    the server and of the connector become Python exceptions
    ([mariadb_exception.c]).  [mariadb_cursor.c] and [mariadb_connection.c] keep
    the handles and drive these parts.

    ** Conventions

    C integers are [Z]; a conversion to a narrower type is one of [u8] ... [s64]
    below, signed overflow of [int] arithmetic is [None] from [c_int].  A block
    of memory is the list of its bytes, a pointer into it an offset; every
    access is checked and an access outside the block is a value of the result
    type ([Undef], [ParseUndefined], [Undefined], [None]), so that safety is a
    theorem about the result.  A Python object is a value of [pyobj].  Strings
    are lists of bytes (UTF-8).

    ** Files

    - [Prelude.v]: machine integers, bytes, bounded memory access, the tactics
      and the hint database [conpy], lemmas on lists shared by the components.
    - [Parser.v]: [src/mariadb/mariadb_parser.c], complete.  [MrdbParser] is the
      struct, [scan] the local variables of [MrdbParser_parse] with [a] and
      [end] as offsets, and the functions [scan_...] are the pieces of the loop
      body in the order of the code; [flow] says how a piece leaves: by falling
      through, [continue], [goto cont], or [return 1].  The body runs under
      fuel [parse_fuel], the length of the statement plus two: every iteration
      advances [a] or shortens the text, and one more may run behind a closing
      quote.  That this is enough is part of C1.
    - [ParserSpec.v]: a reference parser that reads a list and writes another,
      and the simulation between the two.
    - [ParserProps.v]: safety, termination, refinement, the parameter list,
      errors, deallocation.
    - [ParserRoundtrip.v]: statements as lists of segments, rendered in any
      paramstyle and parsed back; [segment_ok] says which texts the segments may
      hold.
    - [Values.v]: Python objects, the column types, the object constructors of
      the [datetime] C API with their range checks.
    - [DateTime.v], [DateTimeProps.v]: lines 89 to 433 of
      [src/mariadb/mariadb_codecs.c]: [Py_str_to_TIME] and what it calls,
      [check_date], [check_time], [mariadb_pydate_to_tm],
      [mariadb_pydelta_to_tm], [Mrdb_GetTimeDelta].
    - [Wire.v]: the byte-order macros of [src/include/mariadb_python.h] and
      their round trips.
    - [Fetch.v], [FetchProps.v]: [field_fetch_fromtext],
      [field_fetch_callback], [mariadb_extended_field_type],
      [ma_convert_value].
    - [Exceptions.v]: [get_exception_type], [mariadb_throw_exception],
      [mariadb_exception_connection_gone], and the classes that
      [PyInit__mariadb] registers with [mariadb_add_exception].
    - [Params.v], [ParamsProps.v]: lines 862 to 1497 of
      [mariadb_codecs.c]: [mariadb_get_column_info], [mariadb_get_parameter],
      [mariadb_get_parameter_info], the checks of [execute] and [executemany],
      [mariadb_param_to_bind] and [mariadb_param_update].  Errors are values of
      [outcome], with the exception class, the message and its arguments.
    - [Client.v]: the world in which connections and cursors run: the structs
      [MrdbConnection], [MrdbParseInfo] and [MrdbCursor] with the fields the code
      uses, the calls of Connector/C as the type [libop], the handles that are
      alive, the interpreter lock, the pending exception, and the macros of
      [mariadb_python.h] that give the lock up and take it back.  A computation
      is a function of the world in the monad [M]; undefined behaviour is
      [Stuck] with its kind.
    - [Connection.v]: [src/mariadb/mariadb_connection.c], every entry point.
    - [Cursor.v]: [src/mariadb/mariadb_cursor.c], every entry point, over
      [Parser], [Fetch] and [Params].
    - [Session.v]: the method, attribute and member tables as the type
      [request], and sequences of requests to one connection and one cursor.
    - [Demo.v]: a concrete library, for the witnesses.
    - [CursorLogic.v]: rules for computations in [M], and the logic of the
      interpreter lock.
    - [SessionSafety.v], [CursorProps.v], [CursorArrays.v], [FetchRows.v]: the
      theorems on sessions, on closing, and on [fetchrows] against [fetchone].
    - [CursorRuns.v]: what functions of [Cursor] do, as equations.
    - [Python.v]: the attributes of the Python objects and the monad in which
      their methods run; a C entry point is called through [c_call], and an
      exception is a value of the result.
    - [PyCursor.v], [PyConnection.v]: the classes of [src/mariadb/cursors.py] and
      [src/mariadb/connections.py].
    - [Package.v]: [src/mariadb/__init__.py], [dbapi20.py] and [field.py]: the
      type objects of the DB API and the values of the columns they stand for,
      the names of types and flags, the constructors of values.
    - [PyApi.v]: applications, as sequences of calls of those methods, and the
      session of [Session] each of them is.
    - [PyRuns.v], [PyCursorProps.v]: equations for the steps of the methods;
      scrolling, and cursors that are closed.
    - [TextStatement.v]: statements of the text protocol, from [Cursor.execute]
      through the parser to the text that is sent.
    - [BinaryStatement.v]: statements of the binary protocol, from
      [Cursor.execute] through the parser and the parameter functions to what is
      handed to the library.
    - [Xa.v], [TpcProps.v]: the XA statements and transactions of the server, and
      the methods for two-phase commit against them.
    - [Pool.v], [PoolProps.v], [PoolHistories.v]: [src/mariadb/connectionpool.py]
      over the interface [Connections], its invariant, and what holds after
      every sequence of calls, with and without assumptions on the connections
      that the application hands over.
    - [PoolConnections.v]: the connections of [PyConnection] as an instance of
      [Connections], and pools over them.
    - [HandleLogic.v], [HandleRuns.v], [HandleRequests.v], [HandleSafety.v]: a
      logic of the handles that are alive, what every entry point does to them,
      and applications with one cursor.  The handles of other cursors are a
      [Guard]: what a method must leave alive.
    - [MultiCursor.v], [MultiCursorProps.v]: applications with any number of
      cursors.  The world has one current cursor, [w_cur]; a method of a cursor
      loads its structure, runs, and stores it.  The methods of [Connection]
      that make a cursor for their own use, [show_warnings] and [tpc_recover],
      are here.
    - [WireVariants.v]: the branches of the byte-order macros for other
      machines.
    - [ModuleInit.v]: [PyInit__mariadb] of [src/mariadb/mariadb.c].

    ** What the theorems show

    - Parser: for every statement and every pattern of failing allocations the
      parser terminates without leaving the statement block (C1), and computes
      what the reference parser computes (C2); in statements whose literals and
      comments close the quotes they contain, markers of the three styles are
      rewritten to question marks and recorded with offsets and names (C3);
      failures have one of two causes, markers of two styles or an allocation,
      and [MrdbParser_end] frees every block once after a successful parse.
    - Parameters: what [execute] and, for integer columns, [executemany] put
      into the bind structures stands for exactly the Python values; accepted
      bulk data can be accessed for every row and column.
    - Fetching: dates, times and integers come back exactly, the same object
      from either protocol; a fetch touches only its own column.
    - Dates and times: every value the server prints parses to its components,
      every result of the parser is in range, time spans survive both ways.
    - Exceptions: what an error number or a message raises
      ([thrown_exception_exact]), and the class hierarchy.
    - Sessions: for every library and every sequence of requests the
      interpreter lock is used correctly ([session_lock_safe]); with a library
      that keeps its contract every request ends ([session_terminates]); the
      arrays of parameters always have as many elements as the statement has
      parameters ([session_arrays_in_range]).
    - Cursors: closing releases the handles and the memory of a cursor and
      nothing else ([cursor_close_releases]); as long as no exception is set
      [fetchrows] gives what repeated [fetchone] gives
      ([fetchrows_is_fetchone]).
    - Applications: every sequence of calls of the Python methods is a session
      ([application_is_session]), so the theorems on sessions hold for it; an
      application with any number of cursors never passes a dead handle to the
      library and never uses the interpreter without its lock, whatever it calls
      and in whatever order ([cursors_handles_alive]).
    - The text protocol: the statement that is sent is the statement of the
      application with each parameter replaced by the literal of its value, for
      the statements of C3 and values that the text protocol carries
      ([execute_text_exact]).
    - The binary protocol: on its first execution the library gets the statement
      with question marks and bind structures that stand for the Python values,
      in order ([execute_binary_exact]).
    - The DB API: the type object a column's type code equals, the type and the
      character set tell the Python type of its values
      ([type_objects_describe_values]).
    - The Python cursor: [scroll] goes to the row it is asked for or raises
      ([scroll_exact]); what each method of a closed cursor raises, but for the
      fetch methods of a buffered cursor with a result set, which do not check
      ([closed_cursor_refuses]).
    - Two-phase commit: the XA statements name the transaction that was asked
      for ([xa_statement_roundtrip]); the methods but [tpc_rollback], the
      attributes of the connection and the transaction on the server stay in
      step for the identifiers a server documents ([tpc_refines_spec]).
    - The pool: a new pool is full ([pool_init_fills]); it holds no more
      connections than its size after every sequence of operations, and each of
      them once when the application only adds connections that belong to no pool
      ([pool_invariant]); a connection is handed out whenever one is free
      ([get_connection_available]) and comes back, or is replaced, when it is
      closed ([checkout_roundtrip]); a pool over the connections modelled here
      has no undefined behaviour ([pool_over_connections]).
    - The byte-order macros for packets agree in all branches, but for one that
      reads a byte too many; those for the byte order of the machine do not
      ([byte_order_branches]).  Initialisation gives a complete module or an
      error ([module_init_complete]).
    - Several theorems and lemmas state defects of the code exactly where they
      occur (for instance a column that contains -1, a negative TINYINT, the
      zero date, a time span above 24855 days); the theorems on correct
      behaviour carry the hypotheses that exclude them.

    ** Library code as parameters

    The allocator is [alloc_ok], an oracle over all requests of the parser.
    [atof], the conversion of a float to a double, [decimal.Decimal], UTF-8
    decoding and [mysql_net_field_length] are section variables of [Fetch.v];
    [IS_NUM], [str] and [PyFloat_AsDouble] of [Params.v].  Theorems that depend
    on them name what they need: [short_lengths] (a length below 251 is one
    byte), [num_types] (which column types [IS_NUM] holds for), [python_ok]
    ([PyFloat_AsDouble] gives the bits of a float object); each has an instance
    in the witnesses.
    Connector/C itself is the class [Client]: a state and an answer to every
    call, with the status reports made during it.  What termination and the
    theorems on cursors rely on is the class [ClientLaws] (a result set or a row
    is delivered at most once), with further hypotheses by name:
    [fetches_succeed] ([mysql_stmt_fetch] returns 0 or [MYSQL_NO_DATA]),
    [reports_fit] (a reported character set name fits the buffer of the
    callback).  The class
    [PyLib] bundles the conversions above.  [Demo] is an instance of all of
    them.  The loops over results and rows run under fuel, the number of pending
    result sets plus one and the number of remaining rows plus one;
    [session_terminates] proves it enough.
    What the Python layer adds: [local_version] and [local_escape] (asking for
    the version of the server and escaping a string are answered by the library
    without status reports) for text statements, [quiet_statements] (making a
    statement handle and setting its attributes succeed without reports) for
    binary ones, the class [XaServer] (the server runs XA
    statements with documented identifiers by the automaton of [Xa]) for
    two-phase commit, the class
    [Connections] with [Defined_steps] and [healthy] for the pool (discharged
    in [PoolConnections.v] for libraries with [reports_fit] and
    [status_is_number], the server status is a number), and
    [import_env] for the answers of the interpreter during initialisation.

    ** Not modelled

    Reference counts; failing allocations of the interpreter's own objects; the
    doc-string headers; the constants modules without
    behaviour and the re-exports of the package; [clock_gettime] for Windows.
    The interpreter's parsing of keyword arguments is its result, a callable of
    the application is one use of the interpreter, a socket object is its
    descriptor.  [MrdbCursor_parse] reads the version of an open connection
    before it parses, where the code asks at each versioned comment.  The methods
    of a pool are atomic, as under its lock.  One connection is considered at a time, or the connections of
    one pool; cursors of other classes than [Cursor] are not.

    What is left of the plan: several pools side by side. *)

From stdpp Require Export base list strings numbers option.
From Stdlib Require Export ZArith Lia.

#[global] Open Scope Z_scope.

(** ** Machine integers

    C integers are [Z]; every conversion to a narrower or unsigned type is one
    of the functions below, so wrap-around is visible at the place where the
    source performs the conversion. *)

Definition u8 (z : Z) : Z := z mod 2 ^ 8.
Definition u16 (z : Z) : Z := z mod 2 ^ 16.
Definition u32 (z : Z) : Z := z mod 2 ^ 32.
Definition u64 (z : Z) : Z := z mod 2 ^ 64.
Definition s8 (z : Z) : Z := (z + 2 ^ 7) mod 2 ^ 8 - 2 ^ 7.
Definition s16 (z : Z) : Z := (z + 2 ^ 15) mod 2 ^ 16 - 2 ^ 15.
Definition s32 (z : Z) : Z := (z + 2 ^ 31) mod 2 ^ 32 - 2 ^ 31.
Definition s64 (z : Z) : Z := (z + 2 ^ 63) mod 2 ^ 64 - 2 ^ 63.

Definition ULLONG_MAX : Z := 2 ^ 64 - 1.
Definition UINT_MAX : Z := 2 ^ 32 - 1.
Definition LONG_MAX : Z := 2 ^ 63 - 1.
Definition LONG_MIN : Z := - 2 ^ 63.

(** A C [int] expression: [None] when the exact result does not fit, which C
    leaves undefined. *)
Definition c_int (z : Z) : option Z :=
  if (- 2 ^ 31 <=? z) && (z <? 2 ^ 31) then Some z else None.

(** ** Bytes and characters

    A byte is its unsigned value, 0 to 255.  The comparisons the sources make
    on [char] only single out ASCII characters, so the signedness of [char]
    does not show. *)

Definition is_byte (c : Z) : bool := (0 <=? c) && (c <=? 255).

Definition bytes_of_string (s : string) : list Z :=
  (λ c, Z.of_N (Ascii.N_of_ascii c)) <$> String.list_ascii_of_string s.

(** The [<ctype.h>] functions in the C locale. *)
Definition isspace (c : Z) : bool := (c =? 32) || ((9 <=? c) && (c <=? 13)).
Definition isdigit (c : Z) : bool := (48 <=? c) && (c <=? 57).
Definition toupper (c : Z) : Z := if (97 <=? c) && (c <=? 122) then c - 32 else c.

(** ** Memory blocks and C strings

    An allocation is the list of its bytes; a pointer into it is an offset.
    [None] is an access outside the block. *)

Definition rd (buf : list Z) (i : Z) : option Z :=
  if 0 <=? i then buf !! Z.to_nat i else None.

Definition wr (buf : list Z) (i v : Z) : option (list Z) :=
  if (0 <=? i) && (i <? Z.of_nat (length buf))
  then Some (<[Z.to_nat i := v]> buf) else None.

(** [memmove(buf + dst, buf + src, n)]: both ranges must lie in the block. *)
Definition memmove (buf : list Z) (dst src n : Z) : option (list Z) :=
  let len := Z.of_nat (length buf) in
  if (0 <=? n) && (0 <=? dst) && (0 <=? src) && (dst + n <=? len) && (src + n <=? len)
  then Some (take (Z.to_nat dst) buf ++ take (Z.to_nat n) (drop (Z.to_nat src) buf)
             ++ drop (Z.to_nat (dst + n)) buf)
  else None.

(** [memcpy] of [n] bytes out of the block. *)
Definition memcpy_from (buf : list Z) (src n : Z) : option (list Z) :=
  if (0 <=? n) && (0 <=? src) && (src + n <=? Z.of_nat (length buf))
  then Some (take (Z.to_nat n) (drop (Z.to_nat src) buf)) else None.

(** The bytes before the first NUL, when there is one. *)
Fixpoint until_nul (l : list Z) : option (list Z) :=
  match l with
  | [] => None
  | c :: l' => if c =? 0 then Some [] else cons c <$> until_nul l'
  end.

Fixpoint before_nul (l : list Z) : list Z :=
  match l with
  | [] => []
  | c :: l' => if c =? 0 then [] else c :: before_nul l'
  end.

(** The NUL-terminated string that starts at offset [i]; [None] when a scan
    for its terminator leaves the block. *)
Definition cstr (buf : list Z) (i : Z) : option (list Z) :=
  if 0 <=? i then until_nul (drop (Z.to_nat i) buf) else None.

(** [strtol(s, &end, 10)] on the C string [s]: the value, saturated to [long],
    and the number of bytes consumed (0 when there is no digit). *)
Fixpoint skip_space (s : list Z) : nat :=
  match s with
  | c :: s' => if isspace c then S (skip_space s') else O
  | [] => O
  end.

Fixpoint digits_prefix (s : list Z) : list Z :=
  match s with
  | c :: s' => if isdigit c then c :: digits_prefix s' else []
  | [] => []
  end.

Definition dec_value (ds : list Z) : Z := fold_left (λ acc c, acc * 10 + (c - 48)) ds 0.

Definition strtol (s : list Z) : Z * nat :=
  let ws := skip_space s in
  let s1 := drop ws s in
  let neg := match s1 with c :: _ => c =? 45 | [] => false end in
  let signed := match s1 with c :: _ => (c =? 45) || (c =? 43) | [] => false end in
  let s2 := if signed then drop 1 s1 else s1 in
  let ds := digits_prefix s2 in
  match ds with
  | [] => (0, O)
  | _ => let v := dec_value ds in
         (Z.max LONG_MIN (Z.min LONG_MAX (if neg then - v else v)),
          (ws + (if signed then 1 else 0) + length ds)%nat)
  end.

(** [strstr(s, ")s")]: offset of the first occurrence of the two bytes. *)
Fixpoint strstr2 (c0 c1 : Z) (s : list Z) : option nat :=
  match s with
  | x :: ((y :: _) as s') =>
      if (x =? c0) && (y =? c1) then Some O else S <$> strstr2 c0 c1 s'
  | _ => None
  end.

(** ** Lemmas on blocks and C strings *)

Create HintDb conpy.

Lemma rd_app (pre suf : list Z) (k : nat) :
  rd (pre ++ suf) (Z.of_nat (length pre) + Z.of_nat k) = suf !! k.
Proof.
  unfold rd. rewrite (proj2 (Z.leb_le _ _)) by lia.
  rewrite <- Nat2Z.inj_add, Nat2Z.id, lookup_app_r by lia. f_equal; lia.
Qed.

Lemma lookup_nul_terminated (rest junk : list Z) (k : nat) :
  (k <= length rest)%nat -> (rest ++ 0 :: junk) !! k = Some (nth k rest 0).
Proof.
  intros Hk. destruct (decide (k = length rest)) as [->|Hne].
  - rewrite lookup_app_r, Nat.sub_diag, nth_overflow by lia. done.
  - rewrite lookup_app_l by lia. rewrite nth_lookup.
    destruct (lookup_lt_is_Some_2 rest k) as [x ->]; [lia|done].
Qed.

Lemma until_nul_terminated (l junk : list Z) :
  until_nul (l ++ 0 :: junk) = Some (before_nul l).
Proof. induction l as [|c l IH]; simpl; [done|]. rewrite IH. by destruct (c =? 0). Qed.

Lemma cstr_app (pre l junk : list Z) (k : nat) :
  (k <= length l)%nat ->
  cstr (pre ++ l ++ 0 :: junk) (Z.of_nat (length pre) + Z.of_nat k) = Some (before_nul (drop k l)).
Proof.
  intros Hk. unfold cstr. rewrite (proj2 (Z.leb_le _ _)) by lia.
  rewrite <- Nat2Z.inj_add, Nat2Z.id, drop_app_add', drop_app_le by lia.
  apply until_nul_terminated.
Qed.

Lemma wr_middle (pre suf : list Z) (c v : Z) :
  wr (pre ++ c :: suf) (Z.of_nat (length pre)) v = Some (pre ++ v :: suf).
Proof.
  unfold wr. rewrite length_app. simpl.
  rewrite (proj2 (Z.leb_le _ _)), (proj2 (Z.ltb_lt _ _)) by lia. simpl.
  by rewrite Nat2Z.id, insert_app_r_alt, Nat.sub_diag by lia.
Qed.

(** Moving [mov] down over [mid]. *)
Lemma memmove_down (pre mid mov post : list Z) (dst src n : Z) :
  dst = Z.of_nat (length pre) ->
  src = Z.of_nat (length pre + length mid) ->
  n = Z.of_nat (length mov) ->
  memmove (pre ++ mid ++ mov ++ post) dst src n =
  Some (pre ++ mov ++ drop (length mov) (mid ++ mov ++ post)).
Proof.
  intros -> -> ->. unfold memmove. rewrite !length_app.
  repeat first [rewrite (proj2 (Z.leb_le _ _)) by lia | simpl].
  rewrite !Nat2Z.id, take_app_length. f_equal. f_equal.
  rewrite (app_assoc pre mid), drop_app_length' by (rewrite length_app; lia).
  rewrite take_app_length. f_equal.
  rewrite <- app_assoc, drop_app_ge by lia. f_equal. lia.
Qed.

Lemma memcpy_from_middle (pre key suf : list Z) (src n : Z) :
  src = Z.of_nat (length pre) -> n = Z.of_nat (length key) ->
  memcpy_from (pre ++ key ++ suf) src n = Some key.
Proof.
  intros -> ->. unfold memcpy_from. rewrite !length_app.
  rewrite !(proj2 (Z.leb_le _ _)) by lia. simpl.
  by rewrite !Nat2Z.id, drop_app_length, take_app_length.
Qed.

Lemma digits_prefix_before_nul (l : list Z) :
  digits_prefix (before_nul l) = digits_prefix l.
Proof.
  induction l as [|c l IH]; simpl; [done|].
  destruct (Z.eqb_spec c 0) as [->|]; [done|]. simpl. by rewrite IH.
Qed.

Lemma digits_prefix_length (l : list Z) : (length (digits_prefix l) <= length l)%nat.
Proof. induction l as [|c l IH]; simpl; [lia|]. destruct (isdigit c); simpl; lia. Qed.

Lemma digits_prefix_digits (l : list Z) : Forall (λ c, isdigit c = true) (digits_prefix l).
Proof. induction l as [|c l IH]; simpl; [done|]. destruct (isdigit c) eqn:?; by constructor. Qed.

Lemma dec_value_acc (ds : list Z) (acc : Z) :
  Forall (λ c, isdigit c = true) ds -> 0 <= acc ->
  0 <= fold_left (λ acc c, acc * 10 + (c - 48)) ds acc.
Proof.
  intros Hds. revert acc. induction Hds as [|c ds Hc _ IH]; intros acc Hacc; simpl; [done|].
  apply IH. unfold isdigit in Hc. lia.
Qed.

Lemma dec_value_nonneg (ds : list Z) :
  Forall (λ c, isdigit c = true) ds -> 0 <= dec_value ds.
Proof. intros. by apply dec_value_acc. Qed.

(** [strtol] on a string that starts with a digit. *)
Lemma strtol_digits (l : list Z) :
  isdigit (nth 0 l 0) = true ->
  strtol (before_nul l) =
  (Z.min LONG_MAX (dec_value (digits_prefix l)), length (digits_prefix l)).
Proof.
  intros Hd. destruct l as [|c l]; [done|]. simpl in Hd.
  assert (Hc : (c =? 0) = false) by (unfold isdigit in Hd; lia).
  assert (Hs : isspace c = false) by (unfold isdigit, isspace in *; lia).
  assert (Hm : (c =? 45) = false) by (unfold isdigit in Hd; lia).
  assert (Hp : (c =? 43) = false) by (unfold isdigit in Hd; lia).
  unfold strtol. simpl. rewrite Hc. simpl. rewrite Hs. simpl. rewrite Hm, Hp. simpl.
  rewrite Hd. simpl. rewrite digits_prefix_before_nul.
  assert (0 <= dec_value (c :: digits_prefix l)).
  { apply dec_value_nonneg. constructor; [done|]. apply digits_prefix_digits. }
  unfold LONG_MIN, LONG_MAX. f_equal; lia.
Qed.

Lemma before_nul_prefix (l : list Z) : ∃ t, l = before_nul l ++ t.
Proof.
  induction l as [|c l [t IH]]; simpl; [by exists []|].
  destruct (c =? 0); [by eexists|]. exists t. simpl. by rewrite IH at 1.
Qed.

Lemma before_nul_no_nul (l : list Z) : Forall (λ c, c ≠ 0) (before_nul l).
Proof.
  induction l as [|c l IH]; simpl; [done|]. destruct (Z.eqb_spec c 0); by constructor.
Qed.

Lemma before_nul_id (l : list Z) : Forall (λ c, c ≠ 0) l -> before_nul l = l.
Proof.
  induction 1 as [|c l Hc _ IH]; simpl; [done|].
  destruct (Z.eqb_spec c 0); [done|]. by rewrite IH.
Qed.

(** An occurrence found by [strstr2] splits the string. *)
Lemma strstr2_split (c0 c1 : Z) (l : list Z) (d : nat) :
  strstr2 c0 c1 l = Some d -> ∃ t, l = take d l ++ c0 :: c1 :: t ∧ (d + 1 < length l)%nat.
Proof.
  revert d. induction l as [|x [|y l] IH]; intros d; simpl; try discriminate.
  destruct ((x =? c0) && (y =? c1)) eqn:E.
  - intros [= <-]. exists l. apply andb_prop in E as [->%Z.eqb_eq ->%Z.eqb_eq].
    split; [done|simpl; lia].
  - intros H. apply fmap_Some in H as (d' & Hd & ->).
    destruct (IH d' Hd) as (t & Ht & Hl). exists t. simpl in *. split; [|lia].
    by rewrite Ht at 1.
Qed.

(** Nothing before a two-byte pattern, itself free of its first byte, hides an
    earlier occurrence. *)
Lemma strstr2_first (c0 c1 : Z) (k t : list Z) :
  Forall (λ c, c ≠ c0) k -> strstr2 c0 c1 (k ++ c0 :: c1 :: t) = Some (length k).
Proof.
  induction 1 as [|x k Hx _ IH].
  - simpl. by rewrite !Z.eqb_refl.
  - simpl app. simpl length. destruct (k ++ c0 :: c1 :: t) as [|y l] eqn:E.
    { by destruct k. }
    simpl in IH |- *. rewrite (proj2 (Z.eqb_neq x c0)) by done. simpl andb.
    cbv iota. by rewrite IH.
Qed.

(** Takes a chain of option binds apart. *)
Ltac unbind :=
  repeat match goal with
  | H : (?o ≫= _) = Some _ |- _ =>
      let x := fresh "x" in let E := fresh "E" in
      destruct o as [x|] eqn:E; [|discriminate H]; cbn [mbind option_bind] in H
  | H : (let '(_, _) := ?p in _) = Some _ |- _ => destruct p
  | H : match ?p with (_, _) => _ end = Some _ |- _ => destruct p
  | H : Some _ = Some _ |- _ => injection H as <-
  end.
