(* ===== verification/Parser.v ===== *)
(** * The SQL statement parser ([src/mariadb/mariadb_parser.c])

    The parser scans a private copy of the statement once, tracks string
    literals and comments, finds the parameter markers of the three
    paramstyles, rewrites [%s], [%d] and [%(name)s] to [?] in place, and
    classifies the statement.  This file holds the model of the C code: the
    statement lives in one block of [length + 1] bytes, [a], [end] and
    [value_ofs] are offsets into it, and every read, write and [memmove] is
    checked against the block.  The reference parser it is proved equal to is
    in [ParserSpec]. *)

From S2P Require Import Prelude.

(** ** Data types of [src/include/mariadb_python.h] *)

Inductive enum_binary_command :=
  | SQL_NONE | SQL_INSERT | SQL_UPDATE | SQL_REPLACE | SQL_DELETE
  | SQL_CALL | SQL_DO | SQL_SELECT | SQL_OTHER.

Inductive enum_paramstyle := NONE | QMARK | FORMAT | PYFORMAT.

#[export] Instance enum_binary_command_eq_dec : EqDecision enum_binary_command.
Proof. solve_decision. Defined.
#[export] Instance enum_paramstyle_eq_dec : EqDecision enum_paramstyle.
Proof. solve_decision. Defined.

(** The numbers the Python layer sees ([cursor._command], [cursor._paramstyle]). *)
Definition binary_command_value (c : enum_binary_command) : Z :=
  match c with
  | SQL_NONE => 0 | SQL_INSERT => 1 | SQL_UPDATE => 2 | SQL_REPLACE => 3
  | SQL_DELETE => 4 | SQL_CALL => 5 | SQL_DO => 6 | SQL_SELECT => 7
  | SQL_OTHER => 255
  end.

Definition paramstyle_value (s : enum_paramstyle) : Z :=
  match s with NONE => 0 | QMARK => 1 | FORMAT => 2 | PYFORMAT => 3 end.

(** An element of [p->keys], a [MrdbString]: [str] is [None] for a null
    pointer, otherwise the block it points to, terminator included. *)
Record MrdbKey := mkKey { key_str : option (list Z); key_length : Z }.

(** [struct st_parser].  [statement.str] is the whole allocated block,
    [value_ofs] an offset into it; [keys] is [None] while the pointer is null;
    [mysql] is what [mysql_get_server_version] answers for the connection, and
    [asked] says whether it was called, which a null [mysql] does not allow. *)
Record MrdbParser := mkParser {
  statement_str : list Z;
  statement_length : Z;
  keys : option (list MrdbKey);
  in_literal : list bool;
  in_comment : bool;
  in_values : bool;
  is_insert : bool;
  comment_eol : bool;
  param_count : Z;
  key_count : Z;
  value_ofs : option Z;
  param_list : list Z;
  paramstyle : enum_paramstyle;
  command : enum_binary_command;
  mysql : Z;
  asked : bool;
}.

Definition set_statement_str (v : list Z) (p : MrdbParser) : MrdbParser :=
  mkParser v (statement_length p) (keys p) (in_literal p) (in_comment p) (in_values p) (is_insert p) (comment_eol p) (param_count p) (key_count p) (value_ofs p) (param_list p) (paramstyle p) (command p) (mysql p) (asked p).
Definition set_statement_length (v : Z) (p : MrdbParser) : MrdbParser :=
  mkParser (statement_str p) v (keys p) (in_literal p) (in_comment p) (in_values p) (is_insert p) (comment_eol p) (param_count p) (key_count p) (value_ofs p) (param_list p) (paramstyle p) (command p) (mysql p) (asked p).
Definition set_keys (v : option (list MrdbKey)) (p : MrdbParser) : MrdbParser :=
  mkParser (statement_str p) (statement_length p) v (in_literal p) (in_comment p) (in_values p) (is_insert p) (comment_eol p) (param_count p) (key_count p) (value_ofs p) (param_list p) (paramstyle p) (command p) (mysql p) (asked p).
Definition set_in_literal (v : list bool) (p : MrdbParser) : MrdbParser :=
  mkParser (statement_str p) (statement_length p) (keys p) v (in_comment p) (in_values p) (is_insert p) (comment_eol p) (param_count p) (key_count p) (value_ofs p) (param_list p) (paramstyle p) (command p) (mysql p) (asked p).
Definition set_in_comment (v : bool) (p : MrdbParser) : MrdbParser :=
  mkParser (statement_str p) (statement_length p) (keys p) (in_literal p) v (in_values p) (is_insert p) (comment_eol p) (param_count p) (key_count p) (value_ofs p) (param_list p) (paramstyle p) (command p) (mysql p) (asked p).
Definition set_in_values (v : bool) (p : MrdbParser) : MrdbParser :=
  mkParser (statement_str p) (statement_length p) (keys p) (in_literal p) (in_comment p) v (is_insert p) (comment_eol p) (param_count p) (key_count p) (value_ofs p) (param_list p) (paramstyle p) (command p) (mysql p) (asked p).
Definition set_is_insert (v : bool) (p : MrdbParser) : MrdbParser :=
  mkParser (statement_str p) (statement_length p) (keys p) (in_literal p) (in_comment p) (in_values p) v (comment_eol p) (param_count p) (key_count p) (value_ofs p) (param_list p) (paramstyle p) (command p) (mysql p) (asked p).
Definition set_comment_eol (v : bool) (p : MrdbParser) : MrdbParser :=
  mkParser (statement_str p) (statement_length p) (keys p) (in_literal p) (in_comment p) (in_values p) (is_insert p) v (param_count p) (key_count p) (value_ofs p) (param_list p) (paramstyle p) (command p) (mysql p) (asked p).
Definition set_param_count (v : Z) (p : MrdbParser) : MrdbParser :=
  mkParser (statement_str p) (statement_length p) (keys p) (in_literal p) (in_comment p) (in_values p) (is_insert p) (comment_eol p) v (key_count p) (value_ofs p) (param_list p) (paramstyle p) (command p) (mysql p) (asked p).
Definition set_key_count (v : Z) (p : MrdbParser) : MrdbParser :=
  mkParser (statement_str p) (statement_length p) (keys p) (in_literal p) (in_comment p) (in_values p) (is_insert p) (comment_eol p) (param_count p) v (value_ofs p) (param_list p) (paramstyle p) (command p) (mysql p) (asked p).
Definition set_value_ofs (v : option Z) (p : MrdbParser) : MrdbParser :=
  mkParser (statement_str p) (statement_length p) (keys p) (in_literal p) (in_comment p) (in_values p) (is_insert p) (comment_eol p) (param_count p) (key_count p) v (param_list p) (paramstyle p) (command p) (mysql p) (asked p).
Definition set_param_list (v : list Z) (p : MrdbParser) : MrdbParser :=
  mkParser (statement_str p) (statement_length p) (keys p) (in_literal p) (in_comment p) (in_values p) (is_insert p) (comment_eol p) (param_count p) (key_count p) (value_ofs p) v (paramstyle p) (command p) (mysql p) (asked p).
Definition set_paramstyle (v : enum_paramstyle) (p : MrdbParser) : MrdbParser :=
  mkParser (statement_str p) (statement_length p) (keys p) (in_literal p) (in_comment p) (in_values p) (is_insert p) (comment_eol p) (param_count p) (key_count p) (value_ofs p) (param_list p) v (command p) (mysql p) (asked p).
Definition set_command (v : enum_binary_command) (p : MrdbParser) : MrdbParser :=
  mkParser (statement_str p) (statement_length p) (keys p) (in_literal p) (in_comment p) (in_values p) (is_insert p) (comment_eol p) (param_count p) (key_count p) (value_ofs p) (param_list p) (paramstyle p) v (mysql p) (asked p).
Definition set_mysql (v : Z) (p : MrdbParser) : MrdbParser :=
  mkParser (statement_str p) (statement_length p) (keys p) (in_literal p) (in_comment p) (in_values p) (is_insert p) (comment_eol p) (param_count p) (key_count p) (value_ofs p) (param_list p) (paramstyle p) (command p) v (asked p).
Definition set_asked (v : bool) (p : MrdbParser) : MrdbParser :=
  mkParser (statement_str p) (statement_length p) (keys p) (in_literal p) (in_comment p) (in_values p) (is_insert p) (comment_eol p) (param_count p) (key_count p) (value_ofs p) (param_list p) (paramstyle p) (command p) (mysql p) v.

(** ** Locals of the scan and its control flow *)

(** The local variables of [MrdbParser_parse]: the parser, the scan pointer
    [a], the pointer [end] to the last byte, and [lastchar]. *)
Record scan := mkScan { sp : MrdbParser; sa : Z; send : Z; slast : Z }.

(** What a piece of the loop body does: fall through to the code below it,
    [continue] (back to the loop test), [goto cont] (past the loop test),
    [return 1] with a message, or access memory outside the block. *)
Inductive flow (S : Type) :=
  | Fall (s : S)
  | Next (s : S)
  | Cont (s : S)
  | Return1 (s : S) (msg : string)
  | Undef.
Arguments Fall {S} s.
Arguments Next {S} s.
Arguments Cont {S} s.
Arguments Return1 {S} s msg.
Arguments Undef {S}.

Definition fbind {S : Type} (f : flow S) (k : S -> flow S) : flow S :=
  match f with Fall s => k s | _ => f end.

Definition fopt {A S : Type} (o : option A) (k : A -> flow S) : flow S :=
  match o with Some x => k x | None => Undef end.

Declare Scope flow_scope.
Delimit Scope flow_scope with flow.
Notation "f >>> k" := (fbind f k) (at level 52, left associativity) : flow_scope.
Notation "x <~ o ;; k" := (fopt o (λ x, k)) (at level 100, o at next level, right associativity) : flow_scope.
#[global] Open Scope flow_scope.

(** [*i], a read of the statement block. *)
Definition at_ (p : MrdbParser) (i : Z) : option Z := rd (statement_str p) i.

(** [*i == c0 && *(i + 1) == c1], the second read only after the first test. *)
Definition at2 (p : MrdbParser) (i c0 c1 : Z) : option bool :=
  match at_ p i with
  | Some x => if x =? c0 then (λ y, y =? c1) <$> at_ p (i + 1) else Some false
  | None => None
  end.

(** [IS_WHITESPACE] and [IN_LITERAL]. *)
Definition IS_WHITESPACE (c : Z) : bool := (c =? 32) || (c =? 9) || (c =? 10) || (c =? 13).

Definition IN_LITERAL (p : MrdbParser) : bool := existsb id (in_literal p).

(** The three quote characters: single quote, double quote and backtick. *)
Definition literals : list Z := [39; 34; 96].

Definition binary_command : list (enum_binary_command * list Z) :=
  [(SQL_INSERT, bytes_of_string "INSERT"); (SQL_UPDATE, bytes_of_string "UPDATE");
   (SQL_REPLACE, bytes_of_string "REPLACE"); (SQL_DELETE, bytes_of_string "DELETE");
   (SQL_CALL, bytes_of_string "CALL"); (SQL_DO, bytes_of_string "DO")].

(** The loop of [check_keyword]: compare the upper-cased bytes with the keyword,
    stopping at the first difference. *)
Fixpoint match_upper (p : MrdbParser) (ofs : Z) (kw : list Z) : option bool :=
  match kw with
  | [] => Some true
  | k :: kw' =>
      match at_ p ofs with
      | Some c => if toupper c =? k then match_upper p (ofs + 1) kw' else Some false
      | None => None
      end
  end.

(** [check_keyword]: the subtraction is converted to [size_t], so a negative
    difference is a huge length. *)
Definition check_keyword (p : MrdbParser) (ofs end_ : Z) (kw : list Z) : option bool :=
  let keylen := Z.of_nat (length kw) in
  if u64 (end_ - ofs) <? keylen + 1 then Some false
  else match match_upper p ofs kw with
       | Some true => IS_WHITESPACE <$> at_ p (ofs + keylen)
       | r => r
       end.

(** [parser_error]: [strncpy] of at most [errmsg_len - 1] bytes. *)
Definition parser_error (errmsg_len : nat) (errstr : string) : string :=
  match errmsg_len with
  | O => EmptyString
  | S n => String.substring 0 n errstr
  end.

(** ** The loop body, in the order of the code *)

Fixpoint literal_index (c : Z) (ls : list Z) : option nat :=
  match ls with
  | [] => None
  | l :: ls' => if c =? l then Some O else S <$> literal_index c ls'
  end.

(** The [for] loop over [literals]: a quote toggles its flag wherever it
    stands. *)
Definition scan_literals (s : scan) : flow scan :=
  c <~ at_ (sp s) (sa s) ;;
  match literal_index c literals with
  | Some i =>
      Cont (mkScan (set_in_literal (alter negb i (in_literal (sp s))) (sp s))
              (sa s + 1) (send s) (slast s))
  | None => Fall s
  end.

Definition scan_in_literal (s : scan) : flow scan :=
  if IN_LITERAL (sp s) then Next (mkScan (sp s) (sa s + 1) (send s) (slast s)) else Fall s.

(** An executable comment with a version number at offset [i]: the digits are
    skipped and the comment is entered when [skipped version] holds; [asks
    version] says whether that depends on the server. *)
Definition enter_version (asks skipped : Z -> bool) (version_number : Z) (p : MrdbParser) : MrdbParser :=
  set_asked (asked p || asks version_number)
    (if skipped version_number then set_in_comment true p else p).

Definition scan_version (asks skipped : Z -> bool) (i : Z) (s : scan) : flow scan :=
  str <~ cstr (statement_str (sp s)) i ;;
  let '(v, n) := strtol str in
  Next (mkScan (enter_version asks skipped (u64 v) (sp s)) (i + Z.of_nat n) (send s) (slast s)).

(** The versions of MySQL whose comments are skipped by every server. *)
Definition mysql_only (v : Z) : bool := (50700 <=? v) && (v <=? 99999).

(** [/*!]: followed by a space, or by a version number. *)
Definition scan_bang (s : scan) : flow scan :=
  let a := sa s in
  if a + 1 <? send s then
    c <~ at_ (sp s) a ;;
    if c =? 33 then
      c1 <~ at_ (sp s) (a + 1) ;;
      if isspace c1 then Next (mkScan (sp s) (a + 2) (send s) (slast s))
      else if (a + 7 <? send s) && isdigit c1 then
        scan_version (λ v, negb (mysql_only v)) (λ v, mysql_only v || negb (v <=? mysql (sp s)))
          (a + 1) s
      else Fall s
    else Fall s
  else Fall s.

(** [/*M!]: the MariaDB form. *)
Definition scan_mbang (s : scan) : flow scan :=
  if sa s + 2 <? send s then
    m <~ at2 (sp s) (sa s) 77 33 ;;
    if m then
      let s := mkScan (sp s) (sa s + 2) (send s) (slast s) in
      let a := sa s in
      c <~ at_ (sp s) a ;;
      if isspace c then Next s
      else if (a + 6 <? send s) && isdigit c then
        scan_version (λ _, true) (λ v, negb (v <=? mysql (sp s))) a s
      else Fall s
    else Fall s
  else Fall s.

(** Comment style 1, [/*], entered outside a comment. *)
Definition scan_style1 (s : scan) : flow scan :=
  m <~ at2 (sp s) (sa s) 47 42 ;;
  if m then
    scan_bang (mkScan (sp s) (sa s + 2) (send s) (slast s))
    >>> scan_mbang
    >>> (λ s, Next (mkScan (set_in_comment true (sp s)) (sa s) (send s) (slast s)))
  else Fall s.

(** Comment style 2, [#]. *)
Definition scan_style2 (s : scan) : flow scan :=
  c <~ at_ (sp s) (sa s) ;;
  if c =? 35
  then Fall (mkScan (set_comment_eol true (sp s)) (sa s + 1) (send s) (slast s))
  else Fall s.

(** Comment style 3, two dashes and a space. *)
Definition scan_style3 (s : scan) : flow scan :=
  m <~ at2 (sp s) (sa s) 45 45 ;;
  if m then
    if sa s + 2 <? send s then
      c <~ at_ (sp s) (sa s + 2) ;;
      if c =? 32
      then Fall (mkScan (set_comment_eol true (sp s)) (sa s + 3) (send s) (slast s))
      else Fall s
    else Fall s
  else Fall s.

(** Inside a comment: look for its end. *)
Definition scan_comment_end (s : scan) : flow scan :=
  m <~ at2 (sp s) (sa s) 42 47 ;;
  if m
  then Next (mkScan (set_in_comment false (sp s)) (sa s + 2) (send s) (slast s))
  else Next (mkScan (sp s) (sa s + 1) (send s) (slast s)).

Definition scan_comments (s : scan) : flow scan :=
  if in_comment (sp s) then scan_comment_end s
  else scan_style1 s >>> scan_style2 >>> scan_style3.

(** Inside a comment that ends with the line. *)
Definition scan_eol (s : scan) : flow scan :=
  if comment_eol (sp s) then
    c <~ at_ (sp s) (sa s) ;;
    if (c =? 0) || (c =? 10)
    then Next (mkScan (set_comment_eol false (sp s)) (sa s + 1) (send s) (slast s))
    else Next (mkScan (sp s) (sa s + 1) (send s) (slast s))
  else Fall s.

Definition mixing_msg : string := "Mixing different parameter styles is not supported".
Definition memory_msg : string := "Not enough memory".

(** [p->paramstyle && p->paramstyle != st]. *)
Definition mixed_style (p : MrdbParser) (st : enum_paramstyle) : bool :=
  bool_decide (paramstyle p ≠ NONE) && bool_decide (paramstyle p ≠ st).

(** [p->param_count++] and the append of the marker's offset. *)
Definition add_param (st : enum_paramstyle) (a : Z) (p : MrdbParser) : MrdbParser :=
  set_param_list (param_list p ++ [a])
    (set_param_count (u32 (param_count p + 1)) (set_paramstyle st p)).

(** The marker [?]. *)
Definition scan_qmark (s : scan) : flow scan :=
  c <~ at_ (sp s) (sa s) ;;
  if c =? 63 then
    if mixed_style (sp s) QMARK then Return1 s mixing_msg
    else Next (mkScan (add_param QMARK (sa s) (sp s)) (sa s + 1) (send s) (slast s))
  else Fall s.

(** The markers [%s] and [%d]: the byte becomes [?] and the rest of the block
    moves down by one. *)
Definition scan_format (s : scan) : flow scan :=
  let a := sa s in
  c1 <~ at_ (sp s) (a + 1) ;;
  if (c1 =? 115) || (c1 =? 100) then
    if mixed_style (sp s) FORMAT then Return1 s mixing_msg
    else
      buf <~ wr (statement_str (sp s)) a 63 ;;
      buf <~ memmove buf (a + 1) (a + 2) (send s - a) ;;
      Next (mkScan (add_param FORMAT a (set_statement_str buf (sp s)))
              (a + 1) (send s - 1) (slast s))
  else Fall s.

(** The allocations of the [%(name)s] branch. *)
Inductive alloc_site := KeysRealloc | KeysMalloc | KeyCalloc.

Section WithAllocator.

(** Whether an allocation request made for the [n]-th marker succeeds. *)
Context (alloc_ok : alloc_site -> Z -> bool).

(** Growing [p->keys] by one uninitialised element. *)
Definition grow_keys (p : MrdbParser) : option (list MrdbKey) :=
  match keys p with
  | Some ks => if alloc_ok KeysRealloc (param_count p) then Some ks else None
  | None => if alloc_ok KeysMalloc (param_count p) then Some [] else None
  end.

(** The marker [%(name)s]: the name goes to [p->keys], the marker becomes
    [?]. *)
Definition scan_pyformat (s : scan) : flow scan :=
  let a := sa s in
  c1 <~ at_ (sp s) (a + 1) ;;
  if c1 =? 40 then
    str <~ cstr (statement_str (sp s)) (a + 1) ;;
    match strstr2 41 115 str with
    | Some d =>
        let val_end := a + 1 + Z.of_nat d in
        let keylen := val_end - a + 1 in
        if mixed_style (sp s) PYFORMAT then Return1 s mixing_msg
        else
          buf <~ wr (statement_str (sp s)) a 63 ;;
          let p := add_param PYFORMAT a (set_statement_str buf (sp s)) in
          match grow_keys p with
          | None => Return1 (mkScan p a (send s) (slast s)) memory_msg
          | Some ks =>
              if alloc_ok KeyCalloc (param_count p) then
                key <~ memcpy_from buf (a + 2) (keylen - 3) ;;
                let p := set_keys (Some (ks ++ [mkKey (Some (key ++ [0])) (keylen - 3)])) p in
                buf <~ memmove buf (a + 1) (val_end + 2) (send s - a - keylen + 1) ;;
                Next (mkScan (set_statement_str buf p) (a + 1) (send s - keylen) (slast s))
              else
                Return1 (mkScan (set_keys (Some (ks ++ [mkKey None 0])) p) a (send s) (slast s))
                  memory_msg
          end
    | None => Fall s
    end
  else Fall s.

(** The [%] markers, unless the previous byte of code was a backslash. *)
Definition scan_percent (s : scan) : flow scan :=
  c <~ at_ (sp s) (sa s) ;;
  if (c =? 37) && negb (slast s =? 92)
  then scan_format s >>> scan_pyformat
  else Fall s.

(** Batch mode: find [INSERT] and the offset behind [VALUES]. *)
Definition scan_batch (s : scan) : flow scan :=
  ins <~ (if is_insert (sp s) then Some false
          else check_keyword (sp s) (sa s) (send s) (bytes_of_string "INSERT")) ;;
  let s :=
    if ins && ((slast s =? 0) || IS_WHITESPACE (slast s) || (slast s =? 47))
    then mkScan (set_is_insert true (sp s)) (sa s + 7) (send s) (slast s)
    else s in
  val <~ (if is_insert (sp s)
          then check_keyword (sp s) (sa s) (send s) (bytes_of_string "VALUES")
          else Some false) ;;
  if val
  then Next (mkScan (set_value_ofs (Some (sa s + 7)) (sp s)) (sa s + 7) (send s) (slast s))
  else Fall s.

(** The first entry of [binary_command] that stands at offset [ofs]. *)
Fixpoint find_command (p : MrdbParser) (ofs end_ : Z)
    (tbl : list (enum_binary_command * list Z)) : option enum_binary_command :=
  match tbl with
  | [] => Some SQL_OTHER
  | (c, kw) :: tbl' =>
      match check_keyword p ofs end_ kw with
      | Some true => Some c
      | Some false => find_command p ofs end_ tbl'
      | None => None
      end
  end.

(** Otherwise the first byte of code decides the command. *)
Definition scan_command (s : scan) : flow scan :=
  if bool_decide (command (sp s) = SQL_NONE) then
    c <~ find_command (sp s) (sa s) (send s) binary_command ;;
    Fall (mkScan (set_command c (sp s)) (sa s) (send s) (slast s))
  else Fall s.

Definition scan_keywords (is_batch : bool) (s : scan) : flow scan :=
  if is_batch then scan_batch s else scan_command s.

Definition scan_advance (s : scan) : flow scan :=
  c <~ at_ (sp s) (sa s) ;;
  Next (mkScan (sp s) (sa s + 1) (send s) c).

(** The whole body of the [while] loop, from the label [cont]. *)
Definition scan_body (is_batch : bool) (s : scan) : flow scan :=
  scan_literals s >>> scan_in_literal >>> scan_comments >>> scan_eol
  >>> scan_qmark >>> scan_percent >>> scan_keywords is_batch >>> scan_advance.

(** ** The loop and its entry point *)

Inductive parse_result :=
  | ParseOk (p : MrdbParser)
  | ParseError (p : option MrdbParser) (errmsg : string)
  | ParseUndefined
  | ParseOutOfFuel.

(** [while (a <= end)]; [cont] says the body is entered at the label, past the
    test. *)
Fixpoint parse_loop (is_batch : bool) (errmsg_len : nat) (fuel : nat) (cont : bool) (s : scan)
    : parse_result :=
  match fuel with
  | O => ParseOutOfFuel
  | S n =>
      if cont || (sa s <=? send s) then
        match scan_body is_batch s with
        | Fall s' | Next s' => parse_loop is_batch errmsg_len n false s'
        | Cont s' => parse_loop is_batch errmsg_len n true s'
        | Return1 s' msg => ParseError (Some (sp s')) (parser_error errmsg_len msg)
        | Undef => ParseUndefined
        end
      else ParseOk (set_statement_length (send s + 1) (sp s))
  end.

(** Every iteration moves [a] forward or shortens the text, and one more may
    run behind a closing quote: [length + 2] iterations are enough. *)
Definition parse_fuel (p : MrdbParser) : nat := S (S (Z.to_nat (statement_length p))).

(** [MrdbParser_parse]; [None] is a null parser. *)
Definition MrdbParser_parse (p : option MrdbParser) (is_batch : bool) (errmsg_len : nat)
    : parse_result :=
  match p with
  | None => ParseError None (parser_error errmsg_len "Parser not initialized")
  | Some p =>
      if statement_length p =? 0
      then ParseError (Some p) (parser_error errmsg_len "Invalid (empty) statement")
      else parse_loop is_batch errmsg_len (parse_fuel p) false
             (mkScan p 0 (statement_length p - 1) 0)
  end.

End WithAllocator.

(** ** Construction and destruction *)

Inductive init_result := InitNull | InitOk (p : MrdbParser) | InitCrash.

(** [MrdbParser_init]; [struct_ok] and [str_ok] say whether the two
    allocations succeed.  When the first fails, [p->param_list] is assigned
    through the null pointer. *)
Definition MrdbParser_init (struct_ok str_ok : bool) (server_version : Z)
    (statement : option (list Z)) : init_result :=
  match statement with
  | None | Some [] => InitNull
  | Some stmt =>
      if struct_ok then
        if str_ok then
          InitOk (mkParser (stmt ++ [0]) (Z.of_nat (length stmt)) None [false; false; false]
                    false false false false 0 0 None [] NONE SQL_NONE server_version false)
        else InitNull
      else InitCrash
  end.

(** The blocks [MrdbParser_end] hands to [PyMem_RawFree]; [None] when it reads
    an element [p->keys] does not have. *)
Inductive freed := FreedKey (i : nat) | FreedKeys | FreedStatement | FreedParser.

Fixpoint free_key_strings (ks : list MrdbKey) (i n : nat) : option (list freed) :=
  match n with
  | O => Some []
  | S n' =>
      match ks !! i with
      | None => None
      | Some k =>
          app (match key_str k with Some _ => [FreedKey i] | None => [] end)
            <$> free_key_strings ks (S i) n'
      end
  end.

Definition MrdbParser_end (p : option MrdbParser) : option (list freed) :=
  match p with
  | None => Some []
  | Some p =>
      match keys p with
      | None => Some [FreedStatement; FreedParser]
      | Some ks =>
          (λ l, l ++ [FreedKeys; FreedStatement; FreedParser])
            <$> free_key_strings ks 0 (Z.to_nat (param_count p))
      end
  end.
