(* ===== verification/ParserSpec.v ===== *)
(** * Reference parser, and the proof that the C parser implements it

    The reference parser keeps the rewritten text behind the scan position and
    the unread text before it as two lists, so there is no block, no pointer
    and no terminator.  The main result of the file is a simulation: on every
    statement the in-place scan of [Parser] makes the same decisions, never
    accesses memory outside its block and stops within its fuel. *)

From S2P Require Import Prelude Parser.

(** ** The reference scan *)

(** [zout] is the text already produced, [zrest] the text not read yet.  The
    [statement_str] field of [zp] plays no role. *)
Record zip := mkZip { zp : MrdbParser; zout : list Z; zrest : list Z; zlast : Z }.

Definition z_upd (f : MrdbParser -> MrdbParser) (z : zip) : zip :=
  mkZip (f (zp z)) (zout z) (zrest z) (zlast z).

Definition z_adv (n : nat) (z : zip) : zip :=
  mkZip (zp z) (zout z ++ take n (zrest z)) (drop n (zrest z)) (zlast z).

(** The byte [k] positions ahead; 0 at the end of the text. *)
Definition peek (z : zip) (k : nat) : Z := nth k (zrest z) 0.

Definition more_than (n : nat) (z : zip) : bool := (n <? length (zrest z))%nat.

Definition peek2 (z : zip) (c0 c1 : Z) : bool := (peek z 0 =? c0) && (peek z 1 =? c1).

Definition z_literals (z : zip) : flow zip :=
  match literal_index (peek z 0) literals with
  | Some i => Cont (z_adv 1 (z_upd (λ p, set_in_literal (alter negb i (in_literal p)) p) z))
  | None => Fall z
  end.

Definition z_in_literal (z : zip) : flow zip :=
  if IN_LITERAL (zp z) then Next (z_adv 1 z) else Fall z.

Definition z_version (asks skipped : Z -> bool) (k : nat) (z : zip) : flow zip :=
  let ds := digits_prefix (drop k (zrest z)) in
  Next (z_adv (k + length ds)
          (z_upd (enter_version asks skipped (Z.min LONG_MAX (dec_value ds))) z)).

Definition z_bang (z : zip) : flow zip :=
  if more_than 2 z && (peek z 0 =? 33) then
    if isspace (peek z 1) then Next (z_adv 2 z)
    else if more_than 8 z && isdigit (peek z 1) then
      z_version (λ v, negb (mysql_only v)) (λ v, mysql_only v || negb (v <=? mysql (zp z))) 1 z
    else Fall z
  else Fall z.

Definition z_mbang (z : zip) : flow zip :=
  if more_than 3 z && peek2 z 77 33 then
    if isspace (peek z 2) then Next (z_adv 2 z)
    else if more_than 9 z && isdigit (peek z 2) then
      z_version (λ _, true) (λ v, negb (v <=? mysql (zp z))) 2 z
    else Fall (z_adv 2 z)
  else Fall z.

Definition z_style1 (z : zip) : flow zip :=
  if peek2 z 47 42 then
    z_bang (z_adv 2 z) >>> z_mbang >>> (λ z, Next (z_upd (set_in_comment true) z))
  else Fall z.

Definition z_style2 (z : zip) : flow zip :=
  if peek z 0 =? 35 then Fall (z_adv 1 (z_upd (set_comment_eol true) z)) else Fall z.

Definition z_style3 (z : zip) : flow zip :=
  if peek2 z 45 45 && more_than 3 z && (peek z 2 =? 32)
  then Fall (z_adv 3 (z_upd (set_comment_eol true) z)) else Fall z.

Definition z_comments (z : zip) : flow zip :=
  if in_comment (zp z) then
    if peek2 z 42 47 then Next (z_adv 2 (z_upd (set_in_comment false) z)) else Next (z_adv 1 z)
  else z_style1 z >>> z_style2 >>> z_style3.

Definition z_eol (z : zip) : flow zip :=
  if comment_eol (zp z) then
    if (peek z 0 =? 0) || (peek z 0 =? 10)
    then Next (z_adv 1 (z_upd (set_comment_eol false) z))
    else Next (z_adv 1 z)
  else Fall z.

(** A marker of [n] bytes is replaced by a question mark. *)
Definition z_param (st : enum_paramstyle) (n : nat) (z : zip) : zip :=
  mkZip (add_param st (Z.of_nat (length (zout z))) (zp z)) (zout z ++ [63])
    (drop n (zrest z)) (zlast z).

Definition z_qmark (z : zip) : flow zip :=
  if peek z 0 =? 63 then
    if mixed_style (zp z) QMARK then Return1 z mixing_msg else Next (z_param QMARK 1 z)
  else Fall z.

Definition z_format (z : zip) : flow zip :=
  if (peek z 1 =? 115) || (peek z 1 =? 100) then
    if mixed_style (zp z) FORMAT then Return1 z mixing_msg else Next (z_param FORMAT 2 z)
  else Fall z.

Section WithAllocator.

Context (alloc_ok : alloc_site -> Z -> bool).

(** The name of [%(name)s]: up to the first closing [)s], which must come
    before any NUL byte. *)
Definition z_pyformat (z : zip) : flow zip :=
  if peek z 1 =? 40 then
    match strstr2 41 115 (before_nul (drop 1 (zrest z))) with
    | Some d =>
        if mixed_style (zp z) PYFORMAT then Return1 z mixing_msg
        else
          let key := take (d - 1) (drop 2 (zrest z)) in
          let z' := z_param PYFORMAT (d + 3) z in
          match grow_keys alloc_ok (zp z') with
          | None => Return1 z' memory_msg
          | Some ks =>
              if alloc_ok KeyCalloc (param_count (zp z'))
              then Next (z_upd (set_keys (Some (ks ++ [mkKey (Some (key ++ [0]))
                                                      (Z.of_nat (length key))]))) z')
              else Return1 (z_upd (set_keys (Some (ks ++ [mkKey None 0]))) z') memory_msg
          end
    | None => Fall z
    end
  else Fall z.

Definition z_percent (z : zip) : flow zip :=
  if (peek z 0 =? 37) && negb (zlast z =? 92) then z_format z >>> z_pyformat else Fall z.

(** A keyword stands here: its letters in either case, then white space, then
    at least one more byte. *)
Definition z_keyword (kw rest : list Z) : bool :=
  (length kw + 1 <? length rest)%nat
  && bool_decide (toupper <$> take (length kw) rest = kw)
  && IS_WHITESPACE (nth (length kw) rest 0).

Definition z_batch (z : zip) : flow zip :=
  let z1 :=
    if negb (is_insert (zp z)) && z_keyword (bytes_of_string "INSERT") (zrest z)
       && ((zlast z =? 0) || IS_WHITESPACE (zlast z) || (zlast z =? 47))
    then z_adv 7 (z_upd (set_is_insert true) z) else z in
  if is_insert (zp z1) && z_keyword (bytes_of_string "VALUES") (zrest z1)
  then Next (z_adv 7 (z_upd (set_value_ofs (Some (Z.of_nat (length (zout z1)) + 7))) z1))
  else Fall z1.

Definition z_find_command (rest : list Z) : enum_binary_command :=
  match find (λ e, z_keyword e.2 rest) binary_command with
  | Some e => e.1
  | None => SQL_OTHER
  end.

Definition z_command (z : zip) : flow zip :=
  if bool_decide (command (zp z) = SQL_NONE)
  then Fall (z_upd (set_command (z_find_command (zrest z))) z) else Fall z.

Definition z_keywords (is_batch : bool) (z : zip) : flow zip :=
  if is_batch then z_batch z else z_command z.

Definition z_advance (z : zip) : flow zip :=
  Next (mkZip (zp z) (zout z ++ take 1 (zrest z)) (drop 1 (zrest z)) (peek z 0)).

Definition z_body (is_batch : bool) (z : zip) : flow zip :=
  z_literals z >>> z_in_literal >>> z_comments >>> z_eol
  >>> z_qmark >>> z_percent >>> z_keywords is_batch >>> z_advance.

(** The scan of the rest of the text.  After a quote the body runs once more
    even when nothing is left ([cont]). *)
Fixpoint z_loop (is_batch : bool) (errmsg_len fuel : nat) (cont : bool) (z : zip) : option parse_result :=
  match fuel with
  | O => None
  | S n =>
      if cont || more_than 0 z then
        match z_body is_batch z with
        | Fall z' | Next z' => z_loop is_batch errmsg_len n false z'
        | Cont z' => z_loop is_batch errmsg_len n true z'
        | Return1 z' msg => Some (ParseError (Some (zp z')) (parser_error errmsg_len msg))
        | Undef => None
        end
      else Some (ParseOk (set_statement_str (zout z)
                            (set_statement_length (Z.of_nat (length (zout z))) (zp z))))
  end.

End WithAllocator.

(** ** The simulation relation *)

(** The block of a scan: text behind, text ahead, terminator, leftovers. *)
Definition blk (z : zip) (junk : list Z) : list Z := zout z ++ zrest z ++ 0 :: junk.

Definition rep (z : zip) (s : scan) : Prop :=
  ∃ junk, s = mkScan (set_statement_str (blk z junk) (zp z)) (Z.of_nat (length (zout z)))
                (Z.of_nat (length (zout z)) + Z.of_nat (length (zrest z)) - 1) (zlast z).

(** At the loop test the pointer may have run past the end of the text. *)
Definition rep_next (z : zip) (s : scan) : Prop :=
  rep z s ∨
  (zrest z = [] ∧ ∃ junk,
     s = mkScan (set_statement_str (blk z junk) (zp z)) (Z.of_nat (length (zout z)) + 1)
           (Z.of_nat (length (zout z)) - 1) (zlast z)).

Definition same_but_text (z : zip) (s : scan) : Prop :=
  ∃ buf, sp s = set_statement_str buf (zp z).

Definition flow_rep (fz : flow zip) (fs : flow scan) : Prop :=
  match fz, fs with
  | Fall z, Fall s | Cont z, Cont s => rep z s
  | Next z, Next s => rep_next z s
  | Return1 z m, Return1 s m' => m = m' ∧ same_but_text z s
  | _, _ => False
  end.

Lemma flow_rep_bind fz fs kz ks :
  flow_rep fz fs ->
  (∀ z s, fz = Fall z -> rep z s -> flow_rep (kz z) (ks s)) ->
  flow_rep (fz >>> kz) (fs >>> ks).
Proof. destruct fz, fs; simpl; eauto; done. Qed.

(** ** Reading, advancing *)

Lemma peek_bound z k : peek z k ≠ 0 -> (k < length (zrest z))%nat.
Proof. intros H. apply not_le. intros Hle. apply H. unfold peek. by apply nth_overflow. Qed.

Lemma at_rep z s k i :
  rep z s -> i = Z.of_nat k -> (k <= length (zrest z))%nat ->
  at_ (sp s) (sa s + i) = Some (peek z k).
Proof.
  intros [junk ->] -> Hk. unfold at_. simpl. unfold blk.
  rewrite rd_app. by apply lookup_nul_terminated.
Qed.

Lemma at_rep0 z s : rep z s -> at_ (sp s) (sa s) = Some (peek z 0).
Proof. intros H. rewrite <- (at_rep z s 0 0 H) by lia. f_equal. lia. Qed.

Lemma at_rep1 z s : rep z s -> peek z 0 ≠ 0 -> at_ (sp s) (sa s + 1) = Some (peek z 1).
Proof. intros H Hp. apply peek_bound in Hp. by rewrite <- (at_rep z s 1 1 H) by lia. Qed.

Lemma at2_rep z s c0 c1 :
  rep z s -> c0 ≠ 0 -> at2 (sp s) (sa s) c0 c1 = Some (peek2 z c0 c1).
Proof.
  intros H Hc. unfold at2, peek2. rewrite (at_rep0 z s H).
  destruct (Z.eqb_spec (peek z 0) c0) as [E|]; [|done].
  by rewrite (at_rep1 z s H) by congruence.
Qed.

Lemma rep_adv z s n i :
  rep z s -> (n <= length (zrest z))%nat -> i = Z.of_nat n ->
  rep (z_adv n z) (mkScan (sp s) (sa s + i) (send s) (slast s)).
Proof.
  intros [junk ->] Hn ->. exists junk. unfold z_adv, blk. simpl.
  rewrite <- app_assoc, (app_assoc (take n _)), take_drop.
  rewrite length_app, length_take, length_drop.
  f_equal; lia.
Qed.

Lemma rep_next_adv1 z s :
  rep z s -> rep_next (z_adv 1 z) (mkScan (sp s) (sa s + 1) (send s) (slast s)).
Proof.
  intros H. destruct (zrest z) as [|c rest] eqn:E.
  - right. destruct H as [junk ->]. unfold z_adv, blk. rewrite E. simpl.
    split; [done|]. exists junk. rewrite !app_nil_r. simpl. f_equal. lia.
  - left. apply rep_adv; [done| |done]. rewrite E. simpl. lia.
Qed.

(** A change of the other fields commutes with the text. *)
Definition text_blind (f : MrdbParser -> MrdbParser) : Prop :=
  ∀ buf p, f (set_statement_str buf p) = set_statement_str buf (f p).

Lemma rep_upd f z s :
  text_blind f -> rep z s -> rep (z_upd f z) (mkScan (f (sp s)) (sa s) (send s) (slast s)).
Proof. intros Hf [junk ->]. exists junk. unfold z_upd, blk. simpl. by rewrite Hf. Qed.

Lemma rep_upd_adv f z s n i :
  text_blind f -> rep z s -> (n <= length (zrest z))%nat -> i = Z.of_nat n ->
  rep (z_adv n (z_upd f z)) (mkScan (f (sp s)) (sa s + i) (send s) (slast s)).
Proof.
  intros Hf H Hn Hi.
  by apply (rep_adv (z_upd f z) (mkScan (f (sp s)) (sa s) (send s) (slast s)));
    [apply rep_upd| |].
Qed.

Lemma rep_sp z s : rep z s -> ∃ buf, sp s = set_statement_str buf (zp z).
Proof. intros [junk ->]. by eexists. Qed.

Lemma more_than_lt n z : more_than n z = true -> (n < length (zrest z))%nat.
Proof. apply Nat.ltb_lt. Qed.

Lemma rep_bound z s k i :
  rep z s -> i = Z.of_nat k -> (sa s + i <? send s) = more_than (S k) z.
Proof.
  intros [junk ->] ->. unfold more_than. simpl.
  destruct (Nat.ltb_spec (S k) (length (zrest z))); lia.
Qed.

(** ** Each piece of the body simulates its reference *)

(** The fields both sides branch on agree. *)
Record fields_agree (z : zip) (s : scan) : Prop := {
  fa_literal : in_literal (sp s) = in_literal (zp z);
  fa_comment : in_comment (sp s) = in_comment (zp z);
  fa_insert : is_insert (sp s) = is_insert (zp z);
  fa_eol : comment_eol (sp s) = comment_eol (zp z);
  fa_style : paramstyle (sp s) = paramstyle (zp z);
  fa_command : command (sp s) = command (zp z);
  fa_mysql : mysql (sp s) = mysql (zp z);
  fa_last : slast s = zlast z;
}.

Lemma rep_fields z s : rep z s -> fields_agree z s.
Proof. intros [junk ->]. by constructor. Qed.

Ltac fields H :=
  let F := fresh "F" in
  pose proof (rep_fields _ _ H) as F;
  repeat first
    [ rewrite (fa_literal _ _ F) | rewrite (fa_comment _ _ F) | rewrite (fa_insert _ _ F)
    | rewrite (fa_eol _ _ F) | rewrite (fa_style _ _ F) | rewrite (fa_command _ _ F)
    | rewrite (fa_mysql _ _ F) ]; clear F.

Lemma literals_rep z s : rep z s -> flow_rep (z_literals z) (scan_literals s).
Proof.
  intros H. unfold z_literals, scan_literals. rewrite (at_rep0 z s H). cbn [fopt].
  destruct (literal_index (peek z 0) literals) as [i|] eqn:E; [|exact H].
  assert (Hp : peek z 0 ≠ 0) by (intros Hp; rewrite Hp in E; discriminate).
  apply peek_bound in Hp.
  by apply (rep_upd_adv (λ p, set_in_literal (alter negb i (in_literal p)) p)).
Qed.

Lemma in_literal_rep z s : rep z s -> flow_rep (z_in_literal z) (scan_in_literal s).
Proof.
  intros H. unfold z_in_literal, scan_in_literal, IN_LITERAL. fields H.
  destruct (existsb id _); [|exact H]. by apply rep_next_adv1.
Qed.

Lemma version_rep asks f z s k i :
  rep z s -> i = sa s + Z.of_nat k -> (k <= length (zrest z))%nat ->
  isdigit (peek z k) = true ->
  flow_rep (z_version asks f k z) (scan_version asks f i s).
Proof.
  intros H -> Hk Hd. unfold z_version, scan_version.
  assert (Hc : cstr (statement_str (sp s)) (sa s + Z.of_nat k)
               = Some (before_nul (drop k (zrest z)))).
  { destruct H as [junk ->]. simpl. by apply cstr_app. }
  rewrite Hc. cbn [fopt].
  rewrite strtol_digits by (by rewrite nth_skipn, Nat.add_0_r).
  set (ds := digits_prefix (drop k (zrest z))).
  assert (Hl : (length ds <= length (zrest z) - k)%nat).
  { subst ds. rewrite <- length_drop. apply digits_prefix_length. }
  assert (0 <= dec_value ds) by (apply dec_value_nonneg, digits_prefix_digits).
  replace (u64 (Z.min LONG_MAX (dec_value ds))) with (Z.min LONG_MAX (dec_value ds)).
  2: { unfold u64. rewrite Z.mod_small; [done|]. unfold LONG_MAX. lia. }
  simpl. left. rewrite <- Z.add_assoc.
  set (g := enter_version asks f (Z.min LONG_MAX (dec_value ds))).
  apply (rep_adv (z_upd g z) (mkScan (g (sp s)) (sa s) (send s) (slast s))); simpl; [|lia|lia].
  apply rep_upd; [|exact H]. intros buf p. subst g. unfold enter_version. by destruct (f _).
Qed.

Lemma bang_rep z s : rep z s -> flow_rep (z_bang z) (scan_bang s).
Proof.
  intros H. unfold z_bang, scan_bang.
  rewrite (rep_bound z s 1 1 H eq_refl), (rep_bound z s 7 7 H eq_refl), (at_rep0 z s H). cbn [fopt].
  destruct (more_than 2 z) eqn:Hm; [|exact H]. cbn [andb]. apply more_than_lt in Hm.
  destruct (Z.eqb_spec (peek z 0) 33) as [E|]; [|exact H].
  rewrite (at_rep1 z s H) by lia. cbn [fopt].
  destruct (isspace (peek z 1)); [left; apply rep_adv; [done|lia|done]|].
  destruct (more_than 8 z && isdigit (peek z 1)) eqn:Hd; [|exact H].
  apply andb_prop in Hd as [_ Hd]. fields H. apply version_rep; [done|done|lia|done].
Qed.

Lemma mbang_rep z s : rep z s -> flow_rep (z_mbang z) (scan_mbang s).
Proof.
  intros H. unfold z_mbang, scan_mbang. rewrite (rep_bound z s 2 2 H eq_refl).
  destruct (more_than 3 z) eqn:Hm; [|exact H]. apply more_than_lt in Hm.
  rewrite (at2_rep z s 77 33 H) by done. cbn [fopt].
  destruct (peek2 z 77 33); [|exact H]. simpl.
  assert (H2 : rep (z_adv 2 z) (mkScan (sp s) (sa s + 2) (send s) (slast s)))
    by (apply rep_adv; [done|lia|done]).
  rewrite (at_rep z s 2 2 H) by lia. simpl.
  destruct (isspace (peek z 2)); [by left|].
  rewrite <- Z.add_assoc. rewrite (rep_bound z s 8 (2 + 6) H eq_refl).
  destruct (more_than 9 z && isdigit (peek z 2)) eqn:Hd; [|exact H2].
  apply andb_prop in Hd as [_ Hd]. fields H.
  apply (version_rep _ _ z s 2); [done|done|lia|done].
Qed.

Lemma style1_rep z s : rep z s -> flow_rep (z_style1 z) (scan_style1 s).
Proof.
  intros H. unfold z_style1, scan_style1. rewrite (at2_rep z s 47 42 H) by done. cbn [fopt].
  destruct (peek2 z 47 42) eqn:E; [|exact H].
  assert (Hb : (1 < length (zrest z))%nat) by (apply peek_bound; unfold peek2 in E; lia).
  apply flow_rep_bind.
  - apply flow_rep_bind.
    + apply bang_rep, rep_adv; [done|lia|done].
    + intros z1 s1 _ H1. by apply mbang_rep.
  - intros z1 s1 _ H1. left. by apply rep_upd.
Qed.

Lemma style2_rep z s : rep z s -> flow_rep (z_style2 z) (scan_style2 s).
Proof.
  intros H. unfold z_style2, scan_style2. rewrite (at_rep0 z s H). cbn [fopt].
  destruct (Z.eqb_spec (peek z 0) 35) as [E|]; [|exact H].
  assert (Hb : (0 < length (zrest z))%nat) by (apply peek_bound; lia).
  by apply rep_upd_adv.
Qed.

Lemma style3_rep z s : rep z s -> flow_rep (z_style3 z) (scan_style3 s).
Proof.
  intros H. unfold z_style3, scan_style3. rewrite (at2_rep z s 45 45 H) by done. cbn [fopt].
  destruct (peek2 z 45 45) eqn:E; [|exact H]. rewrite (rep_bound z s 2 2 H eq_refl). cbn [andb].
  destruct (more_than 3 z) eqn:Hm; [|exact H]. apply more_than_lt in Hm.
  rewrite (at_rep z s 2 2 H) by lia. cbn [fopt andb].
  destruct (peek z 2 =? 32); [|exact H]. apply rep_upd_adv; [done|done|lia|done].
Qed.

Lemma comments_rep z s : rep z s -> flow_rep (z_comments z) (scan_comments s).
Proof.
  intros H. unfold z_comments, scan_comments. fields H. destruct (in_comment (zp z)).
  - unfold scan_comment_end. rewrite (at2_rep z s 42 47 H) by done. cbn [fopt].
    destruct (peek2 z 42 47) eqn:E; [|by apply rep_next_adv1].
    assert (Hb : (1 < length (zrest z))%nat) by (apply peek_bound; unfold peek2 in E; lia).
    left. by apply rep_upd_adv.
  - apply flow_rep_bind; [apply flow_rep_bind|]; intros; eauto using style1_rep, style2_rep, style3_rep.
Qed.

Lemma eol_rep z s : rep z s -> flow_rep (z_eol z) (scan_eol s).
Proof.
  intros H. unfold z_eol, scan_eol. fields H. destruct (comment_eol (zp z)); [|exact H].
  rewrite (at_rep0 z s H). cbn [fopt]. destruct (_ || _); [|by apply rep_next_adv1].
  apply (rep_next_adv1 (z_upd (set_comment_eol false) z)
           (mkScan (set_comment_eol false (sp s)) (sa s) (send s) (slast s))).
  by apply rep_upd.
Qed.

(** ** Markers *)

Lemma mixed_rep z s st : rep z s -> mixed_style (sp s) st = mixed_style (zp z) st.
Proof. intros [junk ->]. done. Qed.

Lemma rep_error z s m : rep z s -> flow_rep (Return1 z m) (Return1 s m).
Proof. intros H. split; [done|]. by apply rep_sp. Qed.

(** Closing the gap a marker leaves behind its question mark. *)
Lemma memmove_marker out mid tail junk dst src n :
  dst = Z.of_nat (length out) + 1 ->
  src = Z.of_nat (length out) + 1 + Z.of_nat (length mid) ->
  n = Z.of_nat (length tail) + 1 ->
  ∃ junk', memmove (out ++ 63 :: mid ++ tail ++ 0 :: junk) dst src n
           = Some (out ++ 63 :: tail ++ 0 :: junk').
Proof.
  intros -> -> ->. eexists.
  replace (out ++ 63 :: mid ++ tail ++ 0 :: junk)
    with ((out ++ [63]) ++ mid ++ (tail ++ [0]) ++ junk) by (by rewrite <- !app_assoc).
  rewrite memmove_down by (rewrite ?length_app; simpl; lia).
  by rewrite <- !app_assoc.
Qed.

Lemma qmark_rep z s : rep z s -> flow_rep (z_qmark z) (scan_qmark s).
Proof.
  intros H. unfold z_qmark, scan_qmark. rewrite (at_rep0 z s H). cbn [fopt].
  destruct (Z.eqb_spec (peek z 0) 63) as [E|]; [|exact H].
  rewrite (mixed_rep z s _ H). destruct (mixed_style _ _); [by apply rep_error|].
  left. destruct H as [junk ->]. destruct z as [p out [|c rest] last]; [done|].
  unfold peek in E. simpl in E. subst c. exists junk. unfold z_param, blk. simpl.
  rewrite drop_0, <- !app_assoc. simpl. rewrite length_app. simpl. f_equal; lia.
Qed.

Lemma format_rep z s : rep z s -> peek z 0 ≠ 0 -> flow_rep (z_format z) (scan_format s).
Proof.
  intros H Hp. unfold z_format, scan_format. rewrite (at_rep1 z s H Hp). cbn [fopt].
  destruct (_ || _) eqn:E; [|exact H].
  assert (Hb : (1 < length (zrest z))%nat) by (apply peek_bound; lia).
  rewrite (mixed_rep z s _ H). destruct (mixed_style _ _); [by apply rep_error|].
  destruct H as [junk ->]. destruct z as [p out [|c [|c1 rest]] last]; simpl in Hb; try lia.
  simpl. unfold blk. simpl. rewrite wr_middle. cbn [fopt].
  destruct (memmove_marker out [c1] rest junk (Z.of_nat (length out) + 1) (Z.of_nat (length out) + 2)
    (Z.of_nat (length out) + Z.of_nat (S (S (length rest))) - 1 - Z.of_nat (length out)))
    as [junk' Hm]; [done|simpl; lia|lia|].
  simpl in Hm. rewrite Hm. cbn [fopt]. left. exists junk'. unfold z_param, blk. simpl.
  rewrite drop_0, <- !app_assoc. simpl. rewrite length_app. simpl. f_equal; lia.
Qed.

(** The search for the closing [)s] splits the text behind the parenthesis. *)
Lemma find_close_split rest d :
  strstr2 41 115 (before_nul (40 :: rest)) = Some d ->
  ∃ key tail, rest = key ++ 41 :: 115 :: tail ∧ d = S (length key) ∧ Forall (λ c, c ≠ 0) key.
Proof.
  intros Hd. destruct (before_nul_prefix (40 :: rest)) as [t1 Ht1].
  destruct (strstr2_split _ _ _ _ Hd) as (t2 & Ht2 & Hl).
  simpl in Ht1, Ht2, Hl. destruct d as [|d]; [discriminate|].
  injection Ht1 as Ht1. injection Ht2 as Ht2.
  exists (take d (before_nul rest)), (t2 ++ t1). split_and!.
  - rewrite Ht1, Ht2 at 1. by rewrite <- app_assoc.
  - rewrite length_take. lia.
  - apply Forall_take, before_nul_no_nul.
Qed.

(** What the three memory operations of the branch do. *)
Lemma pyformat_memory out key tail junk :
  let a := Z.of_nat (length out) in
  let buf := out ++ 63 :: 40 :: (key ++ 41 :: 115 :: tail) ++ 0 :: junk in
  memcpy_from buf (a + 2) (Z.of_nat (length key)) = Some key ∧
  ∃ junk', memmove buf (a + 1) (a + Z.of_nat (length key) + 4) (Z.of_nat (length tail) + 1)
           = Some (out ++ 63 :: tail ++ 0 :: junk').
Proof.
  intros a buf. subst buf. split.
  - replace (out ++ 63 :: 40 :: (key ++ 41 :: 115 :: tail) ++ 0 :: junk)
      with ((out ++ [63; 40]) ++ key ++ 41 :: 115 :: tail ++ 0 :: junk)
      by (by rewrite <- !app_assoc).
    apply memcpy_from_middle; [rewrite length_app; simpl; lia|done].
  - replace (out ++ 63 :: 40 :: (key ++ 41 :: 115 :: tail) ++ 0 :: junk)
      with (out ++ 63 :: (40 :: key ++ [41; 115]) ++ tail ++ 0 :: junk)
      by (simpl; by rewrite <- !app_assoc).
    apply memmove_marker; [done|simpl; rewrite length_app; simpl; lia|done].
Qed.

Lemma pyformat_rep alloc_ok z s :
  rep z s -> peek z 0 ≠ 0 -> flow_rep (z_pyformat alloc_ok z) (scan_pyformat alloc_ok s).
Proof.
  intros H Hp. unfold z_pyformat, scan_pyformat.
  rewrite (at_rep1 z s H Hp), (mixed_rep z s PYFORMAT H). cbn [fopt].
  destruct (Z.eqb_spec (peek z 1) 40) as [E|]; [|exact H].
  destruct z as [p out [|c [|c1 rest]] last]; try done.
  unfold peek in E. simpl in E. subst c1. clear Hp.
  destruct H as [junk ->]. simpl drop. rewrite drop_0. cbn [zp zout zrest zlast sp sa send slast].
  assert (Hc : cstr (statement_str (set_statement_str (blk (mkZip p out (c :: 40 :: rest) last) junk) p))
                 (Z.of_nat (length out) + 1) = Some (before_nul (40 :: rest))).
  { apply (cstr_app out (c :: 40 :: rest) junk 1). simpl. lia. }
  rewrite Hc. cbn [fopt].
  destruct (strstr2 41 115 (before_nul (40 :: rest))) as [d|] eqn:Hd; [|by exists junk].
  destruct (find_close_split rest d Hd) as (key & tail & -> & -> & _). clear Hc Hd.
  destruct (mixed_style p PYFORMAT); [split; [done|by eexists]|].
  destruct (pyformat_memory out key tail junk) as [Hcpy [junk' Hmov]].
  unfold blk. simpl. rewrite wr_middle. cbn [fopt].
  rewrite Nat.sub_0_r, take_app_length.
  change (grow_keys alloc_ok (add_param PYFORMAT (Z.of_nat (length out)) _))
    with (grow_keys alloc_ok (zp (z_param PYFORMAT (S (length key) + 3)
             (mkZip p out (c :: 40 :: key ++ 41 :: 115 :: tail) last)))).
  destruct (grow_keys _ _) as [ks|]; [|split; [done|by eexists]].
  destruct (alloc_ok KeyCalloc _); [|split; [done|by eexists]].
  set (a := Z.of_nat (length out)) in *.
  replace (a + 1 + Z.of_nat (S (length key)) - a + 1 - 3) with (Z.of_nat (length key)) by lia.
  rewrite Hcpy. cbn [fopt].
  replace (a + 1 + Z.of_nat (S (length key)) + 2) with (a + Z.of_nat (length key) + 4) by lia.
  rewrite length_app. simpl length.
  match goal with |- context [memmove _ _ _ ?n] =>
    replace n with (Z.of_nat (length tail) + 1) by (clear; lia) end.
  rewrite Hmov. cbn [fopt]. left. exists junk'. unfold z_upd, z_param, blk. simpl.
  assert (Ed : drop (length key + 2) (key ++ 41 :: 115 :: tail) = tail) by apply drop_app_add.
  replace (length key + 3)%nat with (S (length key + 2)) by lia. simpl. rewrite Ed.
  rewrite length_app. simpl. f_equal; [|lia|lia]. by rewrite <- (app_assoc out [63]).
Qed.

Lemma percent_rep alloc_ok z s :
  rep z s -> flow_rep (z_percent alloc_ok z) (scan_percent alloc_ok s).
Proof.
  intros H. unfold z_percent, scan_percent.
  rewrite (at_rep0 z s H), (fa_last _ _ (rep_fields z s H)). cbn [fopt].
  destruct (_ && _) eqn:E; [|exact H]. assert (Hp : peek z 0 ≠ 0) by lia.
  apply flow_rep_bind; [by apply format_rep|].
  intros z1 s1 Hf H1. apply pyformat_rep; [done|].
  unfold z_format in Hf. repeat case_match; by simplify_eq.
Qed.

(** ** Keywords *)

Lemma match_upper_rep z s kw k :
  rep z s -> Forall (λ c, c ≠ 0) kw -> (k <= length (zrest z))%nat ->
  match_upper (sp s) (sa s + Z.of_nat k) kw
  = Some (bool_decide (toupper <$> take (length kw) (drop k (zrest z)) = kw)).
Proof.
  intros H Hkw. revert k. induction Hkw as [|c kw Hc _ IH]; intros k Hk; simpl.
  { done. }
  rewrite (at_rep z s k _ H eq_refl Hk). unfold peek.
  destruct (decide (k = length (zrest z))) as [->|Hne].
  - rewrite nth_overflow, drop_all by lia. simpl.
    by destruct c.
  - destruct (drop k (zrest z)) as [|x l] eqn:Ed.
    { apply (f_equal length) in Ed. rewrite length_drop in Ed. simpl in Ed. lia. }
    replace (nth k (zrest z) 0) with x.
    2: { rewrite <- (Nat.add_0_r k), <- nth_skipn, Ed. done. }
    replace (sa s + Z.of_nat k + 1) with (sa s + Z.of_nat (S k)) by lia.
    rewrite IH by lia.
    replace (drop (S k) (zrest z)) with l.
    2: { rewrite <- (Nat.add_1_r k), <- drop_drop, Ed. done. }
    simpl. destruct (Z.eqb_spec (toupper x) c) as [->|Hx].
    + f_equal. apply bool_decide_ext. split; intros Hx; [by f_equal|by injection Hx].
    + rewrite bool_decide_false; [done|]. by intros [=].
Qed.

(** The length of a C object is below [2 ^ 63]. *)
Definition small (z : zip) : Prop := Z.of_nat (length (zrest z)) < 2 ^ 63.

Lemma check_keyword_rep z s kw :
  rep z s -> small z -> Forall (λ c, c ≠ 0) kw -> kw ≠ [] -> Z.of_nat (length kw) < 2 ^ 63 ->
  check_keyword (sp s) (sa s) (send s) kw = Some (z_keyword kw (zrest z)).
Proof.
  intros H Hs Hkw Hne Hl. unfold check_keyword, z_keyword.
  assert (Ee : send s - sa s = Z.of_nat (length (zrest z)) - 1) by (destruct H as [junk ->]; simpl; lia).
  rewrite Ee. unfold small in Hs.
  pose proof (match_upper_rep z s kw 0 H Hkw ltac:(lia)) as Hm.
  rewrite Z.add_0_r, drop_0 in Hm.
  destruct (decide (zrest z = [])) as [E0|E0].
  - rewrite E0 in *. rewrite Hm. simpl length.
    change (u64 (Z.of_nat 0 - 1)) with (2 ^ 64 - 1).
    rewrite (proj2 (Z.ltb_ge _ _)) by lia. by destruct kw.
  - assert (0 < length (zrest z))%nat by (destruct (zrest z); simpl; [done|lia]).
    replace (u64 _) with (Z.of_nat (length (zrest z)) - 1)
      by (unfold u64; rewrite Z.mod_small; lia).
    rewrite Hm. destruct (Nat.ltb_spec (length kw + 1) (length (zrest z))).
    + rewrite (proj2 (Z.ltb_ge _ _)) by lia. simpl.
      destruct (bool_decide _); [|done]. rewrite (at_rep z s (length kw) _ H eq_refl) by lia. done.
    + rewrite (proj2 (Z.ltb_lt _ _)) by lia. done.
Qed.

(** ** Progress

    Falling through never lengthens the unread text, [continue] and [goto cont]
    shorten it, or nothing was left. *)
Definition progress (z : zip) (f : flow zip) : Prop :=
  match f with
  | Fall z' => (length (zrest z') <= length (zrest z))%nat
  | Next z' => (length (zrest z') < length (zrest z))%nat ∨ (zrest z = [] ∧ zrest z' = [])
  | Cont z' => (length (zrest z') < length (zrest z))%nat
  | Return1 _ _ => True
  | Undef => False
  end.

Lemma progress_bind z f k :
  progress z f -> (∀ z', f = Fall z' -> progress z' (k z')) -> progress z (f >>> k).
Proof.
  intros Hf Hk. destruct f as [z1| | | |]; try done. specialize (Hk z1 eq_refl). simpl in *.
  destruct (k z1) as [z2|z2|z2| |]; simpl in *; try lia.
  destruct Hk as [?|[E1 E2]]; [lia|]. destruct (zrest z) eqn:E; [by right|].
  left. rewrite E2. simpl. lia.
Qed.

Lemma progress_trans z z1 f :
  (length (zrest z1) < length (zrest z))%nat -> progress z1 f -> progress z f.
Proof.
  intros Hl Hf. destruct f as [z2|z2|z2| |]; simpl in *; try lia.
  destruct Hf as [?|[E1 E2]]; [lia|]. left. rewrite E2. simpl. lia.
Qed.

Lemma progress_adv n z :
  (1 <= n)%nat -> progress z (Next (z_adv n z)).
Proof.
  intros Hn. simpl. rewrite length_drop. destruct (zrest z); simpl; [right|left]; [|lia].
  by rewrite drop_nil.
Qed.

(** A byte that is not the terminator is really there. *)
Lemma peek_shorter n z k :
  peek z k ≠ 0 -> (1 <= n)%nat -> (length (drop n (zrest z)) < length (zrest z))%nat.
Proof. intros Hp Hn. apply peek_bound in Hp. rewrite length_drop. lia. Qed.

Lemma literals_progress z : progress z (z_literals z).
Proof.
  unfold z_literals. destruct (literal_index _ _) eqn:E; simpl; [|lia].
  apply (peek_shorter 1 z 0); [|lia]. intros Hp. by rewrite Hp in E.
Qed.

Lemma in_literal_progress z : progress z (z_in_literal z).
Proof. unfold z_in_literal. destruct (IN_LITERAL _); [by apply progress_adv|simpl; lia]. Qed.

Lemma version_progress asks f k z : (1 <= k)%nat -> progress z (z_version asks f k z).
Proof. intros Hk. apply (progress_adv _ (z_upd _ z)). lia. Qed.

Lemma bang_progress z : progress z (z_bang z).
Proof.
  unfold z_bang. destruct (_ && _); [|simpl; lia].
  destruct (isspace _); [apply progress_adv; lia|].
  destruct (_ && _); [apply version_progress; lia|simpl; lia].
Qed.

Lemma mbang_progress z : progress z (z_mbang z).
Proof.
  unfold z_mbang. destruct (_ && _); [|simpl; lia].
  destruct (isspace _); [apply progress_adv; lia|].
  destruct (_ && _); [apply version_progress; lia|simpl; rewrite length_drop; lia].
Qed.

Lemma style1_progress z : progress z (z_style1 z).
Proof.
  unfold z_style1. destruct (peek2 z 47 42) eqn:E; [|simpl; lia].
  assert (Hp : peek z 0 ≠ 0) by (unfold peek2 in E; lia).
  apply (peek_shorter 2) in Hp; [|lia].
  pose proof (bang_progress (z_adv 2 z)) as Hb.
  destruct (z_bang (z_adv 2 z)) as [z1|z1|z1| |]; try exact Hb;
    [|by apply (progress_trans z (z_adv 2 z))|simpl in *; lia].
  pose proof (mbang_progress z1) as Hm. simpl in Hb, Hp. cbn [fbind].
  destruct (z_mbang z1) as [z2|z2|z2| |]; try exact Hm; simpl in Hm; simpl.
  - left. lia.
  - destruct Hm as [?|[_ E2]]; left; [lia|]. rewrite E2. simpl. lia.
  - lia.
Qed.

Lemma comments_progress z : progress z (z_comments z).
Proof.
  unfold z_comments. destruct (in_comment (zp z)).
  - destruct (peek2 z 42 47); [apply (progress_adv 2 (z_upd (set_in_comment false) z)); lia|by apply progress_adv].
  - apply progress_bind; [apply progress_bind|]; intros; [apply style1_progress| |].
    + unfold z_style2. destruct (_ =? _); simpl; rewrite ?length_drop; lia.
    + unfold z_style3. destruct (_ && _); simpl; rewrite ?length_drop; lia.
Qed.

Lemma eol_progress z : progress z (z_eol z).
Proof.
  unfold z_eol. destruct (comment_eol _); [|simpl; lia].
  destruct (_ || _); [by apply (progress_adv 1 (z_upd (set_comment_eol false) z))|by apply progress_adv].
Qed.

Lemma qmark_progress z : progress z (z_qmark z).
Proof.
  unfold z_qmark. destruct (Z.eqb_spec (peek z 0) 63) as [E|]; [|simpl; lia].
  destruct (mixed_style _ _); [done|]. left. apply (peek_shorter 1 z 0); lia.
Qed.

Lemma percent_progress alloc_ok z : progress z (z_percent alloc_ok z).
Proof.
  unfold z_percent. destruct (_ && _) eqn:E; [|simpl; lia].
  assert (Hp : ∀ n, (1 <= n)%nat -> (length (drop n (zrest z)) < length (zrest z))%nat)
    by (intros n; apply (peek_shorter n z 0); lia).
  unfold z_format. destruct (_ || _).
  { destruct (mixed_style _ _); [done|]. left. apply Hp. lia. }
  simpl. unfold z_pyformat. destruct (peek z 1 =? 40); [|simpl; lia].
  destruct (strstr2 _ _ _); [|simpl; lia]. destruct (mixed_style _ _); [done|].
  destruct (grow_keys _ _); [|done]. destruct (alloc_ok _ _); [|done].
  left. apply Hp. lia.
Qed.

Lemma z_keyword_length kw rest : z_keyword kw rest = true -> (length kw + 1 < length rest)%nat.
Proof.
  intros E. apply andb_prop in E as [E _]. apply andb_prop in E as [E _]. by apply Nat.ltb_lt.
Qed.

Lemma keywords_progress is_batch z : progress z (z_keywords is_batch z).
Proof.
  unfold z_keywords. destruct is_batch.
  2: { unfold z_command. destruct (bool_decide _); simpl; lia. }
  unfold z_batch.
  set (z1 := if _ && _ then _ else z).
  assert (Hz : (length (zrest z1) <= length (zrest z))%nat).
  { subst z1. destruct (_ && _); simpl; rewrite ?length_drop; lia. }
  destruct (is_insert (zp z1) && _) eqn:E; [|done].
  apply andb_prop in E as [_ E%z_keyword_length].
  left. simpl zrest. rewrite length_drop. simpl in E. lia.
Qed.

Lemma advance_progress z : progress z (z_advance z).
Proof. exact (progress_adv 1 z (le_n 1)). Qed.

Lemma body_progress alloc_ok is_batch z : progress z (z_body alloc_ok is_batch z).
Proof.
  unfold z_body.
  repeat (apply progress_bind; [|intros]);
    auto using literals_progress, in_literal_progress, comments_progress, eol_progress,
      qmark_progress, percent_progress, keywords_progress, advance_progress.
Qed.

(** The last piece always ends the iteration. *)
Lemma body_not_fall alloc_ok is_batch z z' : z_body alloc_ok is_batch z ≠ Fall z'.
Proof. unfold z_body. by destruct (_ >>> z_keywords is_batch). Qed.

(** ** The body and the loop *)

Lemma batch_rep z s : rep z s -> small z -> flow_rep (z_batch z) (scan_batch s).
Proof.
  intros H Hs. unfold z_batch, scan_batch. fields H.
  assert (Hk : (if is_insert (zp z) then Some false
                else check_keyword (sp s) (sa s) (send s) (bytes_of_string "INSERT"))
             = Some (negb (is_insert (zp z)) && z_keyword (bytes_of_string "INSERT") (zrest z))).
  { destruct (is_insert (zp z)); [done|].
    apply check_keyword_rep; [done|done|repeat constructor; done|done|done]. }
  rewrite Hk. cbn [fopt]. rewrite (fa_last _ _ (rep_fields _ _ H)). clear Hk.
  set (b := negb (is_insert (zp z)) && z_keyword (bytes_of_string "INSERT") (zrest z)
            && ((zlast z =? 0) || IS_WHITESPACE (zlast z) || (zlast z =? 47))).
  set (z1 := if b then z_adv 7 (z_upd (set_is_insert true) z) else z).
  set (s1 := if b then mkScan (set_is_insert true (sp s)) (sa s + 7) (send s) (zlast z) else s).
  assert (H1 : rep z1 s1).
  { subst z1 s1 b. destruct (_ && _) eqn:E; [|done].
    rewrite <- (fa_last _ _ (rep_fields _ _ H)).
    apply andb_prop in E as [E _]. apply andb_prop in E as [_ E%z_keyword_length]. simpl in E.
    apply rep_upd_adv; [done|done|lia|done]. }
  assert (Hs1 : small z1).
  { subst z1 b. unfold small in *. destruct (_ && _); simpl; [rewrite length_drop|]; lia. }
  clearbody z1 s1. clear H Hs b z s. fields H1.
  assert (Hk : (if is_insert (zp z1)
                then check_keyword (sp s1) (sa s1) (send s1) (bytes_of_string "VALUES")
                else Some false)
             = Some (is_insert (zp z1) && z_keyword (bytes_of_string "VALUES") (zrest z1))).
  { destruct (is_insert (zp z1)); [|done].
    apply check_keyword_rep; [done|done|repeat constructor; done|done|done]. }
  rewrite Hk. cbn [fopt]. destruct (_ && _) eqn:E; [|exact H1].
  apply andb_prop in E as [_ E%z_keyword_length]. simpl in E.
  left. replace (Z.of_nat (length (zout z1)) + 7) with (sa s1 + 7)
    by (destruct H1 as [junk ->]; done).
  apply rep_upd_adv; [done|done|lia|done].
Qed.

Lemma find_command_rep z s tbl :
  rep z s -> small z ->
  Forall (λ e, Forall (λ c, c ≠ 0) e.2 ∧ e.2 ≠ [] ∧ Z.of_nat (length e.2) < 2 ^ 63) tbl ->
  find_command (sp s) (sa s) (send s) tbl
  = Some (match find (λ e, z_keyword e.2 (zrest z)) tbl with Some e => e.1 | None => SQL_OTHER end).
Proof.
  intros H Hs. induction 1 as [|[c kw] tbl (Hk & Hn & Hl) _ IH]; simpl; [done|].
  rewrite (check_keyword_rep z s kw) by done.
  destruct (z_keyword kw (zrest z)); [done|]. by rewrite IH.
Qed.

Lemma keywords_rep is_batch z s :
  rep z s -> small z -> flow_rep (z_keywords is_batch z) (scan_keywords is_batch s).
Proof.
  intros H Hs. destruct is_batch; [by apply batch_rep|].
  unfold z_keywords, scan_keywords, z_command, scan_command. fields H.
  destruct (bool_decide _); [|exact H].
  rewrite (find_command_rep z s) by (done || (repeat constructor; done)). by apply rep_upd.
Qed.

Lemma advance_rep z s : rep z s -> flow_rep (z_advance z) (scan_advance s).
Proof.
  intros H. unfold z_advance, scan_advance. rewrite (at_rep0 z s H). cbn [fopt].
  apply (rep_next_adv1 (mkZip (zp z) (zout z) (zrest z) (peek z 0))
           (mkScan (sp s) (sa s) (send s) (peek z 0))).
  destruct H as [junk ->]. by exists junk.
Qed.

Lemma body_rep alloc_ok is_batch z s :
  rep z s -> small z -> flow_rep (z_body alloc_ok is_batch z) (scan_body alloc_ok is_batch s).
Proof.
  intros H Hs. unfold z_body, scan_body.
  repeat (apply flow_rep_bind; [|intros]);
    auto using literals_rep, in_literal_rep, comments_rep, eol_rep, qmark_rep, percent_rep,
      advance_rep.
  match goal with |- flow_rep (z_keywords _ ?z1) _ => assert (Hs1 : small z1) end;
    [|by apply keywords_rep].
  match goal with E : ?f = Fall ?z1 |- small ?z1 => assert (Hp : progress z f) end.
  { repeat (apply progress_bind; [|intros]);
      auto using literals_progress, in_literal_progress, comments_progress, eol_progress,
        qmark_progress, percent_progress. }
  match goal with E : ?f = Fall ?z1 |- _ => rewrite E in Hp end.
  unfold small in *. simpl in Hp. lia.
Qed.

(** Results agree: the produced text is what stands before the terminator of
    the block, everything else is equal.  After an error the text is not
    looked at. *)
Definition result_rep (r : parse_result) (r' : parse_result) : Prop :=
  match r, r' with
  | ParseOk q, ParseOk p => ∃ junk, p = set_statement_str (statement_str q ++ 0 :: junk) q
  | ParseError (Some q) m, ParseError (Some p) m' => m = m' ∧ ∃ buf, p = set_statement_str buf q
  | _, _ => False
  end.

Lemma rep_next_test z s : rep_next z s -> (sa s <=? send s) = more_than 0 z.
Proof.
  unfold more_than. intros [[junk ->]|[E [junk ->]]]; simpl.
  - destruct (zrest z); simpl; [apply Z.leb_gt|apply Z.leb_le]; lia.
  - rewrite E. apply Z.leb_gt. lia.
Qed.

Lemma loop_rep alloc_ok is_batch n fuel (cont : bool) z s :
  small z -> (if cont then rep z s else rep_next z s) ->
  (length (zrest z) + 2 <= fuel)%nat ∨ (cont = false ∧ zrest z = [] ∧ (1 <= fuel)%nat) ->
  ∃ r, z_loop alloc_ok is_batch n fuel cont z = Some r ∧
       result_rep r (parse_loop alloc_ok is_batch n fuel cont s).
Proof.
  revert cont z s. induction fuel as [|fuel IH]; intros cont z s Hs H Hf.
  { destruct Hf as [|(_ & _ & ?)]; lia. }
  simpl.
  assert (Ht : (cont || (sa s <=? send s)) = (cont || more_than 0 z))
    by (destruct cont; [done|by rewrite (rep_next_test z s)]).
  rewrite Ht. destruct (cont || more_than 0 z) eqn:Hc.
  - assert (Hr : rep z s).
    { destruct cont; [done|]. simpl in Hc. apply more_than_lt in Hc.
      destruct H as [H|[E _]]; [done|]. rewrite E in Hc. simpl in Hc. lia. }
    pose proof (body_progress alloc_ok is_batch z) as Hp.
    pose proof (body_rep alloc_ok is_batch z s Hr Hs) as Hb.
    destruct (z_body alloc_ok is_batch z) as [z'|z'|z'|z' m|] eqn:Eb; simpl in Hp.
    + by apply body_not_fall in Eb.
    + destruct (scan_body _ _ _) as [|s'| | |]; try done.
      destruct Hp as [Hp|[E E']].
      * apply (IH false); unfold small in *; [lia|done|left]. destruct Hf as [|(_ & E & _)]; [lia|].
        rewrite E in Hp. simpl in Hp. lia.
      * apply (IH false); [unfold small; rewrite E'; simpl; lia|done|right; split_and!; [done|done|]].
        rewrite E in Hf. unfold more_than in Hc. rewrite E in Hc.
        destruct Hf as [Hf|(-> & _)]; [simpl in Hf; lia|done].
    + destruct (scan_body _ _ _) as [| |s'| |]; try done.
      apply (IH true); unfold small in *; [lia|done|left]. destruct Hf as [|(_ & E & _)]; [lia|].
      rewrite E in Hp. simpl in Hp. lia.
    + destruct (scan_body _ _ _) as [| | |s' m'|]; try done. destruct Hb as [<- [buf Hbuf]].
      eexists. split; [done|]. split; [done|]. by exists buf.
    + done.
  - apply orb_false_iff in Hc as [-> Hc]. eexists. split; [done|].
    assert (E : zrest z = []) by (unfold more_than in Hc; by destruct (zrest z)).
    destruct H as [[junk ->]|[_ [junk ->]]]; exists junk; unfold blk; rewrite E; simpl.
    + rewrite Nat2Z.inj_0, Z.add_0_r, Z.sub_add. done.
    + rewrite Z.sub_add. done.
Qed.

(** ** The reference parser and the main theorem *)

Definition init_parser (server_version : Z) (stmt : list Z) : MrdbParser :=
  mkParser (stmt ++ [0]) (Z.of_nat (length stmt)) None [false; false; false]
    false false false false 0 0 None [] NONE SQL_NONE server_version false.

Definition ref_parse (alloc_ok : alloc_site -> Z -> bool) (is_batch : bool) (errmsg_len : nat)
    (server_version : Z) (stmt : list Z) : option parse_result :=
  z_loop alloc_ok is_batch errmsg_len (length stmt + 2) false
    (mkZip (init_parser server_version stmt) [] stmt 0).

Lemma init_rep v stmt :
  rep (mkZip (init_parser v stmt) [] stmt 0)
    (mkScan (init_parser v stmt) 0 (statement_length (init_parser v stmt) - 1) 0).
Proof. by exists []. Qed.

Lemma parse_refines alloc_ok is_batch n v stmt :
  stmt ≠ [] -> Z.of_nat (length stmt) < 2 ^ 63 ->
  ∃ r, ref_parse alloc_ok is_batch n v stmt = Some r ∧
       result_rep r (MrdbParser_parse alloc_ok (Some (init_parser v stmt)) is_batch n).
Proof.
  intros Hne Hs. unfold MrdbParser_parse, ref_parse.
  rewrite (proj2 (Z.eqb_neq _ _)) by (destruct stmt; simpl; [done|lia]).
  replace (parse_fuel (init_parser v stmt)) with (length stmt + 2)%nat
    by (unfold parse_fuel; simpl; lia).
  apply loop_rep; [done|left; apply init_rep|left; simpl; lia].
Qed.
