(* ===== verification/ParserProps.v ===== *)
(** * What the parser guarantees

    Invariants of the reference scan, carried over to [MrdbParser_parse] by the
    simulation of [ParserSpec]: the parameter offsets are what
    [Cursor._substitute_parameters] in [src/mariadb/cursors.py] and the bind
    code need, the text is only changed at markers, and errors come from mixed
    paramstyles or exhausted memory only. *)

From Stdlib Require Import Sorted.
From S2P Require Import Prelude Parser ParserSpec.

(** ** Reasoning about one iteration *)

(** [P] holds wherever the scan goes on, [E] of the message when it stops. *)
Definition flow_all (P : zip -> Prop) (E : string -> Prop) (f : flow zip) : Prop :=
  match f with
  | Fall z | Next z | Cont z => P z
  | Return1 _ m => E m
  | Undef => False
  end.

Lemma flow_all_bind P E f k :
  flow_all P E f -> (∀ z, P z -> flow_all P E (k z)) -> flow_all P E (f >>> k).
Proof. destruct f; simpl; eauto. Qed.

(** A predicate is stable when reading on and changing the scan's own flags
    keep it, and inductive when markers do as well. *)
Record stable (P : zip -> Prop) : Prop := {
  st_adv : ∀ z n, P z -> P (z_adv n z);
  st_last : ∀ z c, P z -> P (mkZip (zp z) (zout z) (zrest z) c);
  st_literal : ∀ z v, P z -> P (z_upd (set_in_literal v) z);
  st_comment : ∀ z v, P z -> P (z_upd (set_in_comment v) z);
  st_eol : ∀ z v, P z -> P (z_upd (set_comment_eol v) z);
  st_insert : ∀ z v, P z -> P (z_upd (set_is_insert v) z);
  st_values : ∀ z v, P z -> P (z_upd (set_value_ofs v) z);
  st_command : ∀ z v, P z -> P (z_upd (set_command v) z);
  st_asked : ∀ z v, P z -> P (z_upd (set_asked v) z);
}.

Record inductive_inv (alloc_ok : alloc_site -> Z -> bool) (P : zip -> Prop) (E : string -> Prop)
    : Prop := {
  ii_stable : stable P;
  ii_qmark : ∀ z, P z -> peek z 0 = 63 -> mixed_style (zp z) QMARK = false -> P (z_param QMARK 1 z);
  ii_format : ∀ z, P z -> peek z 0 = 37 -> peek z 1 = 115 ∨ peek z 1 = 100 ->
    mixed_style (zp z) FORMAT = false -> P (z_param FORMAT 2 z);
  ii_pyformat : ∀ z key tail ks,
    P z -> zrest z = 37 :: 40 :: key ++ 41 :: 115 :: tail -> Forall (λ c, c ≠ 0) key ->
    mixed_style (zp z) PYFORMAT = false ->
    ks = default [] (keys (zp z)) ->
    P (z_upd (set_keys (Some (ks ++ [mkKey (Some (key ++ [0])) (Z.of_nat (length key))])))
         (z_param PYFORMAT (length key + 4) z));
  ii_mixed_qmark : ∀ z, P z -> peek z 0 = 63 -> mixed_style (zp z) QMARK = true -> E mixing_msg;
  ii_mixed_format : ∀ z, P z -> peek z 0 = 37 -> peek z 1 = 115 ∨ peek z 1 = 100 ->
    mixed_style (zp z) FORMAT = true -> E mixing_msg;
  ii_mixed_pyformat : ∀ z key tail, P z -> zrest z = 37 :: 40 :: key ++ 41 :: 115 :: tail ->
    mixed_style (zp z) PYFORMAT = true -> E mixing_msg;
  ii_memory : ∀ z site k, P z -> peek z 0 = 37 -> alloc_ok site k = false -> E memory_msg;
}.

Section Inv.

Context (alloc_ok : alloc_site -> Z -> bool) (P : zip -> Prop) (E : string -> Prop).
Context (HP : inductive_inv alloc_ok P E).

Local Definition HS : stable P := ii_stable _ _ _ HP.

Lemma literals_inv z : P z -> flow_all P E (z_literals z).
Proof.
  intros H. unfold z_literals. destruct (literal_index _ _); [|exact H].
  apply (st_adv _ HS), (st_literal _ HS z _ H).
Qed.

Lemma in_literal_inv z : P z -> flow_all P E (z_in_literal z).
Proof. intros H. unfold z_in_literal. destruct (IN_LITERAL _); [by apply (st_adv _ HS)|exact H]. Qed.

Lemma version_inv asks f k z : P z -> flow_all P E (z_version asks f k z).
Proof.
  intros H. apply (st_adv _ HS). unfold z_upd, enter_version. set (v := Z.min _ _).
  assert (H1 : P (z_upd (λ p, if f v then set_in_comment true p else p) z)).
  { unfold z_upd. destruct (f v); [by apply (st_comment _ HS z true)|by destruct z]. }
  exact (st_asked _ HS _ (asked (zp z) || asks v) H1).
Qed.

Lemma style1_inv z : P z -> flow_all P E (z_style1 z).
Proof.
  intros H. unfold z_style1. destruct (peek2 z 47 42); [|exact H].
  apply flow_all_bind; [apply flow_all_bind|].
  - assert (H2 := st_adv _ HS z 2 H). unfold z_bang.
    repeat case_match; auto using version_inv; by apply (st_adv _ HS).
  - intros z1 H1. unfold z_mbang. repeat case_match; auto using version_inv; by apply (st_adv _ HS).
  - intros z1 H1. by apply (st_comment _ HS).
Qed.

Lemma comments_inv z : P z -> flow_all P E (z_comments z).
Proof.
  intros H. unfold z_comments. destruct (in_comment _).
  - destruct (peek2 _ _ _); [by apply (st_adv _ HS), (st_comment _ HS)|by apply (st_adv _ HS)].
  - apply flow_all_bind; [apply flow_all_bind; [by apply style1_inv|]|]; clear z H; intros z H.
    + unfold z_style2. case_match; [by apply (st_adv _ HS), (st_eol _ HS)|done].
    + unfold z_style3. case_match; [by apply (st_adv _ HS), (st_eol _ HS)|done].
Qed.

Lemma eol_inv z : P z -> flow_all P E (z_eol z).
Proof.
  intros H. unfold z_eol.
  repeat case_match; [by apply (st_adv _ HS), (st_eol _ HS)|by apply (st_adv _ HS)|done].
Qed.

Lemma qmark_inv z : P z -> flow_all P E (z_qmark z).
Proof.
  intros H. unfold z_qmark. destruct (Z.eqb_spec (peek z 0) 63); [|exact H].
  destruct (mixed_style _ _) eqn:Em;
    [by apply (ii_mixed_qmark _ _ _ HP z)|by apply (ii_qmark _ _ _ HP)].
Qed.

Lemma percent_inv z : P z -> flow_all P E (z_percent alloc_ok z).
Proof.
  intros H. unfold z_percent. destruct (_ && _) eqn:E0; [|exact H].
  apply andb_prop in E0 as [E0%Z.eqb_eq _]. unfold z_format.
  destruct (_ || _) eqn:E1; [destruct (mixed_style _ _) eqn:Em|].
  { apply (ii_mixed_format _ _ _ HP z); [done|done|lia|done]. }
  { apply (ii_format _ _ _ HP); [done|done|lia|done]. }
  simpl. clear E1. unfold z_pyformat. destruct (Z.eqb_spec (peek z 1) 40) as [E1|]; [|exact H].
  assert (Hmem := λ site k, ii_memory _ _ _ HP z site k H E0).
  destruct (zrest z) as [|c [|c1 rest]] eqn:Er; unfold peek in E0, E1; rewrite Er in E0, E1; try done.
  simpl in E0, E1. subst c c1. simpl drop. rewrite drop_0.
  destruct (strstr2 _ _ _) as [d|] eqn:Hd; [|exact H].
  destruct (find_close_split rest d Hd) as (key & tail & -> & -> & Hk).
  destruct (mixed_style _ _) eqn:Em; [by eapply (ii_mixed_pyformat _ _ _ HP)|].
  destruct (grow_keys _ _) as [ks|] eqn:Eg.
  2: { unfold grow_keys in Eg. repeat case_match; try done; by eapply Hmem. }
  destruct (alloc_ok KeyCalloc _) eqn:Ec; [|by eapply Hmem].
  simpl. rewrite Nat.sub_0_r, take_app_length.
  replace (S (length key + 3)) with (length key + 4)%nat by lia.
  eapply (ii_pyformat _ _ _ HP); eauto.
  unfold grow_keys in Eg. simpl in Eg. destruct (keys (zp z)); case_match; by simplify_eq.
Qed.

Lemma keywords_inv is_batch z : P z -> flow_all P E (z_keywords is_batch z).
Proof.
  intros H. unfold z_keywords. destruct is_batch.
  - unfold z_batch. set (z1 := if _ && ((_ || _) || _) then _ else z).
    assert (H1 : P z1).
    { subst z1. case_match; [by apply (st_adv _ HS), (st_insert _ HS)|done]. }
    clearbody z1. case_match; [by apply (st_adv _ HS), (st_values _ HS)|done].
  - unfold z_command. case_match; [by apply (st_command _ HS)|done].
Qed.

Lemma body_inv is_batch z : P z -> flow_all P E (z_body alloc_ok is_batch z).
Proof.
  intros H. unfold z_body.
  repeat (apply flow_all_bind; [|intros ? ?]);
    eauto using literals_inv, in_literal_inv, comments_inv, eol_inv, qmark_inv, percent_inv,
      keywords_inv.
  apply (st_last _ HS (z_adv 1 _)). by apply (st_adv _ HS).
Qed.

(** The invariant holds of the final state of a successful scan. *)
Lemma loop_inv is_batch n fuel cont z q :
  P z -> z_loop alloc_ok is_batch n fuel cont z = Some (ParseOk q) ->
  ∃ z', P z' ∧ zrest z' = [] ∧
        q = set_statement_str (zout z')
              (set_statement_length (Z.of_nat (length (zout z'))) (zp z')).
Proof.
  revert cont z. induction fuel as [|fuel IH]; intros cont z H; simpl; [done|].
  pose proof (body_inv is_batch z H) as Hb.
  destruct (cont || more_than 0 z) eqn:Ec.
  - destruct (z_body _ _ _) as [z'|z'|z'| |]; simpl in Hb; try done; by apply IH.
  - intros [= <-]. exists z. split_and!; [done| |done].
    apply orb_false_iff in Ec as [_ Ec]. unfold more_than in Ec. by destruct (zrest z).
Qed.

Lemma loop_inv_error is_batch n fuel cont z q m :
  P z -> z_loop alloc_ok is_batch n fuel cont z = Some (ParseError q m) ->
  ∃ msg, E msg ∧ m = parser_error n msg.
Proof.
  revert cont z. induction fuel as [|fuel IH]; intros cont z H; simpl; [done|].
  pose proof (body_inv is_batch z H) as Hb.
  destruct (cont || more_than 0 z) eqn:Ec; [|done].
  destruct (z_body _ _ _) as [z'|z'|z'|z' msg|]; simpl in Hb; try done; try by apply IH.
  intros [= <- <-]. by exists msg.
Qed.

End Inv.

Lemma parse_ok_inv alloc_ok P E is_batch n v stmt p :
  inductive_inv alloc_ok P E -> P (mkZip (init_parser v stmt) [] stmt 0) ->
  stmt ≠ [] -> Z.of_nat (length stmt) < 2 ^ 63 ->
  MrdbParser_parse alloc_ok (Some (init_parser v stmt)) is_batch n = ParseOk p ->
  ∃ z junk, P z ∧ zrest z = [] ∧
    p = set_statement_str (zout z ++ 0 :: junk)
          (set_statement_length (Z.of_nat (length (zout z))) (zp z)).
Proof.
  intros HP H0 Hne Hs Hp.
  destruct (parse_refines alloc_ok is_batch n v stmt Hne Hs) as (r & Hr & Hrep).
  rewrite Hp in Hrep. destruct r as [q|[?|] ?| |]; try done. destruct Hrep as [junk ->].
  destruct (loop_inv alloc_ok P E HP is_batch n _ _ _ _ H0 Hr) as (z & Hz & Er & ->).
  exists z, junk. done.
Qed.

Lemma parse_error_inv alloc_ok P E is_batch n v stmt q m :
  inductive_inv alloc_ok P E -> P (mkZip (init_parser v stmt) [] stmt 0) ->
  stmt ≠ [] -> Z.of_nat (length stmt) < 2 ^ 63 ->
  MrdbParser_parse alloc_ok (Some (init_parser v stmt)) is_batch n = ParseError q m ->
  ∃ msg, E msg ∧ m = parser_error n msg.
Proof.
  intros HP H0 Hne Hs Hp.
  destruct (parse_refines alloc_ok is_batch n v stmt Hne Hs) as (r & Hr & Hrep).
  rewrite Hp in Hrep. destruct r as [?|[r|] m'| |], q; try done. destruct Hrep as [<- _].
  by apply (loop_inv_error alloc_ok P E HP is_batch n _ _ _ _ _ H0 Hr).
Qed.

(** ** The parameter list *)

Lemma rd_app_l (l l' : list Z) i c : rd l i = Some c -> rd (l ++ l') i = Some c.
Proof. unfold rd. destruct (0 <=? i); [|done]. apply lookup_app_l_Some. Qed.

Lemma rd_range l i c : rd l i = Some c -> 0 <= i < Z.of_nat (length l).
Proof.
  unfold rd. destruct (0 <=? i) eqn:E; [|done]. intros Hl%lookup_lt_Some. lia.
Qed.

Lemma rd_snoc (l : list Z) c : rd (l ++ [c]) (Z.of_nat (length l)) = Some c.
Proof. rewrite <- (Z.add_0_r (Z.of_nat _)). apply (rd_app l [c] 0). Qed.

(** A name as [p->keys] stores it: a terminated copy with its length. *)
Definition key_ok (k : MrdbKey) : Prop :=
  ∃ name, k = mkKey (Some (name ++ [0])) (Z.of_nat (length name)) ∧ Forall (λ c, c ≠ 0) name.

(** Markers recorded so far: offsets of question marks in the text produced,
    in increasing order, counted modulo the width of [param_count]; the style
    is set by the first one; named markers have one name each. *)
Record markers (p : MrdbParser) (text : list Z) : Prop := {
  mk_sorted : StronglySorted Z.lt (param_list p);
  mk_marks : Forall (λ i, rd text i = Some 63) (param_list p);
  mk_count : param_count p = u32 (Z.of_nat (length (param_list p)));
  mk_style : paramstyle p = NONE ↔ param_list p = [];
  mk_keys : match keys p with
            | None => paramstyle p ≠ PYFORMAT
            | Some ks => paramstyle p = PYFORMAT ∧ length ks = length (param_list p) ∧ Forall key_ok ks
            end;
}.

Lemma markers_app p text text' : markers p text -> markers p (text ++ text').
Proof.
  intros [Hs Hm Hc Hst Hk]. constructor; [done| |done|done|done].
  eapply Forall_impl; [|exact Hm]. intros i. apply rd_app_l.
Qed.

Lemma u32_succ n : u32 (u32 (Z.of_nat n) + 1) = u32 (Z.of_nat (S n)).
Proof. unfold u32. rewrite Zplus_mod_idemp_l. f_equal. lia. Qed.

Lemma sorted_snoc (l : list Z) x :
  StronglySorted Z.lt l -> Forall (λ y, y < x) l -> StronglySorted Z.lt (l ++ [x]).
Proof.
  induction 1 as [|y l Hs IH Hy]; intros Hx; simpl; [repeat constructor|].
  inversion Hx; subst. constructor; [by apply IH|]. apply Forall_app. by repeat constructor.
Qed.

(** Recording a marker, when the names keep up with it. *)
Lemma markers_add p text st ks :
  markers p text -> st ≠ NONE ->
  (match ks with
   | None => keys p = None ∧ st ≠ PYFORMAT
   | Some ks => st = PYFORMAT ∧ length ks = S (length (param_list p)) ∧ Forall key_ok ks
   end) ->
  markers (set_keys ks (add_param st (Z.of_nat (length text)) p)) (text ++ [63]).
Proof.
  intros [Hs Hm Hc Hst Hk] Hn Hks. constructor; simpl.
  - apply sorted_snoc; [done|]. eapply Forall_impl; [|exact Hm]. intros i Hi. simpl in Hi.
    apply rd_range in Hi. lia.
  - apply Forall_app. split; [|constructor; [apply rd_snoc|done]].
    eapply Forall_impl; [|exact Hm]. intros i. apply rd_app_l.
  - rewrite Hc, u32_succ, length_app. simpl. do 2 f_equal. lia.
  - split; [done|]. by destruct (param_list p).
  - destruct ks as [ks|]; [|by destruct Hks].
    destruct Hks as (-> & Hl & Hf). split_and!; [done| |done]. rewrite length_app. simpl. lia.
Qed.

Lemma mixed_false p st :
  mixed_style p st = false -> paramstyle p = NONE ∨ paramstyle p = st.
Proof.
  unfold mixed_style. intros H. destruct (decide (paramstyle p = NONE)); [by left|].
  destruct (decide (paramstyle p = st)); [by right|].
  by rewrite !bool_decide_true in H.
Qed.

Lemma markers_keys_none p text st :
  markers p text -> mixed_style p st = false -> st ≠ PYFORMAT -> keys p = None.
Proof.
  intros [_ _ _ _ Hk] Hm Hst. destruct (keys p); [|done].
  destruct Hk as [Hk _]. apply mixed_false in Hm as [|]; congruence.
Qed.

Lemma add_param_keys st i p : set_keys (keys p) (add_param st i p) = add_param st i p.
Proof. done. Qed.

Lemma markers_inductive alloc_ok :
  inductive_inv alloc_ok (λ z, markers (zp z) (zout z)) (λ _, True).
Proof.
  split; try done.
  - split; intros z; intros; try (destruct H; by constructor). by apply markers_app.
  - intros z Hz _ Hm. pose proof (markers_keys_none _ _ _ Hz Hm ltac:(done)) as Hk. simpl.
    rewrite <- add_param_keys, Hk. by apply markers_add.
  - intros z Hz _ _ Hm. pose proof (markers_keys_none _ _ _ Hz Hm ltac:(done)) as Hk. simpl.
    rewrite <- add_param_keys, Hk. by apply markers_add.
  - intros z key tail ks Hz _ Hkey Hm ->. simpl. apply markers_add; [done|done|].
    destruct Hz as [_ _ _ Hst Hk]. split; [done|]. rewrite length_app. simpl.
    assert (Hok : key_ok (mkKey (Some (key ++ [0])) (Z.of_nat (length key)))) by (by exists key).
    destruct (keys (zp z)) as [ks|]; simpl.
    + destruct Hk as (_ & -> & Hf). split; [lia|]. apply Forall_app. by repeat constructor.
    + apply mixed_false in Hm as [Hm|]; [|done]. apply Hst in Hm. rewrite Hm. by repeat constructor.
Qed.

Lemma markers_init v stmt : markers (init_parser v stmt) [].
Proof. constructor; simpl; by repeat constructor. Qed.

(** ** Length and text *)

Lemma length_inductive alloc_ok N :
  inductive_inv alloc_ok (λ z, (length (zout z) + length (zrest z) <= N)%nat) (λ _, True).
Proof.
  split; try done.
  - split; intros z; intros; simpl in *; try done.
    rewrite length_app, length_take, length_drop. lia.
  - intros z Hz Hp _. assert (Hb : (0 < length (zrest z))%nat) by (apply peek_bound; lia).
    simpl. rewrite length_app, length_drop. simpl. lia.
  - intros z Hz _ Hp _. assert (Hb : (1 < length (zrest z))%nat) by (apply peek_bound; lia).
    simpl. rewrite length_app, length_drop. simpl. lia.
  - intros z key tail ks Hz Hr _ _ _. rewrite Hr in Hz. simpl. rewrite Hr, length_app, length_drop.
    simpl in *. rewrite length_app in Hz |- *. simpl in *. lia.
Qed.

Lemma sorted_length (l : list Z) lo hi :
  lo <= hi -> StronglySorted Z.lt l -> Forall (λ i, lo <= i < hi) l -> Z.of_nat (length l) <= hi - lo.
Proof.
  intros Hlh Hs. revert lo Hlh.
  induction Hs as [|x l Hs IH Hx]; intros lo Hlh Hf; simpl; [lia|].
  inversion Hf as [|? ? Hxr Hfl]; subst.
  assert (Z.of_nat (length l) <= hi - (x + 1)); [|lia].
  apply IH; [lia|]. rewrite Forall_forall in *. intros y Hy.
  specialize (Hx y Hy). specialize (Hfl y Hy). simpl in *. lia.
Qed.

(** Without a percent sign, nothing is rewritten and no style can clash. *)
Lemma plain_inductive alloc_ok stmt :
  Forall (λ c, c ≠ 37) stmt ->
  inductive_inv alloc_ok
    (λ z, zout z ++ zrest z = stmt ∧ (paramstyle (zp z) = NONE ∨ paramstyle (zp z) = QMARK))
    (λ _, False).
Proof.
  intros Hn.
  assert (Hp : ∀ z, zout z ++ zrest z = stmt -> peek z 0 ≠ 37).
  { intros z Hz E. unfold peek in E. destruct (zrest z) as [|c l]; [done|]. simpl in E. subst c stmt.
    apply Forall_app in Hn as [_ Hn]. by inversion Hn. }
  split.
  - split; intros z; intros; simpl in *; try done.
    by rewrite <- app_assoc, take_drop.
  - intros z [Hz Hst] E _. simpl. split; [|by right].
    unfold peek in E. destruct (zrest z) as [|c l]; [done|]. simpl in E. subst c. simpl.
    by rewrite drop_0, <- app_assoc.
  - intros z [Hz _] E. by apply Hp in E.
  - intros z key tail ks [Hz _] E. by destruct (Hp z Hz); unfold peek; rewrite E.
  - intros z [Hz Hst] _. unfold mixed_style. by destruct Hst as [-> | ->].
  - intros z [Hz _] E. by apply Hp in E.
  - intros z key tail [Hz _] E. by destruct (Hp z Hz); unfold peek; rewrite E.
  - intros z site k [Hz _] E. by apply Hp in E.
Qed.

(** ** Mixed markers *)

(** The text of a marker, by its style. *)
Definition is_marker (st : enum_paramstyle) (s : list Z) : Prop :=
  match st with
  | NONE => False
  | QMARK => s = bytes_of_string "?"
  | FORMAT => s = bytes_of_string "%s" ∨ s = bytes_of_string "%d"
  | PYFORMAT => ∃ name, s = bytes_of_string "%(" ++ name ++ bytes_of_string ")s"
  end.

(** A statement with markers of two styles. *)
Definition mixes (stmt : list Z) : Prop :=
  ∃ st st' pre m mid m' post,
    st ≠ st' ∧ is_marker st m ∧ is_marker st' m' ∧ stmt = pre ++ m ++ mid ++ m' ++ post.

(** What was read, and in it a marker of the style that is set. *)
Definition read_marker (stmt : list Z) (z : zip) : Prop :=
  ∃ before, stmt = before ++ zrest z ∧
    (paramstyle (zp z) ≠ NONE -> ∃ pre m mid, before = pre ++ m ++ mid ∧ is_marker (paramstyle (zp z)) m).

Lemma read_marker_adv stmt z n : read_marker stmt z -> read_marker stmt (z_adv n z).
Proof.
  intros (before & -> & Hm). exists (before ++ take n (zrest z)). simpl.
  rewrite <- app_assoc, take_drop. split; [done|]. intros H.
  destruct (Hm H) as (pre & m & mid & -> & Hi). exists pre, m, (mid ++ take n (zrest z)).
  by rewrite <- !app_assoc.
Qed.

Lemma read_marker_stable stmt : stable (read_marker stmt).
Proof. split; [intros; by apply read_marker_adv|..]; intros z v H; exact H. Qed.

(** A marker is read. *)
Lemma read_marker_param stmt z st m tail z' :
  read_marker stmt z -> zrest z = m ++ tail -> is_marker st m ->
  zrest z' = tail -> paramstyle (zp z') = st -> read_marker stmt z'.
Proof.
  intros (before & -> & _) Hz Hm <- <-. exists (before ++ m). rewrite Hz, <- app_assoc. split; [done|].
  intros _. exists before, m, []. by rewrite app_nil_r.
Qed.

Lemma read_marker_mixed stmt z st m tail :
  read_marker stmt z -> zrest z = m ++ tail -> is_marker st m -> mixed_style (zp z) st = true ->
  mixes stmt.
Proof.
  intros (before & -> & Hb) Hz Hm [H1%bool_decide_eq_true H2%bool_decide_eq_true]%andb_prop.
  destruct (Hb H1) as (pre & m1 & mid & -> & Hi). exists (paramstyle (zp z)), st, pre, m1, mid, m, tail.
  rewrite Hz, <- !app_assoc. by split_and!.
Qed.

Lemma peek1_split z a : peek z 0 = a -> a ≠ 0 -> zrest z = [a] ++ drop 1 (zrest z).
Proof. unfold peek. destruct (zrest z); simpl; [congruence|]. by intros ->. Qed.

Lemma peek2_split z a b :
  peek z 0 = a -> peek z 1 = b -> a ≠ 0 -> b ≠ 0 -> zrest z = [a; b] ++ drop 2 (zrest z).
Proof.
  unfold peek. destruct (zrest z) as [|c [|d l]]; simpl; try congruence. by intros -> ->.
Qed.

Lemma format_split z :
  peek z 0 = 37 -> peek z 1 = 115 ∨ peek z 1 = 100 ->
  ∃ m, zrest z = m ++ drop 2 (zrest z) ∧ is_marker FORMAT m.
Proof.
  intros H0 [H1|H1]; eexists; (split; [by apply peek2_split|]); [by left|by right].
Qed.

Lemma pyformat_split key tail :
  37 :: 40 :: key ++ 41 :: 115 :: tail = (bytes_of_string "%(" ++ key ++ bytes_of_string ")s") ++ tail.
Proof. rewrite <- app_assoc. simpl. by rewrite <- app_assoc. Qed.

Lemma cause_inductive alloc_ok stmt :
  inductive_inv alloc_ok (read_marker stmt)
    (λ m, (m = mixing_msg ∧ mixes stmt) ∨ (m = memory_msg ∧ ∃ site k, alloc_ok site k = false)).
Proof.
  split.
  - apply read_marker_stable.
  - intros z Hz H0 _. eapply (read_marker_param _ z QMARK); [done|by apply peek1_split|done..].
  - intros z Hz H0 H1 _. destruct (format_split z H0 H1) as (m & Hm & Hi).
    by eapply (read_marker_param _ z FORMAT m).
  - intros z key tail ks Hz Hr _ _ _. rewrite pyformat_split in Hr.
    eapply (read_marker_param _ z PYFORMAT); [done|exact Hr|by eexists| |done]. simpl.
    rewrite Hr. replace (length key + 4)%nat with (length (bytes_of_string "%(" ++ key ++ bytes_of_string ")s"))
      by (rewrite !length_app; simpl; lia). apply drop_app_length.
  - intros z Hz H0 Hm. left. split; [done|]. by eapply (read_marker_mixed _ z QMARK); [|apply peek1_split|..].
  - intros z Hz H0 H1 Hm. left. split; [done|]. destruct (format_split z H0 H1) as (m & Hs & Hi).
    by eapply (read_marker_mixed _ z FORMAT m).
  - intros z key tail Hz Hr Hm. left. split; [done|]. rewrite pyformat_split in Hr.
    by eapply (read_marker_mixed _ z PYFORMAT); [|exact Hr|eexists|].
  - intros z site k _ _ Ha. right. eauto.
Qed.

(** ** Properties of [MrdbParser_parse] *)

Lemma init_ok_inv a b v stmt p :
  MrdbParser_init a b v stmt = InitOk p -> ∃ s, stmt = Some s ∧ s ≠ [] ∧ p = init_parser v s.
Proof.
  destruct stmt as [[|c stmt]|]; simpl; try done. destruct a, b; try done.
  intros [= <-]. by exists (c :: stmt).
Qed.

(** C1: On every statement that [MrdbParser_init] accepts, in both modes, for
    every server version and every pattern of failing allocations,
    [MrdbParser_parse] terminates and returns 0 or 1: no read, write, [memmove]
    or string scan leaves the [length + 1] bytes of the statement block, and
    [length + 2] iterations of the loop are enough. *)
Theorem parse_safe_and_total (alloc_ok : alloc_site -> Z -> bool) (is_batch : bool)
    (errmsg_len : nat) (v : Z) (stmt : list Z) (p : MrdbParser)
    (Hinit : MrdbParser_init true true v (Some stmt) = InitOk p)
    (Hlen : Z.of_nat (length stmt) < 2 ^ 63) :
  (∃ q, MrdbParser_parse alloc_ok (Some p) is_batch errmsg_len = ParseOk q) ∨
  (∃ q m, MrdbParser_parse alloc_ok (Some p) is_batch errmsg_len = ParseError (Some q) m).
Proof.
  apply init_ok_inv in Hinit as (s & [= <-] & Hne & ->).
  destruct (parse_refines alloc_ok is_batch errmsg_len v stmt Hne Hlen) as (r & _ & Hr).
  destruct (MrdbParser_parse _ _ _ _) as [q|[q|] m| |], r as [?|[?|] ?| |]; try done; eauto.
Qed.

(** C2: The in-place scan implements the reference parser: for every statement
    the reference parser gives a result, and the C parser gives the same one,
    its text standing NUL-terminated at the start of the block. *)
Theorem parse_refines_reference (alloc_ok : alloc_site -> Z -> bool) (is_batch : bool)
    (errmsg_len : nat) (v : Z) (stmt : list Z) (p : MrdbParser)
    (Hinit : MrdbParser_init true true v (Some stmt) = InitOk p)
    (Hlen : Z.of_nat (length stmt) < 2 ^ 63) :
  ∃ r, ref_parse alloc_ok is_batch errmsg_len v stmt = Some r ∧
       result_rep r (MrdbParser_parse alloc_ok (Some p) is_batch errmsg_len).
Proof.
  apply init_ok_inv in Hinit as (s & [= <-] & Hne & ->). by apply parse_refines.
Qed.

(** What a successful parse leaves in the parser. *)
Lemma parse_parameter_facts (alloc_ok : alloc_site -> Z -> bool) (is_batch : bool)
    (errmsg_len : nat) (v : Z) (stmt : list Z) (p q : MrdbParser)
    (Hinit : MrdbParser_init true true v (Some stmt) = InitOk p)
    (Hlen : Z.of_nat (length stmt) < 2 ^ 32)
    (Hparse : MrdbParser_parse alloc_ok (Some p) is_batch errmsg_len = ParseOk q) :
  param_count q = Z.of_nat (length (param_list q)) ∧
  StronglySorted Z.lt (param_list q) ∧
  Forall (λ i, 0 <= i < statement_length q ∧ rd (statement_str q) i = Some 63) (param_list q) ∧
  0 <= statement_length q <= Z.of_nat (length stmt) ∧
  rd (statement_str q) (statement_length q) = Some 0 ∧
  (paramstyle q = NONE ↔ param_list q = []) ∧
  match keys q with
  | None => paramstyle q ≠ PYFORMAT
  | Some ks => paramstyle q = PYFORMAT ∧ length ks = length (param_list q) ∧ Forall key_ok ks
  end.
Proof.
  apply init_ok_inv in Hinit as (s & [= <-] & Hne & ->).
  assert (HI : inductive_inv alloc_ok (λ z, markers (zp z) (zout z) ∧
                 (length (zout z) + length (zrest z) <= length stmt)%nat) (λ _, True)).
  { destruct (markers_inductive alloc_ok), (length_inductive alloc_ok (length stmt)).
    destruct ii_stable0, ii_stable1.
    split; [split|..]; intros; destruct_and?; try done; split; eauto. }
  destruct (parse_ok_inv alloc_ok _ _ is_batch errmsg_len v stmt q HI) as
    (z & junk & [Hz Hl] & Er & ->); [split; [apply markers_init|done]|done|lia|done|].
  rewrite Er in Hl. simpl in Hl. destruct Hz as [Hs Hm Hc Hst Hk]. simpl.
  assert (Hr : Forall (λ i, 0 <= i < Z.of_nat (length (zout z))) (param_list (zp z))).
  { eapply Forall_impl; [|exact Hm]. intros i Hi. by apply rd_range in Hi. }
  pose proof (sorted_length _ 0 (Z.of_nat (length (zout z))) ltac:(lia) Hs Hr) as Hn.
  split_and!; [|done| |lia|lia| |done|done].
  - rewrite Hc. unfold u32. apply Z.mod_small. lia.
  - rewrite Forall_forall in *. intros i Hi. split; [by apply Hr|]. by apply rd_app_l, Hm.
  - rewrite <- (Z.add_0_r (Z.of_nat _)). apply (rd_app (zout z) (0 :: junk) 0).
Qed.

(** C17: After a successful parse of a statement below 4 GiB, [param_list] holds
    [param_count] offsets in increasing order, each inside the statement and
    each the offset of a question mark in the rewritten text; the text is not
    longer than the input and is NUL-terminated inside its block; a paramstyle
    is set exactly when there is a parameter; named parameters have exactly one
    NUL-terminated name per marker, the other styles have none. *)
Theorem parse_parameter_list (alloc_ok : alloc_site -> Z -> bool) (is_batch : bool)
    (errmsg_len : nat) (v : Z) (stmt : list Z) (p q : MrdbParser)
    (Hinit : MrdbParser_init true true v (Some stmt) = InitOk p)
    (Hlen : Z.of_nat (length stmt) < 2 ^ 32)
    (Hparse : MrdbParser_parse alloc_ok (Some p) is_batch errmsg_len = ParseOk q) :
  param_count q = Z.of_nat (length (param_list q)) ∧
  StronglySorted Z.lt (param_list q) ∧
  Forall (λ i, 0 <= i < statement_length q ∧ rd (statement_str q) i = Some 63) (param_list q) ∧
  0 <= statement_length q <= Z.of_nat (length stmt) ∧
  rd (statement_str q) (statement_length q) = Some 0 ∧
  (paramstyle q = NONE ↔ param_list q = []) ∧
  match keys q with
  | None => paramstyle q ≠ PYFORMAT
  | Some ks => paramstyle q = PYFORMAT ∧ length ks = length (param_list q) ∧ Forall key_ok ks
  end.
Proof. exact (parse_parameter_facts alloc_ok is_batch errmsg_len v stmt p q Hinit Hlen Hparse). Qed.

Lemma free_key_strings_all ks i n :
  Forall key_ok ks -> (i + n <= length ks)%nat ->
  free_key_strings ks i n = Some (FreedKey <$> seq i n).
Proof.
  intros Hk. revert i. induction n as [|n IH]; intros i Hn; [done|]. simpl.
  destruct (lookup_lt_is_Some_2 ks i) as [k Hi]; [lia|]. rewrite Hi, IH by lia. simpl.
  rewrite Forall_lookup in Hk. specialize (Hk i k Hi). unfold key_ok in Hk.
  destruct Hk as (name & Hs & _). by rewrite Hs.
Qed.

(** What [MrdbParser_end] frees. *)
Lemma parser_end_facts (alloc_ok : alloc_site -> Z -> bool) (is_batch : bool)
    (errmsg_len : nat) (v : Z) (stmt : list Z) (p q : MrdbParser)
    (Hinit : MrdbParser_init true true v (Some stmt) = InitOk p)
    (Hlen : Z.of_nat (length stmt) < 2 ^ 32)
    (Hparse : MrdbParser_parse alloc_ok (Some p) is_batch errmsg_len = ParseOk q) :
  MrdbParser_end (Some q) =
  Some (match keys q with
        | Some ks => (FreedKey <$> seq 0 (length ks)) ++ [FreedKeys]
        | None => []
        end ++ [FreedStatement; FreedParser]).
Proof.
  destruct (parse_parameter_facts alloc_ok is_batch errmsg_len v stmt p q Hinit Hlen Hparse)
    as (Hc & _ & _ & _ & _ & _ & Hk).
  unfold MrdbParser_end. destruct (keys q) as [ks|]; [|done]. destruct Hk as (_ & Hl & Hk).
  rewrite Hc, Nat2Z.id, <- Hl, free_key_strings_all by (done || lia).
  simpl. by rewrite <- app_assoc.
Qed.

(** C34: After a successful parse of a statement below 4 GiB, [MrdbParser_end]
    stays inside [p->keys] and frees every block exactly once: each name, the
    array of names when there is one, the statement and the parser. *)
Theorem parser_end_frees_all (alloc_ok : alloc_site -> Z -> bool) (is_batch : bool)
    (errmsg_len : nat) (v : Z) (stmt : list Z) (p q : MrdbParser)
    (Hinit : MrdbParser_init true true v (Some stmt) = InitOk p)
    (Hlen : Z.of_nat (length stmt) < 2 ^ 32)
    (Hparse : MrdbParser_parse alloc_ok (Some p) is_batch errmsg_len = ParseOk q) :
  MrdbParser_end (Some q) =
  Some (match keys q with
        | Some ks => (FreedKey <$> seq 0 (length ks)) ++ [FreedKeys]
        | None => []
        end ++ [FreedStatement; FreedParser]).
Proof. exact (parser_end_facts alloc_ok is_batch errmsg_len v stmt p q Hinit Hlen Hparse). Qed.

(** A statement without a percent sign always parses, whatever the
    allocator does, and its text and length are left exactly as given: only the
    question marks outside literals and comments are recorded. *)
Theorem parse_without_percent (alloc_ok : alloc_site -> Z -> bool) (is_batch : bool)
    (errmsg_len : nat) (v : Z) (stmt : list Z) (p : MrdbParser)
    (Hinit : MrdbParser_init true true v (Some stmt) = InitOk p)
    (Hlen : Z.of_nat (length stmt) < 2 ^ 63)
    (Hplain : Forall (λ c, c ≠ 37) stmt) :
  ∃ q, MrdbParser_parse alloc_ok (Some p) is_batch errmsg_len = ParseOk q ∧
       statement_length q = Z.of_nat (length stmt) ∧
       take (length stmt) (statement_str q) = stmt ∧
       (paramstyle q = NONE ∨ paramstyle q = QMARK).
Proof.
  apply init_ok_inv in Hinit as (s & [= <-] & Hne & ->).
  assert (HI := plain_inductive alloc_ok stmt Hplain).
  assert (H0 : [] ++ stmt = stmt ∧ (NONE = NONE ∨ NONE = QMARK)) by (split; [done|by left]).
  destruct (MrdbParser_parse alloc_ok (Some (init_parser v stmt)) is_batch errmsg_len)
    as [q|q m| |] eqn:Hp.
  - exists q. split; [done|].
    destruct (parse_ok_inv alloc_ok _ _ is_batch errmsg_len v stmt q HI H0 Hne Hlen Hp)
      as (z & junk & [Hz Hst] & Er & ->).
    rewrite Er, app_nil_r in Hz. simpl. rewrite Hz, take_app_length. done.
  - by destruct (parse_error_inv alloc_ok _ _ is_batch errmsg_len v stmt q m HI H0 Hne Hlen Hp)
      as (msg & [] & _).
  - destruct (parse_refines alloc_ok is_batch errmsg_len v stmt Hne Hlen) as (r & _ & Hr).
    rewrite Hp in Hr. by destruct r as [|[]| |].
  - destruct (parse_refines alloc_ok is_batch errmsg_len v stmt Hne Hlen) as (r & _ & Hr).
    rewrite Hp in Hr. by destruct r as [|[]| |].
Qed.


(** ** The properties at concrete statements *)

Definition demo_qmark : list Z := bytes_of_string "SELECT ? /* a ? */".
Definition demo_format : list Z := bytes_of_string "SELECT %s, %d".
Definition demo_names : list Z := bytes_of_string "SELECT %(a)s, %(bc)s FROM t".
Definition demo_mixed : list Z := bytes_of_string "SELECT %s, ?".
Definition always (_ : alloc_site) (_ : Z) : bool := true.

Lemma parse_safe_and_total_witness :
  (∃ q, MrdbParser_parse always (Some (init_parser 100500 demo_names)) false 128 = ParseOk q) ∨
  (∃ q m, MrdbParser_parse always (Some (init_parser 100500 demo_names)) false 128
          = ParseError (Some q) m).
Proof.
  apply (parse_safe_and_total always false 128 100500 demo_names); vm_compute; reflexivity.
Defined.

Lemma parse_refines_reference_witness :
  ∃ r, ref_parse always false 128 100500 demo_format = Some r ∧
       result_rep r (MrdbParser_parse always (Some (init_parser 100500 demo_format)) false 128).
Proof.
  apply (parse_refines_reference always false 128 100500 demo_format); vm_compute; reflexivity.
Defined.

Definition demo_names_parsed : MrdbParser :=
  match MrdbParser_parse always (Some (init_parser 100500 demo_names)) false 128 with
  | ParseOk q => q
  | _ => init_parser 0 []
  end.

Lemma parse_parameter_list_witness :
  param_list demo_names_parsed = [7; 10] ∧
  Forall (λ i, 0 <= i < statement_length demo_names_parsed
               ∧ rd (statement_str demo_names_parsed) i = Some 63) (param_list demo_names_parsed).
Proof.
  split; [vm_compute; reflexivity|].
  apply (parse_parameter_list always false 128 100500 demo_names (init_parser 100500 demo_names));
    vm_compute; reflexivity.
Defined.

Lemma parse_without_percent_witness :
  ∃ q, MrdbParser_parse always (Some (init_parser 100500 demo_qmark)) false 128 = ParseOk q ∧
       statement_length q = Z.of_nat (length demo_qmark) ∧
       take (length demo_qmark) (statement_str q) = demo_qmark ∧
       (paramstyle q = NONE ∨ paramstyle q = QMARK).
Proof.
  apply (parse_without_percent always false 128 100500 demo_qmark); [vm_compute; reflexivity..|].
  apply (bool_decide_unpack _). vm_compute. exact I.
Defined.

Definition demo_mixed_state : option MrdbParser :=
  match MrdbParser_parse always (Some (init_parser 100500 demo_mixed)) false 128 with
  | ParseError q _ => q
  | _ => None
  end.


Lemma parser_end_frees_all_witness :
  MrdbParser_end (Some demo_names_parsed) =
  Some [FreedKey 0; FreedKey 1; FreedKeys; FreedStatement; FreedParser].
Proof.
  change [FreedKey 0; FreedKey 1; FreedKeys; FreedStatement; FreedParser]
    with (match keys demo_names_parsed with
          | Some ks => (FreedKey <$> seq 0 (length ks)) ++ [FreedKeys]
          | None => []
          end ++ [FreedStatement; FreedParser]).
  apply (parser_end_frees_all always false 128 100500 demo_names (init_parser 100500 demo_names));
    vm_compute; reflexivity.
Defined.

(** ** Where the parser departs from SQL *)

(** The number of parameters found in a statement. *)
Definition found (stmt : list Z) : option Z :=
  match MrdbParser_parse always (Some (init_parser 100500 stmt)) false 128 with
  | ParseOk q => Some (param_count q)
  | _ => None
  end.

(** Quotes toggle a literal wherever they stand: an apostrophe in a comment or
    in a literal between other quotes, and a quote escaped by a backslash,
    hide the parameters behind them. *)
Lemma quotes_hide_parameters :
  found (bytes_of_string "SELECT 1 /* don't */, ?") = Some 0 ∧
  found (bytes_of_string "SELECT 'don" ++ [92; 39] ++ bytes_of_string "t', ?") = Some 0 ∧
  found (bytes_of_string "SELECT " ++ [34] ++ bytes_of_string "don't" ++ [34]
         ++ bytes_of_string ", ?") = Some 0 ∧
  found (bytes_of_string "SELECT 'dont', ?") = Some 1.
Proof. vm_compute. repeat split; reflexivity. Qed.

(** A slash-star in a line comment opens a comment that outlives the line. *)
Lemma line_comment_opens_comment :
  found (bytes_of_string "SELECT 1 # a/*b" ++ [10] ++ bytes_of_string ", ?") = Some 0 ∧
  found (bytes_of_string "SELECT 1 # a b" ++ [10] ++ bytes_of_string ", ?") = Some 1.
Proof. vm_compute. split; reflexivity. Qed.

(** When the array of names cannot grow, [p->param_count] already counts the
    missing name, and [MrdbParser_end] reads one element past the array. *)
Lemma parser_end_after_failed_realloc :
  match MrdbParser_parse (λ site _, negb (match site with KeysRealloc => true | _ => false end))
          (Some (init_parser 100500 demo_names)) false 128 with
  | ParseError (Some q) m => m = memory_msg ∧ MrdbParser_end (Some q) = None
  | _ => False
  end.
Proof. vm_compute. split; reflexivity. Qed.

(** When the parser itself cannot be allocated, [MrdbParser_init] writes
    through the null pointer. *)
Lemma parser_init_out_of_memory v c stmt :
  MrdbParser_init false true v (Some (c :: stmt)) = InitCrash.
Proof. done. Qed.
