(* ===== verification/ParserRoundtrip.v ===== *)
(** * Rendering statements and parsing them back

    A statement is built from segments: code, quoted literals, comments and
    parameters.  Rendering it in any of the three paramstyles and parsing the
    result gives back the question-mark form of the statement, the offset of
    every parameter, and the names.  [segment_ok] describes the texts a segment
    may hold: quotes inside literals and comments have to be closed there,
    because the scan counts them wherever they stand. *)

From S2P Require Import Prelude Parser ParserSpec ParserProps.

(** ** Segments *)

Inductive segment :=
  | Code (s : list Z)          (** SQL text outside literals and comments *)
  | Quoted (q : Z) (s : list Z) (** a literal between two quotes [q] *)
  | Comment (s : list Z)       (** a comment in slash-star form *)
  | Line (dashes : bool) (s : list Z) (** a comment behind a hash or dashes, ended by a newline *)
  | Param (name : list Z).     (** a parameter *)

Definition marker (st : enum_paramstyle) (name : list Z) : list Z :=
  match st with
  | FORMAT => [37; 115]
  | PYFORMAT => 37 :: 40 :: name ++ [41; 115]
  | _ => [63]
  end.

Definition line_start (dashes : bool) : list Z := if dashes then [45; 45; 32] else [35].

Definition render1 (st : enum_paramstyle) (g : segment) : list Z :=
  match g with
  | Code s => s
  | Quoted q s => q :: s ++ [q]
  | Comment s => 47 :: 42 :: s ++ [42; 47]
  | Line dashes s => line_start dashes ++ s ++ [10]
  | Param name => marker st name
  end.

Definition render (st : enum_paramstyle) (gs : list segment) : list Z :=
  concat (render1 st <$> gs).

(** Bytes that mean nothing to the scan. *)
Definition is_quote (c : Z) : bool := (c =? 39) || (c =? 34) || (c =? 96).

Definition plain (c : Z) : bool :=
  negb (is_quote c || (c =? 47) || (c =? 35) || (c =? 45) || (c =? 63) || (c =? 37) || (c =? 92)).

(** Code may use slash, minus and percent, when what follows in the same segment
    does not make them a comment or a marker. *)
Definition harmless_pair (c d : Z) : bool :=
  ((c =? 47) && negb (d =? 42)) || ((c =? 45) && negb (d =? 45))
  || ((c =? 37) && negb (d =? 115) && negb (d =? 100) && negb (d =? 40)).

Fixpoint code_ok (s : list Z) : bool :=
  match s with
  | [] => true
  | c :: s' => (plain c || match s' with d :: _ => harmless_pair c d | [] => false end) && code_ok s'
  end.

(** The scan keeps one flag for each kind of quote and looks at quotes wherever
    they stand; a text whose quotes are closed puts the flags back. *)
Definition toggle (flags : list bool) (c : Z) : list bool :=
  match literal_index c literals with Some i => alter negb i flags | None => flags end.

Definition no_quote : list bool := [false; false; false].

Definition quotes_closed (s : list Z) : bool := bool_decide (foldl toggle no_quote s = no_quote).

(** Comment text: no closing pair, not an executable comment. *)
Fixpoint no_close (s : list Z) : bool :=
  match s with
  | [] => true
  | c :: s' => negb ((c =? 42) && match s' with d :: _ => d =? 47 | [] => false end) && no_close s'
  end.

(** Text of a line comment: nothing that starts another comment. *)
Fixpoint line_text (s : list Z) : bool :=
  match s with
  | [] => true
  | c :: s' =>
      negb ((c =? 0) || (c =? 10) || (c =? 35))
      && match s' with
         | d :: _ => negb ((c =? 47) && (d =? 42)) && negb ((c =? 45) && (d =? 45))
         | [] => true
         end && line_text s'
  end.

Definition segment_ok (g : segment) : bool :=
  match g with
  | Code s => code_ok s
  | Quoted q s => is_quote q && forallb (λ c, negb (c =? q)) s && quotes_closed s
  | Comment s =>
      quotes_closed s && no_close s
      && match s with c :: _ => negb (c =? 33) && negb (c =? 77) | [] => true end
  | Line _ s =>
      quotes_closed s && line_text s && match s with c :: _ => negb (is_quote c) | [] => true end
  | Param name => forallb (λ c, negb (c =? 0) && negb (c =? 41)) name
  end.

(** What the parse must record: offsets in the question-mark form, names. *)
Fixpoint offsets (o : nat) (gs : list segment) : list Z :=
  match gs with
  | [] => []
  | g :: gs' =>
      (match g with Param _ => [Z.of_nat o] | _ => [] end)
      ++ offsets (o + length (render1 QMARK g)) gs'
  end.

Definition names (gs : list segment) : list (list Z) :=
  omap (λ g, match g with Param name => Some name | _ => None end) gs.

Definition key_of (name : list Z) : MrdbKey :=
  mkKey (Some (name ++ [0])) (Z.of_nat (length name)).

(** ** Runs of the reference scan *)

Section Runs.

Context (alloc_ok : alloc_site -> Z -> bool) (errmsg_len : nat).
Context (Halloc : ∀ site k, alloc_ok site k = true).

Local Abbreviation body := (z_body alloc_ok false).
Local Abbreviation loop := (z_loop alloc_ok false errmsg_len).

(** From [(c, z)] the loop comes to [(c', z')]. *)
Definition goes (c : bool) (z : zip) (c' : bool) (z' : zip) : Prop :=
  ∃ k, ∀ n, loop (k + n) c z = loop n c' z'.

Lemma goes_refl c z : goes c z c z.
Proof. by exists O. Qed.

Lemma goes_trans c1 z1 c2 z2 c3 z3 :
  goes c1 z1 c2 z2 -> goes c2 z2 c3 z3 -> goes c1 z1 c3 z3.
Proof.
  intros [k1 H1] [k2 H2]. exists (k1 + k2)%nat. intros n. by rewrite <- Nat.add_assoc, H1, H2.
Qed.

Lemma goes_step (c : bool) z (c' : bool) z' :
  zrest z ≠ [] -> body z = (if c' then Cont z' else Next z') -> goes c z c' z'.
Proof.
  intros Hr Hb. exists 1%nat. intros n. simpl.
  assert (Hm : more_than 0 z = true) by (unfold more_than; by destruct (zrest z)).
  rewrite Hm, orb_true_r, Hb. by destruct c'.
Qed.

Lemma loop_mono fuel fuel' c z r :
  loop fuel c z = Some r -> (fuel <= fuel')%nat -> loop fuel' c z = Some r.
Proof.
  revert fuel' c z. induction fuel as [|fuel IH]; intros fuel' c z H Hle; [done|].
  destruct fuel' as [|fuel']; [lia|]. simpl in *.
  destruct (c || more_than 0 z); [|done].
  destruct (body z); try done; (apply IH; [done|lia]).
Qed.

(** Outside literals and comments. *)
Record top (p : MrdbParser) : Prop := {
  top_literal : in_literal p = [false; false; false];
  top_comment : in_comment p = false;
  top_eol : comment_eol p = false;
}.

(** What the client of the parser sees. *)
Record same_params (p p' : MrdbParser) : Prop := {
  sp_list : param_list p' = param_list p;
  sp_style : paramstyle p' = paramstyle p;
  sp_keys : keys p' = keys p;
}.

Lemma no_literal c : is_quote c = false -> literal_index c literals = None.
Proof.
  unfold is_quote, literal_index, literals. intros H. apply orb_false_iff in H as [[H1 H2]%orb_false_iff H3].
  by rewrite H1, H2, H3.
Qed.

Lemma body_no_literal c p out rest last :
  is_quote c = false ->
  z_literals (mkZip p out (c :: rest) last) = Fall (mkZip p out (c :: rest) last).
Proof. intros H. unfold z_literals, peek. cbn [zrest nth]. by rewrite no_literal. Qed.

(** A byte of code is copied. *)
Lemma goes_code1 c p out b rest last :
  top p -> plain b = true ∨ harmless_pair b (nth 0 rest 0) = true ->
  ∃ p', goes c (mkZip p out (b :: rest) last) false (mkZip p' (out ++ [b]) rest b) ∧
        top p' ∧ same_params p p'.
Proof.
  intros [Hl Hc He] Hb.
  unfold plain, harmless_pair in Hb.
  assert (Hq : is_quote b = false) by (unfold is_quote in *; lia).
  assert (H63 : (b =? 63) = false) by lia.
  assert (H35 : (b =? 35) = false) by lia.
  assert (H47 : (b =? 47) && (nth 0 rest 0 =? 42) = false) by lia.
  assert (H45 : (b =? 45) && (nth 0 rest 0 =? 45) = false) by lia.
  assert (H37 : ∀ last, z_percent alloc_ok (mkZip p out (b :: rest) last)
                        = Fall (mkZip p out (b :: rest) last)).
  { intros l. unfold z_percent, z_format, z_pyformat, peek. cbn [zrest nth zlast].
    destruct (b =? 37) eqn:E; [|done]. destruct (negb (l =? 92)); [|done]. cbn [andb].
    assert ((nth 0 rest 0 =? 115) || (nth 0 rest 0 =? 100) = false) as -> by lia.
    cbn [fbind zrest nth]. change (match rest with [] => 0 | x :: _ => x end) with (nth 0 rest 0).
    by assert ((nth 0 rest 0 =? 40) = false) as -> by lia. }
  assert (Hp : ∃ v, z_command (mkZip p out (b :: rest) last)
                    = Fall (mkZip (set_command v p) out (b :: rest) last)).
  { unfold z_command. destruct (bool_decide _); [by eexists|]. exists (command p). by destruct p. }
  destruct Hp as [v Hp]. exists (set_command v p). split; [|by destruct p].
  apply goes_step; [done|]. unfold z_body. rewrite body_no_literal by done.
  unfold z_in_literal, z_comments, z_style1, z_style2, z_style3, z_eol, z_qmark,
    z_keywords, peek2, peek, IN_LITERAL. simpl.
  rewrite Hl. simpl. rewrite Hc. simpl. rewrite H47. simpl. rewrite H35. simpl.
  rewrite H45. simpl. rewrite He. simpl. rewrite H63. cbn [fbind]. rewrite H37. simpl.
  by rewrite Hp.
Qed.

Lemma goes_code c p out s rest last :
  top p -> last ≠ 92 -> code_ok s = true ->
  ∃ c' p' last', goes c (mkZip p out (s ++ rest) last) c' (mkZip p' (out ++ s) rest last') ∧
                 top p' ∧ same_params p p' ∧ last' ≠ 92.
Proof.
  revert c p out last. induction s as [|b s IH]; intros c p out last Ht Hla Hs.
  { exists c, p, last. rewrite app_nil_r. split_and!; [apply goes_refl|done|done|done]. }
  simpl in Hs. apply andb_prop in Hs as [Hb Hs].
  assert (Hb' : plain b = true ∨ harmless_pair b (nth 0 (s ++ rest) 0) = true)
    by (destruct (plain b); [by left|]; destruct s; [done|by right]).
  destruct (goes_code1 c p out b (s ++ rest) last Ht Hb') as (p1 & Hg & Ht1 & [E1 E2 E3]).
  destruct (IH false p1 (out ++ [b]) b Ht1) as (c' & p' & last' & Hg' & Ht' & [F1 F2 F3] & Hl').
  { unfold plain, harmless_pair in Hb. destruct s; lia. }
  { done. }
  exists c', p', last'. split_and!; [|done| |done].
  - replace (out ++ b :: s) with ((out ++ [b]) ++ s) by (by rewrite <- app_assoc).
    eapply goes_trans; [exact Hg|exact Hg'].
  - constructor; congruence.
Qed.

(** ** Quotes *)

Lemma toggle_flip s i fl : foldl toggle (alter negb i fl) s = alter negb i (foldl toggle fl s).
Proof.
  revert fl. induction s as [|b s IH]; intros fl; [done|]. simpl. rewrite <- IH. f_equal.
  unfold toggle. destruct (literal_index b literals) as [j|]; [|done].
  destruct (decide (i = j)) as [->|Hne]; [done|]. by rewrite (list_alter_alter_ne _ _ _ i j).
Qed.

Lemma closed_flags s : quotes_closed s = true -> foldl toggle no_quote s = no_quote.
Proof. apply bool_decide_eq_true. Qed.

Lemma quote_index b : is_quote b = true -> ∃ i, literal_index b literals = Some i ∧ (i < 3)%nat.
Proof.
  unfold is_quote, literal_index, literals. intros H.
  destruct (b =? 39); [exists 0%nat; split; [done|lia]|].
  destruct (b =? 34); [exists 1%nat; split; [done|lia]|].
  destruct (b =? 96); [exists 2%nat; split; [done|lia]|done].
Qed.

Lemma quote_index_inj b c i :
  literal_index b literals = Some i -> literal_index c literals = Some i -> b = c.
Proof.
  unfold literal_index, literals. repeat case_match; simpl; intros; simplify_eq; lia.
Qed.

Lemma set_flags_same p : set_in_literal (in_literal p) p = p.
Proof. by destruct p. Qed.

(** A quote toggles its flag in every state. *)
Lemma goes_quote c p out b rest last :
  is_quote b = true ->
  goes c (mkZip p out (b :: rest) last)
    true (mkZip (set_in_literal (toggle (in_literal p) b) p) (out ++ [b]) rest last).
Proof.
  intros Hq. destruct (quote_index b Hq) as (i & Hi & _). unfold toggle. rewrite Hi.
  apply goes_step; [done|]. unfold z_body, z_literals, peek. cbn [zrest nth]. by rewrite Hi.
Qed.

(** Any other byte is copied while a flag is set. *)
Lemma goes_literal_byte c p out b rest last :
  is_quote b = false -> existsb id (in_literal p) = true ->
  goes c (mkZip p out (b :: rest) last) false (mkZip p (out ++ [b]) rest last).
Proof.
  intros Hq Hl. apply goes_step; [done|]. unfold z_body. rewrite body_no_literal by done.
  unfold z_in_literal, IN_LITERAL. simpl. by rewrite Hl.
Qed.

Lemma flag_set (fl : list bool) i : fl !! i = Some true -> existsb id fl = true.
Proof. intros H. apply existsb_exists. exists true. split; [|done]. apply list_elem_of_In. by eapply list_elem_of_lookup_2. Qed.

(** Between two quotes [q] everything is copied, and other quotes toggle their
    flags. *)
Lemma goes_in_literal c p out q i s rest last :
  literal_index q literals = Some i -> in_literal p !! i = Some true ->
  forallb (λ c, negb (c =? q)) s = true ->
  ∃ c', goes c (mkZip p out (s ++ rest) last)
          c' (mkZip (set_in_literal (foldl toggle (in_literal p) s) p) (out ++ s) rest last).
Proof.
  intros Hi. revert c p out. induction s as [|b s IH]; intros c p out Hl Hs.
  { exists c. rewrite app_nil_r. simpl. rewrite set_flags_same. apply goes_refl. }
  simpl in Hs. apply andb_prop in Hs as [Hb Hs]. simpl.
  destruct (is_quote b) eqn:Hq.
  - destruct (IH true (set_in_literal (toggle (in_literal p) b) p) (out ++ [b])) as (c' & Hg); [|done|].
    { simpl. unfold toggle. destruct (literal_index b literals) as [j|] eqn:Hj; [|done].
      rewrite list_lookup_alter_ne; [done|]. intros ->. pose proof (quote_index_inj _ _ _ Hj Hi). lia. }
    exists c'. rewrite <- app_assoc in Hg. eapply goes_trans; [by apply goes_quote|exact Hg].
  - assert (toggle (in_literal p) b = in_literal p) as -> by (unfold toggle; by rewrite no_literal).
    destruct (IH false p (out ++ [b]) Hl Hs) as (c' & Hg). exists c'. rewrite <- app_assoc in Hg.
    eapply goes_trans; [|exact Hg]. apply goes_literal_byte; [done|by eapply flag_set].
Qed.

Lemma goes_quoted c p out q s rest last :
  top p -> segment_ok (Quoted q s) = true ->
  ∃ p', goes c (mkZip p out (q :: s ++ [q] ++ rest) last)
          true (mkZip p' (out ++ q :: s ++ [q]) rest last) ∧ top p' ∧ same_params p p'.
Proof.
  intros [Hl Hc He] Hs. cbn [segment_ok] in Hs. apply andb_prop in Hs as [[Hq Hs]%andb_prop Hcl].
  destruct (quote_index q Hq) as (i & Hi & Hlt). apply closed_flags in Hcl.
  assert (Ht : ∀ fl, toggle fl q = alter negb i fl) by (intros fl; unfold toggle; by rewrite Hi).
  set (p1 := set_in_literal (alter negb i no_quote) p).
  destruct (goes_in_literal true p1 (out ++ [q]) q i s ([q] ++ rest) last Hi) as (c' & Hg); [|done|].
  { by destruct i as [|[|[|]]]; [..|lia]. }
  assert (Hfl : foldl toggle (in_literal p1) s = alter negb i no_quote)
    by (simpl; by rewrite toggle_flip, Hcl).
  rewrite Hfl in Hg.
  exists (set_in_literal (alter negb i (alter negb i no_quote)) p). split_and!.
  - eapply goes_trans; [by apply goes_quote|]. rewrite Ht, Hl. eapply goes_trans; [apply Hg|].
    replace (out ++ q :: s ++ [q]) with (((out ++ [q]) ++ s) ++ [q])
      by (by rewrite <- !app_assoc).
    pose proof (goes_quote c' (set_in_literal (alter negb i no_quote) p1) ((out ++ [q]) ++ s) q rest last Hq) as H.
    by rewrite Ht in H.
  - constructor; [|done|done]. by destruct i as [|[|[|]]]; [..|lia].
  - done.
Qed.

(** Everything between the comment marks is copied. *)
Lemma goes_in_comment c p out s rest last :
  foldl toggle (in_literal p) s = no_quote -> in_comment p = true -> no_close s = true ->
  ∃ c', goes c (mkZip p out (s ++ 42 :: 47 :: rest) last) c'
          (mkZip (set_in_literal no_quote (set_in_comment false p)) (out ++ s ++ [42; 47]) rest last).
Proof.
  revert c p out. induction s as [|b s IH]; intros c p out Hl Hc Hn; simpl in Hl, Hn.
  - exists false. rewrite <- Hl. change (set_in_literal (in_literal p) (set_in_comment false p))
      with (set_in_literal (in_literal (set_in_comment false p)) (set_in_comment false p)).
    rewrite set_flags_same. apply goes_step; [done|]. unfold z_body. cbn [app]. rewrite body_no_literal by done.
    unfold z_in_literal, z_comments, IN_LITERAL, peek2, peek. simpl. rewrite Hl. simpl. by rewrite Hc.
  - apply andb_prop in Hn as [Hb%negb_true_iff Hn]. destruct (is_quote b) eqn:Hq.
    + destruct (IH true (set_in_literal (toggle (in_literal p) b) p) (out ++ [b])) as (c' & Hg); [done..|].
      exists c'. rewrite <- app_assoc in Hg. eapply goes_trans; [by apply goes_quote|exact Hg].
    + assert (toggle (in_literal p) b = in_literal p) as Ht by (unfold toggle; by rewrite no_literal).
      rewrite Ht in Hl. destruct (IH false p (out ++ [b]) Hl Hc Hn) as (c' & Hg). exists c'.
      rewrite <- app_assoc in Hg. eapply goes_trans; [|exact Hg].
      destruct (existsb id (in_literal p)) eqn:Hf; [by apply goes_literal_byte|].
      apply goes_step; [done|]. cbn [app]. unfold z_body. rewrite body_no_literal by done.
      unfold z_in_literal, z_comments, IN_LITERAL, peek2, peek. simpl. rewrite Hf. simpl.
      rewrite Hc. replace ((b =? 42) && _) with false; [done|].
      destruct s; simpl; lia.
Qed.

Lemma goes_comment c p out s rest last :
  top p -> segment_ok (Comment s) = true ->
  ∃ c' p', goes c (mkZip p out (47 :: 42 :: s ++ 42 :: 47 :: rest) last)
             c' (mkZip p' (out ++ 47 :: 42 :: s ++ [42; 47]) rest last) ∧ top p' ∧ same_params p p'.
Proof.
  intros [Hl Hc He] Hs. cbn [segment_ok] in Hs. apply andb_prop in Hs as [[Hs%closed_flags Hn]%andb_prop Hf].
  destruct (goes_in_comment false (set_in_comment true p) (out ++ [47; 42]) s rest last)
    as (c' & Hg); [simpl; by rewrite Hl|done|done|].
  exists c', (set_in_literal no_quote (set_in_comment false (set_in_comment true p))). split_and!; [|done|done].
  rewrite <- app_assoc in Hg. eapply goes_trans; [|exact Hg].
  apply goes_step; [done|]. unfold z_body. rewrite body_no_literal by done.
  unfold z_in_literal, z_comments, z_style1, z_bang, z_mbang, IN_LITERAL, peek2, peek. simpl.
  rewrite Hl. simpl. rewrite Hc. simpl.
  assert (H33 : (nth 0 (s ++ 42 :: 47 :: rest) 0 =? 33) = false) by (destruct s; simpl; lia).
  assert (H77 : (nth 0 (s ++ 42 :: 47 :: rest) 0 =? 77) = false) by (destruct s; simpl; lia).
  rewrite drop_0, H33, andb_false_r. simpl. rewrite drop_0, H77, andb_false_r. simpl.
  unfold z_upd, z_adv. simpl. by rewrite drop_0.
Qed.

(** The rest of a line comment. *)
Lemma goes_in_line c p out s rest last :
  foldl toggle (in_literal p) s = no_quote -> in_comment p = false -> comment_eol p = true ->
  line_text s = true ->
  ∃ c', goes c (mkZip p out (s ++ 10 :: rest) last) c'
          (mkZip (set_in_literal no_quote (set_comment_eol false p)) (out ++ s ++ [10]) rest last).
Proof.
  revert c p out. induction s as [|b s IH]; intros c p out Hl Hc He Hs; simpl in Hl, Hs.
  - exists false. rewrite <- Hl. change (set_in_literal (in_literal p) (set_comment_eol false p))
      with (set_in_literal (in_literal (set_comment_eol false p)) (set_comment_eol false p)).
    rewrite set_flags_same. apply goes_step; [done|]. unfold z_body. cbn [app]. rewrite body_no_literal by done.
    unfold z_in_literal, z_comments, z_eol, IN_LITERAL, z_style1, z_style2, z_style3, peek2, peek.
    simpl. rewrite Hl. simpl. rewrite Hc. simpl. by rewrite He.
  - apply andb_prop in Hs as [[Hb Hd]%andb_prop Hs]. destruct (is_quote b) eqn:Hq.
    + destruct (IH true (set_in_literal (toggle (in_literal p) b) p) (out ++ [b])) as (c' & Hg); [done..|].
      exists c'. rewrite <- app_assoc in Hg. eapply goes_trans; [by apply goes_quote|exact Hg].
    + assert (toggle (in_literal p) b = in_literal p) as Ht by (unfold toggle; by rewrite no_literal).
      rewrite Ht in Hl. destruct (IH false p (out ++ [b]) Hl Hc He Hs) as (c' & Hg). exists c'.
      rewrite <- app_assoc in Hg. eapply goes_trans; [|exact Hg].
      destruct (existsb id (in_literal p)) eqn:Hf; [by apply goes_literal_byte|].
      set (d := nth 0 (s ++ 10 :: rest) 0).
      assert ((b =? 0) = false ∧ (b =? 10) = false ∧ (b =? 35) = false ∧
              (b =? 47) && (d =? 42) = false ∧ (b =? 45) && (d =? 45) = false) as (H0 & H10 & H35 & H47 & H45)
        by (subst d; destruct s; simpl in *; lia).
      apply goes_step; [done|]. cbn [app]. unfold z_body. rewrite body_no_literal by done.
      unfold z_in_literal, z_comments, z_eol, IN_LITERAL, z_style1, z_style2, z_style3, peek2, peek.
      simpl. rewrite Hf. simpl. fold d. rewrite Hc, H47. simpl. rewrite H35. simpl. fold d. rewrite H45. simpl.
      by rewrite He, H0, H10.
Qed.

(** The mark of a line comment and the byte behind it are read in one
    iteration. *)
Lemma body_line_start dashes p out b l last :
  top p -> (b =? 45) && (nth 0 l 0 =? 45) = false ->
  body (mkZip p out (line_start dashes ++ b :: l) last)
  = z_eol (mkZip (set_comment_eol true p) (out ++ line_start dashes) (b :: l) last)
      >>> z_qmark >>> z_percent alloc_ok >>> z_keywords false >>> z_advance.
Proof.
  intros [Hl Hc He] H45. unfold z_body. destruct dashes; cbn [line_start app]; rewrite body_no_literal by done;
    unfold z_in_literal at 1, z_comments, IN_LITERAL, z_style1, z_style2, z_style3, peek2, peek, more_than;
    simpl; rewrite Hl; simpl; rewrite Hc; simpl; [done|]. by rewrite H45.
Qed.

Lemma goes_line c p out dashes s rest last :
  top p -> segment_ok (Line dashes s) = true ->
  ∃ c' p', goes c (mkZip p out (line_start dashes ++ s ++ 10 :: rest) last)
             c' (mkZip p' (out ++ line_start dashes ++ s ++ [10]) rest last) ∧ top p' ∧ same_params p p'.
Proof.
  intros Ht Hs. pose proof Ht as [Hl Hc He]. cbn [segment_ok] in Hs.
  apply andb_prop in Hs as [[Hcl%closed_flags Hs]%andb_prop Hq].
  set (p1 := set_comment_eol true p).
  assert (Hne : ∀ l, line_start dashes ++ l ≠ []) by (by destruct dashes).
  destruct s as [|b s].
  - exists false, (set_comment_eol false p1). split_and!; [|done|done].
    apply goes_step; [apply Hne|]. cbn [app]. rewrite body_line_start by done. unfold z_eol, peek. simpl.
    unfold z_adv, z_upd. simpl. by rewrite <- app_assoc.
  - simpl in Hs, Hcl. apply andb_prop in Hs as [[Hb Hd]%andb_prop Hs]. apply negb_true_iff in Hq.
    assert (toggle no_quote b = no_quote) as Htb by (unfold toggle; by rewrite no_literal).
    rewrite Htb in Hcl.
    assert ((b =? 0) = false ∧ (b =? 10) = false ∧ (b =? 45) && (nth 0 (s ++ 10 :: rest) 0 =? 45) = false)
      as (H0 & H10 & H45) by (destruct s; simpl in *; lia).
    destruct (goes_in_line false p1 (out ++ line_start dashes ++ [b]) s rest last) as (c' & Hg);
      [simpl; by rewrite Hl|done..|].
    exists c', (set_in_literal no_quote (set_comment_eol false p1)). split_and!; [|done|done].
    rewrite <- !app_assoc in Hg. eapply goes_trans; [|exact Hg].
    apply goes_step; [apply Hne|]. cbn [app]. rewrite body_line_start by done. unfold z_eol, peek. simpl.
    rewrite H0, H10. simpl. unfold z_adv. simpl. by rewrite <- !app_assoc.
Qed.

(** ** Markers *)

(** What a segment adds to the parameters; [o] is its offset. *)
Record segment_effect (st : enum_paramstyle) (o : nat) (g : segment) (p p' : MrdbParser) : Prop := {
  se_list : param_list p' =
    param_list p ++ match g with Param _ => [Z.of_nat o] | _ => [] end;
  se_style : paramstyle p' = match g with Param _ => st | _ => paramstyle p end;
  se_keys : keys p' =
    match g, st with
    | Param name, PYFORMAT => Some (default [] (keys p) ++ [key_of name])
    | _, _ => keys p
    end;
}.

Lemma same_params_effect st o g p p' :
  match g with Param _ => False | _ => True end -> same_params p p' -> segment_effect st o g p p'.
Proof. intros Hg [E1 E2 E3]. destruct g; try done; split; rewrite ?app_nil_r; done. Qed.

Lemma not_mixed p st : paramstyle p = NONE ∨ paramstyle p = st -> mixed_style p st = false.
Proof. unfold mixed_style. intros [->| ->]; [done|].
  by rewrite (bool_decide_false (st ≠ st)), andb_false_r by (by intros []).
Qed.

(** Until the marker tests, the body leaves a state outside literals and
    comments alone. *)
Lemma body_top b p out rest last :
  top p -> is_quote b = false -> (b =? 47) = false -> (b =? 35) = false -> (b =? 45) = false ->
  body (mkZip p out (b :: rest) last)
  = z_qmark (mkZip p out (b :: rest) last) >>> z_percent alloc_ok >>> z_keywords false >>> z_advance.
Proof.
  intros [Hl Hc He] Hq H47 H35 H45. unfold z_body. rewrite body_no_literal by done.
  unfold z_in_literal, z_comments, IN_LITERAL, z_style1, z_style2, z_style3, peek2, peek, z_eol.
  simpl. rewrite Hl. simpl. rewrite Hc, H47. simpl. rewrite H35. simpl. rewrite H45. simpl.
  by rewrite He.
Qed.

Lemma pyformat_name name rest :
  Forall (λ c, c ≠ 0) name -> Forall (λ c, c ≠ 41) name ->
  strstr2 41 115 (before_nul (40 :: name ++ 41 :: 115 :: rest)) = Some (S (length name)).
Proof.
  intros H0 H41. assert (E : before_nul (40 :: name ++ 41 :: 115 :: rest)
                             = (40 :: name) ++ 41 :: 115 :: before_nul rest).
  { simpl. f_equal. induction H0 as [|x name Hx H0 IH]; [done|]. simpl.
    rewrite (proj2 (Z.eqb_neq x 0)) by done. inversion H41. by rewrite IH. }
  rewrite E, strstr2_first; [done|]. by constructor.
Qed.

Lemma goes_param st c p out name rest last :
  top p -> last ≠ 92 -> st ≠ NONE -> paramstyle p = NONE ∨ paramstyle p = st ->
  segment_ok (Param name) = true ->
  ∃ p', goes c (mkZip p out (marker st name ++ rest) last) false (mkZip p' (out ++ [63]) rest last) ∧
        top p' ∧ segment_effect st (length out) (Param name) p p'.
Proof.
  intros Ht Hla Hst Hp Hs.
  assert (H92 : (last =? 92) = false) by lia.
  destruct st; [done|..].
  - exists (add_param QMARK (Z.of_nat (length out)) p). split_and!; [|by destruct Ht|done].
    apply goes_step; [done|]. cbn [marker app]. rewrite body_top by done.
    unfold z_qmark, peek. simpl. rewrite not_mixed by done. unfold z_param. simpl. by rewrite drop_0.
  - exists (add_param FORMAT (Z.of_nat (length out)) p). split_and!; [|by destruct Ht|done].
    apply goes_step; [done|]. cbn [marker app]. rewrite body_top by done.
    unfold z_qmark, z_percent, z_format, peek. simpl. rewrite H92. simpl.
    rewrite not_mixed by done. unfold z_param. simpl. by rewrite drop_0.
  - exists (set_keys (Some (default [] (keys p) ++ [key_of name]))
              (add_param PYFORMAT (Z.of_nat (length out)) p)).
    split_and!; [|by destruct Ht|done].
    assert (H0 : Forall (λ c, c ≠ 0) name ∧ Forall (λ c, c ≠ 41) name).
    { cbn [segment_ok] in Hs. rewrite forallb_forall in Hs.
      split; apply Forall_forall; intros x Hx;
        apply Hs in Hx; lia. }
    destruct H0 as [H0 H41].
    apply goes_step; [done|]. cbn [marker app]. rewrite body_top by done.
    unfold z_qmark, z_percent, z_format, z_pyformat, peek. cbn [zrest nth zlast].
    cbn [Z.eqb Pos.eqb fbind zrest zlast nth andb]. rewrite H92.
    cbn [Z.eqb Pos.eqb fbind zrest zlast nth andb negb orb drop].
    rewrite <- app_assoc. cbn [app]. rewrite pyformat_name by done.
    cbn [zp]. rewrite not_mixed by done.
    replace (S (length name) - 1)%nat with (length name) by lia.
    rewrite drop_0, take_app_length.
    unfold z_param, grow_keys. rewrite !Halloc.
    cbn [zp zout]. change (keys (add_param PYFORMAT (Z.of_nat (length out)) p)) with (keys p).
    assert (Hd : drop (S (length name) + 3) (37 :: 40 :: name ++ 41 :: 115 :: rest) = rest).
    { replace (S (length name) + 3)%nat with (S (S (length name + 2))) by lia. simpl.
      by rewrite drop_app_add. }
    cbn [zrest]. rewrite Hd. by destruct (keys p).
Qed.

(** ** Whole statements *)

Lemma goes_segment st c p out g rest last :
  top p -> last ≠ 92 -> st ≠ NONE -> paramstyle p = NONE ∨ paramstyle p = st ->
  segment_ok g = true ->
  ∃ c' p' last',
    goes c (mkZip p out (render1 st g ++ rest) last)
      c' (mkZip p' (out ++ render1 QMARK g) rest last') ∧
    top p' ∧ last' ≠ 92 ∧ segment_effect st (length out) g p p'.
Proof.
  intros Ht Hla Hst Hp Hg. destruct g as [s|q s|s|dashes s|name]; cbn [render1 app].
  - destruct (goes_code c p out s rest last) as (c' & p' & last' & H1 & H2 & H3 & H4); [done..|].
    exists c', p', last'. split_and!; [done..|]. by apply same_params_effect.
  - destruct (goes_quoted c p out q s rest last) as (p' & H1 & H2 & H3); [done..|].
    exists true, p', last. rewrite <- app_assoc. split_and!; [done..|]. by apply same_params_effect.
  - destruct (goes_comment c p out s rest last) as (c' & p' & H1 & H2 & H3); [done..|].
    exists c', p', last. rewrite <- app_assoc. split_and!; [done..|]. by apply same_params_effect.
  - destruct (goes_line c p out dashes s rest last) as (c' & p' & H1 & H2 & H3); [done..|].
    exists c', p', last. rewrite <- !app_assoc. split_and!; [done..|]. by apply same_params_effect.
  - destruct (goes_param st c p out name rest last) as (p' & H1 & H2 & H3); [done..|].
    by exists false, p', last.
Qed.

(** What the whole statement adds. *)
Record statement_effect (st : enum_paramstyle) (o : nat) (gs : list segment) (p p' : MrdbParser)
    : Prop := {
  te_list : param_list p' = param_list p ++ offsets o gs;
  te_style : paramstyle p' = match names gs with [] => paramstyle p | _ => st end;
  te_keys : keys p' =
    match st, names gs with
    | PYFORMAT, _ :: _ => Some (default [] (keys p) ++ (key_of <$> names gs))
    | _, _ => keys p
    end;
}.

Lemma statement_effect_cons st o g gs p p1 p' :
  segment_effect st o g p p1 -> statement_effect st (o + length (render1 QMARK g)) gs p1 p' ->
  statement_effect st o (g :: gs) p p'.
Proof.
  intros [E1 E2 E3] [F1 F2 F3]. split.
  - rewrite F1, E1. simpl. by rewrite app_assoc.
  - rewrite F2, E2. destruct g; try done. simpl. by destruct (names gs).
  - rewrite F3, E3. destruct g, st; try done; simpl; destruct (names gs); try done.
    simpl. by rewrite <- app_assoc.
Qed.

Lemma goes_statement st c p out gs last :
  top p -> last ≠ 92 -> st ≠ NONE -> paramstyle p = NONE ∨ paramstyle p = st ->
  forallb segment_ok gs = true ->
  ∃ c' p' last',
    goes c (mkZip p out (render st gs) last) c' (mkZip p' (out ++ render QMARK gs) [] last') ∧
    top p' ∧ statement_effect st (length out) gs p p'.
Proof.
  revert c p out last. induction gs as [|g gs IH]; intros c p out last Ht Hla Hst Hp Hok.
  { exists c, p, last. cbn. rewrite app_nil_r. split_and!; [apply goes_refl|done|].
    split; cbn; rewrite ?app_nil_r; by destruct st. }
  simpl in Hok. apply andb_prop in Hok as [Hg Hok].
  destruct (goes_segment st c p out g (render st gs) last)
    as (c1 & p1 & l1 & Hgo & Ht1 & Hl1 & He1); [done..|].
  destruct (IH c1 p1 (out ++ render1 QMARK g) l1) as (c' & p' & l' & Hgo' & Ht' & He');
    [done|done|done| |done|].
  { rewrite (se_style _ _ _ _ _ He1). destruct g; auto. }
  exists c', p', l'. rewrite <- app_assoc in Hgo'. split_and!; [|done|].
  - eapply goes_trans; [exact Hgo|exact Hgo'].
  - eapply statement_effect_cons; [exact He1|]. by rewrite length_app in He'.
Qed.

(** At the end of the text the scan stops, after one more iteration when the
    last byte was a quote. *)
Lemma loop_end (c : bool) p out last :
  top p ->
  ∃ fuel q, loop fuel c (mkZip p out [] last) = Some (ParseOk q) ∧
    statement_str q = out ∧ statement_length q = Z.of_nat (length out) ∧ same_params p q.
Proof.
  intros [Hl Hc He]. destruct c; [|by exists 1%nat; eexists].
  exists 2%nat. simpl. unfold z_body, z_literals, z_in_literal, z_comments, z_style1, z_style2,
    z_style3, z_eol, z_qmark, z_percent, z_command, IN_LITERAL, peek2, peek. simpl.
  rewrite Hl. simpl. rewrite Hc. simpl. rewrite He. simpl.
  unfold z_command. destruct (bool_decide _); simpl; eexists; (split; [done|]);
    rewrite !app_nil_r; done.
Qed.

End Runs.

(** What a parse of a rendered statement gives. *)
Lemma render_parse_facts (alloc_ok : alloc_site -> Z -> bool) (errmsg_len : nat) (v : Z)
    (st : enum_paramstyle) (gs : list segment) (p : MrdbParser)
    (Halloc : ∀ site k, alloc_ok site k = true) (Hst : st ≠ NONE)
    (Hok : forallb segment_ok gs = true)
    (Hlen : Z.of_nat (length (render st gs)) < 2 ^ 63)
    (Hinit : MrdbParser_init true true v (Some (render st gs)) = InitOk p) :
  ∃ q, MrdbParser_parse alloc_ok (Some p) false errmsg_len = ParseOk q ∧
       statement_length q = Z.of_nat (length (render QMARK gs)) ∧
       take (length (render QMARK gs)) (statement_str q) = render QMARK gs ∧
       param_list q = offsets 0 gs ∧
       paramstyle q = match names gs with [] => NONE | _ => st end ∧
       keys q = match st, names gs with
                | PYFORMAT, _ :: _ => Some (key_of <$> names gs)
                | _, _ => None
                end.
Proof.
  apply init_ok_inv in Hinit as (s & [= <-] & Hne & ->).
  destruct (goes_statement alloc_ok errmsg_len Halloc st false (init_parser v (render st gs)) [] gs 0)
    as (c' & p' & last' & [k Hgo] & Ht & [E1 E2 E3]); [done..|by left|done|].
  destruct (loop_end alloc_ok errmsg_len c' p' (render QMARK gs) last' Ht)
    as (fuel & q & Hend & Hstr & Hq & [F1 F2 F3]).
  destruct (parse_refines alloc_ok false errmsg_len v _ Hne Hlen) as (r & Hr & Hrep).
  assert (r = ParseOk q) as ->.
  { specialize (Hgo fuel). cbn [app] in Hgo. rewrite <- Hgo in Hend. unfold ref_parse in Hr.
    apply (loop_mono alloc_ok errmsg_len _ (k + fuel + (length (render st gs) + 2))) in Hr; [|lia].
    apply (loop_mono alloc_ok errmsg_len _ (k + fuel + (length (render st gs) + 2))) in Hend; [|lia].
    congruence. }
  destruct (MrdbParser_parse _ _ _ _) as [q'| | |]; try done.
  destruct Hrep as [junk ->]. eexists. split; [done|]. simpl.
  rewrite Hstr, take_app_length. split_and!; [done|done|by rewrite F1, E1|by rewrite F2, E2|].
  rewrite F3, E3. by destruct st, (names gs).
Qed.

(** C3: Rendering and parsing back.  Take a statement made of code, quoted
    literals, comments and parameters, render it with the markers of any
    paramstyle, and parse it as one statement, with every allocation
    succeeding: the parser gives the question-mark form of the statement, the
    offset of every parameter in it, and, for named parameters, the names in
    order; markers inside literals and comments stay as they are.

    [segment_ok] says which statements are meant.  Code has no backslash and
    no byte that starts a literal, a comment or a marker; a literal may hold
    quotes of the other two kinds, a comment any quotes, as long as they are
    closed again inside it; comments are not executable ones, and a line
    comment does not start another comment.  Behind an unclosed inner quote
    the markers are not seen ([quotes_hide_parameters]), and a line comment
    that contains a comment start swallows what follows
    ([line_comment_opens_comment]): there the round trip does not hold. *)
Theorem render_parse_roundtrip (alloc_ok : alloc_site -> Z -> bool) (errmsg_len : nat) (v : Z)
    (st : enum_paramstyle) (gs : list segment) (p : MrdbParser)
    (Halloc : ∀ site k, alloc_ok site k = true) (Hst : st ≠ NONE)
    (Hok : forallb segment_ok gs = true)
    (Hlen : Z.of_nat (length (render st gs)) < 2 ^ 63)
    (Hinit : MrdbParser_init true true v (Some (render st gs)) = InitOk p) :
  ∃ q, MrdbParser_parse alloc_ok (Some p) false errmsg_len = ParseOk q ∧
       statement_length q = Z.of_nat (length (render QMARK gs)) ∧
       take (length (render QMARK gs)) (statement_str q) = render QMARK gs ∧
       param_list q = offsets 0 gs ∧
       paramstyle q = match names gs with [] => NONE | _ => st end ∧
       keys q = match st, names gs with
                | PYFORMAT, _ :: _ => Some (key_of <$> names gs)
                | _, _ => None
                end.
Proof.
  exact (render_parse_facts alloc_ok errmsg_len v st gs p Halloc Hst Hok Hlen Hinit).
Qed.

(** An insert of two named parameters around a literal that holds a marker and
    a pair of inner quotes, a comment with a quoted marker, and a line comment. *)
Definition demo_segments : list segment :=
  [Code (bytes_of_string "INSERT INTO t VALUES ("); Param (bytes_of_string "id");
   Code (bytes_of_string ", 7/2-1, "); Quoted 39 (bytes_of_string "`a` %s"); Code (bytes_of_string ", ");
   Param (bytes_of_string "x"); Comment (bytes_of_string " '?' "); Code (bytes_of_string ") ");
   Line true (bytes_of_string "%s and 50%")].

Lemma render_parse_roundtrip_witness :
  ∃ q, MrdbParser_parse always (Some (init_parser 100500 (render PYFORMAT demo_segments))) false 128
       = ParseOk q ∧
       statement_length q = Z.of_nat (length (render QMARK demo_segments)) ∧
       take (length (render QMARK demo_segments)) (statement_str q) = render QMARK demo_segments ∧
       param_list q = offsets 0 demo_segments ∧
       paramstyle q = PYFORMAT ∧
       keys q = Some (key_of <$> names demo_segments).
Proof.
  apply (render_parse_roundtrip always 128 100500 PYFORMAT demo_segments);
    [done|done|vm_compute; reflexivity..].
Defined.
