(* ===== verification/Values.v ===== *)
(** * Field types and Python objects

    The data the codecs move between the two sides: the column types of
    [src/mariadb/constants/FIELD_TYPE.py], and the Python objects the C code
    tells apart.  Python's own types are modelled as far as the sources look at
    them: [int] is unbounded, a string is its UTF-8 encoding, a float its bit
    pattern. *)

From S2P Require Import Prelude.

(** ** Field types *)

Inductive enum_field_types :=
  | MYSQL_TYPE_DECIMAL | MYSQL_TYPE_TINY | MYSQL_TYPE_SHORT | MYSQL_TYPE_LONG
  | MYSQL_TYPE_FLOAT | MYSQL_TYPE_DOUBLE | MYSQL_TYPE_NULL | MYSQL_TYPE_TIMESTAMP
  | MYSQL_TYPE_LONGLONG | MYSQL_TYPE_INT24 | MYSQL_TYPE_DATE | MYSQL_TYPE_TIME
  | MYSQL_TYPE_DATETIME | MYSQL_TYPE_YEAR | MYSQL_TYPE_NEWDATE | MYSQL_TYPE_VARCHAR
  | MYSQL_TYPE_BIT | MYSQL_TYPE_TIMESTAMP2 | MYSQL_TYPE_DATETIME2 | MYSQL_TYPE_TIME2
  | MYSQL_TYPE_JSON | MYSQL_TYPE_NEWDECIMAL | MYSQL_TYPE_ENUM | MYSQL_TYPE_SET
  | MYSQL_TYPE_TINY_BLOB | MYSQL_TYPE_MEDIUM_BLOB | MYSQL_TYPE_LONG_BLOB | MYSQL_TYPE_BLOB
  | MYSQL_TYPE_VAR_STRING | MYSQL_TYPE_STRING | MYSQL_TYPE_GEOMETRY.

#[global] Instance enum_field_types_eq_dec : EqDecision enum_field_types.
Proof. solve_decision. Defined.

Definition field_type_value (t : enum_field_types) : Z :=
  match t with
  | MYSQL_TYPE_DECIMAL => 0 | MYSQL_TYPE_TINY => 1 | MYSQL_TYPE_SHORT => 2
  | MYSQL_TYPE_LONG => 3 | MYSQL_TYPE_FLOAT => 4 | MYSQL_TYPE_DOUBLE => 5
  | MYSQL_TYPE_NULL => 6 | MYSQL_TYPE_TIMESTAMP => 7 | MYSQL_TYPE_LONGLONG => 8
  | MYSQL_TYPE_INT24 => 9 | MYSQL_TYPE_DATE => 10 | MYSQL_TYPE_TIME => 11
  | MYSQL_TYPE_DATETIME => 12 | MYSQL_TYPE_YEAR => 13 | MYSQL_TYPE_NEWDATE => 14
  | MYSQL_TYPE_VARCHAR => 15 | MYSQL_TYPE_BIT => 16 | MYSQL_TYPE_TIMESTAMP2 => 17
  | MYSQL_TYPE_DATETIME2 => 18 | MYSQL_TYPE_TIME2 => 19 | MYSQL_TYPE_JSON => 245
  | MYSQL_TYPE_NEWDECIMAL => 246 | MYSQL_TYPE_ENUM => 247 | MYSQL_TYPE_SET => 248
  | MYSQL_TYPE_TINY_BLOB => 249 | MYSQL_TYPE_MEDIUM_BLOB => 250
  | MYSQL_TYPE_LONG_BLOB => 251 | MYSQL_TYPE_BLOB => 252 | MYSQL_TYPE_VAR_STRING => 253
  | MYSQL_TYPE_STRING => 254 | MYSQL_TYPE_GEOMETRY => 255
  end.

Definition UNSIGNED_FLAG : Z := 32.

(** ** Python objects *)

Inductive pyobj :=
  | PyNone
  | PyBool (b : bool)
  | PyLong (z : Z)
  | PyFloat (bits : Z)
  | PyBytes (s : list Z)
  | PyUnicode (utf8 : list Z)
  | PyDate (year month day : Z)
  | PyTime (hour minute second usecond : Z)
  | PyDateTime (year month day hour minute second usecond : Z)
  | PyDelta (days seconds microseconds : Z)
  | PyDecimal (str : list Z)
  | PyIndicator (indicator : Z)   (** [MrdbIndicator] of [constants/INDICATOR.py] *)
  | PyTuple (items : list pyobj)
  | PyList (items : list pyobj)
  | PyDict (items : list (list Z * pyobj))
  | PyOther (tp_name : string).

(** The integer value of an object that [PyLong_Check] accepts: [bool] is a
    subclass of [int]. *)
Definition as_long (o : pyobj) : option Z :=
  match o with
  | PyLong z => Some z
  | PyBool b => Some (if b then 1 else 0)
  | _ => None
  end.

(** Months and days of the proleptic Gregorian calendar, which [datetime.date]
    uses. *)
Definition is_leap (year : Z) : bool :=
  ((year mod 4 =? 0) && negb (year mod 100 =? 0)) || (year mod 400 =? 0).

Definition days_in_month (year month : Z) : Z :=
  if month =? 2 then (if is_leap year then 29 else 28)
  else if (month =? 4) || (month =? 6) || (month =? 9) || (month =? 11) then 30 else 31.

Definition valid_date (year month day : Z) : bool :=
  (1 <=? year) && (year <=? 9999) && (1 <=? month) && (month <=? 12)
  && (1 <=? day) && (day <=? days_in_month year month).

Definition valid_time (hour minute second usecond : Z) : bool :=
  (0 <=? hour) && (hour <=? 23) && (0 <=? minute) && (minute <=? 59)
  && (0 <=? second) && (second <=? 59) && (0 <=? usecond) && (usecond <=? 999999).

(** The constructors of the [datetime] C API: [None] is a null result with an
    exception set. *)
Definition PyDate_FromDate (year month day : Z) : option pyobj :=
  if valid_date year month day then Some (PyDate year month day) else None.

Definition PyDateTime_FromDateAndTime (year month day hour minute second usecond : Z)
    : option pyobj :=
  if valid_date year month day && valid_time hour minute second usecond
  then Some (PyDateTime year month day hour minute second usecond) else None.

(** [PyDelta_FromDSU] normalises: microseconds and seconds become the
    remainders, days take the carry, at most 999999999 in magnitude. *)
Definition PyDelta_FromDSU (days seconds useconds : Z) : option pyobj :=
  let s := seconds + useconds / 1000000 in
  let d := days + s / 86400 in
  if (-999999999 <=? d) && (d <=? 999999999)
  then Some (PyDelta d (s mod 86400) (useconds mod 1000000)) else None.

(** The invariant of [datetime.timedelta] objects, and their length. *)
Definition delta_ok (days seconds microseconds : Z) : Prop :=
  -999999999 <= days <= 999999999 ∧ 0 <= seconds < 86400 ∧ 0 <= microseconds < 1000000.

Definition delta_us (days seconds microseconds : Z) : Z :=
  (days * 86400 + seconds) * 1000000 + microseconds.

(** A time span has one normal form. *)
Lemma delta_us_inj d s u d' s' u' :
  delta_ok d s u -> delta_ok d' s' u' -> delta_us d s u = delta_us d' s' u' ->
  d = d' ∧ s = s' ∧ u = u'.
Proof. unfold delta_ok, delta_us. lia. Qed.

Lemma PyDelta_FromDSU_spec d s u :
  Z.abs (delta_us d s u) < 999999999 * 86400 * 1000000 ->
  ∃ d' s' u', PyDelta_FromDSU d s u = Some (PyDelta d' s' u') ∧
              delta_ok d' s' u' ∧ delta_us d' s' u' = delta_us d s u.
Proof.
  unfold delta_us. intros H. unfold PyDelta_FromDSU.
  set (s1 := s + u / 1000000). set (d1 := d + s1 / 86400).
  assert (Hu : u = 1000000 * (u / 1000000) + u mod 1000000) by (apply Z.div_mod; lia).
  assert (Hs : s1 = 86400 * (s1 / 86400) + s1 mod 86400) by (apply Z.div_mod; lia).
  assert (Hum : 0 <= u mod 1000000 < 1000000) by (apply Z.mod_pos_bound; lia).
  assert (Hsm : 0 <= s1 mod 86400 < 86400) by (apply Z.mod_pos_bound; lia).
  assert (Hd : -999999999 <= d1 <= 999999999) by (subst d1 s1; lia).
  rewrite (proj2 (Z.leb_le _ _)), (proj2 (Z.leb_le _ _)) by lia. simpl.
  exists d1, (s1 mod 86400), (u mod 1000000). split; [done|]. split; [done|].
  unfold delta_us. subst d1 s1. lia.
Qed.
