(* ===== verification/DateTime.v ===== *)
(** * Dates and times ([src/mariadb/mariadb_codecs.c], lines 86 to 433)

    Conversion of Python date and time objects to [MYSQL_TIME], parsing of the
    text protocol's date and time strings, and conversion of [MYSQL_TIME] to
    [datetime.timedelta].

    A pointer [p] with its limit [end] is an offset into the list of the bytes
    before [end]; every read of the source is guarded by [p == end] or
    [p < end], and the model reads the list at the same places. *)

From S2P Require Import Prelude Values.

(** ** [MYSQL_TIME] *)

Inductive enum_mysql_timestamp_type :=
  | MYSQL_TIMESTAMP_ERROR | MYSQL_TIMESTAMP_DATE | MYSQL_TIMESTAMP_DATETIME
  | MYSQL_TIMESTAMP_TIME.

(** The fields are unsigned; [MYSQL_TIMESTAMP_DATE] is the enumerator 0. *)
Record MYSQL_TIME := mkTime {
  year : Z;
  month : Z;
  day : Z;
  hour : Z;
  minute : Z;
  second : Z;
  second_part : Z;
  neg : bool;
  time_type : enum_mysql_timestamp_type;
}.

(** [memset(tm, 0, sizeof(MYSQL_TIME))]. *)
Definition tm_zero : MYSQL_TIME := mkTime 0 0 0 0 0 0 0 false MYSQL_TIMESTAMP_DATE.

Definition set_hour v t := mkTime (year t) (month t) (day t) v (minute t) (second t) (second_part t) (neg t) (time_type t).
Definition set_minute v t := mkTime (year t) (month t) (day t) (hour t) v (second t) (second_part t) (neg t) (time_type t).
Definition set_second v t := mkTime (year t) (month t) (day t) (hour t) (minute t) v (second_part t) (neg t) (time_type t).
Definition set_second_part v t := mkTime (year t) (month t) (day t) (hour t) (minute t) (second t) v (neg t) (time_type t).
Definition set_year v t := mkTime v (month t) (day t) (hour t) (minute t) (second t) (second_part t) (neg t) (time_type t).
Definition set_month v t := mkTime (year t) v (day t) (hour t) (minute t) (second t) (second_part t) (neg t) (time_type t).
Definition set_day v t := mkTime (year t) (month t) v (hour t) (minute t) (second t) (second_part t) (neg t) (time_type t).
Definition set_neg v t := mkTime (year t) (month t) (day t) (hour t) (minute t) (second t) (second_part t) v (time_type t).
Definition set_time_type v t := mkTime (year t) (month t) (day t) (hour t) (minute t) (second t) (second_part t) (neg t) v.

(** ** From Python objects *)

(** The hour, minute, second and microsecond of an object, read with the
    macros for [time] when [PyTime_CheckExact] holds and with those for
    [datetime] otherwise; [None] when the object has no such fields, so that
    the macro would read foreign memory. *)
Definition get_clock (obj : pyobj) : option (Z * Z * Z * Z) :=
  match obj with
  | PyTime h m s us => Some (h, m, s, us)
  | PyDateTime _ _ _ h m s us => Some (h, m, s, us)
  | _ => None
  end.

Definition get_date (obj : pyobj) : option (Z * Z * Z) :=
  match obj with
  | PyDate y m d => Some (y, m, d)
  | PyDateTime y m d _ _ _ _ => Some (y, m, d)
  | _ => None
  end.

Definition mariadb_pydate_to_tm (type : enum_field_types) (obj : pyobj) : option MYSQL_TIME :=
  let tm := tm_zero in
  tm ← (if bool_decide (type = MYSQL_TYPE_TIME) || bool_decide (type = MYSQL_TYPE_DATETIME) then
          '(h, m, s, us) ← get_clock obj;
          Some (set_second_part us (set_second s (set_minute m (set_hour h tm))))
        else Some tm);
  if bool_decide (type = MYSQL_TYPE_TIME) then Some (set_time_type MYSQL_TIMESTAMP_TIME tm)
  else if bool_decide (type = MYSQL_TYPE_DATE) || bool_decide (type = MYSQL_TYPE_DATETIME) then
    '(y, m, d) ← get_date obj;
    let tm := set_day d (set_month m (set_year y tm)) in
    Some (set_time_type (if bool_decide (type = MYSQL_TYPE_DATE) then MYSQL_TIMESTAMP_DATE
                         else MYSQL_TIMESTAMP_DATETIME) tm)
  else Some tm.

(** [None] when the [int] arithmetic overflows, which is undefined. *)
Definition mariadb_pydelta_to_tm (days seconds microseconds : Z) : option MYSQL_TIME :=
  let tm := set_neg (days <? 0) (set_second_part microseconds tm_zero) in
  x ← c_int (days * 3600);
  x ← c_int (x * 24);
  x ← c_int (x + seconds);
  total_seconds ← c_int (Z.abs x);
  let '(total_seconds, tm) :=
    if negb (second_part tm =? 0) && neg tm
    then (total_seconds - 1, set_second_part (u64 (1000000 - second_part tm)) tm)
    else (total_seconds, tm) in
  let remain := Z.rem total_seconds 3600 in
  Some (set_second (u32 (Z.rem remain 60)) (set_minute (u32 (Z.quot remain 60))
          (set_hour (u32 (Z.quot total_seconds 3600)) tm))).

(** ** Numbers *)

(** The loop of [my_strtoull]: value, bytes read, overflow. *)
Fixpoint my_strtoull_loop (s : list Z) (val : Z) (n : nat) : Z * nat * bool :=
  match s with
  | [] => (val, n, false)
  | c :: s' =>
      if (c <? 48) || (57 <? c) then (val, n, false)
      else if (ULLONG_MAX / 10 <? val) || (ULLONG_MAX - (c - 48) <? u64 (val * 10))
      then (val, n, true)
      else my_strtoull_loop s' (u64 (val * 10 + c - 48)) (S n)
  end.

(** [my_strtoull(str, len, &end, &err)]: the value, [end - str], and whether
    [err] is set. *)
Definition my_strtoull (str : list Z) (len : nat) : Z * nat * bool :=
  let '(val, p, err) := my_strtoull_loop (take len str) 0 0 in
  (val, p, err || (p =? 0)%nat).

Definition my_strtoui (str : list Z) (len : nat) : Z * nat * bool :=
  let '(ull, p, err) := my_strtoull str len in
  (u32 ull, p, err || (UINT_MAX <? ull)).

(** ** Time strings *)

Definition frac_mul : list Z := [1000000; 100000; 10000; 1000; 100; 10].

(** [p == end || *p != c]. *)
Definition not_at (str : list Z) (p : nat) (c : Z) : bool :=
  match str !! p with Some x => negb (x =? c) | None => true end.

(** Result of the two parse routines: the return value, the offset left in
    [*end_ptr], and the time structure. *)
Definition parsed : Type := bool * nat * MYSQL_TIME.

(** The fraction.  [p] is advanced by the number of digits twice, once by
    [my_strtoui] and once by [p += frac_len]; the loop behind it compares with
    the caller's pointer, which both callers leave at the start of the string,
    so it does nothing. *)
Definition parse_fraction (str : list Z) (p : nat) (tm : MYSQL_TIME) : parsed :=
  let frac_len := Nat.min 6 (length str - p) in
  let '(v, n, err) := my_strtoui (drop p str) frac_len in
  let tm := set_second_part v tm in
  if err then (false, (p + n)%nat, tm)
  else
    let tm := if (frac_len <? 6)%nat
              then set_second_part (u64 (second_part tm * nth frac_len frac_mul 0)) tm else tm in
    (false, (p + n + frac_len)%nat, tm).

(** [parse_time]: [true] is the error return. *)
Definition parse_time (str : list Z) (tm : MYSQL_TIME) : parsed :=
  let len := length str in
  let '(h, n, err) := my_strtoui str len in
  let p := n in
  let tm := set_hour h tm in
  if err || (838 <? hour tm) || not_at str p 58 then (true, p, tm)
  else
    let p := S p in
    let '(m, n, err) := my_strtoui (drop p str) (len - p) in
    let p := (p + n)%nat in
    let tm := set_minute m tm in
    if err || (59 <? minute tm) || not_at str p 58 then (true, p, tm)
    else
      let p := S p in
      let '(s, n, err) := my_strtoui (drop p str) (len - p) in
      let p := (p + n)%nat in
      let tm := set_second s tm in
      if err || (59 <? second tm) then (true, p, tm)
      else
        let tm := set_second_part 0 tm in
        if not_at str p 46 then (false, p, tm)
        else parse_fraction str (S p) tm.

(** ** Date strings *)

Definition check_date (year month day : Z) : bool :=
  let is_leap := ((year mod 4 =? 0) && negb (year mod 100 =? 0)) || (year mod 400 =? 0) in
  if (year <? 1) || (9999 <? year) then false
  else if (month <? 1) || (12 <? month) then false
  else if (month =? 2) && ((is_leap && (29 <? day)) || (negb is_leap && (28 <? day))) then false
  else if ((month =? 4) || (month =? 6) || (month =? 9) || (month =? 11)) && (30 <? day) then false
  else true.

(** The comparisons with 0 are void, the fields being unsigned. *)
Definition check_time (tm : MYSQL_TIME) : bool :=
  if 838 <? hour tm then false
  else if (minute tm <? 0) || (59 <? minute tm) then false
  else if (second tm <? 0) || (59 <? second tm) then false
  else if (second_part tm <? 0) || (999999 <? second_part tm) then false
  else true.

Definition parse_date (str : list Z) (tm : MYSQL_TIME) : parsed :=
  let len := length str in
  let '(y, n, err) := my_strtoui str len in
  let p := n in
  let tm := set_year y tm in
  if err || (9999 <? year tm) || not_at str p 45 then (true, p, tm)
  else
    let tm := if (p =? 2)%nat
              then set_year (u32 (year tm + (if 70 <=? year tm then 1900 else 2000))) tm else tm in
    let p := S p in
    let '(m, n, err) := my_strtoui (drop p str) (len - p) in
    let p := (p + n)%nat in
    let tm := set_month m tm in
    if err || (12 <? month tm) || not_at str p 45 then (true, p, tm)
    else
      let p := S p in
      let '(d, n, err) := my_strtoui (drop p str) (len - p) in
      let p := (p + n)%nat in
      let tm := set_day d tm in
      (err || (31 <? day tm), p, tm).

(** ** [Py_str_to_TIME] *)

Fixpoint skip_blanks (s : list Z) : list Z :=
  match s with
  | c :: s' => if isspace c then skip_blanks s' else s
  | [] => []
  end.

(** The bytes between [p] and [end] after both trimming loops. *)
Definition trim (s : list Z) : list Z := rev (skip_blanks (rev (skip_blanks s))).

(** The scan for the first delimiter, from the second byte. *)
Fixpoint first_delimiter_is_colon (s : list Z) : bool :=
  match s with
  | [] => false
  | c :: s' => if (c =? 45) || (c =? 58) then c =? 58 else first_delimiter_is_colon s'
  end.

Definition tm_error : MYSQL_TIME := set_time_type MYSQL_TIMESTAMP_ERROR tm_zero.

(** The return value is [true] for an error.  [None] is a null string. *)
Definition Py_str_to_TIME (str : option (list Z)) (tm : MYSQL_TIME) : bool * MYSQL_TIME :=
  let error := (true, tm_error) in
  match str with
  | None => error
  | Some str =>
      let s := trim str in
      if (length s <? 5)%nat then error
      else
        let '(is_time, tm, s) :=
          if negb (not_at s 0 45) then (true, set_neg true tm, drop 1 s)
          else (first_delimiter_is_colon (drop 1 s), set_neg false tm, s) in
        if is_time then
          match parse_time s tm with
          | (true, _, _) => error
          | (false, _, tm) =>
              (false, set_time_type MYSQL_TIMESTAMP_TIME (set_day 0 (set_month 0 (set_year 0 tm))))
          end
        else
          match parse_date s tm with
          | (true, _, _) => error
          | (false, p, tm) =>
              if not_at s p 32 then
                (false, set_time_type MYSQL_TIMESTAMP_DATE
                          (set_second_part 0 (set_second 0 (set_minute 0 (set_hour 0 tm)))))
              else
                match parse_time (drop (S p) s) tm with
                | (true, _, _) => error
                | (false, _, tm) =>
                    if 23 <? hour tm then error
                    else (false, set_time_type MYSQL_TIMESTAMP_DATETIME tm)
                end
          end
  end.

(** ** To [timedelta] *)

(** The negation is computed at the field's unsigned width and converted to
    [int].  [None] when the [int] arithmetic overflows; the inner option is
    null when Python rejects the span. *)
Definition Mrdb_GetTimeDelta (tm : MYSQL_TIME) : option (option pyobj) :=
  let sgn v := s32 (if neg tm then u32 (- v) else v) in
  let h := sgn (hour tm) in
  let m := sgn (minute tm) in
  let s := sgn (second tm) in
  let us := s32 (if neg tm then u64 (- second_part tm) else second_part tm) in
  let days := Z.quot h 24 in
  let h := Z.rem h 24 in
  hs ← c_int (h * 3600);
  ms ← c_int (m * 60);
  hms ← c_int (hs + ms);
  s ← c_int (hms + s);
  Some (PyDelta_FromDSU days s us).
