(* ===== verification/DateTimeProps.v ===== *)
(** * What the date and time conversions guarantee

    Strings in the server's formats are parsed to the values they print, no
    parse result is out of range, and time spans survive the way to
    [MYSQL_TIME] and back. *)

From S2P Require Import Prelude Values DateTime.

(** ** Decimal numerals *)

(** [n] in [w] decimal digits. *)
Fixpoint pad (w : nat) (n : Z) : list Z :=
  match w with
  | O => []
  | S w' => pad w' (n / 10) ++ [48 + n mod 10]
  end.

Definition from_digits (v : Z) (ds : list Z) : Z := fold_left (λ a c, a * 10 + (c - 48)) ds v.

Lemma length_pad w n : length (pad w n) = w.
Proof. revert n. induction w as [|w IH]; intros n; simpl; [done|]. rewrite length_app, IH. simpl. lia. Qed.

Lemma pad_digits w n : Forall (λ c, 48 <= c <= 57) (pad w n).
Proof.
  revert n. induction w as [|w IH]; intros n; simpl; [done|].
  apply Forall_app. split; [done|]. constructor; [|done].
  pose proof (Z.mod_pos_bound n 10). lia.
Qed.

Lemma from_digits_pad v w n :
  0 <= n < 10 ^ Z.of_nat w -> from_digits v (pad w n) = v * 10 ^ Z.of_nat w + n.
Proof.
  revert n. induction w as [|w IH]; intros n Hn; simpl.
  - change (10 ^ Z.of_nat 0) with 1 in Hn. cbn. lia.
  - unfold from_digits. rewrite fold_left_app. simpl. change (fold_left _ ?l ?a) with (from_digits a l).
    assert (Hp : 10 ^ Z.of_nat (S w) = 10 * 10 ^ Z.of_nat w)
      by (rewrite Nat2Z.inj_succ, Z.pow_succ_r; lia).
    rewrite Hp in *. rewrite IH.
    + pose proof (Z.div_mod n 10). lia.
    + split; [apply Z.div_pos; lia|]. apply Z.div_lt_upper_bound; lia.
Qed.

Lemma from_digits_ge v ds :
  0 <= v -> Forall (λ c, 48 <= c <= 57) ds -> v <= from_digits v ds.
Proof.
  intros Hv Hd. revert v Hv. induction Hd as [|c ds Hc Hd IH]; intros v Hv; [cbn; lia|].
  cbn. assert (v * 10 + (c - 48) <= from_digits (v * 10 + (c - 48)) ds) by (apply IH; lia).
  unfold from_digits in *. lia.
Qed.

Definition no_digit (s : list Z) : Prop :=
  match s with c :: _ => (c <? 48) || (57 <? c) = true | [] => True end.

Lemma strtoull_loop_digits ds rest v n :
  0 <= v -> Forall (λ c, 48 <= c <= 57) ds -> from_digits v ds <= ULLONG_MAX -> no_digit rest ->
  my_strtoull_loop (ds ++ rest) v n = (from_digits v ds, (n + length ds)%nat, false).
Proof.
  intros Hv Hd. revert v n Hv. induction Hd as [|c ds Hc Hd IH]; intros v n Hv Hle Hr.
  - cbn. rewrite Nat.add_0_r. destruct rest as [|c rest]; [done|]. simpl in Hr. simpl. by rewrite Hr.
  - assert (Hge : v * 10 + (c - 48) <= from_digits (v * 10 + (c - 48)) ds)
      by (apply from_digits_ge; [lia|done]).
    assert (Hle' : v * 10 + (c - 48) <= ULLONG_MAX) by (cbn in Hle; unfold from_digits in *; lia).
    simpl. unfold u64, ULLONG_MAX in *.
    rewrite (proj2 (Z.ltb_ge c 48)), (proj2 (Z.ltb_ge 57 c)) by lia. cbn [orb].
    rewrite !Z.mod_small by lia.
    rewrite (proj2 (Z.ltb_ge ((2 ^ 64 - 1) / 10) v)) by (apply Z.div_le_lower_bound; lia).
    rewrite (proj2 (Z.ltb_ge _ (v * 10))) by lia. cbn [orb].
    replace (v * 10 + c - 48) with (v * 10 + (c - 48)) by lia.
    rewrite IH by (done || lia). cbn. unfold from_digits. f_equal. f_equal. lia.
Qed.

(** Reading a numeral that stands at offset [p]. *)
Lemma strtoui_pad str p k w n rest :
  drop p str = pad w n ++ rest -> (w <= k)%nat -> take (k - w) rest = [] ∨ no_digit rest ->
  w ≠ O -> 0 <= n < 10 ^ Z.of_nat w -> n <= UINT_MAX ->
  my_strtoui (drop p str) k = (n, w, false).
Proof.
  intros -> Hk Hr Hw Hn Hu. unfold my_strtoui, my_strtoull.
  rewrite take_app, length_pad, (take_ge (pad w n)) by (rewrite length_pad; lia).
  rewrite strtoull_loop_digits.
  - rewrite from_digits_pad, length_pad by done. cbn [Nat.add].
    rewrite (proj2 (Nat.eqb_neq w 0)) by done. cbn [orb].
    rewrite (proj2 (Z.ltb_ge UINT_MAX _)) by (unfold UINT_MAX in *; lia).
    unfold u32, UINT_MAX in *. rewrite Z.mod_small by lia. done.
  - lia.
  - apply pad_digits.
  - rewrite from_digits_pad by done. unfold UINT_MAX, ULLONG_MAX in *. lia.
  - destruct Hr as [->|Hr]; [done|]. destruct rest as [|c rest]; [by rewrite take_nil|].
    by destruct (k - w)%nat.
Qed.

(** ** Printing *)

(** [[-]hours:MM:SS[.fraction]], the fraction in [d] digits. *)
Definition print_clock (wh d : nat) (h m s f : Z) : list Z :=
  pad wh h ++ 58 :: pad 2 m ++ 58 :: pad 2 s ++ match d with O => [] | _ => 46 :: pad d f end.

Definition print_time (sign : bool) (wh d : nat) (h m s f : Z) : list Z :=
  (if sign then [45] else []) ++ print_clock wh d h m s f.

Definition print_date (y m d : Z) : list Z := pad 4 y ++ 45 :: pad 2 m ++ 45 :: pad 2 d.

Definition clock_ok (wh d : nat) (h m s f : Z) : Prop :=
  wh ≠ O ∧ 0 <= h <= 838 ∧ h < 10 ^ Z.of_nat wh ∧ 0 <= m <= 59 ∧ 0 <= s <= 59 ∧
  (d <= 6)%nat ∧ 0 <= f < 10 ^ Z.of_nat d.

(** A fraction of [d] digits in microseconds. *)
Definition frac_us (d : nat) (f : Z) : Z := f * 10 ^ (6 - Z.of_nat d).

Lemma frac_us_range d f :
  (d <= 6)%nat -> 0 <= f < 10 ^ Z.of_nat d -> 0 <= frac_us d f <= 999999.
Proof.
  intros Hd Hf. unfold frac_us.
  do 7 (destruct d as [|d]; [cbn in Hf |- *; unfold Z.pow_pos in *; cbn in *; lia|]). lia.
Qed.

(** Moving over a numeral and its delimiter. *)
Lemma not_at_pad str p w n c rest :
  drop p str = pad w n ++ c :: rest -> not_at str (p + w) c = false.
Proof.
  intros H. unfold not_at. rewrite <- lookup_drop, H.
  rewrite lookup_app_r, length_pad, Nat.sub_diag by (rewrite length_pad; lia). simpl.
  by rewrite Z.eqb_refl.
Qed.

Lemma drop_pad str p w n c rest :
  drop p str = pad w n ++ c :: rest -> drop (S (p + w)) str = rest.
Proof.
  intros H. replace (S (p + w))%nat with (p + (w + 1))%nat by lia.
  rewrite <- drop_drop, H, drop_app_add' by (by rewrite length_pad). done.
Qed.

Lemma length_of_drop (str : list Z) p k rest :
  drop p str = rest -> (p <= length str)%nat -> k = length rest -> (length str - p)%nat = k.
Proof. intros <- Hp ->. rewrite length_drop. lia. Qed.

(** A numeral of two digits below 60, at offset [p], read up to the end. *)
Lemma strtoui_at str p w n rest :
  drop p str = pad w n ++ rest -> no_digit rest -> w ≠ O -> 0 <= n < 10 ^ Z.of_nat w ->
  n <= UINT_MAX -> my_strtoui (drop p str) (length str - p) = (n, w, false).
Proof.
  intros H Hr Hw Hn Hu. eapply strtoui_pad; [exact H| |by right|done|done|done].
  rewrite <- length_drop, H, length_app, length_pad. lia.
Qed.

Lemma parse_fraction_ok str p d f tm :
  drop p str = pad d f -> (p <= length str)%nat -> (1 <= d <= 6)%nat -> 0 <= f < 10 ^ Z.of_nat d ->
  parse_fraction str p tm = (false, (p + d + d)%nat, set_second_part (frac_us d f) tm).
Proof.
  intros H Hp Hd Hf. unfold parse_fraction.
  assert (Hl : (length str - p)%nat = d) by (rewrite <- length_drop, H; apply length_pad).
  assert (H6 : f < 1000000).
  { assert (10 ^ Z.of_nat d <= 10 ^ 6) by (apply Z.pow_le_mono_r; lia). lia. }
  rewrite Hl, Nat.min_r by lia.
  rewrite (strtoui_pad str p d d f []); try done; try lia; [|by rewrite app_nil_r|by right|unfold UINT_MAX; lia].
  unfold frac_us.
  assert (d = 1 ∨ d = 2 ∨ d = 3 ∨ d = 4 ∨ d = 5 ∨ d = 6)%nat as Hc by lia.
  unfold u64. destruct tm.
  destruct Hc as [->|[->|[->|[->|[->| ->]]]]]; cbn -[Z.mul Z.modulo Z.pow] in *;
    unfold set_second_part; cbn -[Z.mul Z.modulo Z.pow];
    rewrite ?Z.mod_small by lia; repeat f_equal; lia.
Qed.

Lemma parse_time_print wh d h m s f tm :
  clock_ok wh d h m s f ->
  ∃ p, parse_time (print_clock wh d h m s f) tm
       = (false, p, set_second_part (frac_us d f) (set_second s (set_minute m (set_hour h tm)))).
Proof.
  intros (Hw & Hh & Hwh & Hm & Hs & Hd & Hf).
  set (str := print_clock wh d h m s f).
  set (tail := match d with O => [] | _ => 46 :: pad d f end).
  assert (H1 : drop 0 str = pad wh h ++ 58 :: pad 2 m ++ 58 :: pad 2 s ++ tail) by done.
  assert (H2 := drop_pad _ _ _ _ _ _ H1). cbn [Nat.add] in H2.
  assert (H3 := drop_pad _ _ _ _ _ _ H2).
  assert (Ht : no_digit tail) by (subst tail; by destruct d).
  unfold parse_time.
  assert (E1 := strtoui_at str 0 wh h _ H1 eq_refl Hw).
  rewrite Nat.sub_0_r, drop_0 in E1. rewrite E1 by (unfold UINT_MAX; lia).
  cbn [hour set_hour]. rewrite (proj2 (Z.ltb_ge 838 h)) by lia.
  rewrite (not_at_pad str 0 wh h 58 _ H1 : not_at str wh 58 = false). cbn [orb].
  rewrite (strtoui_at str (S wh) 2 m _ H2) by (done || unfold UINT_MAX; lia).
  cbn [minute set_minute]. rewrite (proj2 (Z.ltb_ge 59 m)) by lia.
  rewrite (not_at_pad str (S wh) 2 m 58 _ H2). cbn [orb].
  rewrite (strtoui_at str (S (S wh + 2)) 2 s _ H3) by (done || unfold UINT_MAX; lia).
  cbn [second set_second]. rewrite (proj2 (Z.ltb_ge 59 s)) by lia. cbn [orb].
  set (p := (S (S wh + 2) + 2)%nat).
  destruct d as [|d].
  - assert (E : str !! p = None).
    { apply lookup_ge_None. subst p. apply (f_equal length) in H3.
      rewrite length_drop, length_app, length_pad in H3. simpl in H3. lia. }
    exists p. unfold not_at. rewrite E. unfold frac_us. cbn in Hf.
    replace (f * _) with 0 by lia. done.
  - rewrite (not_at_pad str (S (S wh + 2)) 2 s 46 _ H3 : not_at str p 46 = false).
    assert (H4 := drop_pad _ _ _ _ _ _ H3).
    eexists. rewrite (parse_fraction_ok str (S p) (S d) f); [done|done| |lia|done].
    apply (f_equal length) in H4. rewrite length_drop, length_pad in H4. subst p. lia.
Qed.

#[local] Arguments pad : simpl never.

(** Regroups appends and conses to the right. *)
Ltac cons_app := repeat (rewrite <- app_assoc; cbn [app]); reflexivity.

(** A date, followed by the end of the string or by a clock. *)
Lemma parse_date_print y m d tail tm :
  0 <= y <= 9999 -> 0 <= m <= 12 -> 0 <= d <= 31 -> no_digit tail ->
  parse_date (print_date y m d ++ tail) tm = (false, 10%nat, set_day d (set_month m (set_year y tm))).
Proof.
  intros Hy Hm Hd Ht.
  set (str := print_date y m d ++ tail).
  assert (H1 : drop 0 str = pad 4 y ++ 45 :: pad 2 m ++ 45 :: pad 2 d ++ tail)
    by (subst str; unfold print_date; cons_app).
  assert (H2 := drop_pad _ _ _ _ _ _ H1 : drop 5 str = _).
  assert (H3 := drop_pad _ _ _ _ _ _ H2 : drop 8 str = _).
  unfold parse_date.
  assert (E1 := strtoui_at str 0 4 y _ H1 eq_refl ltac:(done)).
  rewrite Nat.sub_0_r, drop_0 in E1. rewrite E1 by (unfold UINT_MAX; lia).
  cbn [year set_year]. rewrite (proj2 (Z.ltb_ge 9999 y)) by lia.
  rewrite (not_at_pad str 0 4 y 45 _ H1 : not_at str 4 45 = false). cbn [orb Nat.eqb].
  rewrite (strtoui_at str 5 2 m _ H2) by (done || unfold UINT_MAX; lia).
  cbn [month set_month]. rewrite (proj2 (Z.ltb_ge 12 m)) by lia.
  rewrite (not_at_pad str 5 2 m 45 _ H2 : not_at str (5 + 2) 45 = false). cbn [orb].
  change (S (5 + 2)) with 8%nat. rewrite (strtoui_at str 8 2 d _ H3) by (done || unfold UINT_MAX; lia).
  cbn [day set_day orb]. by rewrite (proj2 (Z.ltb_ge 31 d)) by lia.
Qed.

(** ** Trimming *)

Definition blanks (s : list Z) : Prop := Forall (λ c, isspace c = true) s.

Definition solid (s : list Z) : Prop := match s with c :: _ => isspace c = false | [] => True end.

Lemma skip_blanks_app l s : blanks l -> solid s -> skip_blanks (l ++ s) = s.
Proof.
  intros Hl Hs. induction Hl as [|c l Hc _ IH]; simpl; [|by rewrite Hc].
  destruct s as [|c s]; [done|]. simpl in *. by rewrite Hs.
Qed.

Lemma trim_app l s r : blanks l -> blanks r -> solid s -> solid (rev s) -> s ≠ [] ->
  trim (l ++ s ++ r) = s.
Proof.
  intros Hl Hr Hs Hs' Hne. unfold trim. rewrite skip_blanks_app; [|done|by destruct s].
  rewrite rev_app_distr, skip_blanks_app; [by rewrite rev_involutive| |done].
  by apply Forall_rev.
Qed.

Lemma digit_solid c : 48 <= c <= 57 -> isspace c = false.
Proof. unfold isspace. lia. Qed.

Lemma solid_pad w n rest : w ≠ O -> solid (pad w n ++ rest).
Proof.
  intros Hw. pose proof (pad_digits w n) as Hd. pose proof (length_pad w n) as Hl.
  destruct (pad w n) as [|c l]; [by destruct w|]. simpl. apply digit_solid. by inversion Hd.
Qed.

Lemma solid_rev_pad a w n : w ≠ O -> solid (rev (a ++ pad w n)).
Proof.
  intros Hw. rewrite rev_app_distr. destruct w as [|w]; [done|].
  change (pad (S w) n) with (pad w (n / 10) ++ [48 + n mod 10]). rewrite rev_app_distr. simpl.
  apply digit_solid. pose proof (Z.mod_pos_bound n 10). lia.
Qed.

Lemma solid_clock a wh d h m s f : wh ≠ O -> solid (rev (a ++ print_clock wh d h m s f)).
Proof.
  intros Hw. unfold print_clock. destruct d as [|d].
  - rewrite app_nil_r.
    replace (a ++ pad wh h ++ 58 :: pad 2 m ++ 58 :: pad 2 s)
      with ((a ++ pad wh h ++ 58 :: pad 2 m ++ [58]) ++ pad 2 s)
      by cons_app.
    by apply solid_rev_pad.
  - replace (a ++ pad wh h ++ 58 :: pad 2 m ++ 58 :: pad 2 s ++ 46 :: pad (S d) f)
      with ((a ++ pad wh h ++ 58 :: pad 2 m ++ 58 :: pad 2 s ++ [46]) ++ pad (S d) f)
      by cons_app.
    by apply solid_rev_pad.
Qed.

(** The first delimiter behind a numeral. *)
Lemma delimiter_pad w n c rest :
  w ≠ O -> c = 45 ∨ c = 58 ->
  first_delimiter_is_colon (drop 1 (pad w n ++ c :: rest)) = (c =? 58).
Proof.
  intros Hw Hc. pose proof (pad_digits w n) as Hd. pose proof (length_pad w n) as Hl.
  destruct (pad w n) as [|x l]; [by destruct w|]. simpl. rewrite drop_0.
  inversion Hd as [|? ? _ Hd']; subst. clear Hd Hw.
  induction Hd' as [|y l Hy _ IH]; simpl.
  - by destruct Hc as [-> | ->].
  - by rewrite (proj2 (Z.eqb_neq y 45)), (proj2 (Z.eqb_neq y 58)) by lia.
Qed.

Lemma not_minus_pad w n rest : w ≠ O -> not_at (pad w n ++ rest) 0 45 = true.
Proof.
  intros Hw. pose proof (pad_digits w n) as Hd. pose proof (length_pad w n) as Hl.
  destruct (pad w n) as [|x l]; [by destruct w|]. inversion Hd; subst. unfold not_at. simpl. lia.
Qed.

(** ** Round trips *)

Lemma str_to_time_time (sign : bool) (wh d : nat) (h m s f : Z) (lead trail : list Z)
    (tm : MYSQL_TIME) (Hok : clock_ok wh d h m s f) (Hl : blanks lead) (Ht : blanks trail) :
  Py_str_to_TIME (Some (lead ++ print_time sign wh d h m s f ++ trail)) tm
  = (false, mkTime 0 0 0 h m s (frac_us d f) sign MYSQL_TIMESTAMP_TIME).
Proof.
  destruct Hok as (Hw & Hok').
  assert (Hok : clock_ok wh d h m s f) by done. unfold Py_str_to_TIME.
  assert (Hsolid : solid (print_clock wh d h m s f)) by (by apply solid_pad).
  assert (Hlen : (6 <= length (print_clock wh d h m s f))%nat).
  { unfold print_clock. rewrite length_app. simpl. rewrite !length_pad. destruct wh; [done|]. lia. }
  unfold print_time. destruct sign.
  - rewrite trim_app; [|done|done|done|by apply (solid_clock [45])|done].
    cbn [app length]. rewrite (proj2 (Nat.ltb_ge _ 5)) by lia.
    cbn [not_at lookup list_lookup Z.eqb Pos.eqb negb drop]. cbn. rewrite drop_0.
    destruct (parse_time_print wh d h m s f (set_neg true tm) Hok) as [p ->]. done.
  - cbn [app]. rewrite trim_app; [|done|done|done|by apply (solid_clock [])|intros E; rewrite E in Hlen; simpl in Hlen; lia].
    rewrite (proj2 (Nat.ltb_ge _ 5)) by lia.
    rewrite (not_minus_pad wh h _ Hw : not_at (print_clock wh d h m s f) 0 45 = true). cbn [negb].
    rewrite (delimiter_pad wh h 58 _ Hw (or_intror eq_refl)
             : first_delimiter_is_colon (drop 1 (print_clock wh d h m s f)) = true).
    destruct (parse_time_print wh d h m s f (set_neg false tm) Hok) as [p ->]. done.
Qed.

(** C29: Every TIME value as the server prints it, [[-]hours:MM:SS[.fraction]]
    with any number of digits for the hours, at most 838 hours, up to six
    digits of fraction and white space around it, is parsed to exactly its
    sign, hours, minutes, seconds and microseconds. *)
Theorem time_text_roundtrip (sign : bool) (wh d : nat) (h m s f : Z) (lead trail : list Z)
    (tm : MYSQL_TIME) (Hok : clock_ok wh d h m s f) (Hl : blanks lead) (Ht : blanks trail) :
  Py_str_to_TIME (Some (lead ++ print_time sign wh d h m s f ++ trail)) tm
  = (false, mkTime 0 0 0 h m s (frac_us d f) sign MYSQL_TIMESTAMP_TIME).
Proof. by apply str_to_time_time. Qed.

Lemma str_to_time_date (y m d : Z) (lead trail : list Z) (tm : MYSQL_TIME)
    (Hy : 0 <= y <= 9999) (Hm : 0 <= m <= 12) (Hd : 0 <= d <= 31)
    (Hl : blanks lead) (Ht : blanks trail) :
  Py_str_to_TIME (Some (lead ++ print_date y m d ++ trail)) tm
  = (false, mkTime y m d 0 0 0 0 false MYSQL_TIMESTAMP_DATE).
Proof.
  unfold Py_str_to_TIME. rewrite trim_app; [|done|done|by apply solid_pad| |].
  - change (length (print_date y m d) <? 5)%nat with false.
    rewrite (not_minus_pad 4 y _ ltac:(done) : not_at (print_date y m d) 0 45 = true). cbn [negb].
    rewrite (delimiter_pad 4 y 45 _ ltac:(done) (or_introl eq_refl)
             : first_delimiter_is_colon (drop 1 (print_date y m d)) = false).
    pose proof (parse_date_print y m d [] (set_neg false tm) Hy Hm Hd I) as Hp.
    rewrite app_nil_r in Hp. rewrite Hp. done.
  - unfold print_date.
    replace (pad 4 y ++ 45 :: pad 2 m ++ 45 :: pad 2 d)
      with ((pad 4 y ++ 45 :: pad 2 m ++ [45]) ++ pad 2 d)
      by cons_app.
    by apply solid_rev_pad.
  - done.
Qed.

(** Every DATE as the server prints it, [YYYY-MM-DD], zero dates included,
    is parsed to its year, month and day. *)
Theorem date_text_roundtrip (y m d : Z) (lead trail : list Z) (tm : MYSQL_TIME)
    (Hy : 0 <= y <= 9999) (Hm : 0 <= m <= 12) (Hd : 0 <= d <= 31)
    (Hl : blanks lead) (Ht : blanks trail) :
  Py_str_to_TIME (Some (lead ++ print_date y m d ++ trail)) tm
  = (false, mkTime y m d 0 0 0 0 false MYSQL_TIMESTAMP_DATE).
Proof. by apply str_to_time_date. Qed.

Lemma str_to_time_datetime (y mo da : Z) (d : nat) (h m s f : Z) (lead trail : list Z)
    (tm : MYSQL_TIME) (Hy : 0 <= y <= 9999) (Hm : 0 <= mo <= 12) (Hd : 0 <= da <= 31)
    (Hok : clock_ok 2 d h m s f) (Hh : h <= 23) (Hl : blanks lead) (Ht : blanks trail) :
  Py_str_to_TIME (Some (lead ++ (print_date y mo da ++ 32 :: print_clock 2 d h m s f) ++ trail)) tm
  = (false, mkTime y mo da h m s (frac_us d f) false MYSQL_TIMESTAMP_DATETIME).
Proof.
  unfold Py_str_to_TIME. rewrite trim_app; [|done|done| | |].
  - set (str := print_date y mo da ++ 32 :: print_clock 2 d h m s f).
    assert (Hstr : str = pad 4 y ++ 45 :: pad 2 mo ++ 45 :: pad 2 da ++ 32 :: print_clock 2 d h m s f)
      by (subst str; unfold print_date; cons_app).
    assert (Hlen : (length str <? 5)%nat = false).
    { apply Nat.ltb_ge. rewrite Hstr, length_app, length_pad. simpl. lia. }
    assert (Hneg : not_at str 0 45 = true) by (rewrite Hstr; by apply not_minus_pad).
    assert (Hcol : first_delimiter_is_colon (drop 1 str) = false)
      by (rewrite Hstr; by rewrite delimiter_pad by auto).
    rewrite Hlen, Hneg. cbn [negb]. rewrite Hcol.
    assert (Hdate := parse_date_print y mo da (32 :: print_clock 2 d h m s f) (set_neg false tm)
              Hy Hm Hd eq_refl). fold str in Hdate. rewrite Hdate.
    assert (Hsp : not_at str 10 32 = false) by done. rewrite Hsp.
    assert (Hdr : drop 11 str = print_clock 2 d h m s f) 
      by exact (drop_app_length (print_date y mo da ++ [32]) (print_clock 2 d h m s f)).
    rewrite Hdr.
    destruct (parse_time_print 2 d h m s f (set_day da (set_month mo (set_year y (set_neg false tm)))) Hok)
      as [p ->].
    cbn. by rewrite (proj2 (Z.ltb_ge 23 h)) by lia.
  - unfold print_date. rewrite <- app_assoc. by apply solid_pad.
  - change (print_date y mo da ++ 32 :: print_clock 2 d h m s f) with
      (print_date y mo da ++ [32] ++ print_clock 2 d h m s f).
    rewrite app_assoc. by apply solid_clock.
  - done.
Qed.

(** C30: Every DATETIME or TIMESTAMP as the server prints it,
    [YYYY-MM-DD HH:MM:SS[.fraction]], is parsed to its seven components. *)
Theorem datetime_text_roundtrip (y mo da : Z) (d : nat) (h m s f : Z) (lead trail : list Z)
    (tm : MYSQL_TIME) (Hy : 0 <= y <= 9999) (Hm : 0 <= mo <= 12) (Hd : 0 <= da <= 31)
    (Hok : clock_ok 2 d h m s f) (Hh : h <= 23) (Hl : blanks lead) (Ht : blanks trail) :
  Py_str_to_TIME (Some (lead ++ (print_date y mo da ++ 32 :: print_clock 2 d h m s f) ++ trail)) tm
  = (false, mkTime y mo da h m s (frac_us d f) false MYSQL_TIMESTAMP_DATETIME).
Proof. by apply str_to_time_datetime. Qed.

(** ** Ranges *)

Lemma strtoull_loop_range s v n v' n' e :
  0 <= v -> my_strtoull_loop s v n = (v', n', e) ->
  0 <= v' ∧ (n <= n' <= n + length s)%nat ∧ v' < (v + 1) * 10 ^ Z.of_nat (n' - n).
Proof.
  revert v n. induction s as [|c s IH]; intros v n Hv; simpl.
  { intros [= <- <- <-]. rewrite Nat.sub_diag. simpl. lia. }
  assert (Hstop : 0 <= v ∧ (n <= n <= n + S (length s))%nat ∧ v < (v + 1) * 10 ^ Z.of_nat (n - n))
    by (rewrite Nat.sub_diag; simpl; lia).
  destruct ((c <? 48) || (57 <? c)) eqn:Hc; [by intros [= <- <- <-]|].
  destruct ((ULLONG_MAX / 10 <? v) || (ULLONG_MAX - (c - 48) <? u64 (v * 10))) eqn:Ho;
    [by intros [= <- <- <-]|]. intros H.
  assert (Hm : 0 <= u64 (v * 10 + c - 48) <= v * 10 + c - 48).
  { unfold u64. split; [apply Z.mod_pos_bound; lia|]. apply Z.mod_le; lia. }
  apply IH in H as (H1 & H2 & H3); [|lia]. split_and!; [done|lia|lia|].
  replace (n' - n)%nat with (S (n' - S n)) by lia. rewrite Nat2Z.inj_succ, Z.pow_succ_r by lia.
  eapply Z.lt_le_trans; [exact H3|]. rewrite Z.mul_assoc. apply Z.mul_le_mono_nonneg_r; lia.
Qed.

Lemma strtoui_nonneg str k v n e : my_strtoui str k = (v, n, e) -> 0 <= v < 2 ^ 32.
Proof.
  unfold my_strtoui. destruct (my_strtoull str k) as [[ull p] err]. intros [= <- _ _].
  unfold u32. apply Z.mod_pos_bound. lia.
Qed.

Lemma strtoui_range str k v n e :
  my_strtoui str k = (v, n, e) -> (k <= 6)%nat -> v < 10 ^ Z.of_nat k.
Proof.
  unfold my_strtoui, my_strtoull.
  destruct (my_strtoull_loop _ 0 0) as [[ull p] err] eqn:E. intros [= <- <- <-] Hk.
  apply strtoull_loop_range in E as (H1 & H2 & H3); [|lia].
  assert (10 ^ Z.of_nat (p - 0) <= 10 ^ Z.of_nat k).
  { apply Z.pow_le_mono_r; [lia|]. pose proof (length_take str k). lia. }
  assert (u32 ull <= ull) by (apply Z.mod_le; lia). lia.
Qed.

(** The clock fields a successful parse leaves. *)
Definition clock_range (tm : MYSQL_TIME) : Prop :=
  0 <= hour tm <= 838 ∧ 0 <= minute tm <= 59 ∧ 0 <= second tm <= 59 ∧ 0 <= second_part tm <= 999999.

Definition date_range (tm : MYSQL_TIME) : Prop :=
  0 <= year tm <= 9999 ∧ 0 <= month tm <= 12 ∧ 0 <= day tm <= 31.

Definition same_date (tm tm' : MYSQL_TIME) : Prop :=
  year tm' = year tm ∧ month tm' = month tm ∧ day tm' = day tm.

Lemma parse_fraction_range str p tm q tm' :
  parse_fraction str p tm = (false, q, tm') ->
  0 <= second_part tm' <= 999999 ∧ hour tm' = hour tm ∧ minute tm' = minute tm
  ∧ second tm' = second tm ∧ same_date tm tm'.
Proof.
  unfold parse_fraction. set (k := Nat.min 6 (length str - p)).
  destruct (my_strtoui (drop p str) k) as [[v n] e] eqn:E.
  pose proof (strtoui_nonneg _ _ _ _ _ E) as [Hv _].
  pose proof (strtoui_range _ _ _ _ _ E ltac:(lia)) as Hk.
  assert (H6 : v < 10 ^ 6) by (eapply Z.lt_le_trans; [exact Hk|apply Z.pow_le_mono_r; lia]).
  destruct e; [intros [= <- <-]; unfold same_date; simpl; lia|].
  destruct (Nat.ltb_spec k 6); intros [= <- <-]; unfold same_date; simpl; split_and!; try done; try lia.
  - unfold u64. apply Z.mod_pos_bound. lia.
  - assert (k = 0 ∨ k = 1 ∨ k = 2 ∨ k = 3 ∨ k = 4 ∨ k = 5)%nat as Hc by lia.
    unfold u64. clearbody k.
    destruct Hc as [->|[->|[->|[->|[->| ->]]]]]; cbn [nth frac_mul];
      change (10 ^ Z.of_nat 0) with 1 in *; change (10 ^ Z.of_nat 1) with 10 in *;
      change (10 ^ Z.of_nat 2) with 100 in *; change (10 ^ Z.of_nat 3) with 1000 in *;
      change (10 ^ Z.of_nat 4) with 10000 in *; change (10 ^ Z.of_nat 5) with 100000 in *;
      rewrite Z.mod_small by lia; lia.
Qed.

Lemma parse_time_range str tm p tm' :
  parse_time str tm = (false, p, tm') -> clock_range tm' ∧ same_date tm tm'.
Proof.
  unfold parse_time.
  destruct (my_strtoui str _) as [[h n1] e1] eqn:E1. apply strtoui_nonneg in E1.
  destruct (_ || _ || not_at str n1 58) eqn:T1; [done|].
  destruct (my_strtoui (drop (S n1) str) _) as [[m n2] e2] eqn:E2. apply strtoui_nonneg in E2.
  destruct (_ || _ || not_at str (S n1 + n2) 58) eqn:T2; [done|].
  destruct (my_strtoui (drop (S (S n1 + n2)) str) _) as [[s n3] e3] eqn:E3. apply strtoui_nonneg in E3.
  destruct (e3 || _) eqn:T3; [done|]. simpl in T1, T2, T3. unfold clock_range, same_date.
  destruct (not_at str _ 46).
  - intros [= <- <-]. simpl. lia.
  - intros H. apply parse_fraction_range in H as (H1 & H2 & H3 & H4 & H5). unfold same_date in H5.
    simpl in *. lia.
Qed.

Lemma parse_date_range str tm p tm' :
  parse_date str tm = (false, p, tm') -> date_range tm'.
Proof.
  unfold parse_date.
  destruct (my_strtoui str _) as [[y n1] e1] eqn:E1. pose proof (strtoui_nonneg _ _ _ _ _ E1) as Hy.
  destruct (_ || _ || not_at str n1 45) eqn:T1; [done|].
  destruct (my_strtoui (drop (S n1) str) _) as [[m n2] e2] eqn:E2. apply strtoui_nonneg in E2.
  destruct (_ || _ || not_at str (S n1 + n2) 45) eqn:T2; [done|].
  destruct (my_strtoui (drop (S (S n1 + n2)) str) _) as [[d n3] e3] eqn:E3. apply strtoui_nonneg in E3.
  intros [= T3 <- <-]. simpl in T1, T2, T3. unfold date_range.
  destruct (n1 =? 2)%nat eqn:Hn; simpl; [|lia].
  assert (Hy2 : y < 100).
  { apply Nat.eqb_eq in Hn. subst n1. unfold my_strtoui, my_strtoull in E1.
    destruct (my_strtoull_loop _ 0 0) as [[ull q] err] eqn:E. injection E1 as <- -> _.
    apply strtoull_loop_range in E as (H1 & _ & H3); [|lia]. change (10 ^ Z.of_nat (2 - 0)) with 100 in H3.
    assert (u32 ull <= ull) by (apply Z.mod_le; lia). lia. }
  unfold u32. destruct (70 <=? y); rewrite Z.mod_small by lia; lia.
Qed.

(** What [Py_str_to_TIME] promises about its result. *)
Definition time_wf (tm : MYSQL_TIME) : Prop :=
  match time_type tm with
  | MYSQL_TIMESTAMP_TIME => clock_range tm ∧ year tm = 0 ∧ month tm = 0 ∧ day tm = 0
  | MYSQL_TIMESTAMP_DATE => date_range tm ∧ hour tm = 0 ∧ minute tm = 0 ∧ second tm = 0
                            ∧ second_part tm = 0 ∧ neg tm = false
  | MYSQL_TIMESTAMP_DATETIME => date_range tm ∧ clock_range tm ∧ hour tm <= 23
  | MYSQL_TIMESTAMP_ERROR => tm = tm_error
  end.

(** C33: Whatever the bytes, [Py_str_to_TIME] either fails and leaves the error
    value, or returns a structure whose fields are in range for its kind: the
    conversions behind it never see a month 13, a second 60 or a fraction above
    999999, and a DATETIME has hours below 24. *)
Theorem str_to_time_wf (str : option (list Z)) (tm : MYSQL_TIME) :
  match Py_str_to_TIME str tm with
  | (true, tm') => tm' = tm_error
  | (false, tm') => time_wf tm' ∧ time_type tm' ≠ MYSQL_TIMESTAMP_ERROR
  end.
Proof.
  unfold Py_str_to_TIME. destruct str as [str|]; [|done]. set (s := trim str).
  destruct (length s <? 5)%nat; [done|].
  set (choice := if negb (not_at s 0 45) then _ else _).
  destruct choice as [[is_time tm1] s1] eqn:Ec.
  assert (Hneg : is_time = false -> neg tm1 = false).
  { subst choice. destruct (negb _); injection Ec as <- <- <-; done. }
  clearbody s. clear Ec choice. destruct is_time.
  - destruct (parse_time s1 tm1) as [[[] p] tm2] eqn:E; [done|].
    apply parse_time_range in E as [H _]. split; [|done]. unfold time_wf. simpl. done.
  - destruct (parse_date s1 tm1) as [[[] p] tm2] eqn:E; [done|].
    assert (Hn : neg tm2 = neg tm1).
    { revert E. unfold parse_date. repeat case_match; intros [= _ _ <-]; done. }
    apply parse_date_range in E.
    destruct (not_at s1 p 32).
    { split; [|done]. unfold time_wf. simpl. split_and!; auto. rewrite Hn. auto. }
    destruct (parse_time (drop (S p) s1) tm2) as [[[] q] tm3] eqn:E3; [done|].
    apply parse_time_range in E3 as [H3 (S1 & S2 & S3)].
    destruct (Z.ltb_spec 23 (hour tm3)); [done|]. split; [|done]. unfold time_wf. simpl.
    unfold date_range in *. simpl. rewrite S1, S2, S3. split_and!; try lia; apply H3.
Qed.

(** C36: [check_date] decides the Gregorian calendar: for a day between 1 and 31
    it accepts exactly the dates [datetime.date] has, leap years and the years
    1 to 9999 included. *)
Theorem check_date_iff_valid (y m d : Z) (Hd : 1 <= d <= 31) :
  check_date y m d = valid_date y m d.
Proof.
  unfold check_date, valid_date, days_in_month, is_leap.
  set (leap := _ || (y mod 400 =? 0)). clearbody leap.
  destruct (Z.ltb_spec y 1), (Z.ltb_spec 9999 y); cbn [orb]; try lia.
  destruct (Z.ltb_spec m 1), (Z.ltb_spec 12 m); cbn [orb]; try lia.
  destruct (Z.eqb_spec m 2) as [->|].
  { destruct leap, (Z.ltb_spec 29 d), (Z.ltb_spec 28 d); cbn -[Z.leb]; lia. }
  cbn [andb]. destruct ((m =? 4) || (m =? 6) || (m =? 9) || (m =? 11)); cbn [andb].
  - destruct (Z.ltb_spec 30 d); lia.
  - lia.
Qed.

(** ** Time spans *)

(** The microseconds a [MYSQL_TIME] stands for. *)
Definition tm_us (tm : MYSQL_TIME) : Z :=
  (if neg tm then -1 else 1)
  * ((hour tm * 3600 + minute tm * 60 + second tm) * 1000000 + second_part tm).

Lemma s32_small z : - 2 ^ 31 <= z < 2 ^ 31 -> s32 z = z.
Proof. intros H. unfold s32. rewrite Z.mod_small; lia. Qed.

Lemma s32_neg w z : 2 ^ 32 <= w -> (2 ^ 32 | w) -> 0 <= z <= 2 ^ 31 -> s32 ((- z) mod w) = - z.
Proof.
  intros Hw [k ->] Hz. unfold s32.
  assert (Hm : (- z) mod (k * 2 ^ 32) = - z ∨ (- z) mod (k * 2 ^ 32) = k * 2 ^ 32 - z).
  { destruct (decide (z = 0)) as [->|]; [left; apply Z.mod_0_l; lia|right].
    symmetry. apply (Z.mod_unique_pos _ _ (-1)); lia. }
  destruct Hm as [-> | ->].
  - rewrite Z.mod_small; lia.
  - replace (k * 2 ^ 32 - z + 2 ^ 31) with (- z + 2 ^ 31 + k * 2 ^ 32) by lia.
    rewrite Z_mod_plus_full, Z.mod_small; lia.
Qed.

Lemma c_int_ok z : - 2 ^ 31 <= z < 2 ^ 31 -> c_int z = Some z.
Proof. intros H. unfold c_int. by rewrite (proj2 (Z.leb_le _ _)), (proj2 (Z.ltb_lt _ _)) by lia. Qed.

Lemma c_int_inv z x : c_int z = Some x -> x = z ∧ - 2 ^ 31 <= z < 2 ^ 31.
Proof. unfold c_int. destruct (_ && _) eqn:E; [|done]. intros [= <-]. lia. Qed.

(** The span is exact, in normal form. *)
Lemma GetTimeDelta_exact tm :
  0 <= hour tm < 2 ^ 31 -> 0 <= minute tm < 60 -> 0 <= second tm < 60 ->
  0 <= second_part tm < 1000000 ->
  ∃ d s u, Mrdb_GetTimeDelta tm = Some (Some (PyDelta d s u)) ∧ delta_ok d s u
           ∧ delta_us d s u = tm_us tm.
Proof.
  intros Hh Hm Hs Hu. unfold Mrdb_GetTimeDelta.
  set (sg := if neg tm then -1 else 1).
  assert (Hsg : ∀ v, 0 <= v < 2 ^ 31 -> s32 (if neg tm then u32 (- v) else v) = sg * v).
  { intros v Hv. subst sg. destruct (neg tm).
    - unfold u32. rewrite s32_neg; [lia|lia|by exists 1|lia].
    - rewrite s32_small; lia. }
  assert (Hus : s32 (if neg tm then u64 (- second_part tm) else second_part tm) = sg * second_part tm).
  { subst sg. destruct (neg tm).
    - unfold u64. rewrite s32_neg; [lia|lia|by exists (2 ^ 32)|lia].
    - rewrite s32_small; lia. }
  rewrite Hus, !Hsg by lia.
  set (h := sg * hour tm).
  assert (Hq : h = 24 * Z.quot h 24 + Z.rem h 24) by (apply Z.quot_rem'; lia).
  assert (Hr : -24 < Z.rem h 24 < 24) by (pose proof (Z.rem_bound_abs h 24); lia).
  assert (Hsgn : sg = -1 ∨ sg = 1) by (subst sg; destruct (neg tm); auto).
  assert (Hhb : - 2 ^ 31 < h < 2 ^ 31) by (subst h; destruct Hsgn as [-> | ->]; lia).
  assert (Hmb : -60 < sg * minute tm < 60) by (destruct Hsgn as [-> | ->]; lia).
  assert (Hsb : -60 < sg * second tm < 60) by (destruct Hsgn as [-> | ->]; lia).
  rewrite c_int_ok by lia. cbn [mbind option_bind]. rewrite c_int_ok by lia. cbn [mbind option_bind].
  rewrite c_int_ok by lia. cbn [mbind option_bind]. rewrite c_int_ok by lia. cbn [mbind option_bind].
  set (sec := Z.rem h 24 * 3600 + sg * minute tm * 60 + sg * second tm).
  assert (Hus' : delta_us (Z.quot h 24) sec (sg * second_part tm) = tm_us tm).
  { unfold delta_us, tm_us. fold sg. subst sec. subst h. lia. }
  destruct (PyDelta_FromDSU_spec (Z.quot h 24) sec (sg * second_part tm)) as (d & s & u & E & Hok & Eq).
  { rewrite Hus'. unfold tm_us. fold sg. destruct Hsgn as [-> | ->]; lia. }
  exists d, s, u. rewrite E, Eq. done.
Qed.

(** A TIME in the column's range becomes the [timedelta] of exactly that
    many microseconds, the sign included, in Python's normal form. *)
Theorem time_to_timedelta_exact (tm : MYSQL_TIME) (Hr : clock_range tm) :
  ∃ d s u, Mrdb_GetTimeDelta tm = Some (Some (PyDelta d s u)) ∧ delta_ok d s u
           ∧ delta_us d s u = tm_us tm.
Proof. destruct Hr as (H1 & H2 & H3 & H4). apply GetTimeDelta_exact; lia. Qed.

Lemma pydelta_to_tm_exact d s u :
  delta_ok d s u -> -24854 <= d <= 24854 ->
  ∃ tm, mariadb_pydelta_to_tm d s u = Some tm ∧ tm_us tm = delta_us d s u
        ∧ 0 <= hour tm < 2 ^ 31 ∧ 0 <= minute tm < 60 ∧ 0 <= second tm < 60
        ∧ 0 <= second_part tm < 1000000.
Proof.
  intros (_ & Hs & Hu) Hd. unfold mariadb_pydelta_to_tm.
  rewrite c_int_ok by lia. cbn [mbind option_bind]. rewrite c_int_ok by lia. cbn [mbind option_bind].
  rewrite c_int_ok by lia. cbn [mbind option_bind]. rewrite c_int_ok by lia. cbn [mbind option_bind].
  cbn [second_part neg set_neg set_second_part].
  set (T := Z.abs (d * 3600 * 24 + s)).
  assert (HT : 0 <= T < 2 ^ 31) by lia.
  set (b := negb (u =? 0) && (d <? 0)).
  set (T' := if b then T - 1 else T). set (u' := if b then u64 (1000000 - u) else u).
  assert (Hpair : (if b then (T - 1, set_second_part (u64 (1000000 - u)) (set_neg (d <? 0) (set_second_part u tm_zero)))
                   else (T, set_neg (d <? 0) (set_second_part u tm_zero)))
                  = (T', set_second_part u' (set_neg (d <? 0) tm_zero))) by (subst T' u'; by destruct b).
  rewrite Hpair. clear Hpair.
  assert (HT' : 0 <= T' < 2 ^ 31) by (subst T' b; destruct (_ && _) eqn:E; lia).
  assert (Hu' : 0 <= u' < 1000000).
  { subst u' b. unfold u64. destruct (_ && _) eqn:E; [|lia]. rewrite Z.mod_small; lia. }
  assert (Hval : (if d <? 0 then -1 else 1) * (T' * 1000000 + u') = delta_us d s u).
  { unfold delta_us. subst T' u' b T. unfold u64.
    destruct (Z.ltb_spec d 0), (Z.eqb_spec u 0); cbn [negb andb]; try rewrite Z.mod_small by lia; lia. }
  assert (Hrem : 0 <= Z.rem T' 3600) by (apply Z.rem_nonneg; lia).
  rewrite (Z.quot_div_nonneg T'), (Z.quot_div_nonneg (Z.rem T' 3600)), (Z.rem_mod_nonneg (Z.rem T' 3600)) by lia.
  rewrite (Z.rem_mod_nonneg T') by lia. clear Hrem.
  pose proof (Z.div_mod T' 3600 ltac:(lia)). pose proof (Z.mod_pos_bound T' 3600 ltac:(lia)).
  pose proof (Z.div_mod (T' mod 3600) 60 ltac:(lia)).
  pose proof (Z.mod_pos_bound (T' mod 3600) 60 ltac:(lia)).
  assert (0 <= T' / 3600 < 2 ^ 31) by (split; [apply Z.div_pos; lia|apply Z.div_lt_upper_bound; lia]).
  assert (0 <= T' mod 3600 / 60 < 60) by (split; [apply Z.div_pos; lia|apply Z.div_lt_upper_bound; lia]).
  unfold u32. rewrite !(Z.mod_small _ (2 ^ 32)) by lia.
  eexists. split; [reflexivity|]. unfold tm_us. simpl. rewrite <- Hval. split_and!; try lia.
Qed.

(** C28: A [timedelta] of up to 24854 days survives the way to [MYSQL_TIME] and
    back: the structure has minutes and seconds below 60 and a fraction below
    one second, stands for the same number of microseconds, and
    [Mrdb_GetTimeDelta] gives the same object. *)
Theorem timedelta_roundtrip (d s u : Z) (Hok : delta_ok d s u) (Hd : -24854 <= d <= 24854) :
  ∃ tm, mariadb_pydelta_to_tm d s u = Some tm ∧ tm_us tm = delta_us d s u
        ∧ minute tm < 60 ∧ second tm < 60 ∧ second_part tm < 1000000
        ∧ Mrdb_GetTimeDelta tm = Some (Some (PyDelta d s u)).
Proof.
  destruct (pydelta_to_tm_exact d s u Hok Hd) as (tm & E & Hus & H1 & H2 & H3 & H4).
  exists tm. split_and!; [done|done|lia|lia|lia|].
  destruct (GetTimeDelta_exact tm H1 H2 H3 H4) as (d' & s' & u' & -> & Hok' & Eq).
  destruct (delta_us_inj d s u d' s' u') as (-> & -> & ->); [done|done|congruence|done].
Qed.

(** Longer spans overflow: for 24856 days or more in either direction the
    [int] product of [mariadb_pydelta_to_tm] is out of range, which C leaves
    undefined, although [timedelta] allows 999999999 days. *)
Theorem pydelta_overflow (d s u : Z) (Hok : delta_ok d s u) (Hd : 24856 <= Z.abs d) :
  mariadb_pydelta_to_tm d s u = None.
Proof.
  destruct Hok as (_ & Hs & _). unfold mariadb_pydelta_to_tm.
  destruct (c_int (d * 3600)) as [x|] eqn:E; [|done].
  apply c_int_inv in E as [-> _]. cbn [mbind option_bind].
  destruct (c_int (d * 3600 * 24)) as [x|] eqn:E; [|done].
  apply c_int_inv in E as [_ E]. lia.
Qed.

(** ** The properties at concrete values *)

Lemma time_text_roundtrip_witness :
  Py_str_to_TIME (Some (bytes_of_string " -12:34:56.789")) tm_zero
  = (false, mkTime 0 0 0 12 34 56 789000 true MYSQL_TIMESTAMP_TIME).
Proof.
  apply (time_text_roundtrip true 2 3 12 34 56 789 [32] [] tm_zero);
    [repeat split; lia|by repeat constructor|constructor].
Defined.

Lemma date_text_roundtrip_witness :
  Py_str_to_TIME (Some (bytes_of_string "2024-02-29")) tm_zero
  = (false, mkTime 2024 2 29 0 0 0 0 false MYSQL_TIMESTAMP_DATE).
Proof.
  apply (date_text_roundtrip 2024 2 29 [] [] tm_zero); (lia || constructor).
Defined.

Lemma datetime_text_roundtrip_witness :
  Py_str_to_TIME (Some (bytes_of_string "2024-02-29 23:59:58.5")) tm_zero
  = (false, mkTime 2024 2 29 23 59 58 500000 false MYSQL_TIMESTAMP_DATETIME).
Proof.
  apply (datetime_text_roundtrip 2024 2 29 1 23 59 58 5 [] [] tm_zero);
    [lia|lia|lia|repeat split; lia|lia|constructor|constructor].
Defined.

Lemma check_date_iff_valid_witness :
  check_date 1900 2 29 = valid_date 1900 2 29 ∧ valid_date 1900 2 29 = false.
Proof. split; [apply check_date_iff_valid; lia|reflexivity]. Defined.

Lemma time_to_timedelta_exact_witness :
  ∃ d s u, Mrdb_GetTimeDelta (mkTime 0 0 0 838 59 59 999999 true MYSQL_TIMESTAMP_TIME)
           = Some (Some (PyDelta d s u)) ∧ delta_ok d s u
           ∧ delta_us d s u = - 3020399999999.
Proof.
  apply (time_to_timedelta_exact (mkTime 0 0 0 838 59 59 999999 true MYSQL_TIMESTAMP_TIME)).
  unfold clock_range. simpl. lia.
Defined.

Lemma timedelta_roundtrip_witness :
  ∃ tm, mariadb_pydelta_to_tm (-1) 86399 1 = Some tm ∧ tm_us tm = delta_us (-1) 86399 1
        ∧ minute tm < 60 ∧ second tm < 60 ∧ second_part tm < 1000000
        ∧ Mrdb_GetTimeDelta tm = Some (Some (PyDelta (-1) 86399 1)).
Proof. apply timedelta_roundtrip; unfold delta_ok; lia. Defined.

Lemma pydelta_overflow_witness : mariadb_pydelta_to_tm 30000 0 0 = None.
Proof. apply pydelta_overflow; unfold delta_ok; lia. Defined.

(** [check_date] lets day 0 pass, which is no date in Python. *)
Lemma check_date_accepts_day_zero :
  check_date 2024 6 0 = true ∧ PyDate_FromDate 2024 6 0 = None.
Proof. split; reflexivity. Qed.
