(* ===== verification/Wire.v ===== *)
(** * Byte order macros ([src/include/mariadb_python.h], lines 537 to 538 and
    614 to 754)

    The branch for machines that are not 32-bit x86: integers are assembled
    from and split into bytes.  A pointer into a packet is the list of the
    bytes from there to the end of the packet; [None] is a read past it.  The
    shifts of the signed readers into the sign bit are taken to wrap, as the
    compilers the project supports define them. *)

From S2P Require Import Prelude.

(** ** Readers *)

Definition uint1korr (a : list Z) : option Z := a !! 0%nat.

Definition uint2korr (a : list Z) : option Z :=
  a0 ← a !! 0%nat; a1 ← a !! 1%nat;
  Some (u16 (a0 + Z.shiftl a1 8)).

Definition sint2korr (a : list Z) : option Z :=
  a0 ← a !! 0%nat; a1 ← a !! 1%nat;
  Some (s16 (a0 + Z.shiftl a1 8)).

Definition uint3korr (a : list Z) : option Z :=
  a0 ← a !! 0%nat; a1 ← a !! 1%nat; a2 ← a !! 2%nat;
  Some (u32 (a0 + u32 (Z.shiftl a1 8) + u32 (Z.shiftl a2 16))).

Definition sint3korr (a : list Z) : option Z :=
  a0 ← a !! 0%nat; a1 ← a !! 1%nat; a2 ← a !! 2%nat;
  let low := Z.lor (Z.lor (u32 (Z.shiftl a2 16)) (u32 (Z.shiftl a1 8))) a0 in
  Some (s32 (if negb (Z.land a2 128 =? 0) then Z.lor (u32 (Z.shiftl 255 24)) low else low)).

Definition uint4korr (a : list Z) : option Z :=
  a0 ← a !! 0%nat; a1 ← a !! 1%nat; a2 ← a !! 2%nat; a3 ← a !! 3%nat;
  Some (u32 (a0 + u32 (Z.shiftl a1 8) + u32 (Z.shiftl a2 16) + u32 (Z.shiftl a3 24))).

Definition sint4korr (a : list Z) : option Z :=
  a0 ← a !! 0%nat; a1 ← a !! 1%nat; a2 ← a !! 2%nat; a3 ← a !! 3%nat;
  Some (s32 (a0 + Z.shiftl a1 8 + Z.shiftl a2 16 + s32 (Z.shiftl a3 24))).

(** The low four bytes are summed at 32 bits, the rest added at 64. *)
Definition uint5korr (a : list Z) : option Z :=
  low ← uint4korr a; a4 ← a !! 4%nat;
  Some (u64 (low + u64 (Z.shiftl a4 32))).

Definition uint6korr (a : list Z) : option Z :=
  low ← uint4korr a; a4 ← a !! 4%nat; a5 ← a !! 5%nat;
  Some (u64 (low + u64 (Z.shiftl a4 32) + u64 (Z.shiftl a5 40))).

Definition uint8korr (a : list Z) : option Z :=
  low ← uint4korr a; high ← uint4korr (drop 4 a);
  Some (u64 (low + u64 (Z.shiftl high 32))).

Definition sint8korr (a : list Z) : option Z := s64 <$> uint8korr a.

(** [float4get] and [float8get] copy the bytes; the bit pattern is the
    little-endian value of the bytes. *)
Definition float4get (a : list Z) : option Z := uint4korr a.
Definition float8get (a : list Z) : option Z := uint8korr a.

(** ** Writers: the bytes stored at the target *)

Definition byte_at (v k : Z) : Z := u8 (Z.shiftr v k).

Definition int1store (v : Z) : list Z := [u8 v].
Definition int2store (v : Z) : list Z := let def_temp := u32 v in [byte_at def_temp 0; byte_at def_temp 8].
Definition int3store (v : Z) : list Z := [byte_at v 0; byte_at v 8; byte_at v 16].
Definition int4store (v : Z) : list Z := [byte_at v 0; byte_at v 8; byte_at v 16; byte_at v 24].
Definition int5store (v : Z) : list Z := int4store v ++ [byte_at v 32].
Definition int6store (v : Z) : list Z := int4store v ++ [byte_at v 32; byte_at v 40].
Definition int8store (v : Z) : list Z :=
  let def_temp := u32 v in
  let def_temp2 := u32 (Z.shiftr v 32) in
  int4store def_temp ++ int4store def_temp2.

(** ** Reference: little-endian integers *)

Fixpoint le_bytes (n : nat) (v : Z) : list Z :=
  match n with
  | O => []
  | S n' => v mod 256 :: le_bytes n' (v / 256)
  end.

Fixpoint le_value (l : list Z) : Z :=
  match l with
  | [] => 0
  | c :: l' => c + 256 * le_value l'
  end.

Definition bytes (l : list Z) : Prop := Forall (λ c, 0 <= c < 256) l.

Lemma length_le_bytes n v : length (le_bytes n v) = n.
Proof. revert v. induction n as [|n IH]; intros v; simpl; [done|]. by rewrite IH. Qed.

Lemma le_bytes_bytes n v : bytes (le_bytes n v).
Proof.
  revert v. induction n as [|n IH]; intros v; simpl; constructor; [|apply IH].
  apply Z.mod_pos_bound. lia.
Qed.

Lemma le_value_bytes n v : le_value (le_bytes n v) = v mod 2 ^ (8 * Z.of_nat n).
Proof.
  revert v. induction n as [|n IH]; intros v; simpl.
  - by rewrite Z.mod_1_r.
  - rewrite IH. replace (8 * Z.of_nat (S n)) with (8 + 8 * Z.of_nat n) by lia.
    rewrite Z.pow_add_r by lia. change (2 ^ 8) with 256.
    rewrite Z.rem_mul_r by (try apply Z.pow_nonzero; lia). lia.
Qed.

Lemma le_value_range l : bytes l -> 0 <= le_value l < 2 ^ (8 * Z.of_nat (length l)).
Proof.
  induction 1 as [|c l Hc _ IH]; simpl; [lia|].
  replace (8 * Z.of_nat (S (length l))) with (8 + 8 * Z.of_nat (length l)) by lia.
  rewrite Z.pow_add_r by lia. change (2 ^ 8) with 256. lia.
Qed.

(** ** The readers read little-endian integers *)

Lemma lor_disjoint a b k : 0 <= k -> 0 <= a < 2 ^ k -> Z.lor (b * 2 ^ k) a = b * 2 ^ k + a.
Proof.
  intros Hk Ha. rewrite <- Z.lxor_lor, <- Z.add_nocarry_lxor; [done| |].
  all: apply Z.bits_inj'; intros n Hn; rewrite Z.land_spec, Z.bits_0.
  all: destruct (Z.lt_ge_cases n k) as [Hlt|Hge].
  all: try (rewrite Z.mul_pow2_bits_low by lia; done).
  all: replace a with (a mod 2 ^ k) by (apply Z.mod_small; lia).
  all: rewrite Z.mod_pow2_bits_high by lia; apply andb_false_r.
Qed.

Lemma sign_bit_byte c : 0 <= c < 256 -> (Z.land c 128 =? 0) = (c <? 128).
Proof.
  intros Hc. assert (H : forallb (λ n, Bool.eqb (Z.land (Z.of_nat n) 128 =? 0) (Z.of_nat n <? 128))
                          (seq 0 256) = true) by reflexivity.
  rewrite forallb_forall in H. specialize (H (Z.to_nat c)).
  rewrite Z2Nat.id in H by lia. apply eqb_prop, H, in_seq. lia.
Qed.

(** Signed value of an [n]-byte integer. *)
Definition signed (n : nat) (v : Z) : Z :=
  (v + 2 ^ (8 * Z.of_nat n - 1)) mod 2 ^ (8 * Z.of_nat n) - 2 ^ (8 * Z.of_nat n - 1).

(** Bounds of the bytes of a list. *)
Ltac bytes_inv :=
  unfold bytes in *;
  repeat match goal with H : Forall _ (_ :: _) |- _ => apply Forall_cons_1 in H as [? H] end.

Ltac korr :=
  bytes_inv;
  cbn -[Z.shiftl Z.mul Z.add Z.modulo u16 s16 u32 s32 u64 s64]; f_equal;
  unfold u16, s16, u32, s32, u64, s64; rewrite !Z.shiftl_mul_pow2 by lia;
  repeat match goal with
  | |- context [?x mod ?m] =>
      lazymatch x with context [_ mod _] => fail | _ => rewrite (Z.mod_small x m) by lia end
  end; lia.

Lemma uint2korr_le a0 a1 rest :
  bytes [a0; a1] -> uint2korr (a0 :: a1 :: rest) = Some (le_value [a0; a1]).
Proof. intros H. korr. Qed.

Lemma sint2korr_le a0 a1 rest :
  bytes [a0; a1] -> sint2korr (a0 :: a1 :: rest) = Some (signed 2 (le_value [a0; a1])).
Proof.
  intros H. cbn -[Z.shiftl]. rewrite Z.shiftl_mul_pow2 by lia. f_equal. unfold s16, signed.
  change (8 * Z.of_nat 2) with 16. change (16 - 1) with 15. f_equal. f_equal. simpl. lia.
Qed.

Lemma uint3korr_le a0 a1 a2 rest :
  bytes [a0; a1; a2] -> uint3korr (a0 :: a1 :: a2 :: rest) = Some (le_value [a0; a1; a2]).
Proof. intros H. korr. Qed.

Lemma sint3korr_le a0 a1 a2 rest :
  bytes [a0; a1; a2] ->
  sint3korr (a0 :: a1 :: a2 :: rest) = Some (signed 3 (le_value [a0; a1; a2])).
Proof.
  intros H. bytes_inv.
  unfold sint3korr. cbn [lookup list_lookup mbind option_bind]. rewrite sign_bit_byte by lia.
  unfold u32. rewrite !Z.shiftl_mul_pow2 by lia. rewrite !(Z.mod_small _ (2 ^ 32)) by lia.
  assert (Hl1 : Z.lor (a2 * 2 ^ 16) (a1 * 2 ^ 8) = a2 * 2 ^ 16 + a1 * 2 ^ 8)
    by (apply lor_disjoint; lia).
  assert (Hl2 : Z.lor (a2 * 2 ^ 16 + a1 * 2 ^ 8) a0 = a2 * 2 ^ 16 + a1 * 2 ^ 8 + a0).
  { replace (a2 * 2 ^ 16 + a1 * 2 ^ 8) with ((a2 * 2 ^ 8 + a1) * 2 ^ 8) by lia.
    apply lor_disjoint; lia. }
  assert (Hl3 : Z.lor (255 * 2 ^ 24) (a2 * 2 ^ 16 + a1 * 2 ^ 8 + a0)
                = 255 * 2 ^ 24 + (a2 * 2 ^ 16 + a1 * 2 ^ 8 + a0)) by (apply lor_disjoint; lia).
  rewrite Hl1, Hl2, Hl3. unfold s32, signed. simpl le_value.
  change (8 * Z.of_nat 3) with 24. change (24 - 1) with 23.
  destruct (Z.ltb_spec a2 128); cbn [negb]; f_equal.
  - rewrite !Z.mod_small by lia. lia.
  - rewrite <- (Zmod_unique (255 * 2 ^ 24 + (a2 * 2 ^ 16 + a1 * 2 ^ 8 + a0) + 2 ^ 31) (2 ^ 32) 1
                 (a2 * 2 ^ 16 + a1 * 2 ^ 8 + a0 + 255 * 2 ^ 24 - 2 ^ 31)) by lia.
    rewrite <- (Zmod_unique _ (2 ^ 24) 1 (a2 * 2 ^ 16 + a1 * 2 ^ 8 + a0 - 2 ^ 23)) by lia. lia.
Qed.

Lemma uint4korr_le a0 a1 a2 a3 rest :
  bytes [a0; a1; a2; a3] ->
  uint4korr (a0 :: a1 :: a2 :: a3 :: rest) = Some (le_value [a0; a1; a2; a3]).
Proof. intros H. korr. Qed.

Lemma sint4korr_le a0 a1 a2 a3 rest :
  bytes [a0; a1; a2; a3] ->
  sint4korr (a0 :: a1 :: a2 :: a3 :: rest) = Some (signed 4 (le_value [a0; a1; a2; a3])).
Proof.
  intros H. cbn -[Z.shiftl s32]. rewrite !Z.shiftl_mul_pow2 by lia. f_equal. unfold s32, signed.
  change (8 * Z.of_nat 4) with 32. change (32 - 1) with 31. f_equal.
  match goal with |- (?x + (?m - ?b) + ?b) mod ?w = _ =>
    replace (x + (m - b) + b) with (x + m) by lia end.
  rewrite Zplus_mod_idemp_r. f_equal. simpl. lia.
Qed.

Lemma uint8korr_le a0 a1 a2 a3 a4 a5 a6 a7 rest :
  bytes [a0; a1; a2; a3; a4; a5; a6; a7] ->
  uint8korr (a0 :: a1 :: a2 :: a3 :: a4 :: a5 :: a6 :: a7 :: rest)
  = Some (le_value [a0; a1; a2; a3; a4; a5; a6; a7]).
Proof. intros H. korr. Qed.

Lemma uint5korr_le a0 a1 a2 a3 a4 rest :
  bytes [a0; a1; a2; a3; a4] ->
  uint5korr (a0 :: a1 :: a2 :: a3 :: a4 :: rest) = Some (le_value [a0; a1; a2; a3; a4]).
Proof. intros H. korr. Qed.

Lemma uint6korr_le a0 a1 a2 a3 a4 a5 rest :
  bytes [a0; a1; a2; a3; a4; a5] ->
  uint6korr (a0 :: a1 :: a2 :: a3 :: a4 :: a5 :: rest) = Some (le_value [a0; a1; a2; a3; a4; a5]).
Proof. intros H. korr. Qed.

(** ** The writers write them *)

Lemma byte_at_div v k : 0 <= k -> byte_at v k = (v / 2 ^ k) mod 256.
Proof. intros Hk. unfold byte_at, u8. by rewrite Z.shiftr_div_pow2. Qed.

Lemma div_256_iter v k : 0 <= k -> v / 2 ^ k / 256 = v / 2 ^ (k + 8).
Proof.
  intros Hk. change 256 with (2 ^ 8).
  by rewrite Z.div_div, <- Z.pow_add_r by (try apply Z.pow_nonzero; lia).
Qed.

Lemma mod_div_pow v w k : 0 <= k <= w -> (v mod 2 ^ w) / 2 ^ k = (v / 2 ^ k) mod 2 ^ (w - k).
Proof.
  intros H. rewrite <- !Z.land_ones, <- !Z.shiftr_div_pow2 by lia. apply Z.bits_inj'. intros n Hn.
  rewrite !Z.shiftr_spec, !Z.land_spec, !Z.shiftr_spec, !Z.testbit_ones_nonneg by lia.
  f_equal. destruct (Z.ltb_spec (n + k) w), (Z.ltb_spec n (w - k)); lia || done.
Qed.

Lemma byte_mod v w k : 0 <= k -> k + 8 <= w -> byte_at (v mod 2 ^ w) k = byte_at v k.
Proof.
  intros Hk Hw. rewrite !byte_at_div, mod_div_pow by lia.
  replace (w - k) with (8 + (w - k - 8)) by lia. rewrite Z.pow_add_r by lia. change (2 ^ 8) with 256.
  rewrite Z.rem_mul_r by (try apply Z.pow_nonzero; lia).
  rewrite Z.mul_comm, Z_mod_plus_full. apply Z.mod_mod. lia.
Qed.

Lemma le_bytes_byte_at n v k :
  0 <= k -> le_bytes (S n) (v / 2 ^ k) = byte_at v k :: le_bytes n (v / 2 ^ (k + 8)).
Proof. intros Hk. simpl. by rewrite byte_at_div, div_256_iter by lia. Qed.

Ltac stores :=
  match goal with |- _ = le_bytes ?n ?v =>
    replace (le_bytes n v) with (le_bytes n (v / 2 ^ 0)) by (by rewrite Z.div_1_r) end;
  repeat (rewrite le_bytes_byte_at by lia; cbn [Z.add Pos.add]); reflexivity.

Lemma int3store_le v : int3store v = le_bytes 3 v.
Proof. stores. Qed.
Lemma int4store_le v : int4store v = le_bytes 4 v.
Proof. stores. Qed.
Lemma int5store_le v : int5store v = le_bytes 5 v.
Proof. stores. Qed.
Lemma int6store_le v : int6store v = le_bytes 6 v.
Proof. stores. Qed.
Lemma int2store_le v : int2store v = le_bytes 2 v.
Proof. unfold int2store, u32. rewrite !byte_mod by lia. stores. Qed.

Lemma byte_at_shift v j k : 0 <= j -> 0 <= k -> byte_at (Z.shiftr v j) k = byte_at v (k + j).
Proof. intros Hj Hk. unfold byte_at. by rewrite Z.shiftr_shiftr, Z.add_comm by lia. Qed.

Lemma int8store_le v : int8store v = le_bytes 8 v.
Proof.
  unfold int8store, int4store, u32. rewrite !byte_mod, !byte_at_shift by lia.
  cbn [app Z.add Pos.add]. stores.
Qed.

Lemma signed_mod n v : (0 < n)%nat -> signed n (v mod 2 ^ (8 * Z.of_nat n)) = signed n v.
Proof. intros Hn. unfold signed. by rewrite Zplus_mod_idemp_l. Qed.

Lemma signed_small n v :
  (0 < n)%nat -> - 2 ^ (8 * Z.of_nat n - 1) <= v < 2 ^ (8 * Z.of_nat n - 1) -> signed n v = v.
Proof.
  intros Hn Hv. unfold signed.
  assert (2 ^ (8 * Z.of_nat n) = 2 * 2 ^ (8 * Z.of_nat n - 1))
    by (rewrite <- Z.pow_succ_r by lia; f_equal; lia).
  rewrite Z.mod_small; lia.
Qed.

(** Reading the bytes of a known integer. *)
Lemma korr_le_bytes v rest :
  uint2korr (le_bytes 2 v ++ rest) = Some (v mod 2 ^ 16) ∧
  sint2korr (le_bytes 2 v ++ rest) = Some (signed 2 v) ∧
  uint3korr (le_bytes 3 v ++ rest) = Some (v mod 2 ^ 24) ∧
  sint3korr (le_bytes 3 v ++ rest) = Some (signed 3 v) ∧
  uint4korr (le_bytes 4 v ++ rest) = Some (v mod 2 ^ 32) ∧
  sint4korr (le_bytes 4 v ++ rest) = Some (signed 4 v) ∧
  uint5korr (le_bytes 5 v ++ rest) = Some (v mod 2 ^ 40) ∧
  uint6korr (le_bytes 6 v ++ rest) = Some (v mod 2 ^ 48) ∧
  uint8korr (le_bytes 8 v ++ rest) = Some (v mod 2 ^ 64).
Proof.
  assert (Hb : ∀ n, bytes (le_bytes n v)) by (intros; apply le_bytes_bytes).
  assert (Hv : ∀ n, le_value (le_bytes n v) = v mod 2 ^ (8 * Z.of_nat n)) by (intros; apply le_value_bytes).
  split_and!; cbn [le_bytes app].
  - rewrite uint2korr_le by apply (Hb 2%nat). f_equal. apply (Hv 2%nat).
  - rewrite sint2korr_le by apply (Hb 2%nat). f_equal.
    transitivity (signed 2 (v mod 2 ^ (8 * Z.of_nat 2))); [f_equal; apply (Hv 2%nat)|apply signed_mod; lia].
  - rewrite uint3korr_le by apply (Hb 3%nat). f_equal. apply (Hv 3%nat).
  - rewrite sint3korr_le by apply (Hb 3%nat). f_equal.
    transitivity (signed 3 (v mod 2 ^ (8 * Z.of_nat 3))); [f_equal; apply (Hv 3%nat)|apply signed_mod; lia].
  - rewrite uint4korr_le by apply (Hb 4%nat). f_equal. apply (Hv 4%nat).
  - rewrite sint4korr_le by apply (Hb 4%nat). f_equal.
    transitivity (signed 4 (v mod 2 ^ (8 * Z.of_nat 4))); [f_equal; apply (Hv 4%nat)|apply signed_mod; lia].
  - rewrite uint5korr_le by apply (Hb 5%nat). f_equal. apply (Hv 5%nat).
  - rewrite uint6korr_le by apply (Hb 6%nat). f_equal. apply (Hv 6%nat).
  - rewrite uint8korr_le by apply (Hb 8%nat). f_equal. apply (Hv 8%nat).
Qed.

Lemma sint8korr_le_bytes v rest : sint8korr (le_bytes 8 v ++ rest) = Some (signed 8 v).
Proof.
  unfold sint8korr. destruct (korr_le_bytes v rest) as (_ & _ & _ & _ & _ & _ & _ & _ & ->).
  simpl. f_equal. unfold s64, signed. by rewrite Zplus_mod_idemp_l.
Qed.

(** C38: The byte-order macros are inverse to each other: what [intNstore]
    writes, [uintNkorr] reads back modulo the width and [sintNkorr] as a signed
    integer, for every width the header has, whatever bytes follow. *)
Theorem store_korr_roundtrip (v : Z) (rest : list Z) :
  uint2korr (int2store v ++ rest) = Some (v mod 2 ^ 16) ∧
  sint2korr (int2store v ++ rest) = Some (signed 2 v) ∧
  uint3korr (int3store v ++ rest) = Some (v mod 2 ^ 24) ∧
  sint3korr (int3store v ++ rest) = Some (signed 3 v) ∧
  uint4korr (int4store v ++ rest) = Some (v mod 2 ^ 32) ∧
  sint4korr (int4store v ++ rest) = Some (signed 4 v) ∧
  uint5korr (int5store v ++ rest) = Some (v mod 2 ^ 40) ∧
  uint6korr (int6store v ++ rest) = Some (v mod 2 ^ 48) ∧
  uint8korr (int8store v ++ rest) = Some (v mod 2 ^ 64) ∧
  sint8korr (int8store v ++ rest) = Some (signed 8 v).
Proof.
  rewrite int2store_le, int3store_le, int4store_le, int5store_le, int6store_le, int8store_le.
  destruct (korr_le_bytes v rest) as (? & ? & ? & ? & ? & ? & ? & ? & ?).
  split_and!; try done. apply sint8korr_le_bytes.
Qed.
