(* ===== verification/WireVariants.v ===== *)
(** * The other branches of the byte order macros ([src/include/mariadb_python.h])

    [Wire] models the branch of the header for machines that are neither 32-bit
    x86 nor Windows.  Here are the others: 32-bit x86 and Windows, where
    integers are read and written through pointers of their type, and the
    versions for big-endian machines and mixed-endian floating point.  The
    theorem at the end says where they agree on the bytes of a packet and where
    they do not. *)

From S2P Require Import Prelude Wire.

(** An object of [n] bytes in memory, on a little-endian and on a big-endian
    machine. *)
Definition load_le (n : nat) (a : list Z) : option Z :=
  if (n <=? length a)%nat then Some (le_value (take n a)) else None.

Definition load_be (n : nat) (a : list Z) : option Z :=
  if (n <=? length a)%nat then Some (le_value (rev (take n a))) else None.

Definition store_le (n : nat) (v : Z) : list Z := le_bytes n v.
Definition store_be (n : nat) (v : Z) : list Z := rev (le_bytes n v).

(** ** 32-bit x86 and Windows: [int] and [long] have 32 bits *)

Definition sint2korr_x86 (a : list Z) : option Z := s16 <$> load_le 2 a.

Definition sint3korr_x86 (a : list Z) : option Z :=
  a0 ← a !! 0%nat; a1 ← a !! 1%nat; a2 ← a !! 2%nat;
  let low := Z.lor (Z.lor (u32 (Z.shiftl a2 16)) (u32 (Z.shiftl a1 8))) a0 in
  Some (s32 (if negb (Z.land a2 128 =? 0) then Z.lor (u32 (Z.shiftl 255 24)) low else low)).

Definition sint4korr_x86 (a : list Z) : option Z := s32 <$> load_le 4 a.
Definition uint2korr_x86 (a : list Z) : option Z := load_le 2 a.

(** With [HAVE_purify], and without: four bytes are read. *)
Definition uint3korr_purify_x86 (a : list Z) : option Z :=
  a0 ← a !! 0%nat; a1 ← a !! 1%nat; a2 ← a !! 2%nat;
  Some (u32 (a0 + u32 (Z.shiftl a1 8) + u32 (Z.shiftl a2 16))).

Definition uint3korr_x86 (a : list Z) : option Z := (λ v, Z.land v 0xFFFFFF) <$> load_le 4 a.
Definition uint4korr_x86 (a : list Z) : option Z := load_le 4 a.

Definition uint5korr_x86 (a : list Z) : option Z :=
  a0 ← a !! 0%nat; a1 ← a !! 1%nat; a2 ← a !! 2%nat; a3 ← a !! 3%nat; a4 ← a !! 4%nat;
  Some (u64 (u32 (a0 + u32 (Z.shiftl a1 8) + u32 (Z.shiftl a2 16) + u32 (Z.shiftl a3 24))
             + u64 (Z.shiftl a4 32))).

Definition uint6korr_x86 (a : list Z) : option Z :=
  a0 ← a !! 0%nat; a1 ← a !! 1%nat; a2 ← a !! 2%nat; a3 ← a !! 3%nat; a4 ← a !! 4%nat; a5 ← a !! 5%nat;
  Some (u64 (u32 (a0 + u32 (Z.shiftl a1 8) + u32 (Z.shiftl a2 16) + u32 (Z.shiftl a3 24))
             + u64 (Z.shiftl a4 32) + u64 (Z.shiftl a5 40))).

Definition uint8_tkorr_x86 (a : list Z) : option Z := load_le 8 a.
Definition sint8korr_x86 (a : list Z) : option Z := s64 <$> load_le 8 a.

Definition int2store_x86 (v : Z) : list Z := store_le 2 (u16 v).
Definition int3store_x86 (v : Z) : list Z := [byte_at v 0; byte_at (u32 v) 8; byte_at v 16].
Definition int4store_x86 (v : Z) : list Z := store_le 4 (s32 v).
Definition int5store_x86 (v : Z) : list Z :=
  [byte_at v 0; byte_at v 8; byte_at v 16; byte_at v 24; byte_at v 32].
Definition int6store_x86 (v : Z) : list Z :=
  [byte_at v 0; byte_at v 8; byte_at v 16; byte_at v 24; byte_at v 32; byte_at v 40].
Definition int8store_x86 (v : Z) : list Z := store_le 8 (u64 v).

(** [doubleget_union]: two longs over the bytes of a double; a floating-point
    value is its bit pattern. *)
Definition doubleget_x86 (a : list Z) : option Z :=
  m0 ← load_le 4 a; m1 ← load_le 4 (drop 4 a); Some (le_value (store_le 4 m0 ++ store_le 4 m1)).

Definition doublestore_x86 (v : Z) : list Z :=
  let m := store_le 8 v in
  store_le 4 (le_value (take 4 m)) ++ store_le 4 (le_value (take 4 (drop 4 m))).

Definition float4get_x86 (a : list Z) : option Z := load_le 4 a.
Definition float8get_x86 (a : list Z) : option Z := doubleget_x86 a.
Definition float4store_x86 (v : Z) : list Z := store_le 4 v.
Definition floatstore_x86 (v : Z) : list Z := store_le 4 v.
Definition floatget_x86 (a : list Z) : option Z := load_le 4 a.
Definition float8store_x86 (v : Z) : list Z := doublestore_x86 v.

(** ** Big-endian machines *)

(** The bytes at the given places of an object or a packet. *)
Definition pick (places : list nat) (a : list Z) : option (list Z) := mapM (λ i, a !! i) places.

(** [WORDS_BIGENDIAN]. *)
Definition float4store_be (v : Z) : option (list Z) := pick [3; 2; 1; 0]%nat (store_be 4 v).
Definition float4get_be (m : list Z) : option Z := def_temp ← pick [3; 2; 1; 0]%nat m; load_be 4 def_temp.
Definition float8store_be (v : Z) : option (list Z) := pick [7; 6; 5; 4; 3; 2; 1; 0]%nat (store_be 8 v).
Definition float8get_be (m : list Z) : option Z :=
  def_temp ← pick [7; 6; 5; 4; 3; 2; 1; 0]%nat m; load_be 8 def_temp.

(** [HAVE_BIGENDIAN]: the byte order of the machine, not of the packet. *)
Definition ushortget_be (m : list Z) : option Z :=
  m0 ← m !! 0%nat; m1 ← m !! 1%nat; Some (u16 (m1 + u16 (Z.shiftl m0 8))).
Definition shortget_be (m : list Z) : option Z :=
  m0 ← m !! 0%nat; m1 ← m !! 1%nat; Some (s16 (m1 + s16 (Z.shiftl m0 8))).
Definition longget_be (m : list Z) : option Z :=
  def_temp ← pick [0; 1; 2; 3]%nat m; s32 <$> load_be 4 def_temp.
Definition ulongget_be (m : list Z) : option Z := def_temp ← pick [0; 1; 2; 3]%nat m; load_be 4 def_temp.
Definition shortstore_be (v : Z) : list Z := let def_temp := u32 v in [byte_at def_temp 8; byte_at def_temp 0].
Definition longstore_be (v : Z) : list Z := [byte_at v 24; byte_at v 16; byte_at v 8; byte_at v 0].
Definition floatget_be (m : list Z) : option Z := load_be 4 m.
Definition floatstore_be (v : Z) : list Z := store_be 4 v.
Definition doubleget_be (m : list Z) : option Z := load_be 8 m.
Definition doublestore_be (v : Z) : list Z := store_be 8 v.
Definition longlongget_be (m : list Z) : option Z := load_be 8 m.
Definition longlongstore_be (v : Z) : list Z := store_be 8 v.

(** ** Little-endian machines whose doubles have the high word first *)

Definition load_double (a : list Z) : option Z :=
  if (8 <=? length a)%nat then Some (le_value (take 4 (drop 4 a) ++ take 4 a)) else None.
Definition store_double (v : Z) : list Z := drop 4 (le_bytes 8 v) ++ take 4 (le_bytes 8 v).

Definition doublestore_words (v : Z) : option (list Z) :=
  pick [4; 5; 6; 7; 0; 1; 2; 3]%nat (store_double v).
Definition doubleget_words (m : list Z) : option Z :=
  def_temp ← pick [4; 5; 6; 7; 0; 1; 2; 3]%nat m; load_double def_temp.

(** ** Little-endian machines that are not 32-bit x86 *)

Definition ushortget_le (m : list Z) : option Z := uint2korr m.
Definition shortget_le (m : list Z) : option Z := sint2korr m.
Definition longget_le (m : list Z) : option Z := sint4korr m.
Definition ulongget_le (m : list Z) : option Z := uint4korr m.
Definition shortstore_le (v : Z) : list Z := int2store v.
Definition longstore_le (v : Z) : list Z := int4store v.
Definition floatstore_le (v : Z) : list Z := store_le 4 v.
Definition floatget_le (m : list Z) : option Z := load_le 4 m.
Definition doubleget_le (m : list Z) : option Z := load_le 8 m.
Definition doublestore_le (v : Z) : list Z := store_le 8 v.
Definition longlongget_le (m : list Z) : option Z := load_le 8 m.
Definition longlongstore_le (v : Z) : list Z := store_le 8 v.


(** ** They agree *)

Lemma signed_s16 v : signed 2 v = s16 v. Proof. done. Qed.
Lemma signed_s32 v : signed 4 v = s32 v. Proof. done. Qed.
Lemma signed_s64 v : signed 8 v = s64 v. Proof. done. Qed.

Lemma le_bytes_mod n v : le_bytes n (v mod 2 ^ (8 * Z.of_nat n)) = le_bytes n v.
Proof.
  revert v. induction n as [|n IH]; intros v; [done|]. cbn [le_bytes].
  replace (8 * Z.of_nat (S n)) with (8 + 8 * Z.of_nat n) by lia.
  rewrite Z.pow_add_r by lia. change (2 ^ 8) with 256.
  rewrite Z.rem_mul_r by (try apply Z.pow_nonzero; lia).
  f_equal; [rewrite Z.mul_comm, Z_mod_plus_full; apply Z.mod_mod; lia|].
  rewrite Z.mul_comm, Z.div_add, Z.div_small, Z.add_0_l by (try apply Z.mod_pos_bound; lia). apply IH.
Qed.

Lemma le_bytes_s32 v : le_bytes 4 (s32 v) = le_bytes 4 v.
Proof.
  rewrite <- (le_bytes_mod 4), <- (le_bytes_mod 4 v). f_equal. unfold s32.
  change (2 ^ (8 * Z.of_nat 4)) with (2 ^ 32). rewrite Zminus_mod_idemp_l. f_equal. lia.
Qed.

(** Bytes determine their list. *)
Lemma le_bytes_value l : bytes l -> le_bytes (length l) (le_value l) = l.
Proof.
  induction 1 as [|c l Hc Hl IH]; [done|]. cbn [length le_bytes le_value].
  replace (c + 256 * le_value l) with (c + le_value l * 256) by lia.
  rewrite Z_mod_plus_full, Z.mod_small, Z.div_add, Z.div_small, Z.add_0_l by lia. by rewrite IH.
Qed.

(** The readers of the packet macros, two to eight bytes. *)
Lemma short_readers_agree a :
  bytes a ->
  uint2korr_x86 a = uint2korr a ∧ sint2korr_x86 a = sint2korr a ∧
  uint3korr_purify_x86 a = uint3korr a ∧ sint3korr_x86 a = sint3korr a ∧
  uint3korr_x86 a = (if (length a =? 3)%nat then None else uint3korr a).
Proof.
  intros H. destruct a as [|a0 [|a1 [|a2 [|a3 rest]]]]; [by split_and!..| | |].
  - rewrite uint2korr_le, sint2korr_le by done. by split_and!.
  - rewrite uint2korr_le, sint2korr_le by (by apply (Forall_take _ 2) in H). by split_and!.
  - rewrite uint2korr_le, sint2korr_le by (by apply (Forall_take _ 2) in H). split_and!; [done..|].
    cbn [length Nat.eqb]. rewrite uint3korr_le by (by apply (Forall_take _ 3) in H).
    unfold uint3korr_x86, load_le. cbn [length Nat.leb take fmap option_fmap option_map].
    f_equal. change 0xFFFFFF with (Z.ones 24). rewrite Z.land_ones by lia.
    change (le_value (a0 :: a1 :: a2 :: a3 :: take 0 rest))
      with (a0 + 256 * (a1 + 256 * (a2 + 256 * (a3 + 256 * 0)))).
    bytes_inv. cbn [le_value].
    replace (a0 + 256 * (a1 + 256 * (a2 + 256 * (a3 + 256 * 0))))
      with (a0 + 256 * (a1 + 256 * (a2 + 256 * 0)) + a3 * 2 ^ 24) by lia.
    rewrite Z_mod_plus_full, Z.mod_small; lia.
Qed.

Lemma word_readers_agree a :
  bytes a ->
  uint4korr_x86 a = uint4korr a ∧ sint4korr_x86 a = sint4korr a ∧
  float4get_x86 a = float4get a ∧ float4get_be a = float4get a ∧
  uint5korr_x86 a = uint5korr a ∧ uint6korr_x86 a = uint6korr a.
Proof.
  intros H. destruct a as [|a0 [|a1 [|a2 [|a3 rest]]]]; [by split_and!..|].
  unfold float4get. rewrite uint4korr_le, sint4korr_le by (by apply (Forall_take _ 4) in H). by split_and!.
Qed.

Lemma long_readers_agree a :
  bytes a ->
  uint8_tkorr_x86 a = uint8korr a ∧ sint8korr_x86 a = sint8korr a ∧
  float8get_x86 a = float8get a ∧ float8get_be a = float8get a ∧ doubleget_words a = float8get a.
Proof.
  intros H. destruct a as [|a0 [|a1 [|a2 [|a3 [|a4 [|a5 [|a6 [|a7 rest]]]]]]]]; [by split_and!..|].
  assert (E8 : uint8korr (a0 :: a1 :: a2 :: a3 :: a4 :: a5 :: a6 :: a7 :: rest)
               = Some (le_value [a0; a1; a2; a3; a4; a5; a6; a7]))
    by (apply uint8korr_le; by apply (Forall_take _ 8) in H).
  unfold float8get, sint8korr. rewrite E8. split_and!; [done..| |done|done].
  change (float8get_x86 _) with (Some (le_value (le_bytes 4 (le_value [a0; a1; a2; a3])
                                            ++ le_bytes 4 (le_value [a4; a5; a6; a7])))).
  pose proof (le_bytes_value [a0; a1; a2; a3] ltac:(by apply (Forall_take _ 4) in H)) as F1.
  pose proof (le_bytes_value [a4; a5; a6; a7]
                ltac:(by apply (Forall_drop _ 4), (Forall_take _ 4) in H)) as F2.
  cbn [length] in F1, F2. by rewrite F1, F2.
Qed.

(** The writers of every branch. *)
Lemma writers_agree v :
  (int2store_x86 v = int2store v ∧ int3store_x86 v = int3store v ∧ int4store_x86 v = int4store v ∧
   int5store_x86 v = int5store v ∧ int6store_x86 v = int6store v ∧ int8store_x86 v = int8store v) ∧
  (float4store_x86 v = int4store v ∧ float8store_x86 v = int8store v ∧
   float4store_be v = Some (int4store v) ∧ float8store_be v = Some (int8store v) ∧
   doublestore_words v = Some (int8store v)).
Proof.
  rewrite int2store_le, int3store_le, int4store_le, int5store_le, int6store_le, int8store_le.
  split; split_and!; try reflexivity.
  - apply (le_bytes_mod 2).
  - rewrite <- int3store_le. unfold int3store_x86, int3store, u32. by rewrite byte_mod by lia.
  - apply le_bytes_s32.
  - by rewrite <- int5store_le.
  - by rewrite <- int6store_le.
  - apply (le_bytes_mod 8).
  - unfold float8store_x86, doublestore_x86, store_le. cbv zeta.
    pose proof (le_bytes_bytes 8 v) as Hb.
    pose proof (le_bytes_value (take 4 (le_bytes 8 v)) ltac:(by apply Forall_take)) as F1.
    pose proof (le_bytes_value (take 4 (drop 4 (le_bytes 8 v))) ltac:(by apply Forall_take, Forall_drop)) as F2.
    rewrite length_take, length_le_bytes in F1. rewrite length_take, length_drop, length_le_bytes in F2.
    cbn [Nat.min Nat.sub] in F1, F2. rewrite F1, F2. reflexivity.
Qed.

(** Without the fourth byte the x86 [uint3korr] reads past the packet. *)
Lemma uint3korr_x86_needs_four : uint3korr_x86 [1; 2; 3] = None ∧ uint3korr [1; 2; 3] = Some 197121.
Proof. done. Qed.

(** ** The byte order of the machine *)

(** [ushortget] and its like read what [shortstore] and its like have written,
    on big-endian and on little-endian machines. *)
Lemma native_roundtrip v :
  (ushortget_be (shortstore_be v) = Some (u16 v) ∧ shortget_be (shortstore_be v) = Some (s16 v) ∧
   ulongget_be (longstore_be v) = Some (u32 v) ∧ longget_be (longstore_be v) = Some (s32 v)) ∧
  (ushortget_le (shortstore_le v) = Some (u16 v) ∧ shortget_le (shortstore_le v) = Some (s16 v) ∧
   ulongget_le (longstore_le v) = Some (u32 v) ∧ longget_le (longstore_le v) = Some (s32 v)).
Proof.
  pose proof (korr_le_bytes v []) as (E1 & E2 & _ & _ & E3 & E4 & _). rewrite !app_nil_r in *.
  assert (B4 : longstore_be v = rev (le_bytes 4 v)) by (by rewrite <- int4store_le).
  assert (Hp : ∀ l, length l = 4%nat -> pick [0; 1; 2; 3]%nat l = Some l).
  { intros l Hl. by destruct l as [|? [|? [|? [|? [|]]]]]. }
  assert (L4 : load_be 4 (rev (le_bytes 4 v)) = Some (u32 v)).
  { unfold load_be. rewrite length_rev, length_le_bytes. cbn [Nat.leb].
    rewrite take_ge by (by rewrite length_rev, length_le_bytes). rewrite rev_involutive. f_equal. apply (le_value_bytes 4). }
  split; split_and!.
  3, 4: unfold ulongget_be, longget_be; rewrite B4, Hp by (by rewrite length_rev, length_le_bytes);
    cbn [mbind option_bind]; rewrite L4; try done; cbn; f_equal; apply (signed_mod 4); lia.
  3-6: unfold ushortget_le, shortget_le, ulongget_le, longget_le, shortstore_le, longstore_le;
    rewrite ?int2store_le, ?int4store_le; done.
  - rewrite <- (int2store_le v) in E1. change (Some (u16 v)) with (Some (v mod 2 ^ 16)). rewrite <- E1. cbn -[Z.shiftl byte_at u32]. f_equal. unfold u16.
    by rewrite Zplus_mod_idemp_r.
  - rewrite <- (int2store_le v) in E2. rewrite signed_s16 in E2. rewrite <- E2. cbn -[Z.shiftl byte_at u32]. f_equal.
    unfold s16. match goal with |- (?x + (?m - ?b) + ?b) mod ?w - _ = _ =>
      replace (x + (m - b) + b) with (x + m) by lia end.
    rewrite Zplus_mod_idemp_r. f_equal. f_equal. lia.
Qed.

(** A big-endian machine sees the bytes of a little-endian one in reverse. *)
Lemma native_reversed v :
  (∀ m0 m1, bytes [m0; m1] ->
     ushortget_be [m0; m1] = ushortget_le [m1; m0] ∧ shortget_be [m0; m1] = shortget_le [m1; m0]) ∧
  (∀ a, bytes a -> length a = 4%nat ->
     ulongget_be a = ulongget_le (rev a) ∧ longget_be a = longget_le (rev a)) ∧
  shortstore_be v = rev (shortstore_le v) ∧ longstore_be v = rev (longstore_le v).
Proof.
  split_and!.
  - intros m0 m1 H. unfold ushortget_le, shortget_le.
    rewrite uint2korr_le, sint2korr_le by (bytes_inv; repeat constructor; lia).
    unfold ushortget_be, shortget_be, signed, u16, s16. cbn -[Z.shiftl Z.mul Z.modulo].
    change (2 ^ (8 * Z.of_nat 2)) with 65536. change (2 ^ (8 * Z.of_nat 2 - 1)) with 32768.
    rewrite Z.shiftl_mul_pow2 by lia. bytes_inv. cbv beta in *.
    rewrite (Z.mod_small (m0 * 2 ^ 8)), Z.mod_small by lia. split; f_equal; [lia|].
    replace (m1 + _ + 2 ^ 15) with (m1 + (m0 * 2 ^ 8 + 2 ^ 15) mod 2 ^ 16) by lia.
    rewrite Zplus_mod_idemp_r. f_equal. change (2 ^ 16) with 65536. f_equal. lia.
  - intros a Ha Hl. destruct a as [|a0 [|a1 [|a2 [|a3 [|]]]]]; try done.
    unfold ulongget_le, longget_le. cbn [rev app].
    rewrite uint4korr_le, sint4korr_le by (bytes_inv; repeat constructor; lia). done.
  - unfold shortstore_le. rewrite int2store_le. unfold shortstore_be. cbn [le_bytes rev app].
    unfold u32. rewrite !byte_mod, !byte_at_div by lia. by rewrite Z.div_1_r.
  - unfold longstore_le. reflexivity.
Qed.

(** C39: The branches of the byte order macros.  The macros for packets
    ([uint2korr] to [sint8korr], [int2store] to [int8store], [float4get],
    [float8get] and their stores) read the same number from any bytes, none when
    there are too few, and write the same bytes for a number in every branch:
    the native accesses of 32-bit x86 and Windows, the reversed copies of
    big-endian machines and the swapped words of mixed-endian doubles agree with
    the portable macros.  The one exception is the x86 [uint3korr] without
    [HAVE_purify], which reads a fourth byte and so past a packet of three.  The
    macros for the byte order of the machine ([ushortget], [shortget],
    [ulongget], [longget], [shortstore], [longstore]) do not agree: with
    [HAVE_BIGENDIAN] they read and write the bytes in reverse. *)
Theorem byte_order_branches (a : list Z) (v : Z) (Hbytes : bytes a) :
  (uint2korr_x86 a = uint2korr a ∧ sint2korr_x86 a = sint2korr a ∧
   uint3korr_purify_x86 a = uint3korr a ∧ sint3korr_x86 a = sint3korr a ∧
   uint3korr_x86 a = (if (length a =? 3)%nat then None else uint3korr a)) ∧
  (uint4korr_x86 a = uint4korr a ∧ sint4korr_x86 a = sint4korr a ∧
   float4get_x86 a = float4get a ∧ float4get_be a = float4get a ∧
   uint5korr_x86 a = uint5korr a ∧ uint6korr_x86 a = uint6korr a) ∧
  (uint8_tkorr_x86 a = uint8korr a ∧ sint8korr_x86 a = sint8korr a ∧
   float8get_x86 a = float8get a ∧ float8get_be a = float8get a ∧ doubleget_words a = float8get a) ∧
  ((int2store_x86 v = int2store v ∧ int3store_x86 v = int3store v ∧ int4store_x86 v = int4store v ∧
    int5store_x86 v = int5store v ∧ int6store_x86 v = int6store v ∧ int8store_x86 v = int8store v) ∧
   (float4store_x86 v = int4store v ∧ float8store_x86 v = int8store v ∧
    float4store_be v = Some (int4store v) ∧ float8store_be v = Some (int8store v) ∧
    doublestore_words v = Some (int8store v))) ∧
  ((∀ m0 m1, bytes [m0; m1] ->
      ushortget_be [m0; m1] = ushortget_le [m1; m0] ∧ shortget_be [m0; m1] = shortget_le [m1; m0]) ∧
   (∀ a, bytes a -> length a = 4%nat ->
      ulongget_be a = ulongget_le (rev a) ∧ longget_be a = longget_le (rev a)) ∧
   shortstore_be v = rev (shortstore_le v) ∧ longstore_be v = rev (longstore_le v)).
Proof.
  exact (conj (short_readers_agree a Hbytes) (conj (word_readers_agree a Hbytes)
    (conj (long_readers_agree a Hbytes) (conj (writers_agree v) (native_reversed v))))).
Qed.

Lemma byte_order_branches_witness :
  sint4korr_x86 [1; 2; 3; 132] = sint4korr [1; 2; 3; 132] ∧
  uint3korr_x86 [1; 2; 3] = None ∧ uint3korr [1; 2; 3] = Some 197121 ∧
  int4store_x86 (-2) = int4store (-2) ∧
  ushortget_be [1; 2] = Some 258 ∧ ushortget_le [1; 2] = Some 513.
Proof.
  assert (H4 : bytes [1; 2; 3; 132]) by (repeat constructor; lia).
  assert (H3 : bytes [1; 2; 3]) by (repeat constructor; lia).
  destruct (byte_order_branches [1; 2; 3; 132] (-2) H4) as (_ & E4 & _ & [Ew _] & _).
  destruct (byte_order_branches [1; 2; 3] 0 H3) as (E3 & _).
  split_and!; [apply E4| |reflexivity|apply Ew|reflexivity|reflexivity].
  rewrite (proj2 (proj2 (proj2 (proj2 E3)))). reflexivity.
Defined.
