(* ===== verification/Fetch.v ===== *)
(** * Reading columns ([src/mariadb/mariadb_codecs.c], lines 44 to 84 and 435
    to 860)

    [field_fetch_fromtext] turns the text of a column into a Python object,
    [field_fetch_callback] the bytes of the binary protocol.  Both write
    [self->values[column]], keep the column's [max_length] and apply the
    connection's converter.

    A row pointer is the list of the bytes left in the packet.  The outer
    [None] of a result is undefined behaviour: a read past the packet, a null
    pointer dereferenced. *)

From S2P Require Import Prelude Values DateTime Wire.

(** ** The cursor's side *)

Inductive field_attr := MARIADB_FIELD_ATTR_FORMAT_NAME | MARIADB_FIELD_ATTR_DATA_TYPE_NAME.

(** The names and sizes of a column. *)
Record field_info := mkFieldInfo {
  catalog : list Z;
  db : list Z;
  fname : list Z;
  org_name : list Z;
  table : list Z;
  org_table : list Z;
  flength : Z;
  decimals : Z;
}.

(** [MYSQL_FIELD].  [attr] is what [mariadb_field_attr] answers for the field:
    [None] for its error return. *)
Record MYSQL_FIELD := mkField {
  ftype : enum_field_types;
  flags : Z;
  charsetnr : Z;
  max_length : Z;
  attr : field_attr -> option (list Z);
  finfo : field_info;
}.

Definition set_max_length (v : Z) (f : MYSQL_FIELD) : MYSQL_FIELD :=
  mkField (ftype f) (flags f) (charsetnr f) v (attr f) (finfo f).

(** A Python callable: its result, [None] when it raises. *)
Definition callable : Type := pyobj -> option pyobj.

(** [self->values] holds null ([None]) where nothing was stored or a
    conversion failed.  The converter is a dictionary from type numbers to
    objects, of which the callable ones matter.  [api_error] says that a
    function of Python's C API has set an exception. *)
Record fetch_state := mkFetch {
  fields : list MYSQL_FIELD;
  values : list (option pyobj);
  converter : option (Z -> option callable);
  api_error : bool;
}.

(** The result of a function of the C API is stored; null comes with an
    exception. *)
Definition set_value (column : nat) (v : option pyobj) (self : fetch_state) : fetch_state :=
  mkFetch (fields self) (<[column := v]> (values self)) (converter self)
    (api_error self || bool_decide (v = None)).

Definition set_api_error (self : fetch_state) : fetch_state :=
  mkFetch (fields self) (values self) (converter self) true.

Definition grow_max_length (column : nat) (len : Z) (self : fetch_state) : fetch_state :=
  mkFetch (alter (λ f, if max_length f <? len then set_max_length len f else f) column (fields self))
    (values self) (converter self) (api_error self).

Definition CHARSET_BINARY : Z := 63.

(** ** Extended field types *)

Inductive enum_extended_field_type :=
  | EXT_TYPE_JSON | EXT_TYPE_UUID | EXT_TYPE_INET4 | EXT_TYPE_INET6 | EXT_TYPE_POINT
  | EXT_TYPE_MULTIPOINT | EXT_TYPE_LINESTRING | EXT_TYPE_MULTILINESTRING | EXT_TYPE_POLYGON
  | EXT_TYPE_MULTIPOLYGON | EXT_TYPE_GEOMETRYCOLLECTION.

#[global] Instance enum_extended_field_type_eq_dec : EqDecision enum_extended_field_type.
Proof. solve_decision. Defined.

Definition extended_field_types : list (enum_extended_field_type * list Z) :=
  [(EXT_TYPE_JSON, bytes_of_string "json"); (EXT_TYPE_UUID, bytes_of_string "uuid");
   (EXT_TYPE_INET4, bytes_of_string "inet4"); (EXT_TYPE_INET6, bytes_of_string "inet6");
   (EXT_TYPE_POINT, bytes_of_string "point"); (EXT_TYPE_MULTIPOINT, bytes_of_string "multipoint");
   (EXT_TYPE_LINESTRING, bytes_of_string "linestring");
   (EXT_TYPE_MULTILINESTRING, bytes_of_string "multilinestring");
   (EXT_TYPE_POLYGON, bytes_of_string "polygon");
   (EXT_TYPE_MULTIPOLYGON, bytes_of_string "multipolygon");
   (EXT_TYPE_GEOMETRYCOLLECTION, bytes_of_string "geometrycollection")].

(** The loop over the table: equal lengths, equal bytes. *)
Fixpoint find_ext_type (tbl : list (enum_extended_field_type * list Z)) (str : list Z)
    : option enum_extended_field_type :=
  match tbl with
  | [] => None
  | (t, name) :: tbl' =>
      if (length name =? length str)%nat && bool_decide (str = name) then Some t
      else find_ext_type tbl' str
  end.

Definition mariadb_extended_field_type (f : MYSQL_FIELD) : option enum_extended_field_type :=
  match attr f MARIADB_FIELD_ATTR_FORMAT_NAME with
  | None => None
  | Some str =>
      match (match str with [] => attr f MARIADB_FIELD_ATTR_DATA_TYPE_NAME | _ => Some str end) with
      | None | Some [] => None
      | Some str => find_ext_type extended_field_types str
      end
  end.

(** ** Conversions of Python's C API *)

(** [PyLong_FromString(p, NULL, 0)] on an optional sign and decimal digits, the
    only integers a server sends: leading zeros are an error unless the number
    is zero, and so is an empty string. *)
Definition PyLong_FromString (s : list Z) : option pyobj :=
  let '(sgn, ds) := match s with 45 :: s' => (-1, s') | 43 :: s' => (1, s') | _ => (1, s) end in
  match ds with
  | [] => None
  | c :: _ =>
      if forallb isdigit ds && (negb (c =? 48) || forallb (λ c, c =? 48) ds)
      then Some (PyLong (sgn * dec_value ds)) else None
  end.

Section WithLibraries.

(** [atof]: the bit pattern of the double. *)
Context (atof : list Z -> Z).

(** [(double)f] for a float, on bit patterns. *)
Context (float_to_double : Z -> Z).

(** [decimal.Decimal(s)]; [None] when it raises. *)
Context (decimal_new : list Z -> option pyobj).

(** The number of code points of a UTF-8 string; [None] when it is not
    valid. *)
Context (utf8_length : list Z -> option Z).

(** [mysql_net_field_length]: a length and the bytes behind it. *)
Context (net_field_length : list Z -> option (Z * list Z)).

Definition PyUnicode_FromStringAndSize (s : list Z) : option pyobj :=
  match utf8_length s with Some _ => Some (PyUnicode s) | None => None end.

(** ** Converters *)

(** The value, or null, and whether a callable raised; [None] when a callable is
    handed a null argument. *)
Definition ma_convert_value (self : fetch_state) (type : Z) (value : option pyobj)
    : option (option pyobj * bool) :=
  match converter self with
  | None => Some (None, false)
  | Some dict =>
      match dict type with
      | Some func =>
          match value with
          | Some v => Some (func v, bool_decide (func v = None))
          | None => None
          end
      | None => Some (None, false)
      end
  end.

(** The code behind both switches. *)
Definition convert_column (column : nat) (f : MYSQL_FIELD) (self : fetch_state) : option fetch_state :=
  match converter self with
  | None => Some self
  | Some _ =>
      let type := match mariadb_extended_field_type f with
                  | Some EXT_TYPE_JSON => MYSQL_TYPE_JSON
                  | _ => ftype f
                  end in
      val ← ma_convert_value self (field_type_value type) (default None (values self !! column));
      Some (match val with
            | (Some v, _) => set_value column (Some v) self
            | (None, raised) => if raised : bool then set_api_error self else self
            end)
  end.

(** ** The text protocol *)

(** A blob: the length grows [max_length], the charset decides the type. *)
Definition blob_value (f : MYSQL_FIELD) (data : list Z) : option pyobj :=
  if charsetnr f =? CHARSET_BINARY then Some (PyBytes data) else PyUnicode_FromStringAndSize data.

(** A string: [PyUnicode_GET_LENGTH] is applied to the result without a check. *)
Definition string_value (f : MYSQL_FIELD) (data : list Z) : option (pyobj * Z) :=
  if charsetnr f =? CHARSET_BINARY then Some (PyBytes data, Z.of_nat (length data))
  else match utf8_length data with Some n => Some (PyUnicode data, n) | None => None end.

(** The integer branch: leading zeros are skipped when there is more than one
    byte. *)
Fixpoint skip_zeros (s : list Z) : list Z :=
  match s with c :: s' => if c =? 48 then skip_zeros s' else s | [] => [] end.

Definition text_integer (data : list Z) : option pyobj :=
  let p := before_nul data in
  PyLong_FromString (if (1 <? length p)%nat then skip_zeros p else p).

(** The date and time branch; the result of [Py_str_to_TIME] is ignored. *)
Definition text_time (type : enum_field_types) (data : list Z) : option (option pyobj) :=
  let tm := (Py_str_to_TIME (Some (before_nul data)) tm_zero).2 in
  let date_ok := check_date (u16 (year tm)) (u8 (month tm)) (u8 (day tm)) in
  match type with
  | MYSQL_TYPE_TIME => if check_time tm then Mrdb_GetTimeDelta tm else Some (Some PyNone)
  | MYSQL_TYPE_DATE =>
      Some (if date_ok then PyDate_FromDate (year tm) (month tm) (day tm) else Some PyNone)
  | _ =>
      Some (if date_ok && check_time tm
            then PyDateTime_FromDateAndTime (year tm) (month tm) (day tm) (hour tm) (minute tm)
                   (second tm) (second_part tm)
            else Some PyNone)
  end.

(** The switch on the type, for data that is not null. *)
Definition fetch_text (f : MYSQL_FIELD) (data : list Z) (column : nat) (self : fetch_state)
    : option fetch_state :=
  match ftype f with
  | MYSQL_TYPE_NULL => Some (set_value column (Some PyNone) self)
  | MYSQL_TYPE_TINY | MYSQL_TYPE_SHORT | MYSQL_TYPE_YEAR | MYSQL_TYPE_INT24 | MYSQL_TYPE_LONG
  | MYSQL_TYPE_LONGLONG => Some (set_value column (text_integer data) self)
  | MYSQL_TYPE_FLOAT | MYSQL_TYPE_DOUBLE =>
      Some (set_value column (Some (PyFloat (atof (before_nul data)))) self)
  | MYSQL_TYPE_TIME | MYSQL_TYPE_DATE | MYSQL_TYPE_DATETIME | MYSQL_TYPE_TIMESTAMP =>
      v ← text_time (ftype f) data; Some (set_value column v self)
  | MYSQL_TYPE_TINY_BLOB | MYSQL_TYPE_MEDIUM_BLOB | MYSQL_TYPE_BLOB | MYSQL_TYPE_LONG_BLOB
  | MYSQL_TYPE_GEOMETRY | MYSQL_TYPE_BIT =>
      Some (set_value column (blob_value f data)
              (grow_max_length column (Z.of_nat (length data)) self))
  | MYSQL_TYPE_NEWDECIMAL => Some (set_value column (decimal_new (before_nul data)) self)
  | MYSQL_TYPE_STRING | MYSQL_TYPE_VAR_STRING | MYSQL_TYPE_JSON | MYSQL_TYPE_VARCHAR
  | MYSQL_TYPE_DECIMAL | MYSQL_TYPE_SET | MYSQL_TYPE_ENUM =>
      '(v, len) ← string_value f data;
      Some (grow_max_length column len (set_value column (Some v) self))
  | _ => Some self
  end.

(** [data] is the NUL-terminated text, as long as [mysql_fetch_lengths] says. *)
Definition field_fetch_fromtext (self : fetch_state) (data : option (list Z)) (column : nat)
    : option fetch_state :=
  f ← fields self !! column;
  self ← match data with
         | None => Some (set_value column (Some PyNone) self)
         | Some data => fetch_text f data column self
         end;
  convert_column column f self.

(** ** The binary protocol *)

Definition is_unsigned (f : MYSQL_FIELD) : bool := negb (Z.land (flags f) UNSIGNED_FLAG =? 0).

(** Integers: the value and the bytes behind it.  A TINY is read as an
    unsigned byte with either flag. *)
Definition bin_integer (f : MYSQL_FIELD) (row : list Z) : option (Z * list Z) :=
  match ftype f with
  | MYSQL_TYPE_TINY => c ← row !! 0%nat; Some (c, drop 1 row)
  | MYSQL_TYPE_SHORT | MYSQL_TYPE_YEAR =>
      v ← (if is_unsigned f then uint2korr row else sint2korr row); Some (v, drop 2 row)
  | MYSQL_TYPE_INT24 =>
      v ← (if is_unsigned f then uint3korr row else sint3korr row); Some (v, drop 4 row)
  | MYSQL_TYPE_LONG =>
      v ← (if is_unsigned f then uint4korr row else sint4korr row); Some (v, drop 4 row)
  | MYSQL_TYPE_LONGLONG =>
      l ← sint8korr row; Some (if is_unsigned f then u64 l else l, drop 8 row)
  | _ => None
  end.

Definition bin_datetime (row : list Z) : option (option pyobj * list Z) :=
  '(n, row) ← net_field_length row;
  let len := u8 n in
  if len =? 0 then Some (PyDateTime_FromDateAndTime 0 0 0 0 0 0 0, row)
  else
    y ← uint2korr row; mo ← uint1korr (drop 2 row); d ← uint1korr (drop 3 row);
    '(h, mi, s) ← (if 4 <? len then
                     h ← uint1korr (drop 4 row); mi ← uint1korr (drop 5 row);
                     s ← uint1korr (drop 6 row); Some (h, mi, s)
                   else Some (0, 0, 0));
    us ← (if len =? 11 then s32 <$> uint4korr (drop 7 row) else Some 0);
    Some (PyDateTime_FromDateAndTime y mo d h mi s us, drop (Z.to_nat len) row).

Definition bin_date (row : list Z) : option (option pyobj * list Z) :=
  '(n, row) ← net_field_length row;
  let len := u8 n in
  if len =? 0 then Some (PyDate_FromDate 0 0 0, row)
  else
    y ← uint2korr row; mo ← uint1korr (drop 2 row); d ← uint1korr (drop 3 row);
    Some (PyDate_FromDate y mo d, drop (Z.to_nat len) row).

Definition bin_time (row : list Z) : option (option pyobj * list Z) :=
  '(n, row) ← net_field_length row;
  let len := u8 n in
  if len =? 0 then v ← Mrdb_GetTimeDelta tm_zero; Some (v, row)
  else
    ng ← uint1korr row; dy ← uint4korr (drop 1 row); h ← uint1korr (drop 5 row);
    mi ← uint1korr (drop 6 row); s ← uint1korr (drop 7 row);
    us ← (if 8 <? len then uint4korr (drop 8 row) else Some 0);
    let h := if negb (dy =? 0) then u32 (h + u32 (dy * 24)) else h in
    v ← Mrdb_GetTimeDelta (mkTime 0 0 dy h mi s us (negb (ng =? 0)) MYSQL_TIMESTAMP_DATE);
    Some (v, drop (Z.to_nat len) row).

(** The bytes of a length-encoded column. *)
Definition bin_bytes (row : list Z) : option (list Z * list Z) :=
  '(n, row) ← net_field_length row;
  if Z.of_nat (length row) <? n then None else Some (take (Z.to_nat n) row, drop (Z.to_nat n) row).

(** The copy of the digits ends at its first NUL; no digits are zero. *)
Definition bin_decimal (column : nat) (self : fetch_state) (row : list Z) : option (fetch_state * list Z) :=
  '(data, row) ← bin_bytes row;
  Some (set_value column
          (decimal_new (match data with [] => bytes_of_string "0" | _ => before_nul data end)) self,
        row).

Definition bin_string (f : MYSQL_FIELD) (column : nat) (self : fetch_state) (row : list Z)
    : option (fetch_state * list Z) :=
  '(data, row) ← bin_bytes row;
  '(v, len) ← string_value f data;
  Some (grow_max_length column len (set_value column (Some v) self), row).

(** The switch: the cursor and the advanced row pointer. *)
Definition fetch_binary (f : MYSQL_FIELD) (column : nat) (self : fetch_state) (row : list Z)
    : option (fetch_state * list Z) :=
  match ftype f with
  | MYSQL_TYPE_NULL => Some (set_value column (Some PyNone) self, row)
  | MYSQL_TYPE_TINY | MYSQL_TYPE_SHORT | MYSQL_TYPE_YEAR | MYSQL_TYPE_INT24 | MYSQL_TYPE_LONG
  | MYSQL_TYPE_LONGLONG =>
      '(v, row) ← bin_integer f row; Some (set_value column (Some (PyLong v)) self, row)
  | MYSQL_TYPE_FLOAT =>
      v ← float4get row;
      Some (set_value column (Some (PyFloat (float_to_double v))) self, drop 4 row)
  | MYSQL_TYPE_DOUBLE =>
      v ← float8get row; Some (set_value column (Some (PyFloat v)) self, drop 8 row)
  | MYSQL_TYPE_DATETIME | MYSQL_TYPE_TIMESTAMP =>
      '(v, row) ← bin_datetime row; Some (set_value column v self, row)
  | MYSQL_TYPE_DATE => '(v, row) ← bin_date row; Some (set_value column v self, row)
  | MYSQL_TYPE_TIME => '(v, row) ← bin_time row; Some (set_value column v self, row)
  | MYSQL_TYPE_TINY_BLOB | MYSQL_TYPE_MEDIUM_BLOB | MYSQL_TYPE_BLOB | MYSQL_TYPE_LONG_BLOB
  | MYSQL_TYPE_BIT =>
      '(data, row) ← bin_bytes row;
      Some (set_value column (blob_value f data)
              (grow_max_length column (Z.of_nat (length data)) self), row)
  | MYSQL_TYPE_NEWDECIMAL => bin_decimal column self row
  | MYSQL_TYPE_GEOMETRY | MYSQL_TYPE_STRING | MYSQL_TYPE_VAR_STRING | MYSQL_TYPE_JSON
  | MYSQL_TYPE_VARCHAR | MYSQL_TYPE_DECIMAL | MYSQL_TYPE_SET | MYSQL_TYPE_ENUM => bin_string f column self row
  | _ => Some (self, row)
  end.

(** [row] is null for a NULL value; then nothing is converted. *)
Definition field_fetch_callback (self : fetch_state) (column : nat) (row : option (list Z))
    : option (fetch_state * option (list Z)) :=
  f ← fields self !! column;
  match row with
  | None => Some (set_value column (Some PyNone) self, None)
  | Some row =>
      '(self, row) ← fetch_binary f column self row;
      self ← convert_column column f self;
      Some (self, Some row)
  end.

End WithLibraries.
