(* ===== verification/FetchProps.v ===== *)
(** * What reading a column guarantees

    Values in the server's binary encoding and in its text form are read back
    exactly, both protocols agree, a fetch touches its own column only, and
    the places where the code departs from that. *)

From S2P Require Import Prelude Values DateTime DateTimeProps Wire Fetch.

Section Props.

Context (atof : list Z -> Z) (float_to_double : Z -> Z) (decimal_new : list Z -> option pyobj)
  (utf8_length : list Z -> option Z) (net_field_length : list Z -> option (Z * list Z)).

(** Lengths below 251 are one byte. *)
Definition short_lengths : Prop :=
  ∀ n rest, 0 <= n < 251 -> net_field_length (n :: rest) = Some (n, rest).

Local Abbreviation callback :=
  (field_fetch_callback float_to_double decimal_new utf8_length net_field_length).
Local Abbreviation fromtext := (field_fetch_fromtext atof decimal_new utf8_length).

Lemma no_converter column f self :
  converter self = None -> convert_column column f self = Some self.
Proof. unfold convert_column. by intros ->. Qed.

(** ** Only the column of the fetch changes *)

(** Same shape, and [max_length] only grows, at the column only. *)
Record frame (column : nat) (self self' : fetch_state) : Prop := {
  fr_converter : converter self' = converter self;
  fr_length : length (values self') = length (values self);
  fr_values : ∀ j, j ≠ column -> values self' !! j = values self !! j;
  fr_others : ∀ j, j ≠ column -> fields self' !! j = fields self !! j;
  fr_field : ∀ f, fields self !! column = Some f ->
    ∃ len, fields self' !! column = Some (set_max_length len f) ∧ max_length f <= len;
}.

Lemma set_max_length_same f : set_max_length (max_length f) f = f.
Proof. by destruct f. Qed.

Lemma frame_refl column self : frame column self self.
Proof.
  split; try done. intros f Hf. exists (max_length f). rewrite set_max_length_same. split; [done|lia].
Qed.

Lemma frame_trans column a b c : frame column a b -> frame column b c -> frame column a c.
Proof.
  intros [A1 A2 A3 A4 A5] [B1 B2 B3 B4 B5]. split; try congruence.
  - intros j Hj. rewrite B3, A3 by done. done.
  - intros j Hj. rewrite B4, A4 by done. done.
  - intros f Hf. destruct (A5 f Hf) as (l1 & E1 & H1). destruct (B5 _ E1) as (l2 & E2 & H2).
    exists l2. simpl in *. split; [done|lia].
Qed.

Lemma frame_set_value column v self : frame column self (set_value column v self).
Proof.
  split; simpl; try done.
  - by rewrite length_insert.
  - intros j Hj. by rewrite list_lookup_insert_ne.
  - intros f Hf. exists (max_length f). rewrite set_max_length_same. split; [done|lia].
Qed.

Lemma frame_grow column len self : frame column self (grow_max_length column len self).
Proof.
  split; simpl; try done.
  - intros j Hj. by rewrite list_lookup_alter_ne.
  - intros f Hf. rewrite list_lookup_alter_eq, Hf. simpl.
    destruct (Z.ltb_spec (max_length f) len).
    + exists len. split; [done|lia].
    + exists (max_length f). rewrite set_max_length_same. split; [done|lia].
Qed.

Lemma frame_api_error column self : frame column self (set_api_error self).
Proof. destruct (frame_refl column self). by split. Qed.

Lemma frame_convert column f self self' :
  convert_column column f self = Some self' -> frame column self self'.
Proof.
  unfold convert_column. destruct (converter self); [|intros [= <-]; apply frame_refl].
  destruct (ma_convert_value _ _ _) as [[[v|] []]|]; simpl; intros [= <-];
    first [apply frame_set_value|apply frame_refl|apply frame_api_error].
Qed.

Create HintDb frame.
#[local] Hint Resolve frame_refl frame_set_value frame_grow : frame.
#[local] Hint Extern 5 (frame _ _ (set_value _ _ _)) => eapply frame_trans; [|apply frame_set_value] : frame.
#[local] Hint Extern 5 (frame _ _ (grow_max_length _ _ _)) => eapply frame_trans; [|apply frame_grow] : frame.

Lemma frame_text f data column self self' :
  fetch_text atof decimal_new utf8_length f data column self = Some self' -> frame column self self'.
Proof. unfold fetch_text. destruct (ftype f); intros H; unbind; auto with frame. Qed.

Lemma frame_binary f column self row self' row' :
  fetch_binary float_to_double decimal_new utf8_length net_field_length f column self row
  = Some (self', row') -> frame column self self'.
Proof.
  unfold fetch_binary, bin_decimal, bin_string. destruct (ftype f); intros H; unbind; simplify_eq; auto with frame.
Qed.

(** C32: Fetching a column, in either protocol, with or without a converter,
    changes nothing but that column's value and its [max_length], which never
    shrinks: every other value, every other field and the number of columns
    stay as they were. *)
Theorem fetch_frame (self self' : fetch_state) (column : nat) (data row : option (list Z))
    (row' : option (list Z))
    (Hfetch : fromtext self data column = Some self' ∨ callback self column row = Some (self', row')) :
  frame column self self'.
Proof.
  destruct Hfetch as [H|H].
  - unfold field_fetch_fromtext in H. unbind. eapply frame_trans; [|by eapply frame_convert].
    destruct data; [by eapply frame_text|]. unbind. apply frame_set_value.
  - unfold field_fetch_callback in H. destruct row as [row|]; unbind; simplify_eq.
    + eapply frame_trans; [by eapply frame_binary|by eapply frame_convert].
    + apply frame_set_value.
Qed.

(** ** Integers in the binary protocol *)

(** Width of the value and of its encoding: an INT24 travels in four bytes. *)
Definition int_width (t : enum_field_types) : option (nat * nat) :=
  match t with
  | MYSQL_TYPE_TINY => Some (1, 1)%nat
  | MYSQL_TYPE_SHORT | MYSQL_TYPE_YEAR => Some (2, 2)%nat
  | MYSQL_TYPE_INT24 => Some (3, 4)%nat
  | MYSQL_TYPE_LONG => Some (4, 4)%nat
  | MYSQL_TYPE_LONGLONG => Some (8, 8)%nat
  | _ => None
  end.

Definition int_range (uns : bool) (w : nat) (v : Z) : Prop :=
  if uns then 0 <= v < 2 ^ (8 * Z.of_nat w)
  else - 2 ^ (8 * Z.of_nat w - 1) <= v < 2 ^ (8 * Z.of_nat w - 1).

Lemma u64_signed v : u64 (signed 8 v) = v mod 2 ^ 64.
Proof.
  unfold u64, signed. change (8 * Z.of_nat 8) with 64. change (64 - 1) with 63.
  rewrite Zminus_mod_idemp_l. f_equal. lia.
Qed.

Lemma bin_integer_ok f w n v rest :
  int_width (ftype f) = Some (w, n) -> int_range (is_unsigned f) w v ->
  (ftype f = MYSQL_TYPE_TINY -> 0 <= v) ->
  bin_integer f (le_bytes n v ++ rest) = Some (v, rest).
Proof.
  intros Hw Hr Ht. unfold bin_integer, int_range in *.
  destruct (korr_le_bytes v rest) as (K1 & K2 & _ & _ & K5 & K6 & _).
  destruct (korr_le_bytes v (v / 256 / 256 / 256 mod 256 :: rest)) as (_ & _ & K3 & K4 & _).
  change (le_bytes 3 v ++ _) with (le_bytes 4 v ++ rest) in K3, K4.
  pose proof (sint8korr_le_bytes v rest) as K8.
  destruct (ftype f); try discriminate Hw; injection Hw as <- <-.
  - specialize (Ht eq_refl). cbn. rewrite drop_0, Z.mod_small by (destruct (is_unsigned f); lia). done.
  - rewrite K1, K2. destruct (is_unsigned f); cbn [mbind option_bind];
      [rewrite Z.mod_small by lia|rewrite signed_small by lia]; done.
  - rewrite K5, K6. destruct (is_unsigned f); cbn [mbind option_bind];
      [rewrite Z.mod_small by lia|rewrite signed_small by lia]; done.
  - rewrite K8. cbn [mbind option_bind]. rewrite u64_signed. destruct (is_unsigned f);
      [rewrite Z.mod_small by lia|rewrite signed_small by lia]; done.
  - rewrite K3, K4. destruct (is_unsigned f); cbn [mbind option_bind];
      [rewrite Z.mod_small by lia|rewrite signed_small by lia]; done.
  - rewrite K1, K2. destruct (is_unsigned f); cbn [mbind option_bind];
      [rewrite Z.mod_small by lia|rewrite signed_small by lia]; done.
Qed.

(** C27: An integer in the binary protocol, signed or unsigned, of any of the
    six integer column types, is read back exactly, and the row pointer moves
    over exactly its bytes.  For a signed TINY this needs a value that is not
    negative. *)
Theorem binary_integer_roundtrip (self : fetch_state) (column : nat) (f : MYSQL_FIELD) (w n : nat)
    (v : Z) (rest : list Z) (Hf : fields self !! column = Some f) (Hc : converter self = None)
    (Hw : int_width (ftype f) = Some (w, n)) (Hr : int_range (is_unsigned f) w v)
    (Ht : ftype f = MYSQL_TYPE_TINY -> 0 <= v) :
  callback self column (Some (le_bytes n v ++ rest))
  = Some (set_value column (Some (PyLong v)) self, Some rest).
Proof.
  unfold field_fetch_callback. rewrite Hf. cbn [mbind option_bind].
  pose proof (bin_integer_ok f w n v rest Hw Hr Ht) as Hb.
  unfold fetch_binary. destruct (ftype f); try discriminate Hw;
    rewrite Hb; cbn [mbind option_bind]; by rewrite no_converter.
Qed.

(** A negative value of a signed TINYINT column is read as an unsigned
    byte: the result is 256 too large. *)
Theorem binary_negative_tiny (self : fetch_state) (column : nat) (f : MYSQL_FIELD) (v : Z)
    (rest : list Z) (Hf : fields self !! column = Some f) (Hc : converter self = None)
    (Hw : ftype f = MYSQL_TYPE_TINY) (Hs : is_unsigned f = false) (Hv : -128 <= v < 0) :
  callback self column (Some (le_bytes 1 v ++ rest))
  = Some (set_value column (Some (PyLong (v + 256))) self, Some rest).
Proof.
  unfold field_fetch_callback. rewrite Hf. cbn [mbind option_bind].
  unfold fetch_binary, bin_integer. rewrite Hw. cbn. rewrite drop_0.
  rewrite <- (Z.mod_unique_pos v 256 (-1) (v + 256)) by lia. by rewrite no_converter.
Qed.

(** ** Dates and times in the binary protocol *)

(** The encodings of the protocol: the shortest of the lengths allowed. *)
Definition enc_date (y mo d : Z) : list Z := 4 :: le_bytes 2 y ++ [mo; d].

Definition enc_datetime (y mo d h mi s us : Z) : list Z :=
  if negb (us =? 0) then 11 :: le_bytes 2 y ++ [mo; d; h; mi; s] ++ le_bytes 4 us
  else if (h =? 0) && (mi =? 0) && (s =? 0) then enc_date y mo d
  else 7 :: le_bytes 2 y ++ [mo; d; h; mi; s].

(** A time of [h] hours is sent as days and hours. *)
Definition enc_time (sign : bool) (h mi s us : Z) : list Z :=
  let head := (if sign then 1 else 0) :: le_bytes 4 (h / 24) ++ [h mod 24; mi; s] in
  if negb (us =? 0) then 12 :: head ++ le_bytes 4 us
  else if (h =? 0) && (mi =? 0) && (s =? 0) then [0]
  else 8 :: head.

Lemma uint2_at y tail : 0 <= y < 2 ^ 16 -> uint2korr (le_bytes 2 y ++ tail) = Some y.
Proof. intros Hy. destruct (korr_le_bytes y tail) as (-> & _). by rewrite Z.mod_small by lia. Qed.

Lemma uint4_at v tail : 0 <= v < 2 ^ 32 -> uint4korr (le_bytes 4 v ++ tail) = Some v.
Proof.
  intros Hv. destruct (korr_le_bytes v tail) as (_ & _ & _ & _ & -> & _).
  by rewrite Z.mod_small by lia.
Qed.

Lemma bin_date_ok y mo d rest :
  short_lengths -> valid_date y mo d = true ->
  bin_date net_field_length (enc_date y mo d ++ rest) = Some (Some (PyDate y mo d), rest).
Proof.
  intros Hn Hv. unfold bin_date, enc_date. cbn [app]. rewrite Hn by lia. cbn [mbind option_bind].
  change (u8 4) with 4. cbn [Z.eqb]. rewrite <- app_assoc.
  rewrite uint2_at by (unfold valid_date in Hv; lia). cbn -[PyDate_FromDate].
  unfold PyDate_FromDate. by rewrite Hv.
Qed.

Lemma bin_datetime_ok y mo d h mi s us rest :
  short_lengths -> valid_date y mo d = true -> valid_time h mi s us = true ->
  bin_datetime net_field_length (enc_datetime y mo d h mi s us ++ rest)
  = Some (Some (PyDateTime y mo d h mi s us), rest).
Proof.
  intros Hn Hd Ht. unfold bin_datetime, enc_datetime.
  assert (Hy : 0 <= y < 2 ^ 16) by (unfold valid_date in Hd; lia).
  assert (Hus : 0 <= us < 2 ^ 31) by (unfold valid_time in Ht; lia).
  assert (Hres : PyDateTime_FromDateAndTime y mo d h mi s us = Some (PyDateTime y mo d h mi s us))
    by (unfold PyDateTime_FromDateAndTime; by rewrite Hd, Ht).
  destruct (Z.eqb_spec us 0) as [->|Hne]; cbn [negb];
    [destruct ((h =? 0) && (mi =? 0) && (s =? 0)) eqn:Hz|];
    unfold enc_date; cbn [app]; rewrite Hn by lia; cbn [mbind option_bind].
  - change (u8 4) with 4. cbn [Z.eqb Pos.eqb Z.ltb Z.compare Pos.compare Pos.compare_cont].
    rewrite <- app_assoc. rewrite uint2_at by done. cbn -[PyDateTime_FromDateAndTime].
    assert (h = 0 ∧ mi = 0 ∧ s = 0) as (-> & -> & ->) by lia. by rewrite Hres.
  - change (u8 7) with 7. cbn [Z.eqb Pos.eqb Z.ltb Z.compare Pos.compare Pos.compare_cont].
    rewrite <- app_assoc. rewrite uint2_at by done. cbn -[PyDateTime_FromDateAndTime].
    by rewrite Hres.
  - change (u8 11) with 11. cbn [Z.eqb Pos.eqb Z.ltb Z.compare Pos.compare Pos.compare_cont].
    rewrite <- !app_assoc. rewrite uint2_at by done.
    assert (E : drop 7 (le_bytes 2 y ++ [mo; d; h; mi; s] ++ le_bytes 4 us ++ rest)
                = le_bytes 4 us ++ rest) by done.
    cbn [app] in E |- *. rewrite E, uint4_at by lia. cbn -[PyDateTime_FromDateAndTime s32].
    rewrite s32_small by lia. by rewrite Hres.
Qed.

Lemma bin_time_ok sign h mi s us rest :
  short_lengths -> 0 <= h <= 838 -> 0 <= mi <= 59 -> 0 <= s <= 59 -> 0 <= us <= 999999 ->
  (sign = true -> 0 < h + mi + s + us) ->
  ∃ d s' u,
    bin_time net_field_length (enc_time sign h mi s us ++ rest) = Some (Some (PyDelta d s' u), rest)
    ∧ delta_ok d s' u
    ∧ delta_us d s' u = (if sign then -1 else 1) * ((h * 3600 + mi * 60 + s) * 1000000 + us).
Proof.
  intros Hn Hh Hmi Hs Hus Hz. unfold bin_time, enc_time.
  assert (Hq : 0 <= h / 24 < 2 ^ 32) by (split; [apply Z.div_pos; lia|apply Z.div_lt_upper_bound; lia]).
  pose proof (Z.div_mod h 24 ltac:(lia)) as Hdm. pose proof (Z.mod_pos_bound h 24 ltac:(lia)) as Hmb.
  set (sg := if sign then 1 else 0).
  assert (Hsg : negb (sg =? 0) = sign) by (subst sg; by destruct sign).
  assert (Hh' : (if negb (h / 24 =? 0) then u32 (h mod 24 + u32 (h / 24 * 24)) else h mod 24) = h).
  { destruct (Z.eqb_spec (h / 24) 0); cbn [negb]; [lia|]. unfold u32.
    rewrite (Z.mod_small (h / 24 * 24)), (Z.mod_small (h mod 24 + _)) by lia. lia. }
  destruct (GetTimeDelta_exact (mkTime 0 0 (h / 24) h mi s us sign MYSQL_TIMESTAMP_DATE))
    as (d & s' & u & E & Hok & Heq); [simpl; lia..|].
  exists d, s', u. unfold tm_us in Heq. simpl in Heq. split; [|by rewrite Heq].
  destruct (Z.eqb_spec us 0) as [->|Hne]; cbn [negb];
    [destruct ((h =? 0) && (mi =? 0) && (s =? 0)) eqn:Hzero|];
    cbn [app]; rewrite Hn by lia; cbn [mbind option_bind].
  - change (u8 0) with 0. cbn [Z.eqb].
    assert (h = 0 ∧ mi = 0 ∧ s = 0) as (-> & -> & ->) by lia.
    assert (sign = false) as -> by (destruct sign; [specialize (Hz eq_refl); lia|done]).
    exact (f_equal (option_map (λ v, (v, rest))) E).
  - change (u8 8) with 8. rewrite <- app_assoc.
    cbn [Z.eqb Pos.eqb Z.ltb Z.compare Pos.compare Pos.compare_cont uint1korr lookup list_lookup
         mbind option_bind].
    assert (Ed : drop 1 (sg :: le_bytes 4 (h / 24) ++ [h mod 24; mi; s] ++ rest)
                 = le_bytes 4 (h / 24) ++ [h mod 24; mi; s] ++ rest) by done.
    rewrite Ed, uint4_at by lia. cbn -[Mrdb_GetTimeDelta u32 Z.div Z.modulo Z.mul].
    by rewrite Hsg, Hh', E.
  - change (u8 12) with 12. rewrite <- !app_assoc.
    cbn [Z.eqb Pos.eqb Z.ltb Z.compare Pos.compare Pos.compare_cont uint1korr lookup list_lookup
         mbind option_bind].
    assert (Ed : drop 1 (sg :: le_bytes 4 (h / 24) ++ [h mod 24; mi; s] ++ le_bytes 4 us ++ rest)
                 = le_bytes 4 (h / 24) ++ [h mod 24; mi; s] ++ le_bytes 4 us ++ rest) by done.
    assert (E8 : drop 8 (sg :: le_bytes 4 (h / 24) ++ [h mod 24; mi; s] ++ le_bytes 4 us ++ rest)
                 = le_bytes 4 us ++ rest) by done.
    rewrite Ed, E8, !uint4_at by lia. cbn -[Mrdb_GetTimeDelta u32 Z.div Z.modulo Z.mul].
    by rewrite Hsg, Hh', E.
Qed.

(** ** The text protocol *)

Lemma skip_zeros_value ds : from_digits 0 (skip_zeros ds) = from_digits 0 ds.
Proof.
  induction ds as [|c ds IH]; simpl; [done|]. destruct (Z.eqb_spec c 48) as [->|]; [|done].
  rewrite IH. done.
Qed.

Lemma skip_zeros_digits ds :
  forallb isdigit ds = true ->
  forallb isdigit (skip_zeros ds) = true ∧
  match skip_zeros ds with [] => True | c :: _ => (c =? 48) = false end.
Proof.
  induction ds as [|c ds IH]; simpl; [done|]. intros H. apply andb_prop in H as [Hc H].
  destruct (c =? 48) eqn:E; [by apply IH|]. simpl. by rewrite Hc, H, E.
Qed.

Lemma digits_positive c ds :
  isdigit c = true -> (c =? 48) = false -> forallb isdigit ds = true -> 0 < from_digits 0 (c :: ds).
Proof.
  intros Hc H0 Hd. unfold isdigit in Hc.
  change (from_digits 0 (c :: ds)) with (from_digits (c - 48) ds).
  assert (c - 48 <= from_digits (c - 48) ds); [|lia].
  apply from_digits_ge; [lia|]. apply Forall_forall. intros x Hx. rewrite forallb_forall in Hd.
  apply Hd in Hx. unfold isdigit in Hx. cbv beta. lia.
Qed.

Lemma digits_no_nul ds : forallb isdigit ds = true -> Forall (λ c, c ≠ 0) ds.
Proof.
  induction ds as [|c ds IH]; simpl; [constructor|]. intros H. apply andb_prop in H as [Hc H].
  constructor; [unfold isdigit in Hc; lia|auto].
Qed.

Lemma PyLong_digits c ds :
  isdigit c = true -> (c =? 48) = false -> forallb isdigit ds = true ->
  PyLong_FromString (c :: ds) = Some (PyLong (from_digits 0 (c :: ds))).
Proof.
  intros Hc H0 Hd. unfold PyLong_FromString.
  assert (c ≠ 45 ∧ c ≠ 43) as [H1 H2] by (unfold isdigit in Hc; lia).
  assert (E : match c :: ds with 45 :: s' => (-1, s') | 43 :: s' => (1, s') | _ => (1, c :: ds) end
              = (1, c :: ds)) by (destruct c as [|p|p]; try done; do 6 (destruct p as [p|p|]; try done)).
  rewrite E. simpl forallb. rewrite Hc, Hd, H0. simpl andb. cbv iota. f_equal. f_equal.
  change (dec_value (c :: ds)) with (from_digits 0 (c :: ds)). lia.
Qed.

(** C37: Every run of decimal digits in an integer column, zero padded or not,
    is read as the number it denotes, with one exception: two or more zeros,
    which is how the server prints the zero of a ZEROFILL column, leave nothing
    for [PyLong_FromString] and give a null value with an exception set. *)
Theorem text_integer_value (ds : list Z) (Hd : forallb isdigit ds = true) (Hne : ds ≠ []) :
  text_integer ds
  = if (1 <? length ds)%nat && (dec_value ds =? 0) then None else Some (PyLong (dec_value ds)).
Proof.
  unfold text_integer. rewrite before_nul_id by (by apply digits_no_nul).
  change (dec_value ds) with (from_digits 0 ds).
  destruct (1 <? length ds)%nat eqn:Hl; cbn [andb].
  - pose proof (skip_zeros_value ds) as Hv. destruct (skip_zeros_digits ds Hd) as [Hs Hh].
    destruct (skip_zeros ds) as [|c s]; [by rewrite <- Hv|].
    simpl in Hs. apply andb_prop in Hs as [Hc Hs]. rewrite PyLong_digits by done.
    rewrite Hv. pose proof (digits_positive c s Hc Hh Hs) as Hp. rewrite Hv in Hp.
    by rewrite (proj2 (Z.eqb_neq _ 0)) by lia.
  - apply Nat.ltb_ge in Hl. destruct ds as [|c [|]]; [done| |simpl in Hl; lia].
    simpl in Hd. apply andb_prop in Hd as [Hc _].
    destruct (Z.eqb_spec c 48) as [->|H0]; [done|]. apply PyLong_digits; [done|by apply Z.eqb_neq|done].
Qed.

Lemma pad_no_nul w n : Forall (λ c, c ≠ 0) (pad w n).
Proof. eapply Forall_impl; [|apply pad_digits]. simpl. lia. Qed.

Ltac no_nul :=
  repeat match goal with
  | |- Forall _ (pad _ _) => apply pad_no_nul
  | |- Forall _ (_ ++ _) => apply Forall_app; split
  | |- Forall _ (_ :: _) => constructor; [lia|]
  | |- Forall _ [] => constructor
  end.

Lemma clock_no_nul wh d h m s f : Forall (λ c, c ≠ 0) (print_clock wh d h m s f).
Proof. unfold print_clock. destruct d; no_nul. Qed.

Lemma date_no_nul y m d : Forall (λ c, c ≠ 0) (print_date y m d).
Proof. unfold print_date. no_nul. Qed.

Lemma time_no_nul sign wh d h m s f : Forall (λ c, c ≠ 0) (print_time sign wh d h m s f).
Proof.
  unfold print_time. apply Forall_app. split; [|apply clock_no_nul].
  destruct sign; repeat constructor. lia.
Qed.

Lemma blanks_nil : blanks [].
Proof. constructor. Qed.

Lemma valid_date_check y mo d :
  valid_date y mo d = true -> check_date (u16 y) (u8 mo) (u8 d) = true.
Proof.
  intros Hv. assert (1 <= d <= 31 ∧ 1 <= y <= 9999 ∧ 1 <= mo <= 12) as (Hd & Hy & Hm).
  { unfold valid_date, days_in_month in Hv. repeat case_match; lia. }
  unfold u16, u8. rewrite !Z.mod_small by lia.
  destruct (check_date y mo d) eqn:E; [done|]. exfalso. revert E Hv.
  unfold check_date, valid_date, days_in_month, is_leap. set (leap := _ || (y mod 400 =? 0)).
  clearbody leap.
  destruct (Z.ltb_spec y 1), (Z.ltb_spec 9999 y), (Z.ltb_spec mo 1), (Z.ltb_spec 12 mo);
    cbn [orb]; try lia.
  destruct (Z.eqb_spec mo 2) as [->|]; cbn [andb].
  - destruct leap, (Z.ltb_spec 29 d), (Z.ltb_spec 28 d); cbn -[Z.leb]; lia.
  - destruct ((mo =? 4) || (mo =? 6) || (mo =? 9) || (mo =? 11)); cbn [andb]; [|done].
    destruct (Z.ltb_spec 30 d); [|done]. lia.
Qed.

Lemma clock_range_check tm : clock_range tm -> check_time tm = true.
Proof.
  intros (H1 & H2 & H3 & H4). unfold check_time.
  rewrite (proj2 (Z.ltb_ge 838 _)), (proj2 (Z.ltb_ge (minute tm) 0)), (proj2 (Z.ltb_ge 59 (minute tm))),
    (proj2 (Z.ltb_ge (second tm) 0)), (proj2 (Z.ltb_ge 59 (second tm))),
    (proj2 (Z.ltb_ge (second_part tm) 0)), (proj2 (Z.ltb_ge 999999 _)) by lia. done.
Qed.

Lemma valid_date_range y mo d :
  valid_date y mo d = true -> 0 <= y <= 9999 ∧ 0 <= mo <= 12 ∧ 0 <= d <= 31.
Proof. unfold valid_date, days_in_month. repeat case_match; lia. Qed.

Lemma text_date_ok y mo d :
  valid_date y mo d = true ->
  text_time MYSQL_TYPE_DATE (print_date y mo d) = Some (Some (PyDate y mo d)).
Proof.
  intros Hv. unfold text_time. rewrite before_nul_id by apply date_no_nul.
  destruct (valid_date_range y mo d Hv) as (Hy & Hm & Hd).
  pose proof (str_to_time_date y mo d [] [] tm_zero Hy Hm Hd blanks_nil blanks_nil) as E.
  rewrite app_nil_r in E. cbn [app] in E. rewrite E. cbn [snd year month day].
  rewrite valid_date_check by done. unfold PyDate_FromDate. by rewrite Hv.
Qed.

Lemma text_datetime_ok t y mo da d h mi s f :
  t = MYSQL_TYPE_DATETIME ∨ t = MYSQL_TYPE_TIMESTAMP ->
  valid_date y mo da = true -> clock_ok 2 d h mi s f -> h <= 23 ->
  text_time t (print_date y mo da ++ 32 :: print_clock 2 d h mi s f)
  = Some (Some (PyDateTime y mo da h mi s (frac_us d f))).
Proof.
  intros Ht Hv Hok Hh. unfold text_time.
  rewrite before_nul_id.
  2: { apply Forall_app. split; [apply date_no_nul|]. constructor; [lia|]. apply clock_no_nul. }
  destruct (valid_date_range y mo da Hv) as (Hy & Hm & Hd).
  pose proof (str_to_time_datetime y mo da d h mi s f [] [] tm_zero Hy Hm Hd Hok Hh blanks_nil
                blanks_nil) as E.
  rewrite app_nil_r in E. cbn [app] in E. rewrite E. cbn [snd year month day hour minute second second_part].
  destruct Hok as (_ & Hh0 & _ & Hmi & Hs & Hd6 & Hf).
  pose proof (frac_us_range d f Hd6 Hf) as Hus.
  rewrite valid_date_check by done.
  rewrite clock_range_check by (unfold clock_range; simpl; lia).
  assert (Hvt : valid_time h mi s (frac_us d f) = true) by (unfold valid_time; lia).
  unfold PyDateTime_FromDateAndTime. rewrite Hv, Hvt. by destruct Ht as [-> | ->].
Qed.

Lemma text_time_ok sign wh d h mi s f :
  clock_ok wh d h mi s f ->
  ∃ dd ss uu, text_time MYSQL_TYPE_TIME (print_time sign wh d h mi s f)
              = Some (Some (PyDelta dd ss uu)) ∧ delta_ok dd ss uu
    ∧ delta_us dd ss uu
      = (if sign then -1 else 1) * ((h * 3600 + mi * 60 + s) * 1000000 + frac_us d f).
Proof.
  intros Hok. unfold text_time. rewrite before_nul_id by apply time_no_nul.
  pose proof (str_to_time_time sign wh d h mi s f [] [] tm_zero Hok blanks_nil blanks_nil) as E.
  rewrite app_nil_r in E. cbn [app] in E. rewrite E. cbn [snd].
  destruct Hok as (_ & Hh & _ & Hmi & Hs & Hd6 & Hf).
  pose proof (frac_us_range d f Hd6 Hf) as Hus.
  rewrite clock_range_check by (unfold clock_range; simpl; lia).
  destruct (GetTimeDelta_exact (mkTime 0 0 0 h mi s (frac_us d f) sign MYSQL_TIMESTAMP_TIME))
    as (dd & ss & uu & -> & Hok & Heq); [simpl; lia..|].
  exists dd, ss, uu. by split.
Qed.

(** ** Both protocols agree *)

(** The outcome of fetching one value in the two protocols, from its text and
    from its encoding in front of the rest of the row: the object [v], with
    nothing else changed and the row pointer behind the encoding. *)
Definition both_give (self : fetch_state) (column : nat) (text enc : list Z) (v : pyobj) : Prop :=
  fromtext self (Some text) column = Some (set_value column (Some v) self) ∧
  ∀ rest, callback self column (Some (enc ++ rest))
          = Some (set_value column (Some v) self, Some rest).

(** C23: A DATETIME or TIMESTAMP value that exists in the calendar gives the same
    [datetime] object, with exactly its components, whether it comes as text
    with up to six digits of fraction or in the binary encoding. *)
Theorem protocols_agree_datetime (self : fetch_state) (column : nat) (fl : MYSQL_FIELD)
    (y mo da : Z) (d : nat) (h mi s f : Z)
    (Hf : fields self !! column = Some fl) (Hc : converter self = None)
    (Ht : ftype fl = MYSQL_TYPE_DATETIME ∨ ftype fl = MYSQL_TYPE_TIMESTAMP)
    (Hnet : short_lengths) (Hv : valid_date y mo da = true) (Hok : clock_ok 2 d h mi s f)
    (Hh : h <= 23) :
  both_give self column (print_date y mo da ++ 32 :: print_clock 2 d h mi s f)
    (enc_datetime y mo da h mi s (frac_us d f)) (PyDateTime y mo da h mi s (frac_us d f)).
Proof.
  assert (Hvt : valid_time h mi s (frac_us d f) = true).
  { destruct Hok as (_ & Hh0 & _ & Hmi & Hs & Hd6 & Hfr).
    pose proof (frac_us_range d f Hd6 Hfr). unfold valid_time. lia. }
  pose proof (text_datetime_ok (ftype fl) y mo da d h mi s f Ht Hv Hok Hh) as Htext.
  split; [|intros rest].
  - unfold field_fetch_fromtext. rewrite Hf. cbn [mbind option_bind]. unfold fetch_text.
    destruct Ht as [Ht|Ht]; rewrite Ht in Htext |- *; rewrite Htext; cbn [mbind option_bind];
      by apply no_converter.
  - unfold field_fetch_callback. rewrite Hf. cbn [mbind option_bind]. unfold fetch_binary.
    pose proof (bin_datetime_ok y mo da h mi s (frac_us d f) rest Hnet Hv Hvt) as Hb.
    destruct Ht as [-> | ->]; rewrite Hb; cbn [mbind option_bind]; by rewrite no_converter.
Qed.

(** A DATE that exists in the calendar gives the same [date] object in both
    protocols. *)
Theorem protocols_agree_date (self : fetch_state) (column : nat) (fl : MYSQL_FIELD) (y mo d : Z)
    (Hf : fields self !! column = Some fl) (Hc : converter self = None)
    (Ht : ftype fl = MYSQL_TYPE_DATE) (Hnet : short_lengths) (Hv : valid_date y mo d = true) :
  both_give self column (print_date y mo d) (enc_date y mo d) (PyDate y mo d).
Proof.
  split; [|intros rest].
  - unfold field_fetch_fromtext. rewrite Hf. cbn [mbind option_bind]. unfold fetch_text.
    rewrite Ht, text_date_ok by done. by apply no_converter.
  - unfold field_fetch_callback. rewrite Hf. cbn [mbind option_bind]. unfold fetch_binary.
    rewrite Ht, bin_date_ok by done. cbn [mbind option_bind]. by rewrite no_converter.
Qed.

(** C24: A TIME of up to 838 hours, negative or not, gives the same [timedelta]
    in both protocols, and that object is exactly as long as the TIME. *)
Theorem protocols_agree_time (self : fetch_state) (column : nat) (fl : MYSQL_FIELD) (sign : bool)
    (wh d : nat) (h mi s f : Z)
    (Hf : fields self !! column = Some fl) (Hc : converter self = None)
    (Ht : ftype fl = MYSQL_TYPE_TIME) (Hnet : short_lengths) (Hok : clock_ok wh d h mi s f)
    (Hz : sign = true -> 0 < h + mi + s + frac_us d f) :
  ∃ dd ss uu,
    both_give self column (print_time sign wh d h mi s f) (enc_time sign h mi s (frac_us d f))
      (PyDelta dd ss uu) ∧
    delta_ok dd ss uu ∧
    delta_us dd ss uu = (if sign then -1 else 1) * ((h * 3600 + mi * 60 + s) * 1000000 + frac_us d f).
Proof.
  destruct (text_time_ok sign wh d h mi s f Hok) as (dd & ss & uu & Htext & Hdok & Hus).
  exists dd, ss, uu. split; [|done]. destruct Hok as (_ & Hh & _ & Hmi & Hs & Hd6 & Hfr).
  pose proof (frac_us_range d f Hd6 Hfr) as Hr.
  split; [|intros rest].
  - unfold field_fetch_fromtext. rewrite Hf. cbn [mbind option_bind]. unfold fetch_text.
    rewrite Ht, Htext. by apply no_converter.
  - unfold field_fetch_callback. rewrite Hf. cbn [mbind option_bind]. unfold fetch_binary.
    destruct (bin_time_ok sign h mi s (frac_us d f) rest Hnet Hh Hmi Hs Hr Hz)
      as (d' & s' & u' & Hb & Hok' & Hus').
    destruct (delta_us_inj d' s' u' dd ss uu) as (-> & -> & ->); [done|done|congruence|].
    rewrite Ht, Hb. cbn [mbind option_bind]. by rewrite no_converter.
Qed.

(** The zero date is None in the text protocol, but in the binary protocol,
    where it has length 0, the code builds a date of year 0, which fails: the
    value is null with an exception set. *)
Theorem zero_date_differs (self : fetch_state) (column : nat) (fl : MYSQL_FIELD) (rest : list Z)
    (Hf : fields self !! column = Some fl) (Hc : converter self = None)
    (Ht : ftype fl = MYSQL_TYPE_DATE) (Hnet : short_lengths) :
  fromtext self (Some (print_date 0 0 0)) column = Some (set_value column (Some PyNone) self) ∧
  callback self column (Some (0 :: rest)) = Some (set_value column None self, Some rest).
Proof.
  split.
  - unfold field_fetch_fromtext. rewrite Hf. cbn [mbind option_bind]. unfold fetch_text.
    rewrite Ht. by apply no_converter.
  - unfold field_fetch_callback. rewrite Hf. cbn [mbind option_bind]. unfold fetch_binary, bin_date.
    rewrite Ht, Hnet by lia. cbn [mbind option_bind]. change (u8 0 =? 0) with true. cbv iota.
    cbn [mbind option_bind]. by rewrite no_converter.
Qed.

(** A string column whose bytes are not UTF-8: the length of a null object is
    taken. *)
Lemma invalid_utf8_undefined f data column self :
  ftype f = MYSQL_TYPE_VAR_STRING -> charsetnr f ≠ CHARSET_BINARY -> utf8_length data = None ->
  fetch_text atof decimal_new utf8_length f data column self = None.
Proof.
  intros Ht Hc Hu. unfold fetch_text, string_value. rewrite Ht, Hu.
  by rewrite (proj2 (Z.eqb_neq _ _)) by done.
Qed.

End Props.

(** ** Extended types *)

(** [mariadb_extended_field_type] finds an entry exactly when the field's
    format name, or its type name when it has no format name, is a name of the
    table; the entry is the one with that name. *)
Theorem extended_field_type_spec (f : MYSQL_FIELD) (t : enum_extended_field_type) :
  mariadb_extended_field_type f = Some t ↔
  ∃ name, (t, name) ∈ extended_field_types ∧
    (attr f MARIADB_FIELD_ATTR_FORMAT_NAME = Some name ∨
     (attr f MARIADB_FIELD_ATTR_FORMAT_NAME = Some [] ∧
      attr f MARIADB_FIELD_ATTR_DATA_TYPE_NAME = Some name)).
Proof.
  assert (Hfind : ∀ str, find_ext_type extended_field_types str = Some t
                         ↔ (t, str) ∈ extended_field_types).
  { intros str. split.
    - intros H. apply list_elem_of_In.
      assert (Hg : ∀ tbl, find_ext_type tbl str = Some t -> In (t, str) tbl).
      { induction tbl as [|[t' name] tbl IH]; simpl; [done|].
        destruct (_ && _) eqn:E; [|auto]. intros [= <-]. apply andb_prop in E as [_ E].
        apply bool_decide_eq_true in E. subst. by left. }
      by apply Hg.
    - intros H. unfold extended_field_types in H. rewrite !elem_of_cons in H.
      destruct_or! H; simplify_eq; [reflexivity..|by apply not_elem_of_nil in H]. }
  assert (Hne : ∀ name, (t, name) ∈ extended_field_types -> name ≠ []).
  { intros name H ->. unfold extended_field_types in H. rewrite !elem_of_cons in H.
    destruct_or! H; simplify_eq. by apply not_elem_of_nil in H. }
  unfold mariadb_extended_field_type. destruct (attr f MARIADB_FIELD_ATTR_FORMAT_NAME) as [str|].
  - destruct str as [|c str].
    + destruct (attr f MARIADB_FIELD_ATTR_DATA_TYPE_NAME) as [[|c str]|]; cbv iota.
      * split; [done|]. intros (name & Hin & Hor). apply Hne in Hin. destruct Hor as [Hor|[Hor ?]]; simplify_eq; done.
      * rewrite Hfind. split; [intros H; eexists; split; [exact H|]; by right; split|].
        intros (name & Hin & Hor). apply Hne in Hin as Hn. destruct Hor as [Hor|[Hor ?]]; simplify_eq; done.
      * split; [done|]. intros (name & Hin & Hor). apply Hne in Hin. destruct Hor as [Hor|[Hor ?]]; simplify_eq; done.
    + cbv iota. rewrite Hfind. split; [intros H; eexists; split; [exact H|]; by left|].
      intros (name & Hin & Hor). destruct Hor as [Hor|[Hor ?]]; simplify_eq; done.
  - split; [done|]. intros (name & Hin & Hor). destruct Hor as [Hor|[Hor ?]]; simplify_eq; done.
Qed.

(** ** The properties at concrete values *)

(** One column of each kind, one-byte lengths. *)
Definition demo_field (t : enum_field_types) (fl : Z) : MYSQL_FIELD :=
  mkField t fl CHARSET_BINARY 0 (λ _, Some []) (mkFieldInfo [] [] [] [] [] [] 0 0).

Definition demo_state (t : enum_field_types) (fl : Z) : fetch_state :=
  mkFetch [demo_field t fl; demo_field t fl] [None; None] None false.

Definition demo_length (l : list Z) : option (Z * list Z) :=
  match l with n :: rest => Some (n, rest) | [] => None end.

Lemma demo_short : short_lengths demo_length.
Proof. done. Qed.

Definition demo_float (_ : Z) : Z := 0.
Definition demo_atof (_ : list Z) : Z := 0.
Definition demo_decimal (s : list Z) : option pyobj := Some (PyDecimal s).
Definition demo_utf8 (s : list Z) : option Z := Some (Z.of_nat (length s)).

Lemma fetch_frame_witness :
  frame 1 (demo_state MYSQL_TYPE_LONG 0) (set_value 1 (Some (PyLong 42)) (demo_state MYSQL_TYPE_LONG 0)).
Proof.
  apply (fetch_frame demo_atof demo_float demo_decimal demo_utf8 demo_length _ _ 1
           (Some (bytes_of_string "42")) None None).
  left. reflexivity.
Defined.

Lemma binary_integer_roundtrip_witness :
  field_fetch_callback demo_float demo_decimal demo_utf8 demo_length
    (demo_state MYSQL_TYPE_INT24 0) 1 (Some [214; 255; 255; 255; 7])
  = Some (set_value 1 (Some (PyLong (-42))) (demo_state MYSQL_TYPE_INT24 0), Some [7]).
Proof.
  apply (binary_integer_roundtrip demo_float demo_decimal demo_utf8 demo_length _ 1
           (demo_field MYSQL_TYPE_INT24 0) 3 4 (-42) [7]);
    [reflexivity|reflexivity|reflexivity|vm_compute; split; [discriminate|reflexivity]|discriminate].
Defined.

Lemma binary_negative_tiny_witness :
  field_fetch_callback demo_float demo_decimal demo_utf8 demo_length
    (demo_state MYSQL_TYPE_TINY 0) 0 (Some [255])
  = Some (set_value 0 (Some (PyLong 255)) (demo_state MYSQL_TYPE_TINY 0), Some []).
Proof.
  apply (binary_negative_tiny demo_float demo_decimal demo_utf8 demo_length _ 0
           (demo_field MYSQL_TYPE_TINY 0) (-1) []); [reflexivity..|lia].
Defined.

Lemma text_integer_value_witness :
  text_integer (bytes_of_string "007") = Some (PyLong 7) ∧
  text_integer (bytes_of_string "00") = None.
Proof.
  split; [apply (text_integer_value (bytes_of_string "007"))
         |apply (text_integer_value (bytes_of_string "00"))]; (reflexivity || discriminate).
Defined.

Lemma protocols_agree_datetime_witness :
  both_give demo_atof demo_float demo_decimal demo_utf8 demo_length
    (demo_state MYSQL_TYPE_TIMESTAMP 0) 0 (bytes_of_string "2024-02-29 23:59:58.25")
    [11; 232; 7; 2; 29; 23; 59; 58; 144; 208; 3; 0] (PyDateTime 2024 2 29 23 59 58 250000).
Proof.
  apply (protocols_agree_datetime demo_atof demo_float demo_decimal demo_utf8 demo_length _ 0
           (demo_field MYSQL_TYPE_TIMESTAMP 0) 2024 2 29 2 23 59 58 25);
    [reflexivity|reflexivity|right; reflexivity|exact demo_short|reflexivity|repeat split; lia|lia].
Defined.

Lemma protocols_agree_date_witness :
  both_give demo_atof demo_float demo_decimal demo_utf8 demo_length
    (demo_state MYSQL_TYPE_DATE 0) 0 (bytes_of_string "1999-12-31") [4; 207; 7; 12; 31]
    (PyDate 1999 12 31).
Proof.
  apply (protocols_agree_date demo_atof demo_float demo_decimal demo_utf8 demo_length _ 0
           (demo_field MYSQL_TYPE_DATE 0) 1999 12 31);
    [reflexivity|reflexivity|reflexivity|exact demo_short|reflexivity].
Defined.

Lemma protocols_agree_time_witness :
  ∃ dd ss uu,
    both_give demo_atof demo_float demo_decimal demo_utf8 demo_length
      (demo_state MYSQL_TYPE_TIME 0) 0 (bytes_of_string "-100:00:01") [8; 1; 4; 0; 0; 0; 4; 0; 1]
      (PyDelta dd ss uu) ∧
    delta_ok dd ss uu ∧ delta_us dd ss uu = - 360001000000.
Proof.
  apply (protocols_agree_time demo_atof demo_float demo_decimal demo_utf8 demo_length _ 0
           (demo_field MYSQL_TYPE_TIME 0) true 3 0 100 0 1 0);
    [reflexivity|reflexivity|reflexivity|exact demo_short|repeat split; lia|intros _; vm_compute; reflexivity].
Defined.

Lemma zero_date_differs_witness :
  field_fetch_callback demo_float demo_decimal demo_utf8 demo_length
    (demo_state MYSQL_TYPE_DATE 0) 0 (Some [0])
  = Some (set_value 0 None (demo_state MYSQL_TYPE_DATE 0), Some []).
Proof.
  apply (zero_date_differs demo_atof demo_float demo_decimal demo_utf8 demo_length _ 0
           (demo_field MYSQL_TYPE_DATE 0) []); [reflexivity|reflexivity|reflexivity|exact demo_short].
Defined.
