(* ===== verification/Exceptions.v ===== *)
(** * Exceptions ([src/mariadb/mariadb_exception.c], [src/mariadb/mariadb.c])

    The exception classes of the module and how they are created, the
    classification of error numbers, and the two functions that raise. *)

From S2P Require Import Prelude.

(** ** The classes *)

Inductive exn :=
  | Mariadb_Error | Mariadb_InterfaceError | Mariadb_DatabaseError | Mariadb_DataError
  | Mariadb_PoolError | Mariadb_OperationalError | Mariadb_IntegrityError
  | Mariadb_InternalError | Mariadb_ProgrammingError | Mariadb_NotSupportedError
  | Mariadb_Warning.

#[global] Instance exn_eq_dec : EqDecision exn.
Proof. solve_decision. Defined.

(** The calls of [mariadb_add_exception] in [PyInit__mariadb], in order: the
    class, the [base_exception] argument ([None] for null), and the name. *)
Definition module_exceptions : list (exn * option exn * string) :=
  [(Mariadb_InterfaceError, Some Mariadb_Error, "InterfaceError");
   (Mariadb_DatabaseError, Some Mariadb_Error, "DatabaseError");
   (Mariadb_OperationalError, Some Mariadb_Error, "OperationalError");
   (Mariadb_Warning, None, "Warning");
   (Mariadb_IntegrityError, Some Mariadb_Error, "IntegrityError");
   (Mariadb_InternalError, Some Mariadb_Error, "InternalError");
   (Mariadb_ProgrammingError, Some Mariadb_Error, "ProgrammingError");
   (Mariadb_NotSupportedError, Some Mariadb_Error, "NotSupportedError");
   (Mariadb_DataError, Some Mariadb_DatabaseError, "DataError");
   (Mariadb_PoolError, Some Mariadb_Error, "PoolError")]%string.

(** [mariadb_add_exception]: the base of the class it creates.  Its
    [base_exception] parameter is not used. *)
Definition mariadb_add_exception (base_exception : option exn) : exn := Mariadb_Error.

(** The attributes [GETTER_EXCEPTION] of a connection, and their getter, which
    returns the class that its closure points to. *)
Definition connection_exceptions : list (string * exn) :=
  [("Error", Mariadb_Error); ("Warning", Mariadb_Warning); ("InterfaceError", Mariadb_InterfaceError);
   ("ProgrammingError", Mariadb_ProgrammingError); ("IntegrityError", Mariadb_IntegrityError);
   ("DatabaseError", Mariadb_DatabaseError); ("NotSupportedError", Mariadb_NotSupportedError);
   ("InternalError", Mariadb_InternalError); ("OperationalError", Mariadb_OperationalError);
   ("PoolError", Mariadb_PoolError); ("DataError", Mariadb_DataError)]%string.

Definition MrdbConnection_exception (name : string) : option exn :=
  snd <$> find (λ g, bool_decide (g.1 = name)) connection_exceptions.

(** The classes a class derives from, itself first; [mariadb.Error] derives
    from [Exception]. *)
Definition ancestors (e : exn) : list exn :=
  match e with
  | Mariadb_Error => [Mariadb_Error]
  | _ =>
      match find (λ x, bool_decide (x.1.1 = e)) module_exceptions with
      | Some (_, base, _) => [e; mariadb_add_exception base]
      | None => [e]
      end
  end.

(** ** Error numbers *)

Definition CR_UNKNOWN_ERROR : Z := 2000.

(** The switch on the number; the labels are named in [errmsg.h] and
    [mysqld_error.h], and with their numbers in [src/mariadb/constants/ERR.py]. *)
Definition get_exception_type (error_number : Z) : exn :=
  match error_number with
  | 0
  | 2013 (* CR_SERVER_LOST *)
  | 2006 (* CR_SERVER_GONE_ERROR *)
  | 2012 (* CR_SERVER_HANDSHAKE_ERR *)
  | 2004 (* CR_IPSOCK_ERROR *)
  | 2014 (* CR_COMMANDS_OUT_OF_SYNC *)
    => Mariadb_InterfaceError
  | 1406 (* ER_DATA_TOO_LONG *)
  | 1441 (* ER_DATETIME_FUNCTION_OVERFLOW *)
  | 1365 (* ER_DIVISION_BY_ZERO *)
  | 1230 (* ER_NO_DEFAULT *)
  | 1171 (* ER_PRIMARY_CANT_HAVE_NULL *)
  | 1264 (* ER_WARN_DATA_OUT_OF_RANGE *)
  | 1265 (* WARN_DATA_TRUNCATED *)
    => Mariadb_DataError
  | 1065 (* ER_EMPTY_QUERY *)
  | 1179 (* ER_CANT_DO_THIS_DURING_AN_TRANSACTION *)
  | 1007 (* ER_DB_CREATE_EXISTS *)
  | 1110 (* ER_FIELD_SPECIFIED_TWICE *)
  | 1111 (* ER_INVALID_GROUP_FUNC_USE *)
  | 1082 (* ER_NO_SUCH_INDEX *)
  | 1741 (* ER_NO_SUCH_KEY_VALUE *)
  | 1146 (* ER_NO_SUCH_TABLE *)
  | 1449 (* ER_NO_SUCH_USER *)
  | 1064 (* ER_PARSE_ERROR *)
  | 1149 (* ER_SYNTAX_ERROR *)
  | 1113 (* ER_TABLE_MUST_HAVE_COLUMNS *)
  | 1112 (* ER_UNSUPPORTED_EXTENSION *)
  | 1102 (* ER_WRONG_DB_NAME *)
  | 1103 (* ER_WRONG_TABLE_NAME *)
  | 1049 (* ER_BAD_DB_ERROR *)
    => Mariadb_ProgrammingError
  | 1215 (* ER_CANNOT_ADD_FOREIGN *)
  | 1062 (* ER_DUP_ENTRY *)
  | 1169 (* ER_DUP_UNIQUE *)
  | 1364 (* ER_NO_DEFAULT_FOR_FIELD *)
  | 1216 (* ER_NO_REFERENCED_ROW *)
  | 1452 (* ER_NO_REFERENCED_ROW_2 *)
  | 1217 (* ER_ROW_IS_REFERENCED *)
  | 1451 (* ER_ROW_IS_REFERENCED_2 *)
  | 1400 (* ER_XAER_OUTSIDE *)
  | 1401 (* ER_XAER_RMERR *)
  | 1048 (* ER_BAD_NULL_ERROR *)
  | 1690 (* ER_DATA_OUT_OF_RANGE *)
  | 4025 (* ER_CONSTRAINT_FAILED *)
  | 1826 (* ER_DUP_CONSTRAINT_NAME *)
    => Mariadb_IntegrityError
  | _ => if 1000 <=? error_number then Mariadb_OperationalError else Mariadb_InternalError
  end.

(** ** Raising *)

(** The exception object: its class and the attributes set on it ([msg] has
    the value of [errmsg]). *)
Record exception := mkExc { etype : exn; errno : Z; sqlstate : string; errmsg : string }.

(** The diagnostics of a connection or statement handle: what
    [mysql_errno], [mysql_error] and [mysql_sqlstate], or their statement
    versions, return. *)
Record diagnostics := mkDiag { d_errno : Z; d_error : string; d_sqlstate : string }.

(** [mariadb_throw_exception]; [message] is the formatted text.  Without a
    message the handle is read, [None] when it is null, and the
    [exception_type] argument is replaced. *)
Definition mariadb_throw_exception (handle : option diagnostics) (exception_type : option exn)
    (message : option string) : option exception :=
  match message with
  | Some m =>
      match exception_type with
      | Some e => Some (mkExc e CR_UNKNOWN_ERROR "HY000" m)
      | None => None
      end
  | None =>
      match handle with
      | Some d => Some (mkExc (get_exception_type (s32 (d_errno d))) (d_errno d) (d_sqlstate d) (d_error d))
      | None => None
      end
  end.

(** [mariadb_exception_connection_gone]: the [error_no] argument is not used. *)
Definition mariadb_exception_connection_gone (exception_type : exn) (error_no : Z) (message : string)
    : exception :=
  mkExc exception_type CR_UNKNOWN_ERROR "HY000" message.

(** ** Properties *)

(** What the error numbers mean, in ascending order: lost or unusable
    connections; values that do not fit; statements that are wrong or name what
    does not exist; keys and constraints that a row would break. *)
Definition connection_numbers : list Z := [0; 2004; 2006; 2012; 2013; 2014].

Definition value_numbers : list Z := [1171; 1230; 1264; 1265; 1365; 1406; 1441].

Definition statement_numbers : list Z :=
  [1007; 1049; 1064; 1065; 1082; 1102; 1103; 1110; 1111; 1112; 1113; 1146; 1149; 1179; 1449; 1741].

Definition constraint_numbers : list Z :=
  [1048; 1062; 1169; 1215; 1216; 1217; 1364; 1400; 1401; 1451; 1452; 1690; 1826; 4025].

Definition class_of (n : Z) : exn :=
  if bool_decide (n ∈ connection_numbers) then Mariadb_InterfaceError
  else if bool_decide (n ∈ value_numbers) then Mariadb_DataError
  else if bool_decide (n ∈ statement_numbers) then Mariadb_ProgrammingError
  else if bool_decide (n ∈ constraint_numbers) then Mariadb_IntegrityError
  else if n <? 1000 then Mariadb_InternalError
  else Mariadb_OperationalError.

(** All labels are below 4096; the two definitions are compared there number by
    number. *)
Lemma classes_below_4096 n : 0 <= n < 4096 -> get_exception_type n = class_of n.
Proof.
  intros H. assert (E : forallb (λ k, bool_decide (get_exception_type (Z.of_nat k) = class_of (Z.of_nat k)))
                          (seq 0 (Z.to_nat 4096)) = true) by (vm_compute; reflexivity).
  rewrite forallb_forall in E. specialize (E (Z.to_nat n)). rewrite in_seq, Z2Nat.id in E by lia.
  apply (bool_decide_eq_true_1 _), E. lia.
Qed.

Lemma class_far n : n < 0 ∨ 4096 <= n ->
  class_of n = if n <? 1000 then Mariadb_InternalError else Mariadb_OperationalError.
Proof.
  intros H. unfold class_of, connection_numbers, value_numbers, statement_numbers, constraint_numbers.
  by do 4 (rewrite bool_decide_eq_false_2 by (rewrite !elem_of_cons, elem_of_nil; lia)).
Qed.

Lemma type_far n : n < 0 ∨ 4096 <= n ->
  get_exception_type n = if 1000 <=? n then Mariadb_OperationalError else Mariadb_InternalError.
Proof.
  intros H. destruct n as [|p|p]; [lia| |done]. destruct H as [|H]; [lia|].
  assert (Hp : (4096 <= p)%positive) by lia. clear H.
  do 12 (destruct p as [p|p|]; [| |lia]); try reflexivity.
Qed.

Lemma exception_class n : get_exception_type n = class_of n.
Proof.
  destruct (decide (0 <= n < 4096)); [by apply classes_below_4096|].
  rewrite class_far, type_far by lia. destruct (Z.leb_spec 1000 n), (Z.ltb_spec n 1000); done || lia.
Qed.



(** Every class of the module derives from [mariadb.Error] directly and from
    no other class of the module: [DataError] is registered with the base
    [DatabaseError] but does not derive from it, and [Warning], registered
    without a base, does derive from [Error]. *)
Theorem exception_hierarchy :
  (∀ e b n, (e, b, n) ∈ module_exceptions -> ancestors e = [e; Mariadb_Error]) ∧
  (Mariadb_DataError, Some Mariadb_DatabaseError, "DataError"%string) ∈ module_exceptions ∧
  (Mariadb_DatabaseError ∉ ancestors Mariadb_DataError) ∧
  Mariadb_Error ∈ ancestors Mariadb_Warning.
Proof.
  split_and!.
  - intros e b n H. destruct e; try reflexivity. exfalso. revert H.
    unfold module_exceptions. rewrite !elem_of_cons. intros H. destruct_or! H; simplify_eq.
    by apply not_elem_of_nil in H.
  - unfold module_exceptions. rewrite !elem_of_cons. tauto.
  - apply (bool_decide_unpack _). vm_compute. exact I.
  - apply (bool_decide_unpack _). vm_compute. exact I.
Qed.

(** A connection has the classes of the module under their names in the module. *)
Lemma connection_exceptions_agree :
  Forall (λ e, MrdbConnection_exception e.2 = Some e.1.1) module_exceptions ∧
  MrdbConnection_exception "Error" = Some Mariadb_Error ∧
  length connection_exceptions = S (length module_exceptions).
Proof. split; [|by split]. apply (bool_decide_unpack _). vm_compute. exact I. Qed.
