(* ===== verification/ModuleInit.v ===== *)
(** * Initialisation of the C module ([src/mariadb/mariadb.c])

    [PyInit__mariadb] checks the version of the client library, initialises what
    the other files use, and fills the module with the two types, the version
    and the exception classes. *)

From S2P Require Import Prelude Exceptions.

(** What the interpreter and the library answer.  A call of the interpreter
    that fails leaves an exception set when [ie_sets] says so. *)
Record import_env := mkImportEnv {
  ie_client_version : Z;
  ie_package_version : Z;         (** [MARIADB_PACKAGE_VERSION_ID] *)
  ie_client_info : string;
  ie_datetime : nat -> bool;      (** [PyDateTimeAPI] behind the three imports *)
  ie_connection_type : bool;
  ie_decimal_module : bool;
  ie_decimal_type : bool;
  ie_socket_module : bool;
  ie_cursor_type : bool;
  ie_sets : bool;
}.

Inductive import_error := ImportError (msg : string) | InterpreterError.

Inductive module_object :=
  | CursorType | ConnectionType | Version (s : string) | ExceptionClass (e : exn).

Definition init_failed : string := "Mariadb module initialization failed.".

(** The three functions [..._datetime_init]: the error they set, if any. *)
Definition datetime_init (api : bool) : option import_error :=
  if api then None else Some (ImportError "DateTimeAPI initialization failed").

(** The label [error]. *)
Definition init_error {A : Type} (e : option import_error) : sum import_error A :=
  inl (default (ImportError init_failed) e).

Definition interpreter_error (env : import_env) : option import_error :=
  if ie_sets env then Some InterpreterError else None.

(** The objects in the order in which they are added. *)
Definition module_objects (env : import_env) : list (string * module_object) :=
  [("cursor"%string, CursorType); ("mariadbapi_version"%string, Version (ie_client_info env));
   ("Error"%string, ExceptionClass Mariadb_Error)]
  ++ ((λ e, (e.2, ExceptionClass e.1.1)) <$> module_exceptions)
  ++ [("connection"%string, ConnectionType)].

Definition PyInit__mariadb (env : import_env) : sum import_error (list (string * module_object)) :=
  if ie_client_version env <? ie_package_version env then
    init_error (Some (ImportError
      "MariaDB Connector/Python was build with MariaDB Connector/C %s, while the loaded MariaDB Connector/C library has version %s."))
  else
    match datetime_init (ie_datetime env 0), datetime_init (ie_datetime env 1), datetime_init (ie_datetime env 2) with
    | Some e, _, _ | None, Some e, _ | None, None, Some e => init_error (Some e)
    | None, None, None =>
        if negb (ie_connection_type env) then init_error (interpreter_error env)
        else if negb (ie_decimal_module env) || negb (ie_decimal_type env) then init_error (interpreter_error env)
        else if negb (ie_socket_module env) then init_error (interpreter_error env)
        else if negb (ie_cursor_type env) then init_error (interpreter_error env)
        else inr (module_objects env)
    end.

(** The names that [mariadb/__init__.py] and the classes of the package take
    from the C module. *)
Definition imported_names : list string :=
  ["DataError"; "DatabaseError"; "Error"; "IntegrityError"; "InterfaceError"; "InternalError";
   "NotSupportedError"; "OperationalError"; "PoolError"; "ProgrammingError"; "Warning";
   "mariadbapi_version"; "cursor"; "connection"]%string.

(** What the environment must provide. *)
Definition import_ok (env : import_env) : bool :=
  (ie_package_version env <=? ie_client_version env)
  && ie_datetime env 0 && ie_datetime env 1 && ie_datetime env 2 && ie_connection_type env
  && ie_decimal_module env && ie_decimal_type env && ie_socket_module env && ie_cursor_type env.

(** Importing the C module gives a module exactly when the library is new
    enough and everything the module uses can be initialised, and an exception
    otherwise; the module then has every name the package imports, each name
    once, and every exception class under its own name. *)
Theorem module_init_complete (env : import_env) :
  match PyInit__mariadb env with
  | inl _ => import_ok env = false
  | inr objs =>
      import_ok env = true ∧ Forall (λ name, name ∈ objs.*1) imported_names ∧ NoDup objs.*1 ∧
      (∀ e, ∃ name, (name, ExceptionClass e) ∈ objs) ∧
      (∀ name e, (name, ExceptionClass e) ∈ objs ->
         e = Mariadb_Error ∧ name = "Error"%string ∨ ∃ base, (e, base, name) ∈ module_exceptions)
  end.
Proof.
  unfold PyInit__mariadb, import_ok. rewrite Z.leb_antisym.
  destruct (ie_client_version env <? ie_package_version env); [done|].
  destruct (ie_datetime env 0), (ie_datetime env 1), (ie_datetime env 2); try done.
  destruct (ie_connection_type env); [|done].
  destruct (ie_decimal_module env), (ie_decimal_type env); try done.
  destruct (ie_socket_module env), (ie_cursor_type env); try done.
  split; [done|]. split; [|split; [|split]].
  - apply (bool_decide_unpack _). by vm_compute.
  - apply (bool_decide_unpack _). by vm_compute.
  - intros e. destruct e; eexists; apply list_elem_of_In; cbn; repeat (first [left; reflexivity|right]).
  - intros name e He. apply list_elem_of_In in He. cbn in He.
    destruct_or!; simplify_eq; [by left|..]; right; eexists; apply list_elem_of_In; cbn;
      repeat (first [left; reflexivity|right]).
Qed.
