(* ===== verification/Params.v ===== *)
(** * Statement parameters ([src/mariadb/mariadb_codecs.c], lines 862 to 1497)

    How [execute] and [executemany] choose a column type for the Python values
    passed by the application, check them, and load them into the bind
    structures of a prepared statement. *)

From S2P Require Import Prelude Parser Values DateTime Wire Exceptions.

(** ** Outcomes

    [Raise] is an error return with the exception that was set, [Fail] an error
    return without one, [Undefined] undefined behaviour. *)
Inductive outcome (A : Type) :=
  | Ok (a : A)
  | Raise (e : exn) (message : string) (args : list Z)
  | Fail
  | Undefined.
Arguments Ok {A} a.
Arguments Raise {A} e message args.
Arguments Fail {A}.
Arguments Undefined {A}.

Definition obind {A B : Type} (o : outcome A) (k : A -> outcome B) : outcome B :=
  match o with
  | Ok a => k a
  | Raise e m l => Raise e m l
  | Fail => Fail
  | Undefined => Undefined
  end.

Definition oget {A : Type} (o : option A) : outcome A :=
  match o with Some a => Ok a | None => Undefined end.

Declare Scope outcome_scope.
Delimit Scope outcome_scope with outcome.
Notation "x <- o ;; k" := (obind o (λ x, k)) (at level 100, o at next level, right associativity) : outcome_scope.

(** ** Data *)

Record MrdbParamInfo := mkInfo { ptype : enum_field_types; bits : Z }.

(** [memset(&pinfo, 0, sizeof(MrdbParamInfo))]: type 0 is DECIMAL. *)
Definition info_zero : MrdbParamInfo := mkInfo MYSQL_TYPE_DECIMAL 0.

(** [value] is null for SQL NULL and for indicators.  [buffer] is the copy made
    for decimals. *)
Record MrdbParamValue := mkValue {
  value : option pyobj;
  indicator : Z;
  free_me : bool;
  buffer : list Z;
  num : list Z;
  tm : MYSQL_TIME;
}.

Definition value_zero : MrdbParamValue := mkValue None 0 false [] (repeat 0 8) tm_zero.

Definition set_pvalue v p := mkValue v (indicator p) (free_me p) (buffer p) (num p) (tm p).
Definition set_indicator v p := mkValue (value p) v (free_me p) (buffer p) (num p) (tm p).
Definition set_buffer v p := mkValue (value p) (indicator p) true v (num p) (tm p).
Definition set_num v p := mkValue (value p) (indicator p) (free_me p) (buffer p) v (tm p).
Definition set_tm v p := mkValue (value p) (indicator p) (free_me p) (buffer p) (num p) v.

(** Where [bind->buffer] points. *)
Inductive bind_buffer :=
  | BufNull
  | BufNum                  (** [value->num] *)
  | BufTm                   (** [value->tm] *)
  | BufObject (s : list Z)  (** the bytes of the Python object *)
  | BufOwn.                 (** [value->buffer] *)

Record MYSQL_BIND := mkBind {
  buffer_type : enum_field_types;
  b_unsigned : bool;
  b_buffer : bind_buffer;
  buffer_length : Z;
  b_indicator : bool;       (** [bind->u.indicator] points to [value->indicator] *)
}.

Definition bind_zero : MYSQL_BIND := mkBind MYSQL_TYPE_DECIMAL false BufNull 0 false.

Definition set_type v b := mkBind v (b_unsigned b) (b_buffer b) (buffer_length b) (b_indicator b).
Definition set_unsigned v b := mkBind (buffer_type b) v (b_buffer b) (buffer_length b) (b_indicator b).
Definition set_bbuffer v b := mkBind (buffer_type b) (b_unsigned b) v (buffer_length b) (b_indicator b).
Definition set_length v b := mkBind (buffer_type b) (b_unsigned b) (b_buffer b) v (b_indicator b).
Definition set_bindicator v b := mkBind (buffer_type b) (b_unsigned b) (b_buffer b) (buffer_length b) v.

Definition STMT_INDICATOR_NONE : Z := 0.
Definition STMT_INDICATOR_NULL : Z := 1.

(** The parts of [MrdbCursor] the functions use.  [bulk_caps] is the bit
    [MARIADB_CLIENT_STMT_BULK_OPERATIONS] of the server's extended
    capabilities.  [params] and [pvalues] are null before their allocation. *)
Record param_cursor := mkCursor {
  data : pyobj;
  array_size : Z;
  pc_paramstyle : enum_paramstyle;
  paramcount : Z;
  pc_keys : list (list Z);
  bulk_caps : bool;
  is_prepared : bool;
  params : option (list MYSQL_BIND);
  pvalues : option (list MrdbParamValue);
}.

Definition set_array_size v c := mkCursor (data c) v (pc_paramstyle c) (paramcount c) (pc_keys c) (bulk_caps c) (is_prepared c) (params c) (pvalues c).
Definition set_params v c := mkCursor (data c) (array_size c) (pc_paramstyle c) (paramcount c) (pc_keys c) (bulk_caps c) (is_prepared c) v (pvalues c).
Definition set_pvalues v c := mkCursor (data c) (array_size c) (pc_paramstyle c) (paramcount c) (pc_keys c) (bulk_caps c) (is_prepared c) (params c) v.

(** ** Type of a value *)

(** [_PyLong_NumBits]: the bits of the absolute value. *)
Definition num_bits (z : Z) : Z := if z =? 0 then 0 else Z.log2 (Z.abs z) + 1.

(** The return value and the filled structure.  [bool] is a subclass of [int],
    so the branch for it is never reached; the second component is unchanged on
    error 2. *)
Definition mariadb_get_column_info (obj : option pyobj) (paraminfo : MrdbParamInfo)
    : Z * MrdbParamInfo :=
  match obj with
  | None => (0, mkInfo MYSQL_TYPE_NULL (bits paraminfo))
  | Some o =>
      match as_long o with
      | Some z => (0, mkInfo MYSQL_TYPE_LONGLONG (Z.max (bits paraminfo) (num_bits z)))
      | None =>
          match o with
          | PyFloat _ => (0, mkInfo MYSQL_TYPE_DOUBLE (bits paraminfo))
          | PyBytes _ => (0, mkInfo MYSQL_TYPE_LONG_BLOB (bits paraminfo))
          | PyDate _ _ _ => (0, mkInfo MYSQL_TYPE_DATE (bits paraminfo))
          | PyTime _ _ _ _ | PyDelta _ _ _ => (0, mkInfo MYSQL_TYPE_TIME (bits paraminfo))
          | PyDateTime _ _ _ _ _ _ _ => (0, mkInfo MYSQL_TYPE_DATETIME (bits paraminfo))
          | PyUnicode _ => (0, mkInfo MYSQL_TYPE_VAR_STRING (bits paraminfo))
          | PyNone => (0, mkInfo MYSQL_TYPE_NULL (bits paraminfo))
          | PyDecimal _ => (0, mkInfo MYSQL_TYPE_NEWDECIMAL (bits paraminfo))
          | _ => (2, paraminfo)
          end
      end
  end.

(** ** Access to the data *)

Definition ListOrTuple_GetItem (obj : pyobj) (index : Z) : option pyobj :=
  match obj with
  | PyList l | PyTuple l => if 0 <=? index then l !! Z.to_nat index else None
  | _ => None
  end.

Definition ListOrTuple_Size (obj : pyobj) : Z :=
  match obj with PyList l | PyTuple l => Z.of_nat (length l) | _ => 0 end.

Definition is_sequence (obj : pyobj) : bool :=
  match obj with PyList _ | PyTuple _ => true | _ => false end.

Definition is_dict (obj : pyobj) : bool := match obj with PyDict _ => true | _ => false end.

(** [PyDict_GetItem] with a string key. *)
Definition dict_get (items : list (list Z * pyobj)) (key : list Z) : option pyobj :=
  snd <$> find (λ kv, bool_decide (kv.1 = key)) items.

Local Open Scope outcome_scope.

(** The row of a bulk operation, or all the data. *)
Definition get_row (self : param_cursor) (is_bulk : bool) (row_nr column_nr : Z) : outcome pyobj :=
  if is_bulk then
    if (u32 (array_size self - 1) <? row_nr) || (u32 (paramcount self - 1) <? column_nr)
    then Raise Mariadb_ProgrammingError "Can't access data at row %d, column %d"
           [row_nr + 1; column_nr + 1]
    else match ListOrTuple_GetItem (data self) row_nr with
         | None => Raise Mariadb_ProgrammingError "Can't access row number %d" [row_nr + 1]
         | Some row => Ok row
         end
  else Ok (data self).

(** The column, by position or by name. *)
Definition get_column (self : param_cursor) (row : pyobj) (row_nr column_nr : Z) : outcome pyobj :=
  match pc_paramstyle self with
  | PYFORMAT =>
      key <- oget (if 0 <=? column_nr then pc_keys self !! Z.to_nat column_nr else None) ;;
      match row with
      | PyDict items =>
          match dict_get items key with
          | None => Raise Mariadb_ProgrammingError "Can't find key in parameter data" []
          | Some column => Ok column
          end
      | _ => Undefined
      end
  | _ =>
      match ListOrTuple_GetItem row column_nr with
      | None => Raise Mariadb_ProgrammingError "Can't access column number %d at row %d"
                  [column_nr + 1; row_nr + 1]
      | Some column => Ok column
      end
  end.

(** The value or indicator of a column: an indicator excludes a value; without
    bulk support the indicator of None is left as it was. *)
Definition load_column (self : param_cursor) (column : pyobj) (param : MrdbParamValue)
    : outcome MrdbParamValue :=
  match column with
  | PyIndicator v =>
      if bulk_caps self then Ok (set_pvalue None (set_indicator (s8 v) param))
      else Raise Mariadb_NotSupportedError "MariaDB %s doesn't support indicator variables. " []
  | PyNone =>
      Ok (set_pvalue None (if bulk_caps self then set_indicator STMT_INDICATOR_NULL param else param))
  | _ => Ok (set_pvalue (Some column) (set_indicator STMT_INDICATOR_NONE param))
  end.

Definition mariadb_get_parameter (self : param_cursor) (is_bulk : bool) (row_nr column_nr : Z)
    (param : MrdbParamValue) : outcome MrdbParamValue :=
  row <- get_row self is_bulk row_nr column_nr ;;
  column <- get_column self row row_nr column_nr ;;
  load_column self column param.

(** ** Type of a parameter *)

(** [PyLong_AsLongLong] and [PyLong_AsUnsignedLong] (both 64 bits wide): -1
    and an exception when the value does not fit or is no integer. *)
Definition as_longlong (o : pyobj) : Z * bool :=
  match as_long o with
  | Some z => if (LONG_MIN <=? z) && (z <=? LONG_MAX) then (z, false) else (-1, true)
  | None => (-1, true)
  end.

Definition as_ulonglong (o : pyobj) : Z * bool :=
  match as_long o with
  | Some z => if (0 <=? z) && (z <=? ULLONG_MAX) then (z, false) else (ULLONG_MAX, true)
  | None => (ULLONG_MAX, true)
  end.

Definition IS_DECIMAL_TYPE (t : enum_field_types) : bool :=
  bool_decide (t = MYSQL_TYPE_NEWDECIMAL) || bool_decide (t = MYSQL_TYPE_DOUBLE)
  || bool_decide (t = MYSQL_TYPE_FLOAT).

(** The end of [mariadb_get_parameter_info]: the smallest integer type. *)
Definition shrink_type (param : MYSQL_BIND) (bits : Z) : MYSQL_BIND :=
  if bool_decide (buffer_type param = MYSQL_TYPE_LONGLONG) then
    let u := b_unsigned param in
    set_type (if ((bits <=? 8) && u) || (bits <? 8) then MYSQL_TYPE_TINY
              else if ((bits <=? 16) && u) || (bits <? 16) then MYSQL_TYPE_SHORT
              else if ((bits <=? 32) && u) || (bits <? 32) then MYSQL_TYPE_LONG
              else MYSQL_TYPE_LONGLONG) param
  else param.

(** What one row of a bulk operation does to the loop: go on, leave it by
    [break], or return an error. *)
Inductive row_step := Go (param : MYSQL_BIND) (bits : Z) (v : MrdbParamValue)
                    | Break (param : MYSQL_BIND) (bits : Z).

Definition bulk_row (self : param_cursor) (column_nr i : Z) (param : MYSQL_BIND) (b : Z)
    (v : MrdbParamValue) : outcome row_step :=
  v <- mariadb_get_parameter self true i column_nr v ;;
  let bad := Raise Mariadb_ProgrammingError "Invalid parameter type at row %d, column %d"
               [i + 1; column_nr + 1] in
  let '(rc, pinfo) := mariadb_get_column_info (value v) info_zero in
  if negb (rc =? 0) && (indicator v =? 0) then bad
  else
    (* the error test names PyErr_Occurred without calling it, so it holds *)
    let '(param, b) :=
      if bool_decide (ptype pinfo = MYSQL_TYPE_LONGLONG) then
        let tmp := match value v with Some o => u64 (as_longlong o).1 | None => 0 end in
        (if tmp =? u64 (-1) then set_unsigned true param else param,
         if b <? bits pinfo then u32 (bits pinfo) else b)
      else (param, b) in
    if bool_decide (buffer_type param = MYSQL_TYPE_DECIMAL)
       || bool_decide (buffer_type param = MYSQL_TYPE_NULL)
    then Ok (Go (set_type (ptype pinfo) param) b v)
    else if bool_decide (buffer_type param ≠ ptype pinfo)
            && bool_decide (ptype pinfo ≠ MYSQL_TYPE_NULL) && (indicator v =? 0) then
      if (bool_decide (buffer_type param = MYSQL_TYPE_TINY)
          || bool_decide (buffer_type param = MYSQL_TYPE_SHORT)
          || bool_decide (buffer_type param = MYSQL_TYPE_LONG))
         && bool_decide (ptype pinfo = MYSQL_TYPE_LONGLONG)
      then Ok (Break param b)
      else if IS_DECIMAL_TYPE (ptype pinfo) && IS_DECIMAL_TYPE (buffer_type param)
      then Ok (Break (set_type MYSQL_TYPE_NEWDECIMAL param) b)
      else bad
    else Ok (Go param b v).

(** [for (i=0; i < self->array_size; i++)], [n] rows left. *)
Fixpoint bulk_rows (self : param_cursor) (column_nr i : Z) (n : nat) (param : MYSQL_BIND) (b : Z)
    (v : MrdbParamValue) : outcome (MYSQL_BIND * Z) :=
  match n with
  | O => Ok (param, b)
  | S n' =>
      r <- bulk_row self column_nr i param b v ;;
      match r with
      | Go param b v => bulk_rows self column_nr (i + 1) n' param b v
      | Break param b => Ok (param, b)
      end
  end.

(** The single row of [execute]. *)
Definition single_row (self : param_cursor) (column_nr : Z) (param : MYSQL_BIND)
    : outcome (MYSQL_BIND * Z) :=
  v <- mariadb_get_parameter self false 0 column_nr value_zero ;;
  match mariadb_get_column_info (value v) info_zero with
  | (0, pinfo) => Ok (set_type (ptype pinfo) param, u32 (bits pinfo))
  | (1, _) => Raise Mariadb_ProgrammingError "Can't retrieve column information for parameter %d" [column_nr]
  | _ => Raise Mariadb_NotSupportedError
           "Data type '%s' in column %d not supported in MariaDB Connector/Python" [column_nr]
  end.

Definition mariadb_get_parameter_info (self : param_cursor) (param : MYSQL_BIND) (column_nr : Z)
    : outcome MYSQL_BIND :=
  let param := set_unsigned false param in
  r <- (if array_size self =? 0 then single_row self column_nr param
        else bulk_rows self column_nr 0 (Z.to_nat (array_size self)) param 0 value_zero) ;;
  Ok (shrink_type r.1 r.2).

(** The last loop of both checks: the types of all columns, from column [i]. *)
Fixpoint param_infos (self : param_cursor) (i : nat) (n : nat) (ps : list MYSQL_BIND)
    : outcome (list MYSQL_BIND) :=
  match n with
  | O => Ok ps
  | S n' =>
      p <- oget (ps !! i) ;;
      p <- mariadb_get_parameter_info self p (Z.of_nat i) ;;
      param_infos self (S i) n' (<[i := p]> ps)
  end.

(** ** Checking the parameters *)

(** The checks of every row of a bulk operation. *)
Fixpoint check_rows (self : param_cursor) (data : pyobj) (i : Z) (n : nat) : outcome () :=
  match n with
  | O => Ok ()
  | S n' =>
      obj <- oget (ListOrTuple_GetItem data i) ;;
      let named := bool_decide (pc_paramstyle self = PYFORMAT) in
      if negb named && negb (is_sequence obj)
      then Raise Mariadb_ProgrammingError
             "Invalid parameter type in row %d.  (Row data must be provided as tuple(s))" [i + 1]
      else if named && negb (is_dict obj)
      then Raise Mariadb_ProgrammingError
             "Invalid parameter type in row %d.  (Row data must be provided as dict)" [i + 1]
      else if (paramcount self =? 0) || (negb named && negb (paramcount self =? ListOrTuple_Size obj))
      then Raise Mariadb_ProgrammingError "Invalid number of parameters in row %d" [i + 1]
      else check_rows self data (i + 1) n'
  end.

(** [mariadb_check_bulk_parameters]; [params_ok] and [value_ok] say whether the
    two allocations succeed.  A prepared cursor keeps its bind structures; when
    it has none, the null pointer is indexed. *)
Definition mariadb_check_bulk_parameters (params_ok value_ok : bool) (self : param_cursor)
    (data : pyobj) : outcome param_cursor :=
  if negb (is_sequence data)
  then Raise Mariadb_InterfaceError "Data must be passed as sequence (Tuple or List)" []
  else
    let self := set_array_size (u32 (ListOrTuple_Size data)) self in
    if array_size self =? 0
    then Raise Mariadb_InterfaceError "Empty parameter list. At least one row must be specified" []
    else
      _ <- check_rows self data 0 (Z.to_nat (array_size self)) ;;
      if negb (is_prepared self) && negb params_ok
      then Raise Mariadb_InterfaceError "Not enough memory (tried to allocated %lld bytes)" []
      else
        let self := if is_prepared self then self
                    else set_params (Some (repeat bind_zero (Z.to_nat (paramcount self)))) self in
        if negb value_ok
        then Raise Mariadb_InterfaceError "Not enough memory (tried to allocated %lld bytes)" []
        else
          let self := set_pvalues (Some (repeat value_zero (Z.to_nat (paramcount self)))) self in
          ps <- oget (params self) ;;
          ps <- param_infos self 0 (Z.to_nat (paramcount self)) ps ;;
          Ok (set_params (Some ps) self).

(** [mariadb_check_execute_parameters]; existing structures are reused. *)
Definition mariadb_check_execute_parameters (params_ok value_ok : bool) (self : param_cursor)
    (data : pyobj) : outcome param_cursor :=
  if paramcount self =? 0
  then Raise Mariadb_ProgrammingError "Invalid number of parameters" []
  else
    let n := Z.to_nat (paramcount self) in
    self <- match params self with
            | Some _ => Ok self
            | None =>
                if params_ok then Ok (set_params (Some (repeat bind_zero n)) self)
                else Raise Mariadb_InterfaceError "Not enough memory (tried to allocated %lld bytes)" []
            end ;;
    self <- match pvalues self with
            | Some _ => Ok self
            | None =>
                if value_ok then Ok (set_pvalues (Some (repeat value_zero n)) self)
                else Raise Mariadb_InterfaceError "Not enough memory (tried to allocated %lld bytes)" []
            end ;;
    ps <- oget (params self) ;;
    ps <- param_infos self 0 n ps ;;
    Ok (set_params (Some ps) self).

(** ** Loading the values *)

Section WithLibraries.

(** [IS_NUM] of the client library: the types whose value fits [num]. *)
Context (IS_NUM : enum_field_types -> bool).

(** [str(obj)], as UTF-8. *)
Context (py_str : pyobj -> list Z).

(** [PyFloat_AsDouble]: the bit pattern, [None] when it fails. *)
Context (as_double : pyobj -> option Z).

(** The bytes of [v] at the start of [num]; the rest of [num] stays. *)
Definition store_num (n : nat) (v : Z) (p : MrdbParamValue) : MrdbParamValue :=
  set_num (le_bytes n v ++ drop n (num p)) p.

(** The integer cases of the switch: [n] bytes, [max] the largest signed value
    of that width.  The conversion errors of Python are not looked at; the
    flag says that an exception is set. *)
Definition bind_integer (n : nat) (max : Z) (o : pyobj) (b : MYSQL_BIND) (v : MrdbParamValue)
    : MYSQL_BIND * MrdbParamValue * bool :=
  if match as_long o with Some z => z <? 0 | None => false end
  then let '(z, err) := as_longlong o in (b, store_num n z v, err)
  else let '(z, err) := as_ulonglong o in
       (if max <? z mod 2 ^ (8 * Z.of_nat n) then set_unsigned true b else b, store_num n z v, err).

(** [mariadb_param_to_bind]: the structures and whether an exception is left
    set; [inr] is the error return 1, [None] undefined behaviour. *)
Definition mariadb_param_to_bind (b : MYSQL_BIND) (v : MrdbParamValue)
    : option (sum (MYSQL_BIND * MrdbParamValue * bool) ()) :=
  if 0 <? indicator v then if b_indicator b then Some (inl (b, v, false)) else None
  else
    let b := match value v with
             | None => set_type MYSQL_TYPE_NULL b
             | Some _ => if IS_NUM (buffer_type b) then set_bbuffer BufNum b else b
             end in
    match buffer_type b, value v with
    | MYSQL_TYPE_NULL, _ => Some (inl (b, v, false))
    | _, None => None
    | MYSQL_TYPE_TINY, Some o => Some (inl (bind_integer 1 0x7F o b v))
    | MYSQL_TYPE_SHORT, Some o => Some (inl (bind_integer 2 0x7FFF o b v))
    | MYSQL_TYPE_LONG, Some o => Some (inl (bind_integer 4 0x7FFFFFFF o b v))
    | MYSQL_TYPE_LONGLONG, Some o => Some (inl (bind_integer 8 0x7FFFFFFFFFFFFFFF o b v))
    | MYSQL_TYPE_DOUBLE, Some o =>
        match as_double o with
        | Some d => Some (inl (b, set_num (le_bytes 8 d) v, false))
        | None => Some (inl (b, set_num (le_bytes 8 0xBFF0000000000000) v, true))
        end
    | MYSQL_TYPE_LONG_BLOB, Some o =>
        match o with
        | PyBytes s => Some (inl (set_bbuffer (BufObject s) (set_length (Z.of_nat (length s)) b), v, false))
        | _ => None
        end
    | MYSQL_TYPE_DATE, Some o | MYSQL_TYPE_TIME, Some o | MYSQL_TYPE_DATETIME, Some o =>
        t ← (match o with
             | PyDelta d s u => mariadb_pydelta_to_tm d s u
             | _ => mariadb_pydate_to_tm (buffer_type b) o
             end);
        Some (inl (set_bbuffer BufTm b, set_tm t v, false))
    | MYSQL_TYPE_NEWDECIMAL, Some o =>
        let s := py_str o in
        Some (inl (set_length (Z.of_nat (length s)) (set_bbuffer BufOwn b), set_buffer s v, false))
    | MYSQL_TYPE_VAR_STRING, Some o =>
        match o with
        | PyUnicode s => Some (inl (set_length (Z.of_nat (length s)) (set_bbuffer (BufObject s) b), v, false))
        | _ => None
        end
    | _, Some _ => Some (inr ())
    end.

(** The body of the loop of [mariadb_param_update], behind the access to the
    column. *)
Definition update_column (b : MYSQL_BIND) (v : MrdbParamValue)
    : option (sum (MYSQL_BIND * MrdbParamValue * bool) ()) :=
  let b := if negb (indicator v =? 0) then set_bindicator true b else b in
  if indicator v <? 1 then mariadb_param_to_bind b v else Some (inl (b, v, false)).

(** The loop from column [i] on: the binds, the values, and whether an
    exception is left set. *)
Fixpoint update_columns (self : param_cursor) (row_nr : Z) (i n : nat)
    (bs : list MYSQL_BIND) (vs : list MrdbParamValue) (err : bool)
    : outcome (list MYSQL_BIND * list MrdbParamValue * bool) :=
  match n with
  | O => Ok (bs, vs, err)
  | S n' =>
      b <- oget (bs !! i) ;;
      v <- oget (vs !! i) ;;
      v <- mariadb_get_parameter self (0 <? array_size self) row_nr (Z.of_nat i) v ;;
      r <- oget (update_column b v) ;;
      match r with
      | inl (b, v, e) => update_columns self row_nr (S i) n' (<[i := b]> bs) (<[i := v]> vs) (err || e)
      | inr _ => Fail
      end
  end.

(** [mariadb_param_update] on the cursor's own bind structures, as
    [MrdbCursor_execute_binary] calls it and the client library calls it back
    for every row of a bulk operation. *)
Definition mariadb_param_update (self : param_cursor) (bs : list MYSQL_BIND) (row_nr : Z)
    : outcome (list MYSQL_BIND * list MrdbParamValue * bool) :=
  vs <- oget (pvalues self) ;;
  update_columns self row_nr 0 (Z.to_nat (paramcount self)) bs vs false.

End WithLibraries.
