(* ===== verification/ParamsProps.v ===== *)
(** * What loading parameters guarantees

    Every supported value passed to [execute] reaches the bind structure
    exactly; integer columns of [executemany] do, with the exceptions stated. *)

From S2P Require Import Prelude Parser Values DateTime DateTimeProps Wire Exceptions Params.

Local Open Scope outcome_scope.

(** ** What is sent *)

(** The value a bind structure stands for when the request is built. *)
Inductive sent_value :=
  | SNull
  | SInt (z : Z)
  | SDouble (bits : Z)
  | SBytes (s : list Z)
  | SText (s : list Z)
  | SDecimal (s : list Z)
  | STime (t : enum_field_types) (tm : MYSQL_TIME).

Definition type_width (t : enum_field_types) : option nat :=
  match t with
  | MYSQL_TYPE_TINY => Some 1%nat
  | MYSQL_TYPE_SHORT => Some 2%nat
  | MYSQL_TYPE_LONG => Some 4%nat
  | MYSQL_TYPE_LONGLONG => Some 8%nat
  | _ => None
  end.

(** The bytes at the start of [num] as an integer of [n] bytes. *)
Definition sent_integer (n : nat) (b : MYSQL_BIND) (v : MrdbParamValue) : Z :=
  let x := le_value (take n (num v)) in
  if b_unsigned b then x else signed n x.

Definition sent (b : MYSQL_BIND) (v : MrdbParamValue) : option sent_value :=
  match buffer_type b, b_buffer b with
  | MYSQL_TYPE_NULL, _ => Some SNull
  | MYSQL_TYPE_DOUBLE, BufNum => Some (SDouble (le_value (num v)))
  | MYSQL_TYPE_LONG_BLOB, BufObject s => Some (SBytes (take (Z.to_nat (buffer_length b)) s))
  | MYSQL_TYPE_VAR_STRING, BufObject s => Some (SText (take (Z.to_nat (buffer_length b)) s))
  | MYSQL_TYPE_NEWDECIMAL, BufOwn => Some (SDecimal (take (Z.to_nat (buffer_length b)) (buffer v)))
  | MYSQL_TYPE_DATE, BufTm | MYSQL_TYPE_TIME, BufTm | MYSQL_TYPE_DATETIME, BufTm =>
      Some (STime (buffer_type b) (tm v))
  | t, BufNum => (λ n, SInt (sent_integer n b v)) <$> type_width t
  | _, _ => None
  end.

(** ** Integers *)

Lemma num_bits_le z k : 0 <= k -> num_bits z <= k ↔ Z.abs z < 2 ^ k.
Proof.
  intros Hk. unfold num_bits. destruct (Z.eqb_spec z 0) as [->|Hz].
  - split; [intros _; simpl; by apply Z.pow_pos_nonneg|lia].
  - rewrite (Z.log2_lt_pow2 (Z.abs z) k) by lia. lia.
Qed.

Lemma num_bits_nonneg z : 0 <= num_bits z.
Proof. unfold num_bits. destruct (z =? 0); [lia|]. pose proof (Z.log2_nonneg (Z.abs z)). lia. Qed.

Definition int_type (u : bool) (B : Z) : enum_field_types :=
  if ((B <=? 8) && u) || (B <? 8) then MYSQL_TYPE_TINY
  else if ((B <=? 16) && u) || (B <? 16) then MYSQL_TYPE_SHORT
  else if ((B <=? 32) && u) || (B <? 32) then MYSQL_TYPE_LONG
  else MYSQL_TYPE_LONGLONG.

(** The width chosen, and the values it can hold. *)
Lemma int_type_width u B :
  ∃ n, type_width (int_type u B) = Some n ∧ (n = 1 ∨ n = 2 ∨ n = 4 ∨ n = 8)%nat ∧
       (n ≠ 8%nat -> if u then B <= 8 * Z.of_nat n else B <= 8 * Z.of_nat n - 1).
Proof.
  unfold int_type.
  destruct (((B <=? 8) && u) || (B <? 8)) eqn:E1; [exists 1%nat|];
    [split_and!; [done|lia|intros _; destruct u; lia]|].
  destruct (((B <=? 16) && u) || (B <? 16)) eqn:E2; [exists 2%nat|];
    [split_and!; [done|lia|intros _; destruct u; lia]|].
  destruct (((B <=? 32) && u) || (B <? 32)) eqn:E3; [exists 4%nat|];
    [split_and!; [done|lia|intros _; destruct u; lia]|].
  exists 8%nat. split_and!; [done|lia|done].
Qed.

Section WithLibraries.

Context (IS_NUM : enum_field_types -> bool) (py_str : pyobj -> list Z)
  (as_double : pyobj -> option Z).

(** What [IS_NUM] says of the types whose value is kept in [num]. *)
Definition num_types : Prop :=
  ∀ t, t = MYSQL_TYPE_DOUBLE ∨ is_Some (type_width t) -> IS_NUM t = true.

Local Abbreviation to_bind := (mariadb_param_to_bind IS_NUM py_str as_double).

Lemma pow_256 n : 2 ^ (8 * Z.of_nat n) = 2 * 2 ^ (8 * Z.of_nat n - 1) ∨ n = O.
Proof.
  destruct n; [by right|left]. rewrite <- Z.pow_succ_r by lia. f_equal. lia.
Qed.

Definition max_signed (n : nat) : Z := 2 ^ (8 * Z.of_nat n - 1) - 1.

(** Loading an integer through [bind_integer]. *)
Lemma bind_integer_exact n o z b v :
  as_long o = Some z -> (n = 1 ∨ n = 2 ∨ n = 4 ∨ n = 8)%nat ->
  (if b_unsigned b then 0 <= z < 2 ^ (8 * Z.of_nat n)
   else - 2 ^ (8 * Z.of_nat n - 1) <= z < 2 ^ (8 * Z.of_nat n)) ->
  ∃ b' v', bind_integer n (max_signed n) o b v = (b', v', false) ∧
    buffer_type b' = buffer_type b ∧ b_buffer b' = b_buffer b ∧
    b_unsigned b' = (b_unsigned b || (max_signed n <? z)) ∧
    sent_integer n b' v' = z.
Proof.
  intros Ho Hn Hz. unfold bind_integer, max_signed, as_longlong, as_ulonglong. rewrite Ho.
  assert (Hp : 2 ^ (8 * Z.of_nat n) = 2 * 2 ^ (8 * Z.of_nat n - 1) ∧ 2 ^ (8 * Z.of_nat n) <= 2 ^ 64
               ∧ 0 < 2 ^ (8 * Z.of_nat n - 1))
    by (destruct Hn as [->|[->|[->| ->]]]; simpl; lia).
  destruct Hp as (Hp & Hp64 & Hp0).
  assert (Htake : ∀ x, take n (num (store_num n x v)) = le_bytes n x).
  { intros x. unfold store_num. simpl. rewrite take_app_le by (rewrite length_le_bytes; lia).
    apply take_ge. by rewrite length_le_bytes. }
  assert (H0 : (0 < n)%nat) by lia.
  destruct (Z.ltb_spec z 0).
  - destruct (b_unsigned b) eqn:Hu; [lia|].
    unfold LONG_MIN, LONG_MAX. rewrite (proj2 (Z.leb_le _ _)), (proj2 (Z.leb_le _ _)) by lia. cbn [andb].
    eexists _, _. split; [done|]. split_and!; try done.
    + rewrite Hu. cbn [orb]. lia.
    + unfold sent_integer. rewrite Hu, Htake, le_value_bytes, signed_mod by done.
      apply signed_small; lia.
  - unfold ULLONG_MAX.
    assert (Hzu : z < 2 ^ (8 * Z.of_nat n)) by (destruct (b_unsigned b); lia).
    rewrite (proj2 (Z.leb_le _ _)), (proj2 (Z.leb_le _ _)) by lia. cbn [andb].
    rewrite Z.mod_small by lia. eexists _, _. split; [done|].
    destruct (Z.ltb_spec (2 ^ (8 * Z.of_nat n - 1) - 1) z); split_and!; try done; cbn [b_unsigned set_unsigned].
    + by rewrite orb_true_r.
    + unfold sent_integer. cbn [b_unsigned set_unsigned]. rewrite Htake, le_value_bytes, Z.mod_small; lia.
    + by rewrite orb_false_r.
    + unfold sent_integer. rewrite Htake, le_value_bytes.
      destruct (b_unsigned b); [rewrite Z.mod_small; lia|]. rewrite signed_mod by done.
      apply signed_small; lia.
Qed.

Lemma to_bind_integer u B o z b v :
  num_types -> buffer_type b = int_type u B -> b_unsigned b = u -> as_long o = Some z ->
  value v = Some o -> indicator v = 0 -> num_bits z <= B ->
  (if u then 0 <= z <= ULLONG_MAX else LONG_MIN <= z <= ULLONG_MAX) ->
  ∃ b' v', to_bind b v = Some (inl (b', v', false)) ∧ sent b' v' = Some (SInt z) ∧
    buffer_type b' = buffer_type b ∧ (b_unsigned b = true ∨ z <= LONG_MAX -> b_unsigned b' = b_unsigned b).
Proof.
  intros Hnum Ht Hu Ho Hv Hi HB Hz.
  destruct (int_type_width u B) as (n & Hw & Hn & Hfit). unfold ULLONG_MAX, LONG_MIN, LONG_MAX in *.
  assert (Hrange : if b_unsigned (set_bbuffer BufNum b) then 0 <= z < 2 ^ (8 * Z.of_nat n)
                   else - 2 ^ (8 * Z.of_nat n - 1) <= z < 2 ^ (8 * Z.of_nat n)).
  { cbn [b_unsigned set_bbuffer]. rewrite Hu.
    destruct (decide (n = 8%nat)) as [->|Hne]; [destruct u; simpl; lia|].
    specialize (Hfit Hne). destruct (pow_256 n) as [Hp|]; [|lia].
    destruct u.
    - assert (Z.abs z < 2 ^ (8 * Z.of_nat n)) by (apply num_bits_le; lia). lia.
    - assert (Z.abs z < 2 ^ (8 * Z.of_nat n - 1)) by (apply num_bits_le; lia). lia. }
  assert (Hsmall : b_unsigned b = true ∨ z <= 2 ^ 63 - 1 ->
                   b_unsigned b || (max_signed n <? z) = b_unsigned b).
  { intros Hc. destruct (b_unsigned b) eqn:Eu; [done|]. destruct Hc as [|Hc]; [done|].
    cbn [orb]. unfold max_signed. apply Z.ltb_ge.
    destruct (decide (n = 8%nat)) as [->|Hne]; [simpl; lia|]. subst u. specialize (Hfit Hne).
    assert (Z.abs z < 2 ^ (8 * Z.of_nat n - 1)) by (apply num_bits_le; lia). lia. }
  destruct (bind_integer_exact n o z (set_bbuffer BufNum b) v Ho Hn Hrange)
    as (b' & v' & Hb & Hbt & Hbb & Hbu & Hs).
  exists b', v'.
  assert (HN : IS_NUM (buffer_type b) = true) by (apply Hnum; right; rewrite Ht; by eexists).
  assert (Hsent : sent b' v' = Some (SInt z)).
  { unfold sent. rewrite Hbt, Hbb. cbn [buffer_type set_bbuffer b_buffer]. rewrite Ht.
    rewrite <- Hs. destruct (int_type u B) eqn:E; try discriminate Hw; cbn in Hw; injection Hw as <-; done. }
  split_and!; [|done|done|].
  - unfold mariadb_param_to_bind. rewrite Hi, Hv, HN. cbn [Z.ltb Z.compare].
    change (buffer_type (set_bbuffer BufNum b)) with (buffer_type b). rewrite Ht in *.
    destruct (int_type u B); try discriminate Hw; cbn in Hw; injection Hw as <-; by rewrite <- Hb.
  - intros Hc. rewrite Hbu. cbn [b_unsigned set_bbuffer]. auto.
Qed.

(** ** Values of every type *)

(** The value an object must arrive as. *)
Definition sends (o : pyobj) (s : sent_value) : Prop :=
  match o with
  | PyNone => s = SNull
  | PyBool b => s = SInt (if b then 1 else 0)
  | PyLong z => s = SInt z
  | PyFloat x => s = SDouble x
  | PyBytes l => s = SBytes l
  | PyUnicode l => s = SText l
  | PyDecimal l => s = SDecimal l
  | PyDate y m d => s = STime MYSQL_TYPE_DATE (mkTime y m d 0 0 0 0 false MYSQL_TIMESTAMP_DATE)
  | PyTime h m sec us => s = STime MYSQL_TYPE_TIME (mkTime 0 0 0 h m sec us false MYSQL_TIMESTAMP_TIME)
  | PyDateTime y mo d h m sec us =>
      s = STime MYSQL_TYPE_DATETIME (mkTime y mo d h m sec us false MYSQL_TIMESTAMP_DATETIME)
  | PyDelta d sec us => ∃ t, s = STime MYSQL_TYPE_TIME t ∧ tm_us t = delta_us d sec us
  | _ => False
  end.

(** The objects [execute] can send: integers that fit 64 bits, spans that do not
    overflow, and every date, time, string, number and None. *)
Definition loadable (o : pyobj) : Prop :=
  match o with
  | PyLong z => LONG_MIN <= z <= ULLONG_MAX
  | PyFloat x => 0 <= x < 2 ^ 64
  | PyDelta d s u => delta_ok d s u ∧ -24854 <= d <= 24854
  | PyNone | PyBool _ | PyBytes _ | PyUnicode _ | PyDecimal _ | PyDate _ _ _ | PyTime _ _ _ _
  | PyDateTime _ _ _ _ _ _ _ => True
  | _ => False
  end.

(** The conversions of Python the code relies on. *)
Definition python_ok : Prop :=
  (∀ x, as_double (PyFloat x) = Some x) ∧ (∀ s, py_str (PyDecimal s) = s).

Local Abbreviation upd := (update_column IS_NUM py_str as_double).

(** The bind structure [execute] gives a column of type [pinfo]. *)
Definition typed (p : MYSQL_BIND) (pinfo : MrdbParamInfo) : MYSQL_BIND :=
  shrink_type (set_type (ptype pinfo) (set_unsigned false p)) (u32 (bits pinfo)).

Lemma typed_integer p B :
  0 <= B < 2 ^ 32 ->
  typed p (mkInfo MYSQL_TYPE_LONGLONG B) = set_type (int_type false B) (set_unsigned false p).
Proof. intros HB. unfold typed, shrink_type, u32. simpl. by rewrite Z.mod_small by lia. Qed.

Lemma load_integer self o z p :
  num_types -> as_long o = Some z -> LONG_MIN <= z <= ULLONG_MAX ->
  load_column self o value_zero = Ok (set_pvalue (Some o) value_zero) ∧
  mariadb_get_column_info (Some o) info_zero = (0, mkInfo MYSQL_TYPE_LONGLONG (num_bits z)) ∧
  ∃ b' v', upd (typed p (mkInfo MYSQL_TYPE_LONGLONG (num_bits z))) (set_pvalue (Some o) value_zero)
           = Some (inl (b', v', false)) ∧ sent b' v' = Some (SInt z).
Proof.
  intros Hnum Ho Hz. split; [by destruct o|]. split.
  { unfold mariadb_get_column_info. rewrite Ho. simpl. rewrite Z.max_r by apply num_bits_nonneg. done. }
  assert (HB : 0 <= num_bits z < 2 ^ 32).
  { split; [apply num_bits_nonneg|]. unfold LONG_MIN, ULLONG_MAX in Hz.
    assert (num_bits z <= 64) by (apply num_bits_le; lia). lia. }
  rewrite typed_integer by done. unfold update_column. cbn [indicator set_pvalue value_zero Z.eqb negb Z.ltb Z.compare].
  destruct (to_bind_integer false (num_bits z) o z
              (set_type (int_type false (num_bits z)) (set_unsigned false p))
              (set_pvalue (Some o) value_zero)) as (b' & v' & Hb & Hs & _); try done.
  by exists b', v'.
Qed.

Lemma typed_other p t :
  t ≠ MYSQL_TYPE_LONGLONG -> typed p (mkInfo t 0) = set_type t (set_unsigned false p).
Proof. intros Ht. unfold typed, shrink_type. simpl. by rewrite bool_decide_false. Qed.

(** The structures for an object that is no integer. *)
Ltac load_object :=
  eexists _, _, _, _, _; split; [done|]; split; [done|]; cbn [bits info_zero];
  rewrite typed_other by done; unfold update_column, mariadb_param_to_bind;
  cbn -[mariadb_pydelta_to_tm]; repeat match goal with H : IS_NUM _ = _ |- _ => rewrite H; clear H end.

Ltac load_case t := destruct (IS_NUM t) eqn:?; load_object.

Lemma load_exact self o p :
  num_types -> python_ok -> loadable o ->
  ∃ v pinfo b' v' s,
    load_column self o value_zero = Ok v ∧
    mariadb_get_column_info (value v) info_zero = (0, pinfo) ∧
    upd (typed p pinfo) v = Some (inl (b', v', false)) ∧
    sent b' v' = Some s ∧ sends o s.
Proof.
  intros Hnum [Hdbl Hstr] Ho.
  assert (Hint : ∀ z, as_long o = Some z -> LONG_MIN <= z <= ULLONG_MAX -> sends o (SInt z) ->
    ∃ v pinfo b' v' s, load_column self o value_zero = Ok v ∧
      mariadb_get_column_info (value v) info_zero = (0, pinfo) ∧
      upd (typed p pinfo) v = Some (inl (b', v', false)) ∧ sent b' v' = Some s ∧ sends o s).
  { intros z Hl Hz Hs. destruct (load_integer self o z p Hnum Hl Hz) as (H1 & H2 & b' & v' & H3 & H4).
    by exists (set_pvalue (Some o) value_zero), (mkInfo MYSQL_TYPE_LONGLONG (num_bits z)), b', v', (SInt z). }
  assert (HD : IS_NUM MYSQL_TYPE_DOUBLE = true) by (apply Hnum; by left).
  clear Hnum. destruct o; simpl in Ho; try done; try (by eapply Hint).
  - unfold load_column. destruct (bulk_caps self);
      (eexists _, _, _, _, _; split; [done|]; split; [done|]; split; [done|]; by split).
  - eapply Hint; [done| |done]. unfold LONG_MIN, ULLONG_MAX. destruct b; lia.
  - load_object. rewrite Hdbl. split; [done|].
    split; [reflexivity|]. apply (f_equal SDouble).
    transitivity (bits mod 2 ^ (8 * Z.of_nat 8)); [apply (le_value_bytes 8)|by apply Z.mod_small].
  - load_case MYSQL_TYPE_LONG_BLOB;
      (split; [done|]; split; [unfold sent; cbn; reflexivity|]; simpl; f_equal; apply take_ge; lia).
  - load_case MYSQL_TYPE_VAR_STRING;
      (split; [done|]; split; [unfold sent; cbn; reflexivity|]; simpl; f_equal; apply take_ge; lia).
  - load_case MYSQL_TYPE_DATE; (split; [done|]; by split).
  - load_case MYSQL_TYPE_TIME; (split; [done|]; by split).
  - load_case MYSQL_TYPE_DATETIME; (split; [done|]; by split).
  - destruct Ho as [Hok Hd]. destruct (pydelta_to_tm_exact _ _ _ Hok Hd) as (t & Ht & Hus & _).
    load_case MYSQL_TYPE_TIME; rewrite Ht; (split; [done|]; split; [reflexivity|]; by exists t).
  - load_case MYSQL_TYPE_NEWDECIMAL; rewrite Hstr;
      (split; [done|]; split; [unfold sent; cbn; reflexivity|]; simpl; f_equal; apply take_ge; lia).
Qed.

(** ** All parameters of [execute] *)

(** The loop over the columns' types keeps any property of single columns. *)
Lemma param_infos_ok self i n ps (P : nat -> MYSQL_BIND -> Prop) :
  (∀ j p, (i <= j < i + n)%nat -> ∃ b, mariadb_get_parameter_info self p (Z.of_nat j) = Ok b ∧ P j b) ->
  (i + n <= length ps)%nat ->
  ∃ ps', param_infos self i n ps = Ok ps' ∧ length ps' = length ps ∧
    (∀ j, (i <= j < i + n)%nat -> ∃ b, ps' !! j = Some b ∧ P j b) ∧
    (∀ j, (j < i)%nat -> ps' !! j = ps !! j).
Proof.
  revert i ps. induction n as [|n IH]; intros i ps HP Hlen.
  { exists ps. split_and!; [done|done|intros; lia|done]. }
  destruct (lookup_lt_is_Some_2 ps i) as [p Hp]; [lia|].
  destruct (HP i p) as (b & Hb & Pb); [lia|].
  destruct (IH (S i) (<[i := b]> ps)) as (ps' & E & Hl & Hin & Hout).
  { intros j q Hj. apply HP. lia. }
  { rewrite length_insert. lia. }
  exists ps'. cbn [param_infos]. rewrite Hp. cbn [oget obind]. rewrite Hb. cbn [obind].
  split_and!; [done|by rewrite length_insert in Hl| |].
  - intros j Hj. destruct (decide (j = i)) as [->|]; [|apply Hin; lia].
    exists b. split; [|done]. rewrite Hout by lia. apply list_lookup_insert_eq. lia.
  - intros j Hj. rewrite Hout by lia. apply list_lookup_insert_ne. lia.
Qed.

Lemma update_columns_ok self row i n bs vs err (Q : nat -> MYSQL_BIND -> MrdbParamValue -> Prop) :
  (∀ j, (i <= j < i + n)%nat -> ∃ b v v' b1 v1,
      bs !! j = Some b ∧ vs !! j = Some v ∧
      mariadb_get_parameter self (0 <? array_size self) row (Z.of_nat j) v = Ok v' ∧
      upd b v' = Some (inl (b1, v1, false)) ∧ Q j b1 v1) ->
  ∃ bs' vs', update_columns IS_NUM py_str as_double self row i n bs vs err = Ok (bs', vs', err) ∧
    (∀ j, (i <= j < i + n)%nat -> ∃ b v, bs' !! j = Some b ∧ vs' !! j = Some v ∧ Q j b v) ∧
    (∀ j, (j < i)%nat -> bs' !! j = bs !! j ∧ vs' !! j = vs !! j).
Proof.
  revert i bs vs err. induction n as [|n IH]; intros i bs vs err HQ.
  { exists bs, vs. split_and!; [done|intros; lia|done]. }
  destruct (HQ i) as (b & v & v' & b1 & v1 & Hb & Hv & Hg & Hu & Hq); [lia|].
  assert (Hlb : (i < length bs)%nat) by (by eapply lookup_lt_Some).
  assert (Hlv : (i < length vs)%nat) by (by eapply lookup_lt_Some).
  destruct (IH (S i) (<[i := b1]> bs) (<[i := v1]> vs) (err || false)) as (bs' & vs' & E & Hin & Hout).
  { intros j Hj. destruct (HQ j) as (b' & w & w' & b2 & w2 & ? & ? & ? & ? & ?); [lia|].
    exists b', w, w', b2, w2. rewrite !list_lookup_insert_ne by lia. done. }
  exists bs', vs'. cbn [update_columns]. rewrite Hb. cbn [oget obind]. rewrite Hv. cbn [oget obind].
  rewrite Hg. cbn [obind]. rewrite Hu. cbn [oget obind].
  rewrite orb_false_r in *. split_and!; [done| |].
  - intros j Hj. destruct (decide (j = i)) as [->|]; [|apply Hin; lia].
    destruct (Hout i) as [E1 E2]; [lia|]. exists b1, v1.
    rewrite E1, E2, !list_lookup_insert_eq by lia. done.
  - intros j Hj. destruct (Hout j) as [E1 E2]; [lia|].
    rewrite E1, E2, !list_lookup_insert_ne by lia. done.
Qed.

Lemma lookup_repeat_lt {A : Type} (x : A) n i : (i < n)%nat -> repeat x n !! i = Some x.
Proof.
  revert i. induction n as [|n IH]; intros i Hi; [lia|]. destruct i; [done|]. apply IH. lia.
Qed.

(** The object a cursor's data has for each parameter. *)
Definition arguments (self : param_cursor) (objs : list pyobj) : Prop :=
  ∀ i o, objs !! i = Some o -> get_column self (data self) 0 (Z.of_nat i) = Ok o.

(** A bind structure with the type of the column's object. *)
Definition typed_for (self : param_cursor) (objs : list pyobj) (j : nat) (b : MYSQL_BIND) : Prop :=
  ∀ o, objs !! j = Some o -> ∃ p v pinfo, load_column self o value_zero = Ok v ∧
    mariadb_get_column_info (value v) info_zero = (0, pinfo) ∧ b = typed p pinfo.

Lemma single_info self objs j o p :
  num_types -> python_ok -> array_size self = 0 -> arguments self objs -> objs !! j = Some o ->
  loadable o ->
  ∃ b, mariadb_get_parameter_info self p (Z.of_nat j) = Ok b ∧ typed_for self objs j b.
Proof.
  intros Hnum Hpy Ha Hargs Ho Hl.
  destruct (load_exact self o p Hnum Hpy Hl) as (v & pinfo & b' & v' & s & H1 & H2 & _).
  exists (typed p pinfo). split.
  - unfold mariadb_get_parameter_info, single_row, mariadb_get_parameter. rewrite Ha.
    cbn [Z.eqb obind get_row]. rewrite (Hargs j o Ho). cbn [obind]. rewrite H1. cbn [obind].
    by rewrite H2.
  - intros o' Ho'. assert (o' = o) as -> by congruence. by exists p, v, pinfo.
Qed.

Lemma single_update self objs j o b :
  num_types -> python_ok -> array_size self = 0 -> arguments self objs -> objs !! j = Some o ->
  loadable o -> typed_for self objs j b ->
  ∃ v b1 v1 s, mariadb_get_parameter self (0 <? array_size self) 0 (Z.of_nat j) value_zero = Ok v ∧
    upd b v = Some (inl (b1, v1, false)) ∧ sent b1 v1 = Some s ∧ sends o s.
Proof.
  intros Hnum Hpy Ha Hargs Ho Hl HP. destruct (HP o Ho) as (p & v & pinfo & H1 & H2 & ->).
  destruct (load_exact self o p Hnum Hpy Hl) as (v0 & pinfo0 & b1 & v1 & s & H1' & H2' & H3 & H4 & H5).
  assert (v0 = v) as -> by congruence. assert (pinfo0 = pinfo) as -> by congruence.
  exists v, b1, v1, s. split_and!; try done.
  unfold mariadb_get_parameter. rewrite Ha. cbn [Z.ltb Z.compare get_row obind].
  rewrite (Hargs j o Ho). cbn [obind]. exact H1.
Qed.

(** The check of a first execution and the load behind it. *)
Lemma parameters_loaded (self : param_cursor) (objs : list pyobj)
    (Hnum : num_types) (Hpy : python_ok)
    (Hfirst : params self = None ∧ pvalues self = None ∧ array_size self = 0)
    (Hcount : paramcount self = Z.of_nat (length objs)) (Hne : objs ≠ [])
    (Hargs : arguments self objs) (Hload : Forall loadable objs) :
  ∃ self' ps bs vs,
    mariadb_check_execute_parameters true true self (data self) = Ok self' ∧
    self' = set_pvalues (pvalues self') (set_params (Some ps) self) ∧ params self' = Some ps ∧
    mariadb_param_update IS_NUM py_str as_double self' ps 0 = Ok (bs, vs, false) ∧
    ∀ i o, objs !! i = Some o ->
      ∃ b v s, bs !! i = Some b ∧ vs !! i = Some v ∧ sent b v = Some s ∧ sends o s.
Proof.
  destruct Hfirst as (Hp & Hv & Ha). set (n := length objs).
  set (self1 := set_pvalues (Some (repeat value_zero n)) (set_params (Some (repeat bind_zero n)) self)).
  assert (Hn : Z.to_nat (paramcount self) = n) by (rewrite Hcount; apply Nat2Z.id).
  rewrite Forall_lookup in Hload.
  destruct (param_infos_ok self1 0 n (repeat bind_zero n) (typed_for self1 objs))
    as (ps & Eps & Hlps & Hin & _).
  { intros j p Hj. destruct (lookup_lt_is_Some_2 objs j) as [o Ho]; [lia|].
    exact (single_info self1 objs j o p Hnum Hpy Ha Hargs Ho (Hload j o Ho)). }
  { by rewrite repeat_length. }
  exists (set_params (Some ps) self1), ps.
  destruct (update_columns_ok (set_params (Some ps) self1) 0 0 n ps (repeat value_zero n) false
              (λ j b v, ∀ o, objs !! j = Some o -> ∃ s, sent b v = Some s ∧ sends o s))
    as (bs & vs & Eu & Hout & _).
  { intros j Hj. destruct (lookup_lt_is_Some_2 objs j) as [o Ho]; [lia|].
    destruct (Hin j ltac:(lia)) as (b & Hb & HP).
    destruct (single_update (set_params (Some ps) self1) objs j o b Hnum Hpy Ha Hargs Ho (Hload j o Ho) HP)
      as (v & b1 & v1 & s & H1 & H2 & H3 & H4).
    exists b, value_zero, v, b1, v1. split_and!; try done; [apply lookup_repeat_lt; lia|].
    intros o' Ho'. assert (o' = o) as -> by congruence. by exists s. }
  exists bs, vs. split_and!.
  - unfold mariadb_check_execute_parameters. rewrite Hp, Hn.
    rewrite (proj2 (Z.eqb_neq (paramcount self) 0)) by (rewrite Hcount; destruct objs; [done|simpl; lia]).
    cbn [obind pvalues set_params]. rewrite Hv. cbn [obind]. fold self1.
    cbn [params self1 set_pvalues set_params oget obind]. rewrite Eps. done.
  - by destruct self.
  - done.
  - unfold mariadb_param_update. cbn [pvalues self1 set_pvalues set_params oget obind paramcount].
    rewrite Hn. exact Eu.
  - intros i o Ho. assert (i < n)%nat by (by eapply lookup_lt_Some).
    destruct (Hout i ltac:(lia)) as (b & v & Hb & Hvv & HQ). destruct (HQ o Ho) as (s & Hs & Hsend).
    by exists b, v, s.
Qed.

(** C16: [execute] with parameters.  For a first execution with one argument per
    parameter, given by position or by name, each of a type the connector
    supports, the check succeeds and [mariadb_param_update] loads every value
    so that what the bind structure stands for is exactly the Python value:
    integers from -2^63 to 2^64-1 at the width and signedness chosen for them,
    floats bit by bit, strings and bytes whole, dates and times field by field,
    time spans to the microsecond, None as NULL; and no exception is left
    set. *)
Theorem execute_parameters_exact (self : param_cursor) (objs : list pyobj)
    (Hnum : num_types) (Hpy : python_ok)
    (Hfirst : params self = None ∧ pvalues self = None ∧ array_size self = 0)
    (Hcount : paramcount self = Z.of_nat (length objs)) (Hne : objs ≠ [])
    (Hargs : arguments self objs) (Hload : Forall loadable objs) :
  ∃ self' ps bs vs,
    mariadb_check_execute_parameters true true self (data self) = Ok self' ∧
    params self' = Some ps ∧
    mariadb_param_update IS_NUM py_str as_double self' ps 0 = Ok (bs, vs, false) ∧
    ∀ i o, objs !! i = Some o ->
      ∃ b v s, bs !! i = Some b ∧ vs !! i = Some v ∧ sent b v = Some s ∧ sends o s.
Proof.
  destruct (parameters_loaded self objs Hnum Hpy Hfirst Hcount Hne Hargs Hload)
    as (self' & ps & bs & vs & H1 & _ & H). by exists self', ps, bs, vs.
Qed.

(** ** Integer columns of [executemany] *)

(** The values that set the unsigned flag of a column: the test compares with
    -1, the error value of [PyLong_AsLongLong], and does not ask whether an
    error occurred. *)
Definition sets_unsigned (z : Z) : bool :=
  (z =? -1) || negb ((LONG_MIN <=? z) && (z <=? LONG_MAX)).

Definition max_bits (zs : list Z) (b : Z) : Z := fold_left (λ b z, Z.max b (num_bits z)) zs b.

Lemma sets_unsigned_test o z :
  as_long o = Some z -> (u64 (as_longlong o).1 =? u64 (-1)) = sets_unsigned z.
Proof.
  intros Ho. unfold as_longlong, sets_unsigned, LONG_MIN, LONG_MAX. rewrite Ho.
  destruct ((- 2 ^ 63 <=? z) && (z <=? 2 ^ 63 - 1)) eqn:E; cbn [fst negb].
  - rewrite orb_false_r. unfold u64. change ((-1) mod 2 ^ 64) with (2 ^ 64 - 1).
    destruct (Z.lt_ge_cases z 0).
    + rewrite <- (Z.mod_unique_pos z (2 ^ 64) (-1) (z + 2 ^ 64)) by lia. lia.
    + rewrite Z.mod_small by lia. lia.
  - rewrite orb_true_r. apply Z.eqb_refl.
Qed.

Lemma max_bits_ge zs b : b <= max_bits zs b ∧ Forall (λ z, num_bits z <= max_bits zs b) zs.
Proof.
  revert b. induction zs as [|z zs IH]; intros b; cbn; [split; [lia|constructor]|].
  destruct (IH (Z.max b (num_bits z))) as [H1 H2]. unfold max_bits in *. split; [lia|].
  constructor; [lia|done].
Qed.

Lemma max_bits_le zs b k : b <= k -> Forall (λ z, num_bits z <= k) zs -> max_bits zs b <= k.
Proof.
  intros Hb Hz. revert b Hb. induction Hz as [|z zs Hz _ IH]; intros b Hb; cbn; [done|].
  apply IH. lia.
Qed.

(** An integer row, when the column has no type yet or is an integer column. *)
Lemma bulk_row_integer self c i o z p b v v' :
  mariadb_get_parameter self true i c v = Ok v' -> value v' = Some o -> indicator v' = 0 ->
  as_long o = Some z -> num_bits z < 2 ^ 32 ->
  buffer_type p = MYSQL_TYPE_DECIMAL ∨ buffer_type p = MYSQL_TYPE_NULL ∨ buffer_type p = MYSQL_TYPE_LONGLONG ->
  ∃ p', bulk_row self c i p b v = Ok (Go p' (Z.max b (num_bits z)) v') ∧
    buffer_type p' = MYSQL_TYPE_LONGLONG ∧ b_unsigned p' = b_unsigned p || sets_unsigned z.
Proof.
  intros Hg Hv Hi Ho Hnb Ht. unfold bulk_row. rewrite Hg. cbn [obind]. rewrite Hv.
  assert (Hinfo : mariadb_get_column_info (Some o) info_zero = (0, mkInfo MYSQL_TYPE_LONGLONG (num_bits z))).
  { unfold mariadb_get_column_info. rewrite Ho. simpl. by rewrite Z.max_r by apply num_bits_nonneg. }
  rewrite Hinfo. cbn [Z.eqb negb andb ptype bits]. rewrite bool_decide_true by done.
  rewrite (sets_unsigned_test o z Ho).
  assert (Hb : (if b <? num_bits z then u32 (num_bits z) else b) = Z.max b (num_bits z)).
  { pose proof (num_bits_nonneg z). unfold u32. rewrite Z.mod_small by lia.
    destruct (Z.ltb_spec b (num_bits z)); lia. }
  rewrite Hb.
  set (p1 := if sets_unsigned z then set_unsigned true p else p).
  assert (Hp1 : buffer_type p1 = buffer_type p ∧ b_unsigned p1 = b_unsigned p || sets_unsigned z).
  { subst p1. destruct (sets_unsigned z); simpl; by rewrite ?orb_true_r, ?orb_false_r. }
  destruct Hp1 as [Ht1 Hu1]. rewrite Ht1.
  destruct Ht as [E|[E|E]]; rewrite E.
  - eexists. split; [done|]. split; [done|exact Hu1].
  - eexists. split; [done|]. split; [done|exact Hu1].
  - exists p1. split; [done|]. split; [congruence|done].
Qed.

Lemma bulk_rows_integers self c os zs i p b v :
  Forall2 (λ o z, as_long o = Some z) os zs -> Forall (λ z, num_bits z < 2 ^ 32) zs ->
  (∀ k o w, os !! k = Some o -> mariadb_get_parameter self true (i + Z.of_nat k) c w
                                 = Ok (set_pvalue (Some o) (set_indicator 0 w))) ->
  buffer_type p = MYSQL_TYPE_DECIMAL ∨ buffer_type p = MYSQL_TYPE_NULL ∨ buffer_type p = MYSQL_TYPE_LONGLONG ->
  ∃ p', bulk_rows self c i (length os) p b v = Ok (p', max_bits zs b) ∧
    (os ≠ [] -> buffer_type p' = MYSQL_TYPE_LONGLONG) ∧
    b_unsigned p' = b_unsigned p || existsb sets_unsigned zs.
Proof.
  intros H2. revert i p b v. induction H2 as [|o z os zs Ho H2 IH]; intros i p b v Hnb Hget Ht.
  { exists p. split_and!; [done|done|]. by rewrite orb_false_r. }
  inversion Hnb as [|? ? Hz Hnb']; subst.
  pose proof (Hget 0%nat o v eq_refl) as Hg. rewrite Z.add_0_r in Hg.
  destruct (bulk_row_integer self c i o z p b v _ Hg) as (p1 & E & Ht1 & Hu1); try done.
  destruct (IH (i + 1) p1 (Z.max b (num_bits z)) (set_pvalue (Some o) (set_indicator 0 v)))
    as (p' & E' & Ht' & Hu'); [done| |by auto|].
  { intros k o' w Hk. rewrite <- (Hget (S k) o' w Hk). f_equal. lia. }
  exists p'. cbn [length bulk_rows]. rewrite E. cbn [obind]. split_and!; [exact E'| |].
  - intros _. destruct os as [|o' os]; [|by apply Ht'].
    inversion H2; subst. cbn in E'. congruence.
  - rewrite Hu', Hu1. cbn [existsb]. by rewrite orb_assoc.
Qed.

(** The objects of a column of the rows passed to [executemany]. *)
Definition bulk_column (self : param_cursor) (c : Z) (os : list pyobj) : Prop :=
  array_size self = Z.of_nat (length os) ∧ os ≠ [] ∧
  ∀ k o, os !! k = Some o ->
    ∃ row, get_row self true (Z.of_nat k) c = Ok row ∧ get_column self row (Z.of_nat k) c = Ok o.

Lemma bulk_get self c os k o w :
  bulk_column self c os -> os !! k = Some o ->
  mariadb_get_parameter self true (Z.of_nat k) c w = load_column self o w.
Proof.
  intros (_ & _ & H) Ho. destruct (H k o Ho) as (row & Hr & Hc).
  unfold mariadb_get_parameter. rewrite Hr. cbn [obind]. by rewrite Hc.
Qed.

(** The type chosen for a column of integers. *)
Lemma bulk_info_integers self c zs :
  bulk_column self c (PyLong <$> zs) -> Forall (λ z, Z.abs z < 2 ^ 64) zs ->
  ∃ b, mariadb_get_parameter_info self bind_zero c = Ok b ∧
    b_unsigned b = existsb sets_unsigned zs ∧
    buffer_type b = int_type (b_unsigned b) (max_bits zs 0).
Proof.
  intros Hcol Hz. destruct Hcol as (Ha & Hne & Hrows) eqn:Hc. clear Hc.
  assert (H2 : Forall2 (λ o z, as_long o = Some z) (PyLong <$> zs) zs)
    by (clear; induction zs; constructor; done).
  assert (Hnb : Forall (λ z, num_bits z < 2 ^ 32) zs).
  { eapply Forall_impl; [|exact Hz]. intros z Hlt. cbv beta in *.
    assert (num_bits z <= 64) by (apply num_bits_le; lia). lia. }
  destruct (bulk_rows_integers self c _ zs 0 (set_unsigned false bind_zero) 0 value_zero H2 Hnb)
    as (p' & E & Ht & Hu).
  { intros k o w Hk. rewrite Z.add_0_l, (bulk_get self c _ k o w Hcol Hk).
    apply list_lookup_fmap_Some in Hk as (z & -> & _). done. }
  { by left. }
  exists (shrink_type p' (max_bits zs 0)). unfold mariadb_get_parameter_info.
  assert (Ha0 : (array_size self =? 0) = false).
  { rewrite Ha. apply Z.eqb_neq. destruct zs; [done|]. simpl. lia. }
  rewrite Ha0, Ha, Nat2Z.id, E. cbn [obind fst snd]. split; [done|].
  unfold shrink_type. rewrite (Ht Hne), bool_decide_true by done. simpl. by rewrite Hu.
Qed.

(** C26: Integer columns of [executemany].  When all values of a column are signed
    64-bit integers other than -1, or all are unsigned 64-bit integers, one
    type and one signedness are chosen for the column, every row keeps them,
    and every row is sent as exactly its value. *)
Theorem bulk_integers_exact (self : param_cursor) (c : Z) (zs : list Z) (Hnum : num_types)
    (Hcol : bulk_column self c (PyLong <$> zs))
    (Hz : Forall (λ z, LONG_MIN <= z <= LONG_MAX ∧ z ≠ -1) zs ∨ Forall (λ z, 0 <= z <= ULLONG_MAX) zs) :
  ∃ b, mariadb_get_parameter_info self bind_zero c = Ok b ∧
    ∀ k z b0 w, zs !! k = Some z ->
      buffer_type b0 = buffer_type b -> b_unsigned b0 = b_unsigned b ->
      ∃ v b1 v1,
        mariadb_get_parameter self true (Z.of_nat k) c w = Ok v ∧
        upd b0 v = Some (inl (b1, v1, false)) ∧ sent b1 v1 = Some (SInt z) ∧
        buffer_type b1 = buffer_type b ∧ b_unsigned b1 = b_unsigned b.
Proof.
  destruct (bulk_info_integers self c zs Hcol) as (b & E & Hu & Ht).
  { unfold LONG_MIN, LONG_MAX, ULLONG_MAX in Hz.
    destruct Hz as [Hz|Hz]; eapply Forall_impl; [|exact Hz| |exact Hz]; intros; cbv beta in *; lia. }
  exists b. split; [done|]. intros k z b0 w Hk Ht0 Hu0.
  assert (HB : num_bits z <= max_bits zs 0).
  { destruct (max_bits_ge zs 0) as [_ HF]. rewrite Forall_lookup in HF. by apply (HF k). }
  assert (Hfit : (if b_unsigned b then 0 <= z <= ULLONG_MAX else LONG_MIN <= z <= ULLONG_MAX) ∧
                 (b_unsigned b = true ∨ z <= LONG_MAX)).
  { rewrite Hu. destruct Hz as [Hz|Hz]; rewrite Forall_lookup in Hz; specialize (Hz k z Hk) as Hzk;
      unfold LONG_MIN, LONG_MAX, ULLONG_MAX in *.
    - assert (Hex : existsb sets_unsigned zs = false).
      { apply not_true_iff_false. intros (x & Hin & Hx)%existsb_exists.
        apply list_elem_of_In, list_elem_of_lookup in Hin as [j Hj]. specialize (Hz j x Hj).
        unfold sets_unsigned, LONG_MIN, LONG_MAX in Hx. lia. }
      rewrite Hex. lia.
    - destruct (existsb sets_unsigned zs) eqn:Hex; [lia|].
      destruct (sets_unsigned z) eqn:Hsu.
      + assert (existsb sets_unsigned zs = true); [|congruence]. apply existsb_exists. exists z.
        split; [|done]. apply list_elem_of_In. by eapply list_elem_of_lookup_2.
      + unfold sets_unsigned, LONG_MIN, LONG_MAX in Hsu. lia. }
  destruct Hfit as [Hfit Hsmall].
  set (v := set_pvalue (Some (PyLong z)) (set_indicator 0 w)).
  destruct (to_bind_integer (b_unsigned b) (max_bits zs 0) (PyLong z) z b0 v)
    as (b1 & v1 & Hb & Hs & Ht1 & Hu1); try done; [congruence|].
  exists v, b1, v1. split_and!; [|done|done|congruence|].
  - rewrite (bulk_get self c (PyLong <$> zs) k (PyLong z) w Hcol); [done|].
    by rewrite list_lookup_fmap, Hk.
  - rewrite <- Hu0. apply Hu1. by rewrite Hu0.
Qed.

(** A column of signed 64-bit integers that contains -1 is marked unsigned,
    because the test behind [PyLong_AsLongLong] names [PyErr_Occurred] without
    calling it: every negative value of the column is then sent as that value
    modulo 2^(8n), [n] the width chosen. *)
Theorem bulk_minus_one (self : param_cursor) (c : Z) (zs : list Z) (Hnum : num_types)
    (Hcol : bulk_column self c (PyLong <$> zs))
    (Hz : Forall (λ z, LONG_MIN <= z <= LONG_MAX) zs) (Hm : -1 ∈ zs) :
  ∃ b n, mariadb_get_parameter_info self bind_zero c = Ok b ∧
    b_unsigned b = true ∧ type_width (buffer_type b) = Some n ∧
    ∀ k z w, zs !! k = Some z -> z < 0 ->
      ∃ v b1 v1, mariadb_get_parameter self true (Z.of_nat k) c w = Ok v ∧
        upd b v = Some (inl (b1, v1, false)) ∧ sent b1 v1 = Some (SInt (z mod 2 ^ (8 * Z.of_nat n))).
Proof.
  destruct (bulk_info_integers self c zs Hcol) as (b & E & Hu & Ht).
  { unfold LONG_MIN, LONG_MAX in Hz. eapply Forall_impl; [|exact Hz]; intros; cbv beta in *; lia. }
  assert (Hut : b_unsigned b = true).
  { rewrite Hu. apply existsb_exists. exists (-1). split; [by apply list_elem_of_In|done]. }
  destruct (int_type_width (b_unsigned b) (max_bits zs 0)) as (n & Hw & Hn & _).
  rewrite <- Ht in Hw. exists b, n. split_and!; try done. intros k z w Hk Hneg.
  rewrite Forall_lookup in Hz. specialize (Hz k z Hk). cbv beta in Hz.
  set (v := set_pvalue (Some (PyLong z)) (set_indicator 0 w)).
  exists v, (set_bbuffer BufNum b), (store_num n z v). split_and!.
  - rewrite (bulk_get self c (PyLong <$> zs) k (PyLong z) w Hcol); [done|].
    by rewrite list_lookup_fmap, Hk.
  - assert (HN : IS_NUM (buffer_type b) = true) by (apply Hnum; right; by eexists).
    unfold update_column, mariadb_param_to_bind. subst v.
    cbn [indicator set_pvalue set_indicator value Z.eqb negb Z.ltb Z.compare]. rewrite HN.
    change (buffer_type (set_bbuffer BufNum b)) with (buffer_type b).
    assert (Hbi : ∀ m, bind_integer n m (PyLong z) (set_bbuffer BufNum b)
                         (set_pvalue (Some (PyLong z)) (set_indicator 0 w))
                  = (set_bbuffer BufNum b, store_num n z (set_pvalue (Some (PyLong z)) (set_indicator 0 w)),
                     false)).
    { intros m. unfold bind_integer, as_longlong. cbn [as_long]. rewrite (proj2 (Z.ltb_lt z 0)) by done.
      by rewrite (proj2 (Z.leb_le _ _)), (proj2 (Z.leb_le _ _)) by lia. }
    destruct (buffer_type b); try discriminate Hw; cbn in Hw; injection Hw as <-; by rewrite Hbi.
  - assert (Hsi : sent_integer n (set_bbuffer BufNum b) (store_num n z v) = z mod 2 ^ (8 * Z.of_nat n)).
    { unfold sent_integer. cbn [b_unsigned set_bbuffer]. rewrite Hut. unfold store_num. cbn [num set_num].
      rewrite take_app_le by (rewrite length_le_bytes; lia).
      rewrite take_ge by (rewrite length_le_bytes; lia). apply le_value_bytes. }
    unfold sent. cbn [buffer_type b_buffer set_bbuffer]. rewrite <- Hsi.
    destruct (buffer_type b); try discriminate Hw; cbn in Hw; injection Hw as <-; done.
Qed.

End WithLibraries.

(** ** Checked rows are safe to read *)

Lemma check_rows_inv self d i n :
  0 <= i -> check_rows self d i n = Ok () ->
  ∀ k, (k < n)%nat ->
    ∃ row, ListOrTuple_GetItem d (i + Z.of_nat k) = Some row ∧ paramcount self ≠ 0 ∧
      if bool_decide (pc_paramstyle self = PYFORMAT) then is_dict row = true
      else is_sequence row = true ∧ ListOrTuple_Size row = paramcount self.
Proof.
  revert i. induction n as [|n IH]; intros i Hi H k Hk; [lia|]. cbn [check_rows] in H.
  destruct (ListOrTuple_GetItem d i) as [row|] eqn:Hrow; [|done]. cbn [oget obind] in H.
  destruct (negb _ && negb (is_sequence row)) eqn:E1; [done|].
  destruct (_ && negb (is_dict row)) eqn:E2; [done|].
  destruct (_ || (_ && _)) eqn:E3; [done|].
  destruct k as [|k].
  - exists row. rewrite Z.add_0_r. split; [done|].
    destruct (bool_decide (pc_paramstyle self = PYFORMAT)); cbn [negb andb] in *.
    + destruct (is_dict row); [|done]. split; [lia|done].
    + destruct (is_sequence row); [|done]. split; [lia|]. split; [done|lia].
  - destruct (IH (i + 1)) with (k := k) as (row' & H1 & H2); [lia|done|lia|].
    exists row'. split; [|done]. rewrite <- H1. f_equal. lia.
Qed.

Lemma get_item_size d i :
  is_sequence d = true -> 0 <= i < ListOrTuple_Size d -> ∃ o, ListOrTuple_GetItem d i = Some o.
Proof.
  intros Hs Hi. destruct d as [| | | | | | | | | | | |l|l| |]; try done; simpl in *;
    rewrite (proj2 (Z.leb_le 0 i)) by lia; apply lookup_lt_is_Some_2; lia.
Qed.

(** C31: After [mariadb_check_bulk_parameters] has accepted rows given by
    position, every access of the later per-row callback is in range: for each
    row and each parameter the row exists, is a sequence, and has the
    column. *)
Theorem bulk_check_safe (params_ok value_ok : bool) (self self' : param_cursor)
    (Hstyle : pc_paramstyle self ≠ PYFORMAT)
    (Hsize : ListOrTuple_Size (data self) < 2 ^ 32) (Hcount : paramcount self < 2 ^ 32)
    (Hcheck : mariadb_check_bulk_parameters params_ok value_ok self (data self) = Ok self') :
  ∀ r c, 0 <= r < ListOrTuple_Size (data self) -> 0 <= c < paramcount self ->
    ∃ row o, get_row self' true r c = Ok row ∧ get_column self' row r c = Ok o.
Proof.
  intros r c Hr Hc. unfold mariadb_check_bulk_parameters in Hcheck.
  destruct (is_sequence (data self)) eqn:Hseq; [|done]. cbn [negb] in Hcheck.
  set (self1 := set_array_size (u32 (ListOrTuple_Size (data self))) self) in *.
  assert (Ha : array_size self1 = ListOrTuple_Size (data self)).
  { subst self1. simpl. unfold u32. apply Z.mod_small. lia. }
  destruct (Z.eqb_spec (array_size self1) 0); [done|].
  destruct (check_rows self1 (data self) 0 (Z.to_nat (array_size self1))) as [[]| | |] eqn:Hrows; try done.
  assert (Hself : data self' = data self ∧ pc_paramstyle self' = pc_paramstyle self ∧
                  array_size self' = array_size self1 ∧ paramcount self' = paramcount self).
  { revert Hcheck. cbn [obind]. destruct (negb _ && negb params_ok); [done|].
    destruct (negb value_ok); [done|]. destruct (is_prepared self1).
    - destruct (params _); [|done]. cbn [oget obind]. destruct (param_infos _ _ _ _); try done.
      by intros [= <-].
    - cbn [oget obind params set_pvalues set_params]. destruct (param_infos _ _ _ _); try done.
      by intros [= <-]. }
  destruct Hself as (Hd & Hst & Has & Hpc).
  destruct (check_rows_inv self1 (data self) 0 (Z.to_nat (array_size self1)) ltac:(lia) Hrows (Z.to_nat r))
    as (row & Hrow & _ & Hok); [lia|].
  rewrite Z.add_0_l, Z2Nat.id in Hrow by lia.
  rewrite bool_decide_false in Hok by done. destruct Hok as [Hrs Hrz].
  destruct (get_item_size row c Hrs) as [o Ho]; [rewrite Hrz; done|].
  exists row, o. unfold get_row, get_column. rewrite Hd, Hst, Has, Hpc, Ha. unfold u32.
  rewrite !Z.mod_small by lia. rewrite (proj2 (Z.ltb_ge _ r)), (proj2 (Z.ltb_ge _ c)) by lia. cbn [orb].
  rewrite Hrow. split; [done|]. destruct (pc_paramstyle self); try done; by rewrite Ho.
Qed.

(** ** Where rows are not checked *)

Definition demo_cursor (d : pyobj) (n : Z) (prepared : bool) : param_cursor :=
  mkCursor d 0 QMARK n [] true prepared None None.

(** A prepared cursor has no bind structures before its first execution, and
    the bulk check does not allocate them. *)
Lemma prepared_bulk_undefined :
  mariadb_check_bulk_parameters true true
    (demo_cursor (PyList [PyTuple [PyLong 1]]) 1 true) (PyList [PyTuple [PyLong 1]]) = Undefined.
Proof. reflexivity. Qed.

(** Once a float and a decimal have met, the loop ends: the rows behind them
    may hold anything, here bytes, although bytes after a decimal are refused. *)
Lemma decimal_mix_unchecked :
  (∃ self', mariadb_check_bulk_parameters true true
    (demo_cursor (PyList [PyTuple [PyFloat 0]; PyTuple [PyDecimal [49]]; PyTuple [PyBytes [0]]]) 1 false)
    (PyList [PyTuple [PyFloat 0]; PyTuple [PyDecimal [49]]; PyTuple [PyBytes [0]]]) = Ok self') ∧
  mariadb_check_bulk_parameters true true
    (demo_cursor (PyList [PyTuple [PyDecimal [49]]; PyTuple [PyBytes [0]]]) 1 false)
    (PyList [PyTuple [PyDecimal [49]]; PyTuple [PyBytes [0]]])
  = Raise Mariadb_ProgrammingError "Invalid parameter type at row %d, column %d" [2; 1].
Proof. split; [eexists; reflexivity|reflexivity]. Qed.

(** ** The properties at concrete values *)

Definition demo_is_num (t : enum_field_types) : bool :=
  match t with
  | MYSQL_TYPE_TINY | MYSQL_TYPE_SHORT | MYSQL_TYPE_LONG | MYSQL_TYPE_FLOAT | MYSQL_TYPE_DOUBLE
  | MYSQL_TYPE_LONGLONG | MYSQL_TYPE_INT24 | MYSQL_TYPE_YEAR | MYSQL_TYPE_NEWDECIMAL
  | MYSQL_TYPE_DECIMAL | MYSQL_TYPE_NULL => true
  | _ => false
  end.

Definition demo_str (o : pyobj) : list Z := match o with PyDecimal s => s | _ => [] end.
Definition demo_double (o : pyobj) : option Z := match o with PyFloat x => Some x | _ => None end.

Lemma demo_num_types : num_types demo_is_num.
Proof. intros t [->|[n Hn]]; [done|]. by destruct t. Qed.

Lemma demo_python_ok : python_ok demo_str demo_double.
Proof. by split. Qed.

Definition demo_objs : list pyobj :=
  [PyLong (-129); PyLong (2 ^ 64 - 1); PyNone; PyUnicode (bytes_of_string "abc"); PyDelta (-1) 0 1;
   PyDateTime 2024 2 29 1 2 3 4].

Lemma execute_parameters_exact_witness :
  ∃ self' ps bs vs,
    mariadb_check_execute_parameters true true (demo_cursor (PyTuple demo_objs) 6 false)
      (PyTuple demo_objs) = Ok self' ∧
    params self' = Some ps ∧
    mariadb_param_update demo_is_num demo_str demo_double self' ps 0 = Ok (bs, vs, false) ∧
    ∀ i o, demo_objs !! i = Some o ->
      ∃ b v s, bs !! i = Some b ∧ vs !! i = Some v ∧ sent b v = Some s ∧ sends o s.
Proof.
  apply (execute_parameters_exact demo_is_num demo_str demo_double
           (demo_cursor (PyTuple demo_objs) 6 false) demo_objs demo_num_types demo_python_ok);
    [done|done|done| |].
  - intros i o Hi. unfold get_column. simpl. rewrite (proj2 (Z.leb_le 0 _)) by lia.
    rewrite Nat2Z.id, Hi. done.
  - repeat constructor; unfold loadable, delta_ok, LONG_MIN, ULLONG_MAX; lia.
Defined.

Definition demo_rows (zs : list Z) : param_cursor :=
  set_array_size (Z.of_nat (length zs)) (demo_cursor (PyList ((λ z, PyTuple [PyLong z]) <$> zs)) 1 false).

Lemma demo_rows_column : bulk_column (demo_rows [-5; 300]) 0 (PyLong <$> [-5; 300]).
Proof.
  split; [done|]. split; [done|]. intros k o Hk.
  destruct k as [|[|k]]; simplify_eq/=; (eexists; split; [reflexivity|reflexivity]).
Qed.

Lemma bulk_integers_exact_witness :
  ∃ b, mariadb_get_parameter_info (demo_rows [-5; 300]) bind_zero 0 = Ok b ∧
    ∀ k z b0 w, [-5; 300] !! k = Some z ->
      buffer_type b0 = buffer_type b -> b_unsigned b0 = b_unsigned b ->
      ∃ v b1 v1,
        mariadb_get_parameter (demo_rows [-5; 300]) true (Z.of_nat k) 0 w = Ok v ∧
        update_column demo_is_num demo_str demo_double b0 v = Some (inl (b1, v1, false)) ∧
        sent b1 v1 = Some (SInt z) ∧
        buffer_type b1 = buffer_type b ∧ b_unsigned b1 = b_unsigned b.
Proof.
  apply (bulk_integers_exact demo_is_num demo_str demo_double (demo_rows [-5; 300]) 0 [-5; 300]
           demo_num_types demo_rows_column).
  left. repeat constructor; unfold LONG_MIN, LONG_MAX; lia.
Defined.

Lemma demo_minus_one_column : bulk_column (demo_rows [-1]) 0 (PyLong <$> [-1]).
Proof.
  split; [done|]. split; [done|]. intros k o Hk.
  destruct k as [|k]; simplify_eq/=; (eexists; split; [reflexivity|reflexivity]).
Qed.

Lemma bulk_minus_one_witness :
  ∃ b n, mariadb_get_parameter_info (demo_rows [-1]) bind_zero 0 = Ok b ∧
    b_unsigned b = true ∧ type_width (buffer_type b) = Some n ∧
    ∀ k z w, [-1] !! k = Some z -> z < 0 ->
      ∃ v b1 v1, mariadb_get_parameter (demo_rows [-1]) true (Z.of_nat k) 0 w = Ok v ∧
        update_column demo_is_num demo_str demo_double b v = Some (inl (b1, v1, false)) ∧
        sent b1 v1 = Some (SInt (z mod 2 ^ (8 * Z.of_nat n))).
Proof.
  apply (bulk_minus_one demo_is_num demo_str demo_double (demo_rows [-1]) 0 [-1] demo_num_types
           demo_minus_one_column).
  - repeat constructor; unfold LONG_MIN, LONG_MAX; lia.
  - apply (bool_decide_unpack _). vm_compute. exact I.
Defined.

Definition demo_checked : param_cursor :=
  match mariadb_check_bulk_parameters true true
          (demo_cursor (PyList [PyTuple [PyLong 7; PyNone]]) 2 false) (PyList [PyTuple [PyLong 7; PyNone]]) with
  | Ok self' => self'
  | _ => demo_cursor PyNone 0 false
  end.

Lemma bulk_check_safe_witness :
  ∃ row o, get_row demo_checked true 0 1 = Ok row ∧ get_column demo_checked row 0 1 = Ok o.
Proof.
  apply (bulk_check_safe true true (demo_cursor (PyList [PyTuple [PyLong 7; PyNone]]) 2 false));
    [discriminate|reflexivity|reflexivity|reflexivity|cbn; lia|cbn; lia].
Defined.
