(* ===== verification/Client.v ===== *)
(** * The client library and the interpreter, as the connector sees them

    [mariadb_connection.c] and [mariadb_cursor.c] work through MariaDB
    Connector/C and the C API of the interpreter.  The library is not part of
    the repository: it is a parameter, a function [lib_call] that answers every
    call from a state of its own ([lib_state]), in any way it likes.  What the
    connector has to get right is on its side of the calls: which handles are
    alive, whether the interpreter lock is held, which exception is set.  Those
    are explicit here, and a violation is a value, [Stuck]. *)

From stdpp Require Import gmap.
From S2P Require Import Prelude Parser Values DateTime Wire Fetch Exceptions Params.

(** ** Calls of the library

    One constructor per function the two files call, indexed by the type of its
    answer.  A handle is a number; return codes are [Z], zero for success;
    functions that return a new handle answer whether they succeeded.
    [mysql_diag] and [mysql_stmt_diag] stand for the error number, message and
    SQL state of a handle. *)

Inductive conn_option :=
  | MYSQL_SET_CHARSET_NAME | MYSQL_OPT_LOCAL_INFILE | MYSQL_OPT_COMPRESS | MYSQL_INIT_COMMAND
  | MYSQL_PLUGIN_DIR | MYSQL_READ_DEFAULT_FILE | MYSQL_READ_DEFAULT_GROUP
  | MYSQL_OPT_CONNECT_TIMEOUT | MYSQL_OPT_READ_TIMEOUT | MYSQL_OPT_WRITE_TIMEOUT
  | MYSQL_OPT_SSL_CRL | MYSQL_OPT_SSL_CRLPATH | MYSQL_OPT_SSL_VERIFY_SERVER_CERT
  | MARIADB_OPT_TLS_VERSION | MARIADB_OPT_SSL_FP | MARIADB_OPT_SSL_FP_LIST
  | MARIADB_OPT_STATUS_CALLBACK.

Inductive stmt_attr :=
  | STMT_ATTR_ARRAY_SIZE | STMT_ATTR_CURSOR_TYPE | STMT_ATTR_PREBIND_PARAMS
  | STMT_ATTR_CB_USER_DATA | STMT_ATTR_CB_PARAM | STMT_ATTR_CB_RESULT.

(** What [mariadb_get_infov] stores: a string, a number, or the certificate of
    the peer. *)
Record x509_info := mkX509 {
  x_version : Z;
  x_subject : list Z;
  x_issuer : list Z;
  x_fingerprint : list Z;
  x_not_before : Z * Z * Z * Z * Z * Z;
  x_not_after : Z * Z * Z * Z * Z * Z;
}.

(** The two times are [tm_year], [tm_mon], [tm_mday], [tm_hour], [tm_min] and
    [tm_sec]. *)
Inductive info_value :=
  | InfoString (s : option (list Z))
  | InfoNumber (n : Z)
  | InfoCert (info : option x509_info).

(** The rows of [mysql_fetch_row] are the columns as text, [None] for NULL.
    [mysql_stmt_fetch] answers its return code and the calls of
    [field_fetch_callback] it makes: column and row pointer.  The function
    behind [db_execute_generate_request] answers whether it gave a buffer, and
    the row numbers for which it called [mariadb_param_update]. *)
Inductive libop : Type -> Type :=
  | mysql_init : libop bool
  | mysql_options (m : nat) (o : conn_option) : libop Z
  | mysql_ssl_set (m : nat) : libop ()
  | mysql_real_connect (m : nat) : libop ()
  | mysql_diag (m : nat) : libop diagnostics
  | mysql_get_ssl_cipher (m : nat) : libop bool
  | mariadb_get_infov (m : option nat) (what : Z) : libop (option info_value)
  | mysql_close (m : nat) : libop ()
  | mysql_send_query (m : nat) (q : list Z) : libop Z
  | mysql_ping (m : nat) : libop Z
  | mysql_change_user (m : nat) : libop Z
  | mysql_get_option_reconnect (m : nat) : libop bool
  | mysql_optionsv_reconnect (m : nat) (v : bool) : libop ()
  | mariadb_reconnect (m : nat) : libop Z
  | mysql_reset_connection (m : nat) : libop Z
  | mysql_thread_id (m : nat) : libop Z
  | mysql_warning_count (m : nat) : libop Z
  | mysql_real_escape_string (m : nat) (s : list Z) : libop (list Z)
  | mysql_dump_debug_info (m : nat) : libop Z
  | db_read_query_result (m : nat) : libop Z
  | mysql_get_socket (m : nat) : libop Z
  | mysql_get_server_version (m : nat) : libop Z
  | mysql_field_count (m : nat) : libop Z
  | mysql_affected_rows (m : nat) : libop Z
  | mysql_insert_id (m : nat) : libop Z
  | mysql_next_result (m : nat) : libop Z
  | mysql_use_result (m : nat) : libop bool
  | mysql_store_result (m : nat) : libop bool
  | mysql_mbmaxlen (m : nat) : libop Z
  | mysql_free_result (r : nat) : libop ()
  | mysql_fetch_row (r : option nat) : libop (option (list (option (list Z))))
  | mysql_fetch_fields (r : nat) : libop (list MYSQL_FIELD)
  | mysql_num_rows (r : option nat) : libop Z
  | mysql_data_seek (r : nat) (pos : Z) : libop ()
  | mysql_stmt_init (m : nat) : libop bool
  | mysql_stmt_close (s : nat) : libop ()
  | mysql_stmt_reset (s : nat) : libop ()
  | mysql_stmt_attr_set (s : nat) (a : stmt_attr) (v : Z) : libop ()
  | mysql_stmt_field_count (s : nat) : libop Z
  | mysql_stmt_free_result (s : nat) : libop ()
  | mysql_stmt_next_result (s : nat) : libop Z
  | mysql_stmt_store_result (s : nat) : libop Z
  | mariadb_stmt_fetch_fields (s : nat) : libop (list MYSQL_FIELD)
  | mysql_stmt_bind_param (s : nat) (bs : list MYSQL_BIND) : libop ()
  | db_execute_generate_request (s : nat) : libop (bool * list Z)
  | mysql_stmt_prepare (s : nat) (q : list Z) : libop Z
  | mysql_stmt_execute (s : nat) : libop Z
  | mariadb_stmt_execute_direct (s : nat) (q : list Z) : libop Z
  | mysql_stmt_fetch (s : nat) : libop (Z * list (nat * option (list Z)))
  | mysql_stmt_data_seek (s : nat) (pos : Z) : libop ()
  | mysql_stmt_num_rows (s : nat) : libop Z
  | mysql_stmt_affected_rows (s : nat) : libop Z
  | mysql_stmt_insert_id (s : nat) : libop Z
  | mysql_stmt_warning_count (s : nat) : libop Z
  | mysql_stmt_diag (s : nat) : libop diagnostics.

(** ** Handles *)

(** What a handle is, and whether a result set is stored on the client: an
    unbuffered one is read through its connection and dies with it. *)
Inductive hkind := KMysql | KStmt | KRes (buffered : bool).

#[global] Instance hkind_eq_dec : EqDecision hkind.
Proof. solve_decision. Defined.

(** The handles a call needs alive. *)
Definition handles_of {R : Type} (op : libop R) : list nat :=
  match op with
  | mysql_init => []
  | mariadb_get_infov m _ => option_list m
  | mysql_fetch_row r | mysql_num_rows r => option_list r
  | mysql_options m _ | mysql_ssl_set m | mysql_real_connect m | mysql_diag m
  | mysql_get_ssl_cipher m | mysql_close m | mysql_send_query m _ | mysql_ping m
  | mysql_change_user m | mysql_get_option_reconnect m | mysql_optionsv_reconnect m _
  | mariadb_reconnect m | mysql_reset_connection m | mysql_thread_id m | mysql_warning_count m
  | mysql_real_escape_string m _ | mysql_dump_debug_info m | db_read_query_result m
  | mysql_get_socket m | mysql_get_server_version m | mysql_field_count m | mysql_affected_rows m
  | mysql_insert_id m | mysql_next_result m | mysql_use_result m | mysql_store_result m
  | mysql_mbmaxlen m | mysql_stmt_init m => [m]
  | mysql_free_result r | mysql_fetch_fields r | mysql_data_seek r _ => [r]
  | mysql_stmt_close s | mysql_stmt_reset s | mysql_stmt_attr_set s _ _ | mysql_stmt_field_count s
  | mysql_stmt_free_result s | mysql_stmt_next_result s | mysql_stmt_store_result s
  | mariadb_stmt_fetch_fields s | mysql_stmt_bind_param s _ | db_execute_generate_request s
  | mysql_stmt_prepare s _ | mysql_stmt_execute s | mariadb_stmt_execute_direct s _
  | mysql_stmt_fetch s | mysql_stmt_data_seek s _ | mysql_stmt_num_rows s
  | mysql_stmt_affected_rows s | mysql_stmt_insert_id s | mysql_stmt_warning_count s
  | mysql_stmt_diag s => [s]
  end.

(** The handles alive behind a call: [mysql_free_result] and
    [mysql_stmt_close] end theirs, [mysql_close] ends the connection's and the
    result sets read through it. *)
Definition after_call {R : Type} (op : libop R) (live : gmap nat hkind) : gmap nat hkind :=
  match op with
  | mysql_close m => filter (λ kv, kv.2 ≠ KRes false) (delete m live)
  | mysql_free_result r => delete r live
  | mysql_stmt_close s => delete s live
  | _ => live
  end.

(** ** The objects *)

(** [MrdbConnection], the fields that are used.  [thread_state] says whether
    the pointer is set, that is whether the lock was given up through this
    object. *)
Record MrdbConnection := mkConn {
  n_thread_state : bool;
  n_mysql : option nat;
  n_host : option (list Z);
  n_closed : bool;
  n_status_callback : bool;
  n_converter : option (Z -> option callable);
  n_tls_in_use : bool;
}.

Definition set_n_thread_state (v : bool) (c : MrdbConnection) : MrdbConnection :=
  mkConn v (n_mysql c) (n_host c) (n_closed c) (n_status_callback c) (n_converter c) (n_tls_in_use c).
Definition set_n_mysql (v : option nat) (c : MrdbConnection) : MrdbConnection :=
  mkConn (n_thread_state c) v (n_host c) (n_closed c) (n_status_callback c) (n_converter c) (n_tls_in_use c).
Definition set_n_host (v : option (list Z)) (c : MrdbConnection) : MrdbConnection :=
  mkConn (n_thread_state c) (n_mysql c) v (n_closed c) (n_status_callback c) (n_converter c) (n_tls_in_use c).
Definition set_n_closed (v : bool) (c : MrdbConnection) : MrdbConnection :=
  mkConn (n_thread_state c) (n_mysql c) (n_host c) v (n_status_callback c) (n_converter c) (n_tls_in_use c).
Definition set_n_status_callback (v : bool) (c : MrdbConnection) : MrdbConnection :=
  mkConn (n_thread_state c) (n_mysql c) (n_host c) (n_closed c) v (n_converter c) (n_tls_in_use c).
Definition set_n_converter (v : option (Z -> option callable)) (c : MrdbConnection) : MrdbConnection :=
  mkConn (n_thread_state c) (n_mysql c) (n_host c) (n_closed c) (n_status_callback c) v (n_tls_in_use c).
Definition set_n_tls_in_use (v : bool) (c : MrdbConnection) : MrdbConnection :=
  mkConn (n_thread_state c) (n_mysql c) (n_host c) (n_closed c) (n_status_callback c) (n_converter c) v.

(** [MrdbParseInfo]; [statement] is the block without its terminator. *)
Record MrdbParseInfo := mkParseInfo {
  p_statement : option (list Z);
  p_paramstyle : enum_paramstyle;
  p_command : enum_binary_command;
  p_paramcount : Z;
  p_is_text : bool;
  p_paramlist : list Z;
  p_keys : list (list Z);
}.

Definition set_p_statement (v : option (list Z)) (c : MrdbParseInfo) : MrdbParseInfo :=
  mkParseInfo v (p_paramstyle c) (p_command c) (p_paramcount c) (p_is_text c) (p_paramlist c) (p_keys c).
Definition set_p_paramstyle (v : enum_paramstyle) (c : MrdbParseInfo) : MrdbParseInfo :=
  mkParseInfo (p_statement c) v (p_command c) (p_paramcount c) (p_is_text c) (p_paramlist c) (p_keys c).
Definition set_p_command (v : enum_binary_command) (c : MrdbParseInfo) : MrdbParseInfo :=
  mkParseInfo (p_statement c) (p_paramstyle c) v (p_paramcount c) (p_is_text c) (p_paramlist c) (p_keys c).
Definition set_p_paramcount (v : Z) (c : MrdbParseInfo) : MrdbParseInfo :=
  mkParseInfo (p_statement c) (p_paramstyle c) (p_command c) v (p_is_text c) (p_paramlist c) (p_keys c).
Definition set_p_is_text (v : bool) (c : MrdbParseInfo) : MrdbParseInfo :=
  mkParseInfo (p_statement c) (p_paramstyle c) (p_command c) (p_paramcount c) v (p_paramlist c) (p_keys c).
Definition set_p_paramlist (v : list Z) (c : MrdbParseInfo) : MrdbParseInfo :=
  mkParseInfo (p_statement c) (p_paramstyle c) (p_command c) (p_paramcount c) (p_is_text c) v (p_keys c).
Definition set_p_keys (v : list (list Z)) (c : MrdbParseInfo) : MrdbParseInfo :=
  mkParseInfo (p_statement c) (p_paramstyle c) (p_command c) (p_paramcount c) (p_is_text c) (p_paramlist c) v.

(** [memset(parseinfo, 0, sizeof(MrdbParseInfo))]. *)
Definition parseinfo_zero : MrdbParseInfo := mkParseInfo None NONE SQL_NONE 0 false [] [].

Inductive enum_result_format := RESULT_TUPLE | RESULT_NAMED_TUPLE | RESULT_DICTIONARY.

(** [MrdbCursor].  [fields] is a pointer into the memory of a result set or a
    statement: the handle, and the array it points to.  [sequence_fields] says
    whether the array for named tuples is allocated; [sequence_type] is the
    number of items of the type made for them, which is never taken back. *)
Record MrdbCursor := mkMrdbCursor {
  c_stmt : option nat;
  c_result : option nat;
  c_data : option pyobj;
  c_array_size : Z;
  c_row_array_size : Z;
  c_value : option (list MrdbParamValue);
  c_params : option (list MYSQL_BIND);
  c_fields : option (nat * list MYSQL_FIELD);
  c_values : option (list (option pyobj));
  c_sequence_fields : bool;
  c_parseinfo : MrdbParseInfo;
  c_prefetch_rows : Z;
  c_cursor_type : Z;
  c_affected_rows : Z;
  c_field_count : Z;
  c_row_count : Z;
  c_lastrow_id : Z;
  c_row_number : Z;
  c_result_format : enum_result_format;
  c_is_prepared : bool;
  c_is_buffered : bool;
  c_fetched : bool;
  c_closed : bool;
  c_reprepare : bool;
  c_sequence_type : option nat;
}.

Definition set_c_stmt (v : option nat) (c : MrdbCursor) : MrdbCursor :=
  mkMrdbCursor v (c_result c) (c_data c) (c_array_size c) (c_row_array_size c) (c_value c) (c_params c) (c_fields c) (c_values c) (c_sequence_fields c) (c_parseinfo c) (c_prefetch_rows c) (c_cursor_type c) (c_affected_rows c) (c_field_count c) (c_row_count c) (c_lastrow_id c) (c_row_number c) (c_result_format c) (c_is_prepared c) (c_is_buffered c) (c_fetched c) (c_closed c) (c_reprepare c) (c_sequence_type c).
Definition set_c_result (v : option nat) (c : MrdbCursor) : MrdbCursor :=
  mkMrdbCursor (c_stmt c) v (c_data c) (c_array_size c) (c_row_array_size c) (c_value c) (c_params c) (c_fields c) (c_values c) (c_sequence_fields c) (c_parseinfo c) (c_prefetch_rows c) (c_cursor_type c) (c_affected_rows c) (c_field_count c) (c_row_count c) (c_lastrow_id c) (c_row_number c) (c_result_format c) (c_is_prepared c) (c_is_buffered c) (c_fetched c) (c_closed c) (c_reprepare c) (c_sequence_type c).
Definition set_c_data (v : option pyobj) (c : MrdbCursor) : MrdbCursor :=
  mkMrdbCursor (c_stmt c) (c_result c) v (c_array_size c) (c_row_array_size c) (c_value c) (c_params c) (c_fields c) (c_values c) (c_sequence_fields c) (c_parseinfo c) (c_prefetch_rows c) (c_cursor_type c) (c_affected_rows c) (c_field_count c) (c_row_count c) (c_lastrow_id c) (c_row_number c) (c_result_format c) (c_is_prepared c) (c_is_buffered c) (c_fetched c) (c_closed c) (c_reprepare c) (c_sequence_type c).
Definition set_c_array_size (v : Z) (c : MrdbCursor) : MrdbCursor :=
  mkMrdbCursor (c_stmt c) (c_result c) (c_data c) v (c_row_array_size c) (c_value c) (c_params c) (c_fields c) (c_values c) (c_sequence_fields c) (c_parseinfo c) (c_prefetch_rows c) (c_cursor_type c) (c_affected_rows c) (c_field_count c) (c_row_count c) (c_lastrow_id c) (c_row_number c) (c_result_format c) (c_is_prepared c) (c_is_buffered c) (c_fetched c) (c_closed c) (c_reprepare c) (c_sequence_type c).
Definition set_c_row_array_size (v : Z) (c : MrdbCursor) : MrdbCursor :=
  mkMrdbCursor (c_stmt c) (c_result c) (c_data c) (c_array_size c) v (c_value c) (c_params c) (c_fields c) (c_values c) (c_sequence_fields c) (c_parseinfo c) (c_prefetch_rows c) (c_cursor_type c) (c_affected_rows c) (c_field_count c) (c_row_count c) (c_lastrow_id c) (c_row_number c) (c_result_format c) (c_is_prepared c) (c_is_buffered c) (c_fetched c) (c_closed c) (c_reprepare c) (c_sequence_type c).
Definition set_c_value (v : option (list MrdbParamValue)) (c : MrdbCursor) : MrdbCursor :=
  mkMrdbCursor (c_stmt c) (c_result c) (c_data c) (c_array_size c) (c_row_array_size c) v (c_params c) (c_fields c) (c_values c) (c_sequence_fields c) (c_parseinfo c) (c_prefetch_rows c) (c_cursor_type c) (c_affected_rows c) (c_field_count c) (c_row_count c) (c_lastrow_id c) (c_row_number c) (c_result_format c) (c_is_prepared c) (c_is_buffered c) (c_fetched c) (c_closed c) (c_reprepare c) (c_sequence_type c).
Definition set_c_params (v : option (list MYSQL_BIND)) (c : MrdbCursor) : MrdbCursor :=
  mkMrdbCursor (c_stmt c) (c_result c) (c_data c) (c_array_size c) (c_row_array_size c) (c_value c) v (c_fields c) (c_values c) (c_sequence_fields c) (c_parseinfo c) (c_prefetch_rows c) (c_cursor_type c) (c_affected_rows c) (c_field_count c) (c_row_count c) (c_lastrow_id c) (c_row_number c) (c_result_format c) (c_is_prepared c) (c_is_buffered c) (c_fetched c) (c_closed c) (c_reprepare c) (c_sequence_type c).
Definition set_c_fields (v : option (nat * list MYSQL_FIELD)) (c : MrdbCursor) : MrdbCursor :=
  mkMrdbCursor (c_stmt c) (c_result c) (c_data c) (c_array_size c) (c_row_array_size c) (c_value c) (c_params c) v (c_values c) (c_sequence_fields c) (c_parseinfo c) (c_prefetch_rows c) (c_cursor_type c) (c_affected_rows c) (c_field_count c) (c_row_count c) (c_lastrow_id c) (c_row_number c) (c_result_format c) (c_is_prepared c) (c_is_buffered c) (c_fetched c) (c_closed c) (c_reprepare c) (c_sequence_type c).
Definition set_c_values (v : option (list (option pyobj))) (c : MrdbCursor) : MrdbCursor :=
  mkMrdbCursor (c_stmt c) (c_result c) (c_data c) (c_array_size c) (c_row_array_size c) (c_value c) (c_params c) (c_fields c) v (c_sequence_fields c) (c_parseinfo c) (c_prefetch_rows c) (c_cursor_type c) (c_affected_rows c) (c_field_count c) (c_row_count c) (c_lastrow_id c) (c_row_number c) (c_result_format c) (c_is_prepared c) (c_is_buffered c) (c_fetched c) (c_closed c) (c_reprepare c) (c_sequence_type c).
Definition set_c_sequence_fields (v : bool) (c : MrdbCursor) : MrdbCursor :=
  mkMrdbCursor (c_stmt c) (c_result c) (c_data c) (c_array_size c) (c_row_array_size c) (c_value c) (c_params c) (c_fields c) (c_values c) v (c_parseinfo c) (c_prefetch_rows c) (c_cursor_type c) (c_affected_rows c) (c_field_count c) (c_row_count c) (c_lastrow_id c) (c_row_number c) (c_result_format c) (c_is_prepared c) (c_is_buffered c) (c_fetched c) (c_closed c) (c_reprepare c) (c_sequence_type c).
Definition set_c_parseinfo (v : MrdbParseInfo) (c : MrdbCursor) : MrdbCursor :=
  mkMrdbCursor (c_stmt c) (c_result c) (c_data c) (c_array_size c) (c_row_array_size c) (c_value c) (c_params c) (c_fields c) (c_values c) (c_sequence_fields c) v (c_prefetch_rows c) (c_cursor_type c) (c_affected_rows c) (c_field_count c) (c_row_count c) (c_lastrow_id c) (c_row_number c) (c_result_format c) (c_is_prepared c) (c_is_buffered c) (c_fetched c) (c_closed c) (c_reprepare c) (c_sequence_type c).
Definition set_c_prefetch_rows (v : Z) (c : MrdbCursor) : MrdbCursor :=
  mkMrdbCursor (c_stmt c) (c_result c) (c_data c) (c_array_size c) (c_row_array_size c) (c_value c) (c_params c) (c_fields c) (c_values c) (c_sequence_fields c) (c_parseinfo c) v (c_cursor_type c) (c_affected_rows c) (c_field_count c) (c_row_count c) (c_lastrow_id c) (c_row_number c) (c_result_format c) (c_is_prepared c) (c_is_buffered c) (c_fetched c) (c_closed c) (c_reprepare c) (c_sequence_type c).
Definition set_c_cursor_type (v : Z) (c : MrdbCursor) : MrdbCursor :=
  mkMrdbCursor (c_stmt c) (c_result c) (c_data c) (c_array_size c) (c_row_array_size c) (c_value c) (c_params c) (c_fields c) (c_values c) (c_sequence_fields c) (c_parseinfo c) (c_prefetch_rows c) v (c_affected_rows c) (c_field_count c) (c_row_count c) (c_lastrow_id c) (c_row_number c) (c_result_format c) (c_is_prepared c) (c_is_buffered c) (c_fetched c) (c_closed c) (c_reprepare c) (c_sequence_type c).
Definition set_c_affected_rows (v : Z) (c : MrdbCursor) : MrdbCursor :=
  mkMrdbCursor (c_stmt c) (c_result c) (c_data c) (c_array_size c) (c_row_array_size c) (c_value c) (c_params c) (c_fields c) (c_values c) (c_sequence_fields c) (c_parseinfo c) (c_prefetch_rows c) (c_cursor_type c) v (c_field_count c) (c_row_count c) (c_lastrow_id c) (c_row_number c) (c_result_format c) (c_is_prepared c) (c_is_buffered c) (c_fetched c) (c_closed c) (c_reprepare c) (c_sequence_type c).
Definition set_c_field_count (v : Z) (c : MrdbCursor) : MrdbCursor :=
  mkMrdbCursor (c_stmt c) (c_result c) (c_data c) (c_array_size c) (c_row_array_size c) (c_value c) (c_params c) (c_fields c) (c_values c) (c_sequence_fields c) (c_parseinfo c) (c_prefetch_rows c) (c_cursor_type c) (c_affected_rows c) v (c_row_count c) (c_lastrow_id c) (c_row_number c) (c_result_format c) (c_is_prepared c) (c_is_buffered c) (c_fetched c) (c_closed c) (c_reprepare c) (c_sequence_type c).
Definition set_c_row_count (v : Z) (c : MrdbCursor) : MrdbCursor :=
  mkMrdbCursor (c_stmt c) (c_result c) (c_data c) (c_array_size c) (c_row_array_size c) (c_value c) (c_params c) (c_fields c) (c_values c) (c_sequence_fields c) (c_parseinfo c) (c_prefetch_rows c) (c_cursor_type c) (c_affected_rows c) (c_field_count c) v (c_lastrow_id c) (c_row_number c) (c_result_format c) (c_is_prepared c) (c_is_buffered c) (c_fetched c) (c_closed c) (c_reprepare c) (c_sequence_type c).
Definition set_c_lastrow_id (v : Z) (c : MrdbCursor) : MrdbCursor :=
  mkMrdbCursor (c_stmt c) (c_result c) (c_data c) (c_array_size c) (c_row_array_size c) (c_value c) (c_params c) (c_fields c) (c_values c) (c_sequence_fields c) (c_parseinfo c) (c_prefetch_rows c) (c_cursor_type c) (c_affected_rows c) (c_field_count c) (c_row_count c) v (c_row_number c) (c_result_format c) (c_is_prepared c) (c_is_buffered c) (c_fetched c) (c_closed c) (c_reprepare c) (c_sequence_type c).
Definition set_c_row_number (v : Z) (c : MrdbCursor) : MrdbCursor :=
  mkMrdbCursor (c_stmt c) (c_result c) (c_data c) (c_array_size c) (c_row_array_size c) (c_value c) (c_params c) (c_fields c) (c_values c) (c_sequence_fields c) (c_parseinfo c) (c_prefetch_rows c) (c_cursor_type c) (c_affected_rows c) (c_field_count c) (c_row_count c) (c_lastrow_id c) v (c_result_format c) (c_is_prepared c) (c_is_buffered c) (c_fetched c) (c_closed c) (c_reprepare c) (c_sequence_type c).
Definition set_c_result_format (v : enum_result_format) (c : MrdbCursor) : MrdbCursor :=
  mkMrdbCursor (c_stmt c) (c_result c) (c_data c) (c_array_size c) (c_row_array_size c) (c_value c) (c_params c) (c_fields c) (c_values c) (c_sequence_fields c) (c_parseinfo c) (c_prefetch_rows c) (c_cursor_type c) (c_affected_rows c) (c_field_count c) (c_row_count c) (c_lastrow_id c) (c_row_number c) v (c_is_prepared c) (c_is_buffered c) (c_fetched c) (c_closed c) (c_reprepare c) (c_sequence_type c).
Definition set_c_is_prepared (v : bool) (c : MrdbCursor) : MrdbCursor :=
  mkMrdbCursor (c_stmt c) (c_result c) (c_data c) (c_array_size c) (c_row_array_size c) (c_value c) (c_params c) (c_fields c) (c_values c) (c_sequence_fields c) (c_parseinfo c) (c_prefetch_rows c) (c_cursor_type c) (c_affected_rows c) (c_field_count c) (c_row_count c) (c_lastrow_id c) (c_row_number c) (c_result_format c) v (c_is_buffered c) (c_fetched c) (c_closed c) (c_reprepare c) (c_sequence_type c).
Definition set_c_is_buffered (v : bool) (c : MrdbCursor) : MrdbCursor :=
  mkMrdbCursor (c_stmt c) (c_result c) (c_data c) (c_array_size c) (c_row_array_size c) (c_value c) (c_params c) (c_fields c) (c_values c) (c_sequence_fields c) (c_parseinfo c) (c_prefetch_rows c) (c_cursor_type c) (c_affected_rows c) (c_field_count c) (c_row_count c) (c_lastrow_id c) (c_row_number c) (c_result_format c) (c_is_prepared c) v (c_fetched c) (c_closed c) (c_reprepare c) (c_sequence_type c).
Definition set_c_fetched (v : bool) (c : MrdbCursor) : MrdbCursor :=
  mkMrdbCursor (c_stmt c) (c_result c) (c_data c) (c_array_size c) (c_row_array_size c) (c_value c) (c_params c) (c_fields c) (c_values c) (c_sequence_fields c) (c_parseinfo c) (c_prefetch_rows c) (c_cursor_type c) (c_affected_rows c) (c_field_count c) (c_row_count c) (c_lastrow_id c) (c_row_number c) (c_result_format c) (c_is_prepared c) (c_is_buffered c) v (c_closed c) (c_reprepare c) (c_sequence_type c).
Definition set_c_closed (v : bool) (c : MrdbCursor) : MrdbCursor :=
  mkMrdbCursor (c_stmt c) (c_result c) (c_data c) (c_array_size c) (c_row_array_size c) (c_value c) (c_params c) (c_fields c) (c_values c) (c_sequence_fields c) (c_parseinfo c) (c_prefetch_rows c) (c_cursor_type c) (c_affected_rows c) (c_field_count c) (c_row_count c) (c_lastrow_id c) (c_row_number c) (c_result_format c) (c_is_prepared c) (c_is_buffered c) (c_fetched c) v (c_reprepare c) (c_sequence_type c).
Definition set_c_reprepare (v : bool) (c : MrdbCursor) : MrdbCursor :=
  mkMrdbCursor (c_stmt c) (c_result c) (c_data c) (c_array_size c) (c_row_array_size c) (c_value c) (c_params c) (c_fields c) (c_values c) (c_sequence_fields c) (c_parseinfo c) (c_prefetch_rows c) (c_cursor_type c) (c_affected_rows c) (c_field_count c) (c_row_count c) (c_lastrow_id c) (c_row_number c) (c_result_format c) (c_is_prepared c) (c_is_buffered c) (c_fetched c) (c_closed c) v (c_sequence_type c).
Definition set_c_sequence_type (v : option nat) (c : MrdbCursor) : MrdbCursor :=
  mkMrdbCursor (c_stmt c) (c_result c) (c_data c) (c_array_size c) (c_row_array_size c) (c_value c) (c_params c) (c_fields c) (c_values c) (c_sequence_fields c) (c_parseinfo c) (c_prefetch_rows c) (c_cursor_type c) (c_affected_rows c) (c_field_count c) (c_row_count c) (c_lastrow_id c) (c_row_number c) (c_result_format c) (c_is_prepared c) (c_is_buffered c) (c_fetched c) (c_closed c) (c_reprepare c) v.


(** ** The world and computations on it *)

(** An exception set in the interpreter: one of the module's, with the
    attributes [mariadb_throw_exception] sets or without them, or one of the
    interpreter's own. *)
Inductive pyerror :=
  | Mariadb (e : exception)
  | MariadbPlain (e : exn) (msg : string)
  | PyTypeError (msg : string)
  | PyOverflowError
  | PyUnicodeDecodeError
  | PyConversionError.

(** Undefined behaviour, by kind: the interpreter's API used or the lock given
    up without the lock, or the lock taken twice; a dead handle passed to the
    library; column descriptions read when the handle they belong to is dead; a
    null or short array; a loop that does not end. *)
Inductive stuck := GilViolation | InvalidHandle | FreedFields | NullPointer | OutOfFuel.

(** What the library reports to [MrdbConnection_process_status_info]. *)
Inductive status_info :=
  | STATUS_TYPE (server_status : Z)
  | SESSION_TRACK_SCHEMA (v : list Z)
  | SESSION_TRACK_STATE_CHANGE (v : list Z)
  | SESSION_TRACK_SYSTEM_VARIABLES (key v : list Z)
  | SESSION_TRACK_OTHER.

(** [!strncmp(s, t, n)], [n] the length of [s]: the bytes up to the first
    difference or the end of [t]. *)
Definition strncmp_equal (s t : list Z) : bool :=
  bool_decide (before_nul s = take (length s) t).

(** A library: its state, its answers, and the status reports it makes during
    a call.  [pending_results] is the number of result sets that still wait
    behind the current one, [remaining_rows] the number of rows that the
    current one still has. *)
Class Client := {
  lib_state : Type;
  lib_call : ∀ R : Type, libop R -> lib_state -> R * list status_info * lib_state;
  pending_results : lib_state -> nat;
  remaining_rows : lib_state -> nat;
}.
Arguments lib_call {_ R} op l.

(** The documented contract of the functions that move through results:
    [mysql_next_result] and [mysql_stmt_next_result] succeed only by taking a
    waiting result set, [mysql_fetch_row] and [mysql_stmt_fetch] only by taking
    a row. *)
Class ClientLaws (C : Client) : Prop := {
  next_result_takes m l reports l' :
    lib_call (mysql_next_result m) l = (0, reports, l') ->
    (pending_results l' < pending_results l)%nat;
  stmt_next_result_takes s l reports l' :
    lib_call (mysql_stmt_next_result s) l = (0, reports, l') ->
    (pending_results l' < pending_results l)%nat;
  use_result_keeps m l r reports l' :
    lib_call (mysql_use_result m) l = (r, reports, l') ->
    pending_results l' = pending_results l;
  free_result_keeps r l reports l' :
    lib_call (mysql_free_result r) l = ((), reports, l') ->
    pending_results l' = pending_results l;
  stmt_free_result_keeps s l reports l' :
    lib_call (mysql_stmt_free_result s) l = ((), reports, l') ->
    pending_results l' = pending_results l;
  stmt_field_count_keeps s l n reports l' :
    lib_call (mysql_stmt_field_count s) l = (n, reports, l') ->
    pending_results l' = pending_results l;
  fetch_row_takes r l row reports l' :
    lib_call (mysql_fetch_row r) l = (Some row, reports, l') ->
    (remaining_rows l' < remaining_rows l)%nat;
  stmt_fetch_takes s l calls reports l' :
    lib_call (mysql_stmt_fetch s) l = ((0, calls), reports, l') ->
    (remaining_rows l' < remaining_rows l)%nat;
}.

(** The interpreter's and the libraries' conversions that [Fetch] and [Params]
    take as parameters, and the [pack_len] of [mysql_ps_fetch_functions]. *)
Class PyLib := {
  pl_atof : list Z -> Z;
  pl_float_to_double : Z -> Z;
  pl_decimal_new : list Z -> option pyobj;
  pl_utf8_length : list Z -> option Z;
  pl_is_num : enum_field_types -> bool;
  pl_str : pyobj -> list Z;
  pl_as_double : pyobj -> option Z;
  pl_net_field_length : list Z -> option (Z * list Z);
  pl_pack_len : enum_field_types -> Z;
}.

Section World.

Context `{C : Client}.

(** [w_gil]: this thread holds the interpreter lock. *)
Record world := mkWorld {
  w_lib : lib_state;
  w_live : gmap nat hkind;
  w_next : nat;
  w_gil : bool;
  w_conn : MrdbConnection;
  w_cur : MrdbCursor;
  w_err : option pyerror;
}.

Inductive run (A : Type) :=
  | Done (a : A) (w : world)
  | Stuck (s : stuck).
Arguments Done {A} a w.
Arguments Stuck {A} s.

Definition M (A : Type) : Type := world -> run A.

#[global] Instance M_ret : MRet M := λ A a w, Done a w.
#[global] Instance M_bind : MBind M := λ A B f m w,
  match m w with Done a w' => f a w' | Stuck s => Stuck s end.

Definition fail {A : Type} (s : stuck) : M A := λ _, Stuck s.

Definition get_cur : M MrdbCursor := λ w, Done (w_cur w) w.
Definition get_conn : M MrdbConnection := λ w, Done (w_conn w) w.
Definition upd_cur (f : MrdbCursor -> MrdbCursor) : M () := λ w,
  Done () (mkWorld (w_lib w) (w_live w) (w_next w) (w_gil w) (w_conn w) (f (w_cur w)) (w_err w)).
Definition upd_conn (f : MrdbConnection -> MrdbConnection) : M () := λ w,
  Done () (mkWorld (w_lib w) (w_live w) (w_next w) (w_gil w) (f (w_conn w)) (w_cur w) (w_err w)).
Definition set_gil (v : bool) : M () := λ w,
  Done () (mkWorld (w_lib w) (w_live w) (w_next w) v (w_conn w) (w_cur w) (w_err w)).
Definition get_gil : M bool := λ w, Done (w_gil w) w.

(** A pointer that must not be null. *)
Definition nonnull {A : Type} (o : option A) : M A :=
  match o with Some a => mret a | None => fail NullPointer end.

(** ** The interpreter lock *)

(** Any use of the interpreter's C API. *)
Definition py : M () := g ← get_gil; if g : bool then mret () else fail GilViolation.

(** [PyEval_SaveThread] and [PyEval_RestoreThread]: a thread can only give up
    a lock it holds, and would wait for ever for one it already holds. *)
Definition PyEval_SaveThread : M () :=
  g ← get_gil; if g : bool then set_gil false else fail GilViolation.
Definition PyEval_RestoreThread : M () :=
  g ← get_gil; if g : bool then fail GilViolation else set_gil true.

Definition MARIADB_BEGIN_ALLOW_THREADS : M () :=
  PyEval_SaveThread;; upd_conn (set_n_thread_state true).

Definition MARIADB_END_ALLOW_THREADS : M () :=
  c ← get_conn;
  if n_thread_state c then PyEval_RestoreThread;; upd_conn (set_n_thread_state false)
  else mret ().

(** The pair used by callbacks: the saved pointer goes to a local variable. *)
Definition MARIADB_UNBLOCK_THREADS : M bool :=
  c ← get_conn;
  if n_thread_state c
  then PyEval_RestoreThread;; upd_conn (set_n_thread_state false);; mret true
  else mret false.

Definition MARIADB_BLOCK_THREADS (save : bool) : M () :=
  if save then PyEval_SaveThread;; upd_conn (set_n_thread_state true) else mret ().

(** ** Exceptions *)

Definition put_err (e : pyerror) : M () := λ w,
  Done () (mkWorld (w_lib w) (w_live w) (w_next w) (w_gil w) (w_conn w) (w_cur w) (Some e)).
Definition get_err : M (option pyerror) := λ w, Done (w_err w) w.

Definition set_err (e : pyerror) : M () := py;; put_err e.

Definition PyErr_Occurred : M bool := py;; e ← get_err; mret (bool_decide (is_Some e)).

(** The result of [PyLong_AsLongLong] and its like, which set an exception for
    a value that does not fit. *)
Definition c_long (r : Z * bool) : M Z :=
  (if r.2 then set_err PyOverflowError else py);; mret r.1.

(** [mariadb_throw_exception] with a message; the handle is not looked at.  A
    message with arguments is kept as its format. *)
Definition throw_message (e : exn) (msg : string) : M () :=
  match mariadb_throw_exception None (Some e) (Some msg) with
  | Some x => set_err (Mariadb x)
  | None => fail NullPointer
  end.

(** ** Library calls *)

(** [MrdbConnection_process_status_info], which the library calls back, with
    the lock given up or not.  The callable of the application is one use of
    the interpreter.  The length of a character set name is not checked against
    the 128 bytes of the buffer it is copied to. *)
Definition MrdbConnection_process_status_info (info : status_info) : M () :=
  c ← get_conn;
  match info with
  | STATUS_TYPE _ =>
      if n_status_callback c then
        save ← MARIADB_UNBLOCK_THREADS; py;; MARIADB_BLOCK_THREADS save
      else mret ()
  | SESSION_TRACK_SCHEMA _ | SESSION_TRACK_STATE_CHANGE _ =>
      save ← MARIADB_UNBLOCK_THREADS;
      (if n_status_callback c then py else mret ());;
      MARIADB_BLOCK_THREADS save
  | SESSION_TRACK_SYSTEM_VARIABLES key v =>
      save ← MARIADB_UNBLOCK_THREADS;
      (if strncmp_equal key (bytes_of_string "character_set_client")
          && negb (strncmp_equal v (bytes_of_string "utf8mb4"))
       then (if (length v <? 128)%nat
             then throw_message Mariadb_ProgrammingError "Character set '%s' is not supported"
             else fail NullPointer)
       else mret ());;
      (if n_status_callback c then py else mret ());;
      MARIADB_BLOCK_THREADS save
  | SESSION_TRACK_OTHER =>
      save ← MARIADB_UNBLOCK_THREADS; MARIADB_BLOCK_THREADS save
  end.

Fixpoint process_reports (l : list status_info) : M () :=
  match l with
  | [] => mret ()
  | i :: l' => MrdbConnection_process_status_info i;; process_reports l'
  end.

Definition get_lib : M lib_state := λ w, Done (w_lib w) w.
Definition get_live : M (gmap nat hkind) := λ w, Done (w_live w) w.

Definition put_live (live : gmap nat hkind) : M () := λ w,
  Done () (mkWorld (w_lib w) live (w_next w) (w_gil w) (w_conn w) (w_cur w) (w_err w)).

Definition lib_step {R : Type} (op : libop R) : M (R * list status_info) := λ w,
  let '(r, reports, l) := lib_call op (w_lib w) in
  Done (r, reports) (mkWorld l (w_live w) (w_next w) (w_gil w) (w_conn w) (w_cur w) (w_err w)).

(** A call: its handles must be alive; the reports come while it runs. *)
Definition call {R : Type} (op : libop R) : M R :=
  live ← get_live;
  if forallb (λ h, bool_decide (is_Some (live !! h))) (handles_of op) then
    a ← lib_step op;
    put_live (after_call op live);;
    process_reports a.2;;
    mret a.1
  else fail InvalidHandle.

(** The number of a new handle. *)
Definition new_handle (k : hkind) : M nat := λ w,
  Done (w_next w)
    (mkWorld (w_lib w) (<[w_next w := k]> (w_live w)) (S (w_next w)) (w_gil w) (w_conn w) (w_cur w) (w_err w)).

(** A call that gives a new handle, or null. *)
Definition create (op : libop bool) (k : hkind) : M (option nat) :=
  ok ← call op; if ok : bool then h ← new_handle k; mret (Some h) else mret None.

(** [mariadb_throw_exception] without a message: the diagnostics of the
    handle decide. *)
Definition throw_diag (op : libop diagnostics) : M () :=
  d ← call op;
  match mariadb_throw_exception (Some d) None None with
  | Some x => set_err (Mariadb x)
  | None => fail NullPointer
  end.

End World.

Arguments run {C} A.
Arguments Done {C A} a w.
Arguments Stuck {C A} s.
Arguments world C : clear implicits.
Arguments M {C} A.
