(* ===== verification/Connection.v ===== *)
(** * Connections ([src/mariadb/mariadb_connection.c])

    Every function an application or the Python layer can call on a connection
    object, as computations on the world of [Client].  A null return is [None];
    keyword arguments are parsed by the interpreter, [None] when it refuses
    them, which sets a [TypeError] with a message of its own. *)

From stdpp Require Import gmap.
From S2P Require Import Prelude Parser Values DateTime Wire Fetch Exceptions Params Client.

(** ** Connecting *)

(** The arguments of [connect] that the code looks at: for a pointer, whether
    it is set.  [default_plugins] says whether the build defines
    [DEFAULT_PLUGINS_SUBDIR]. *)
Record connect_args := mkConnectArgs {
  a_dsn : bool;
  a_status_callback : bool;
  a_local_infile : Z;
  a_compress : bool;
  a_init_command : bool;
  a_plugin_dir : bool;
  default_plugins : bool;
  a_default_file : bool;
  a_default_group : bool;
  a_connect_timeout : Z;
  a_read_timeout : Z;
  a_write_timeout : Z;
  a_ssl_enforce : bool;
  a_ssl_key : bool;
  a_ssl_ca : bool;
  a_ssl_cert : bool;
  a_ssl_capath : bool;
  a_ssl_cipher : bool;
  a_ssl_crl : bool;
  a_ssl_crlpath : bool;
  a_tls_version : bool;
  a_tls_fp : bool;
  a_tls_fp_list : bool;
}.

Definition when_opt (b : bool) (o : conn_option) : list conn_option := if b then [o] else [].

(** The options set before and behind [mysql_ssl_set], in order. *)
Definition options_before (a : connect_args) : list conn_option :=
  [MYSQL_SET_CHARSET_NAME]
  ++ when_opt (negb (a_local_infile a =? 0xFF)) MYSQL_OPT_LOCAL_INFILE
  ++ when_opt (a_compress a) MYSQL_OPT_COMPRESS
  ++ when_opt (a_init_command a) MYSQL_INIT_COMMAND
  ++ when_opt (a_plugin_dir a || default_plugins a) MYSQL_PLUGIN_DIR
  ++ when_opt (a_default_file a) MYSQL_READ_DEFAULT_FILE
  ++ when_opt (a_default_group a) MYSQL_READ_DEFAULT_GROUP
  ++ when_opt (negb (a_connect_timeout a =? 0)) MYSQL_OPT_CONNECT_TIMEOUT
  ++ when_opt (negb (a_read_timeout a =? 0)) MYSQL_OPT_READ_TIMEOUT
  ++ when_opt (negb (a_write_timeout a =? 0)) MYSQL_OPT_WRITE_TIMEOUT.

Definition options_behind (a : connect_args) : list conn_option :=
  when_opt (a_ssl_crl a) MYSQL_OPT_SSL_CRL
  ++ when_opt (a_ssl_crlpath a) MYSQL_OPT_SSL_CRLPATH
  ++ [MYSQL_OPT_SSL_VERIFY_SERVER_CERT]
  ++ when_opt (a_tls_version a) MARIADB_OPT_TLS_VERSION
  ++ when_opt (a_tls_fp a) MARIADB_OPT_SSL_FP
  ++ when_opt (a_tls_fp_list a) MARIADB_OPT_SSL_FP_LIST.

Definition wants_ssl (a : connect_args) : bool :=
  a_ssl_enforce a || a_ssl_key a || a_ssl_ca a || a_ssl_cert a || a_ssl_capath a
  || a_ssl_cipher a || a_tls_version a || a_tls_fp a || a_tls_fp_list a.

(** ** The numbers of [_get_info] *)

Inductive mariadb_info :=
  | PYMARIADB_CHARSET_ID | PYMARIADB_CHARSET_NAME | PYMARIADB_CLIENT_ERRORS | PYMARIADB_CLIENT_VERSION
  | PYMARIADB_CLIENT_VERSION_ID | PYMARIADB_CONNECTION_ASYNC_TIMEOUT
  | PYMARIADB_CONNECTION_ASYNC_TIMEOUT_MS | PYMARIADB_CONNECTION_MARIADB_CHARSET_INFO
  | PYMARIADB_CONNECTION_ERROR | PYMARIADB_CONNECTION_ERROR_ID | PYMARIADB_CONNECTION_HOST
  | PYMARIADB_CONNECTION_INFO | PYMARIADB_CONNECTION_PORT | PYMARIADB_CONNECTION_PROTOCOL_VERSION_ID
  | PYMARIADB_CONNECTION_PVIO_TYPE | PYMARIADB_CONNECTION_SCHEMA | PYMARIADB_CONNECTION_SERVER_TYPE
  | PYMARIADB_CONNECTION_SERVER_VERSION | PYMARIADB_CONNECTION_SERVER_VERSION_ID
  | PYMARIADB_CONNECTION_SOCKET | PYMARIADB_CONNECTION_SQLSTATE | PYMARIADB_CONNECTION_SSL_CIPHER
  | PYMARIADB_TLS_LIBRARY | PYMARIADB_CONNECTION_TLS_VERSION | PYMARIADB_CONNECTION_TLS_VERSION_ID
  | PYMARIADB_CONNECTION_TYPE | PYMARIADB_CONNECTION_UNIX_SOCKET | PYMARIADB_CONNECTION_USER
  | PYMARIADB_MAX_ALLOWED_PACKET | PYMARIADB_NET_BUFFER_LENGTH | PYMARIADB_CONNECTION_SERVER_STATUS
  | PYMARIADB_CONNECTION_SERVER_CAPABILITIES | PYMARIADB_CONNECTION_EXTENDED_SERVER_CAPABILITIES
  | PYMARIADB_CONNECTION_CLIENT_CAPABILITIES | PYMARIADB_CONNECTION_BYTES_READ
  | PYMARIADB_CONNECTION_BYTES_SENT | PYMARIADB_TLS_PEER_CERT_INFO | PYMARIADB_TLS_VERIFY_STATUS.

(** The number of a constant: its position in the enumeration. *)
Definition info_id (i : mariadb_info) : Z :=
  match i with
  | PYMARIADB_CHARSET_ID => 0 | PYMARIADB_CHARSET_NAME => 1 | PYMARIADB_CLIENT_ERRORS => 2
  | PYMARIADB_CLIENT_VERSION => 3 | PYMARIADB_CLIENT_VERSION_ID => 4
  | PYMARIADB_CONNECTION_ASYNC_TIMEOUT => 5 | PYMARIADB_CONNECTION_ASYNC_TIMEOUT_MS => 6
  | PYMARIADB_CONNECTION_MARIADB_CHARSET_INFO => 7 | PYMARIADB_CONNECTION_ERROR => 8
  | PYMARIADB_CONNECTION_ERROR_ID => 9 | PYMARIADB_CONNECTION_HOST => 10 | PYMARIADB_CONNECTION_INFO => 11
  | PYMARIADB_CONNECTION_PORT => 12 | PYMARIADB_CONNECTION_PROTOCOL_VERSION_ID => 13
  | PYMARIADB_CONNECTION_PVIO_TYPE => 14 | PYMARIADB_CONNECTION_SCHEMA => 15
  | PYMARIADB_CONNECTION_SERVER_TYPE => 16 | PYMARIADB_CONNECTION_SERVER_VERSION => 17
  | PYMARIADB_CONNECTION_SERVER_VERSION_ID => 18 | PYMARIADB_CONNECTION_SOCKET => 19
  | PYMARIADB_CONNECTION_SQLSTATE => 20 | PYMARIADB_CONNECTION_SSL_CIPHER => 21
  | PYMARIADB_TLS_LIBRARY => 22 | PYMARIADB_CONNECTION_TLS_VERSION => 23
  | PYMARIADB_CONNECTION_TLS_VERSION_ID => 24 | PYMARIADB_CONNECTION_TYPE => 25
  | PYMARIADB_CONNECTION_UNIX_SOCKET => 26 | PYMARIADB_CONNECTION_USER => 27
  | PYMARIADB_MAX_ALLOWED_PACKET => 28 | PYMARIADB_NET_BUFFER_LENGTH => 29
  | PYMARIADB_CONNECTION_SERVER_STATUS => 30 | PYMARIADB_CONNECTION_SERVER_CAPABILITIES => 31
  | PYMARIADB_CONNECTION_EXTENDED_SERVER_CAPABILITIES => 32
  | PYMARIADB_CONNECTION_CLIENT_CAPABILITIES => 33 | PYMARIADB_CONNECTION_BYTES_READ => 34
  | PYMARIADB_CONNECTION_BYTES_SENT => 35 | PYMARIADB_TLS_PEER_CERT_INFO => 36
  | PYMARIADB_TLS_VERIFY_STATUS => 37
  end.

Definition INFO_HOST : Z := Eval cbv in info_id PYMARIADB_CONNECTION_HOST.

Section Connection.

Context `{C : Client} `{P : PyLib}.

(** [true] when an option is refused; the rest is not set then. *)
Fixpoint set_options (m : nat) (l : list conn_option) : M bool :=
  match l with
  | [] => mret false
  | o :: l' => rc ← call (mysql_options m o); if rc =? 0 then set_options m l' else mret true
  end.

(** The part of [MrdbConnection_Initialize] that runs without the lock, up to
    the label [end]: [has_error]. *)
Definition connect_unlocked (a : connect_args) (m : nat) : M bool :=
  err ← set_options m (options_before a);
  if err : bool then mret true
  else
    (if wants_ssl a then call (mysql_ssl_set m) else mret ());;
    err ← set_options m (options_behind a);
    if err : bool then mret true
    else
      call (mysql_real_connect m);;
      d ← call (mysql_diag m);
      if negb (d_errno d =? 0) then mret true
      else
        tls ← call (mysql_get_ssl_cipher m);
        (if tls : bool then upd_conn (set_n_tls_in_use true) else mret ());;
        h ← call (mariadb_get_infov (Some m) INFO_HOST);
        (match h with
         | Some (InfoString s) => upd_conn (set_n_host s)
         | _ => mret ()
         end);;
        mret false.

(** The label [end]: the status callback may have set an exception. *)
Definition connect_end (m : nat) (has_error : bool) : M Z :=
  MARIADB_END_ALLOW_THREADS;;
  if has_error then throw_diag (mysql_diag m);; mret (-1)
  else
    e ← PyErr_Occurred;
    mret (if e : bool then -1 else 0).

Definition MrdbConnection_Initialize (args : option connect_args) : M Z :=
  py;;
  match args with
  | None => set_err (PyTypeError "invalid arguments");; mret (-1)
  | Some a =>
      if a_dsn a then
        throw_message Mariadb_ProgrammingError "dsn keyword is not supported";; mret (-1)
      else
        upd_conn (set_n_status_callback (a_status_callback a));;
        h ← create mysql_init KMysql;
        upd_conn (set_n_mysql h);;
        match h with
        | None =>
            throw_message Mariadb_OperationalError "Can't allocate memory for connection";;
            mret (-1)
        | Some m =>
            rc ← call (mysql_options m MARIADB_OPT_STATUS_CALLBACK);
            (if rc =? 0 then mret () else py);;
            MARIADB_BEGIN_ALLOW_THREADS;;
            has_error ← connect_unlocked a m;
            connect_end m has_error
        end
  end.

(** ** Closing *)

(** [mysql_close] with the lock given up, and the pointer reset. *)
Definition close_handle (m : nat) : M () :=
  MARIADB_BEGIN_ALLOW_THREADS;;
  call (mysql_close m);;
  MARIADB_END_ALLOW_THREADS;;
  upd_conn (set_n_mysql None).

Definition MrdbConnection_finalize : M () :=
  c ← get_conn;
  match n_mysql c with Some m => close_handle m | None => mret () end.

(** [MrdbConnection_connect]: an object that cannot be initialised is
    released. *)
Definition MrdbConnection_connect (args : option connect_args) : M bool :=
  rc ← MrdbConnection_Initialize args;
  if rc =? 0 then mret true else py;; MrdbConnection_finalize;; mret false.

(** [MARIADB_CHECK_CONNECTION]. *)
Definition MARIADB_CHECK_CONNECTION {A : Type} (ret : A) (k : nat -> M A) : M A :=
  c ← get_conn;
  match n_mysql c with
  | Some m => k m
  | None => throw_message Mariadb_InterfaceError "Invalid connection or not connected";; mret ret
  end.

Definition return_none : M (option pyobj) := py;; mret (Some PyNone).

Definition return_bool (b : bool) : M (option pyobj) := py;; mret (Some (PyBool b)).

Definition return_long (z : Z) : M (option pyobj) := py;; mret (Some (PyLong z)).

Definition MrdbConnection_close : M (option pyobj) :=
  MARIADB_CHECK_CONNECTION None (λ m,
    close_handle m;;
    upd_conn (set_n_closed true);;
    return_none).

(** ** Commands

    The functions that send a command have one shape: the call without the
    lock, then None, or the exception of the connection's diagnostics. *)

Definition unlocked_command (m : nat) (op : libop Z) : M (option pyobj) :=
  MARIADB_BEGIN_ALLOW_THREADS;;
  rc ← call op;
  MARIADB_END_ALLOW_THREADS;;
  if rc =? 0 then return_none
  else throw_diag (mysql_diag m);; mret None.

(** [strlen] ends the command at its first NUL. *)
Definition MrdbConnection_executecommand (command : pyobj) : M (option pyobj) :=
  MARIADB_CHECK_CONNECTION None (λ m,
    py;;
    match command with
    | PyUnicode s => unlocked_command m (mysql_send_query m (before_nul s))
    | _ => fail NullPointer
    end).

Definition MrdbConnection_ping : M (option pyobj) :=
  MARIADB_CHECK_CONNECTION None (λ m, unlocked_command m (mysql_ping m)).

Definition MrdbConnection_change_user (args : option ()) : M (option pyobj) :=
  MARIADB_CHECK_CONNECTION None (λ m,
    py;;
    match args with
    | None => set_err (PyTypeError "invalid arguments");; mret None
    | Some _ => unlocked_command m (mysql_change_user m)
    end).

Definition MrdbConnection_reset : M (option pyobj) :=
  MARIADB_CHECK_CONNECTION None (λ m, unlocked_command m (mysql_reset_connection m)).

Definition MrdbConnection_dump_debug_info : M (option pyobj) :=
  MARIADB_CHECK_CONNECTION None (λ m, unlocked_command m (mysql_dump_debug_info m)).

(** No check: a null [mysql] is dereferenced. *)
Definition MrdbConnection_readresponse : M (option pyobj) :=
  c ← get_conn;
  MARIADB_BEGIN_ALLOW_THREADS;;
  m ← nonnull (n_mysql c);
  rc ← call (db_read_query_result m);
  MARIADB_END_ALLOW_THREADS;;
  if rc =? 0 then return_none
  else throw_diag (mysql_diag m);; mret None.

(** ** Reconnecting *)

Definition MrdbConnection_getreconnect : M (option pyobj) :=
  c ← get_conn;
  r ← match n_mysql c with
      | Some m => call (mysql_get_option_reconnect m)
      | None => mret false
      end;
  return_bool r.

(** [args] is null when the attribute is deleted. *)
Definition MrdbConnection_setreconnect (args : option pyobj) : M Z :=
  c ← get_conn;
  match n_mysql c with
  | None => mret 0
  | Some m =>
      match args with
      | Some (PyBool b) => py;; call (mysql_optionsv_reconnect m b);; mret 0
      | _ => set_err (PyTypeError "Argument must be boolean");; mret (-1)
      end
  end.

(** The option is switched on for the call and put back behind it. *)
Definition MrdbConnection_reconnect : M (option pyobj) :=
  MARIADB_CHECK_CONNECTION None (λ m,
    save_reconnect ← call (mysql_get_option_reconnect m);
    (if save_reconnect : bool then mret () else call (mysql_optionsv_reconnect m true));;
    MARIADB_BEGIN_ALLOW_THREADS;;
    rc ← call (mariadb_reconnect m);
    MARIADB_END_ALLOW_THREADS;;
    (if save_reconnect : bool then mret () else call (mysql_optionsv_reconnect m save_reconnect));;
    if rc =? 0 then return_none
    else throw_diag (mysql_diag m);; mret None).

(** ** Information *)

Definition MrdbConnection_connection_id : M (option pyobj) :=
  MARIADB_CHECK_CONNECTION None (λ m, z ← call (mysql_thread_id m); return_long z).

Definition MrdbConnection_warnings : M (option pyobj) :=
  MARIADB_CHECK_CONNECTION None (λ m, z ← call (mysql_warning_count m); return_long z).

Definition MrdbConnection_socket : M (option pyobj) :=
  MARIADB_CHECK_CONNECTION None (λ m, z ← call (mysql_get_socket m); return_long z).

Definition py_unicode (s : list Z) : option pyobj := PyUnicode_FromStringAndSize pl_utf8_length s.

(** [PyUnicode_FromStringAndSize] of what the library returned. *)
Definition return_unicode (s : list Z) : M (option pyobj) :=
  py;;
  match py_unicode s with
  | Some o => mret (Some o)
  | None => set_err PyUnicodeDecodeError;; mret None
  end.

(** [repr]: [at_p] is what the format [%p] makes of the address; [snprintf] cuts
    at the 384 bytes of the buffer.  A connection that was never made is not
    closed and has no host: its null pointer goes to the format [%s]. *)
Definition MrdbConnection_repr (at_p : list Z) : M (option pyobj) :=
  n ← get_conn;
  text ← (if n_closed n then mret (bytes_of_string "<mariadb.connection (closed) at " ++ at_p ++ [62])
          else
            host ← nonnull (n_host n);
            mret (bytes_of_string "<mariadb.connection connected to '" ++ host
                  ++ bytes_of_string "' at " ++ at_p ++ [62]));
  return_unicode (take 383 text).

(** [alloc_ok]: whether the buffer of twice the length plus one is
    allocated. *)
Definition MrdbConnection_escape_string (alloc_ok : bool) (str : pyobj) : M (option pyobj) :=
  MARIADB_CHECK_CONNECTION None (λ m,
    match str with
    | PyUnicode from =>
        py;;
        if alloc_ok then
          to ← call (mysql_real_escape_string m from);
          return_unicode to
        else mret None
    | _ => set_err (PyTypeError "Parameter must be a string");; mret None
    end).

(** The informations of [MrdbConnection_getinfo] whose value is a string, and
    those whose value is a number. *)
Definition string_infos : list Z := Eval cbv in info_id <$>
  [PYMARIADB_CONNECTION_UNIX_SOCKET; PYMARIADB_CONNECTION_USER; PYMARIADB_CHARSET_NAME;
   PYMARIADB_TLS_LIBRARY; PYMARIADB_CLIENT_VERSION; PYMARIADB_CONNECTION_HOST; PYMARIADB_CONNECTION_INFO;
   PYMARIADB_CONNECTION_SCHEMA; PYMARIADB_CONNECTION_SQLSTATE; PYMARIADB_CONNECTION_SOCKET;
   PYMARIADB_CONNECTION_SSL_CIPHER; PYMARIADB_CONNECTION_TLS_VERSION; PYMARIADB_CONNECTION_SERVER_VERSION].

Definition number_infos : list Z := Eval cbv in info_id <$>
  [PYMARIADB_CHARSET_ID; PYMARIADB_CLIENT_VERSION_ID; PYMARIADB_CONNECTION_ASYNC_TIMEOUT;
   PYMARIADB_CONNECTION_ASYNC_TIMEOUT_MS; PYMARIADB_CONNECTION_PORT;
   PYMARIADB_CONNECTION_PROTOCOL_VERSION_ID; PYMARIADB_CONNECTION_SERVER_TYPE;
   PYMARIADB_CONNECTION_SERVER_VERSION_ID; PYMARIADB_CONNECTION_TLS_VERSION_ID;
   PYMARIADB_MAX_ALLOWED_PACKET; PYMARIADB_NET_BUFFER_LENGTH; PYMARIADB_CONNECTION_SERVER_STATUS;
   PYMARIADB_CONNECTION_SERVER_CAPABILITIES; PYMARIADB_CONNECTION_EXTENDED_SERVER_CAPABILITIES;
   PYMARIADB_CONNECTION_CLIENT_CAPABILITIES; PYMARIADB_CONNECTION_BYTES_READ;
   PYMARIADB_CONNECTION_BYTES_SENT; PYMARIADB_TLS_VERIFY_STATUS].

Definition TLS_PEER_CERT_INFO : Z := Eval cbv in info_id PYMARIADB_TLS_PEER_CERT_INFO.

Definition x509_time (t : Z * Z * Z * Z * Z * Z) : option pyobj :=
  let '(y, mo, d, h, mi, s) := t in PyDateTime_FromDateAndTime (y + 1900) (mo + 1) d h mi s 0.

(** A null item, from a string that is no UTF-8 or a time out of range, is
    undefined behaviour of [PyDict_SetItem]. *)
Definition MrdbConnection_X509info (info : option x509_info) : M (option pyobj) :=
  py;;
  match info with
  | None => mret (Some PyNone)
  | Some x =>
      subject ← nonnull (py_unicode (x_subject x));
      issuer ← nonnull (py_unicode (x_issuer x));
      fingerprint ← nonnull (py_unicode (x_fingerprint x));
      not_before ← nonnull (x509_time (x_not_before x));
      not_after ← nonnull (x509_time (x_not_after x));
      mret (Some (PyDict [(bytes_of_string "version", PyLong (x_version x));
                          (bytes_of_string "subject", subject);
                          (bytes_of_string "issuer", issuer);
                          (bytes_of_string "fingerprint", fingerprint);
                          (bytes_of_string "not_before", not_before);
                          (bytes_of_string "not_after", not_after)]))
  end.

(** [mysql] may be null here.  A value of another kind than the table says is
    the library's breach of its contract. *)
Definition MrdbConnection_getinfo (optionval : pyobj) : M (option pyobj) :=
  match as_long optionval with
  | None => set_err (PyTypeError "Parameter must be an integer value");; mret None
  | Some z =>
      n ← c_long (as_ulonglong (PyLong z));
      let option := u32 n in
      c ← get_conn;
      val ← call (mariadb_get_infov (n_mysql c) option);
      match val with
      | None => throw_message Mariadb_ProgrammingError "Parameter option not supported";; mret None
      | Some val =>
          if bool_decide (option ∈ string_infos) then
            match val with
            | InfoString s => return_unicode (default [] s)
            | _ => fail NullPointer
            end
          else if bool_decide (option ∈ number_infos) then
            match val with InfoNumber n => return_long (s64 n) | _ => fail NullPointer end
          else if option =? TLS_PEER_CERT_INFO then
            if n_tls_in_use c then
              info ← call (mariadb_get_infov (n_mysql c) option);
              match info with
              | Some (InfoCert x) => MrdbConnection_X509info x
              | _ => fail NullPointer
              end
            else return_none
          else return_none
      end
  end.

End Connection.
