(* ===== verification/Cursor.v ===== *)
(** * Cursors ([src/mariadb/mariadb_cursor.c])

    Every function the Python layer can call on a cursor object, as
    computations on the world of [Client].  Memory of the cursor is an option,
    [None] for a null pointer; an array access outside an array, or through a
    null pointer, is [Stuck NullPointer]; a read of [fields] when the handle it
    points into is gone is [Stuck FreedFields]. *)

From stdpp Require Import gmap.
From S2P Require Import Prelude Parser Values DateTime Wire Fetch Exceptions Params Client Connection.

Definition CURSOR_TYPE_NO_CURSOR : Z := 0.
Definition CURSOR_TYPE_READ_ONLY : Z := 1.
Definition MYSQL_NO_DATA : Z := 100.
Definition NOT_NULL_FLAG : Z := 1.
Definition INFO_EXTENDED_SERVER_CAPABILITIES : Z :=
  Eval cbv in info_id PYMARIADB_CONNECTION_EXTENDED_SERVER_CAPABILITIES.

(** [MARIADB_CLIENT_STMT_BULK_OPERATIONS >> 32]. *)
Definition BULK_OPERATIONS : Z := 4.

(** A row as the interpreter sees it: the items of a tuple or a named tuple can
    be null where a conversion failed. *)
Inductive pyrow :=
  | RowTuple (items : list (option pyobj))
  | RowNamed (items : list (option pyobj))
  | RowDict (items : list (list Z * pyobj)).

(** What a fetch returns: null, None, or a row. *)
Inductive fetched_row := FetchNull | FetchNone | FetchRow (row : pyrow).

(** [PyDict_SetItemString]: a key that exists keeps its place. *)
Fixpoint dict_set (key : list Z) (v : pyobj) (items : list (list Z * pyobj)) : list (list Z * pyobj) :=
  match items with
  | [] => [(key, v)]
  | (k, x) :: items' => if bool_decide (k = key) then (key, v) :: items' else (k, x) :: dict_set key v items'
  end.

(** The allocations that can fail. *)
Record allocations := mkAllocs {
  al_parser : bool;          (** the parser *)
  al_parser_str : bool;      (** its copy of the statement *)
  al_keys : alloc_site -> Z -> bool;
  al_statement : bool;       (** the cursor's copy of the statement *)
  al_params : bool;
  al_value : bool;
  al_sequence : bool;
  al_values : bool;
  al_escape : bool;          (** the buffer of [escape_string] *)
}.

Section Cursor.

Context `{C : Client} `{P : PyLib} (al : allocations).

Definition parseinfo : M MrdbParseInfo := c ← get_cur; mret (c_parseinfo c).

Definition upd_parseinfo (f : MrdbParseInfo -> MrdbParseInfo) : M () :=
  upd_cur (λ c, set_c_parseinfo (f (c_parseinfo c)) c).

(** [self->connection->mysql], passed to a function that needs it. *)
Definition the_mysql : M nat := n ← get_conn; nonnull (n_mysql n).

(** [self->fields], read: the handle it points into must be alive. *)
Definition read_fields : M (nat * list MYSQL_FIELD) :=
  c ← get_cur;
  f ← nonnull (c_fields c);
  live ← get_live;
  if bool_decide (is_Some (live !! f.1)) then mret f else fail FreedFields.

(** ** The macros that choose between the protocols *)

Definition by_protocol (text : nat -> M Z) (stmt : nat -> libop Z) : M Z :=
  c ← get_cur;
  if p_is_text (c_parseinfo c) then m ← the_mysql; text m
  else match c_stmt c with Some s => call (stmt s) | None => mret 0 end.

Definition CURSOR_FIELD_COUNT : M Z :=
  by_protocol (λ m, call (mysql_field_count m)) mysql_stmt_field_count.

Definition CURSOR_WARNING_COUNT : M Z :=
  by_protocol (λ m, call (mysql_warning_count m)) mysql_stmt_warning_count.

Definition CURSOR_AFFECTED_ROWS : M Z :=
  n ← by_protocol (λ m, call (mysql_affected_rows m)) mysql_stmt_affected_rows;
  mret (s64 n).

Definition CURSOR_INSERT_ID : M Z :=
  by_protocol (λ m, call (mysql_insert_id m)) mysql_stmt_insert_id.

Definition CURSOR_NUM_ROWS : M Z :=
  c ← get_cur;
  if p_is_text (c_parseinfo c) then call (mysql_num_rows (c_result c))
  else match c_stmt c with Some s => call (mysql_stmt_num_rows s) | None => mret 0 end.

(** [MARIADB_CHECK_STMT] sets an exception but does not return. *)
Definition MARIADB_CHECK_STMT : M () :=
  c ← get_cur; n ← get_conn;
  if bool_decide (n_mysql n = None) || c_closed c then
    upd_cur (set_c_closed true);;
    throw_message Mariadb_ProgrammingError "Invalid cursor or not connected"
  else mret ().

Definition MARIADB_CHECK_STMT_FETCH : M () :=
  c ← get_cur; n ← get_conn;
  if c_closed c || (bool_decide (n_mysql n = None) && negb (c_is_buffered c)) then
    upd_cur (set_c_closed true);;
    throw_message Mariadb_ProgrammingError "Invalid cursor or not connected"
  else mret ().

(** ** Initialisation *)

(** The connection, [prefetch_size], [cursor_type], [prepared] and [binary];
    [None] when the interpreter refuses the arguments.  The test looks at the
    type the object already has, not at the argument. *)
Definition MrdbCursor_initialize (args : option (Z * Z * bool * bool)) : M Z :=
  py;;
  match args with
  | None => set_err (PyTypeError "invalid arguments");; mret (-1)
  | Some (prefetch_rows, _, is_prepared, _) =>
      n ← get_conn;
      c ← get_cur;
      if bool_decide (n_mysql n = None) then
        throw_message Mariadb_ProgrammingError "Connection isn't valid anymore";; mret (-1)
      else if negb (c_cursor_type c =? CURSOR_TYPE_READ_ONLY)
              && negb (c_cursor_type c =? CURSOR_TYPE_NO_CURSOR) then
        throw_message Mariadb_DataError "Invalid value %ld for cursor_type";; mret (-1)
      else
        upd_cur (λ c, set_c_row_array_size 1 (set_c_prefetch_rows prefetch_rows
                        (set_c_stmt None (set_c_is_prepared is_prepared c))));;
        upd_parseinfo (set_p_is_text false);;
        mret 0
  end.

(** ** Clearing *)

Definition MrdbCursor_clearparseinfo : M () := py;; upd_parseinfo (λ _, parseinfo_zero).

(** [while (mysql_stmt_next_result(stmt) == 0)]. *)
Fixpoint drain_stmt (fuel : nat) (s : nat) : M () :=
  match fuel with
  | O => fail OutOfFuel
  | S fuel' =>
      rc ← call (mysql_stmt_next_result s);
      if rc =? 0 then
        n ← call (mysql_stmt_field_count s);
        (if n =? 0 then mret () else call (mysql_stmt_free_result s));;
        drain_stmt fuel' s
      else mret ()
  end.

(** [do ... while (!mysql_next_result(mysql))]. *)
Fixpoint drain_text (fuel : nat) (m : nat) : M () :=
  match fuel with
  | O => fail OutOfFuel
  | S fuel' =>
      r ← create (mysql_use_result m) (KRes false);
      (match r with Some r => call (mysql_free_result r) | None => mret () end);;
      rc ← call (mysql_next_result m);
      if rc =? 0 then drain_text fuel' m else mret ()
  end.

(** A loop takes one of the waiting result sets in each round but the last, so
    their number plus one is enough. *)
Definition drain_stmt_results (s : nat) : M () :=
  l ← get_lib; drain_stmt (S (pending_results l)) s.

Definition drain_text_results (m : nat) : M () :=
  l ← get_lib; drain_text (S (pending_results l)) m.

Definition MrdbCursor_clear_result : M (option pyobj) :=
  c ← get_cur;
  (match p_is_text (c_parseinfo c), c_stmt c with
   | false, Some s =>
       n ← call (mysql_stmt_field_count s);
       (if n =? 0 then mret () else call (mysql_stmt_free_result s));;
       drain_stmt_results s
   | false, None => mret ()
   | true, _ =>
       (match c_result c with Some r => call (mysql_free_result r) | None => mret () end);;
       n ← get_conn;
       match n_mysql n with
       | Some m => drain_text_results m
       | None => mret ()
       end
   end);;
  MARIADB_END_ALLOW_THREADS;;
  upd_cur (set_c_result None);;
  return_none.

(** [value[i]] is read for every parameter. *)
Definition MrdbCursor_FreeValues : M () :=
  c ← get_cur;
  match c_value c with
  | None => mret ()
  | Some vs =>
      if Z.of_nat (length vs) <? p_paramcount (c_parseinfo c) then fail NullPointer
      else upd_cur (set_c_value None)
  end.

Definition MrdbCursor_clear (new_stmt : bool) : M () :=
  MrdbCursor_clear_result;;
  c ← get_cur;
  (match p_is_text (c_parseinfo c), c_stmt c with
   | false, Some s =>
       if new_stmt then
         call (mysql_stmt_close s);;
         m ← the_mysql;
         s' ← create (mysql_stmt_init m) KStmt;
         upd_cur (set_c_stmt s')
       else
         call (mysql_stmt_reset s);;
         call (mysql_stmt_attr_set s STMT_ATTR_ARRAY_SIZE 0)
   | _, _ => mret ()
   end);;
  upd_cur (λ c, set_c_fetched false (set_c_sequence_fields false (set_c_fields None
                  (set_c_row_count 0 (set_c_affected_rows 0 c)))));;
  MrdbCursor_FreeValues;;
  MrdbCursor_clearparseinfo;;
  upd_cur (λ c, set_c_values None (set_c_value None (set_c_params None c))).

(** ** Closing *)

Definition ma_cursor_close : M () :=
  c ← get_cur;
  if c_closed c then mret ()
  else
    MrdbCursor_clear_result;;
    c ← get_cur;
    (match p_is_text (c_parseinfo c), c_stmt c with
     | false, Some s =>
         MARIADB_BEGIN_ALLOW_THREADS;;
         call (mysql_stmt_close s);;
         MARIADB_END_ALLOW_THREADS;;
         upd_cur (set_c_stmt None)
     | _, _ => mret ()
     end);;
    MrdbCursor_clear false;;
    MrdbCursor_clearparseinfo;;
    upd_cur (set_c_closed true).

Definition MrdbCursor_close : M (option pyobj) := ma_cursor_close;; return_none.

Definition MrdbCursor_finalize : M () :=
  n ← get_conn;
  match n_mysql n with Some _ => ma_cursor_close | None => mret () end.

Definition MrdbCursor_repr (at_p : list Z) : M (option pyobj) :=
  c ← get_cur;
  return_unicode (take 383
    ((if c_closed c then bytes_of_string "<mariadb.cursor (closed) at "
      else bytes_of_string "<mariadb.cursor at ") ++ at_p ++ [62])).

(** ** Result sets *)

(** [0] or [1]: the result set, its fields, and the type for named tuples. *)
Definition Mrdb_GetFieldInfo : M Z :=
  upd_cur (set_c_row_number 0);;
  c ← get_cur;
  if c_field_count c =? 0 then mret 0
  else
    err ←
      (if p_is_text (c_parseinfo c) then
         m ← the_mysql;
         r ← (if c_is_buffered c then create (mysql_store_result m) (KRes true)
              else create (mysql_use_result m) (KRes false));
         upd_cur (set_c_result r);;
         match r with
         | Some _ => mret false
         | None => throw_diag (mysql_diag m);; mret true
         end
       else if c_is_buffered c then
         s ← nonnull (c_stmt c);
         rc ← call (mysql_stmt_store_result s);
         if rc =? 0 then mret false else throw_diag (mysql_stmt_diag s);; mret true
       else mret false);
    if err : bool then mret 1
    else
      n ← CURSOR_AFFECTED_ROWS;
      upd_cur (set_c_affected_rows n);;
      c ← get_cur;
      f ← (if p_is_text (c_parseinfo c) then
             r ← nonnull (c_result c); l ← call (mysql_fetch_fields r); mret (r, l)
           else
             s ← nonnull (c_stmt c); l ← call (mariadb_stmt_fetch_fields s); mret (s, l));
      upd_cur (set_c_fields (Some f));;
      match c_result_format c with
      | RESULT_NAMED_TUPLE =>
          if al_sequence al then
            upd_cur (set_c_sequence_fields true);;
            if Z.of_nat (length f.2) <? c_field_count c then fail NullPointer
            else
              py;;
              upd_cur (set_c_sequence_type (Some (Z.to_nat (c_field_count c))));;
              mret 0
          else mret 1
      | _ => mret 0
      end.

Definition MrdbCursor_InitResultSet : M (option pyobj) :=
  upd_cur (λ c, set_c_values None (set_c_sequence_fields false c));;
  c ← get_cur;
  (match c_result c with
   | Some r => call (mysql_free_result r);; upd_cur (set_c_result None)
   | None => mret ()
   end);;
  ok ←
    (if c_field_count c =? 0 then
       n ← CURSOR_AFFECTED_ROWS;
       upd_cur (λ c, set_c_row_count n (set_c_affected_rows n c));;
       mret true
     else
       rc ← Mrdb_GetFieldInfo;
       if negb (rc =? 0) then mret false
       else if al_values al then
         upd_cur (set_c_values (Some (repeat None (Z.to_nat (c_field_count c)))));;
         c ← get_cur;
         (if p_is_text (c_parseinfo c) then mret ()
          else s ← nonnull (c_stmt c); call (mysql_stmt_attr_set s STMT_ATTR_CB_RESULT 0));;
         n ← CURSOR_NUM_ROWS;
         upd_cur (λ c, set_c_affected_rows 0 (set_c_row_count (s64 n) c));;
         mret true
       else mret false);
  if ok : bool then
    i ← CURSOR_INSERT_ID;
    upd_cur (set_c_lastrow_id i);;
    return_none
  else mret None.

(** ** Fetching *)

(** A codec at work on a column of the cursor.  A conversion that fails leaves
    an exception, behind which the code goes on. *)
Definition fetch_column (column : nat) (codec : fetch_state -> option fetch_state) : M () :=
  py;;
  f ← read_fields;
  c ← get_cur;
  n ← get_conn;
  vs ← nonnull (c_values c);
  if (column <? length vs)%nat then
    s ← nonnull (codec (mkFetch f.2 vs (n_converter n) false));
    upd_cur (λ c, set_c_fields (Some (f.1, fields s)) (set_c_values (Some (values s)) c));;
    if api_error s then set_err PyConversionError else mret ()
  else fail NullPointer.

Definition column_fromtext (column : nat) (data : option (list Z)) : M () :=
  fetch_column column (λ s, field_fetch_fromtext pl_atof pl_decimal_new pl_utf8_length s data column).

Definition column_callback (column : nat) (row : option (list Z)) : M () :=
  fetch_column column (λ s,
    fst <$> field_fetch_callback pl_float_to_double pl_decimal_new pl_utf8_length
              pl_net_field_length s column row).

(** The columns of a text row, from [column] on, [n] of them. *)
Fixpoint text_columns (row : list (option (list Z))) (column n : nat) : M () :=
  match n with
  | O => mret ()
  | S n' =>
      data ← nonnull (row !! column);
      column_fromtext column data;;
      text_columns row (S column) n'
  end.

(** The calls the library makes for a row of the binary protocol. *)
Fixpoint binary_columns (calls : list (nat * option (list Z))) : M () :=
  match calls with
  | [] => mret ()
  | (column, row) :: calls' => column_callback column row;; binary_columns calls'
  end.

(** [true] when there is no row.  In the binary protocol every return code but
    [MYSQL_NO_DATA] counts as a row. *)
Definition MrdbCursor_fetchinternal : M bool :=
  upd_cur (set_c_fetched true);;
  c ← get_cur;
  if p_is_text (c_parseinfo c) then
    row ← call (mysql_fetch_row (c_result c));
    match row with
    | None => mret true
    | Some row => text_columns row 0 (Z.to_nat (c_field_count c));; mret false
    end
  else
    s ← nonnull (c_stmt c);
    a ← call (mysql_stmt_fetch s);
    binary_columns a.2;;
    mret (a.1 =? MYSQL_NO_DATA).

(** The items of a new tuple are null; like that of every object of the
    interpreter its allocation succeeds here.  A named tuple has the type of the
    result set for which one was made last. *)
Definition mariadb_get_sequence_or_tuple : M pyrow :=
  py;;
  c ← get_cur;
  match c_result_format c with
  | RESULT_NAMED_TUPLE => n ← nonnull (c_sequence_type c); mret (RowNamed (repeat None n))
  | RESULT_DICTIONARY => mret (RowDict [])
  | RESULT_TUPLE => mret (RowTuple (repeat None (Z.to_nat (c_field_count c))))
  end.

(** The macros that set an item check no bounds. *)
Definition set_item (column : nat) (v : option pyobj) (l : list (option pyobj)) : M (list (option pyobj)) :=
  if (column <? length l)%nat then mret (<[column := v]> l) else fail NullPointer.

(** A null value is no value of a dictionary. *)
Definition ma_set_result_column_value (row : pyrow) (column : nat) : M pyrow :=
  py;;
  c ← get_cur;
  vs ← nonnull (c_values c);
  v ← nonnull (vs !! column);
  match row with
  | RowNamed l => l ← set_item column v l; mret (RowNamed l)
  | RowTuple l => l ← set_item column v l; mret (RowTuple l)
  | RowDict l =>
      f ← read_fields;
      d ← nonnull (f.2 !! column);
      v ← nonnull v;
      mret (RowDict (dict_set (fname (finfo d)) v l))
  end.

Fixpoint set_columns (row : pyrow) (column n : nat) : M pyrow :=
  match n with
  | O => mret row
  | S n' => row ← ma_set_result_column_value row column; set_columns row (S column) n'
  end.

(** The row that was fetched, as an object. *)
Definition build_row : M pyrow :=
  upd_cur (λ c, set_c_row_number (u64 (c_row_number c + 1)) c);;
  c ← get_cur;
  row ← mariadb_get_sequence_or_tuple;
  set_columns row 0 (Z.to_nat (c_field_count c)).

Definition MrdbCursor_fetchone : M fetched_row :=
  c ← get_cur;
  (if c_cursor_type c =? CURSOR_TYPE_READ_ONLY then MARIADB_CHECK_STMT else mret ());;
  e ← PyErr_Occurred;
  if e : bool then mret FetchNull
  else if c_field_count c =? 0 then
    throw_message Mariadb_ProgrammingError "Cursor doesn't have a result set";; mret FetchNull
  else
    none ← MrdbCursor_fetchinternal;
    if none : bool then py;; mret FetchNone
    else row ← build_row; mret (FetchRow row).

(** [for (i=0; i < row_count && !fetchinternal(self); i++)]. *)
Fixpoint fetch_loop (fuel : nat) (i row_count : Z) (acc : list pyrow) : M (list pyrow) :=
  if i <? row_count then
    match fuel with
    | O => fail OutOfFuel
    | S fuel' =>
        none ← MrdbCursor_fetchinternal;
        if none : bool then mret acc
        else
          row ← build_row;
          py;;
          fetch_loop fuel' (i + 1) row_count (acc ++ [row])
    end
  else mret acc.

(** Each round takes a row, and the last one finds none. *)
Definition fetch_rows_loop (row_count : Z) : M (list pyrow) :=
  l ← get_lib; fetch_loop (S (remaining_rows l)) 0 row_count [].

(** [None] for a null return.  A negative number of rows is a huge one. *)
Definition MrdbCursor_fetchrows (rows : pyobj) : M (option (list pyrow)) :=
  c ← get_cur;
  MARIADB_CHECK_STMT_FETCH;;
  if c_field_count c =? 0 then
    throw_message Mariadb_ProgrammingError "Cursor doesn't have a result set";; mret None
  else
    match as_long rows with
    | None => set_err (PyTypeError "Parameter must be an integer value");; mret None
    | Some z =>
        row_count ← c_long (as_longlong (PyLong z));
        l ← fetch_rows_loop (u64 row_count);
        n ← CURSOR_NUM_ROWS;
        upd_cur (set_c_row_count (s64 n));;
        mret (Some l)
    end.

Definition MrdbCursor_seek (pos : pyobj) : M (option pyobj) :=
  match as_long pos with
  | None => set_err (PyTypeError "Parameter must be an integer value");; mret None
  | Some z =>
      new_position ← c_long (as_ulonglong (PyLong z));
      c ← get_cur;
      MARIADB_BEGIN_ALLOW_THREADS;;
      (if p_is_text (c_parseinfo c)
       then r ← nonnull (c_result c); call (mysql_data_seek r new_position)
       else s ← nonnull (c_stmt c); call (mysql_stmt_data_seek s new_position));;
      MARIADB_END_ALLOW_THREADS;;
      return_none
  end.

Definition MrdbCursor_nextset : M (option pyobj) :=
  MARIADB_CHECK_STMT;;
  e ← PyErr_Occurred;
  if e : bool then mret None
  else
    c ← get_cur;
    rc ←
      (if p_is_text (c_parseinfo c) then
         (match c_result c with
          | Some r => call (mysql_free_result r);; upd_cur (set_c_result None)
          | None => mret ()
          end);;
         MARIADB_BEGIN_ALLOW_THREADS;;
         m ← the_mysql;
         rc ← call (mysql_next_result m);
         MARIADB_END_ALLOW_THREADS;;
         mret (Some rc)
       else match c_stmt c with
            | None => mret None
            | Some s =>
                MARIADB_BEGIN_ALLOW_THREADS;;
                rc ← call (mysql_stmt_next_result s);
                MARIADB_END_ALLOW_THREADS;;
                mret (Some rc)
            end);
    match rc with
    | Some 0 =>
        n ← CURSOR_FIELD_COUNT;
        upd_cur (set_c_field_count n);;
        if n =? 0 then upd_cur (set_c_fields None);; return_bool true
        else
          r ← MrdbCursor_InitResultSet;
          match r with Some _ => return_bool true | None => mret None end
    | _ => return_none
    end.

(** ** Attributes *)

(** The columns of [metadata], in the order of its keys. *)
Definition metadata_keys : list (list Z) :=
  bytes_of_string <$> ["catalog"; "schema"; "field"; "org_field"; "table"; "org_table"; "type";
                       "charset"; "length"; "max_length"; "decimals"; "flags"; "ext_type_or_format"]%string.

(** The numbers of [enum_extended_field_type]; 0 is [EXT_TYPE_NONE]. *)
Definition ext_type_value (t : option enum_extended_field_type) : Z :=
  match t with
  | None => 0 | Some EXT_TYPE_JSON => 1 | Some EXT_TYPE_UUID => 2 | Some EXT_TYPE_INET4 => 3
  | Some EXT_TYPE_INET6 => 4 | Some EXT_TYPE_POINT => 5 | Some EXT_TYPE_MULTIPOINT => 6
  | Some EXT_TYPE_LINESTRING => 7 | Some EXT_TYPE_MULTILINESTRING => 8 | Some EXT_TYPE_POLYGON => 9
  | Some EXT_TYPE_MULTIPOLYGON => 10 | Some EXT_TYPE_GEOMETRYCOLLECTION => 11
  end.

(** The entries of one field; [None] where a name is no UTF-8.  Entries 8 and 9
    are the maximal length and the length. *)
Definition field_metadata (f : MYSQL_FIELD) : list (option pyobj) :=
  [py_unicode (catalog (finfo f)); py_unicode (db (finfo f)); py_unicode (fname (finfo f));
   py_unicode (org_name (finfo f)); py_unicode (table (finfo f)); py_unicode (org_table (finfo f));
   Some (PyLong (field_type_value (ftype f))); Some (PyLong (charsetnr f));
   Some (PyLong (s64 (max_length f))); Some (PyLong (s64 (flength (finfo f))));
   Some (PyLong (decimals (finfo f))); Some (PyLong (flags f));
   Some (PyLong (ext_type_value (mariadb_extended_field_type f)))].

(** A dictionary of tuples, as the keys with the items.  The outer [None] is
    null, the inner one the None of the interpreter. *)
Definition MrdbCursor_metadata : M (option (option (list (list Z * list (option pyobj))))) :=
  c ← get_cur;
  if c_field_count c =? 0 then py;; mret (Some None)
  else
    e ← PyErr_Occurred;
    if e : bool then mret None
    else
      f ← read_fields;
      if Z.of_nat (length f.2) <? c_field_count c then fail NullPointer
      else
        let rows := field_metadata <$> take (Z.to_nat (c_field_count c)) f.2 in
        mret (Some (Some (imap (λ i k, (k, (λ r, default None (r !! i)) <$> rows)) metadata_keys))).

(** One entry of [description]; the second component is the field, whose type
    a JSON column changes.  [mbmaxlen] is that of the connection's character
    set. *)
Definition field_description (mbmaxlen : Z) (f : MYSQL_FIELD) : option pyobj * MYSQL_FIELD :=
  let i := finfo f in
  let display_length := Z.max (max_length f) (flength i) in
  let '(packed_len, display_length) :=
    if 1 <? mbmaxlen then (s64 display_length, Z.quot display_length mbmaxlen)
    else (pl_pack_len (ftype f), display_length) in
  let '(precision, decs, display_length) :=
    if negb (decimals i =? 0) && (decimals i <? 31)
    then (u32 (flength i), decimals i, u32 (u32 (flength i) + 1))
    else (0, 0, display_length) in
  let f := match mariadb_extended_field_type f with
           | Some EXT_TYPE_JSON =>
               mkField MYSQL_TYPE_JSON (flags f) (charsetnr f) (max_length f) (attr f) i
           | _ => f
           end in
  (name ← py_unicode (fname i);
   tbl ← py_unicode (table i);
   oname ← py_unicode (org_name i);
   otbl ← py_unicode (org_table i);
   Some (PyTuple [name; PyLong (field_type_value (ftype f)); PyLong (u32 display_length);
                  PyLong (if 0 <=? packed_len then s32 packed_len else -1); PyLong precision;
                  PyLong decs; PyBool (Z.land (flags f) NOT_NULL_FLAG =? 0);
                  PyLong (u32 (flags f)); tbl; oname; otbl]),
   f).

Fixpoint describe_fields (i n : nat) (acc : list pyobj) : M (option pyobj) :=
  match n with
  | O => mret (Some (PyTuple acc))
  | S n' =>
      f ← read_fields;
      d ← nonnull (f.2 !! i);
      m ← the_mysql;
      mb ← call (mysql_mbmaxlen m);
      let '(desc, d') := field_description mb d in
      upd_cur (set_c_fields (Some (f.1, <[i := d']> f.2)));;
      match desc with
      | None =>
          throw_message Mariadb_OperationalError "Can't build descriptor record";; mret None
      | Some o => py;; describe_fields (S i) n' (acc ++ [o])
      end
  end.

Definition MrdbCursor_description : M (option pyobj) :=
  c ← get_cur;
  e ← PyErr_Occurred;
  if e : bool then mret None
  else if bool_decide (is_Some (c_fields c)) && negb (c_field_count c =? 0)
  then describe_fields 0 (Z.to_nat (c_field_count c)) []
  else return_none.

Definition Mariadb_row_count : M (option pyobj) :=
  c ← get_cur;
  match p_statement (c_parseinfo c) with
  | None => return_long (-1)
  | Some _ =>
      n ← (if c_field_count c =? 0 then CURSOR_AFFECTED_ROWS else CURSOR_NUM_ROWS);
      return_long (s64 n)
  end.

Definition Mariadb_row_number : M (option pyobj) :=
  c ← get_cur;
  if c_field_count c =? 0 then return_none else return_long (s64 (c_row_number c)).

Definition MrdbCursor_warnings : M (option pyobj) :=
  MARIADB_CHECK_STMT;; n ← CURSOR_WARNING_COUNT; return_long n.

Definition MrdbCursor_closed : M (option pyobj) :=
  c ← get_cur; n ← get_conn;
  return_bool (c_closed c || bool_decide (n_mysql n = None)).

(** The member [insert_id] has the type of an [unsigned int]. *)
Definition cursor_insert_id : M (option pyobj) :=
  c ← get_cur; return_long (u32 (c_lastrow_id c)).

(** ** Parsing *)

(** The names, for every parameter. *)
Fixpoint parser_keys (ks : list MrdbKey) (i n : nat) : M (list (list Z)) :=
  match n with
  | O => mret []
  | S n' =>
      k ← nonnull (ks !! i);
      s ← nonnull (key_str k);
      l ← parser_keys ks (S i) n';
      mret (before_nul s :: l)
  end.

(** What is taken over from a parser that succeeded. *)
Definition save_parser (old_paramcount : Z) (p : MrdbParser) : M () :=
  (if negb (param_count p =? 0) && negb (param_count p =? old_paramcount) then
     upd_cur (set_c_params None);;
     MrdbCursor_FreeValues;;
     upd_cur (set_c_values None)
   else mret ());;
  upd_parseinfo (λ i, set_p_paramcount (param_count p) (set_p_paramstyle (paramstyle p) i));;
  (if al_statement al then mret () else fail NullPointer);;
  let is_text := bool_decide (command p = SQL_NONE) || bool_decide (command p = SQL_OTHER) in
  upd_parseinfo (λ i,
    set_p_command (command p) (set_p_is_text is_text (set_p_paramlist (param_list p)
      (set_p_statement (Some (take (Z.to_nat (statement_length p)) (statement_str p))) i))));;
  match paramstyle p, keys p with
  | PYFORMAT, Some ks =>
      py;;
      l ← parser_keys ks 0 (Z.to_nat (param_count p));
      upd_parseinfo (set_p_keys l)
  | _, _ => mret ()
  end.

Definition end_parser (p : option MrdbParser) : M () := nonnull (MrdbParser_end p);; mret ().

(** The parser asks the library for the server version where it meets a
    versioned comment, which dereferences [mysql].  Here the version of an open
    connection is read before the parser starts; behind a closed connection the
    parse is undefined when the parser [asked]. *)
Definition server_version : M Z :=
  n ← get_conn;
  match n_mysql n with
  | Some m => call (mysql_get_server_version m)
  | None => mret 0
  end.

Definition parse_asked (r : parse_result) : bool :=
  match r with ParseOk q | ParseError (Some q) _ => asked q | _ => false end.

Definition parser_mysql (r : parse_result) : M () :=
  n ← get_conn;
  match n_mysql n with
  | Some _ => mret ()
  | None => if parse_asked r then fail NullPointer else mret ()
  end.

Definition MrdbCursor_parse (stmt : pyobj) : M (option pyobj) :=
  i ← parseinfo;
  let old_paramcount := match p_statement i with Some _ => p_paramcount i | None => 0 end in
  (match p_statement i with Some _ => MrdbCursor_clearparseinfo | None => mret () end);;
  py;;
  v ← server_version;
  match MrdbParser_init (al_parser al) (al_parser_str al) v
          (match stmt with PyUnicode s => Some s | _ => None end) with
  | InitNull => throw_message Mariadb_ProgrammingError "Can't initialize parser.";; mret None
  | InitCrash => fail NullPointer
  | InitOk p =>
      let r := MrdbParser_parse (al_keys al) (Some p) false 128 in
      parser_mysql r;;
      match r with
      | ParseUndefined => fail NullPointer
      | ParseOutOfFuel => fail OutOfFuel
      | ParseError q msg =>
          end_parser q;; set_err (MariadbPlain Mariadb_ProgrammingError msg);; mret None
      | ParseOk q => save_parser old_paramcount q;; end_parser (Some q);; return_none
      end
  end.

(** ** Executing *)

(** [mariadb_get_infov] of the extended capabilities, the bulk bit.
    [mariadb_get_parameter] asks for it at every parameter; here it is asked
    once for an execution. *)
Definition bulk_capability : M bool :=
  n ← get_conn;
  v ← call (mariadb_get_infov (n_mysql n) INFO_EXTENDED_SERVER_CAPABILITIES);
  mret (match v with Some (InfoNumber caps) => negb (Z.land caps BULK_OPERATIONS =? 0) | _ => false end).

(** The cursor as [Params] sees it. *)
Definition to_params (c : MrdbCursor) (data : pyobj) (caps : bool) : param_cursor :=
  mkCursor data (c_array_size c) (p_paramstyle (c_parseinfo c)) (p_paramcount (c_parseinfo c))
    (p_keys (c_parseinfo c)) caps (c_is_prepared c) (c_params c) (c_value c).

(** An error outcome with its exception. *)
Definition raise_outcome {A : Type} (o : outcome A) : M (option A) :=
  match o with
  | Ok a => mret (Some a)
  | Raise e msg _ => throw_message e msg;; mret None
  | Fail => mret None
  | Undefined => fail NullPointer
  end.

(** What [mariadb_check_execute_parameters] leaves in [params] when it fails:
    the types of the columns before the failing one. *)
Fixpoint param_infos_upto (self : param_cursor) (i n : nat) (ps : list MYSQL_BIND) : list MYSQL_BIND :=
  match n with
  | O => ps
  | S n' =>
      match ps !! i with
      | None => ps
      | Some p =>
          match mariadb_get_parameter_info self p (Z.of_nat i) with
          | Ok p' => param_infos_upto self (S i) n' (<[i := p']> ps)
          | _ => <[i := set_unsigned false p]> ps
          end
      end
  end.

Definition params_after_failure (self : param_cursor) : option (list MYSQL_BIND) :=
  if paramcount self =? 0 then params self
  else
    let n := Z.to_nat (paramcount self) in
    match (match params self with
           | Some ps => Some ps
           | None => if al_params al then Some (repeat bind_zero n) else None
           end) with
    | None => None
    | Some ps =>
        if bool_decide (is_Some (pvalues self)) || al_value al
        then Some (param_infos_upto self 0 n ps) else Some ps
    end.

(** [mariadb_check_execute_parameters] on the cursor; [false] on error, with
    [value] freed. *)
Definition check_execute_parameters (data : pyobj) (caps : bool) : M bool :=
  py;;
  c ← get_cur;
  let self := to_params c data caps in
  r ← raise_outcome (mariadb_check_execute_parameters (al_params al) (al_value al) self data);
  match r with
  | Some self' =>
      upd_cur (λ c, set_c_params (params self') (set_c_value (pvalues self') c));; mret true
  | None =>
      upd_cur (λ c, set_c_params (params_after_failure self) (set_c_value None c));; mret false
  end.

(** [mariadb_param_update] on bind structures [bs]: those loaded, [None] on
    error.  On an error the values are left as they were. *)
Definition param_update (data : pyobj) (caps : bool) (bs : list MYSQL_BIND) (row_nr : Z)
    : M (option (list MYSQL_BIND)) :=
  py;;
  c ← get_cur;
  r ← raise_outcome (mariadb_param_update pl_is_num pl_str pl_as_double (to_params c data caps) bs row_nr);
  match r with
  | Some (bs', vs, err) =>
      upd_cur (set_c_value (Some vs));;
      (if err : bool then set_err PyOverflowError else mret ());;
      mret (Some bs')
  | None => mret None
  end.

(** The calls of [mariadb_param_update] that the library makes, on its copy of
    the bind structures. *)
Fixpoint param_callbacks (data : pyobj) (caps : bool) (bs : list MYSQL_BIND) (rows : list Z) : M () :=
  match rows with
  | [] => mret ()
  | row_nr :: rows' =>
      r ← param_update data caps bs row_nr;
      match r with
      | Some bs' => param_callbacks data caps bs' rows'
      | None => mret ()
      end
  end.

Definition Mrdb_execute_direct (s : nat) (statement : list Z) : M Z :=
  MARIADB_BEGIN_ALLOW_THREADS;;
  caps ← bulk_capability;
  MrdbCursor_clear_result;;
  c ← get_cur;
  rc ← (if negb (c_reprepare c) then call (mysql_stmt_execute s)
        else if caps : bool then call (mariadb_stmt_execute_direct s statement)
        else
          rc ← call (mysql_stmt_prepare s statement);
          if rc =? 0 then call (mysql_stmt_execute s) else mret rc);
  MARIADB_END_ALLOW_THREADS;;
  mret rc.

(** [self->stmt], created when it is null. *)
Definition ensure_stmt : M (option nat) :=
  c ← get_cur;
  match c_stmt c with
  | Some s => mret (Some s)
  | None =>
      m ← the_mysql;
      s ← create (mysql_stmt_init m) KStmt;
      upd_cur (set_c_stmt s);;
      (match s with Some _ => mret () | None => throw_diag (mysql_diag m) end);;
      mret s
  end.

(** The parameters of [execute], checked and loaded. *)
Definition load_parameters (data : pyobj) (caps : bool) : M bool :=
  ok ← check_execute_parameters data caps;
  if ok : bool then
    c ← get_cur;
    bs ← nonnull (c_params c);
    r ← param_update data caps bs 0;
    match r with
    | Some bs' => upd_cur (set_c_params (Some bs'));; mret true
    | None => mret false
    end
  else mret false.

(** The statement is handed over: bind structures, parameter values, text.  A
    callback of the library reads [data] for every parameter. *)
Definition submit_binary (s : nat) (caps : bool) : M (option pyobj) :=
  c ← get_cur;
  (if p_paramcount (c_parseinfo c) =? 0 then mret ()
   else bs ← nonnull (c_params c); call (mysql_stmt_bind_param s bs));;
  a ← call (db_execute_generate_request s);
  (if bool_decide (a.2 = []) || (p_paramcount (c_parseinfo c) =? 0) then mret ()
   else
     data ← nonnull (c_data c);
     bs ← nonnull (c_params c);
     param_callbacks data caps bs a.2);;
  if negb a.1 then mret None
  else
    statement ← nonnull (p_statement (c_parseinfo c));
    rc ← Mrdb_execute_direct s statement;
    if negb (rc =? 0) then throw_diag (mysql_stmt_diag s);; mret None
    else
      n ← call (mysql_stmt_field_count s);
      upd_cur (set_c_field_count n);;
      return_none.

Definition MrdbCursor_execute_binary : M (option pyobj) :=
  MARIADB_CHECK_CONNECTION None (λ _,
    s ← ensure_stmt;
    match s with
    | None => mret None
    | Some s =>
        upd_cur (set_c_array_size 0);;
        call (mysql_stmt_attr_set s STMT_ATTR_ARRAY_SIZE 0);;
        c ← get_cur;
        let count := p_paramcount (c_parseinfo c) in
        caps ← bulk_capability;
        ok ← (match c_data c with
              | Some data =>
                  if count =? 0 then mret true else load_parameters data caps
              | None => mret true
              end);
        if negb ok then mret None
        else
          (if c_reprepare c then
             call (mysql_stmt_attr_set s STMT_ATTR_CURSOR_TYPE (c_cursor_type c));;
             call (mysql_stmt_attr_set s STMT_ATTR_PREBIND_PARAMS count);;
             call (mysql_stmt_attr_set s STMT_ATTR_CB_USER_DATA 0)
           else mret ());;
          submit_binary s caps
    end).

Definition MrdbCursor_execute_text (stmt : pyobj) : M (option pyobj) :=
  MARIADB_CHECK_CONNECTION None (λ m,
    match stmt with
    | PyUnicode s | PyBytes s => py;; unlocked_command m (mysql_send_query m s)
    | _ => set_err (PyTypeError "Parameter must be a string or bytes");; mret None
    end).

Definition MrdbCursor_readresponse : M (option pyobj) :=
  MARIADB_CHECK_CONNECTION None (λ m,
    c ← get_cur;
    if p_is_text (c_parseinfo c) then
      MARIADB_BEGIN_ALLOW_THREADS;;
      rc ← call (db_read_query_result m);
      MARIADB_END_ALLOW_THREADS;;
      if rc =? 0 then
        n ← call (mysql_field_count m);
        upd_cur (set_c_field_count n);;
        return_none
      else throw_diag (mysql_diag m);; mret None
    else return_none).

(** What a failing [mariadb_check_bulk_parameters] leaves: the errors before the
    allocations keep the arrays, those behind them free [value]. *)
Definition bulk_after_failure (self : param_cursor) (data : pyobj) : param_cursor :=
  if negb (is_sequence data) then self
  else
    let self := set_array_size (u32 (ListOrTuple_Size data)) self in
    match check_rows self data 0 (Z.to_nat (array_size self)) with
    | Ok _ =>
        if array_size self =? 0 then self
        else
          let n := Z.to_nat (paramcount self) in
          let ps := if is_prepared self then params self
                    else if al_params al then Some (repeat bind_zero n) else None in
          let self := set_params ps self in
          set_pvalues None
            (if al_value al then
               let self' := set_pvalues (Some (repeat value_zero n)) self in
               set_params ((λ ps, param_infos_upto self' 0 n ps) <$> ps) self
             else self)
    | _ => self
    end.

(** [mariadb_check_bulk_parameters] on the cursor; [false] on error. *)
Definition check_bulk_parameters (data : pyobj) (caps : bool) : M bool :=
  py;;
  c ← get_cur;
  let self := to_params c data caps in
  r ← raise_outcome (mariadb_check_bulk_parameters (al_params al) (al_value al) self data);
  let self' := match r with Some self' => self' | None => bulk_after_failure self data end in
  upd_cur (λ c, set_c_array_size (array_size self')
                  (set_c_params (params self') (set_c_value (pvalues self') c)));;
  mret (bool_decide (is_Some r)).

(** The label [error] of [MrdbCursor_execute_bulk]. *)
Definition bulk_error : M (option pyobj) := MrdbCursor_clear false;; mret None.

Definition MrdbCursor_execute_bulk : M (option pyobj) :=
  MARIADB_CHECK_STMT;;
  e ← PyErr_Occurred;
  if e : bool then mret None
  else
    c ← get_cur;
    match c_data c with
    | None => set_err (PyTypeError "No data provided");; mret None
    | Some data =>
        s ← ensure_stmt;
        match s with
        | None => bulk_error
        | Some s =>
            caps ← bulk_capability;
            ok ← check_bulk_parameters data caps;
            if negb ok then bulk_error
            else
              c ← get_cur;
              (if c_reprepare c then
                 call (mysql_stmt_attr_set s STMT_ATTR_PREBIND_PARAMS (p_paramcount (c_parseinfo c)));;
                 call (mysql_stmt_attr_set s STMT_ATTR_CB_USER_DATA 0);;
                 call (mysql_stmt_attr_set s STMT_ATTR_CB_PARAM 0)
               else mret ());;
              call (mysql_stmt_attr_set s STMT_ATTR_ARRAY_SIZE (c_array_size c));;
              bs ← nonnull (c_params c);
              call (mysql_stmt_bind_param s bs);;
              a ← call (db_execute_generate_request s);
              param_callbacks data caps bs a.2;;
              if negb a.1 then throw_diag (mysql_stmt_diag s);; bulk_error
              else
                statement ← nonnull (p_statement (c_parseinfo c));
                rc ← Mrdb_execute_direct s statement;
                if negb (rc =? 0) then throw_diag (mysql_stmt_diag s);; bulk_error
                else
                  n ← CURSOR_FIELD_COUNT;
                  upd_cur (set_c_field_count n);;
                  if n =? 0 then
                    a ← CURSOR_AFFECTED_ROWS;
                    upd_cur (set_c_affected_rows a);;
                    i ← CURSOR_INSERT_ID;
                    upd_cur (λ c, set_c_lastrow_id i (set_c_values None c));;
                    return_none
                  else
                    r ← MrdbCursor_InitResultSet;
                    match r with Some _ => return_none | None => mret None end
        end
    end.

(** [PyDict_Next] gives the entries in order; behind the last one [obj] is not
    assigned.  A missing item of a sequence is a null pointer. *)
Definition text_types_item (data : pyobj) (i : nat) : option pyobj :=
  match data with
  | PyDict items => snd <$> items !! i
  | _ => ListOrTuple_GetItem data (Z.of_nat i)
  end.

Fixpoint text_types_loop (data : pyobj) (i n : nat) : M (option pyobj) :=
  match n with
  | O => return_none
  | S n' =>
      o ← nonnull (text_types_item data i);
      match o with
      | PyBytes _ | PyOther "bytearray" | PyDate _ _ _ | PyDateTime _ _ _ _ _ _ _ => return_bool true
      | _ => text_types_loop data (S i) n'
      end
  end.

Definition MrdbCursor_check_text_types : M (option pyobj) :=
  py;;
  c ← get_cur;
  match c_data c with
  | None => return_none
  | Some data => text_types_loop data 0 (Z.to_nat (p_paramcount (c_parseinfo c)))
  end.

End Cursor.
