(* ===== verification/Session.v ===== *)
(** * Sessions

    A session is a sequence of requests of the Python layer to one connection
    object and one cursor object of it: calls of the entry points in the method
    and attribute tables of [mariadb_connection.c] and [mariadb_cursor.c], and
    writes of the members that the tables let Python write.  An exception is
    handed to the application at the end of the request that set it. *)

From stdpp Require Import gmap.
From S2P Require Import Prelude Parser Values DateTime Wire Fetch Exceptions Params Client.
From S2P Require Import Connection Cursor.

(** The members Python can write.  [arraysize] is written as a [long] over the
    four bytes of [row_array_size] and the lower half of the pointer
    [paraminfo], which is always null: the values from 0 to 2^32 - 1, which
    leave it null, are those modelled. *)
Inductive member :=
  | M_data (v : pyobj) | M_data_deleted
  | M_text (v : bool) | M_buffered (v : bool) | M_reprepare (v : bool)
  | M_cursor_type (v : Z) | M_rownumber (v : Z) | M_arraysize (v : Z)
  | M_resulttype (v : enum_result_format) | M_command (v : enum_binary_command).

Definition write_member (f : member) (c : MrdbCursor) : MrdbCursor :=
  match f with
  | M_data v => set_c_data (Some v) c
  | M_data_deleted => set_c_data None c
  | M_text v => set_c_parseinfo (set_p_is_text v (c_parseinfo c)) c
  | M_buffered v => set_c_is_buffered v c
  | M_reprepare v => set_c_reprepare v c
  | M_cursor_type v => set_c_cursor_type v c
  | M_rownumber v => set_c_row_number v c
  | M_arraysize v => set_c_row_array_size (u32 v) c
  | M_resulttype v => set_c_result_format v c
  | M_command v => set_c_parseinfo (set_p_command v (c_parseinfo c)) c
  end.

(** The tables [MrdbConnection_Methods], [MrdbConnection_sets],
    [MrdbConnection_Members], [MrdbCursor_Methods], [MrdbCursor_sets] and
    [MrdbCursor_Members], with the functions the interpreter calls for creation
    and destruction. *)
Inductive request :=
  | ConnInit (args : option connect_args)
  | ConnConnect (args : option connect_args)
  | ConnFinalize | ConnClose | ConnPing | ConnReset | ConnReconnect | ConnDump
  | ConnChangeUser (args : option ())
  | ConnCommand (command : pyobj)
  | ConnReadResponse | ConnGetReconnect
  | ConnSetReconnect (v : option pyobj)
  | ConnId | ConnWarnings | ConnSocket
  | ConnEscape (alloc_ok : bool) (str : pyobj)
  | ConnInfo (what : pyobj)
  | ConnConverter (v : option (Z -> option callable))
  | ConnTls (v : bool)
  | ConnRepr (at_p : list Z)
  | CurInit (args : option (Z * Z * bool * bool))
  | CurFinalize | CurClose | CurClearResult | CurInitResult
  | CurFetchOne
  | CurFetchRows (rows : pyobj)
  | CurSeek (pos : pyobj)
  | CurNextSet | CurMetadata | CurDescription | CurRowCount | CurRowNumber | CurWarnings
  | CurClosed | CurInsertId
  | CurParse (stmt : pyobj)
  | CurExecuteBinary
  | CurExecuteText (stmt : pyobj)
  | CurReadResponse | CurExecuteBulk | CurCheckTextTypes
  | CurRepr (at_p : list Z)
  | CurMember (f : member).

(** What an entry point hands back to the interpreter: nothing, a status, an
    object or null, a row, a list of rows or null, the dictionary of
    [metadata]. *)
Inductive cvalue :=
  | VVoid
  | VInt (rc : Z)
  | VBool (b : bool)
  | VObj (o : option pyobj)
  | VRow (r : fetched_row)
  | VRows (l : option (list pyrow))
  | VMetadata (m : option (option (list (list Z * list (option pyobj))))).

#[global] Instance M_fmap `{C : Client} : FMap M := λ A B f m, m ≫= λ a, mret (f a).

Section Session.

Context `{C : Client} `{P : PyLib} (al : allocations).

Definition perform (r : request) : M cvalue :=
  match r with
  | ConnInit args => VInt <$> MrdbConnection_Initialize args
  | ConnConnect args => VBool <$> MrdbConnection_connect args
  | ConnFinalize => (λ _, VVoid) <$> MrdbConnection_finalize
  | ConnClose => VObj <$> MrdbConnection_close
  | ConnPing => VObj <$> MrdbConnection_ping
  | ConnReset => VObj <$> MrdbConnection_reset
  | ConnReconnect => VObj <$> MrdbConnection_reconnect
  | ConnDump => VObj <$> MrdbConnection_dump_debug_info
  | ConnChangeUser args => VObj <$> MrdbConnection_change_user args
  | ConnCommand command => VObj <$> MrdbConnection_executecommand command
  | ConnReadResponse => VObj <$> MrdbConnection_readresponse
  | ConnGetReconnect => VObj <$> MrdbConnection_getreconnect
  | ConnSetReconnect v => VInt <$> MrdbConnection_setreconnect v
  | ConnId => VObj <$> MrdbConnection_connection_id
  | ConnWarnings => VObj <$> MrdbConnection_warnings
  | ConnSocket => VObj <$> MrdbConnection_socket
  | ConnEscape ok s => VObj <$> MrdbConnection_escape_string ok s
  | ConnInfo what => VObj <$> MrdbConnection_getinfo what
  | ConnConverter v => (λ _, VVoid) <$> upd_conn (set_n_converter v)
  | ConnTls v => (λ _, VVoid) <$> upd_conn (set_n_tls_in_use v)
  | ConnRepr p => VObj <$> MrdbConnection_repr p
  | CurInit args => VInt <$> MrdbCursor_initialize args
  | CurFinalize => (λ _, VVoid) <$> MrdbCursor_finalize
  | CurClose => VObj <$> MrdbCursor_close
  | CurClearResult => VObj <$> MrdbCursor_clear_result
  | CurInitResult => VObj <$> MrdbCursor_InitResultSet al
  | CurFetchOne => VRow <$> MrdbCursor_fetchone
  | CurFetchRows rows => VRows <$> MrdbCursor_fetchrows rows
  | CurSeek pos => VObj <$> MrdbCursor_seek pos
  | CurNextSet => VObj <$> MrdbCursor_nextset al
  | CurMetadata => VMetadata <$> MrdbCursor_metadata
  | CurDescription => VObj <$> MrdbCursor_description
  | CurRowCount => VObj <$> Mariadb_row_count
  | CurRowNumber => VObj <$> Mariadb_row_number
  | CurWarnings => VObj <$> MrdbCursor_warnings
  | CurClosed => VObj <$> MrdbCursor_closed
  | CurInsertId => VObj <$> cursor_insert_id
  | CurParse stmt => VObj <$> MrdbCursor_parse al stmt
  | CurExecuteBinary => VObj <$> MrdbCursor_execute_binary al
  | CurExecuteText stmt => VObj <$> MrdbCursor_execute_text stmt
  | CurReadResponse => VObj <$> MrdbCursor_readresponse
  | CurExecuteBulk => VObj <$> MrdbCursor_execute_bulk al
  | CurCheckTextTypes => VObj <$> MrdbCursor_check_text_types
  | CurRepr p => VObj <$> MrdbCursor_repr p
  | CurMember f => (λ _, VVoid) <$> upd_cur (write_member f)
  end.

(** The application receives the exception. *)
Definition deliver_err : M () := λ w,
  Done () (mkWorld (w_lib w) (w_live w) (w_next w) (w_gil w) (w_conn w) (w_cur w) None).

Fixpoint session (rs : list request) : M () :=
  match rs with
  | [] => mret ()
  | r :: rs' => perform r;; deliver_err;; session rs'
  end.

End Session.
