(* ===== verification/Demo.v ===== *)
(** * A small client library

    A concrete library for the witnesses: result sets of one VARCHAR column are
    scripted in advance; commands succeed; [mysql_next_result] and
    [mysql_fetch_row] take from the script.  It satisfies [ClientLaws]. *)

From stdpp Require Import gmap.
From S2P Require Import Prelude Parser Values DateTime Wire Fetch Exceptions Params Client.
From S2P Require Import Connection Cursor.

(** The rows of the current result set and the result sets behind it. *)
Record demo_state := mkDemo { d_rows : list (list Z); d_pending : list (list (list Z)) }.

Definition demo_field : MYSQL_FIELD :=
  mkField MYSQL_TYPE_VARCHAR 0 33 0 (λ _, Some [])
    (mkFieldInfo [] [] (bytes_of_string "a") [] [] [] 10 0).

Definition demo_diag : diagnostics := mkDiag 0 "" "00000".

Definition take_row (l : demo_state) : option (list Z) * demo_state :=
  match d_rows l with
  | [] => (None, l)
  | r :: rs => (Some r, mkDemo rs (d_pending l))
  end.

Definition take_result (l : demo_state) : Z * demo_state :=
  match d_pending l with
  | [] => (-1, l)
  | rs :: ps => (0, mkDemo rs ps)
  end.

(** A backslash before a quote or a backslash. *)
Definition demo_escape (s : list Z) : list Z :=
  s ≫= λ c, if (c =? 39) || (c =? 92) then [92; c] else [c].

Definition demo_answer {R : Type} (op : libop R) (l : demo_state) : R * demo_state :=
  match op in libop R return R * demo_state with
  | mysql_init => (true, l)
  | mysql_options _ _ => (0, l)
  | mysql_ssl_set _ => (tt, l)
  | mysql_real_connect _ => (tt, l)
  | mysql_diag _ => (demo_diag, l)
  | mysql_get_ssl_cipher _ => (false, l)
  | mariadb_get_infov _ what =>
      (Some (if what =? INFO_EXTENDED_SERVER_CAPABILITIES then InfoNumber BULK_OPERATIONS
             else if bool_decide (what ∈ number_infos) then InfoNumber 2
             else InfoString None), l)
  | mysql_close _ => (tt, l)
  | mysql_send_query _ _ => (0, l)
  | mysql_ping _ => (0, l)
  | mysql_change_user _ => (0, l)
  | mysql_get_option_reconnect _ => (false, l)
  | mysql_optionsv_reconnect _ _ => (tt, l)
  | mariadb_reconnect _ => (0, l)
  | mysql_reset_connection _ => (0, l)
  | mysql_thread_id _ => (7, l)
  | mysql_warning_count _ => (0, l)
  | mysql_real_escape_string _ s => (demo_escape s, l)
  | mysql_dump_debug_info _ => (0, l)
  | db_read_query_result _ => (0, l)
  | mysql_get_socket _ => (3, l)
  | mysql_get_server_version _ => (101100, l)
  | mysql_field_count _ => (1, l)
  | mysql_affected_rows _ => (0, l)
  | mysql_insert_id _ => (0, l)
  | mysql_next_result _ => take_result l
  | mysql_use_result _ => (true, l)
  | mysql_store_result _ => (true, l)
  | mysql_mbmaxlen _ => (4, l)
  | mysql_free_result _ => (tt, l)
  | mysql_fetch_row r =>
      match r with
      | None => (None, l)
      | Some _ => let '(row, l) := take_row l in ((λ c, [Some c]) <$> row, l)
      end
  | mysql_fetch_fields _ => ([demo_field], l)
  | mysql_num_rows _ => (Z.of_nat (length (d_rows l)), l)
  | mysql_data_seek _ _ => (tt, l)
  | mysql_stmt_init _ => (true, l)
  | mysql_stmt_close _ => (tt, l)
  | mysql_stmt_reset _ => (tt, l)
  | mysql_stmt_attr_set _ _ _ => (tt, l)
  | mysql_stmt_field_count _ => (1, l)
  | mysql_stmt_free_result _ => (tt, l)
  | mysql_stmt_next_result _ => take_result l
  | mysql_stmt_store_result _ => (0, l)
  | mariadb_stmt_fetch_fields _ => ([demo_field], l)
  | mysql_stmt_bind_param _ _ => (tt, l)
  | db_execute_generate_request _ => ((true, []), l)
  | mysql_stmt_prepare _ _ => (0, l)
  | mysql_stmt_execute _ => (0, l)
  | mariadb_stmt_execute_direct _ _ => (0, l)
  | mysql_stmt_fetch _ =>
      let '(row, l) := take_row l in
      (match row with
       | None => (MYSQL_NO_DATA, [])
       | Some c => (0, [(O, Some (Z.of_nat (length c) :: c))])
       end, l)
  | mysql_stmt_data_seek _ _ => (tt, l)
  | mysql_stmt_num_rows _ => (Z.of_nat (length (d_rows l)), l)
  | mysql_stmt_affected_rows _ => (0, l)
  | mysql_stmt_insert_id _ => (0, l)
  | mysql_stmt_warning_count _ => (0, l)
  | mysql_stmt_diag _ => (demo_diag, l)
  end.

(** Status reports come with every call but the fetches and those that do not
    ask the server. *)
Definition demo_reports {R : Type} (op : libop R) : list status_info :=
  match op with
  | mysql_fetch_row _ | mysql_stmt_fetch _ | mysql_get_server_version _
  | mysql_real_escape_string _ _ | mysql_stmt_init _ | mysql_stmt_attr_set _ _ _
  | mariadb_get_infov _ _ => []
  | _ => [STATUS_TYPE 2]
  end.

#[global] Instance demo_client : Client := {|
  lib_state := demo_state;
  lib_call R op l := let '(r, l') := demo_answer op l in (r, demo_reports op, l');
  pending_results l := length (d_pending l);
  remaining_rows l := length (d_rows l);
|}.

#[global] Instance demo_laws : ClientLaws demo_client.
Proof.
  split; intros *; cbn; unfold take_result, take_row.
  1,2: destruct l as [rows [|p ps]]; cbn; intros [=]; subst; cbn; lia.
  1-4: intros [=]; by subst.
  - destruct r; cbn; [|done]. destruct l as [[|x rs] ps]; cbn; intros [=]; subst; cbn; lia.
  - destruct l as [[|x rs] ps]; cbn; intros [=]; subst; cbn; lia.
Qed.

(** Bytes below 128 are characters of their own; lengths below 251 are one
    byte. *)
#[global] Instance demo_pylib : PyLib := {|
  pl_atof _ := 0;
  pl_float_to_double z := z;
  pl_decimal_new s := Some (PyDecimal s);
  pl_utf8_length s := if forallb (λ c, c <? 128) s then Some (Z.of_nat (length s)) else None;
  pl_is_num t := bool_decide (t ∈ [MYSQL_TYPE_TINY; MYSQL_TYPE_SHORT; MYSQL_TYPE_LONG;
                                   MYSQL_TYPE_LONGLONG; MYSQL_TYPE_DOUBLE]);
  pl_str o := match o with PyDecimal s => s | _ => [] end;
  pl_as_double o := match o with PyFloat x => Some x | _ => None end;
  pl_net_field_length s := match s with n :: rest => if n <? 251 then Some (n, rest) else None | [] => None end;
  pl_pack_len _ := 0;
|}.

Definition demo_allocs : allocations := mkAllocs true true (λ _ _, true) true true true true true true.

Definition demo_conn : MrdbConnection := mkConn false None None false true None false.

Definition demo_cur : MrdbCursor :=
  mkMrdbCursor None None None 0 1 None None None None false parseinfo_zero 0 0 0 0 0 0 0
    RESULT_TUPLE false true false false true None.

(** Before anything is connected: one result set of two rows, one behind it. *)
Definition demo_world : world demo_client :=
  mkWorld (mkDemo [bytes_of_string "x"; bytes_of_string "y"] [[bytes_of_string "z"]])
    ∅ 0 true demo_conn demo_cur None.

Definition demo_args : connect_args :=
  mkConnectArgs false true 0xFF false false false false false false 5 0 0
    false false false false false false false false false false false.
