(* ===== verification/CursorLogic.v ===== *)
(** * Reasoning about computations on the world

    Inversion of sequences, what callbacks and calls of the library leave
    alone, and a small program logic for the interpreter lock, with the tactics
    that walk through the functions of [Connection] and [Cursor]. *)

From stdpp Require Import gmap.
From S2P Require Import Prelude Parser Values DateTime Wire Fetch Exceptions Params Client.

Section Logic.

Context `{C : Client}.

Lemma bind_Done {A B} (m : M A) (k : A -> M B) (w w' : world C) (b : B) :
  (m ≫= k) w = Done b w' -> ∃ a w1, m w = Done a w1 ∧ k a w1 = Done b w'.
Proof. unfold mbind, M_bind. destruct (m w) as [a w1|s]; [eauto|done]. Qed.

Lemma bind_run {A B} (m : M A) (k : A -> M B) (w w1 : world C) (a : A) :
  m w = Done a w1 -> (m ≫= k) w = k a w1.
Proof. unfold mbind, M_bind. by intros ->. Qed.

(** ** What a call leaves alone *)

(** Computations that change neither the cursor nor the state of the library,
    and only the lock and the exception otherwise: the callbacks. *)
Definition quiet (w w' : world C) : Prop :=
  w_cur w' = w_cur w ∧ w_lib w' = w_lib w ∧ w_live w' = w_live w ∧
  n_mysql (w_conn w') = n_mysql (w_conn w) ∧ w_next w' = w_next w.

#[global] Instance quiet_preorder : PreOrder quiet.
Proof.
  split; [by intros w|]. intros w1 w2 w3 (?&?&?&?&?) (?&?&?&?&?). unfold quiet. split_and!; congruence.
Qed.

Definition is_quiet {A} (m : M A) : Prop := ∀ w a w', m w = Done a w' -> quiet w w'.

Lemma quiet_bind {A B} (m : M A) (k : A -> M B) :
  is_quiet m -> (∀ a, is_quiet (k a)) -> is_quiet (m ≫= k).
Proof.
  intros Hm Hk w b w' H. apply bind_Done in H as (a & w1 & H1 & H2).
  etrans; [exact (Hm _ _ _ H1)|exact (Hk _ _ _ _ H2)].
Qed.

Lemma quiet_prim {A} (m : M A) : (∀ w a w', m w = Done a w' -> quiet w w') -> is_quiet m.
Proof. done. Qed.

End Logic.

Create HintDb quiet discriminated.

(** The primitives, by computation. *)
Ltac quiet_prim := intros ? ? ? [=]; subst; by split_and!.

Ltac quiet_auto :=
  repeat (intros; match goal with
  | |- is_quiet (mbind _ _) => apply quiet_bind
  | |- is_quiet (match ?x with _ => _ end) => destruct x
  | |- is_quiet _ => solve [eauto 2 with quiet nocore]
  | |- is_quiet (mret _) => quiet_prim
  | |- is_quiet (fail _) => by intros ? ? ? ?
  end).

Section Calls.

Context `{C : Client}.

Lemma quiet_get_conn : is_quiet get_conn. Proof. quiet_prim. Qed.
Lemma quiet_get_cur : is_quiet get_cur. Proof. quiet_prim. Qed.
Lemma quiet_get_gil : is_quiet get_gil. Proof. quiet_prim. Qed.
Lemma quiet_get_err : is_quiet get_err. Proof. quiet_prim. Qed.
Lemma quiet_get_lib : is_quiet get_lib. Proof. quiet_prim. Qed.
Lemma quiet_get_live : is_quiet get_live. Proof. quiet_prim. Qed.
Lemma quiet_set_gil b : is_quiet (set_gil b). Proof. quiet_prim. Qed.
Lemma quiet_put_err e : is_quiet (put_err e). Proof. quiet_prim. Qed.
Lemma quiet_thread_state b : is_quiet (upd_conn (set_n_thread_state b)). Proof. quiet_prim. Qed.
#[local] Hint Resolve quiet_get_conn quiet_get_cur quiet_get_gil quiet_get_err quiet_get_lib
  quiet_get_live quiet_set_gil quiet_put_err quiet_thread_state : quiet.

Lemma quiet_nonnull {A} (o : option A) : is_quiet (nonnull o).
Proof. unfold nonnull. quiet_auto. Qed.
Lemma quiet_py : is_quiet py.
Proof. unfold py. quiet_auto. Qed.
Lemma quiet_save : is_quiet PyEval_SaveThread.
Proof. unfold PyEval_SaveThread. quiet_auto. Qed.
Lemma quiet_restore : is_quiet PyEval_RestoreThread.
Proof. unfold PyEval_RestoreThread. quiet_auto. Qed.
#[local] Hint Resolve quiet_nonnull quiet_py quiet_save quiet_restore : quiet.

Lemma quiet_begin : is_quiet MARIADB_BEGIN_ALLOW_THREADS.
Proof. unfold MARIADB_BEGIN_ALLOW_THREADS. quiet_auto. Qed.
Lemma quiet_end : is_quiet MARIADB_END_ALLOW_THREADS.
Proof. unfold MARIADB_END_ALLOW_THREADS. quiet_auto. Qed.
Lemma quiet_unblock : is_quiet MARIADB_UNBLOCK_THREADS.
Proof. unfold MARIADB_UNBLOCK_THREADS. quiet_auto. Qed.
Lemma quiet_block b : is_quiet (MARIADB_BLOCK_THREADS b).
Proof. unfold MARIADB_BLOCK_THREADS. quiet_auto. Qed.
Lemma quiet_set_err e : is_quiet (set_err e).
Proof. unfold set_err. quiet_auto. Qed.
#[local] Hint Resolve quiet_begin quiet_end quiet_unblock quiet_block quiet_set_err : quiet.

Lemma quiet_throw_message e msg : is_quiet (throw_message e msg).
Proof. unfold throw_message. quiet_auto. Qed.
Lemma quiet_PyErr_Occurred : is_quiet PyErr_Occurred.
Proof. unfold PyErr_Occurred. quiet_auto. Qed.
#[local] Hint Resolve quiet_throw_message quiet_PyErr_Occurred : quiet.

Lemma quiet_status info : is_quiet (MrdbConnection_process_status_info info).
Proof. unfold MrdbConnection_process_status_info. quiet_auto. Qed.
#[local] Hint Resolve quiet_status : quiet.

Lemma quiet_reports l : is_quiet (process_reports l).
Proof. induction l; simpl; quiet_auto. Qed.

(** A call: the library answers and moves on, its handles end or not, and
    nothing else changes. *)
Lemma call_Done {R} (op : libop R) (w w' : world C) (r : R) :
  call op w = Done r w' ->
  w_cur w' = w_cur w ∧ w_live w' = after_call op (w_live w) ∧
  (n_mysql (w_conn w') = n_mysql (w_conn w) ∧ w_next w' = w_next w) ∧
  ∃ reports, lib_call op (w_lib w) = (r, reports, w_lib w').
Proof.
  unfold call. intros H. apply bind_Done in H as (live & w1 & [= <- <-] & H).
  destruct (forallb _ _); [|done].
  apply bind_Done in H as (a & w2 & H1 & H). unfold lib_step in H1.
  destruct (lib_call op (w_lib w)) as [[r' reports] l] eqn:E. injection H1 as <- <-.
  apply bind_Done in H as ([] & w3 & H3 & H). injection H3 as <-.
  apply bind_Done in H as ([] & w4 & H4 & H). injection H as <- <-. simpl in *.
  apply quiet_reports in H4 as (H5 & H6 & H7 & H8 & H9). simpl in *.
  rewrite H5, H6, H7, H8, H9. split_and!; [done..|by eexists].
Qed.

Lemma create_Done op k (w w' : world C) (o : option nat) :
  create op k w = Done o w' ->
  w_cur w' = w_cur w ∧ n_mysql (w_conn w') = n_mysql (w_conn w) ∧
  match o with
  | Some h => h = w_next w ∧ w_next w' = S h ∧ w_live w' = <[h := k]> (after_call op (w_live w))
  | None => w_next w' = w_next w ∧ w_live w' = after_call op (w_live w)
  end ∧
  ∃ r reports, lib_call op (w_lib w) = (r, reports, w_lib w').
Proof.
  unfold create. intros H. apply bind_Done in H as (ok & w1 & H1 & H).
  apply call_Done in H1 as (E1 & E2 & (E3 & E4) & reports & E5).
  destruct ok; [apply bind_Done in H as (h & w2 & H2 & H); injection H2 as <- <-|];
    injection H as <- <-; simpl; rewrite ?E2, ?E4; eauto 8.
Qed.

End Calls.

#[export] Hint Resolve quiet_get_conn quiet_get_cur quiet_get_gil quiet_get_err quiet_get_lib
  quiet_get_live quiet_set_gil quiet_put_err quiet_thread_state quiet_nonnull quiet_py quiet_save
  quiet_restore quiet_begin quiet_end quiet_set_err quiet_throw_message quiet_PyErr_Occurred : quiet.


(** ** Computations that do not call the library *)

Definition same_lib `{C : Client} {A} (m : M A) : Prop :=
  ∀ w a w', m w = Done a w' -> w_lib w' = w_lib w.

Lemma same_lib_quiet `{C : Client} {A} (m : M A) : is_quiet m -> same_lib m.
Proof. intros H w a w' Hm. by apply (H w a w'). Qed.

Lemma same_lib_bind `{C : Client} {A B} (m : M A) (k : A -> M B) :
  same_lib m -> (∀ a, same_lib (k a)) -> same_lib (m ≫= k).
Proof.
  intros Hm Hk w b w' H. apply bind_Done in H as (a & w1 & H1 & H2).
  rewrite (Hk _ _ _ _ H2). exact (Hm _ _ _ H1).
Qed.

Lemma same_lib_upd_cur `{C : Client} f : same_lib (upd_cur f).
Proof. by intros w a w' [= _ <-]. Qed.

Create HintDb same_lib discriminated.
#[export] Hint Resolve same_lib_upd_cur : same_lib.

Ltac same_lib_auto :=
  repeat (intros; match goal with
  | |- same_lib (mbind _ _) => apply same_lib_bind
  | |- same_lib (match ?x with _ => _ end) => destruct x
  | |- same_lib _ => solve [eauto 2 with same_lib nocore]
  | |- same_lib _ => apply same_lib_quiet; solve [quiet_auto]
  end).

(** ** The interpreter lock *)

(** Which kinds of undefined behaviour a statement tolerates: those that depend
    on handles and arrays always, the others by choice. *)
Class Acceptable := {
  ok : stuck -> Prop;
  ok_null : ok NullPointer;
  ok_handle : ok InvalidHandle;
  ok_fields : ok FreedFields;
}.

Section Lock.

Context `{C : Client} {K : Acceptable}.

(** The lock is held and no thread state is saved, or the other way round. *)
Definition lock_state (held : bool) (w : world C) : Prop :=
  w_gil w = held ∧ n_thread_state (w_conn w) = negb held.

(** A computation that runs from a world to a state of the lock, and one that
    runs from one state of the lock to another. *)
Definition lock_at {A : Type} (post : bool) (m : M A) (w : world C) : Prop :=
  match m w with
  | Done _ w' => lock_state post w'
  | Stuck s => ok s
  end.

Definition lock {A : Type} (pre post : bool) (m : M A) : Prop :=
  ∀ w, lock_state pre w -> lock_at post m w.

(** ** Rules *)

Lemma lock_ret {A} b (a : A) : lock b b (mret a).
Proof. intros w H. exact H. Qed.

Lemma lock_bind {A B} b1 b2 b3 (m : M A) (f : A -> M B) :
  lock b1 b2 m -> (∀ a, lock b2 b3 (f a)) -> lock b1 b3 (m ≫= f).
Proof.
  intros Hm Hf w Hw. unfold lock_at, mbind, M_bind. specialize (Hm w Hw). unfold lock_at in Hm.
  destruct (m w) as [a w'|s]; [exact (Hf a w' Hm)|done].
Qed.

(** The same for one world, keeping what the first step did. *)
Lemma lock_bind_at {A B} b1 b2 b3 (m : M A) (f : A -> M B) (w : world C) :
  lock b1 b2 m -> lock_state b1 w ->
  (∀ a w', m w = Done a w' -> lock_state b2 w' -> lock_at b3 (f a) w') ->
  lock_at b3 (m ≫= f) w.
Proof.
  intros Hm Hw Hf. unfold lock_at, mbind, M_bind. specialize (Hm w Hw). unfold lock_at in Hm.
  destruct (m w) as [a w'|s]; [by apply Hf|done].
Qed.

Lemma lock_fail {A} b1 b2 (s : stuck) : ok s -> lock (A := A) b1 b2 (fail s).
Proof. by intros H w _. Qed.

Lemma lock_nonnull {A} b (o : option A) : lock b b (nonnull o).
Proof. destruct o; [apply lock_ret|apply lock_fail, ok_null]. Qed.

Lemma lock_get_cur b : lock b b get_cur. Proof. by intros w H. Qed.
Lemma lock_get_conn b : lock b b get_conn. Proof. by intros w H. Qed.
Lemma lock_get_err b : lock b b get_err. Proof. by intros w H. Qed.
Lemma lock_get_lib b : lock b b get_lib. Proof. by intros w H. Qed.
Lemma lock_get_live b : lock b b get_live. Proof. by intros w H. Qed.
Lemma lock_put_err b e : lock b b (put_err e). Proof. by intros w H. Qed.
Lemma lock_put_live b l : lock b b (put_live l). Proof. by intros w H. Qed.
Lemma lock_upd_cur b f : lock b b (upd_cur f). Proof. by intros w H. Qed.
Lemma lock_new_handle b k : lock b b (new_handle k). Proof. by intros w H. Qed.

Lemma lock_upd_conn b f :
  (∀ c, n_thread_state (f c) = n_thread_state c) -> lock b b (upd_conn f).
Proof. intros Hf w [H1 H2]. split; [exact H1|]. simpl. by rewrite Hf. Qed.

Lemma lock_lib_step {R} b (op : libop R) : lock b b (lib_step op).
Proof. intros w H. unfold lock_at, lib_step. by destruct (lib_call op (w_lib w)) as [[r reports] l]. Qed.

Lemma lock_py : lock true true py.
Proof. intros w [H1 H2]. unfold lock_at, py, mbind, M_bind, get_gil. by rewrite H1. Qed.

Lemma lock_begin : lock true false MARIADB_BEGIN_ALLOW_THREADS.
Proof.
  intros w [H1 H2]. unfold lock_at, MARIADB_BEGIN_ALLOW_THREADS, PyEval_SaveThread, mbind, M_bind, get_gil.
  by rewrite H1.
Qed.

(** The end of a region: it also may be reached with the lock held. *)
Lemma lock_end b : lock b true MARIADB_END_ALLOW_THREADS.
Proof.
  intros w [H1 H2].
  unfold lock_at, MARIADB_END_ALLOW_THREADS, PyEval_RestoreThread, mbind, M_bind, get_conn, get_gil.
  rewrite H2. destruct b; simpl; [by split|]. by rewrite H1.
Qed.

(** A callback of the library takes the lock back if it was given up. *)
Lemma lock_unblock {A} b (k : bool -> M A) :
  lock true b (k (negb b)) -> lock b b (MARIADB_UNBLOCK_THREADS ≫= k).
Proof.
  intros Hk w [H1 H2].
  unfold lock_at, MARIADB_UNBLOCK_THREADS, PyEval_RestoreThread, mbind, M_bind, get_conn, get_gil.
  rewrite H2. destruct b; simpl in *; [by apply Hk|]. rewrite H1. simpl. by apply Hk.
Qed.

Lemma lock_block b : lock true b (MARIADB_BLOCK_THREADS (negb b)).
Proof. destruct b; simpl; [apply lock_ret|apply lock_begin]. Qed.

End Lock.

Create HintDb lock discriminated.
#[export] Hint Resolve lock_ret lock_nonnull lock_get_cur lock_get_conn lock_get_err lock_get_lib
  lock_get_live lock_put_err lock_put_live lock_upd_cur lock_new_handle lock_lib_step lock_py
  lock_begin lock_end lock_block : lock.
#[export] Hint Extern 1 (lock _ _ (upd_conn _)) => apply lock_upd_conn; intros; reflexivity : lock.
#[export] Hint Extern 1 (lock _ _ (fail _)) => apply lock_fail; first [apply ok_null | apply ok_handle | apply ok_fields] : lock.

(** Walks through a computation: a step with a lemma of its own may change the
    state of the lock, any other keeps it. *)
Ltac lock_auto :=
  repeat (intros; match goal with
  | |- lock _ _ (mbind _ MARIADB_UNBLOCK_THREADS) => apply lock_unblock
  | |- lock ?b _ (mbind _ ?m) =>
      first [eapply lock_bind; [solve [eauto 2 with lock nocore]|] | eapply (lock_bind b b)]
  | |- lock _ _ (let _ := _ in _) => cbv zeta
  | |- lock _ _ (match ?x with _ => _ end) => destruct x eqn:?
  | |- lock _ _ _ => solve [eauto 2 with lock nocore]
  end).

