(* ===== verification/SessionSafety.v ===== *)
(** * Safety of sessions

    The connector gives up the interpreter lock around calls that wait for the
    server, and keeps the saved thread state in the connection object.  The
    entry points of both objects are shown to use the lock correctly: no
    function of the interpreter is called without it, it is never given up or
    taken twice, and every entry point that is left leaves it held, whatever
    the library answers and whatever status reports arrive during a call.  With
    a library that keeps its contract the loops over pending results and rows
    end too. *)

From stdpp Require Import gmap.
From S2P Require Import Prelude Parser ParserSpec ParserProps Values DateTime Wire Fetch.
From S2P Require Import Exceptions Params Client Connection Cursor Session CursorLogic Demo.

(** ** The functions without loops of unknown length *)

Section Safety.

Context `{C : Client} `{P : PyLib} {K : Acceptable}.

Lemma lock_set_err e : lock true true (set_err e).
Proof. unfold set_err. lock_auto. Qed.
#[local] Hint Resolve lock_set_err : lock.

Lemma lock_PyErr_Occurred : lock true true PyErr_Occurred.
Proof. unfold PyErr_Occurred. lock_auto. Qed.

Lemma lock_throw_message e msg : lock true true (throw_message e msg).
Proof. unfold throw_message. lock_auto. Qed.
#[local] Hint Resolve lock_throw_message lock_PyErr_Occurred : lock.

Lemma lock_c_long r : lock true true (c_long r).
Proof. unfold c_long. lock_auto. Qed.

(** Status reports arrive in either state of the lock and keep it. *)
Lemma lock_status b info : lock b b (MrdbConnection_process_status_info info).
Proof. unfold MrdbConnection_process_status_info. lock_auto. Qed.
#[local] Hint Resolve lock_status : lock.

Lemma lock_reports b l : lock b b (process_reports l).
Proof. induction l; simpl; lock_auto. Qed.
#[local] Hint Resolve lock_reports : lock.

(** So a call of the library keeps the state of the lock. *)
Lemma lock_call {R} b (op : libop R) : lock b b (call op).
Proof. unfold call. lock_auto. Qed.
#[local] Hint Resolve lock_call lock_c_long : lock.

Lemma lock_create b op k : lock b b (create op k).
Proof. unfold create. lock_auto. Qed.

Lemma lock_throw_diag op : lock true true (throw_diag op).
Proof. unfold throw_diag. lock_auto. Qed.
#[local] Hint Resolve lock_create lock_throw_diag : lock.

(** ** Connections *)

Lemma lock_set_options b m l : lock b b (set_options m l).
Proof. induction l; simpl; lock_auto. Qed.
#[local] Hint Resolve lock_set_options : lock.

Lemma lock_connect_unlocked b a m : lock b b (connect_unlocked a m).
Proof. unfold connect_unlocked. lock_auto. Qed.
#[local] Hint Resolve lock_connect_unlocked : lock.

Lemma lock_Initialize args : lock true true (MrdbConnection_Initialize args).
Proof. unfold MrdbConnection_Initialize, connect_end. lock_auto. Qed.

#[local] Hint Resolve lock_Initialize : lock.

Lemma lock_close_handle m : lock true true (close_handle m).
Proof. unfold close_handle. lock_auto. Qed.
#[local] Hint Resolve lock_close_handle : lock.

Lemma lock_conn_finalize : lock true true MrdbConnection_finalize.
Proof. unfold MrdbConnection_finalize. lock_auto. Qed.
#[local] Hint Resolve lock_conn_finalize : lock.

Lemma lock_check_connection {A} (ret : A) k :
  (∀ m, lock true true (k m)) -> lock true true (MARIADB_CHECK_CONNECTION ret k).
Proof. intros Hk. unfold MARIADB_CHECK_CONNECTION. lock_auto. Qed.
#[local] Hint Extern 1 (lock _ _ (MARIADB_CHECK_CONNECTION _ _)) =>
  apply lock_check_connection; intros; lock_auto : lock.

Lemma lock_return_none : lock true true return_none.
Proof. unfold return_none. lock_auto. Qed.
Lemma lock_return_bool b : lock true true (return_bool b).
Proof. unfold return_bool. lock_auto. Qed.
Lemma lock_return_long z : lock true true (return_long z).
Proof. unfold return_long. lock_auto. Qed.
Lemma lock_return_unicode s : lock true true (return_unicode s).
Proof. unfold return_unicode. lock_auto. Qed.
#[local] Hint Resolve lock_return_none lock_return_bool lock_return_long lock_return_unicode : lock.

Lemma lock_unlocked_command m op : lock true true (unlocked_command m op).
Proof. unfold unlocked_command. lock_auto. Qed.
#[local] Hint Resolve lock_unlocked_command : lock.

Lemma lock_X509info info : lock true true (MrdbConnection_X509info info).
Proof. unfold MrdbConnection_X509info. lock_auto. Qed.
#[local] Hint Resolve lock_X509info : lock.

Lemma lock_getinfo o : lock true true (MrdbConnection_getinfo o).
Proof. unfold MrdbConnection_getinfo. lock_auto. Qed.
#[local] Hint Resolve lock_getinfo : lock.

(** ** Cursors *)

Lemma lock_parseinfo b : lock b b parseinfo.
Proof. unfold parseinfo. lock_auto. Qed.
Lemma lock_upd_parseinfo b f : lock b b (upd_parseinfo f).
Proof. unfold upd_parseinfo. lock_auto. Qed.
Lemma lock_the_mysql b : lock b b the_mysql.
Proof. unfold the_mysql. lock_auto. Qed.
Lemma lock_read_fields b : lock b b read_fields.
Proof. unfold read_fields. lock_auto. Qed.
#[local] Hint Resolve lock_parseinfo lock_upd_parseinfo lock_the_mysql lock_read_fields : lock.

Lemma lock_by_protocol b t s : (∀ m, lock b b (t m)) -> lock b b (by_protocol t s).
Proof. intros Ht. unfold by_protocol. lock_auto. Qed.
#[local] Hint Extern 1 (lock _ _ (by_protocol _ _)) => apply lock_by_protocol; intros; lock_auto : lock.

Lemma lock_field_count b : lock b b CURSOR_FIELD_COUNT.
Proof. unfold CURSOR_FIELD_COUNT. lock_auto. Qed.
Lemma lock_warning_count b : lock b b CURSOR_WARNING_COUNT.
Proof. unfold CURSOR_WARNING_COUNT. lock_auto. Qed.
Lemma lock_affected_rows b : lock b b CURSOR_AFFECTED_ROWS.
Proof. unfold CURSOR_AFFECTED_ROWS. lock_auto. Qed.
Lemma lock_insert_id b : lock b b CURSOR_INSERT_ID.
Proof. unfold CURSOR_INSERT_ID. lock_auto. Qed.
Lemma lock_num_rows b : lock b b CURSOR_NUM_ROWS.
Proof. unfold CURSOR_NUM_ROWS. lock_auto. Qed.
Lemma lock_check_stmt : lock true true MARIADB_CHECK_STMT.
Proof. unfold MARIADB_CHECK_STMT. lock_auto. Qed.
Lemma lock_check_stmt_fetch : lock true true MARIADB_CHECK_STMT_FETCH.
Proof. unfold MARIADB_CHECK_STMT_FETCH. lock_auto. Qed.
#[local] Hint Resolve lock_field_count lock_warning_count lock_affected_rows lock_insert_id
  lock_num_rows lock_check_stmt lock_check_stmt_fetch : lock.

Lemma lock_cur_initialize args : lock true true (MrdbCursor_initialize args).
Proof. unfold MrdbCursor_initialize. lock_auto. Qed.

Lemma lock_clearparseinfo : lock true true MrdbCursor_clearparseinfo.
Proof. unfold MrdbCursor_clearparseinfo. lock_auto. Qed.
#[local] Hint Resolve lock_cur_initialize lock_clearparseinfo : lock.

(** The loops, for the one who chooses what is acceptable. *)
Context (Hstmt : ∀ b s, lock b b (drain_stmt_results s)).
Context (Htext : ∀ b m, lock b b (drain_text_results m)).
#[local] Hint Resolve Hstmt Htext : lock.

(** Called with the lock given up, by [Mrdb_execute_direct], it takes the lock
    back. *)
Lemma lock_clear_result b : lock b true MrdbCursor_clear_result.
Proof. unfold MrdbCursor_clear_result. lock_auto. Qed.

Lemma lock_FreeValues b : lock b b MrdbCursor_FreeValues.
Proof. unfold MrdbCursor_FreeValues. lock_auto. Qed.
#[local] Hint Resolve lock_clear_result lock_FreeValues : lock.

Lemma lock_clear new_stmt : lock true true (MrdbCursor_clear new_stmt).
Proof. unfold MrdbCursor_clear. lock_auto. Qed.
#[local] Hint Resolve lock_clear : lock.

Lemma lock_cursor_close : lock true true ma_cursor_close.
Proof. unfold ma_cursor_close. lock_auto. Qed.
#[local] Hint Resolve lock_cursor_close : lock.

Context (al : allocations).

Lemma lock_GetFieldInfo : lock true true (Mrdb_GetFieldInfo al).
Proof. unfold Mrdb_GetFieldInfo. lock_auto. Qed.
#[local] Hint Resolve lock_GetFieldInfo : lock.

Lemma lock_InitResultSet : lock true true (MrdbCursor_InitResultSet al).
Proof. unfold MrdbCursor_InitResultSet. lock_auto. Qed.
#[local] Hint Resolve lock_InitResultSet : lock.

Lemma lock_fetch_column n codec : lock true true (fetch_column n codec).
Proof. unfold fetch_column. lock_auto. Qed.
#[local] Hint Resolve lock_fetch_column : lock.

Lemma lock_text_columns row i n : lock true true (text_columns row i n).
Proof. revert i. induction n; intros i; simpl; unfold column_fromtext; lock_auto. Qed.
Lemma lock_binary_columns calls : lock true true (binary_columns calls).
Proof. induction calls as [|[i r] calls IH]; simpl; unfold column_callback; lock_auto. Qed.
#[local] Hint Resolve lock_text_columns lock_binary_columns : lock.

Lemma lock_fetchinternal : lock true true MrdbCursor_fetchinternal.
Proof. unfold MrdbCursor_fetchinternal. lock_auto. Qed.
Lemma lock_set_column row i : lock true true (ma_set_result_column_value row i).
Proof. unfold ma_set_result_column_value, set_item. lock_auto. Qed.
#[local] Hint Resolve lock_fetchinternal lock_set_column : lock.

Lemma lock_set_columns row i n : lock true true (set_columns row i n).
Proof. revert row i. induction n; intros row i; simpl; lock_auto. Qed.
Lemma lock_get_sequence : lock true true mariadb_get_sequence_or_tuple.
Proof. unfold mariadb_get_sequence_or_tuple. lock_auto. Qed.
#[local] Hint Resolve lock_set_columns lock_get_sequence : lock.

Lemma lock_build_row : lock true true build_row.
Proof. unfold build_row. lock_auto. Qed.
#[local] Hint Resolve lock_build_row : lock.

Lemma lock_fetchone : lock true true MrdbCursor_fetchone.
Proof. unfold MrdbCursor_fetchone. lock_auto. Qed.
#[local] Hint Resolve lock_fetchone : lock.

Context (Hrows : ∀ n, lock true true (fetch_rows_loop n)).
#[local] Hint Resolve Hrows : lock.

Lemma lock_fetchrows rows : lock true true (MrdbCursor_fetchrows rows).
Proof. unfold MrdbCursor_fetchrows. lock_auto. Qed.
Lemma lock_seek pos : lock true true (MrdbCursor_seek pos).
Proof. unfold MrdbCursor_seek. lock_auto. Qed.
Lemma lock_nextset : lock true true (MrdbCursor_nextset al).
Proof. unfold MrdbCursor_nextset. lock_auto. Qed.
#[local] Hint Resolve lock_fetchrows lock_seek lock_nextset : lock.

Lemma lock_describe i n acc : lock true true (describe_fields i n acc).
Proof. revert i acc. induction n; intros i acc; simpl; lock_auto. Qed.
#[local] Hint Resolve lock_describe : lock.

Lemma lock_parser_keys b ks i n : lock b b (parser_keys ks i n).
Proof. revert i. induction n; intros i; simpl; lock_auto. Qed.
Lemma lock_end_parser b p : lock b b (end_parser p).
Proof. unfold end_parser. lock_auto. Qed.
#[local] Hint Resolve lock_parser_keys lock_end_parser : lock.

Lemma lock_save_parser n p : lock true true (save_parser al n p).
Proof. unfold save_parser. lock_auto. Qed.
#[local] Hint Resolve lock_save_parser : lock.

(** The statements on which the parser is known to end. *)
Context (short : pyobj -> Prop).
Context (Hparse : ∀ s p, short (PyUnicode s) ->
  (∃ v, MrdbParser_init (al_parser al) (al_parser_str al) v (Some s) = InitOk p) ->
  MrdbParser_parse (al_keys al) (Some p) false 128 = ParseOutOfFuel -> ok OutOfFuel).

Lemma lock_server_version b : lock b b server_version.
Proof. unfold server_version. lock_auto. Qed.
Lemma lock_parser_mysql b r : lock b b (parser_mysql r).
Proof. unfold parser_mysql. lock_auto. Qed.
#[local] Hint Resolve lock_server_version lock_parser_mysql : lock.

Lemma lock_parse stmt : short stmt -> lock true true (MrdbCursor_parse al stmt).
Proof.
  intros Hs. unfold MrdbCursor_parse. lock_auto. apply lock_fail.
  destruct stmt; try done. eapply Hparse; [done|by eexists|done].
Qed.

Lemma lock_bulk_capability b : lock b b bulk_capability.
Proof. unfold bulk_capability. lock_auto. Qed.
Lemma lock_raise_outcome {A} (o : outcome A) : lock true true (raise_outcome o).
Proof. unfold raise_outcome. lock_auto. Qed.
#[local] Hint Resolve lock_bulk_capability lock_raise_outcome : lock.

Lemma lock_check_execute data caps : lock true true (check_execute_parameters al data caps).
Proof. unfold check_execute_parameters. lock_auto. Qed.
Lemma lock_check_bulk data caps : lock true true (check_bulk_parameters al data caps).
Proof. unfold check_bulk_parameters. lock_auto. Qed.
Lemma lock_param_update data caps bs r : lock true true (param_update data caps bs r).
Proof. unfold param_update. lock_auto. Qed.
#[local] Hint Resolve lock_check_execute lock_check_bulk lock_param_update : lock.

Lemma lock_load_parameters data caps : lock true true (load_parameters al data caps).
Proof. unfold load_parameters. lock_auto. Qed.
#[local] Hint Resolve lock_load_parameters : lock.

Lemma lock_param_callbacks data caps bs rows : lock true true (param_callbacks data caps bs rows).
Proof. revert bs. induction rows; intros bs; simpl; lock_auto. Qed.

(** [MrdbCursor_clear_result] takes the lock back in the middle. *)
Lemma lock_execute_direct s stmt : lock true true (Mrdb_execute_direct s stmt).
Proof. unfold Mrdb_execute_direct. lock_auto. Qed.
Lemma lock_ensure_stmt : lock true true ensure_stmt.
Proof. unfold ensure_stmt. lock_auto. Qed.
#[local] Hint Resolve lock_param_callbacks lock_execute_direct lock_ensure_stmt : lock.

Lemma lock_execute_binary : lock true true (MrdbCursor_execute_binary al).
Proof. apply lock_check_connection. unfold submit_binary. lock_auto. Qed.
Lemma lock_execute_bulk : lock true true (MrdbCursor_execute_bulk al).
Proof. unfold MrdbCursor_execute_bulk, bulk_error. lock_auto. Qed.
#[local] Hint Resolve lock_execute_binary lock_execute_bulk : lock.

Lemma lock_text_types data i n : lock true true (text_types_loop data i n).
Proof. revert i. induction n; intros i; simpl; lock_auto. Qed.
#[local] Hint Resolve lock_text_types : lock.

(** ** Sessions *)

Definition short_request (r : request) : Prop :=
  match r with CurParse stmt => short stmt | _ => True end.

Lemma lock_perform r : short_request r -> lock true true (perform al r).
Proof.
  destruct r; simpl; intros Hr; [..|]; unfold fmap, M_fmap;
  try (by apply (lock_bind true true); [apply lock_parse|lock_auto]); unfold MrdbConnection_connect, MrdbConnection_close, MrdbConnection_ping,
    MrdbConnection_reset, MrdbConnection_reconnect, MrdbConnection_dump_debug_info,
    MrdbConnection_change_user, MrdbConnection_executecommand, MrdbConnection_readresponse,
    MrdbConnection_getreconnect, MrdbConnection_setreconnect, MrdbConnection_connection_id,
    MrdbConnection_warnings, MrdbConnection_socket, MrdbConnection_escape_string, MrdbConnection_repr,
    MrdbCursor_repr, MrdbCursor_finalize, MrdbCursor_close, MrdbCursor_metadata, MrdbCursor_description,
    Mariadb_row_count, Mariadb_row_number, MrdbCursor_warnings, MrdbCursor_closed, cursor_insert_id,
    MrdbCursor_execute_text, MrdbCursor_readresponse, MrdbCursor_check_text_types; lock_auto.
Qed.
#[local] Hint Resolve lock_perform : lock.

Lemma lock_deliver : lock true true deliver_err.
Proof. by intros w H. Qed.
#[local] Hint Resolve lock_deliver : lock.

Lemma lock_session rs : Forall short_request rs -> lock true true (session al rs).
Proof. induction 1; simpl; lock_auto. Qed.

End Safety.

(** ** The loops *)

Section Loops.

Context `{C : Client} `{P : PyLib} {K : Acceptable}.

#[local] Hint Resolve lock_call lock_create lock_fetchinternal lock_build_row : lock.

(** Loops that may run out of fuel. *)
Lemma lock_drain_stmt (Hf : ok OutOfFuel) b fuel s : lock b b (drain_stmt fuel s).
Proof. induction fuel; simpl; [by apply lock_fail|lock_auto]. Qed.
Lemma lock_drain_text (Hf : ok OutOfFuel) b fuel m : lock b b (drain_text fuel m).
Proof. induction fuel; simpl; [by apply lock_fail|lock_auto]. Qed.
Lemma lock_fetch_loop (Hf : ok OutOfFuel) fuel i n acc : lock true true (fetch_loop fuel i n acc).
Proof. revert i acc. induction fuel; intros i acc; simpl; lock_auto. by apply lock_fail. Qed.

(** Loops that do not, by the contract of the library. *)
Context `{L : !ClientLaws C}.

Lemma drain_stmt_at b fuel s w :
  lock_state b w -> (pending_results (w_lib w) < fuel)%nat -> lock_at b (drain_stmt fuel s) w.
Proof.
  revert w. induction fuel as [|fuel IH]; intros w Hw Hlt; [lia|]. simpl.
  eapply lock_bind_at; [apply lock_call|done|]. intros rc w1 H1 Hw1.
  apply call_Done in H1 as (_ & _ & _ & reports & H1).
  destruct (Z.eqb_spec rc 0) as [->|]; [|exact Hw1].
  apply stmt_next_result_takes in H1.
  eapply lock_bind_at; [apply lock_call|done|]. intros n w2 H2 Hw2.
  apply call_Done in H2 as (_ & _ & _ & r2 & H2). apply stmt_field_count_keeps in H2.
  destruct (n =? 0).
  - apply IH; [done|lia].
  - eapply lock_bind_at; [apply lock_call|done|]. intros [] w3 H3 Hw3.
    apply call_Done in H3 as (_ & _ & _ & r3 & H3). apply stmt_free_result_keeps in H3.
    apply IH; [done|lia].
Qed.

Lemma drain_text_at b fuel m w :
  lock_state b w -> (pending_results (w_lib w) < fuel)%nat -> lock_at b (drain_text fuel m) w.
Proof.
  revert w. induction fuel as [|fuel IH]; intros w Hw Hlt; [lia|]. simpl.
  eapply lock_bind_at; [apply lock_create|done|]. intros o w1 H1 Hw1.
  apply create_Done in H1 as (_ & _ & _ & r1 & rep1 & H1). apply use_result_keeps in H1.
  eapply (lock_bind_at b b); [destruct o; [apply lock_call|apply lock_ret]|done|].
  intros [] w2 H2 Hw2.
  assert (pending_results (w_lib w2) = pending_results (w_lib w1)) as E2.
  { destruct o as [r|]; [|by injection H2 as <-].
    apply call_Done in H2 as (_ & _ & _ & r2 & H2). by apply free_result_keeps in H2. }
  eapply lock_bind_at; [apply lock_call|done|]. intros rc w3 H3 Hw3.
  apply call_Done in H3 as (_ & _ & _ & r3 & H3).
  destruct (Z.eqb_spec rc 0) as [->|]; [|exact Hw3].
  apply next_result_takes in H3. apply IH; [done|lia].
Qed.

Lemma lock_drain_stmt_results b s : lock b b (drain_stmt_results s).
Proof. intros w Hw. unfold drain_stmt_results. apply drain_stmt_at; [done|simpl; lia]. Qed.

Lemma lock_drain_text_results b m : lock b b (drain_text_results m).
Proof. intros w Hw. unfold drain_text_results. apply drain_text_at; [done|simpl; lia]. Qed.

(** The columns of a row are converted without a call of the library. *)
Lemma same_lib_fetch_column n codec : same_lib (fetch_column n codec).
Proof. unfold fetch_column, read_fields. same_lib_auto. Qed.

Lemma same_lib_text_columns row i n : same_lib (text_columns row i n).
Proof.
  revert i. induction n; intros i; simpl; unfold column_fromtext; same_lib_auto.
  apply same_lib_fetch_column.
Qed.

Lemma same_lib_binary_columns calls : same_lib (binary_columns calls).
Proof.
  induction calls as [|[i r] calls IH]; simpl; unfold column_callback; same_lib_auto.
  apply same_lib_fetch_column.
Qed.

Lemma same_lib_set_columns row i n : same_lib (set_columns row i n).
Proof.
  revert row i. induction n; intros row i; simpl; unfold ma_set_result_column_value, set_item, read_fields;
    same_lib_auto.
Qed.

Lemma same_lib_build_row : same_lib build_row.
Proof.
  unfold build_row, mariadb_get_sequence_or_tuple. same_lib_auto. intros; apply same_lib_set_columns.
Qed.

(** The only errors of [mysql_stmt_fetch] are the end of the rows. *)
Definition fetches_succeed : Prop :=
  ∀ s l rc calls reports l',
    lib_call (mysql_stmt_fetch s) l = ((rc, calls), reports, l') -> rc = 0 ∨ rc = MYSQL_NO_DATA.

Lemma fetchinternal_takes (Hs : fetches_succeed) w w' :
  MrdbCursor_fetchinternal w = Done false w' ->
  (remaining_rows (w_lib w') < remaining_rows (w_lib w))%nat.
Proof.
  unfold MrdbCursor_fetchinternal. intros H.
  apply bind_Done in H as (u0 & w1 & [= _ <-] & H).
  apply bind_Done in H as (c & w2 & [= <- <-] & H).
  destruct (p_is_text _).
  - apply bind_Done in H as (row & w3 & H3 & H). apply call_Done in H3 as (_ & _ & _ & rep & H3).
    destruct row as [row|]; [|done].
    apply bind_Done in H as (u & w4 & H4 & [= <-]). apply same_lib_text_columns in H4.
    apply fetch_row_takes in H3. simpl in *. by rewrite H4.
  - apply bind_Done in H as (s & w3 & H3 & H). apply quiet_nonnull in H3 as (_ & H3 & _).
    apply bind_Done in H as (a & w4 & H4 & H). apply call_Done in H4 as (_ & _ & _ & rep & H4).
    apply bind_Done in H as (u & w5 & H5 & H). injection H as E <-.
    destruct a as [rc calls]. simpl in *. apply Z.eqb_neq in E.
    apply same_lib_binary_columns in H5. rewrite H5.
    destruct (Hs _ _ _ _ _ _ H4) as [->|]; [|done].
    apply stmt_fetch_takes in H4. by rewrite <- H3.
Qed.

Lemma fetch_loop_at (Hs : fetches_succeed) fuel i n acc w :
  lock_state true w -> (remaining_rows (w_lib w) < fuel)%nat ->
  lock_at true (fetch_loop fuel i n acc) w.
Proof.
  revert i acc w. induction fuel as [|fuel IH]; intros i acc w Hw Hlt; [lia|]. simpl.
  destruct (i <? n); [|exact Hw].
  eapply lock_bind_at; [apply lock_fetchinternal|done|]. intros none w1 H1 Hw1.
  destruct none; [exact Hw1|]. apply (fetchinternal_takes Hs) in H1.
  eapply lock_bind_at; [apply lock_build_row|done|]. intros row w2 H2 Hw2.
  apply same_lib_build_row in H2.
  eapply lock_bind_at; [apply lock_py|done|]. intros [] w3 H3 Hw3.
  apply quiet_py in H3 as (_ & H3 & _). apply IH; [done|]. rewrite H3, H2. lia.
Qed.

Lemma lock_fetch_rows_loop (Hs : fetches_succeed) n : lock true true (fetch_rows_loop n).
Proof. intros w Hw. unfold fetch_rows_loop. by apply fetch_loop_at; [..|simpl; lia]. Qed.

End Loops.

(** ** The theorems *)

(** Only the lock counts; and, the lock and the loops. *)
Definition lock_only : Acceptable :=
  {| ok s := s ≠ GilViolation; ok_null := ltac:(discriminate);
     ok_handle := ltac:(discriminate); ok_fields := ltac:(discriminate) |}.

Definition lock_and_loops : Acceptable :=
  {| ok s := s ≠ GilViolation ∧ s ≠ OutOfFuel;
     ok_null := ltac:(by split); ok_handle := ltac:(by split); ok_fields := ltac:(by split) |}.

Lemma lock_request `{C : Client} `{P : PyLib} (al : allocations) (r : request) :
  lock (K := lock_only) true true (perform al r).
Proof.
  assert (Hf : ok (Acceptable := lock_only) OutOfFuel) by (simpl; discriminate).
  apply (lock_perform (K := lock_only)
           (λ b s w' _, lock_drain_stmt Hf b _ s w' ltac:(done))
           (λ b m w' _, lock_drain_text Hf b _ m w' ltac:(done)) al
           (λ n w' _, lock_fetch_loop Hf _ 0 n [] w' ltac:(done)) (λ _, True)
           (λ _ _ _ _ _, Hf) r). by destruct r.
Qed.

Lemma lock_requests `{C : Client} `{P : PyLib} (al : allocations) (rs : list request) :
  lock (K := lock_only) true true (session al rs).
Proof.
  induction rs as [|r rs IH]; simpl; [apply lock_ret|].
  eapply lock_bind; [apply lock_request|intros _]. by eapply lock_bind; [apply lock_deliver|intros _].
Qed.

(** C4: In every session, for every library and every pattern of failing
    allocations, the interpreter lock is used correctly: no request calls the
    interpreter without the lock, gives the lock up twice or takes it twice,
    also in the status callback and in the callbacks for parameters and
    columns, and the lock is held again behind every request. *)
Theorem session_lock_safe `{C : Client} `{P : PyLib} (al : allocations) (rs : list request)
    (w : world C) (Hheld : lock_state true w) :
  match session al rs w with
  | Done _ w' => lock_state true w'
  | Stuck s => s ≠ GilViolation
  end.
Proof. exact (lock_requests al rs w Hheld). Qed.

(** A statement below 2^63 bytes. *)
Definition short_statement (o : pyobj) : Prop :=
  match o with PyUnicode s => Z.of_nat (length s) < 2 ^ 63 | _ => True end.

(** C5: With a library that keeps its contract and whose statement fetches do
    not fail, every session ends: the loops that discard pending result sets,
    the loop over the rows of a fetch, also with the row number -1 that stands
    for all rows, and the parser. *)
Theorem session_terminates `{C : Client} `{P : PyLib} `{L : !ClientLaws C} (al : allocations)
    (rs : list request) (w : world C) (Hheld : lock_state true w) (Hs : fetches_succeed)
    (Hshort : Forall (short_request short_statement) rs) :
  session al rs w ≠ Stuck OutOfFuel.
Proof.
  assert (H : lock_at (K := lock_and_loops) true (session al rs) w).
  { apply (lock_session (K := lock_and_loops) lock_drain_stmt_results lock_drain_text_results al
             (lock_fetch_rows_loop Hs) short_statement); [|done..].
    intros s p Hlen [v Hi] Hp. apply init_ok_inv in Hi as (s' & [= <-] & Hne & ->).
    destruct (parse_refines (al_keys al) false 128 v s Hne Hlen) as (r & _ & Hr).
    rewrite Hp in Hr. by destruct r as [?|[?|] ?| |]. }
  intros E. unfold lock_at in H. rewrite E in H. by destruct H.
Qed.

(** ** Witnesses *)

Definition demo_session : list request :=
  [ConnConnect (Some demo_args); CurInit (Some (0, 0, false, false));
   CurParse (PyUnicode (bytes_of_string "CALL p(?)")); CurMember (M_data (PyTuple [PyLong 7]));
   CurExecuteBinary; CurInitResult; CurFetchRows (PyLong (-1)); CurNextSet; CurFetchOne;
   CurClose; ConnClose].

Lemma session_lock_safe_witness :
  match session demo_allocs demo_session demo_world with
  | Done _ w' => lock_state true w'
  | Stuck s => s ≠ GilViolation
  end.
Proof. apply (session_lock_safe demo_allocs demo_session demo_world). by split. Defined.

Lemma session_terminates_witness :
  session demo_allocs demo_session demo_world ≠ Stuck OutOfFuel.
Proof.
  apply (session_terminates demo_allocs demo_session demo_world).
  - by split.
  - intros s l rc calls reports l'. simpl. unfold take_row.
    destruct (d_rows l); intros [=]; [by right|by left].
  - repeat constructor.
Defined.

(** The session of the witnesses runs to its end. *)
Lemma demo_session_done : ∃ w, session demo_allocs demo_session demo_world = Done () w.
Proof. eexists. vm_compute. reflexivity. Qed.
