(* ===== verification/CursorProps.v ===== *)
(** * Properties of cursors

    Discarding results and closing a cursor succeed and release what the cursor
    owns; and what goes wrong on a cursor that is closed or whose statement
    failed. *)

From stdpp Require Import gmap.
From S2P Require Import Prelude Parser Values DateTime Wire Fetch Exceptions Params Client.
From S2P Require Import Connection Cursor Session CursorLogic SessionSafety Demo.

Section Total.

Context `{C : Client} `{L : !ClientLaws C}.

(** Status reports whose character set names fit the buffer of the callback. *)
Definition report_fits (i : status_info) : Prop :=
  match i with SESSION_TRACK_SYSTEM_VARIABLES _ v => (length v < 128)%nat | _ => True end.

Definition reports_fit : Prop :=
  ∀ R (op : libop R) l r reports l', lib_call op l = (r, reports, l') -> Forall report_fits reports.

Context (Hfit : reports_fit).

(** ** Calls that succeed *)

Definition runs {A} (m : M A) (w : world C) (Q : A -> world C -> Prop) : Prop :=
  ∃ a w', m w = Done a w' ∧ Q a w'.

Lemma runs_bind {A B} (m : M A) (k : A -> M B) w Q :
  runs m w (λ a w', runs (k a) w' Q) -> runs (m ≫= k) w Q.
Proof.
  intros (a & w1 & H1 & b & w2 & H2 & HQ). exists b, w2. split; [|done].
  by rewrite (bind_run _ _ _ _ _ H1).
Qed.

Lemma runs_mono {A} (m : M A) w (Q Q' : A -> world C -> Prop) :
  runs m w Q -> (∀ a w', Q a w' -> Q' a w') -> runs m w Q'.
Proof. intros (a & w' & H & HQ) HI. exists a, w'. auto. Qed.

Lemma runs_ret {A} (a : A) w (Q : A -> world C -> Prop) : Q a w -> runs (mret a) w Q.
Proof. intros H. by exists a, w. Qed.

(** Anything tolerated, to reuse the lemmas on the lock. *)
Definition anything : Acceptable := {| ok _ := True; ok_null := I; ok_handle := I; ok_fields := I |}.

Lemma status_runs b i w :
  lock_state b w -> report_fits i ->
  runs (MrdbConnection_process_status_info i) w (λ _ w', lock_state b w').
Proof.
  intros Hw Hi.
  assert (H : lock_at (K := anything) b (MrdbConnection_process_status_info i) w)
    by (by apply lock_status).
  destruct (MrdbConnection_process_status_info i w) as [[] w'|s] eqn:E.
  - exists tt, w'. split; [done|]. unfold lock_at in H. by rewrite E in H.
  - exfalso. revert E. clear H. destruct Hw as [H1 H2].
    unfold MrdbConnection_process_status_info, MARIADB_UNBLOCK_THREADS, MARIADB_BLOCK_THREADS,
      PyEval_SaveThread, PyEval_RestoreThread, throw_message, set_err, py, mariadb_throw_exception.
    unfold mbind, M_bind, get_conn, get_gil, upd_conn, set_gil, put_err, mret, M_ret, fail.
    destruct w as [l lv nx g cn cr e]; simpl in *; subst. destruct cn; simpl in *; subst.
    destruct i; simpl in *;
      repeat (case_match; simpl in *; simplify_eq/=; try done);
      match goal with H : (_ <? 128)%nat = false |- _ => apply Nat.ltb_ge in H; lia end.
Qed.

Lemma reports_run b l w :
  lock_state b w -> Forall report_fits l -> runs (process_reports l) w (λ _ w', lock_state b w').
Proof.
  revert w. induction l as [|i l IH]; intros w Hw Hl; simpl; [by apply runs_ret|].
  inversion_clear Hl as [|? ? Hi Hl']. apply runs_bind.
  eapply runs_mono; [by apply status_runs|]. intros [] w' Hw'. by apply IH.
Qed.

(** A call whose handles are alive. *)
Lemma call_runs {R} (op : libop R) b w :
  lock_state b w -> forallb (λ h, bool_decide (is_Some (w_live w !! h))) (handles_of op) = true ->
  runs (call op) w (λ r w', lock_state b w' ∧ w_cur w' = w_cur w ∧
    w_live w' = after_call op (w_live w) ∧
    (n_mysql (w_conn w') = n_mysql (w_conn w) ∧ w_next w' = w_next w) ∧
    ∃ reports, lib_call op (w_lib w) = (r, reports, w_lib w')).
Proof.
  intros Hw Hh. assert (∃ r w', call op w = Done r w') as (r & w' & H).
  { unfold call, get_live, mbind, M_bind. rewrite Hh. unfold lib_step.
    destruct (lib_call op (w_lib w)) as [[r reports] l] eqn:E. simpl.
    match goal with |- context [process_reports reports ?w1] =>
      destruct (reports_run b reports w1) as (a & w2 & H2 & _);
        [exact Hw|exact (Hfit _ _ _ _ _ _ E)|rewrite H2] end.
    by do 2 eexists. }
  exists r, w'. split; [done|]. split; [|by apply call_Done].
  pose proof (lock_call (K := anything) b op w Hw) as Hl. unfold lock_at in Hl. by rewrite H in Hl.
Qed.

Lemma alive_here (live : gmap nat hkind) h k :
  live !! h = Some k -> forallb (λ h, bool_decide (is_Some (live !! h))) [h] = true.
Proof. intros H. simpl. by rewrite H. Qed.

(** New handles have numbers that were never alive. *)
Definition fresh (w : world C) : Prop := ∀ h, (w_next w <= h)%nat -> w_live w !! h = None.

(** Behind a step that may have used handles of its own. *)
Definition settled (b : bool) (w w' : world C) : Prop :=
  lock_state b w' ∧ w_cur w' = w_cur w ∧ w_live w' = w_live w ∧
  n_mysql (w_conn w') = n_mysql (w_conn w) ∧ fresh w'.

Lemma settled_trans b w w1 w2 : settled b w w1 -> settled b w1 w2 -> settled b w w2.
Proof.
  intros (_ & ? & ? & ? & _) (? & ? & ? & ? & ?). split_and!; congruence || done.
Qed.

(** A call that ends no handle. *)
Lemma call_settles {R} (op : libop R) b w :
  lock_state b w -> fresh w -> (∀ live, after_call op live = live) ->
  forallb (λ h, bool_decide (is_Some (w_live w !! h))) (handles_of op) = true ->
  runs (call op) w (λ r w', settled b w w' ∧
    ∃ reports, lib_call op (w_lib w) = (r, reports, w_lib w')).
Proof.
  intros Hw Hfr Ha Hh. eapply runs_mono; [by apply (call_runs op b)|].
  intros r w' (? & ? & El & (? & En) & ?). split; [|done]. rewrite Ha in El.
  split_and!; try done. intros h. rewrite En, El. apply Hfr.
Qed.

Lemma drain_stmt_runs b fuel s k w :
  lock_state b w -> fresh w -> w_live w !! s = Some k -> (pending_results (w_lib w) < fuel)%nat ->
  runs (drain_stmt fuel s) w (λ _ w', settled b w w').
Proof.
  revert w. induction fuel as [|fuel IH]; intros w Hw Hfr Hs Hlt; [lia|]. simpl.
  apply runs_bind. eapply runs_mono; [apply (call_settles _ b); try done; by eapply alive_here|].
  intros rc w1 (S1 & rep1 & E1). destruct (Z.eqb_spec rc 0) as [->|]; [|by apply runs_ret].
  apply stmt_next_result_takes in E1. destruct S1 as (Hw1 & Ec1 & El1 & Em1 & Hf1) eqn:HS1.
  apply runs_bind. eapply runs_mono;
    [apply (call_settles _ b); try done; eapply alive_here; by rewrite El1|].
  intros n w2 (S2 & rep2 & E2). apply stmt_field_count_keeps in E2.
  destruct S2 as (Hw2 & Ec2 & El2 & Em2 & Hf2) eqn:HS2.
  apply runs_bind. eapply (runs_mono _ _ (λ _ w3, settled b w2 w3
    ∧ pending_results (w_lib w3) = pending_results (w_lib w2))).
  { destruct (n =? 0); [by apply runs_ret|].
    eapply runs_mono; [apply (call_settles _ b); try done; eapply alive_here; by rewrite El2, El1|].
    intros [] w3 (S3 & rep3 & E3). apply stmt_free_result_keeps in E3. done. }
  intros [] w3 (S3 & E3). destruct S3 as (Hw3 & Ec3 & El3 & Em3 & Hf3) eqn:HS3.
  eapply runs_mono; [apply IH; try done; [by rewrite El3, El2, El1|lia]|].
  intros [] w4 S4. eauto using settled_trans.
Qed.

(** A call that gives a handle. *)
Lemma create_runs op k b w :
  lock_state b w -> fresh w -> (∀ live, after_call op live = live) ->
  forallb (λ h, bool_decide (is_Some (w_live w !! h))) (handles_of op) = true ->
  runs (create op k) w (λ o w',
    (lock_state b w' ∧ w_cur w' = w_cur w ∧ n_mysql (w_conn w') = n_mysql (w_conn w) ∧ fresh w') ∧
    match o with
    | Some h => w_live w !! h = None ∧ w_live w' = <[h := k]> (w_live w)
    | None => w_live w' = w_live w
    end ∧
    ∃ r reports, lib_call op (w_lib w) = (r, reports, w_lib w')).
Proof.
  intros Hw Hfr Ha Hh. apply runs_bind.
  eapply runs_mono; [by apply (call_settles op b)|].
  intros ok w1 ((Hw1 & Ec & El & Em & Hf1) & rep & E). destruct ok.
  - apply runs_bind. eexists _, _. split; [reflexivity|]. apply runs_ret. simpl.
    split_and!; try done; [|by rewrite <- El; apply Hf1|by rewrite El|by do 2 eexists].
    intros h Hh'. simpl in *. rewrite lookup_insert_ne by lia. apply Hf1. lia.
  - apply runs_ret. split_and!; try done. by do 2 eexists.
Qed.

(** The round of the text loop: the result set is created and freed. *)
Lemma use_and_free_runs b m k w :
  lock_state b w -> fresh w -> w_live w !! m = Some k ->
  runs (r ← create (mysql_use_result m) (KRes false);
        match r with Some r => call (mysql_free_result r) | None => mret () end) w
    (λ _ w', settled b w w' ∧ pending_results (w_lib w') = pending_results (w_lib w)).
Proof.
  intros Hw Hfr Hm. apply runs_bind.
  eapply runs_mono; [apply (create_runs _ _ b); try done; by eapply alive_here|].
  intros o w1 ((Hw1 & Ec1 & Em1 & Hf1) & El1 & r1 & rep1 & E1). apply use_result_keeps in E1.
  destruct o as [h|]; [destruct El1 as [Hh El1]|by apply runs_ret].
  eapply runs_mono; [apply (call_runs _ b); [done|eapply alive_here; by rewrite El1, lookup_insert_eq]|].
  intros [] w2 (Hw2 & Ec2 & El2 & (Em2 & En2) & rep2 & E2). apply free_result_keeps in E2.
  simpl in El2. rewrite El1, delete_insert_id in El2 by done.
  split; [|congruence]. split_and!; try congruence; try done.
  intros h' Hh'. rewrite En2 in Hh'. rewrite El2. specialize (Hf1 h' Hh'). rewrite El1 in Hf1.
  by apply lookup_insert_None in Hf1 as [? _].
Qed.

Lemma runs_assoc {A B D} (m : M A) (k : A -> M B) (g : B -> M D) w Q :
  runs ((m ≫= k) ≫= g) w Q -> runs (m ≫= λ a, k a ≫= g) w Q.
Proof.
  intros (d & w' & H & HQ). exists d, w'. split; [|done]. rewrite <- H.
  unfold mbind, M_bind. by destruct (m w).
Qed.

Lemma drain_text_runs b fuel m k w :
  lock_state b w -> fresh w -> w_live w !! m = Some k -> (pending_results (w_lib w) < fuel)%nat ->
  runs (drain_text fuel m) w (λ _ w', settled b w w').
Proof.
  revert w. induction fuel as [|fuel IH]; intros w Hw Hfr Hm Hlt; [lia|]. simpl.
  apply runs_assoc, runs_bind. eapply runs_mono; [by eapply (use_and_free_runs b)|].
  intros [] w1 (S1 & E1). destruct S1 as (Hw1 & Ec1 & El1 & Em1 & Hf1) eqn:HS1.
  apply runs_bind. eapply runs_mono;
    [apply (call_settles _ b); try done; eapply alive_here; by rewrite El1|].
  intros rc w2 (S2 & rep2 & E2). destruct (Z.eqb_spec rc 0) as [->|].
  - apply next_result_takes in E2. destruct S2 as (Hw2 & Ec2 & El2 & Em2 & Hf2) eqn:HS2.
    eapply runs_mono; [apply IH; try done; [by rewrite El2, El1|lia]|].
    intros [] w3 S3. eauto using settled_trans.
  - apply runs_ret. eauto using settled_trans.
Qed.

(** ** Discarding results *)

(** The handles of the objects are alive and of their kinds. *)
Definition owned (w : world C) : Prop :=
  fresh w ∧
  (∀ m, n_mysql (w_conn w) = Some m -> w_live w !! m = Some KMysql) ∧
  (∀ s, c_stmt (w_cur w) = Some s -> w_live w !! s = Some KStmt) ∧
  (∀ r, c_result (w_cur w) = Some r -> ∃ b, w_live w !! r = Some (KRes b)).

(** What a computation that only moves the lock leaves. *)
Lemma quiet_runs {A} (m : M A) b1 b2 w :
  is_quiet m -> lock (K := lock_only) b1 b2 m -> (∀ s, m w = Stuck s -> s = GilViolation) ->
  lock_state b1 w -> fresh w -> runs m w (λ _ w', settled b2 w w').
Proof.
  intros Hq Hl Hs Hw Hf. specialize (Hl w Hw). unfold lock_at in Hl.
  destruct (m w) as [a w'|s] eqn:E; [|destruct Hl; by apply Hs].
  exists a, w'. split; [done|]. apply Hq in E as (? & _ & El & ? & En).
  split_and!; try done. intros h. rewrite En, El. apply Hf.
Qed.

Lemma end_runs b w :
  lock_state b w -> fresh w -> runs MARIADB_END_ALLOW_THREADS w (λ _ w', settled true w w').
Proof.
  apply quiet_runs; [apply quiet_end|apply lock_end|]. intros s.
  unfold MARIADB_END_ALLOW_THREADS, PyEval_RestoreThread, mbind, M_bind, get_conn, get_gil, fail.
  destruct (n_thread_state (w_conn w)), (w_gil w); cbn; intros [=]; by subst.
Qed.

Lemma begin_runs w :
  lock_state true w -> fresh w -> runs MARIADB_BEGIN_ALLOW_THREADS w (λ _ w', settled false w w').
Proof.
  apply quiet_runs; [apply quiet_begin|apply lock_begin|]. intros s.
  unfold MARIADB_BEGIN_ALLOW_THREADS, PyEval_SaveThread, mbind, M_bind, get_gil, fail.
  destruct (w_gil w); cbn; intros [=]; by subst.
Qed.

Lemma py_runs w : lock_state true w -> fresh w -> runs py w (λ _ w', settled true w w').
Proof.
  apply quiet_runs; [apply quiet_py|apply lock_py|]. intros s.
  unfold py, mbind, M_bind, get_gil, fail. destruct (w_gil w); cbn; intros [=]; by subst.
Qed.

(** The handles behind [MrdbCursor_clear_result]. *)
Definition without_result (c : MrdbCursor) (live : gmap nat hkind) : gmap nat hkind :=
  match p_is_text (c_parseinfo c), c_result c with
  | true, Some r => delete r live
  | _, _ => live
  end.

(** The result sets of the cursor and those behind it, in either protocol. *)
Lemma discard_runs b w :
  lock_state b w -> owned w ->
  runs (match p_is_text (c_parseinfo (w_cur w)), c_stmt (w_cur w) with
        | false, Some s =>
            n ← call (mysql_stmt_field_count s);
            (if n =? 0 then mret () else call (mysql_stmt_free_result s));;
            drain_stmt_results s
        | false, None => mret ()
        | true, _ =>
            (match c_result (w_cur w) with Some r => call (mysql_free_result r) | None => mret () end);;
            n ← get_conn;
            match n_mysql n with Some m => drain_text_results m | None => mret () end
        end) w
    (λ _ w', lock_state b w' ∧ w_cur w' = w_cur w ∧
      w_live w' = without_result (w_cur w) (w_live w) ∧
      n_mysql (w_conn w') = n_mysql (w_conn w) ∧ fresh w').
Proof.
  intros Hw (Hf & Hm & Hst & Hr). unfold without_result. destruct (p_is_text _).
  - apply runs_bind.
    apply (runs_mono _ _ (λ _ w1, lock_state b w1 ∧ w_cur w1 = w_cur w ∧
      w_live w1 = (match c_result (w_cur w) with Some r => delete r (w_live w) | None => w_live w end)
      ∧ n_mysql (w_conn w1) = n_mysql (w_conn w) ∧ fresh w1)).
    { destruct (c_result (w_cur w)) as [r|]; [|by apply runs_ret].
      destruct (Hr r eq_refl) as [k Hk].
      eapply runs_mono; [apply (call_runs _ b); [done|by eapply alive_here]|].
      intros [] w1 (? & ? & El & (? & En) & _). split_and!; try done.
      intros h Hh. rewrite En in Hh. rewrite El. simpl. rewrite lookup_delete_None. auto. }
    intros [] w1 (Hw1 & Ec1 & El1 & Em1 & Hf1). apply runs_bind. eexists _, _. split; [reflexivity|].
    destruct (n_mysql (w_conn w1)) as [m|] eqn:En; [|apply runs_ret; split_and!; congruence || done].
    eapply runs_mono; [eapply (drain_text_runs b); try done; [|simpl; lia]|].
    + rewrite El1. destruct (c_result (w_cur w)) as [r|]; [|apply Hm; congruence].
      rewrite lookup_delete_ne; [apply Hm; congruence|]. intros ->.
      destruct (Hr m eq_refl) as [k Hk]. rewrite (Hm m) in Hk by congruence. done.
    + intros [] w2 (? & ? & ? & ? & ?). split_and!; try congruence; try done.
  - destruct (c_stmt (w_cur w)) as [s|] eqn:Es; [|apply runs_ret; by split_and!].
    assert (Hs : w_live w !! s = Some KStmt) by auto.
    apply runs_bind. eapply runs_mono;
      [apply (call_settles _ b); try done; by eapply alive_here|].
    intros n w1 ((Hw1 & Ec1 & El1 & Em1 & Hf1) & _). apply runs_bind.
    apply (runs_mono _ _ (λ _ w2, settled b w1 w2)).
    { destruct (n =? 0); [by apply runs_ret|].
      eapply runs_mono; [apply (call_settles _ b); try done; eapply alive_here; by rewrite El1|].
      by intros [] w2 (? & _). }
    intros [] w2 (Hw2 & Ec2 & El2 & Em2 & Hf2).
    eapply runs_mono; [eapply (drain_stmt_runs b); try done; [by rewrite El2, El1|simpl; lia]|].
    intros [] w3 (? & ? & ? & ? & ?). split_and!; try congruence; try done.
Qed.

Lemma owned_settled b w w' : settled b w w' -> owned w -> owned w'.
Proof.
  intros (_ & Ec & El & Em & Hf) (_ & Hm & Hs & Hr). unfold owned. rewrite Ec, El, Em. done.
Qed.

Lemma clear_result_runs b w :
  lock_state b w -> owned w ->
  runs MrdbCursor_clear_result w (λ o w',
    o = Some PyNone ∧ lock_state true w' ∧ owned w' ∧
    w_cur w' = set_c_result None (w_cur w) ∧
    w_live w' = without_result (w_cur w) (w_live w) ∧
    n_mysql (w_conn w') = n_mysql (w_conn w)).
Proof.
  intros Hw Ho. unfold MrdbCursor_clear_result.
  apply runs_bind. eexists _, _. split; [reflexivity|].
  apply runs_bind. eapply runs_mono; [by apply (discard_runs b)|].
  intros [] w1 (Hw1 & Ec1 & El1 & Em1 & Hf1).
  apply runs_bind. eapply runs_mono; [by apply (end_runs b)|].
  intros [] w2 (Hw2 & Ec2 & El2 & Em2 & Hf2).
  apply runs_bind. eexists _, _. split; [reflexivity|]. apply runs_bind.
  eapply runs_mono; [apply py_runs; [exact Hw2|exact Hf2]|].
  intros [] w3 (Hw3 & Ec3 & El3 & Em3 & Hf3). apply runs_ret. simpl in *.
  destruct Ho as (Hf & Hm & Hs & Hr).
  assert (El : w_live w3 = without_result (w_cur w) (w_live w)) by congruence.
  assert (Ec : w_cur w3 = set_c_result None (w_cur w)) by (by rewrite Ec3, Ec2, Ec1).
  assert (Hkeep : ∀ h k, (∀ b, k ≠ KRes b) -> w_live w !! h = Some k -> w_live w3 !! h = Some k).
  { intros h k Hk Hh. rewrite El. unfold without_result.
    destruct (p_is_text _); [|done]. destruct (c_result _) as [r|] eqn:E; [|done].
    rewrite lookup_delete_ne; [done|]. intros ->. destruct (Hr h eq_refl) as [b' Hb].
    rewrite Hh in Hb. injection Hb as ->. by apply (Hk b'). }
  split_and!; try done; [|congruence].
  unfold owned. split_and!; [done|..].
  - intros m E. apply Hkeep; [done|]. apply Hm. congruence.
  - rewrite Ec. intros s E. apply Hkeep; [done|]. by apply Hs.
  - rewrite Ec. intros r E. done.
Qed.

(** ** Closing *)

(** The statement handle goes with the cursor in the binary protocol only. *)
Definition kept_stmt (c : MrdbCursor) : option nat :=
  if p_is_text (c_parseinfo c) then c_stmt c else None.

(** A closed cursor: its memory is released and its handles are reset, its
    counters but three and its settings stay. *)
Definition closed_cursor (c : MrdbCursor) : MrdbCursor :=
  set_c_closed true (set_c_parseinfo parseinfo_zero (set_c_params None (set_c_value None
    (set_c_values None (set_c_fields None (set_c_sequence_fields false (set_c_fetched false
      (set_c_row_count 0 (set_c_affected_rows 0 (set_c_stmt (kept_stmt c) (set_c_result None c))))))))))).

Definition closed_handles (c : MrdbCursor) (live : gmap nat hkind) : gmap nat hkind :=
  match p_is_text (c_parseinfo c), c_stmt c with
  | false, Some s => delete s live
  | _, _ => without_result c live
  end.

(** [mysql_stmt_close] with the lock given up. *)
Lemma stmt_close_runs s w :
  lock_state true w -> owned w -> c_stmt (w_cur w) = Some s ->
  runs (MARIADB_BEGIN_ALLOW_THREADS;; call (mysql_stmt_close s);; MARIADB_END_ALLOW_THREADS;;
        upd_cur (set_c_stmt None)) w
    (λ _ w', lock_state true w' ∧ owned w' ∧ w_cur w' = set_c_stmt None (w_cur w) ∧
      w_live w' = delete s (w_live w) ∧ n_mysql (w_conn w') = n_mysql (w_conn w)).
Proof.
  intros Hw (Hf & Hm & Hs & Hr) Es.
  apply runs_bind. eapply runs_mono; [by apply begin_runs|]. intros [] w1 (Hw1 & Ec1 & El1 & Em1 & Hf1).
  apply runs_bind. eapply runs_mono; [apply (call_runs _ false); [done|]|].
  { eapply alive_here. rewrite El1. by apply Hs. }
  intros [] w2 (Hw2 & Ec2 & El2 & (Em2 & En2) & _). simpl in El2.
  assert (Hf2 : fresh w2).
  { intros h Hh. rewrite En2 in Hh. rewrite El2. apply lookup_delete_None. auto. }
  apply runs_bind. eapply runs_mono; [by apply (end_runs false)|].
  intros [] w3 (Hw3 & Ec3 & El3 & Em3 & Hf3).
  eexists _, _. split; [reflexivity|]. simpl.
  assert (El : w_live w3 = delete s (w_live w)) by congruence.
  split_and!; try congruence; try apply Hw3.
  split; [exact Hf3|]. simpl. rewrite Ec3, Ec2, Ec1, El. split_and!.
  - intros m E. rewrite lookup_delete_ne; [apply Hm; congruence|]. intros ->.
    assert (w_live w !! m = Some KMysql) as Hk by (apply Hm; congruence).
    by rewrite (Hs m Es) in Hk.
  - done.
  - intros r E. destruct (Hr r E) as [b Hb]. exists b. rewrite lookup_delete_ne; [done|]. intros ->.
    by rewrite (Hs r Es) in Hb.
Qed.

(** [MrdbCursor_clear] without a statement handle to reset. *)
Lemma clear_runs w :
  lock_state true w -> owned w ->
  (p_is_text (c_parseinfo (w_cur w)) = false -> c_stmt (w_cur w) = None) ->
  (∀ vs, c_value (w_cur w) = Some vs -> p_paramcount (c_parseinfo (w_cur w)) <= Z.of_nat (length vs)) ->
  runs (MrdbCursor_clear false) w (λ _ w',
    lock_state true w' ∧ owned w' ∧
    w_cur w' = set_c_params None (set_c_value None (set_c_values None (set_c_parseinfo parseinfo_zero
      (set_c_fields None (set_c_sequence_fields false (set_c_fetched false (set_c_row_count 0
        (set_c_affected_rows 0 (set_c_result None (w_cur w)))))))))) ∧
    w_live w' = without_result (w_cur w) (w_live w) ∧
    n_mysql (w_conn w') = n_mysql (w_conn w)).
Proof.
  intros Hw Ho Hst Hv. unfold MrdbCursor_clear.
  apply runs_bind. eapply runs_mono; [by apply (clear_result_runs true)|].
  intros _ w1 (_ & Hw1 & Ho1 & Ec1 & El1 & Em1).
  apply runs_bind. eexists _, _. split; [reflexivity|]. apply runs_bind.
  assert (Hno : p_is_text (c_parseinfo (w_cur w1)) = true ∨ c_stmt (w_cur w1) = None).
  { rewrite Ec1. simpl. destruct (p_is_text _); auto. }
  eexists tt, w1. split.
  { destruct (p_is_text (c_parseinfo (w_cur w1))), (c_stmt (w_cur w1)); try reflexivity.
    by destruct Hno. }
  apply runs_bind. eexists _, _. split; [reflexivity|]. apply runs_bind.
  unfold MrdbCursor_FreeValues. apply (runs_mono _ _ (λ _ w2, w2 =
    mkWorld (w_lib w1) (w_live w1) (w_next w1) (w_gil w1) (w_conn w1)
      (set_c_value None (set_c_fetched false (set_c_sequence_fields false (set_c_fields None
                  (set_c_row_count 0 (set_c_affected_rows 0 (w_cur w1))))))) (w_err w1))).
  { apply runs_bind. eexists _, _. split; [reflexivity|]. simpl.
    destruct (c_value (w_cur w1)) as [vs|] eqn:Ev.
    - rewrite (proj2 (Z.ltb_ge _ _)) by (rewrite Ec1 in *; by apply Hv).
      by eexists _, _.
    - apply runs_ret. destruct (w_cur w1). simpl in *. by subst. }
  intros [] w2 ->. apply runs_bind, runs_bind.
  eapply runs_mono; [apply py_runs; [exact Hw1|exact (proj1 Ho1)]|].
  intros [] w3 (Hw3 & Ec3 & El3 & Em3 & Hf3). simpl in *.
  eexists _, _. split; [reflexivity|]. eexists _, _. split; [reflexivity|]. simpl.
  split_and!; [exact Hw3| | |congruence|congruence].
  - destruct Ho1 as (_ & Hm1 & Hs1 & Hr1). split; [exact Hf3|]. simpl.
    rewrite Ec3, El3, Em3. by split_and!.
  - by rewrite Ec3, Ec1.
Qed.

Lemma close_runs w :
  lock_state true w -> owned w -> c_closed (w_cur w) = false ->
  (∀ vs, c_value (w_cur w) = Some vs -> p_paramcount (c_parseinfo (w_cur w)) <= Z.of_nat (length vs)) ->
  runs MrdbCursor_close w (λ o w',
    o = Some PyNone ∧ lock_state true w' ∧ owned w' ∧ w_cur w' = closed_cursor (w_cur w) ∧
    w_live w' = closed_handles (w_cur w) (w_live w)).
Proof.
  intros Hw Ho Hcl Hv. unfold MrdbCursor_close, ma_cursor_close.
  apply runs_bind, runs_bind. eexists _, _. split; [reflexivity|]. rewrite Hcl.
  apply runs_bind. eapply runs_mono; [by apply (clear_result_runs true)|].
  intros _ w1 (_ & Hw1 & Ho1 & Ec1 & El1 & Em1).
  apply runs_bind. eexists _, _. split; [reflexivity|]. apply runs_bind.
  apply (runs_mono _ _ (λ _ w2, lock_state true w2 ∧ owned w2 ∧
    w_cur w2 = set_c_stmt (kept_stmt (w_cur w)) (w_cur w1) ∧
    w_live w2 = closed_handles (w_cur w) (w_live w))).
  { assert (Ei : p_is_text (c_parseinfo (w_cur w1)) = p_is_text (c_parseinfo (w_cur w)))
      by (by rewrite Ec1).
    assert (Es : c_stmt (w_cur w1) = c_stmt (w_cur w)) by (by rewrite Ec1).
    unfold closed_handles, kept_stmt, without_result in *. rewrite Ei.
    destruct (p_is_text (c_parseinfo (w_cur w))).
    - apply runs_ret. split_and!; try done. rewrite <- Es. by destruct (w_cur w1).
    - destruct (c_stmt (w_cur w1)) as [s|] eqn:E1.
      + eapply runs_mono; [by apply stmt_close_runs|]. intros [] w2 (?&?&?&El2&?).
        rewrite <- Es. split_and!; try done. by rewrite El2, El1.
      + apply runs_ret. rewrite <- Es. split_and!; try done. destruct (w_cur w1). simpl in *. by subst. }
  intros [] w2 (Hw2 & Ho2 & Ec2 & El2).
  apply runs_bind. eapply runs_mono; [apply clear_runs; try done|].
  { rewrite Ec2, Ec1. unfold kept_stmt. simpl. by intros ->. }
  { rewrite Ec2, Ec1. exact Hv. }
  intros [] w3 (Hw3 & Ho3 & Ec3 & El3 & Em3).
  apply runs_bind, runs_bind. eapply runs_mono; [by apply py_runs; [|apply Ho3]|].
  intros [] w4 (Hw4 & Ec4 & El4 & Em4 & Hf4).
  eexists _, _. split; [reflexivity|]. eexists _, _. split; [reflexivity|].
  apply runs_bind. eapply runs_mono; [apply py_runs; [exact Hw4|exact Hf4]|].
  intros [] w5 (Hw5 & Ec5 & El5 & Em5 & Hf5). simpl in *. apply runs_ret.
  assert (Ec : w_cur w5 = closed_cursor (w_cur w)) by (by rewrite Ec5, Ec4, Ec3, Ec2, Ec1).
  assert (El : w_live w5 = closed_handles (w_cur w) (w_live w)).
  { rewrite El5, El4, El3, Ec2, Ec1, <- El2. unfold without_result. simpl.
    by destruct (p_is_text _). }
  split_and!; try done. destruct Ho3 as (_ & Hm3 & Hs3 & Hr3). split; [exact Hf5|].
  rewrite Ec5, Ec4, El5, El4, Em5, Em4. simpl. by split_and!.
Qed.

End Total.

(** ** Runs *)

Section Runs.

Context `{C : Client}.

Lemma bind_eq {A B} (m : M A) (k : A -> M B) (w : world C) :
  (m ≫= k) w = match m w with Done a w' => k a w' | Stuck s => Stuck s end.
Proof. done. Qed.

Lemma py_held (w : world C) : lock_state true w -> py w = Done () w.
Proof. intros [H _]. unfold py, mbind, M_bind, get_gil. by rewrite H. Qed.

End Runs.

(** ** The theorems *)

(** C14: Closing an open cursor whose handles are alive always succeeds and
    releases what it owns: pending result sets are discarded, the result set of
    a text statement or the statement handle of a binary one is ended, no other
    handle is touched, every array and the parsed statement are freed, and the
    cursor is marked closed; closing it again does nothing. *)
Theorem cursor_close_releases `{C : Client} `{L : !ClientLaws C} (w : world C) (Hfit : reports_fit)
    (Hheld : lock_state true w) (Howned : owned w) (Hopen : c_closed (w_cur w) = false)
    (Harrays : ∀ vs, c_value (w_cur w) = Some vs ->
                 p_paramcount (c_parseinfo (w_cur w)) <= Z.of_nat (length vs)) :
  ∃ w', MrdbCursor_close w = Done (Some PyNone) w' ∧ lock_state true w' ∧ owned w' ∧
        w_cur w' = closed_cursor (w_cur w) ∧
        w_live w' = closed_handles (w_cur w) (w_live w) ∧
        MrdbCursor_close w' = Done (Some PyNone) w'.
Proof.
  destruct (close_runs Hfit w Hheld Howned Hopen Harrays) as (o & w' & E & -> & Hw & Ho & Ec & El).
  exists w'. split_and!; try done. unfold MrdbCursor_close, ma_cursor_close, return_none.
  rewrite !bind_eq. unfold get_cur. rewrite Ec. cbn [closed_cursor set_c_closed c_closed].
  cbv [mret M_ret]. by rewrite bind_eq, py_held.
Qed.

(** ** Witnesses *)

(** Behind a session that runs to its end. *)
Definition after (rs : list request) : world demo_client :=
  match session demo_allocs rs demo_world with Done _ w => w | Stuck _ => demo_world end.

Definition demo_text : list request :=
  [ConnConnect (Some demo_args); CurInit (Some (0, 0, false, false));
   CurParse (PyUnicode (bytes_of_string "SELECT a FROM t"));
   CurExecuteText (PyUnicode (bytes_of_string "SELECT a FROM t")); CurReadResponse; CurInitResult].

Lemma demo_reports_fit : reports_fit (C := demo_client).
Proof.
  intros R op l r reports l'. cbn. destruct (demo_answer op l). intros [=]; subst.
  destruct op; repeat constructor.
Qed.

Lemma demo_text_owned : owned (after demo_text).
Proof.
  split.
  - intros h Hh.
    assert (E : w_live (after demo_text) = {[0%nat := KMysql; 1%nat := KRes true]}) by (by vm_compute).
    rewrite E. assert (w_next (after demo_text) = 2%nat) as En by (by vm_compute).
    rewrite En in Hh. by rewrite lookup_insert_ne, lookup_singleton_ne by lia.
  - split_and!; intros h E; vm_compute in E; simplify_eq; [by vm_compute|by exists true; vm_compute].
Qed.

Lemma cursor_close_releases_witness :
  ∃ w', MrdbCursor_close (after demo_text) = Done (Some PyNone) w' ∧ lock_state true w' ∧ owned w' ∧
        w_cur w' = closed_cursor (w_cur (after demo_text)) ∧
        w_live w' = closed_handles (w_cur (after demo_text)) (w_live (after demo_text)) ∧
        MrdbCursor_close w' = Done (Some PyNone) w'.
Proof.
  apply (cursor_close_releases (after demo_text) demo_reports_fit).
  - by vm_compute.
  - apply demo_text_owned.
  - by vm_compute.
  - assert (c_value (w_cur (after demo_text)) = None) as -> by (by vm_compute). by intros vs [=].
Defined.

(** ** What goes wrong *)

(** [metadata] of a closed cursor reads through its fields. *)
Lemma closed_metadata_undefined :
  session demo_allocs (demo_text ++ [CurClose; CurMetadata]) demo_world = Stuck NullPointer.
Proof. by vm_compute. Qed.

(** [MrdbCursor_clear_result] frees a text result and keeps the pointer to its
    fields: [description] behind it, for instance when the next statement
    failed, reads freed memory. *)
Lemma description_after_clear :
  session demo_allocs (demo_text ++ [CurClearResult; CurDescription]) demo_world = Stuck FreedFields.
Proof. by vm_compute. Qed.

(** The attributes of a cursor whose connection is closed: the character set,
    the affected rows. *)
Lemma description_without_connection :
  session demo_allocs (demo_text ++ [ConnClose; CurDescription]) demo_world = Stuck NullPointer.
Proof. by vm_compute. Qed.

(** A cursor that ran a binary and then a text statement is closed without its
    statement handle: handle 1 is the statement. *)
Lemma text_close_keeps_stmt :
  w_live (after ([ConnConnect (Some demo_args); CurInit (Some (0, 0, false, false));
                  CurParse (PyUnicode (bytes_of_string "CALL p(?)"));
                  CurMember (M_data (PyTuple [PyLong 7])); CurExecuteBinary; CurInitResult;
                  CurClearResult] ++ skipn 2 demo_text ++ [CurClose]))
  = {[0%nat := KMysql; 1%nat := KStmt]}.
Proof. by vm_compute. Qed.

(** A dictionary with fewer entries than the statement has parameters, as with
    a name that is used twice, leaves [obj] without a value. *)
Lemma text_types_repeated_name :
  session demo_allocs
    [ConnConnect (Some demo_args); CurInit (Some (0, 0, false, false));
     CurParse (PyUnicode (bytes_of_string "SELECT %(a)s, %(a)s"));
     CurMember (M_data (PyDict [(bytes_of_string "a", PyLong 1)])); CurCheckTextTypes] demo_world
  = Stuck NullPointer.
Proof. by vm_compute. Qed.

(** The member [insert_id] keeps 32 bits of the 64. *)
Lemma insert_id_truncated `{C : Client} (w : world C) :
  lock_state true w -> cursor_insert_id w = Done (Some (PyLong (c_lastrow_id (w_cur w) mod 2 ^ 32))) w.
Proof. intros H. unfold cursor_insert_id, return_long, mbind, M_bind, get_cur. by rewrite py_held. Qed.

(** A connection object that was not connected has no host to show. *)
Lemma repr_unconnected p : perform demo_allocs (ConnRepr p) demo_world = Stuck NullPointer.
Proof. reflexivity. Qed.
