(* ===== verification/FetchRows.v ===== *)
(** * Fetching rows

    [fetchrows], which [fetchmany] and [fetchall] use, against calls of
    [fetchone]: they agree as long as no exception is set.  Behind a conversion
    that fails [fetchone] stops and [fetchrows] goes on.  Also what goes wrong on
    a closed cursor and when a fetch fails. *)

From stdpp Require Import gmap.
From S2P Require Import Prelude Parser Values DateTime Wire Fetch Exceptions Params Client.
From S2P Require Import Connection Cursor Session CursorLogic SessionSafety CursorProps Demo.

(** ** What a fetch keeps *)

Section Keeping.

Context `{C : Client}.

(** Computations that keep an exception that is set, and what decides whether
    a row can be fetched. *)
Definition calm {A} (m : M A) : Prop :=
  ∀ w a w', m w = Done a w' ->
    (w_err w ≠ None -> w_err w' ≠ None) ∧ n_mysql (w_conn w') = n_mysql (w_conn w) ∧
    c_cursor_type (w_cur w') = c_cursor_type (w_cur w) ∧
    c_field_count (w_cur w') = c_field_count (w_cur w) ∧
    c_closed (w_cur w') = c_closed (w_cur w) ∧ c_is_buffered (w_cur w') = c_is_buffered (w_cur w).

Lemma calm_bind {A B} (m : M A) (k : A -> M B) : calm m -> (∀ a, calm (k a)) -> calm (m ≫= k).
Proof.
  intros Hm Hk w b w' H. apply bind_Done in H as (a & w1 & H1 & H2).
  destruct (Hm _ _ _ H1) as (? & ? & ? & ? & ? & ?), (Hk _ _ _ _ H2) as (? & ? & ? & ? & ? & ?).
  split_and!; auto; congruence.
Qed.

Lemma calm_upd_cur f :
  (∀ c, c_cursor_type (f c) = c_cursor_type c ∧ c_field_count (f c) = c_field_count c ∧
        c_closed (f c) = c_closed c ∧ c_is_buffered (f c) = c_is_buffered c) -> calm (upd_cur f).
Proof. intros Hf w a w' [= _ <-]. simpl. by destruct (Hf (w_cur w)) as (? & ? & ? & ?). Qed.

Lemma calm_upd_conn f : (∀ n, n_mysql (f n) = n_mysql n) -> calm (upd_conn f).
Proof. intros Hf w a w' [= _ <-]. simpl. by split_and!. Qed.

Lemma calm_ret {A} (a : A) : calm (mret a).
Proof. by intros w a' w' [= _ <-]. Qed.
Lemma calm_fail {A} s : calm (A := A) (fail s).
Proof. by intros w a w' [=]. Qed.
Lemma calm_nonnull {A} (o : option A) : calm (nonnull o).
Proof. destruct o; [apply calm_ret|apply calm_fail]. Qed.
Lemma calm_get {A} (f : world C -> A) : calm (λ w, Done (f w) w).
Proof. by intros w a w' [= _ <-]. Qed.
Lemma calm_set_gil b : calm (set_gil b).
Proof. by intros w a w' [= _ <-]. Qed.
Lemma calm_put_live l : calm (put_live l).
Proof. by intros w a w' [= _ <-]. Qed.
Lemma calm_put_err e : calm (put_err e).
Proof. by intros w a w' [= _ <-]. Qed.
Lemma calm_lib_step {R} (op : libop R) : calm (lib_step op).
Proof. intros w a w'. unfold lib_step. destruct (lib_call _ _) as [[r reports] l]. by intros [= _ <-]. Qed.

End Keeping.

Ltac calm_auto :=
  repeat (intros; match goal with
  | |- calm (mbind _ _) => apply calm_bind
  | |- calm (mret _) => apply calm_ret
  | |- calm (fail _) => apply calm_fail
  | |- calm (nonnull _) => apply calm_nonnull
  | |- calm (upd_cur _) => apply calm_upd_cur; by intros []
  | |- calm (upd_conn _) => apply calm_upd_conn; by intros []
  | |- calm (set_gil _) => apply calm_set_gil
  | |- calm (put_live _) => apply calm_put_live
  | |- calm (put_err _) => apply calm_put_err
  | |- calm (lib_step _) => apply calm_lib_step
  | |- calm get_gil => apply calm_get
  | |- calm get_cur => apply calm_get
  | |- calm get_conn => apply calm_get
  | |- calm get_live => apply calm_get
  | |- calm (let _ := _ in _) => cbv zeta
  | |- calm (match ?x with _ => _ end) => destruct x
  | |- calm _ => solve [auto]
  end).

Section Agreement.

Context `{C : Client} `{P : PyLib}.

Lemma calm_py : calm py.
Proof. unfold py. calm_auto. Qed.
#[local] Hint Resolve calm_py : core.
Lemma calm_set_err e : calm (set_err e).
Proof. unfold set_err. calm_auto. Qed.
#[local] Hint Resolve calm_set_err : core.
Lemma calm_throw_message e msg : calm (throw_message e msg).
Proof. unfold throw_message. calm_auto. Qed.
#[local] Hint Resolve calm_throw_message : core.

(** The reports of the library may set an exception. *)
Lemma calm_report i : calm (MrdbConnection_process_status_info i).
Proof.
  unfold MrdbConnection_process_status_info, MARIADB_UNBLOCK_THREADS, MARIADB_BLOCK_THREADS,
    PyEval_SaveThread, PyEval_RestoreThread. calm_auto.
Qed.
#[local] Hint Resolve calm_report : core.
Lemma calm_reports l : calm (process_reports l).
Proof. induction l; simpl; calm_auto. Qed.
#[local] Hint Resolve calm_reports : core.
Lemma calm_call {R} (op : libop R) : calm (call op).
Proof. unfold call. calm_auto. Qed.
#[local] Hint Resolve calm_call : core.

Lemma calm_fetch_column n codec : calm (fetch_column n codec).
Proof. unfold fetch_column, read_fields. calm_auto. Qed.
#[local] Hint Resolve calm_fetch_column : core.
Lemma calm_text_columns row i n : calm (text_columns row i n).
Proof. revert i. induction n; intros i; simpl; unfold column_fromtext; calm_auto. Qed.
Lemma calm_binary_columns calls : calm (binary_columns calls).
Proof. induction calls as [|[i r] calls IH]; simpl; unfold column_callback; calm_auto. Qed.
#[local] Hint Resolve calm_text_columns calm_binary_columns : core.
Lemma calm_fetchinternal : calm MrdbCursor_fetchinternal.
Proof. unfold MrdbCursor_fetchinternal. calm_auto. Qed.

Lemma calm_set_columns row i n : calm (set_columns row i n).
Proof.
  revert row i. induction n; intros row i; simpl; unfold ma_set_result_column_value, set_item, read_fields;
    calm_auto.
Qed.
#[local] Hint Resolve calm_set_columns calm_fetchinternal : core.
Lemma calm_build_row : calm build_row.
Proof. unfold build_row, mariadb_get_sequence_or_tuple. calm_auto. Qed.
#[local] Hint Resolve calm_build_row : core.
Lemma calm_fetch_loop fuel i n acc : calm (fetch_loop fuel i n acc).
Proof. revert i acc. induction fuel; intros i acc; simpl; calm_auto. Qed.
Lemma calm_num_rows : calm CURSOR_NUM_ROWS.
Proof. unfold CURSOR_NUM_ROWS. calm_auto. Qed.

(** ** Row by row *)

(** [n] calls of [fetchone], until one gives no row. *)
Fixpoint fetch_times (n : nat) : M (list pyrow) :=
  match n with
  | O => mret []
  | S n' =>
      r ← MrdbCursor_fetchone;
      match r with
      | FetchRow row => l ← fetch_times n'; mret (row :: l)
      | _ => mret []
      end
  end.

(** An open cursor with a result set, the lock held.  A buffered result set
    outlives the connection, but for a server-side cursor. *)
Definition fetchable (w : world C) : Prop :=
  lock_state true w ∧ c_field_count (w_cur w) ≠ 0 ∧ c_closed (w_cur w) = false ∧
  (n_mysql (w_conn w) ≠ None ∨
   (c_is_buffered (w_cur w) = true ∧ c_cursor_type (w_cur w) ≠ CURSOR_TYPE_READ_ONLY)).

Lemma fetchable_keeps {A} (m : M A) w a w' :
  calm m -> lock (K := lock_only) true true m -> m w = Done a w' -> fetchable w -> fetchable w'.
Proof.
  intros Hc Hl H (Hw & Hf & Ho & Hb). destruct (Hc _ _ _ H) as (_ & E1 & E2 & E3 & E4 & E5).
  specialize (Hl w Hw). unfold lock_at in Hl. rewrite H in Hl. unfold fetchable.
  rewrite E1, E2, E3, E4, E5. by split_and!.
Qed.

(** The checks of [fetchone] pass, but for an exception that is set. *)
Lemma fetchone_step w :
  fetchable w ->
  MrdbCursor_fetchone w =
  match w_err w with
  | Some _ => Done FetchNull w
  | None =>
      (none ← MrdbCursor_fetchinternal;
       if none : bool then py;; mret FetchNone else row ← build_row; mret (FetchRow row)) w
  end.
Proof.
  intros (Hw & Hf & Ho & Hb). unfold MrdbCursor_fetchone.
  assert (PyErr_Occurred w = Done (bool_decide (is_Some (w_err w))) w) as E.
  { unfold PyErr_Occurred. by rewrite bind_eq, (py_held w Hw). }
  assert (E2 : (if c_cursor_type (w_cur w) =? CURSOR_TYPE_READ_ONLY then MARIADB_CHECK_STMT else mret ()) w
               = Done () w).
  { destruct (Z.eqb_spec (c_cursor_type (w_cur w)) CURSOR_TYPE_READ_ONLY) as [Ht|]; [|done].
    unfold MARIADB_CHECK_STMT, mbind, M_bind, get_cur, get_conn.
    destruct Hb as [Hm|[_ Ht']]; [|done]. by rewrite bool_decide_eq_false_2, Ho by done. }
  rewrite bind_eq. unfold get_cur at 1. rewrite bind_eq, E2, bind_eq, E.
  rewrite (proj2 (Z.eqb_neq (c_field_count _) _)) by done. by destruct (w_err w).
Qed.

(** Runs that end without an exception are the same. *)
Definition agree {A} (r1 r2 : run A) : Prop :=
  ∀ a w', w_err w' = None -> r1 = Done a w' ↔ r2 = Done a w'.

Lemma agree_refl {A} (r : run A) : agree r r.
Proof. done. Qed.

Lemma agree_bind {A B} (m1 m2 : M A) (k : A -> M B) w :
  (∀ a, calm (k a)) -> agree (m1 w) (m2 w) -> agree ((m1 ≫= k) w) ((m2 ≫= k) w).
Proof.
  intros Hk H b w' He.
  assert (Hi : ∀ m, (m ≫= k) w = Done b w' ↔ ∃ a w1, m w = Done a w1 ∧ k a w1 = Done b w' ∧ w_err w1 = None).
  { intros m. split.
    - intros (a & w1 & E1 & E2)%bind_Done. exists a, w1. split_and!; [done..|].
      destruct (Hk a _ _ _ E2) as [Hs _]. destruct (w_err w1); [by destruct Hs|done].
    - intros (a & w1 & E1 & E2 & _). by rewrite bind_eq, E1. }
  rewrite !Hi. split; intros (a & w1 & E1 & E2 & E3); exists a, w1; split_and!; try done; by apply H.
Qed.

(** With an exception set [fetchrows] goes on, but not to a run without one. *)
Lemma agree_failed {A} (m : M A) (r : run A) w :
  calm m -> w_err w ≠ None -> (∀ a w', r = Done a w' -> w_err w' ≠ None) -> agree (m w) r.
Proof.
  intros Hm He Hr a w' He'. split; intros E.
  - by destruct (Hm _ _ _ E) as [[] _].
  - by destruct (Hr _ _ E).
Qed.

Lemma fetch_loop_times fuel i n acc w :
  fetchable w -> i <= n ->
  fetch_loop fuel i n acc w = Stuck OutOfFuel ∨
  agree (fetch_loop fuel i n acc w) ((l ← fetch_times (Z.to_nat (n - i)); mret (acc ++ l)) w).
Proof.
  revert i acc w. induction fuel as [|fuel IH]; intros i acc w Hf Hi;
    (destruct (w_err w) as [e|] eqn:He;
      [right; apply agree_failed; [apply calm_fetch_loop|congruence|];
       destruct (Z.to_nat (n - i)); cbn; rewrite bind_eq; cbn;
       [intros ? ? [= _ <-]; congruence|rewrite bind_eq, fetchone_step, He by done; intros ? ? [= _ <-]; congruence]|]);
    simpl; (destruct (Z.ltb_spec i n) as [Hlt|Hge];
      [|right; replace (n - i) with 0 by lia; simpl; rewrite bind_eq; unfold mret, M_ret;
        rewrite app_nil_r; apply agree_refl]); [by left|].
  replace (Z.to_nat (n - i)) with (S (Z.to_nat (n - (i + 1)))) by lia. simpl.
  rewrite (bind_eq MrdbCursor_fetchinternal), (bind_eq (MrdbCursor_fetchone ≫= _)),
    (bind_eq MrdbCursor_fetchone), (fetchone_step w Hf), He, (bind_eq MrdbCursor_fetchinternal).
  destruct (MrdbCursor_fetchinternal w) as [none w1|s] eqn:E1; [|right; apply agree_refl].
  assert (Hf1 : fetchable w1)
    by (eapply fetchable_keeps; [apply calm_fetchinternal|apply lock_fetchinternal|exact E1|done]).
  destruct none.
  { right. rewrite bind_eq, py_held by apply Hf1. unfold mret, M_ret. rewrite app_nil_r. apply agree_refl. }
  rewrite !bind_eq. destruct (build_row w1) as [row w2|s] eqn:E2; [|right; apply agree_refl].
  assert (Hf2 : fetchable w2)
    by (eapply fetchable_keeps; [apply calm_build_row|apply lock_build_row|exact E2|done]).
  rewrite bind_eq, py_held by apply Hf2. unfold mret at 1, M_ret at 1. cbv beta iota.
  destruct (IH (i + 1) (acc ++ [row]) w2 Hf2) as [H|H]; [lia|by left|right].
  intros l w' Hw'. rewrite (H l w' Hw'), !bind_eq. destruct (fetch_times _ w2) as [l' w3|s]; [|done].
  unfold mret, M_ret. by rewrite <- app_assoc.
Qed.

End Agreement.


(** ** Witness *)

Lemma demo_fetches : fetches_succeed (C := demo_client).
Proof.
  intros s l rc calls reports l'. simpl. unfold take_row.
  destruct (d_rows l); intros [=]; [by right|by left].
Qed.

Lemma demo_fetchable : fetchable (after demo_text).
Proof.
  split; [by vm_compute|]. split; [apply (bool_decide_unpack _); by vm_compute|].
  split; [by vm_compute|]. right. split; [by vm_compute|]. apply (bool_decide_unpack _). by vm_compute.
Qed.

Definition run_world {A} (r : run (C := demo_client) A) : world demo_client :=
  match r with Done _ w => w | Stuck _ => demo_world end.


(** The rows of the script. *)
Lemma demo_fetch_all :
  ∃ w, MrdbCursor_fetchrows (PyLong (-1)) (after demo_text) =
       Done (Some [RowTuple [Some (PyUnicode (bytes_of_string "x"))];
                   RowTuple [Some (PyUnicode (bytes_of_string "y"))]]) w.
Proof. eexists. vm_compute. reflexivity. Qed.

(** ** What goes wrong *)

(** The same result set, with an integer column. *)
Definition as_integer (f : MYSQL_FIELD) : MYSQL_FIELD :=
  mkField MYSQL_TYPE_LONG (flags f) (charsetnr f) (max_length f) (attr f) (finfo f).

Definition integer_world : world demo_client :=
  let w := after demo_text in
  mkWorld (w_lib w) (w_live w) (w_next w) (w_gil w) (w_conn w)
    (set_c_fields (match c_fields (w_cur w) with
                   | Some (h, fs) => Some (h, map as_integer fs)
                   | None => None
                   end) (w_cur w)) (w_err w).

(** A text that is no integer sets an exception and leaves a null item in the
    row, which is returned all the same: the interpreter makes a [SystemError]
    of that.  The next [fetchone] stops at the exception, [fetchrows] goes on. *)
Lemma conversion_failure_goes_on :
  (∃ w, MrdbCursor_fetchone integer_world = Done (FetchRow (RowTuple [None])) w ∧
        w_err w = Some PyConversionError ∧ MrdbCursor_fetchone w = Done FetchNull w) ∧
  ∃ w, MrdbCursor_fetchrows (PyLong 2) integer_world
       = Done (Some [RowTuple [None]; RowTuple [None]]) w ∧ w_err w = Some PyConversionError.
Proof. split; eexists; (split; [vm_compute; reflexivity|]); [split|]; vm_compute; reflexivity. Qed.

(** The row count and the fields stay behind on a closed cursor, the statement
    handle does not: [fetchone] on a closed cursor that had a result set
    dereferences a null pointer instead of raising an exception. *)
Lemma closed_fetch_undefined `{C : Client} `{P : PyLib} (w : world C) (c : MrdbCursor) :
  lock_state true w -> w_err w = None -> c_field_count (w_cur w) ≠ 0 ->
  c_cursor_type (w_cur w) ≠ CURSOR_TYPE_READ_ONLY ->
  w_cur w = closed_cursor c -> kept_stmt c = None -> MrdbCursor_fetchone w = Stuck NullPointer.
Proof.
  intros Hw He Hf Ht Ec Hk. unfold MrdbCursor_fetchone.
  assert (E : PyErr_Occurred w = Done false w)
    by (unfold PyErr_Occurred; by rewrite bind_eq, py_held, bind_eq; unfold get_err; rewrite ?He).
  rewrite bind_eq. unfold get_cur at 1. rewrite (proj2 (Z.eqb_neq (c_cursor_type _) _)) by done.
  rewrite bind_eq. cbv [mret M_ret]. rewrite bind_eq, E, (proj2 (Z.eqb_neq (c_field_count _) _)) by done.
  unfold MrdbCursor_fetchinternal, mbind, M_bind, upd_cur, get_cur. rewrite Ec. cbn. by rewrite Hk.
Qed.

Section FailingFetch.

Context `{C : Client} `{P : PyLib}.

(** A statement whose fetches fail, as when the connection is lost. *)
Context (Hfail : ∀ s l, lib_call (mysql_stmt_fetch s) l = ((1, []), [], l)).

(** A binary cursor with tuples and an array of values. *)
Definition binary_tuple (w : world C) : Prop :=
  lock_state true w ∧ p_is_text (c_parseinfo (w_cur w)) = false ∧
  (∃ s, c_stmt (w_cur w) = Some s ∧ is_Some (w_live w !! s)) ∧
  c_result_format (w_cur w) = RESULT_TUPLE ∧
  (∃ vs, c_values (w_cur w) = Some vs ∧ (Z.to_nat (c_field_count (w_cur w)) <= length vs)%nat).

Lemma set_columns_tuple vs l i n w :
  lock_state true w -> c_values (w_cur w) = Some vs -> (i + n <= length vs)%nat ->
  (i + n <= length l)%nat -> ∃ l', set_columns (RowTuple l) i n w = Done (RowTuple l') w.
Proof.
  intros Hw Hv. revert l i. induction n as [|n IH]; intros l i Hn Hl; [by exists l|].
  destruct (lookup_lt_is_Some_2 vs i) as [v Ev]; [lia|].
  assert (E : ma_set_result_column_value (RowTuple l) i w = Done (RowTuple (<[i := v]> l)) w).
  { unfold ma_set_result_column_value, set_item, mbind, M_bind. rewrite py_held by done.
    unfold get_cur. rewrite Hv. cbn -[Nat.ltb]. rewrite Ev. cbn -[Nat.ltb].
    by rewrite (proj2 (Nat.ltb_lt _ _)) by lia. }
  simpl. rewrite bind_eq, E. apply IH; rewrite ?length_insert; lia.
Qed.

Lemma failing_fetchinternal w :
  binary_tuple w -> ∃ w', MrdbCursor_fetchinternal w = Done false w' ∧ binary_tuple w'.
Proof.
  intros (Hl & Ht & (s & Es & k & Hs) & Hr & vs & Hv & Hlen).
  unfold MrdbCursor_fetchinternal, call, lib_step, mbind, M_bind, upd_cur, get_cur, get_live, put_live,
    nonnull. cbn -[lib_call MYSQL_NO_DATA]. rewrite Ht, Es. cbn -[lib_call MYSQL_NO_DATA].
  rewrite Hs. cbn -[lib_call MYSQL_NO_DATA]. rewrite Hfail. cbn. eexists. split; [reflexivity|].
  unfold binary_tuple. cbn. eauto 10.
Qed.

Lemma failing_build_row w :
  binary_tuple w -> ∃ row w', build_row w = Done row w' ∧ binary_tuple w'.
Proof.
  intros (Hl & Ht & Hs & Hr & vs & Hv & Hlen).
  set (w' := mkWorld (w_lib w) (w_live w) (w_next w) (w_gil w) (w_conn w)
    (set_c_row_number (u64 (c_row_number (w_cur w) + 1)) (w_cur w)) (w_err w)).
  destruct (set_columns_tuple vs (repeat None (Z.to_nat (c_field_count (w_cur w)))) 0
    (Z.to_nat (c_field_count (w_cur w))) w') as [l Hc]; [done|done|done|by rewrite repeat_length|].
  exists (RowTuple l), w'. split; [|unfold binary_tuple; cbn; eauto 10].
  unfold build_row, mariadb_get_sequence_or_tuple, mbind, M_bind, upd_cur, get_cur. fold w'.
  rewrite (py_held w') by done. cbn -[set_columns]. by rewrite Hr.
Qed.

(** Every fetch counts as a row, so a loop over all rows does not end: it runs
    out of any fuel below the number of rows asked for. *)
Lemma fetch_error_never_ends fuel i n acc w :
  binary_tuple w -> i + Z.of_nat fuel < n -> fetch_loop fuel i n acc w = Stuck OutOfFuel.
Proof.
  revert i acc w. induction fuel as [|fuel IH]; intros i acc w Hw Hn; simpl;
    rewrite (proj2 (Z.ltb_lt _ _)) by lia; [done|].
  destruct (failing_fetchinternal w Hw) as (w1 & E1 & Hw1).
  destruct (failing_build_row w1 Hw1) as (row & w2 & E2 & Hw2).
  rewrite (bind_run _ _ _ _ _ E1). cbv iota. rewrite (bind_run _ _ _ _ _ E2).
  rewrite (bind_run _ _ _ _ _ (py_held w2 (proj1 Hw2))). apply IH; [done|lia].
Qed.

End FailingFetch.
