(* ===== verification/CursorArrays.v ===== *)
(** * The arrays of a cursor

    [params] and [value] are allocated when parameters are checked, reused by
    later executions, and indexed by [parseinfo.paramcount], which every parse
    may change.  In every session each of them is null or has at least
    [paramcount] elements, which is what the loops that index them need. *)

From stdpp Require Import gmap.
From S2P Require Import Prelude Parser Values DateTime Wire Fetch Exceptions Params Client.
From S2P Require Import Connection Cursor Session CursorLogic SessionSafety Demo.

Definition fits {A : Type} (n : Z) (o : option (list A)) : Prop :=
  match o with Some l => n <= Z.of_nat (length l) | None => True end.

Definition arrays_ok (c : MrdbCursor) : Prop :=
  fits (p_paramcount (c_parseinfo c)) (c_params c) ∧
  fits (p_paramcount (c_parseinfo c)) (c_value c).

(** ** Computations that keep the invariant *)

Definition keeps `{C : Client} {A : Type} (m : M A) : Prop :=
  ∀ w a w', m w = Done a w' -> arrays_ok (w_cur w) -> arrays_ok (w_cur w').

Section Rules.

Context `{C : Client}.

Lemma keeps_bind {A B} (m : M A) (k : A -> M B) : keeps m -> (∀ a, keeps (k a)) -> keeps (m ≫= k).
Proof.
  intros Hm Hk w b w' H Hw. apply bind_Done in H as (a & w1 & H1 & H2).
  exact (Hk _ _ _ _ H2 (Hm _ _ _ H1 Hw)).
Qed.

Lemma keeps_quiet {A} (m : M A) : is_quiet m -> keeps m.
Proof. intros Hq w a w' H Hw. apply Hq in H as (E & _). by rewrite E. Qed.

Lemma keeps_upd_cur f : (∀ c, arrays_ok c -> arrays_ok (f c)) -> keeps (upd_cur f).
Proof. intros Hf w a w' [= _ <-]. apply Hf. Qed.

Lemma keeps_upd_conn f : keeps (upd_conn f).
Proof. by intros w a w' [= _ <-]. Qed.

Lemma keeps_call {R} (op : libop R) : keeps (call op).
Proof. intros w a w' H Hw. apply call_Done in H as (E & _). by rewrite E. Qed.

Lemma keeps_create op k : keeps (create op k).
Proof. intros w a w' H Hw. apply create_Done in H as (E & _). by rewrite E. Qed.

End Rules.

Create HintDb keeps discriminated.
#[export] Hint Resolve keeps_call keeps_create keeps_upd_conn : keeps.

(** An update of the cursor: the fields that count are kept or set to null. *)
Ltac keeps_update :=
  apply keeps_upd_cur; intros [] [? ?]; unfold arrays_ok, fits in *; cbn in *;
  repeat case_match; split_and!; done || lia.

Ltac keeps_auto :=
  repeat (intros; match goal with
  | |- keeps (mbind _ _) => apply keeps_bind
  | |- keeps (let _ := _ in _) => cbv zeta
  | |- keeps (match ?x with _ => _ end) => destruct x eqn:?
  | |- keeps _ => solve [eauto 2 with keeps nocore]
  | |- keeps (upd_cur _) => keeps_update
  | |- keeps _ => apply keeps_quiet; solve [quiet_auto]
  end).

Section Connections.

Context `{C : Client} `{P : PyLib}.

Lemma keeps_throw_diag op : keeps (throw_diag op).
Proof. unfold throw_diag. keeps_auto. Qed.
#[local] Hint Resolve keeps_throw_diag : keeps.

Lemma keeps_check_connection {A} (ret : A) k :
  (∀ m, keeps (k m)) -> keeps (MARIADB_CHECK_CONNECTION ret k).
Proof. intros Hk. unfold MARIADB_CHECK_CONNECTION. keeps_auto. Qed.

Lemma keeps_set_options m l : keeps (set_options m l).
Proof. induction l; simpl; keeps_auto. Qed.
#[local] Hint Resolve keeps_set_options : keeps.

Lemma keeps_c_long r : keeps (c_long r).
Proof. unfold c_long. keeps_auto. Qed.
#[local] Hint Resolve keeps_c_long : keeps.

Lemma keeps_Initialize args : keeps (MrdbConnection_Initialize args).
Proof. unfold MrdbConnection_Initialize, connect_unlocked, connect_end. keeps_auto. Qed.

Lemma keeps_unlocked m op : keeps (unlocked_command m op).
Proof. unfold unlocked_command, return_none. keeps_auto. Qed.

Lemma keeps_X509 info : keeps (MrdbConnection_X509info info).
Proof. unfold MrdbConnection_X509info. keeps_auto. Qed.
#[local] Hint Resolve keeps_X509 : keeps.

Lemma keeps_getinfo o : keeps (MrdbConnection_getinfo o).
Proof. unfold MrdbConnection_getinfo, return_long, return_none, return_unicode. keeps_auto. Qed.

Lemma keeps_close_handle m : keeps (close_handle m).
Proof. unfold close_handle. keeps_auto. Qed.

End Connections.

#[export] Hint Resolve keeps_throw_diag keeps_c_long keeps_Initialize keeps_unlocked keeps_getinfo
  keeps_close_handle : keeps.
#[export] Hint Extern 1 (keeps (MARIADB_CHECK_CONNECTION _ _)) =>
  apply keeps_check_connection; intros; keeps_auto : keeps.

(** ** The lengths of the arrays *)

Lemma obind_Ok {A B} (o : outcome A) (k : A -> outcome B) b :
  obind o k = Ok b -> ∃ a, o = Ok a ∧ k a = Ok b.
Proof. destruct o; simpl; [eauto|done..]. Qed.

Lemma oget_Ok {A} (o : option A) a : oget o = Ok a -> o = Some a.
Proof. by destruct o as [x|]; intros [=]; subst. Qed.

Lemma param_infos_length self i n ps ps' :
  param_infos self i n ps = Ok ps' -> length ps' = length ps.
Proof.
  revert i ps. induction n as [|n IH]; intros i ps; simpl; [by intros [= ->]|].
  intros H. apply obind_Ok in H as (p & _ & H). apply obind_Ok in H as (p' & _ & H).
  rewrite (IH _ _ H). apply length_insert.
Qed.

Lemma param_infos_upto_length self i n ps : length (param_infos_upto self i n ps) = length ps.
Proof.
  revert i ps. induction n as [|n IH]; intros i ps; simpl; [done|].
  destruct (ps !! i); [|done].
  destruct (mariadb_get_parameter_info _ _ _); rewrite ?IH; apply length_insert.
Qed.

Lemma update_columns_length `{P : PyLib} self r i n bs vs e bs' vs' e' :
  update_columns pl_is_num pl_str pl_as_double self r i n bs vs e = Ok (bs', vs', e') ->
  length bs' = length bs ∧ length vs' = length vs.
Proof.
  revert i bs vs e. induction n as [|n IH]; intros i bs vs e; simpl; [by intros [= <- <- _]|].
  intros H. repeat (apply obind_Ok in H as (? & _ & H)). case_match; [|done].
  destruct p as [[b v] er]. apply IH in H as [-> ->]. by rewrite !length_insert.
Qed.

(** The array of a check: the one that is there, or a new one. *)
Lemma fits_repeat {A} (n : Z) (x : A) : fits n (Some (repeat x (Z.to_nat n))).
Proof. simpl. rewrite repeat_length. lia. Qed.

Lemma fits_0 {A} (o : option (list A)) : fits 0 o.
Proof. destruct o; simpl; [lia|done]. Qed.

Lemma check_execute_fits p v self data self' :
  mariadb_check_execute_parameters p v self data = Ok self' ->
  fits (paramcount self) (params self) -> fits (paramcount self) (pvalues self) ->
  fits (paramcount self) (params self') ∧ fits (paramcount self) (pvalues self').
Proof.
  unfold mariadb_check_execute_parameters. intros H Hp Hv.
  destruct (paramcount self =? 0); [done|].
  apply obind_Ok in H as (s1 & H1 & H). apply obind_Ok in H as (s2 & H2 & H).
  apply obind_Ok in H as (ps & H3 & H). apply oget_Ok in H3.
  apply obind_Ok in H as (ps' & H4 & [= <-]). apply param_infos_length in H4.
  assert (fits (paramcount self) (params s1) ∧ fits (paramcount self) (pvalues s1)) as [Hp1 Hv1].
  { destruct (params self) eqn:E; [injection H1 as <-; rewrite E; done|].
    destruct p; [|done]. injection H1 as <-. split; [apply fits_repeat|done]. }
  assert (fits (paramcount self) (params s2) ∧ fits (paramcount self) (pvalues s2)) as [Hp2 Hv2].
  { destruct (pvalues s1) eqn:E; [injection H2 as <-; rewrite E; done|].
    destruct v; [|done]. injection H2 as <-. split; [done|apply fits_repeat]. }
  split; [|done]. rewrite H3 in Hp2. simpl in *. by rewrite H4.
Qed.

Lemma check_bulk_fits p v self data self' :
  mariadb_check_bulk_parameters p v self data = Ok self' ->
  fits (paramcount self) (params self) ->
  fits (paramcount self) (params self') ∧ fits (paramcount self) (pvalues self').
Proof.
  unfold mariadb_check_bulk_parameters. intros H Hp.
  destruct (negb (is_sequence data)); [done|]. cbv zeta in H.
  destruct (array_size _ =? 0); [done|]. apply obind_Ok in H as (_ & _ & H).
  destruct (negb (is_prepared _) && negb p); [done|]. destruct (negb v); [done|].
  apply obind_Ok in H as (ps & H1 & H). apply oget_Ok in H1.
  apply obind_Ok in H as (ps' & H2 & [= <-]). apply param_infos_length in H2.
  revert H1. cbn. destruct (is_prepared self); cbn; intros H1.
  - rewrite H1 in Hp. cbn in Hp. rewrite H2, repeat_length. lia.
  - injection H1 as <-. rewrite H2, !repeat_length. lia.
Qed.

Lemma after_failure_fits al self :
  fits (paramcount self) (params self) ->
  fits (paramcount self) (params_after_failure al self).
Proof.
  intros Hp. unfold params_after_failure. destruct (paramcount self =? 0); [done|].
  destruct (params self) as [ps|]; [|destruct (al_params al); [|done]];
    (destruct (bool_decide _ || _); simpl; rewrite ?param_infos_upto_length, ?repeat_length; [done || lia..]).
Qed.

Lemma bulk_after_failure_fits al self data :
  fits (paramcount self) (params self) -> fits (paramcount self) (pvalues self) ->
  fits (paramcount self) (params (bulk_after_failure al self data)) ∧
  fits (paramcount self) (pvalues (bulk_after_failure al self data)).
Proof.
  intros Hp Hv. unfold bulk_after_failure. destruct (negb _); [done|]. cbv zeta.
  destruct (check_rows _ _ _ _); [|done..]. destruct (_ =? 0); [done|]. split; [|done].
  cbn [is_prepared set_array_size params paramcount].
  destruct (al_value al), (is_prepared self), (al_params al), (params self); cbn in *;
    rewrite ?param_infos_upto_length, ?repeat_length; [done || lia..].
Qed.

(** ** Cursors *)

Section Cursors.

Context `{C : Client} `{P : PyLib}.

Lemma keeps_parseinfo : keeps parseinfo.
Proof. unfold parseinfo. keeps_auto. Qed.
Lemma keeps_the_mysql : keeps the_mysql.
Proof. unfold the_mysql. keeps_auto. Qed.
Lemma keeps_read_fields : keeps read_fields.
Proof. unfold read_fields. keeps_auto. Qed.
Lemma keeps_none : keeps return_none.
Proof. unfold return_none. keeps_auto. Qed.
Lemma keeps_bool b : keeps (return_bool b).
Proof. unfold return_bool. keeps_auto. Qed.
Lemma keeps_long z : keeps (return_long z).
Proof. unfold return_long. keeps_auto. Qed.
#[local] Hint Resolve keeps_parseinfo keeps_the_mysql keeps_read_fields keeps_none keeps_bool
  keeps_long : keeps.

Lemma keeps_by_protocol t s : (∀ m, keeps (t m)) -> keeps (by_protocol t s).
Proof. intros Ht. unfold by_protocol. keeps_auto. Qed.
#[local] Hint Extern 1 (keeps (by_protocol _ _)) => apply keeps_by_protocol; intros; keeps_auto : keeps.

Lemma keeps_field_count : keeps CURSOR_FIELD_COUNT.
Proof. unfold CURSOR_FIELD_COUNT. keeps_auto. Qed.
Lemma keeps_affected_rows : keeps CURSOR_AFFECTED_ROWS.
Proof. unfold CURSOR_AFFECTED_ROWS. keeps_auto. Qed.
Lemma keeps_insert_id : keeps CURSOR_INSERT_ID.
Proof. unfold CURSOR_INSERT_ID. keeps_auto. Qed.
Lemma keeps_warning_count : keeps CURSOR_WARNING_COUNT.
Proof. unfold CURSOR_WARNING_COUNT. keeps_auto. Qed.
Lemma keeps_num_rows : keeps CURSOR_NUM_ROWS.
Proof. unfold CURSOR_NUM_ROWS. keeps_auto. Qed.
Lemma keeps_check_stmt : keeps MARIADB_CHECK_STMT.
Proof. unfold MARIADB_CHECK_STMT. keeps_auto. Qed.
Lemma keeps_check_stmt_fetch : keeps MARIADB_CHECK_STMT_FETCH.
Proof. unfold MARIADB_CHECK_STMT_FETCH. keeps_auto. Qed.
#[local] Hint Resolve keeps_field_count keeps_affected_rows keeps_insert_id keeps_warning_count
  keeps_num_rows keeps_check_stmt keeps_check_stmt_fetch : keeps.

Lemma keeps_cur_initialize args : keeps (MrdbCursor_initialize args).
Proof. unfold MrdbCursor_initialize, upd_parseinfo. keeps_auto. Qed.

Lemma keeps_clearparseinfo : keeps MrdbCursor_clearparseinfo.
Proof. unfold MrdbCursor_clearparseinfo, upd_parseinfo. keeps_auto. Qed.
#[local] Hint Resolve keeps_cur_initialize keeps_clearparseinfo : keeps.

Lemma keeps_drain_stmt fuel s : keeps (drain_stmt fuel s).
Proof. induction fuel; simpl; keeps_auto. Qed.
Lemma keeps_drain_text fuel m : keeps (drain_text fuel m).
Proof. induction fuel; simpl; keeps_auto. Qed.
#[local] Hint Resolve keeps_drain_stmt keeps_drain_text : keeps.

Lemma keeps_clear_result : keeps MrdbCursor_clear_result.
Proof. unfold MrdbCursor_clear_result, drain_stmt_results, drain_text_results. keeps_auto. Qed.
Lemma keeps_FreeValues : keeps MrdbCursor_FreeValues.
Proof. unfold MrdbCursor_FreeValues. keeps_auto. Qed.
#[local] Hint Resolve keeps_clear_result keeps_FreeValues : keeps.

Lemma keeps_clear b : keeps (MrdbCursor_clear b).
Proof. unfold MrdbCursor_clear. keeps_auto. Qed.
#[local] Hint Resolve keeps_clear : keeps.

Lemma keeps_close : keeps ma_cursor_close.
Proof. unfold ma_cursor_close. keeps_auto. Qed.
#[local] Hint Resolve keeps_close : keeps.

Lemma keeps_fetch_column n codec : keeps (fetch_column n codec).
Proof. unfold fetch_column. keeps_auto. Qed.
#[local] Hint Resolve keeps_fetch_column : keeps.

Lemma keeps_text_columns row i n : keeps (text_columns row i n).
Proof. revert i. induction n; intros i; simpl; unfold column_fromtext; keeps_auto. Qed.
Lemma keeps_binary_columns calls : keeps (binary_columns calls).
Proof. induction calls as [|[i r] calls IH]; simpl; unfold column_callback; keeps_auto. Qed.
#[local] Hint Resolve keeps_text_columns keeps_binary_columns : keeps.

Lemma keeps_fetchinternal : keeps MrdbCursor_fetchinternal.
Proof. unfold MrdbCursor_fetchinternal. keeps_auto. Qed.
Lemma keeps_set_columns row i n : keeps (set_columns row i n).
Proof.
  revert row i. induction n; intros row i; simpl; unfold ma_set_result_column_value, set_item; keeps_auto.
Qed.
#[local] Hint Resolve keeps_fetchinternal keeps_set_columns : keeps.

Lemma keeps_build_row : keeps build_row.
Proof. unfold build_row, mariadb_get_sequence_or_tuple. keeps_auto. Qed.
#[local] Hint Resolve keeps_build_row : keeps.

Lemma keeps_fetch_loop fuel i n acc : keeps (fetch_loop fuel i n acc).
Proof. revert i acc. induction fuel; intros i acc; simpl; keeps_auto. Qed.
Lemma keeps_describe i n acc : keeps (describe_fields i n acc).
Proof. revert i acc. induction n; intros i acc; simpl; keeps_auto. Qed.
Lemma keeps_text_types data i n : keeps (text_types_loop data i n).
Proof. revert i. induction n; intros i; simpl; keeps_auto. Qed.
#[local] Hint Resolve keeps_fetch_loop keeps_describe keeps_text_types : keeps.

Context (al : allocations).

Lemma keeps_InitResultSet : keeps (MrdbCursor_InitResultSet al).
Proof. unfold MrdbCursor_InitResultSet, Mrdb_GetFieldInfo. keeps_auto. Qed.
#[local] Hint Resolve keeps_InitResultSet : keeps.

Lemma keeps_nextset : keeps (MrdbCursor_nextset al).
Proof. unfold MrdbCursor_nextset. keeps_auto. Qed.

(** ** Parameters *)

Lemma quiet_raise {A} (o : outcome A) : is_quiet (raise_outcome o).
Proof. unfold raise_outcome. quiet_auto. Qed.

Lemma raise_Some {A} (o : outcome A) (w w' : world C) a :
  raise_outcome o w = Done (Some a) w' -> o = Ok a.
Proof.
  destruct o; simpl; intros H; [by injection H as ->|..]; [|done|done].
  apply bind_Done in H as (? & ? & _ & [=]).
Qed.

Lemma keeps_check_execute data caps : keeps (check_execute_parameters al data caps).
Proof.
  unfold check_execute_parameters. apply keeps_bind; [keeps_auto|intros _].
  intros w a w' H [Hp Hv]. apply bind_Done in H as (c & w1 & [= <- <-] & H).
  cbv zeta in H. apply bind_Done in H as (r & w2 & H2 & H).
  pose proof (quiet_raise _ _ _ _ H2) as (E2 & _).
  destruct r as [self'|]; apply bind_Done in H as (u & w3 & [= _ <-] & [= _ <-]); cbn; rewrite E2.
  - apply raise_Some in H2. apply check_execute_fits in H2 as [? ?]; [|done..].
    unfold arrays_ok. cbn. done.
  - unfold arrays_ok. cbn. split; [|done].
    apply (after_failure_fits al (to_params (w_cur w) data caps)); done.
Qed.

Lemma keeps_check_bulk data caps : keeps (check_bulk_parameters al data caps).
Proof.
  unfold check_bulk_parameters. apply keeps_bind; [keeps_auto|intros _].
  intros w a w' H [Hp Hv]. apply bind_Done in H as (c & w1 & [= <- <-] & H).
  apply bind_Done in H as (r & w2 & H2 & H). pose proof (quiet_raise _ _ _ _ H2) as (E2 & _).
  destruct r as [self'|]; apply bind_Done in H as (u & w3 & [= _ <-] & [= _ <-]); cbn; rewrite E2.
  - apply raise_Some in H2. apply check_bulk_fits in H2 as [? ?]; [|done..].
    unfold arrays_ok. cbn. done.
  - unfold arrays_ok. cbn. by apply (bulk_after_failure_fits al (to_params (w_cur w) data caps)).
Qed.

(** What loading a row does to the arrays. *)
Lemma param_update_Done data caps bs row_nr w r w' :
  param_update data caps bs row_nr w = Done r w' -> arrays_ok (w_cur w) ->
  arrays_ok (w_cur w') ∧ c_params (w_cur w') = c_params (w_cur w) ∧
  c_parseinfo (w_cur w') = c_parseinfo (w_cur w) ∧ ∀ bs', r = Some bs' -> length bs' = length bs.
Proof.
  unfold param_update. intros H [Hp Hv].
  apply bind_Done in H as (u & w0 & H0 & H). apply quiet_py in H0 as (E0 & _).
  apply bind_Done in H as (c & w1 & [= <- <-] & H).
  apply bind_Done in H as (o & w2 & H2 & H). pose proof (quiet_raise _ _ _ _ H2) as (E2 & _).
  destruct o as [[[bs' vs] e]|]; [|by injection H as <- <-; rewrite E2, E0].
  apply raise_Some in H2. unfold mariadb_param_update in H2.
  apply obind_Ok in H2 as (vs0 & H3 & H2). apply oget_Ok in H3. cbn in H3.
  apply update_columns_length in H2 as [Hb Hl]. rewrite E0 in *. rewrite H3 in Hv.
  apply bind_Done in H as (u' & w3 & [= _ <-] & H).
  apply bind_Done in H as (u'' & w4 & H4 & [= <- <-]).
  assert (Hq : is_quiet (if e : bool then set_err PyOverflowError else mret ())) by quiet_auto.
  apply Hq in H4 as (E4 & _). cbn in E4. rewrite E4, E2. unfold arrays_ok, fits in *. cbn. rewrite Hl.
  split_and!; try done. by intros ? [= <-].
Qed.

Lemma keeps_param_update data caps bs row_nr : keeps (param_update data caps bs row_nr).
Proof. intros w a w' H Hw. exact (proj1 (param_update_Done _ _ _ _ _ _ _ H Hw)). Qed.
#[local] Hint Resolve keeps_param_update : keeps.

Lemma keeps_load data caps : keeps (load_parameters al data caps).
Proof.
  unfold load_parameters. apply keeps_bind; [apply keeps_check_execute|intros ok].
  destruct ok; [|keeps_auto].
  intros w a w' H Hw. apply bind_Done in H as (c & w1 & [= <- <-] & H).
  apply bind_Done in H as (bs & w2 & H2 & H).
  assert (c_params (w_cur w) = Some bs ∧ w2 = w) as [Hb ->]
    by (destruct (c_params (w_cur w)); cbn in H2; [injection H2 as <- <-; done|discriminate]).
  apply bind_Done in H as (r & w3 & H3 & H). apply param_update_Done in H3 as (Hw3 & E1 & E2 & E3); [|done].
  destruct r as [bs'|]; [|injection H as _ <-; done].
  apply bind_Done in H as (u & w4 & [= _ <-] & [= _ <-]). cbn.
  destruct Hw3 as [Hp Hv], Hw as [Hp0 _]. unfold arrays_ok. cbn. rewrite E2 in *.
  split_and!; try done. rewrite Hb in Hp0. unfold fits in *. by rewrite (E3 bs' eq_refl).
Qed.
#[local] Hint Resolve keeps_check_execute keeps_check_bulk keeps_load : keeps.

Lemma keeps_param_callbacks data caps bs rows : keeps (param_callbacks data caps bs rows).
Proof. revert bs. induction rows; intros bs; simpl; keeps_auto. Qed.
Lemma keeps_capability : keeps bulk_capability.
Proof. unfold bulk_capability. keeps_auto. Qed.
#[local] Hint Resolve keeps_param_callbacks keeps_capability : keeps.

Lemma keeps_execute_direct s stmt : keeps (Mrdb_execute_direct s stmt).
Proof. unfold Mrdb_execute_direct. keeps_auto. Qed.
Lemma keeps_ensure_stmt : keeps ensure_stmt.
Proof. unfold ensure_stmt. keeps_auto. Qed.
#[local] Hint Resolve keeps_execute_direct keeps_ensure_stmt : keeps.

Lemma keeps_execute_binary : keeps (MrdbCursor_execute_binary al).
Proof. apply keeps_check_connection. unfold submit_binary. keeps_auto. Qed.
Lemma keeps_execute_bulk : keeps (MrdbCursor_execute_bulk al).
Proof. unfold MrdbCursor_execute_bulk, bulk_error. keeps_auto. Qed.

(** ** Parsing *)

Lemma quiet_parser_keys ks i n : is_quiet (parser_keys ks i n).
Proof. revert i. induction n; intros i; simpl; quiet_auto. Qed.
Lemma quiet_end_parser p : is_quiet (end_parser p).
Proof. unfold end_parser. quiet_auto. Qed.
Lemma keeps_end_parser p : keeps (end_parser p).
Proof. apply keeps_quiet, quiet_end_parser. Qed.
#[local] Hint Resolve keeps_end_parser : keeps.

(** Before the count changes the arrays are freed, unless it is the old one or
    zero. *)
Lemma keeps_save_parser old p w u w' :
  save_parser al old p w = Done u w' ->
  fits old (c_params (w_cur w)) -> fits old (c_value (w_cur w)) -> arrays_ok (w_cur w').
Proof.
  unfold save_parser. intros H Hp Hv. apply bind_Done in H as (u1 & w1 & H1 & H).
  assert (Hw1 : fits (param_count p) (c_params (w_cur w1)) ∧ fits (param_count p) (c_value (w_cur w1))).
  { destruct (negb (param_count p =? 0) && negb (param_count p =? old)) eqn:E.
    - apply bind_Done in H1 as (u2 & w2 & [= _ <-] & H1). apply bind_Done in H1 as (u3 & w3 & H3 & [= _ <-]).
      unfold MrdbCursor_FreeValues in H3. apply bind_Done in H3 as (c & w4 & [= <- <-] & H3). cbn in H3.
      destruct (c_value (w_cur w)) eqn:Ev; [destruct (_ <? _); [done|]|]; injection H3 as _ <-; cbn;
        by rewrite ?Ev.
    - injection H1 as _ <-. apply andb_false_iff in E as [E|E]; apply negb_false_iff, Z.eqb_eq in E.
      + rewrite E. split; apply fits_0.
      + by rewrite E. }
  apply bind_Done in H as (u2 & w2 & [= _ <-] & H). apply bind_Done in H as (u3 & w3 & H3 & H).
  destruct (al_statement al); [injection H3 as _ <-|done].
  cbv zeta in H. apply bind_Done in H as (u4 & w4 & [= _ <-] & H).
  match type of H with ?m ?w0 = _ =>
    assert (Hk : keeps m) by (unfold upd_parseinfo; keeps_auto; apply keeps_quiet, quiet_parser_keys);
    apply (Hk _ _ _ H) end.
  exact Hw1.
Qed.

Lemma server_version_Done (w w' : world C) v : server_version w = Done v w' -> w_cur w' = w_cur w.
Proof.
  unfold server_version. intros H. apply bind_Done in H as (n & w1 & [= <- <-] & H).
  destruct (n_mysql _); [by apply call_Done in H as (-> & _)|by injection H as _ <-].
Qed.

Lemma keeps_parse stmt : keeps (MrdbCursor_parse al stmt).
Proof.
  intros w a w' H [Hp Hv]. unfold MrdbCursor_parse in H.
  apply bind_Done in H as (i & w0 & [= <- <-] & H). cbv zeta in H.
  apply bind_Done in H as (u & w1 & H1 & H).
  set (old := match p_statement (c_parseinfo (w_cur w)) with
              | Some _ => p_paramcount (c_parseinfo (w_cur w)) | None => 0 end) in *.
  assert (arrays_ok (w_cur w1) ∧ fits old (c_params (w_cur w1)) ∧ fits old (c_value (w_cur w1)))
    as (Hw1 & Hp1 & Hv1).
  { subst old. destruct (p_statement _).
    - apply bind_Done in H1 as (u1 & w2 & H2 & [= _ <-]). apply quiet_py in H2 as (E & _). cbn.
      rewrite E. split_and!; try done. split; apply fits_0.
    - injection H1 as _ <-. split_and!; [done|apply fits_0..]. }
  apply bind_Done in H as (u2 & w2 & H2 & H). apply quiet_py in H2 as (E2 & _).
  apply bind_Done in H as (v & w3 & H3 & H).
  apply server_version_Done in H3 as E3. rewrite <- E2, <- E3 in Hw1, Hp1, Hv1. clear E2 E3.
  destruct (MrdbParser_init _ _ _ _) as [|p|]; [| |done].
  - match type of H with ?m _ = _ => assert (Hk : keeps m) by keeps_auto end. by apply (Hk _ _ _ H).
  - cbv zeta in H. apply bind_Done in H as (u4 & w4 & H4 & H).
    assert (Q : ∀ r, is_quiet (parser_mysql r)) by (intros r; unfold parser_mysql; quiet_auto).
    apply Q in H4 as (E4 & _). rewrite <- E4 in Hw1, Hp1, Hv1.
    destruct (MrdbParser_parse _ _ _ _) as [q|q msg| |]; [| |done..].
    + apply bind_Done in H as (u5 & w5 & H5 & H). apply keeps_save_parser in H5; [|done..].
      assert (Hk : keeps (end_parser (Some q);; return_none)) by keeps_auto. by apply (Hk _ _ _ H).
    + match type of H with ?m _ = _ => assert (Hk : keeps m) by keeps_auto end. by apply (Hk _ _ _ H).
Qed.

#[local] Hint Resolve keeps_cur_initialize keeps_nextset keeps_execute_binary keeps_execute_bulk
  keeps_parse keeps_close keeps_describe keeps_text_types : keeps.

(** ** Sessions *)

Lemma keeps_write_member f : keeps (upd_cur (write_member f)).
Proof. apply keeps_upd_cur. by destruct f. Qed.

Lemma keeps_perform r : keeps (perform al r).
Proof.
  destruct r; simpl; try (apply keeps_bind; [apply keeps_write_member|keeps_auto]);
    unfold fmap, M_fmap, MrdbConnection_connect, MrdbConnection_finalize, MrdbConnection_close,
      MrdbConnection_ping,
      MrdbConnection_reset, MrdbConnection_reconnect, MrdbConnection_dump_debug_info,
      MrdbConnection_change_user, MrdbConnection_executecommand, MrdbConnection_readresponse,
      MrdbConnection_getreconnect, MrdbConnection_setreconnect, MrdbConnection_connection_id,
      MrdbConnection_warnings, MrdbConnection_socket, MrdbConnection_escape_string, MrdbConnection_repr,
      MrdbCursor_repr, return_unicode,
      MrdbCursor_finalize, MrdbCursor_close, MrdbCursor_fetchone, MrdbCursor_fetchrows,
      MrdbCursor_seek, MrdbCursor_metadata, MrdbCursor_description,
      Mariadb_row_count, Mariadb_row_number, MrdbCursor_warnings, MrdbCursor_closed, cursor_insert_id,
      MrdbCursor_execute_text, MrdbCursor_readresponse, MrdbCursor_check_text_types,
      fetch_rows_loop; keeps_auto.
Qed.

Lemma keeps_session rs : keeps (session al rs).
Proof.
  induction rs as [|r rs IH]; simpl; [keeps_auto|].
  apply keeps_bind; [apply keeps_perform|intros _]. apply keeps_bind; [|done].
  by intros w a w' [= _ <-].
Qed.

End Cursors.

(** C6: In every sequence of requests to a connection and its cursor, whatever
    the library answers and whichever allocations fail, the arrays [params] and
    [value] of the cursor stay null or at least [paramcount] elements long:
    a parse that changes the count frees arrays that would be too short, and
    every check that allocates them sizes them by the count. *)
Theorem session_arrays_in_range `{C : Client} `{P : PyLib} (al : allocations) (rs : list request)
  (w w' : world C) (u : ()) :
  arrays_ok (w_cur w) -> session al rs w = Done u w' -> arrays_ok (w_cur w').
Proof. intros Hw H. exact (keeps_session al rs w u w' H Hw). Qed.

(** A binary execution that leaves arrays of one element, then a parse of a
    statement with two parameters. *)
Definition two_statements : list request :=
  take 6 demo_session ++
  [CurParse (PyUnicode (bytes_of_string "CALL p(?, ?)")); CurMember (M_data (PyTuple [PyLong 7; PyLong 8]));
   CurExecuteBinary].

Lemma two_statements_done :
  ∃ w', session demo_allocs two_statements demo_world = Done () w' ∧
    p_paramcount (c_parseinfo (w_cur w')) = 2 ∧ length <$> c_params (w_cur w') = Some 2%nat.
Proof. eexists. split; [vm_compute; reflexivity|]. by split. Qed.

Lemma session_arrays_in_range_witness :
  ∃ w', session demo_allocs two_statements demo_world = Done () w' ∧ arrays_ok (w_cur w').
Proof.
  destruct two_statements_done as (w' & E & _). exists w'. split; [done|].
  apply (session_arrays_in_range demo_allocs two_statements demo_world w' ()); [|done].
  by split.
Defined.
