(* ===== verification/CursorRuns.v ===== *)
(** * Runs of the cursor's functions

    What the functions of [Cursor] do, as equations: for the parser and for
    calls whose status reports set no exception. *)

From stdpp Require Import gmap.
From S2P Require Import Prelude Parser ParserSpec ParserProps Values DateTime Wire Fetch Exceptions.
From S2P Require Import Params Client Connection Cursor Session CursorLogic SessionSafety CursorProps.
From S2P Require Import CursorArrays.

Section Runs.

Context `{C : Client} `{P : PyLib}.

Definition with_cur (c : MrdbCursor) (w : world C) : world C :=
  mkWorld (w_lib w) (w_live w) (w_next w) (w_gil w) (w_conn w) c (w_err w).

Definition with_lib (l : lib_state) (w : world C) : world C :=
  mkWorld l (w_live w) (w_next w) (w_gil w) (w_conn w) (w_cur w) (w_err w).

(** A call that makes no report and ends no handle. *)
Lemma call_silent {R} (op : libop R) (w : world C) r l :
  forallb (λ h, bool_decide (is_Some (w_live w !! h))) (handles_of op) = true ->
  lib_call op (w_lib w) = (r, [], l) -> after_call op (w_live w) = w_live w ->
  call op w = Done r (with_lib l w).
Proof.
  intros Hh Hl Ha. unfold call, mbind, M_bind, get_live. rewrite Hh. unfold lib_step. rewrite Hl. cbn.
  by rewrite Ha.
Qed.

(** Reports that set no exception. *)
Definition harmless (i : status_info) : Prop :=
  match i with SESSION_TRACK_SYSTEM_VARIABLES _ _ => False | _ => True end.

(** ** Calls with reports that set no exception *)

Lemma harmless_run b i w :
  harmless i -> lock_state b w -> MrdbConnection_process_status_info i w = Done () w.
Proof.
  intros Hi [Hg Ht]. destruct w as [l live n g [? ? ? ? cb ? ?] cu e]; cbn in *; subst.
  destruct i; try done; destruct b, cb; reflexivity.
Qed.

Lemma harmless_reports_run b rs w :
  Forall harmless rs -> lock_state b w -> process_reports rs w = Done () w.
Proof.
  intros His Hw. induction His as [|i rs Hi His IH]; [done|]. cbn. by rewrite bind_eq, (harmless_run b).
Qed.

Lemma call_harmless {R} (op : libop R) b (w : world C) r reports l :
  forallb (λ h, bool_decide (is_Some (w_live w !! h))) (handles_of op) = true ->
  lib_call op (w_lib w) = (r, reports, l) -> after_call op (w_live w) = w_live w ->
  Forall harmless reports -> lock_state b w ->
  call op w = Done r (with_lib l w).
Proof.
  intros Hh Hl Ha Hr Hw. unfold call, mbind, M_bind, get_live. rewrite Hh. unfold lib_step. rewrite Hl. cbn.
  rewrite Ha, (harmless_reports_run b); [done|done|]. exact Hw.
Qed.

Definition with_err (e : option pyerror) (w : world C) : world C :=
  mkWorld (w_lib w) (w_live w) (w_next w) (w_gil w) (w_conn w) (w_cur w) e.

(** The lock is given up around the call and taken again. *)
Lemma unlocked_run {R A} (op : libop R) (k : R -> M A) (w : world C) rc reports l :
  lock_state true w ->
  forallb (λ h, bool_decide (is_Some (w_live w !! h))) (handles_of op) = true ->
  lib_call op (w_lib w) = (rc, reports, l) -> (∀ live, after_call op live = live) ->
  Forall harmless reports ->
  (MARIADB_BEGIN_ALLOW_THREADS;; rc ← call op; MARIADB_END_ALLOW_THREADS;; k rc) w
  = k rc (with_lib l w).
Proof.
  intros [Hg Ht] Hh Hl Ha Hr.
  set (w1 := mkWorld (w_lib w) (w_live w) (w_next w) false (set_n_thread_state true (w_conn w)) (w_cur w) (w_err w)).
  assert (E1 : MARIADB_BEGIN_ALLOW_THREADS w = Done () w1).
  { unfold MARIADB_BEGIN_ALLOW_THREADS, PyEval_SaveThread, mbind, M_bind, get_gil. rewrite Hg. done. }
  rewrite bind_eq, E1, bind_eq. erewrite (call_harmless op false w1) by done.
  rewrite bind_eq. destruct w as [l0 live n g [] cu e]; cbn in *. subst. done.
Qed.

Lemma throw_run (op : libop diagnostics) (w : world C) d reports l :
  lock_state true w ->
  forallb (λ h, bool_decide (is_Some (w_live w !! h))) (handles_of op) = true ->
  lib_call op (w_lib w) = (d, reports, l) -> (∀ live, after_call op live = live) ->
  Forall harmless reports ->
  ∃ x, throw_diag op w = Done () (with_err (Some (Mariadb x)) (with_lib l w)).
Proof.
  intros Hw Hh Hl Ha Hr. unfold throw_diag. rewrite bind_eq.
  erewrite (call_harmless op true w) by done. cbn. eexists. unfold set_err. rewrite bind_eq, py_held by done. done.
Qed.

(** ** Parsing *)

Context (al : allocations).

(** The keys a parser hands over. *)
Definition saved_keys (p : MrdbParser) (old : list (list Z)) : list (list Z) :=
  match paramstyle p, keys p with
  | PYFORMAT, Some ks => (λ k, before_nul (default [] (key_str k))) <$> ks
  | _, _ => old
  end.

Definition saved_cursor (old : Z) (p : MrdbParser) (c : MrdbCursor) : MrdbCursor :=
  set_c_parseinfo
    (mkParseInfo (Some (take (Z.to_nat (statement_length p)) (statement_str p))) (paramstyle p) (command p)
       (param_count p) (bool_decide (command p = SQL_NONE) || bool_decide (command p = SQL_OTHER))
       (param_list p) (saved_keys p (p_keys (c_parseinfo c))))
    (if negb (param_count p =? 0) && negb (param_count p =? old)
     then set_c_values None (set_c_value None (set_c_params None c)) else c).

Lemma parser_keys_run ks i n w :
  Forall key_ok ks -> (i + n <= length ks)%nat ->
  parser_keys ks i n w =
  Done (take n (drop i ((λ k, before_nul (default [] (key_str k))) <$> ks))) w.
Proof.
  intros Hk. revert i. induction n as [|n IH]; intros i Hn; [by rewrite take_0|]. cbn [parser_keys].
  destruct (lookup_lt_is_Some_2 ks i) as [k Hi]; [lia|]. rewrite Hi.
  rewrite Forall_lookup in Hk. destruct (Hk i k Hi) as (name & Hs & _).
  unfold mbind, M_bind, nonnull. rewrite Hs. cbn. rewrite IH by lia.
  erewrite (drop_S _ _ i) by (rewrite list_lookup_fmap, Hi; reflexivity). rewrite Hs. done.
Qed.

Lemma save_parser_run old p w :
  al_statement al = true -> lock_state true w ->
  fits (p_paramcount (c_parseinfo (w_cur w))) (c_value (w_cur w)) ->
  match keys p with
  | Some ks => param_count p = Z.of_nat (length ks) ∧ Forall key_ok ks
  | None => True
  end ->
  save_parser al old p w = Done () (with_cur (saved_cursor old p (w_cur w)) w).
Proof.
  intros Hal Hw Hv Hk. unfold save_parser.
  assert (E : ∀ (b : bool), (if b then upd_cur (set_c_params None);; MrdbCursor_FreeValues;;
                   upd_cur (set_c_values None) else mret ()) w =
              Done () (with_cur (if b then set_c_values None (set_c_value None (set_c_params None (w_cur w)))
                                 else w_cur w) w)).
  { intros []; [|by destruct w]. unfold MrdbCursor_FreeValues, mbind, M_bind, upd_cur, get_cur. cbn.
    unfold fits in Hv. destruct (c_value (w_cur w)) as [vs|] eqn:Ev; cbn.
    - by rewrite (proj2 (Z.ltb_ge _ _)) by done.
    - by destruct w as [? ? ? ? ? [] ?]; cbn in *; subst. }
  rewrite bind_eq, E, bind_eq. cbn. rewrite Hal. rewrite bind_eq. cbn. rewrite bind_eq. cbn.
  unfold saved_cursor, saved_keys, with_cur. set (b := _ && _).
  assert (Hp : ∀ c, py (with_cur c w) = Done () (with_cur c w)) by (intros; by apply py_held).
  destruct (paramstyle p) eqn:Ep; [by destruct b, w as [? ? ? ? ? [] ?]..|].
  destruct (keys p) as [ks|] eqn:Ek; [|by destruct b, w as [? ? ? ? ? [] ?]].
  destruct Hk as [Hc Hk]. rewrite bind_eq. unfold with_cur in Hp. cbn. rewrite Hp.
  rewrite bind_eq, parser_keys_run by (done || lia). cbn. rewrite Hc, Nat2Z.id, drop_0, take_ge by (by rewrite length_fmap).
  by destruct b, w as [? ? ? ? ? [] ?].
Qed.

(** A parse first drops what the last one saved. *)
Definition cleared (c : MrdbCursor) : MrdbCursor :=
  match p_statement (c_parseinfo c) with
  | Some _ => set_c_parseinfo parseinfo_zero c
  | None => c
  end.

Definition old_count (c : MrdbCursor) : Z :=
  match p_statement (c_parseinfo c) with Some _ => p_paramcount (c_parseinfo c) | None => 0 end.

Definition allocations_ok : Prop :=
  al_parser al = true ∧ al_parser_str al = true ∧ (∀ site k, al_keys al site k = true) ∧
  al_statement al = true ∧ al_params al = true ∧ al_value al = true ∧ al_sequence al = true ∧
  al_values al = true ∧ al_escape al = true.

Lemma cleared_fits c :
  fits (p_paramcount (c_parseinfo c)) (c_value c) ->
  fits (p_paramcount (c_parseinfo (cleared c))) (c_value (cleared c)).
Proof. unfold cleared. destruct (p_statement _); [intros _; apply fits_0|done]. Qed.

Lemma parse_run s q v l m w :
  allocations_ok -> lock_state true w -> arrays_ok (w_cur w) ->
  n_mysql (w_conn w) = Some m -> is_Some (w_live w !! m) ->
  lib_call (mysql_get_server_version m) (w_lib w) = (v, [], l) ->
  s ≠ [] -> Z.of_nat (length s) < 2 ^ 32 ->
  MrdbParser_parse (al_keys al) (Some (init_parser v s)) false 128 = ParseOk q ->
  MrdbCursor_parse al (PyUnicode s) w =
  Done (Some PyNone)
    (with_cur (saved_cursor (old_count (w_cur w)) q (cleared (w_cur w))) (with_lib l w)).
Proof.
  intros (Ha1 & Ha2 & _ & Ha3 & _) Hw [_ Hv] Hm Hl Hcall Hne Hlen Hp.
  assert (Hi : MrdbParser_init true true v (Some s) = InitOk (init_parser v s)) by (by destruct s).
  destruct (parse_parameter_facts _ _ _ _ _ _ _ Hi Hlen Hp) as (Hc & _ & _ & _ & _ & _ & Hk).
  pose proof (parser_end_facts _ _ _ _ _ _ _ Hi Hlen Hp) as He.
  unfold MrdbCursor_parse, parseinfo. rewrite !bind_eq. cbn [get_cur mret M_ret].
  assert (E : (match p_statement (c_parseinfo (w_cur w)) with
               | Some _ => MrdbCursor_clearparseinfo | None => mret () end) w
              = Done () (with_cur (cleared (w_cur w)) w)).
  { unfold cleared. destruct (p_statement _); [|by destruct w].
    unfold MrdbCursor_clearparseinfo. by rewrite bind_eq, py_held. }
  cbv beta zeta. rewrite bind_eq, E.
  assert (Hw1 : lock_state true (with_cur (cleared (w_cur w)) w)) by done.
  rewrite bind_eq, py_held by done. unfold server_version. rewrite !bind_eq. unfold get_conn at 1.
  cbn [with_cur w_conn]. rewrite Hm. erewrite call_silent;
    [|cbn; by rewrite bool_decide_eq_true_2|cbn; exact Hcall|done].
  rewrite Ha1, Ha2, Hi, Hp. cbv zeta. unfold parser_mysql. rewrite !bind_eq. unfold get_conn at 1.
  cbn [with_lib with_cur w_conn]. rewrite Hm. cbn [mret M_ret]. rewrite bind_eq, save_parser_run; [|done|done|by apply cleared_fits|].
  2: { destruct (keys q) as [ks|]; [|done]. destruct Hk as (_ & Hl1 & Hk). split; [lia|done]. }
  rewrite bind_eq. unfold end_parser. rewrite He, bind_eq. cbn [nonnull mret M_ret].
  unfold return_none. by rewrite bind_eq, py_held.
Qed.

End Runs.
