(* ===== verification/Python.v ===== *)
(** * The Python layer: objects and computations

    [cursors.py] and [connections.py] define classes over the two C types.
    Their methods are computations that call the C entry points of [Session],
    read and write attributes, and raise exceptions.  An exception is a value of
    the result; undefined behaviour of the C code ends the computation. *)

From stdpp Require Import gmap.
From S2P Require Import Prelude Parser Values DateTime Wire Fetch Exceptions Params Client.
From S2P Require Import Connection Cursor Session.

(** ** Operations of the language on objects *)

(** The characters of a string, from its UTF-8 bytes. *)
Definition is_continuation (b : Z) : bool := (128 <=? b) && (b <? 192).

Definition utf8_chars (s : list Z) : Z :=
  Z.of_nat (length (filter (λ b, is_continuation b = false) s)).

Definition utf8_split (s : list Z) : list (list Z) :=
  (foldr (λ b acc, if is_continuation b then (b :: acc.1, acc.2) else ([], (b :: acc.1) :: acc.2))
     ([], []) s).2.

(** A decimal is zero when its coefficient has no digit from 1 to 9 and it is
    no special value. *)
Definition decimal_zero (s : list Z) : bool :=
  negb (existsb (λ c, ((49 <=? c) && (c <=? 57)) || (c =? 78) || (c =? 73) || (c =? 115))
          (take (default (length s) (fst <$> list_find (λ c, c = 69) s)) s)).

(** [bool(o)].  Objects of classes the model does not know are true. *)
Definition py_true (o : pyobj) : bool :=
  match o with
  | PyNone => false
  | PyBool b => b
  | PyLong z => negb (z =? 0)
  | PyFloat bits => negb (bits mod 2 ^ 63 =? 0)
  | PyBytes s | PyUnicode s => negb (bool_decide (s = []))
  | PyDelta d s u => negb ((d =? 0) && (s =? 0) && (u =? 0))
  | PyDecimal s => negb (decimal_zero s)
  | PyTuple l | PyList l => match l with [] => false | _ => true end
  | PyDict l => match l with [] => false | _ => true end
  | PyDate _ _ _ | PyTime _ _ _ _ | PyDateTime _ _ _ _ _ _ _ | PyIndicator _ | PyOther _ => true
  end.

(** [len(o)]; [None] is a [TypeError]. *)
Definition py_len (o : pyobj) : option Z :=
  match o with
  | PyBytes s => Some (Z.of_nat (length s))
  | PyUnicode s => Some (utf8_chars s)
  | PyTuple l | PyList l => Some (Z.of_nat (length l))
  | PyDict l => Some (Z.of_nat (length l))
  | _ => None
  end.

(** [s[:z]] and [s[z:]]: a negative bound counts from the end. *)
Definition slice_bound {A : Type} (z : Z) (s : list A) : nat :=
  Z.to_nat (if z <? 0 then Z.of_nat (length s) + z else z).

Definition slice_to {A : Type} (z : Z) (s : list A) : list A := take (slice_bound z s) s.

Definition slice_from {A : Type} (z : Z) (s : list A) : list A := drop (slice_bound z s) s.

(** ** Exceptions *)

(** One that the C code or the Python code of the module raises, or one of the
    interpreter by its class. *)
Inductive pyexn := Raised (e : pyerror) | Builtin (cls : string).

(** [except cls:] for a class of the module. *)
Definition catches (cls : exn) (x : pyexn) : bool :=
  match x with
  | Raised (Mariadb e) => bool_decide (cls ∈ ancestors (etype e))
  | Raised (MariadbPlain e _) => bool_decide (cls ∈ ancestors e)
  | _ => false
  end.

(** [raise cls(msg)]. *)
Definition exn_of (cls : exn) (msg : string) : pyexn := Raised (MariadbPlain cls msg).

(** ** The attributes of the Python objects *)

(** [Cursor.__init__] also sets [_dictionary], [_named_tuple], [_description],
    [_prev_stmt] and [_parseinfo], which nothing reads. *)
Record PyCursor := mkPyCursor {
  y_bulk : bool;
  y_transformed_statement : pyobj;
  y_prepared : bool;
  y_force_binary : bool;
  y_rowcount : Z;
}.

Definition set_y_bulk (v : bool) (c : PyCursor) : PyCursor :=
  mkPyCursor v (y_transformed_statement c) (y_prepared c) (y_force_binary c) (y_rowcount c).
Definition set_y_transformed_statement (v : pyobj) (c : PyCursor) : PyCursor :=
  mkPyCursor (y_bulk c) v (y_prepared c) (y_force_binary c) (y_rowcount c).
Definition set_y_prepared (v : bool) (c : PyCursor) : PyCursor :=
  mkPyCursor (y_bulk c) (y_transformed_statement c) v (y_force_binary c) (y_rowcount c).
Definition set_y_force_binary (v : bool) (c : PyCursor) : PyCursor :=
  mkPyCursor (y_bulk c) (y_transformed_statement c) (y_prepared c) v (y_rowcount c).
Definition set_y_rowcount (v : Z) (c : PyCursor) : PyCursor :=
  mkPyCursor (y_bulk c) (y_transformed_statement c) (y_prepared c) (y_force_binary c) v.

(** A transaction identifier: format, transaction, branch. *)
Record xid := mkXid { format_id : Z; transaction_id : list Z; branch_qualifier : list Z }.

Inductive tpc_states := TPC_NONE | TPC_XID | TPC_PREPARE.

#[global] Instance tpc_states_eq_dec : EqDecision tpc_states.
Proof. solve_decision. Defined.

(** [k_socket] is the descriptor in the [socket] object that was made last. *)
Record PyConnection := mkPyConnection {
  k_tpc_state : tpc_states;
  k_xid : option xid;
  k_last_executed_statement : pyobj;
  k_socket : option Z;
}.

Definition pyconnection_new : PyConnection := mkPyConnection TPC_NONE None PyNone None.

Definition set_k_tpc (st : tpc_states) (x : option xid) (c : PyConnection) : PyConnection :=
  mkPyConnection st x (k_last_executed_statement c) (k_socket c).
Definition set_k_last (v : pyobj) (c : PyConnection) : PyConnection :=
  mkPyConnection (k_tpc_state c) (k_xid c) v (k_socket c).
Definition set_k_socket (v : option Z) (c : PyConnection) : PyConnection :=
  mkPyConnection (k_tpc_state c) (k_xid c) (k_last_executed_statement c) v.

Record pystate := mkPyState { s_cursor : PyCursor; s_connection : PyConnection }.

(** ** Computations *)

Section Computations.

Context `{C : Client} `{P : PyLib} (al : allocations).

Definition PM (A : Type) : Type := pystate -> M (pystate * (pyexn + A)).

#[global] Instance PM_ret : MRet PM := λ A a s, mret (s, inr a).
#[global] Instance PM_bind : MBind PM := λ A B f m s,
  r ← m s;
  match r.2 with inr a => f a r.1 | inl x => mret (r.1, inl x) end.

Definition raise {A : Type} (x : pyexn) : PM A := λ s, mret (s, inl x).

(** [try: m except cls: h; raise] and [try: m except cls: h]. *)
Definition on_error {A : Type} (cls : exn) (m : PM A) (h : PM ()) : PM A := λ s,
  r ← m s;
  match r.2 with
  | inl x => if catches cls x then (h;; raise x) r.1 else mret r
  | inr _ => mret r
  end.

Definition try_except {A : Type} (cls : exn) (m : PM A) (h : PM A) : PM A := λ s,
  r ← m s;
  match r.2 with
  | inl x => if catches cls x then h r.1 else mret r
  | inr _ => mret r
  end.

Definition attrs : PM pystate := λ s, mret (s, inr s).
Definition upd_attrs (f : pystate -> pystate) : PM () := λ s, mret (f s, inr ()).

Definition upd_pycursor (f : PyCursor -> PyCursor) : PM () :=
  upd_attrs (λ s, mkPyState (f (s_cursor s)) (s_connection s)).
Definition upd_pyconn (f : PyConnection -> PyConnection) : PM () :=
  upd_attrs (λ s, mkPyState (s_cursor s) (f (s_connection s))).

(** The members of the C objects, read. *)
Definition the_cursor : PM MrdbCursor := λ s, c ← get_cur; mret (s, inr c).
Definition the_connection : PM MrdbConnection := λ s, c ← get_conn; mret (s, inr c).

(** A value that stands for null, that is for an exception. *)
Definition is_null (v : cvalue) : bool :=
  match v with
  | VInt rc => rc =? -1
  | VBool b => negb b
  | VObj None | VRow FetchNull | VRows None | VMetadata None => true
  | _ => false
  end.

(** A call of a C entry point: null gives the exception that is set; null
    without an exception, or a value with one, is a [SystemError]. *)
Definition c_call (r : request) : PM cvalue := λ s,
  v ← perform al r;
  e ← get_err;
  deliver_err;;
  mret (s, match e with
           | None => if is_null v then inl (Builtin "SystemError") else inr v
           | Some e => inl (if is_null v then Raised e else Builtin "SystemError")
           end).

(** One that returns an object. *)
Definition object_of (v : cvalue) : pyobj :=
  match v with VObj (Some o) => o | _ => PyNone end.

Definition c_object (r : request) : PM pyobj := v ← c_call r; mret (object_of v).

Definition set_member (f : member) : PM () := c_call (CurMember f);; mret ().

(** [len(o)]. *)
Definition p_len (o : pyobj) : PM Z :=
  match py_len o with Some n => mret n | None => raise (Builtin "TypeError") end.

End Computations.

Arguments PM {C} A.
