(* ===== verification/PyCursor.v ===== *)
(** * The class [Cursor] ([src/mariadb/cursors.py]) *)

From stdpp Require Import gmap.
From S2P Require Import Prelude Parser Values DateTime Wire Fetch Exceptions Params Client.
From S2P Require Import Connection Cursor Session Python.

Definition ProgrammingError (msg : string) : pyexn := exn_of Mariadb_ProgrammingError msg.

Definition ROWS_EOF : Z := -1.
Definition PS_OUT_PARAMS : Z := 4096.
Definition INFO_SERVER_STATUS : Z := 30.

(** The keyword arguments of [Connection.cursor] with their defaults;
    [dictionary] is [None] when it is not given. *)
Record cursor_kwargs := mkKwargs {
  kw_named_tuple : bool;
  kw_dictionary : option bool;
  kw_buffered : bool;
  kw_prepared : bool;
  kw_binary : bool;
  kw_cursor_type : Z;
  kw_prefetch_size : Z;
}.

(** [val.decode(encoding='latin1')], in UTF-8. *)
Definition latin1_utf8 (s : list Z) : list Z :=
  s ≫= λ b, if b <? 128 then [b] else [192 + b / 64; 128 + b mod 64].

Inductive scroll_mode := Absolute | Relative | OtherMode.

Section Cursor.

Context `{C : Client} `{P : PyLib} (al : allocations).

Local Abbreviation c_call := (c_call al).
Local Abbreviation c_object := (c_object al).
Local Abbreviation set_member := (set_member al).

(** [self.statement]: the parsed statement as a string, or None. *)
Definition get_statement : PM pyobj :=
  c ← the_cursor;
  mret (match p_statement (c_parseinfo c) with
        | Some s => PyUnicode (before_nul s)
        | None => PyNone
        end).

Definition get_closed : PM bool := o ← c_object CurClosed; mret (py_true o).

(** [self._connection._check_closed()]. *)
Definition connection_check_closed : PM () :=
  n ← the_connection;
  if n_closed n then raise (ProgrammingError "Invalid connection or not connected") else mret ().

Definition check_closed : PM () :=
  closed ← get_closed;
  if closed : bool then
    connection_check_closed;;
    raise (ProgrammingError "Cursor is closed")
  else mret ().

(** ** Creation *)

(** The connection is given: [connection] is a [Connection] object.  With
    [named_tuple] the keyword [dictionary] is left for the C function, which
    does not know it. *)
Definition Cursor_init (kwargs : option cursor_kwargs) : PM () :=
  set_member (M_resulttype RESULT_TUPLE);;
  upd_pycursor (λ _, mkPyCursor false PyNone false false 0);;
  set_member (M_buffered true);;
  set_member (M_data PyNone);;
  match kwargs with
  | None => c_call (CurInit (Some (0, 0, false, false)));; mret ()
  | Some k =>
      (if kw_named_tuple k then set_member (M_resulttype RESULT_NAMED_TUPLE)
       else if default false (kw_dictionary k) then set_member (M_resulttype RESULT_DICTIONARY)
       else mret ());;
      set_member (M_buffered (kw_buffered k));;
      upd_pycursor (λ c, set_y_force_binary (kw_binary k) (set_y_prepared (kw_prepared k) c));;
      set_member (M_cursor_type (kw_cursor_type k));;
      c_call (CurInit (if kw_named_tuple k && bool_decide (is_Some (kw_dictionary k)) then None
                       else Some (kw_prefetch_size k, 0, false, false)));;
      mret ()
  end.

(** ** Parameters of the text protocol *)

(** [self._data[self._keys[i]]] or [self._data[i]]. *)
Definition get_value (c : MrdbCursor) (i : nat) : PM pyobj :=
  let data := default PyNone (c_data c) in
  match p_paramstyle (c_parseinfo c) with
  | PYFORMAT =>
      match p_keys (c_parseinfo c) !! i, data with
      | Some k, PyDict items =>
          match snd <$> list_find (λ kv, kv.1 = k) items with
          | Some kv => mret kv.2
          | None => raise (Builtin "KeyError")
          end
      | Some _, _ => raise (Builtin "TypeError")
      | None, _ => raise (Builtin "IndexError")
      end
  | _ =>
      match data with
      | PyTuple l | PyList l =>
          match l !! i with Some o => mret o | None => raise (Builtin "IndexError") end
      | PyDict _ => raise (Builtin "KeyError")
      | PyUnicode s =>
          match utf8_split s !! i with
          | Some ch => mret (PyUnicode ch)
          | None => raise (Builtin "IndexError")
          end
      | PyBytes s =>
          match s !! i with Some b => mret (PyLong b) | None => raise (Builtin "IndexError") end
      | _ => raise (Builtin "TypeError")
      end
  end.

(** [isinstance(val, Number)].  Objects of classes the model does not know are
    no numbers. *)
Definition is_number (o : pyobj) : bool :=
  match o with PyBool _ | PyLong _ | PyFloat _ | PyDecimal _ => true | _ => false end.

(** The content of a bytes or bytearray object; [pl_str] stands for that of a
    bytearray. *)
Definition bytes_like (o : pyobj) : option (list Z) :=
  match o with
  | PyBytes s => Some s
  | PyOther "bytearray" => Some (pl_str o)
  | _ => None
  end.

(** [val.__str__()]: a string is its own. *)
Definition str_of (o : pyobj) : list Z := match o with PyUnicode s => s | _ => pl_str o end.

(** ['%s'] with [self.connection.escape_string(s)]. *)
Definition quote_escaped (s : list Z) : PM (list Z) :=
  o ← c_object (ConnEscape (al_escape al) (PyUnicode s));
  mret (39 :: str_of o ++ [39]).

(** The text for a value and [extra_bytes]; [None] when the variable
    [replace] is not assigned.  [NULL] and [DEFAULT] are the objects of
    [constants/INDICATOR.py]. *)
Definition replacement (val : pyobj) : PM (option (list Z) * Z) :=
  match val with
  | PyNone => mret (Some (bytes_of_string "NULL"), 0)
  | PyIndicator v =>
      mret (if v =? 1 then Some (bytes_of_string "NULL")
            else if v =? 2 then Some (bytes_of_string "DEFAULT") else None, 0)
  | _ =>
      if is_number val then mret (Some (str_of val), 0)
      else match bytes_like val with
           | Some s => r ← quote_escaped (latin1_utf8 s); mret (Some r, 0)
           | None =>
               r ← quote_escaped (str_of val);
               mret (Some r, Z.of_nat (length r) - utf8_chars r)
           end
  end.

(** The loop over [self._paramlist]: the elements left, the index, [replace],
    [replace_diff] and [new_stmt]. *)
Fixpoint substitute_loop (c : MrdbCursor) (paramlist : list Z) (i : nat) (replace : option (list Z))
    (replace_diff : Z) (new_stmt : list Z) : PM (list Z) :=
  match paramlist with
  | [] => mret new_stmt
  | p :: paramlist' =>
      val ← get_value c i;
      a ← replacement val;
      match (match a.1 with Some r => Some r | None => replace end) with
      | None => raise (Builtin "UnboundLocalError")
      | Some r =>
          let ofs := p + replace_diff in
          substitute_loop c paramlist' (S i) (Some r) (replace_diff + (utf8_chars r - 1 + a.2))
            (slice_to ofs new_stmt ++ r ++ slice_from (ofs + 1) new_stmt)
      end
  end.

Definition substitute_parameters : PM (list Z) :=
  stmt ← get_statement;
  match stmt with
  | PyUnicode s =>
      c ← the_cursor;
      substitute_loop c (p_paramlist (c_parseinfo c)) 0 None 0 s
  | _ => raise (Builtin "AttributeError")
  end.

(** ** Parsing and checking *)

Definition missing_key (keys : list (list Z)) (items : list (list Z * pyobj)) : bool :=
  existsb (λ k, negb (bool_decide (k ∈ items.*1))) keys.

Definition check_execute_params : PM () :=
  c ← the_cursor;
  let data := default PyNone (c_data c) in
  let i := c_parseinfo c in
  (match p_paramstyle i, data with
   | (QMARK | FORMAT), (PyTuple _ | PyList _) => mret ()
   | (QMARK | FORMAT), _ => raise (ProgrammingError "Data argument must be Tuple or List")
   | _, _ => mret ()
   end);;
  match p_paramstyle i with
  | PYFORMAT =>
      match data with
      | PyDict items =>
          if missing_key (p_keys i) items
          then raise (ProgrammingError "Dictionary doesn't contain key '%s'") else mret ()
      | _ => raise (ProgrammingError "Data argument must be Dictionary")
      end
  | _ =>
      match p_paramlist i with
      | [] => mret ()
      | l =>
          n ← p_len data;
          if negb (py_true data) || negb (n =? Z.of_nat (length l))
          then raise (ProgrammingError "statement (%s) doesn't match the number of data elements (%s).")
          else mret ()
      end
  end.

(** [self.statement != statement]. *)
Definition same_statement (current statement : pyobj) : bool :=
  match current, statement with
  | PyUnicode a, PyUnicode b => bool_decide (a = b)
  | _, _ => false
  end.

Definition parse_execute (statement data : pyobj) (is_bulk : bool) : PM () :=
  if negb (py_true statement) then raise (ProgrammingError "empty statement")
  else
    current ← get_statement;
    s ← attrs;
    (if negb (same_statement current statement) || (is_bulk && negb (y_bulk (s_cursor s))) then
       c_object (CurParse statement);;
       set_member (M_reprepare true)
     else set_member (M_reprepare false));;
    current ← get_statement;
    upd_pycursor (set_y_transformed_statement current);;
    c ← the_cursor;
    (if c_cursor_type c =? CURSOR_TYPE_READ_ONLY then set_member (M_text false) else mret ());;
    set_member (M_data data);;
    check_execute_params.

(** ** Executing *)

(** The objects [data or ()] gives. *)
Definition or_empty (data : pyobj) : pyobj := if py_true data then data else PyTuple [].

(** [execute]; [buffered] is [None] when it is not given. *)
Definition execute (statement data : pyobj) (buffered : option bool) : PM () :=
  check_closed;;
  upd_pyconn (set_k_last statement);;
  upd_pycursor (set_y_rowcount 0);;
  (match buffered with Some b => set_member (M_buffered b) | None => mret () end);;
  c ← the_cursor;
  (if c_field_count c =? 0 then mret () else c_object CurClearResult;; mret ());;
  s ← attrs;
  current ← get_statement;
  (if y_prepared (s_cursor s) && py_true current then mret ()
   else parse_execute statement data false);;
  let data := or_empty data in
  n ← p_len data;
  (if n =? 0 then
     set_member (M_data PyNone);;
     c ← the_cursor;
     if negb (bool_decide (p_command (c_parseinfo c) = SQL_CALL))
        && (c_cursor_type c =? CURSOR_TYPE_NO_CURSOR)
     then set_member (M_text true) else mret ()
   else set_member (M_data data));;
  (if y_force_binary (s_cursor s) then set_member (M_text false) else mret ());;
  (if py_true data then
     o ← c_object CurCheckTextTypes;
     match o with PyBool true => set_member (M_text false) | _ => mret () end
   else mret ());;
  c ← the_cursor;
  (if p_is_text (c_parseinfo c) then
     t ← (if 0 <? p_paramcount (c_parseinfo c)
          then q ← substitute_parameters; mret (PyBytes q) else get_statement);
     upd_pycursor (set_y_transformed_statement t);;
     c_object (CurExecuteText t);;
     c_object CurReadResponse
   else
     set_member (M_data data);;
     c_object CurExecuteBinary);;
  c_object CurInitResult;;
  upd_pycursor (set_y_bulk false).

(** [callproc]: one question mark for each element. *)
Definition placeholders (n : Z) : list Z := removelast (concat (repeat [63; 44] (Z.to_nat n))).

Definition callproc (sp : list Z) (data : pyobj) : PM () :=
  check_closed;;
  n ← (if py_true data then p_len data else mret 0);
  upd_pycursor (set_y_rowcount 0);;
  execute (PyUnicode (bytes_of_string "CALL " ++ sp ++ [40] ++ placeholders n ++ [41])) data None.

(** ** Attributes *)

Definition get_rowcount : PM pyobj :=
  c ← the_cursor;
  s ← attrs;
  let count :=
    if 0 <? y_rowcount (s_cursor s) then mret (PyLong (y_rowcount (s_cursor s)))
    else c_object CurRowCount in
  if c_is_buffered c then count
  else
    closed ← try_except Mariadb_ProgrammingError (check_closed;; mret false) (mret true);
    if closed : bool then mret (PyLong (-1)) else count.

Definition lastrowid : PM pyobj :=
  check_closed;;
  o ← c_object CurInsertId;
  mret (match as_long o with Some z => if 0 <? z then o else PyNone | None => PyNone end).

(** [self.connection.server_status]: the property checks the connection. *)
Definition get_info (what : Z) : PM pyobj :=
  connection_check_closed;; c_object (ConnInfo (PyLong what)).

(** The integers the information functions return. *)
Definition int_of (o : pyobj) : PM Z :=
  match as_long o with Some z => mret z | None => raise (Builtin "TypeError") end.

Definition sp_outparams : PM bool :=
  check_closed;;
  o ← get_info INFO_SERVER_STATUS;
  z ← int_of o;
  mret (negb (Z.land z PS_OUT_PARAMS =? 0)).

(** ** Many rows *)

(** The items an iteration over [parameters] gives, and the first of them. *)
Definition items_of (o : pyobj) : PM (list pyobj) :=
  match o with
  | PyTuple l | PyList l => mret l
  | PyDict l => mret (PyUnicode <$> l.*1)
  | PyUnicode s => mret (PyUnicode <$> utf8_split s)
  | PyBytes s => mret (PyLong <$> s)
  | _ => raise (Builtin "TypeError")
  end.

Definition first_item (o : pyobj) : PM pyobj :=
  match o with
  | PyDict _ => raise (Builtin "KeyError")
  | _ =>
      l ← items_of o;
      match l with x :: _ => mret x | [] => raise (Builtin "IndexError") end
  end.

Fixpoint execute_rows (statement : pyobj) (rows : list pyobj) (count : Z) : PM Z :=
  match rows with
  | [] => mret count
  | row :: rows' =>
      execute statement row None;;
      o ← get_rowcount;
      n ← int_of o;
      execute_rows statement rows' (count + n)
  end.

(** [parameters] that are true have a positive length, so the second half of
    the test adds nothing but the call of [len]. *)
Definition executemany (statement parameters : pyobj) : PM () :=
  check_closed;;
  n ← (if py_true parameters then p_len parameters else mret 0);
  if n =? 0 then raise (ProgrammingError "No data provided")
  else
    upd_pyconn (set_k_last statement);;
    c ← the_cursor;
    (if c_field_count c =? 0 then mret () else c_object CurClearResult;; mret ());;
    o ← get_info INFO_EXTENDED_SERVER_CAPABILITIES;
    caps ← int_of o;
    if Z.land caps BULK_OPERATIONS =? 0 then
      rows ← items_of parameters;
      count ← execute_rows statement rows 0;
      upd_pycursor (set_y_rowcount count)
    else
      row ← first_item parameters;
      parse_execute statement row true;;
      set_member (M_data parameters);;
      upd_pycursor (set_y_rowcount 0);;
      c_object CurExecuteBulk;;
      upd_pycursor (set_y_bulk true).

(** ** Results *)

Definition check_unbuffered : PM () :=
  c ← the_cursor; if c_is_buffered c then mret () else check_closed.

Definition nextset : PM pyobj := check_closed;; c_object CurNextSet.

(** [None] is the None of the interpreter. *)
Definition fetchone : PM (option pyrow) :=
  check_unbuffered;;
  check_unbuffered;;
  c ← the_cursor;
  if c_field_count c =? 0 then raise (ProgrammingError "Cursor doesn't have a result set")
  else
    v ← c_call CurFetchOne;
    mret (match v with VRow (FetchRow r) => Some r | _ => None end).

Definition fetchrows (n : Z) : PM (list pyrow) :=
  v ← c_call (CurFetchRows (PyLong n));
  mret (match v with VRows (Some l) => l | _ => [] end).

Definition fetchmany (size : Z) : PM (list pyrow) :=
  check_unbuffered;;
  c ← the_cursor;
  fetchrows (if size =? 0 then c_row_array_size c else size).

Definition fetchall : PM (list pyrow) := check_unbuffered;; fetchrows ROWS_EOF.

(** The upper bound of a position is read only when the lower one holds. *)
Definition seek_below (new_pos : Z) (beyond : Z -> bool) : PM () :=
  let out_of_range := ProgrammingError "Position value is out of range." in
  if new_pos <? 0 then raise out_of_range
  else
    o ← get_rowcount;
    rowcount ← int_of o;
    if beyond rowcount then raise out_of_range
    else c_object (CurSeek (PyLong new_pos));; set_member (M_rownumber new_pos).

Definition scroll (value : Z) (mode : scroll_mode) : PM () :=
  c ← the_cursor;
  if c_field_count c =? 0 then raise (ProgrammingError "Cursor doesn't have a result set")
  else if negb (c_is_buffered c) then
    raise (ProgrammingError "This method is available only for cursors with a buffered result set.")
  else
    match mode with
    | OtherMode => raise (ProgrammingError "Invalid or unknown scroll mode specified.")
    | Relative =>
        if value =? 0 then raise (ProgrammingError "Invalid position value 0.")
        else
          o ← c_object CurRowNumber;
          rownumber ← int_of o;
          seek_below (rownumber + value) (λ rowcount, rowcount <? rownumber + value)
    | Absolute => seek_below value (λ rowcount, rowcount <=? value)
    end.

(** ** Closing *)

Definition close : PM () :=
  c ← the_cursor;
  (if py_true (default PyNone (c_data c)) then set_member M_data_deleted else mret ());;
  n ← the_connection;
  if n_closed n then mret () else c_object CurClose;; mret ().

End Cursor.
