(* ===== verification/PyConnection.v ===== *)
(** * The class [Connection] ([src/mariadb/connections.py]) *)

From stdpp Require Import gmap.
From S2P Require Import Prelude Parser Values DateTime Wire Fetch Exceptions Params Client.
From S2P Require Import Connection Cursor Session Python PyCursor.

Definition INFO_SERVER_VERSION_ID : Z := 18.
Definition STATUS_AUTOCOMMIT : Z := 2.
Definition MAX_TPC_XID_SIZE : Z := 64.

(** ** Transaction identifiers *)

(** [xid.__new__]: the lengths count characters; a format of 0 becomes 1.  An
    argument of another type is a [ProgrammingError] as well. *)
Definition xid_new (format transaction branch : pyobj) : pyexn + xid :=
  match as_long format, transaction, branch with
  | Some f, PyUnicode t, PyUnicode b =>
      if MAX_TPC_XID_SIZE <? utf8_chars t
      then inl (ProgrammingError "Maximum length of transaction_id exceeded.")
      else if MAX_TPC_XID_SIZE <? utf8_chars b
      then inl (ProgrammingError "Maximum length of branch_qualifier exceeded.")
      else inr (mkXid (if f =? 0 then 1 else f) t b)
  | Some _, PyUnicode _, _ => inl (ProgrammingError "argument 3 must be str, not %s")
  | Some _, _, _ => inl (Builtin "AttributeError")
  | None, _, _ => inl (ProgrammingError "argument 1 must be int, not %s")
  end.

(** The decimal digits of an integer. *)
Fixpoint digits_of (fuel : nat) (n : Z) (acc : list Z) : list Z :=
  match fuel with
  | O => acc
  | S fuel' =>
      let acc' := 48 + n mod 10 :: acc in
      if n <? 10 then acc' else digits_of fuel' (n / 10) acc'
  end.

Definition show_int (z : Z) : list Z :=
  let n := Z.abs z in
  (if z <? 0 then [45] else []) ++ digits_of (S (Z.to_nat (Z.log2 n))) n [].

(** ['%s','%s',%s] of an identifier. *)
Definition show_xid (x : xid) : list Z :=
  39 :: transaction_id x ++ [39; 44; 39] ++ branch_qualifier x ++ [39; 44] ++ show_int (format_id x).

(** The statements of the methods. *)
Definition xa_begin (x : xid) : list Z := bytes_of_string "XA BEGIN " ++ show_xid x.
Definition xa_end (x : xid) : list Z := bytes_of_string "XA END " ++ show_xid x.
Definition xa_prepare (x : xid) : list Z := bytes_of_string "XA PREPARE " ++ show_xid x.
Definition xa_rollback (x : xid) : list Z := bytes_of_string "XA ROLLBACK " ++ show_xid x.

Definition xa_commit (x : xid) (one_phase : bool) : list Z :=
  let stmt := bytes_of_string "XA COMMIT " ++ show_xid x in
  if one_phase then stmt ++ bytes_of_string " ONE PHASE" else stmt.

(** ** Keyword arguments of a connection *)

(** [ssl] is a truth value, or a dictionary, of which the keys that it has are
    given. *)
Inductive ssl_arg := SslFlag (b : bool) | SslDict (ca cert capath key cipher : bool).

(** [kc_args] are the arguments of the C function as its parser takes them,
    [None] when it rejects them; [kc_bad_host] says that the host is a list and
    the library older than 3.3.0. *)
Record connection_kwargs := mkConnectionKwargs {
  kc_args : option connect_args;
  kc_converter : option (Z -> option callable);
  kc_autocommit : bool;
  kc_reconnect : bool;
  kc_bad_host : bool;
  kc_ssl : option ssl_arg;
}.

(** A dictionary becomes the single keywords, and [ssl] true. *)
Definition with_ssl (ssl : option ssl_arg) (a : connect_args) : connect_args :=
  match ssl with
  | None => a
  | Some (SslFlag b) =>
      mkConnectArgs (a_dsn a) (a_status_callback a) (a_local_infile a) (a_compress a) (a_init_command a)
        (a_plugin_dir a) (default_plugins a) (a_default_file a) (a_default_group a) (a_connect_timeout a)
        (a_read_timeout a) (a_write_timeout a) b (a_ssl_key a) (a_ssl_ca a) (a_ssl_cert a)
        (a_ssl_capath a) (a_ssl_cipher a) (a_ssl_crl a) (a_ssl_crlpath a) (a_tls_version a) (a_tls_fp a)
        (a_tls_fp_list a)
  | Some (SslDict ca cert capath key cipher) =>
      mkConnectArgs (a_dsn a) (a_status_callback a) (a_local_infile a) (a_compress a) (a_init_command a)
        (a_plugin_dir a) (default_plugins a) (a_default_file a) (a_default_group a) (a_connect_timeout a)
        (a_read_timeout a) (a_write_timeout a) true (key || a_ssl_key a) (ca || a_ssl_ca a)
        (cert || a_ssl_cert a) (capath || a_ssl_capath a) (cipher || a_ssl_cipher a) (a_ssl_crl a)
        (a_ssl_crlpath a) (a_tls_version a) (a_tls_fp a) (a_tls_fp_list a)
  end.

(** ** Information *)

Inductive info_property :=
  | Database | User | Client_capabilities | Server_capabilities | Extended_server_capabilities
  | Server_port | Unix_socket | Server_name | Server_info | Server_status | Server_version
  | Tls_cipher | Tls_version | Tls_peer_cert_info | Tls_verify_status.

(** The numbers are those of [constants/INFO.py]. *)
Definition property_info (p : info_property) : Z :=
  match p with
  | Database => 15 | User => 27 | Client_capabilities => 33 | Server_capabilities => 31
  | Extended_server_capabilities => INFO_EXTENDED_SERVER_CAPABILITIES | Server_port => 12
  | Unix_socket => 26 | Server_name => INFO_HOST | Server_info => 17
  | Server_status => INFO_SERVER_STATUS | Server_version => INFO_SERVER_VERSION_ID | Tls_cipher => 21
  | Tls_version => 23 | Tls_peer_cert_info => TLS_PEER_CERT_INFO | Tls_verify_status => 37
  end.

Definition about_tls (p : info_property) : bool :=
  match p with Tls_cipher | Tls_version | Tls_peer_cert_info | Tls_verify_status => true | _ => false end.

Definition since_342 (p : info_property) : bool :=
  match p with Tls_peer_cert_info | Tls_verify_status => true | _ => false end.

Section Connection.

Context `{C : Client} `{P : PyLib} (al : allocations).

Local Abbreviation c_call := (c_call al).
Local Abbreviation c_object := (c_object al).
Local Abbreviation conn_check_closed := connection_check_closed.

(** [self._execute_command(stmt); self._read_response()]. *)
Definition command (stmt : list Z) : PM () :=
  c_object (ConnCommand (PyUnicode stmt));; c_object ConnReadResponse;; mret ().

(** ** Properties *)

Definition server_status : PM Z := o ← get_info al INFO_SERVER_STATUS; int_of o.

Definition get_autocommit : PM bool :=
  conn_check_closed;; z ← server_status; mret (negb (Z.land z STATUS_AUTOCOMMIT =? 0)).

(** [int(mode)] of a boolean. *)
Definition set_autocommit (mode : bool) : PM () :=
  conn_check_closed;;
  now ← get_autocommit;
  if eqb mode now then mret ()
  else command (bytes_of_string "SET AUTOCOMMIT=" ++ [if mode then 49 else 48]).

(** [int(version / 10000)] and so on: the divisions are of floats, exact for
    the numbers a server has. *)
Definition server_version_info : PM (Z * Z * Z) :=
  conn_check_closed;;
  o ← get_info al INFO_SERVER_VERSION_ID;
  v ← int_of o;
  mret (Z.quot v 10000, Z.quot (v mod 10000) 100, v mod 100).

(** The properties that read an information of the library.  Those about TLS
    give None without asking when the connection does not use it; two of them
    also when the library is older than 3.4.2, before they look at the
    connection. *)
Definition read_property (newer_342 : bool) (p : info_property) : PM pyobj :=
  if since_342 p && negb newer_342 then mret PyNone
  else
    conn_check_closed;;
    n ← the_connection;
    if about_tls p && negb (n_tls_in_use n) then mret PyNone
    else c_object (ConnInfo (PyLong (property_info p))).

Definition thread_id : PM pyobj := conn_check_closed;; c_object ConnId.

(** [socket]: the object for the descriptor, a new one when the descriptor has
    changed; the outcome is the descriptor it holds. *)
Definition socket : PM Z :=
  o ← c_object ConnSocket;
  fno ← int_of o;
  s ← attrs;
  (match k_socket (s_connection s) with
   | Some old => if fno =? old then mret () else upd_pyconn (set_k_socket (Some fno))
   | None => upd_pyconn (set_k_socket (Some fno))
   end);;
  mret fno.

(** [open]: whether a ping succeeds. *)
Definition is_open : PM bool :=
  conn_check_closed;;
  try_except Mariadb_Error (c_object ConnPing;; mret true) (mret false).

Definition set_database (schema : list Z) : PM () :=
  conn_check_closed;; command (bytes_of_string "USE " ++ schema).

Definition select_db (new_db : list Z) : PM () := conn_check_closed;; set_database new_db.

(** ** Creation and closing *)

(** [__init__]: the host is looked at before anything is connected. *)
Definition Connection_init (kw : connection_kwargs) : PM () :=
  upd_pyconn (λ _, pyconnection_new);;
  c_call (ConnConverter (kc_converter kw));;
  if kc_bad_host kw
  then raise (ProgrammingError "Host failover list requires MariaDB Connector/C 3.3.0 or newer")
  else
    c_call (ConnInit (with_ssl (kc_ssl kw) <$> kc_args kw));;
    set_autocommit (kc_autocommit kw);;
    c_call (ConnSetReconnect (Some (PyBool (kc_reconnect kw))));;
    mret ().

(** [Connection.cursor] with the default class. *)
Definition cursor (kwargs : option cursor_kwargs) : PM () :=
  conn_check_closed;; Cursor_init al kwargs.

(** A connection that belongs to no pool. *)
Definition conn_close : PM () := conn_check_closed;; c_object ConnClose;; mret ().

(** ** Transactions *)

Definition tpc_active : PM bool :=
  s ← attrs; mret (negb (bool_decide (k_tpc_state (s_connection s) = TPC_NONE))).

Definition commit : PM () :=
  conn_check_closed;;
  active ← tpc_active;
  if active : bool
  then raise (ProgrammingError "commit() is not allowed if a TPC transaction is active")
  else command (bytes_of_string "COMMIT").

Definition rollback : PM () :=
  conn_check_closed;;
  active ← tpc_active;
  if active : bool
  then raise (ProgrammingError "rollback() is not allowed if a TPC transaction is active")
  else command (bytes_of_string "ROLLBACK").

Definition begin_ : PM () := conn_check_closed;; command (bytes_of_string "BEGIN").

(** [None] stands for an argument that is no integer. *)
Definition kill (id : option Z) : PM () :=
  conn_check_closed;;
  match id with
  | None => raise (ProgrammingError "id must be of type int.")
  | Some z => command (bytes_of_string "KILL " ++ show_int z)
  end.

(** ** Two-phase commit *)

Definition set_tpc (st : tpc_states) (x : option xid) : PM () := upd_pyconn (set_k_tpc st x).

Definition tpc_begin (x : option xid) : PM () :=
  conn_check_closed;;
  match x with
  | None => raise (ProgrammingError "argument 1 must be xid not %s")
  | Some x => command (xa_begin x);; set_tpc TPC_XID (Some x)
  end.

(** A command whose failure ends the transaction for the object. *)
Definition or_reset (m : PM ()) : PM () := on_error Mariadb_Error m (set_tpc TPC_NONE None).

(** [XA END] of [tpc_commit] and [tpc_rollback]: only the answer is read under
    the handler. *)
Definition end_phase (x : xid) : PM () :=
  c_object (ConnCommand (PyUnicode (xa_end x)));;
  or_reset (c_object ConnReadResponse;; mret ()).

Definition is_prepared_state (st : tpc_states) : bool := bool_decide (st = TPC_PREPARE).

(** [arg] is the argument: absent (or None) or an identifier.  When there is no
    identifier at all the statement is built from None. *)
Definition tpc_commit (arg : option xid) : PM () :=
  conn_check_closed;;
  s ← attrs;
  let k := s_connection s in
  let x := match arg with Some x => Some x | None => k_xid k end in
  match k_tpc_state k, x with
  | TPC_NONE, _ => raise (ProgrammingError "Transaction not started.")
  | TPC_XID, None => raise (ProgrammingError "Transaction is not prepared.")
  | TPC_PREPARE, None => raise (Builtin "TypeError")
  | TPC_XID, Some x =>
      end_phase x;;
      or_reset (command (xa_commit x true));;
      set_tpc TPC_NONE None
  | TPC_PREPARE, Some x =>
      or_reset (command (xa_commit x false));;
      set_tpc TPC_NONE None
  end.

Definition tpc_prepare : PM () :=
  conn_check_closed;;
  s ← attrs;
  let k := s_connection s in
  match k_tpc_state k, k_xid k with
  | TPC_NONE, _ => raise (ProgrammingError "Transaction not started.")
  | TPC_PREPARE, _ => raise (ProgrammingError "Transaction is already in prepared state.")
  | TPC_XID, None => raise (Builtin "TypeError")
  | TPC_XID, Some x =>
      or_reset (command (xa_end x));;
      or_reset (command (xa_prepare x));;
      set_tpc TPC_PREPARE (Some x)
  end.

(** The state behind a successful rollback is [PREPARE]. *)
Definition tpc_rollback (arg : option xid) : PM () :=
  conn_check_closed;;
  s ← attrs;
  let k := s_connection s in
  let x := match arg with Some x => Some x | None => k_xid k end in
  match k_tpc_state k, x with
  | TPC_NONE, _ => raise (ProgrammingError "Transaction not started.")
  | _, None => raise (Builtin "TypeError")
  | st, Some x =>
      (if is_prepared_state st then mret () else end_phase x);;
      or_reset (command (xa_rollback x));;
      upd_pyconn (λ k, set_k_tpc TPC_PREPARE (k_xid k) k)
  end.

End Connection.
