(* ===== verification/Package.v ===== *)
(** * The package ([src/mariadb/__init__.py], [dbapi20.py], [field.py] and the
    constants)

    The objects of the DB API that applications compare type codes with, the
    names of types and flags, the constructors of values, the client's version
    and the choice between a pool and a single connection. *)

From stdpp Require Import gmap.
From S2P Require Import Prelude Values DateTime DateTimeProps Wire Fetch FetchProps Client Connection Python PyConnection.

(** ** Constants *)

(** [constants/INFO.py], which numbers the enumeration [mariadb_info]. *)
Definition INFO : list (string * Z) :=
  [("CHARSET_ID", 0); ("CHARSET_NAME", 1); ("CLIENT_ERRORS", 2); ("CLIENT_VERSION", 3);
   ("CLIENT_VERSION_ID", 4); ("ASYNC_TIMEOUT", 5); ("ASYNC_TIMEOUT_MS", 6); ("CHARSET_INFO", 7);
   ("ERROR", 8); ("ERROR_ID", 9); ("HOST", 10); ("INFO", 11); ("PORT", 12); ("PROTOCOL_VERSION_ID", 13);
   ("PVIO_TYPE", 14); ("SCHEMA", 15); ("SERVER_TYPE", 16); ("SERVER_VERSION", 17);
   ("SERVER_VERSION_ID", 18); ("SOCKET", 19); ("SQLSTATE", 20); ("SSL_CIPHER", 21); ("TLS_LIBRARY", 22);
   ("TLS_VERSION", 23); ("TLS_VERSION_ID", 24); ("TYPE", 25); ("UNIX_SOCKET", 26); ("USER", 27);
   ("MAX_ALLOWED_PACKET", 28); ("NET_BUFFER_LENGTH", 29); ("SERVER_STATUS", 30);
   ("SERVER_CAPABILITIES", 31); ("EXTENDED_SERVER_CAPABILITIES", 32); ("CLIENT_CAPABILITIES", 33);
   ("BYTES_READ", 34); ("BYTES_SENT", 35); ("TLS_PEER_CERT_INFO", 36); ("TLS_VERIFY_STATUS", 37)]%string.

(** [constants/FIELD_FLAG.py]. *)
Definition FIELD_FLAG : list (string * Z) :=
  [("NOT_NULL", 1); ("PRIMARY_KEY", 2); ("UNIQUE_KEY", 4); ("MULTIPLE_KEY", 8); ("BLOB", 16);
   ("UNSIGNED", 32); ("ZEROFILL", 64); ("BINARY", 128); ("ENUM", 256); ("AUTO_INCREMENT", 512);
   ("TIMESTAMP", 1024); ("SET", 2048); ("NO_DEFAULT", 4096); ("ON_UPDATE_NOW", 8192); ("NUMERIC", 32768);
   ("PART_OF_KEY", 16384); ("GROUP", 32768); ("UNIQUE", 65536)]%string.

(** ** Type objects *)

(** A [frozenset] of field types; the constants of [FIELD_TYPE.py] are the
    values of the C enumeration. *)
Definition DbApiType := list enum_field_types.

(** [==] with another type object, and with a type code. *)
Definition DbApiType_eq (self : DbApiType) (other : DbApiType + Z) : bool :=
  match other with
  | inl set => forallb (λ t, bool_decide (t ∈ set)) self
  | inr code => existsb (λ t, field_type_value t =? code) self
  end.

Definition BINARY : DbApiType :=
  [MYSQL_TYPE_GEOMETRY; MYSQL_TYPE_LONG_BLOB; MYSQL_TYPE_MEDIUM_BLOB; MYSQL_TYPE_TINY_BLOB; MYSQL_TYPE_BLOB].
Definition STRING : DbApiType :=
  [MYSQL_TYPE_ENUM; MYSQL_TYPE_JSON; MYSQL_TYPE_STRING; MYSQL_TYPE_VARCHAR; MYSQL_TYPE_VAR_STRING].
Definition NUMBER : DbApiType :=
  [MYSQL_TYPE_DECIMAL; MYSQL_TYPE_DOUBLE; MYSQL_TYPE_FLOAT; MYSQL_TYPE_INT24; MYSQL_TYPE_LONG;
   MYSQL_TYPE_LONGLONG; MYSQL_TYPE_NEWDECIMAL; MYSQL_TYPE_SHORT; MYSQL_TYPE_TINY; MYSQL_TYPE_YEAR].
Definition DATE : DbApiType := [MYSQL_TYPE_DATE].
Definition TIME : DbApiType := [MYSQL_TYPE_TIME].
Definition DATETIME : DbApiType := [MYSQL_TYPE_DATETIME; MYSQL_TYPE_TIMESTAMP].
Definition ROWID : DbApiType := [].

(** ** Names of types and flags *)

Definition field_types : list (enum_field_types * string) :=
  [(MYSQL_TYPE_DECIMAL, "DECIMAL"); (MYSQL_TYPE_TINY, "TINY"); (MYSQL_TYPE_SHORT, "SHORT");
   (MYSQL_TYPE_LONG, "LONG"); (MYSQL_TYPE_FLOAT, "FLOAT"); (MYSQL_TYPE_DOUBLE, "DOUBLE");
   (MYSQL_TYPE_NULL, "NULL"); (MYSQL_TYPE_TIMESTAMP, "TIMESTAMP"); (MYSQL_TYPE_LONGLONG, "LONGLONG");
   (MYSQL_TYPE_INT24, "INT24"); (MYSQL_TYPE_DATE, "DATE"); (MYSQL_TYPE_TIME, "TIME");
   (MYSQL_TYPE_DATETIME, "DATETIME"); (MYSQL_TYPE_YEAR, "YEAR"); (MYSQL_TYPE_NEWDATE, "NEWDATE");
   (MYSQL_TYPE_VARCHAR, "VARCHAR"); (MYSQL_TYPE_BIT, "BIT"); (MYSQL_TYPE_JSON, "JSON");
   (MYSQL_TYPE_NEWDECIMAL, "NEWDECIMAL"); (MYSQL_TYPE_ENUM, "ENUM"); (MYSQL_TYPE_SET, "SET");
   (MYSQL_TYPE_TINY_BLOB, "TINY_BLOB"); (MYSQL_TYPE_MEDIUM_BLOB, "MEDIUM_BLOB");
   (MYSQL_TYPE_LONG_BLOB, "LONG_BLOB"); (MYSQL_TYPE_BLOB, "BLOB"); (MYSQL_TYPE_VAR_STRING, "VAR_STRING");
   (MYSQL_TYPE_STRING, "STRING"); (MYSQL_TYPE_GEOMETRY, "GEOMETRY")]%string.

(** The flags of [FIELD_FLAG.py] with the names they are shown with. *)
Definition field_flags : list (Z * string) :=
  [(1, "NOT_NULL"); (2, "PRIMARY_KEY"); (4, "UNIQUE_KEY"); (8, "PART_KEY"); (16, "BLOB");
   (32, "UNSIGNED"); (64, "ZEROFILL"); (128, "BINARY"); (256, "NUMERIC"); (512, "AUTO_INCREMENT");
   (1024, "TIMESTAMP"); (2048, "SET"); (4096, "NO_DEFAULT"); (8192, "UPDATE_TIMESTAMP");
   (32768, "NUMERIC")]%string.

(** [fieldinfo.type]: the name for the second item of a description. *)
Definition fieldinfo_type (code : Z) : option string :=
  snd <$> find (λ tn, field_type_value tn.1 =? code) field_types.

(** The names [fieldinfo.flag] joins with [" | "], for the eighth item. *)
Definition flag_names (flags : Z) : list string :=
  snd <$> filter (λ fn, negb (Z.land flags fn.1 =? 0) = true) field_flags.

Definition fieldinfo_flag (flags : Z) : string := String.concat " | " (flag_names flags).

(** ** Constructors of values *)

(** [datetime.date], [datetime.time] and [datetime.datetime] without
    microseconds; [None] is a [ValueError]. *)
Definition Date (year month day : Z) : option pyobj := PyDate_FromDate year month day.

Definition Time (hour minute second : Z) : option pyobj :=
  if valid_time hour minute second 0 then Some (PyTime hour minute second 0) else None.

Definition Timestamp (year month day hour minute second : Z) : option pyobj :=
  PyDateTime_FromDateAndTime year month day hour minute second 0.

(** [Binary]: of bytes and of the small integers of a list or tuple; an integer
    is the number of zero bytes; [None] is a [TypeError] or a [ValueError]. *)
Definition Binary (o : pyobj) : option pyobj :=
  match o with
  | PyBytes s => Some (PyBytes s)
  | PyLong n => if n <? 0 then None else Some (PyBytes (repeat 0 (Z.to_nat n)))
  | PyList l | PyTuple l =>
      PyBytes <$> mapM (λ x, z ← as_long x; if (0 <=? z) && (z <? 256) then Some z else None) l
  | _ => None
  end.

(** The first six items of [time.localtime(ticks)], which the system gives. *)
Record struct_time := mkStructTime {
  tm_year : Z; tm_mon : Z; tm_mday : Z; tm_hour : Z; tm_min : Z; tm_sec : Z;
}.

Section Ticks.

Context (localtime : Z -> struct_time).

Definition DateFromTicks (ticks : Z) : option pyobj :=
  let t := localtime ticks in Date (tm_year t) (tm_mon t) (tm_mday t).

Definition TimeFromTicks (ticks : Z) : option pyobj :=
  let t := localtime ticks in Time (tm_hour t) (tm_min t) (tm_sec t).

Definition TimestampFromTicks (ticks : Z) : option pyobj :=
  let t := localtime ticks in
  Timestamp (tm_year t) (tm_mon t) (tm_mday t) (tm_hour t) (tm_min t) (tm_sec t).

End Ticks.

(** ** The module *)

(** [client_version], from the three numbers of [mariadbapi_version]. *)
Definition client_version (major minor patch : Z) : Z := major * 10000 + minor * 1000 + patch.

(** ** What the names promise *)

(** The numbers of [INFO.py] are those of the C enumeration, in its order, and
    every property asks for one that [MrdbConnection_getinfo] knows. *)
Lemma info_constants : snd <$> INFO = Z.of_nat <$> seq 0 38 ∧ info_id PYMARIADB_TLS_VERIFY_STATUS = 37.
Proof. done. Qed.

Lemma property_known p :
  (property_info p ∈ string_infos) ∨ (property_info p ∈ number_infos) ∨ property_info p = TLS_PEER_CERT_INFO.
Proof. destruct p; (by right; right) || (left; by apply (bool_decide_unpack _)) || (right; left; by apply (bool_decide_unpack _)). Qed.

(** The type objects of PEP 249 but ROWID, which has no member. *)
Definition type_objects : list DbApiType := [BINARY; STRING; NUMBER; DATE; TIME; DATETIME].

(** The types that no type object stands for. *)
Definition untyped : list enum_field_types :=
  [MYSQL_TYPE_NULL; MYSQL_TYPE_NEWDATE; MYSQL_TYPE_BIT; MYSQL_TYPE_TIMESTAMP2; MYSQL_TYPE_DATETIME2;
   MYSQL_TYPE_TIME2; MYSQL_TYPE_SET].

(** Every type code equals exactly one type object, or none. *)
Lemma type_object_unique t :
  length (filter (λ T, DbApiType_eq T (inr (field_type_value t)) = true) type_objects)
  = if bool_decide (t ∈ untyped) then 0%nat else 1%nat.
Proof. by destruct t. Qed.

(** Between type objects [==] is the test for a subset: [ROWID], the empty one,
    equals every type object, and none but itself equals it. *)
Lemma rowid_equals_all T : DbApiType_eq ROWID (inl T) = true.
Proof. done. Qed.

Lemma eq_not_symmetric : DbApiType_eq ROWID (inl DATE) = true ∧ DbApiType_eq DATE (inl ROWID) = false.
Proof. done. Qed.

(** The flags are shown as they are set, but an ENUM column is shown as
    NUMERIC. *)
Lemma enum_flag_numeric : fieldinfo_flag 256 = "NUMERIC"%string.
Proof. done. Qed.

Lemma flag_shown flags f n : (f, n) ∈ field_flags -> Z.land flags f ≠ 0 -> n ∈ flag_names flags.
Proof.
  intros Hf Hn. apply list_elem_of_fmap. exists (f, n). split; [done|]. apply list_elem_of_filter. split; [|done].
  cbn. by rewrite (proj2 (Z.eqb_neq _ _) Hn).
Qed.

(** The minor version counts a thousand, where the library's own numbers count a
    hundred: two versions can have the same number. *)
Lemma client_version_scheme : client_version 3 3 11 = 33011 ∧ client_version 4 0 0 = client_version 3 10 0.
Proof. done. Qed.

(** A leap second is no time. *)
Lemma leap_second (localtime : Z -> struct_time) t :
  tm_sec (localtime t) = 60 -> TimeFromTicks localtime t = None ∧ TimestampFromTicks localtime t = None.
Proof.
  intros H. unfold TimeFromTicks, TimestampFromTicks, Time, Timestamp, PyDateTime_FromDateAndTime, valid_time.
  rewrite H. cbn. by rewrite !andb_false_r.
Qed.

(** ** Type objects and values *)

(** The Python types of the values: [t] is the type of the column and [bin] says
    that its character set is the binary one.  NULL is None in every column. *)
Definition text_kind (bin : bool) (v : pyobj) : bool :=
  match v with PyBytes _ => bin | PyUnicode _ => negb bin | _ => false end.

Definition number_kind (t : enum_field_types) (bin : bool) (v : pyobj) : bool :=
  match t, v with
  | (MYSQL_TYPE_TINY | MYSQL_TYPE_SHORT | MYSQL_TYPE_YEAR | MYSQL_TYPE_INT24 | MYSQL_TYPE_LONG
     | MYSQL_TYPE_LONGLONG), PyLong _ => true
  | (MYSQL_TYPE_FLOAT | MYSQL_TYPE_DOUBLE), PyFloat _ => true
  | MYSQL_TYPE_NEWDECIMAL, PyDecimal _ => true
  | MYSQL_TYPE_DECIMAL, v => text_kind bin v
  | _, _ => false
  end.

Definition describes (T : DbApiType) (t : enum_field_types) (bin : bool) (v : pyobj) : bool :=
  match v with
  | PyNone => true
  | PyDate _ _ _ => bool_decide (T = DATE)
  | PyDelta _ _ _ => bool_decide (T = TIME)
  | PyDateTime _ _ _ _ _ _ _ => bool_decide (T = DATETIME)
  | _ =>
      (bool_decide (T = NUMBER) && number_kind t bin v)
      || ((bool_decide (T = STRING) || bool_decide (T = BINARY)) && text_kind bin v)
  end.

Section Columns.

Context (atof : list Z -> Z) (float_to_double : Z -> Z) (decimal_new : list Z -> option pyobj)
  (utf8_length : list Z -> option Z) (net_field_length : list Z -> option (Z * list Z)).

(** [decimal.Decimal] makes decimals. *)
Context (Hdecimal : ∀ s o, decimal_new s = Some o -> ∃ t, o = PyDecimal t).

(** The value that a fetch leaves in its column. *)
Definition at_column (column : nat) (self : fetch_state) : option pyobj := default None (values self !! column).

Definition fits (t : enum_field_types) (bin : bool) (v : option pyobj) : Prop :=
  ∀ T o, T ∈ type_objects -> DbApiType_eq T (inr (field_type_value t)) = true -> v = Some o -> describes T t bin o = true.

Lemma at_set column v self : (column < length (values self))%nat -> at_column column (set_value column v self) = v.
Proof. intros H. unfold at_column. cbn. by rewrite list_lookup_insert_eq. Qed.

Lemma at_grow column len self : at_column column (grow_max_length column len self) = at_column column self.
Proof. done. Qed.

Lemma fits_none t bin : fits t bin None.
Proof. done. Qed.

Lemma fits_by t bin v :
  (∀ o, v = Some o -> forallb (λ T, negb (DbApiType_eq T (inr (field_type_value t))) || describes T t bin o) type_objects = true) ->
  fits t bin v.
Proof.
  intros H T o HT Ht Hv. specialize (H o Hv). rewrite forallb_forall in H.
  specialize (H T ltac:(by apply list_elem_of_In)). by rewrite Ht in H.
Qed.

Lemma fits_untyped t bin v : bool_decide (t ∈ untyped) = true -> fits t bin v.
Proof. intros Ht. apply fits_by. by intros o _; destruct t. Qed.

Lemma fits_date t bin y m d : t = MYSQL_TYPE_DATE -> fits t bin (PyDate_FromDate y m d).
Proof. intros ->. apply fits_by. unfold PyDate_FromDate. intros o. by destruct (valid_date _ _ _); intros [= <-]. Qed.

Lemma fits_datetime t bin y m d h i s u :
  t = MYSQL_TYPE_DATETIME ∨ t = MYSQL_TYPE_TIMESTAMP -> fits t bin (PyDateTime_FromDateAndTime y m d h i s u).
Proof.
  intros Ht. apply fits_by. unfold PyDateTime_FromDateAndTime. intros o.
  destruct (_ && _); intros [= <-]. by destruct Ht as [-> | ->].
Qed.

Lemma fits_delta tm bin v : Mrdb_GetTimeDelta tm = Some v -> fits MYSQL_TYPE_TIME bin v.
Proof.
  unfold Mrdb_GetTimeDelta. intros H. unbind. apply fits_by. intros o. unfold PyDelta_FromDSU.
  destruct (_ && _); by intros [= <-].
Qed.

Lemma fits_text_time t bin data v :
  t = MYSQL_TYPE_TIME ∨ t = MYSQL_TYPE_DATE ∨ t = MYSQL_TYPE_DATETIME ∨ t = MYSQL_TYPE_TIMESTAMP ->
  text_time t data = Some v -> fits t bin v.
Proof.
  assert (Hn : ∀ t, fits t bin (Some PyNone)) by (intros t' T o _ _ [= <-]; done).
  intros Ht. unfold text_time. set (tm := (Py_str_to_TIME _ _).2). destruct_or! Ht; subst t.
  - destruct (check_time tm); [apply fits_delta|by intros [= <-]].
  - destruct (check_date _ _ _); intros [= <-]; [by apply fits_date|done].
  - destruct (_ && _); intros [= <-]; [by apply fits_datetime; left|done].
  - destruct (_ && _); intros [= <-]; [by apply fits_datetime; right|done].
Qed.

(** Types whose columns hold text or bytes. *)
Definition bytes_type (t : enum_field_types) : bool :=
  bool_decide (t ∈ MYSQL_TYPE_DECIMAL :: STRING ++ BINARY ++ [MYSQL_TYPE_SET; MYSQL_TYPE_BIT]).

Local Abbreviation binary f := (charsetnr f =? CHARSET_BINARY).

Lemma fits_string t v n f data :
  bytes_type t = true -> string_value utf8_length f data = Some (v, n) -> fits t (binary f) (Some v).
Proof.
  intros Ht. unfold string_value. intros H. apply fits_by. intros o [= <-].
  destruct (_ =? _); [injection H as <- _|destruct (utf8_length data); [injection H as <- _|done]];
    by destruct t.
Qed.

Lemma fits_blob t f data : bytes_type t = true -> fits t (binary f) (blob_value utf8_length f data).
Proof.
  intros Ht. apply fits_by. unfold blob_value, PyUnicode_FromStringAndSize. intros o.
  destruct (_ =? _); [|destruct (utf8_length data)]; intros [= <-]; by destruct t.
Qed.

Definition number_type (t : enum_field_types) : bool := bool_decide (t ∈ NUMBER).

Lemma fits_number t bin o : number_type t = true -> number_kind t bin o = true -> fits t bin (Some o).
Proof.
  intros Ht Ho. apply fits_by. intros o' [= <-]. by destruct t, o; try done; destruct bin.
Qed.

Definition integer_type (t : enum_field_types) : bool := number_kind t false (PyLong 0).

Lemma fits_integer t bin data : integer_type t = true -> fits t bin (text_integer data).
Proof.
  intros Ht T o HT HTt H. unfold text_integer, PyLong_FromString in H.
  eapply (fits_number t bin o); [by destruct t| |done..].
  repeat case_match; simplify_eq; by destruct t.
Qed.

Lemma fits_decimal t bin data : t = MYSQL_TYPE_NEWDECIMAL -> fits t bin (decimal_new data).
Proof.
  intros -> T o HT HTt H. eapply (fits_number _ bin o); [done| |done..]. by apply Hdecimal in H as [? ->].
Qed.

Lemma fits_fetch_text f data column self self' :
  (column < length (values self))%nat ->
  fetch_text atof decimal_new utf8_length f data column self = Some self' ->
  fits (ftype f) (binary f) (at_column column self').
Proof.
  intros Hc. unfold fetch_text. pose proof (λ t, fits_text_time t (binary f) data) as Ht.
  destruct (ftype f) eqn:Et; try done; intros H; unbind; rewrite ?at_grow, ?at_set by done.
  all: try solve [by apply fits_integer|by apply fits_decimal|by apply fits_blob|by eapply fits_string
                 |by apply fits_number|by eapply Ht; eauto].
  all: by apply fits_untyped.
Qed.

Lemma fits_fetch_binary f column self row self' row' :
  (column < length (values self))%nat ->
  fetch_binary float_to_double decimal_new utf8_length net_field_length f column self row = Some (self', row') ->
  fits (ftype f) (binary f) (at_column column self').
Proof.
  intros Hc. unfold fetch_binary, bin_decimal, bin_string, bin_datetime, bin_date, bin_time.
  destruct (ftype f) eqn:Et; try done; intros H; unbind; simplify_eq; rewrite ?at_grow, ?at_set by done.
  all: try solve [by apply fits_decimal|by apply fits_blob|by eapply fits_string|by apply fits_number
                 |by apply fits_untyped].
  all: repeat case_match; unbind; simplify_eq.
  all: try solve [by apply fits_date|apply fits_datetime; auto|by eapply fits_delta].
Qed.

End Columns.

(** C25: The type objects of the DB API and the values of the columns, without a
    converter.  A column whose type code equals DATE, TIME or DATETIME is
    fetched, in the text and in the binary protocol, as None or as a date, a
    timedelta or a datetime; one whose code equals STRING or BINARY as None or
    as bytes when its character set is the binary one and as str otherwise; one
    whose code equals NUMBER as None or as an int, a float or a Decimal by its
    type, except that a column of the old type DECIMAL, a member of NUMBER, is
    fetched as bytes or str like a string.  No code equals two type objects
    ([type_object_unique]). *)
Theorem type_objects_describe_values (atof : list Z -> Z) (float_to_double : Z -> Z)
    (decimal_new : list Z -> option pyobj) (utf8_length : list Z -> option Z)
    (net_field_length : list Z -> option (Z * list Z))
    (Hdecimal : ∀ s o, decimal_new s = Some o -> ∃ t, o = PyDecimal t)
    (self : fetch_state) (column : nat) (f : MYSQL_FIELD) (T : DbApiType)
    (Hfield : fields self !! column = Some f) (Hcol : (column < length (values self))%nat)
    (Hconv : converter self = None)
    (HT : T ∈ type_objects) (Hcode : DbApiType_eq T (inr (field_type_value (ftype f))) = true) :
  (∀ data self' o, field_fetch_fromtext atof decimal_new utf8_length self data column = Some self' ->
     at_column column self' = Some o -> describes T (ftype f) (charsetnr f =? CHARSET_BINARY) o = true) ∧
  (∀ row self' row' o,
     field_fetch_callback float_to_double decimal_new utf8_length net_field_length self column row
     = Some (self', row') -> at_column column self' = Some o -> describes T (ftype f) (charsetnr f =? CHARSET_BINARY) o = true).
Proof.
  split.
  - intros data self' o H Ho. unfold field_fetch_fromtext in H. rewrite Hfield in H.
    cbn [mbind option_bind] in H. unbind.
    assert (Hx : fits (ftype f) (charsetnr f =? CHARSET_BINARY) (at_column column x) ∧ converter x = None).
    { destruct data as [data|].
      - split; [by eapply fits_fetch_text|]. apply frame_text in E. by rewrite (fr_converter _ _ _ E).
      - injection E as <-. rewrite at_set by done. split; [|done]. intros U o' _ _ [= <-]. done. }
    destruct Hx as [Hx Hc]. rewrite no_converter in H by done. injection H as <-. by apply (Hx T o).
  - intros row self' row' o H Ho. unfold field_fetch_callback in H. rewrite Hfield in H.
    cbn [mbind option_bind] in H. destruct row as [row|]; unbind; simplify_eq.
    + assert (Hc : converter f0 = None) by (apply frame_binary in E; by rewrite (fr_converter _ _ _ E)).
      rewrite no_converter in E0 by done. injection E0 as <-. by eapply (fits_fetch_binary _ decimal_new); eauto.
    + rewrite at_set in Ho by done. by injection Ho as <-.
Qed.

Lemma type_objects_describe_values_witness :
  ∃ self' o, field_fetch_fromtext demo_atof demo_decimal demo_utf8 (demo_state MYSQL_TYPE_NEWDECIMAL 0)
               (Some (bytes_of_string "1.50")) 1 = Some self' ∧
             at_column 1 self' = Some o ∧ describes NUMBER MYSQL_TYPE_NEWDECIMAL true o = true.
Proof.
  eexists _, _. split; [reflexivity|]. split; [reflexivity|].
  refine (proj1 (type_objects_describe_values demo_atof demo_float demo_decimal demo_utf8 demo_length _
            (demo_state MYSQL_TYPE_NEWDECIMAL 0) 1 (demo_field MYSQL_TYPE_NEWDECIMAL 0) NUMBER _ _ _ _ _)
            (Some (bytes_of_string "1.50")) _ _ _ _);
    [|reflexivity|vm_compute; lia|reflexivity| |reflexivity..].
  - intros s o. unfold demo_decimal. intros [= <-]. by eexists.
  - apply (bool_decide_unpack _). vm_compute. exact I.
Defined.

(** The old DECIMAL type is a NUMBER by its code and no number by its value. *)
Lemma old_decimal_is_text :
  DbApiType_eq NUMBER (inr (field_type_value MYSQL_TYPE_DECIMAL)) = true ∧
  ∃ self', field_fetch_fromtext demo_atof demo_decimal demo_utf8 (demo_state MYSQL_TYPE_DECIMAL 0)
             (Some (bytes_of_string "1.50")) 1 = Some self' ∧
           at_column 1 self' = Some (PyBytes (bytes_of_string "1.50")).
Proof. split; [reflexivity|]. eexists. split; reflexivity. Qed.
