(* ===== verification/PyApi.v ===== *)
(** * Applications

    What an application does with one connection and one cursor: calls of the
    methods and properties of the Python classes, whose exceptions it handles.
    Every application is a session of [Session]: what the theorems on sessions
    say of the C code holds for applications. *)

From stdpp Require Import gmap.
From S2P Require Import Prelude Parser Values DateTime Wire Fetch Exceptions Params Client.
From S2P Require Import Connection Cursor Session CursorLogic Python PyCursor PyConnection Demo.

(** ** Calls *)

(** The methods and attributes of the C types that the Python classes inherit as
    they are. *)
Inductive inherited :=
  | Ping | Reset_session | Reconnect | Dump_debug_info
  | Change_user (args : option ())
  | Connection_warnings | Connection_id | Get_auto_reconnect
  | Set_auto_reconnect (v : option pyobj)
  | Escape_string (str : pyobj)
  | Description | Metadata | Cursor_warnings | Row_number | Closed
  | Set_arraysize (v : Z)
  | Connection_repr (at_p : list Z) | Cursor_repr (at_p : list Z).

Definition inherited_request (escape_ok : bool) (i : inherited) : request :=
  match i with
  | Ping => ConnPing | Reset_session => ConnReset | Reconnect => ConnReconnect
  | Dump_debug_info => ConnDump | Change_user args => ConnChangeUser args
  | Connection_warnings => ConnWarnings | Connection_id => ConnId
  | Get_auto_reconnect => ConnGetReconnect | Set_auto_reconnect v => ConnSetReconnect v
  | Escape_string str => ConnEscape escape_ok str
  | Description => CurDescription | Metadata => CurMetadata | Cursor_warnings => CurWarnings
  | Row_number => CurRowNumber | Closed => CurClosed
  | Set_arraysize v => CurMember (M_arraysize v)
  | Connection_repr p => ConnRepr p | Cursor_repr p => CurRepr p
  end.

(** Keyword arguments for the examples. *)
Definition demo_connection (autocommit reconnect : bool) : connection_kwargs :=
  mkConnectionKwargs (Some demo_args) None autocommit reconnect false None.

Inductive api_call :=
  | ApiConnect (kwargs : connection_kwargs)
  | ApiCursor (kwargs : option cursor_kwargs)
  | ApiExecute (statement data : pyobj) (buffered : option bool)
  | ApiExecuteMany (statement parameters : pyobj)
  | ApiCallProc (sp : list Z) (data : pyobj)
  | ApiFetchOne | ApiFetchMany (size : Z) | ApiFetchAll | ApiNextSet
  | ApiScroll (value : Z) (mode : scroll_mode)
  | ApiRowCount | ApiLastRowId | ApiSpOutParams | ApiCursorClose
  | ApiCommit | ApiRollback | ApiBegin
  | ApiKill (id : option Z)
  | ApiTpcBegin (x : option xid) | ApiTpcPrepare
  | ApiTpcCommit (x : option xid) | ApiTpcRollback (x : option xid)
  | ApiAutocommit (mode : bool) | ApiOpen | ApiVersionInfo
  | ApiSelectDb (new_db : list Z)
  | ApiProperty (newer_342 : bool) (p : info_property) | ApiThreadId | ApiSocket
  | ApiInherited (i : inherited)
  | ApiConnClose.

Section Application.

Context `{C : Client} `{P : PyLib} (al : allocations).

Definition ignore {A : Type} (m : PM A) : PM () := m;; mret ().

Definition api (c : api_call) : PM () :=
  match c with
  | ApiConnect kw => Connection_init al kw
  | ApiCursor kwargs => cursor al kwargs
  | ApiExecute st data b => execute al st data b
  | ApiExecuteMany st ps => executemany al st ps
  | ApiCallProc sp data => callproc al sp data
  | ApiFetchOne => ignore (fetchone al)
  | ApiFetchMany n => ignore (fetchmany al n)
  | ApiFetchAll => ignore (fetchall al)
  | ApiNextSet => ignore (nextset al)
  | ApiScroll v m => scroll al v m
  | ApiRowCount => ignore (get_rowcount al)
  | ApiLastRowId => ignore (lastrowid al)
  | ApiSpOutParams => ignore (sp_outparams al)
  | ApiCursorClose => close al
  | ApiCommit => commit al
  | ApiRollback => rollback al
  | ApiBegin => begin_ al
  | ApiKill id => kill al id
  | ApiTpcBegin x => tpc_begin al x
  | ApiTpcPrepare => tpc_prepare al
  | ApiTpcCommit x => tpc_commit al x
  | ApiTpcRollback x => tpc_rollback al x
  | ApiAutocommit b => set_autocommit al b
  | ApiOpen => ignore (is_open al)
  | ApiVersionInfo => ignore (server_version_info al)
  | ApiSelectDb db => select_db al db
  | ApiProperty newer p => ignore (read_property al newer p)
  | ApiThreadId => ignore (thread_id al)
  | ApiSocket => ignore (socket al)
  | ApiInherited i => ignore (c_call al (inherited_request (al_escape al) i))
  | ApiConnClose => conn_close al
  end.

(** The outcomes of the calls, in order. *)
Fixpoint application (cs : list api_call) (s : pystate) : M (pystate * list (pyexn + ())) :=
  match cs with
  | [] => mret (s, [])
  | c :: cs' =>
      r ← api c s;
      rs ← application cs' r.1;
      mret (rs.1, r.2 :: rs.2)
  end.

(** ** Applications are sessions *)

Lemma session_app rs1 rs2 (w : world C) :
  session al (rs1 ++ rs2) w = (session al rs1;; session al rs2) w.
Proof.
  revert w. induction rs1 as [|r rs1 IH]; intros w; [done|]. cbn [session app].
  unfold mbind, M_bind. destruct (perform al r w) as [v w1|]; [|done]. cbn. apply IH.
Qed.

(** A computation on the world that does what a session does. *)
Definition traced {A : Type} (m : M A) : Prop :=
  ∀ w, ∃ rs, session al rs w = match m w with Done _ w' => Done () w' | Stuck st => Stuck st end.

Lemma traced_ret {A} (a : A) : traced (mret a).
Proof. intros w. by exists []. Qed.

Lemma traced_bind {A B} (m : M A) (k : A -> M B) :
  traced m -> (∀ a, traced (k a)) -> traced (m ≫= k).
Proof.
  intros Hm Hk w. destruct (Hm w) as [rs1 H1]. unfold mbind, M_bind. destruct (m w) as [a w1|st].
  - destruct (Hk a w1) as [rs2 H2]. exists (rs1 ++ rs2). rewrite session_app.
    unfold mbind, M_bind. by rewrite H1.
  - by exists rs1.
Qed.

Definition tracedP {A : Type} (m : PM A) : Prop := ∀ s, traced (m s).

Lemma tracedP_ret {A} (a : A) : tracedP (mret a).
Proof. intros s. apply traced_ret. Qed.

Lemma tracedP_raise {A} x : tracedP (raise (A := A) x).
Proof. intros s. apply traced_ret. Qed.

Lemma tracedP_bind {A B} (m : PM A) (k : A -> PM B) :
  tracedP m -> (∀ a, tracedP (k a)) -> tracedP (m ≫= k).
Proof.
  intros Hm Hk s. apply traced_bind; [apply Hm|]. intros [s' [x|a]]; [apply traced_ret|apply Hk].
Qed.

Lemma tracedP_on_error {A} cls (m : PM A) h : tracedP m -> tracedP h -> tracedP (on_error cls m h).
Proof.
  intros Hm Hh s. apply traced_bind; [apply Hm|]. intros [s' [x|a]]; cbn; [|apply traced_ret].
  destruct (catches cls x); [|apply traced_ret].
  apply tracedP_bind; [done|]. intros. apply tracedP_raise.
Qed.

Lemma tracedP_try {A} cls (m h : PM A) : tracedP m -> tracedP h -> tracedP (try_except cls m h).
Proof.
  intros Hm Hh s. apply traced_bind; [apply Hm|]. intros [s' [x|a]]; cbn; [|apply traced_ret].
  destruct (catches cls x); [apply Hh|apply traced_ret].
Qed.

Lemma tracedP_attrs : tracedP attrs.
Proof. intros s. apply traced_ret. Qed.
Lemma tracedP_upd_attrs f : tracedP (upd_attrs f).
Proof. intros s. apply traced_ret. Qed.
Lemma tracedP_the_cursor : tracedP the_cursor.
Proof. intros s w. by exists []. Qed.
Lemma tracedP_the_connection : tracedP the_connection.
Proof. intros s w. by exists []. Qed.

Lemma tracedP_call r : tracedP (c_call al r).
Proof.
  intros s w. exists [r]. unfold c_call, mbind, M_bind. cbn [session].
  unfold mbind, M_bind. by destruct (perform al r w).
Qed.

End Application.

Create HintDb traced discriminated.
#[export] Hint Resolve tracedP_ret tracedP_raise tracedP_attrs tracedP_upd_attrs tracedP_the_cursor
  tracedP_the_connection tracedP_call : traced.

Ltac traced_auto :=
  repeat (intros; match goal with
  | |- tracedP _ (mbind _ _) => apply tracedP_bind
  | |- tracedP _ (let _ := _ in _) => cbv zeta
  | |- tracedP _ (match ?x with _ => _ end) => destruct x eqn:?
  | |- tracedP _ (on_error _ _ _) => apply tracedP_on_error
  | |- tracedP _ (try_except _ _ _) => apply tracedP_try
  | |- tracedP _ _ => solve [eauto 2 with traced nocore]
  end).

Section Traced.

Context `{C : Client} `{P : PyLib} (al : allocations).

Local Abbreviation tracedP := (tracedP al).

Lemma traced_object r : tracedP (c_object al r).
Proof. unfold c_object. traced_auto. Qed.
Lemma traced_member f : tracedP (set_member al f).
Proof. unfold set_member. traced_auto. Qed.
Lemma traced_pycursor f : tracedP (upd_pycursor f).
Proof. unfold upd_pycursor. traced_auto. Qed.
Lemma traced_pyconn f : tracedP (upd_pyconn f).
Proof. unfold upd_pyconn. traced_auto. Qed.
Lemma traced_len o : tracedP (p_len o).
Proof. unfold p_len. traced_auto. Qed.
Lemma traced_int o : tracedP (int_of o).
Proof. unfold int_of. traced_auto. Qed.
Lemma traced_get_statement : tracedP get_statement.
Proof. unfold get_statement. traced_auto. Qed.
Lemma traced_conn_check : tracedP connection_check_closed.
Proof. unfold connection_check_closed. traced_auto. Qed.
#[local] Hint Resolve traced_object traced_member traced_pycursor traced_pyconn traced_len traced_int
  traced_get_statement traced_conn_check : traced.

Lemma traced_check_closed : tracedP (check_closed al).
Proof. unfold check_closed, get_closed. traced_auto. Qed.
#[local] Hint Resolve traced_check_closed : traced.
Lemma traced_check_unbuffered : tracedP (check_unbuffered al).
Proof. unfold check_unbuffered. traced_auto. Qed.
Lemma traced_get_info what : tracedP (get_info al what).
Proof. unfold get_info. traced_auto. Qed.
Lemma traced_rowcount : tracedP (get_rowcount al).
Proof. unfold get_rowcount. traced_auto. Qed.
#[local] Hint Resolve traced_check_unbuffered traced_get_info traced_rowcount : traced.

Lemma traced_get_value c i : tracedP (get_value c i).
Proof. unfold get_value. traced_auto. Qed.
Lemma traced_replacement v : tracedP (replacement al v).
Proof. unfold replacement, quote_escaped. traced_auto. Qed.
#[local] Hint Resolve traced_get_value traced_replacement : traced.

Lemma traced_substitute_loop c l i r d st : tracedP (substitute_loop al c l i r d st).
Proof. revert i r d st. induction l; intros i r d st; simpl; traced_auto. Qed.
#[local] Hint Resolve traced_substitute_loop : traced.
Lemma traced_substitute : tracedP (substitute_parameters al).
Proof. unfold substitute_parameters. traced_auto. Qed.
#[local] Hint Resolve traced_substitute : traced.

Lemma traced_parse_execute st data b : tracedP (parse_execute al st data b).
Proof. unfold parse_execute, check_execute_params. traced_auto. Qed.
#[local] Hint Resolve traced_parse_execute : traced.

Lemma traced_execute st data b : tracedP (execute al st data b).
Proof. unfold execute. traced_auto. Qed.
#[local] Hint Resolve traced_execute : traced.

Lemma traced_rows st rows n : tracedP (execute_rows al st rows n).
Proof. revert n. induction rows; intros n; simpl; traced_auto. Qed.
#[local] Hint Resolve traced_rows : traced.

Lemma traced_seek z f : tracedP (seek_below al z f).
Proof. unfold seek_below. traced_auto. Qed.
#[local] Hint Resolve traced_seek : traced.

Lemma traced_command q : tracedP (command al q).
Proof. unfold command. traced_auto. Qed.
#[local] Hint Resolve traced_command : traced.
Lemma traced_or_reset m : tracedP m -> tracedP (or_reset m).
Proof. intros Hm. apply tracedP_on_error; [done|]. unfold set_tpc. traced_auto. Qed.
Lemma traced_end_phase x : tracedP (end_phase al x).
Proof. apply tracedP_bind; [traced_auto|intros _]. apply traced_or_reset. traced_auto. Qed.
Lemma traced_autocommit b : tracedP (set_autocommit al b).
Proof. unfold set_autocommit, get_autocommit, server_status. traced_auto. Qed.
#[local] Hint Resolve traced_end_phase traced_autocommit : traced.
#[local] Hint Extern 1 (PyApi.tracedP _ (or_reset _)) => apply traced_or_reset; traced_auto : traced.

Lemma traced_api c : tracedP (api al c).
Proof.
  destruct c; simpl; unfold ignore, Connection_init, cursor, Cursor_init, executemany, items_of, first_item,
    callproc, fetchone, fetchmany, fetchall, fetchrows, nextset, scroll, lastrowid, sp_outparams, close,
    commit, rollback, begin_, kill, tpc_active, tpc_begin, tpc_prepare, tpc_commit, tpc_rollback, set_tpc,
    is_open, server_version_info, read_property, thread_id, socket, select_db, set_database, conn_close, items_of; traced_auto.
Qed.

Lemma traced_application cs s : traced al (application al cs s).
Proof.
  revert s. induction cs as [|c cs IH]; intros s; simpl; [apply traced_ret|].
  apply traced_bind; [apply traced_api|intros r]. apply traced_bind; [apply IH|intros rs].
  apply traced_ret.
Qed.

End Traced.

(** Every application is a session: whatever methods and properties of the
    Python classes it calls, with whatever arguments and exceptions, what the C
    objects, the library and the interpreter lock go through is a sequence of
    requests of the method and attribute tables, to the same final state or to
    the same undefined behaviour.  What holds of all sessions holds of all
    applications. *)
Theorem application_is_session `{C : Client} `{P : PyLib} (al : allocations) (cs : list api_call)
    (s : pystate) (w : world C) :
  ∃ rs : list request,
    session al rs w = match application al cs s w with
                      | Done _ w' => Done () w'
                      | Stuck st => Stuck st
                      end.
Proof. exact (traced_application al cs s w). Qed.
