(* ===== verification/PyRuns.v ===== *)
(** * Runs of the Python layer

    Equations for the steps the methods are made of: a step that succeeds hands
    its value to the rest, a C entry point that returns an object gives it, a
    write of a member changes the cursor and nothing else. *)

From stdpp Require Import gmap.
From S2P Require Import Prelude Parser Values DateTime Wire Fetch Exceptions Params Client.
From S2P Require Import Connection Cursor Session CursorLogic SessionSafety CursorProps CursorRuns Python.
From S2P Require Import PyCursor.

(** A world between two requests: the lock is held, no exception is set. *)
Definition at_rest `{C : Client} (w : world C) : Prop := lock_state true w ∧ w_err w = None.

Section Runs.

Context `{C : Client} `{P : PyLib} (al : allocations).

Lemma pm_bind_run {A B} (m : PM A) (k : A -> PM B) s s' a w w' :
  m s w = Done (s', inr a) w' -> (m ≫= k) s w = k a s' w'.
Proof. unfold mbind, PM_bind, mbind, M_bind. by intros ->. Qed.

Lemma pm_bind_raise {A B} (m : PM A) (k : A -> PM B) s s' x w w' :
  m s w = Done (s', inl x) w' -> (m ≫= k) s w = Done (s', inl x) w'.
Proof. unfold mbind, PM_bind, mbind, M_bind. by intros ->. Qed.

(** Two steps that succeed together. *)
Lemma pm_bind_run_two {A B D} (m : PM A) (f : A -> PM B) (k : B -> PM D) s s' b w w' :
  (m ≫= f) s w = Done (s', inr b) w' -> (m ≫= λ a, f a ≫= k) s w = k b s' w'.
Proof.
  unfold mbind, PM_bind, mbind, M_bind. destruct (m s w) as [[s1 [x|a]] w1|]; [done| |done].
  cbn. by intros ->.
Qed.

(** The first part of a computation may be replaced by what it comes to. *)
Lemma pm_bind_comes {A B} (m m' : PM A) (k : A -> PM B) s s' w w' :
  m s w = m' s' w' -> (m ≫= k) s w = (m' ≫= k) s' w'.
Proof. unfold mbind, PM_bind, mbind, M_bind. by intros ->. Qed.

Lemma world_no_err (w : world C) :
  w_err w = None ->
  mkWorld (w_lib w) (w_live w) (w_next w) (w_gil w) (w_conn w) (w_cur w) None = w.
Proof. by destruct w; cbn; intros ->. Qed.

Lemma c_call_run r v s w w' :
  perform al r w = Done v w' -> w_err w' = None -> is_null v = false ->
  c_call al r s w = Done (s, inr v) w'.
Proof.
  intros Hp He Hv. unfold c_call, mbind, M_bind. rewrite Hp. unfold get_err, deliver_err. cbn.
  by rewrite He, Hv, world_no_err.
Qed.

(** Null with an exception raises it and leaves no exception set. *)
Lemma c_call_raise r v e s w w' :
  perform al r w = Done v w' -> w_err w' = Some e -> is_null v = true ->
  c_call al r s w =
  Done (s, inl (Raised e))
    (mkWorld (w_lib w') (w_live w') (w_next w') (w_gil w') (w_conn w') (w_cur w') None).
Proof.
  intros Hp He Hv. unfold c_call, mbind, M_bind. rewrite Hp. unfold get_err, deliver_err. cbn.
  by rewrite He, Hv.
Qed.

Lemma c_object_run r o s w w' :
  perform al r w = Done (VObj (Some o)) w' -> w_err w' = None ->
  c_object al r s w = Done (s, inr o) w'.
Proof. intros Hp He. unfold c_object. by erewrite pm_bind_run by (by eapply c_call_run). Qed.

Lemma set_member_run f s w :
  w_err w = None ->
  set_member al f s w = Done (s, inr ()) (with_cur (write_member f (w_cur w)) w).
Proof. intros He. unfold set_member. by erewrite pm_bind_run by (by apply c_call_run). Qed.

Lemma get_statement_run s w :
  get_statement s w =
  Done (s, inr (match p_statement (c_parseinfo (w_cur w)) with
                | Some t => PyUnicode (before_nul t)
                | None => PyNone
                end)) w.
Proof. done. Qed.

Lemma check_closed_open m s w :
  at_rest w -> c_closed (w_cur w) = false -> n_mysql (w_conn w) = Some m ->
  check_closed al s w = Done (s, inr ()) w.
Proof.
  intros [Hw He] Hc Hm. unfold check_closed, get_closed.
  assert (E : c_object al CurClosed s w = Done (s, inr (PyBool false)) w).
  { apply c_object_run; [|done]. cbn. unfold fmap, M_fmap, MrdbCursor_closed, return_bool.
    unfold mbind, M_bind, get_cur, get_conn. rewrite py_held, Hc, bool_decide_eq_false_2 by (done || by rewrite Hm).
    done. }
  erewrite pm_bind_run; [|by erewrite pm_bind_run by exact E]. done.
Qed.

End Runs.
