(* ===== verification/PyCursorProps.v ===== *)
(** * Scrolling, and cursors that are closed *)

From stdpp Require Import gmap.
From S2P Require Import Prelude Parser Values DateTime Wire Fetch Exceptions Params Client.
From S2P Require Import Connection Cursor Session CursorLogic SessionSafety CursorProps CursorRuns.
From S2P Require Import Python PyCursor PyRuns Demo.

Section Scroll.

Context `{C : Client} `{P : PyLib} (al : allocations).

(** ** Scrolling *)

(** The position [scroll] goes to; [None] is out of range.  A relative move may
    go behind the last row, an absolute one may not, and a relative move by 0 is
    an error. *)
Definition scroll_target (mode : scroll_mode) (rownumber rowcount value : Z) : option Z :=
  match mode with
  | Absolute => if (0 <=? value) && (value <? rowcount) then Some value else None
  | Relative =>
      if negb (value =? 0) && (0 <=? rownumber + value) && (rownumber + value <=? rowcount)
      then Some (rownumber + value) else None
  | OtherMode => None
  end.

(** A buffered result of [n] rows: the library counts them, and moves to a row
    on demand. *)
Definition buffered_result (n : Z) (seek : Z -> lib_state) (w : world C) : Prop :=
  c_is_buffered (w_cur w) = true ∧ c_field_count (w_cur w) ≠ 0 ∧
  is_Some (p_statement (c_parseinfo (w_cur w))) ∧ 0 <= n < 2 ^ 63 ∧
  if p_is_text (c_parseinfo (w_cur w)) then
    ∃ r, c_result (w_cur w) = Some r ∧ is_Some (w_live w !! r) ∧
      (∃ reports, lib_call (mysql_num_rows (Some r)) (w_lib w) = (n, reports, w_lib w) ∧ Forall harmless reports) ∧
      ∀ k, ∃ reports, lib_call (mysql_data_seek r k) (w_lib w) = ((), reports, seek k) ∧ Forall harmless reports
  else
    ∃ r, c_stmt (w_cur w) = Some r ∧ is_Some (w_live w !! r) ∧
      (∃ reports, lib_call (mysql_stmt_num_rows r) (w_lib w) = (n, reports, w_lib w) ∧ Forall harmless reports) ∧
      ∀ k, ∃ reports, lib_call (mysql_stmt_data_seek r k) (w_lib w) = ((), reports, seek k) ∧ Forall harmless reports.

Lemma with_lib_id (w : world C) : with_lib (w_lib w) w = w.
Proof. by destruct w. Qed.

Lemma row_count_run n seek s w :
  at_rest w -> buffered_result n seek w -> c_object al CurRowCount s w = Done (s, inr (PyLong n)) w.
Proof.
  intros [Hw He] (_ & Hf & [st Hs] & Hn & Hr). apply c_object_run; [|done].
  assert (E : CURSOR_NUM_ROWS w = Done n (with_lib (w_lib w) w)).
  { unfold CURSOR_NUM_ROWS. rewrite bind_eq. unfold get_cur.
    destruct (p_is_text _); destruct Hr as (r & -> & Hl & (reports & Hc & Hh) & _);
      (eapply call_harmless; [cbn; by rewrite bool_decide_eq_true_2|done..]). }
  rewrite with_lib_id in E.
  cbn. unfold fmap, M_fmap, Mariadb_row_count. rewrite !bind_eq. unfold get_cur. rewrite Hs.
  rewrite (proj2 (Z.eqb_neq _ _) Hf), bind_eq, E. unfold return_long. rewrite bind_eq, py_held by done.
  assert (s64 n = n) as -> by (unfold s64; rewrite Z.mod_small; lia). done.
Qed.

Lemma seek_run n seek pos s w :
  at_rest w -> buffered_result n seek w -> 0 <= pos <= n ->
  c_object al (CurSeek (PyLong pos)) s w = Done (s, inr PyNone) (with_lib (seek pos) w).
Proof.
  intros [Hw He] (_ & Hf & _ & Hn & Hr) Hpos. apply c_object_run; [|done].
  cbn -[as_ulonglong]. unfold fmap, M_fmap. rewrite bind_eq. unfold MrdbCursor_seek. cbn [as_long].
  assert (as_ulonglong (PyLong pos) = (pos, false)) as ->.
  { unfold as_ulonglong, ULLONG_MAX. cbn [as_long]. by rewrite !(proj2 (Z.leb_le _ _)) by lia. }
  assert (E : ∀ (op : libop ()), forallb (λ h, bool_decide (is_Some (w_live w !! h))) (handles_of op) = true ->
    (∀ live, after_call op live = live) ->
    (∃ reports, lib_call op (w_lib w) = ((), reports, seek pos) ∧ Forall harmless reports) ->
    (MARIADB_BEGIN_ALLOW_THREADS;; call op;; MARIADB_END_ALLOW_THREADS;; return_none) w
    = Done (Some PyNone) (with_lib (seek pos) w)).
  { intros op Hh Ha (reports & Hc & Hr'). erewrite unlocked_run by done.
    unfold return_none. by rewrite bind_eq, py_held. }
  assert (El : c_long (pos, false) w = Done pos w) by (unfold c_long; cbn [fst snd]; by rewrite bind_eq, py_held).
  rewrite (bind_eq (c_long _)), El, bind_eq. unfold get_cur.
  destruct (p_is_text _); destruct Hr as (r & -> & Hl & _ & Hk); cbn [nonnull].
  - specialize (E (mysql_data_seek r pos)). cbn in E. rewrite bool_decide_eq_true_2 in E by done.
    specialize (E eq_refl (λ _, eq_refl) (Hk pos)).
    exact (f_equal (λ x, match x with Done a w' => Done (VObj a) w' | Stuck s => Stuck s end) E).
  - specialize (E (mysql_stmt_data_seek r pos)). cbn in E. rewrite bool_decide_eq_true_2 in E by done.
    specialize (E eq_refl (λ _, eq_refl) (Hk pos)).
    exact (f_equal (λ x, match x with Done a w' => Done (VObj a) w' | Stuck s => Stuck s end) E).
Qed.

Lemma rowcount_run n seek s w :
  at_rest w -> buffered_result n seek w -> y_rowcount (s_cursor s) <= 0 ->
  get_rowcount al s w = Done (s, inr (PyLong n)) w.
Proof.
  intros Hw Hr Hy. unfold get_rowcount. do 2 erewrite pm_bind_run by done.
  pose proof Hr as (-> & _). rewrite (proj2 (Z.ltb_ge _ _)) by done. by apply (row_count_run n seek).
Qed.

Lemma seek_below_run n seek new_pos beyond s w :
  at_rest w -> buffered_result n seek w -> y_rowcount (s_cursor s) <= 0 ->
  (beyond n = false -> new_pos <= n) ->
  seek_below al new_pos beyond s w =
  if (0 <=? new_pos) && negb (beyond n)
  then Done (s, inr ()) (with_cur (set_c_row_number new_pos (w_cur w)) (with_lib (seek new_pos) w))
  else Done (s, inl (ProgrammingError "Position value is out of range.")) w.
Proof.
  intros Hw Hr Hy Hb. unfold seek_below. destruct (new_pos <? 0) eqn:E.
  { apply Z.ltb_lt in E. by rewrite (proj2 (Z.leb_gt _ _)). }
  apply Z.ltb_ge in E. rewrite (proj2 (Z.leb_le _ _)) by done.
  erewrite pm_bind_run by (by apply (rowcount_run n seek)). erewrite pm_bind_run by done.
  destruct (beyond n); [done|]. cbn [andb negb].
  erewrite pm_bind_run by (apply (seek_run n seek); [done|done|split; auto]).
  rewrite set_member_run by (by apply Hw). done.
Qed.

Lemma row_number_run s w :
  at_rest w -> c_field_count (w_cur w) ≠ 0 -> 0 <= c_row_number (w_cur w) < 2 ^ 63 ->
  c_object al CurRowNumber s w = Done (s, inr (PyLong (c_row_number (w_cur w)))) w.
Proof.
  intros [Hw He] Hf Hn. apply c_object_run; [|done]. cbn. unfold fmap, M_fmap, Mariadb_row_number.
  rewrite !bind_eq. unfold get_cur. rewrite (proj2 (Z.eqb_neq _ _) Hf). unfold return_long.
  rewrite bind_eq, py_held by done. assert (s64 (c_row_number (w_cur w)) = c_row_number (w_cur w)) as ->
    by (unfold s64; rewrite Z.mod_small; lia). done.
Qed.

(** C20: [scroll] on a buffered result moves the library and the row number to
    exactly the position asked for when it is in range, and otherwise raises a
    [ProgrammingError] and changes nothing, in either protocol. *)
Theorem scroll_exact (n : Z) (seek : Z -> lib_state) (mode : scroll_mode) (value : Z) (s : pystate)
    (w : world C) (Hcalm : at_rest w) (Hresult : buffered_result n seek w)
    (Hcount : y_rowcount (s_cursor s) <= 0) (Hrow : 0 <= c_row_number (w_cur w) < 2 ^ 63) :
  match scroll_target mode (c_row_number (w_cur w)) n value with
  | Some pos =>
      scroll al value mode s w =
      Done (s, inr ()) (with_cur (set_c_row_number pos (w_cur w)) (with_lib (seek pos) w))
  | None => ∃ msg, scroll al value mode s w = Done (s, inl (ProgrammingError msg)) w
  end.
Proof.
  pose proof Hresult as (Hb & Hf & _). unfold scroll. erewrite pm_bind_run by done.
  rewrite (proj2 (Z.eqb_neq _ _) Hf), Hb. cbn [negb]. unfold scroll_target.
  destruct mode; [| |by eexists].
  - rewrite (seek_below_run n seek) by (done || intros H%Z.leb_gt; lia).
    rewrite <- (Z.ltb_antisym n value). destruct (_ && _); [done|by eexists].
  - destruct (value =? 0); [by eexists|]. cbn [negb andb].
    erewrite pm_bind_run by (by apply row_number_run). erewrite pm_bind_run by done.
    rewrite (seek_below_run n seek) by (done || intros H%Z.ltb_ge; lia).
    rewrite <- (Z.leb_antisym n (c_row_number (w_cur w) + value)). destruct (_ && _); [done|by eexists].
Qed.

(** ** Closed cursors *)

(** Closed itself, or without a connection. *)
Definition unusable (w : world C) : bool :=
  c_closed (w_cur w) || bool_decide (n_mysql (w_conn w) = None).

(** What [check_closed] says then. *)
Definition closed_message (w : world C) : string :=
  if n_closed (w_conn w) then "Invalid connection or not connected" else "Cursor is closed".

Lemma check_closed_closed s w :
  at_rest w -> unusable w = true ->
  check_closed al s w = Done (s, inl (ProgrammingError (closed_message w))) w.
Proof.
  intros [Hw He] Hc. unfold check_closed, get_closed.
  assert (E : c_object al CurClosed s w = Done (s, inr (PyBool true)) w).
  { apply c_object_run; [|done]. cbn. unfold fmap, M_fmap, MrdbCursor_closed, return_bool.
    unfold mbind, M_bind, get_cur, get_conn. fold (unusable w). by rewrite py_held, Hc by done. }
  erewrite pm_bind_run; [|by erewrite pm_bind_run by exact E]. cbn [py_true].
  unfold closed_message. destruct (n_closed (w_conn w)) eqn:Hn.
  - apply pm_bind_raise. unfold connection_check_closed. erewrite pm_bind_run by done. by rewrite Hn.
  - erewrite pm_bind_run; [|unfold connection_check_closed; erewrite pm_bind_run by done; by rewrite Hn]. done.
Qed.

(** C21: Cursors that are closed, or whose connection is.  [execute],
    [executemany], [callproc], [nextset], [lastrowid] and [sp_outparams] raise
    the [ProgrammingError] "Cursor is closed", or "Invalid connection or not
    connected" when the connection was closed, and neither the cursor, nor the
    connection, nor the library, nor an attribute of the objects has changed.
    When the cursor is unbuffered so do [fetchone], [fetchmany] and [fetchall],
    [scroll] raises a [ProgrammingError], and [rowcount] is -1.  On a buffered
    cursor the fetch methods make no such check: without a result set
    [fetchone] and [scroll] are refused for that reason, and with one they go on
    to the C functions, where the result set of a closed cursor is a null
    pointer ([closed_fetch_undefined]). *)
Theorem closed_cursor_refuses (s : pystate) (w : world C) (Hcalm : at_rest w)
    (Hclosed : unusable w = true) :
  let refused := λ A (m : PM A), m s w = Done (s, inl (ProgrammingError (closed_message w))) w in
  (∀ statement data buffered, refused _ (execute al statement data buffered)) ∧
  (∀ sp data, refused _ (callproc al sp data)) ∧
  (∀ statement parameters, refused _ (executemany al statement parameters)) ∧
  refused _ (nextset al) ∧ refused _ (lastrowid al) ∧ refused _ (sp_outparams al) ∧
  (c_is_buffered (w_cur w) = false ->
   refused _ (fetchone al) ∧ (∀ size, refused _ (fetchmany al size)) ∧ refused _ (fetchall al) ∧
   (∀ value mode, ∃ msg, scroll al value mode s w = Done (s, inl (ProgrammingError msg)) w) ∧
   get_rowcount al s w = Done (s, inr (PyLong (-1))) w) ∧
  (c_is_buffered (w_cur w) = true -> c_field_count (w_cur w) = 0 ->
   fetchone al s w = Done (s, inl (ProgrammingError "Cursor doesn't have a result set")) w ∧
   ∀ value mode, ∃ msg, scroll al value mode s w = Done (s, inl (ProgrammingError msg)) w).
Proof.
  intros refused. pose proof (check_closed_closed s w Hcalm Hclosed) as E.
  assert (H : ∀ A (k : () -> PM A), refused A (check_closed al ≫= k)) by (intros; by apply pm_bind_raise).
  split_and!; try (intros; apply H); intros Hb.
  - assert (Hu : refused _ (check_unbuffered al)).
    { unfold refused, check_unbuffered. erewrite pm_bind_run by done. by rewrite Hb. }
    split_and!; try (intros; by apply pm_bind_raise).
    + intros value mode. unfold scroll. erewrite pm_bind_run by done. rewrite Hb.
      destruct (_ =? 0); by eexists.
    + unfold get_rowcount. do 2 (erewrite pm_bind_run by done). rewrite Hb.
      assert (Ht : try_except Mariadb_ProgrammingError (check_closed al;; mret false) (mret true) s w
                   = Done (s, inr true) w).
      { unfold try_except. rewrite bind_eq. by erewrite pm_bind_raise by exact E. }
      by erewrite pm_bind_run by exact Ht.
  - intros Hf. split.
    + unfold fetchone. assert (Hu : check_unbuffered al s w = Done (s, inr ()) w).
      { unfold check_unbuffered. erewrite pm_bind_run by done. by rewrite Hb. }
      do 2 (erewrite pm_bind_run by exact Hu). erewrite pm_bind_run by done. by rewrite Hf.
    + intros value mode. unfold scroll. erewrite pm_bind_run by done. rewrite Hf. by eexists.
Qed.

End Scroll.

(** ** Witnesses *)

Definition scroll_world : world demo_client := after demo_text.

Definition scroll_pystate : pystate :=
  mkPyState (mkPyCursor false PyNone false false 0) pyconnection_new.

Lemma scroll_world_result : buffered_result 2 (λ _, w_lib scroll_world) scroll_world.
Proof.
  unfold buffered_result.
  assert (Hb : c_is_buffered (w_cur scroll_world) = true) by (vm_compute; reflexivity).
  assert (Hf : c_field_count (w_cur scroll_world) = 1) by (vm_compute; reflexivity).
  assert (Hs : p_statement (c_parseinfo (w_cur scroll_world)) = Some (bytes_of_string "SELECT a FROM t"))
    by (vm_compute; reflexivity).
  assert (Ht : p_is_text (c_parseinfo (w_cur scroll_world)) = true) by (vm_compute; reflexivity).
  assert (Hr : c_result (w_cur scroll_world) = Some 1%nat) by (vm_compute; reflexivity).
  assert (Hl : w_live scroll_world !! 1%nat = Some (KRes true)) by (vm_compute; reflexivity).
  assert (Hn : lib_call (mysql_num_rows (Some 1%nat)) (w_lib scroll_world) = (2, [STATUS_TYPE 2], w_lib scroll_world))
    by (vm_compute; reflexivity).
  rewrite Hb, Hf, Hs, Ht, Hr. split_and!; [reflexivity|lia|by eexists|lia|lia|].
  exists 1%nat. split; [reflexivity|]. split; [rewrite Hl; by eexists|]. split.
  - exists [STATUS_TYPE 2]. split; [exact Hn|by repeat constructor].
  - intros k. exists [STATUS_TYPE 2]. split; [reflexivity|by repeat constructor].
Qed.

Lemma calm_scroll : at_rest scroll_world.
Proof. split; [split|]; vm_compute; reflexivity. Qed.

Lemma scroll_exact_witness :
  scroll demo_allocs 1 Absolute scroll_pystate scroll_world =
  Done (scroll_pystate, inr ()) (with_cur (set_c_row_number 1 (w_cur scroll_world))
                                   (with_lib (w_lib scroll_world) scroll_world)).
Proof.
  assert (Hr : c_row_number (w_cur scroll_world) = 0) by (vm_compute; reflexivity).
  apply (scroll_exact demo_allocs 2 (λ _, w_lib scroll_world) Absolute 1 scroll_pystate scroll_world
           calm_scroll scroll_world_result); [cbn; lia|rewrite Hr; lia].
Defined.

Definition closed_world : world demo_client := after (demo_text ++ [CurClose]).

Lemma closed_cursor_refuses_witness :
  execute demo_allocs (PyUnicode (bytes_of_string "SELECT 1")) (PyTuple []) None scroll_pystate closed_world
  = Done (scroll_pystate, inl (ProgrammingError "Cursor is closed")) closed_world.
Proof.
  apply (closed_cursor_refuses demo_allocs scroll_pystate closed_world);
    [split; [split|]|]; vm_compute; reflexivity.
Defined.

(** A relative move may end behind the last row, an absolute one may not. *)
Lemma scroll_bounds_differ :
  scroll_target Relative 0 2 2 = Some 2 ∧ scroll_target Absolute 0 2 2 = None.
Proof. done. Qed.
