(* ===== verification/TextStatement.v ===== *)
(** * Statements of the text protocol

    In the text protocol the connector puts the values into the statement
    itself.  Parsing and substitution together give the statement with every
    parameter replaced by the literal of its value, whatever the lengths of the
    literals, for the statements of [ParserRoundtrip] and for values that the
    text protocol can carry. *)

From stdpp Require Import gmap.
From S2P Require Import Prelude Parser ParserSpec ParserProps ParserRoundtrip Values DateTime Wire.
From S2P Require Import Fetch Exceptions Params Client Connection Cursor Session CursorLogic.
From S2P Require Import SessionSafety CursorProps CursorArrays CursorRuns Python PyCursor.
From S2P Require Import PyRuns Demo.

(** ** Specification *)

(** A statement with the literals of its parameters, in order. *)
Fixpoint fill (gs : list segment) (lits : list (list Z)) : list Z :=
  match gs, lits with
  | [], _ => []
  | Param _ :: gs', l :: lits' => l ++ fill gs' lits'
  | Param _ :: gs', [] => fill gs' []
  | g :: gs', _ => render1 QMARK g ++ fill gs' lits
  end.

(** The data of an execution and the values it has for the parameters: by
    position, or by name. *)
Definition supplied (st : enum_paramstyle) (params : list (list Z)) (data : pyobj) (vals : list pyobj)
    : Prop :=
  match st, data with
  | PYFORMAT, PyDict items =>
      Forall2 (λ name v, snd <$> list_find (λ kv, kv.1 = name) items = Some (name, v)) params vals
  | PYFORMAT, _ => False
  | _, PyTuple l | _, PyList l => l = vals ∧ length l = length params
  | _, _ => False
  end.

(** The library's local functions: they make no report and change nothing, the
    version of the server is [ver], and escaping depends on the string alone. *)
Definition local_version `{C : Client} (ver : Z) : Prop :=
  ∀ m l, lib_call (mysql_get_server_version m) l = (ver, [], l).

Definition local_escape `{C : Client} (esc : list Z -> list Z) : Prop :=
  ∀ m s l, lib_call (mysql_real_escape_string m s) l = (esc s, [], l).

Section Text.

Context `{C : Client} `{P : PyLib} (al : allocations) (ver : Z) (esc : list Z -> list Z).

(** The literal of a value; bytes have none, they are not sent as text. *)
Definition literal (v : pyobj) : option (list Z) :=
  match v with
  | PyNone => Some (bytes_of_string "NULL")
  | PyIndicator z =>
      if z =? 1 then Some (bytes_of_string "NULL")
      else if z =? 2 then Some (bytes_of_string "DEFAULT") else None
  | _ =>
      if is_number v then Some (str_of v)
      else match bytes_like v with
           | Some _ => None
           | None => Some (39 :: esc (str_of v) ++ [39])
           end
  end.

(** What the interpreter must accept: a number prints in ASCII, an escaped
    string is UTF-8. *)
Definition printable (v : pyobj) : Prop :=
  match v with
  | PyNone | PyIndicator _ => True
  | _ =>
      if is_number v then utf8_chars (str_of v) = Z.of_nat (length (str_of v))
      else is_Some (pl_utf8_length (esc (str_of v)))
  end.

Context (Hversion : local_version ver) (Hescape : local_escape esc) (Hal : allocations_ok al).

(** A world at rest with an open connection. *)
Definition calm_world (m : nat) (w : world C) : Prop :=
  at_rest w ∧ n_mysql (w_conn w) = Some m ∧ is_Some (w_live w !! m).

Lemma escape_run m st w s :
  calm_world m w -> is_Some (pl_utf8_length (esc st)) ->
  quote_escaped al st s w = Done (s, inr (39 :: esc st ++ [39])) w.
Proof.
  intros ([Hw He] & Hm & Hl) [n Hn]. pose proof Hescape as Hesc.
  destruct Hal as (_ & _ & _ & _ & _ & _ & _ & _ & Hae).
  unfold quote_escaped. rewrite Hae.
  erewrite pm_bind_run; [|apply (c_object_run al _ (PyUnicode (esc st)) s w w); [|done]]; [done|].
  cbn. unfold fmap, M_fmap, MrdbConnection_escape_string, MARIADB_CHECK_CONNECTION.
  rewrite !bind_eq. unfold get_conn. rewrite Hm, bind_eq, py_held by done. rewrite bind_eq.
  erewrite call_silent; [|cbn; by rewrite bool_decide_eq_true_2|apply Hesc|done].
  unfold return_unicode, py_unicode, PyUnicode_FromStringAndSize.
  rewrite bind_eq, py_held by done. cbn. rewrite Hn. by destruct w.
Qed.

Lemma replacement_run m v r w s :
  calm_world m w -> printable v -> literal v = Some r ->
  replacement al v s w = Done (s, inr (Some r, Z.of_nat (length r) - utf8_chars r)) w.
Proof.
  intros Hw Hp Hr.
  assert (Hq : ∀ t, is_Some (pl_utf8_length (esc t)) -> Some (39 :: esc t ++ [39]) = Some r ->
    (r' ← quote_escaped al t; mret (Some r', Z.of_nat (length r') - utf8_chars r')) s w
    = Done (s, inr (Some r, Z.of_nat (length r) - utf8_chars r)) w).
  { intros t Ht [= <-]. by erewrite pm_bind_run by (by apply (escape_run m)). }
  destruct v; cbn -[bytes_like] in Hr, Hp |- *; try (by apply Hq);
    try (injection Hr as <-; rewrite ?Hp, ?Z.sub_diag; reflexivity); [done|..].
  - destruct (indicator =? 1); [by injection Hr as <-|].
    destruct (indicator =? 2); [by injection Hr as <-|done].
  - destruct (bytes_like _); [done|]. by apply Hq.
Qed.

(** ** The loop *)

Lemma slice_done (pre rest : list Z) b :
  slice_to (Z.of_nat (length pre)) (pre ++ b :: rest) = pre ∧
  slice_from (Z.of_nat (length pre) + 1) (pre ++ b :: rest) = rest.
Proof.
  unfold slice_to, slice_from, slice_bound.
  rewrite !(proj2 (Z.ltb_ge _ _)), Nat2Z.id, take_app_length by lia. split; [done|].
  replace (Z.to_nat (Z.of_nat (length pre) + 1)) with (length pre + 1)%nat by lia.
  by rewrite drop_app_add.
Qed.

Lemma substitute_run m c gs vals lits pre o i rep s w :
  calm_world m w ->
  (∀ j v, vals !! j = Some v -> get_value c (i + j) s w = Done (s, inr v) w) ->
  Forall2 (λ v r, printable v ∧ literal v = Some r) vals lits ->
  length vals = length (names gs) ->
  substitute_loop al c (offsets o gs) i rep (Z.of_nat (length pre) - Z.of_nat o)
    (pre ++ render QMARK gs) s w
  = Done (s, inr (pre ++ fill gs lits)) w.
Proof.
  intros Hw. revert vals lits pre o i rep.
  induction gs as [|g gs IH]; intros vals lits pre o i rep Hv Hl Hn; [done|].
  assert (Hskip : ∀ t, length vals = length (names gs) ->
    substitute_loop al c (offsets (o + length t) gs) i rep (Z.of_nat (length pre) - Z.of_nat o)
      (pre ++ t ++ render QMARK gs) s w = Done (s, inr (pre ++ t ++ fill gs lits)) w).
  { intros t Ht. rewrite !(assoc_L (++)).
    replace (Z.of_nat (length pre) - Z.of_nat o)
      with (Z.of_nat (length (pre ++ t)) - Z.of_nat (o + length t)) by (rewrite length_app; lia).
    by apply (IH vals). }
  destruct g; [by apply Hskip..|]. clear Hskip.
  change (render QMARK (Param name :: gs)) with (63 :: render QMARK gs). cbn -[slice_to slice_from render].
  destruct Hl as [|v r vals lits [Hp Hr] Hl]; [done|].
  erewrite pm_bind_run by (rewrite <- (Nat.add_0_r i); by apply Hv).
  erewrite pm_bind_run by (by apply (replacement_run m)).
  cbn [fst snd]. replace (Z.of_nat o + _) with (Z.of_nat (length pre)) by lia.
  destruct (slice_done pre (render QMARK gs) 63) as [-> ->].
  replace (_ + (_ - 1 + _)) with (Z.of_nat (length (pre ++ r)) - Z.of_nat (o + 1))
    by (rewrite length_app; lia).
  rewrite (assoc_L (++)). rewrite (IH vals lits); [by rewrite <- (assoc_L (++))| |done|by injection Hn].
  intros j u Hu. replace (S i + j)%nat with (i + S j)%nat by lia. by apply Hv.
Qed.

(** ** What the cursor holds after the parse *)

Definition parsed_as (st : enum_paramstyle) (gs : list segment) (c : MrdbCursor) : Prop :=
  p_statement (c_parseinfo c) = Some (render QMARK gs) ∧ p_paramstyle (c_parseinfo c) = st ∧
  p_paramcount (c_parseinfo c) = Z.of_nat (length (names gs)) ∧
  p_paramlist (c_parseinfo c) = offsets 0 gs ∧
  (st = PYFORMAT -> p_keys (c_parseinfo c) = names gs).

Lemma get_value_run st gs c data vals j v s w :
  parsed_as st gs c -> st ≠ NONE -> c_data c = Some data -> supplied st (names gs) data vals ->
  vals !! j = Some v -> get_value c j s w = Done (s, inr v) w.
Proof.
  intros (_ & Hst & _ & _ & Hk) Hn Hd Hs Hj. unfold get_value. rewrite Hst, Hd. cbn.
  destruct st; [done|..]; [destruct data; try done; by destruct Hs as [-> _]; rewrite Hj..|].
  rewrite Hk by done. destruct data; try done. cbn in Hs.
  destruct (Forall2_lookup_r _ _ _ _ _ Hs Hj) as (name & -> & ->). done.
Qed.

Lemma length_offsets gs o : length (offsets o gs) = length (names gs).
Proof.
  revert o. induction gs as [|[] gs IH]; intros o; [done|..]; cbn; rewrite IH; reflexivity.
Qed.

Lemma supplied_keys params items vals :
  supplied PYFORMAT params (PyDict items) vals -> missing_key params items = false.
Proof.
  cbn. unfold missing_key. induction 1 as [|name v params vals Hx Hs IH]; [done|]. cbn. rewrite IH, orb_false_r.
  apply negb_false_iff, bool_decide_eq_true. destruct (list_find _ _) as [[i kv]|] eqn:E; [|done].
  injection Hx as ->. apply list_find_Some in E as (Hi & _).
  apply (list_elem_of_lookup_2 _ i). by rewrite list_lookup_fmap, Hi.
Qed.

Lemma check_params_run st gs data vals s w :
  parsed_as st gs (w_cur w) -> st ≠ NONE -> names gs ≠ [] -> c_data (w_cur w) = Some data ->
  supplied st (names gs) data vals -> check_execute_params s w = Done (s, inr ()) w.
Proof.
  intros (_ & Hst & _ & Hl & Hk) Hn Hne Hd Hs. unfold check_execute_params.
  erewrite pm_bind_run by done. rewrite Hst, Hd, Hl. cbn [default].
  assert (Hlen : ∀ l : list pyobj, length l = length (names gs) ->
     match offsets 0 gs with
     | [] => mret ()
     | l' => if negb (negb (bool_decide (l = []))) || negb (Z.of_nat (length l) =? Z.of_nat (length l'))
             then raise (ProgrammingError "statement (%s) doesn't match the number of data elements (%s).")
             else mret ()
     end s w = Done (s, inr ()) w).
  { intros l Hl'. pose proof (length_offsets gs 0) as Ho. destruct (offsets 0 gs) as [|x xs]; [done|].
    rewrite bool_decide_eq_false_2 by (by intros ->; destruct (names gs)).
    by rewrite Hl', <- Ho, Z.eqb_refl. }
  destruct st; [done|..].
  1-2: destruct data as [| | | | | | | | | | | |l|l| |]; try done; destruct Hs as [-> Hlv];
    erewrite pm_bind_run by done; specialize (Hlen _ Hlv); (destruct (offsets 0 gs);
    [done|erewrite pm_bind_run by done; by destruct vals]).
  destruct data; try done. erewrite pm_bind_run by done. rewrite Hk by done.
  cbn [id]. by rewrite (supplied_keys _ _ _ Hs).
Qed.

(** ** Parsing and checking *)

Lemma before_nul_app (l t : list Z) : Forall (λ c, c ≠ 0) l -> before_nul (l ++ 0 :: t) = l.
Proof. induction 1 as [|c l Hc Hl IH]; [done|]. cbn. by rewrite (proj2 (Z.eqb_neq _ _) Hc), IH. Qed.

(** The parse of [_parse_execute] gives the question-mark form. *)
Lemma saved_parsed st gs old q c :
  statement_length q = Z.of_nat (length (render QMARK gs)) ->
  take (length (render QMARK gs)) (statement_str q) = render QMARK gs ->
  param_list q = offsets 0 gs -> param_count q = Z.of_nat (length (param_list q)) ->
  paramstyle q = st -> (st = PYFORMAT -> keys q = Some (key_of <$> names gs)) ->
  forallb segment_ok gs = true ->
  parsed_as st gs (saved_cursor old q c).
Proof.
  intros Hl Ht Hp Hc Hst Hk Hok. unfold saved_cursor. split_and!; cbn; try done.
  - by rewrite Hl, Nat2Z.id, Ht.
  - by rewrite Hc, Hp, length_offsets.
  - intros ->. unfold saved_keys. rewrite Hst, Hk by done. clear -Hok.
    induction gs as [|g gs IH]; [done|]. cbn in Hok |- *. apply andb_true_iff in Hok as [Hg Hok].
    destruct g; cbn; try (by apply IH). f_equal; [|by apply IH].
    apply before_nul_app, Forall_forall. intros b Hb.
    unfold segment_ok in Hg. rewrite forallb_forall in Hg. specialize (Hg b Hb). cbn in Hg. lia.
Qed.

(** A statement in a world where [execute] runs it in the text protocol. *)
Record text_ready (m : nat) (st : enum_paramstyle) (gs : list segment) (data : pyobj)
    (vals : list pyobj) (w : world C) : Prop := {
  tr_world : calm_world m w;
  tr_arrays : arrays_ok (w_cur w);
  tr_style : st ≠ NONE;
  tr_segments : forallb segment_ok gs = true;
  tr_params : names gs ≠ [];
  tr_no_nul : Forall (λ b, b ≠ 0) (render QMARK gs);
  tr_length : Z.of_nat (length (render st gs)) < 2 ^ 32;
  tr_data : supplied st (names gs) data vals;
  tr_cursor_type : c_cursor_type (w_cur w) = CURSOR_TYPE_NO_CURSOR;
  tr_command : ∀ q, MrdbParser_parse (al_keys al) (Some (init_parser ver (render st gs))) false 128
                    = ParseOk q -> command q = SQL_OTHER;
  tr_again : before_nul <$> p_statement (c_parseinfo (w_cur w)) = Some (render st gs) ->
             parsed_as st gs (w_cur w) ∧ p_is_text (c_parseinfo (w_cur w)) = true;
}.

Lemma render_marked st gs : render st gs = [] -> names gs = [].
Proof. 
  induction gs as [|g gs IH]; [done|]. destruct g as [| | |dashes|]; cbn; try done;
    [|by destruct dashes|by destruct st]. intros [-> H]%app_nil. by apply IH.
Qed.

Definition is_text_command (k : enum_binary_command) : bool :=
  bool_decide (k = SQL_NONE) || bool_decide (k = SQL_OTHER).

(** The cursor behind a parse: the statement, and the protocol its command asks
    for; arrays for another number of parameters are gone. *)
Definition after_parse (st : enum_paramstyle) (gs : list segment) (k : enum_binary_command)
    (c c' : MrdbCursor) : Prop :=
  parsed_as st gs c' ∧ p_is_text (c_parseinfo c') = is_text_command k ∧
  c_cursor_type c' = c_cursor_type c ∧ c_closed c' = c_closed c ∧ c_stmt c' = c_stmt c ∧
  c_is_prepared c' = c_is_prepared c ∧ c_field_count c' = c_field_count c ∧
  (old_count c = 0 -> c_params c' = None ∧ c_value c' = None).

(** A statement that the parser takes. *)
Record parsable (m : nat) (st : enum_paramstyle) (gs : list segment) (k : enum_binary_command)
    (w : world C) : Prop := {
  pb_world : calm_world m w;
  pb_arrays : arrays_ok (w_cur w);
  pb_style : st ≠ NONE;
  pb_segments : forallb segment_ok gs = true;
  pb_params : names gs ≠ [];
  pb_length : Z.of_nat (length (render st gs)) < 2 ^ 32;
  pb_command : ∀ q, MrdbParser_parse (al_keys al) (Some (init_parser ver (render st gs))) false 128
                    = ParseOk q -> command q = k;
}.

Lemma parse_request_run m st gs k s w :
  parsable m st gs k w ->
  ∃ c', (c_object al (CurParse (PyUnicode (render st gs)));; set_member al (M_reprepare true)) s w
        = Done (s, inr ()) (with_cur c' w) ∧
        after_parse st gs k (w_cur w) c' ∧ c_reprepare c' = true.
Proof.
  intros [([Hw He] & Hm & Hl) Ha Hst Hok Hne Hlen Hcmd].
  assert (Hnn : render st gs ≠ []) by (intros H; by apply render_marked in H).
  destruct (render_parse_facts (al_keys al) 128 ver st gs (init_parser ver (render st gs)))
    as (q & Hq & F1 & F2 & F3 & F4 & F5); [by apply Hal|done|done|lia|by destruct (render st gs)|].
  assert (Hi : MrdbParser_init true true ver (Some (render st gs)) = InitOk (init_parser ver (render st gs)))
    by (by destruct (render st gs)).
  destruct (parse_parameter_facts _ _ _ _ _ _ _ Hi Hlen Hq) as (Hc & _).
  erewrite pm_bind_run.
  2: { apply c_object_run; [|]. cbn -[MrdbCursor_parse]. unfold fmap, M_fmap. rewrite bind_eq.
       erewrite (parse_run al); [reflexivity|done..|apply Hversion|done|done|done]. done. }
  rewrite set_member_run by done. cbn. eexists. split; [reflexivity|]. split; [|done].
  assert (Hcount : param_count q ≠ 0).
  { rewrite Hc, F3, length_offsets. destruct (names gs); [done|cbn; lia]. }
  split_and!; cbn; [|by rewrite (Hcmd q Hq)|..].
  - eapply (saved_parsed st gs _ q); try done; [by destruct (names gs)|].
    intros ->. by destruct (names gs).
  - unfold cleared. by repeat case_match.
  - unfold cleared. by repeat case_match.
  - unfold cleared. by repeat case_match.
  - unfold cleared. by repeat case_match.
  - unfold cleared. by repeat case_match.
  - intros ->. by rewrite (proj2 (Z.eqb_neq _ _) Hcount).
Qed.

(** The statement the object holds decides whether it is parsed again. *)
Definition parse_step (st : enum_paramstyle) (gs : list segment) (s : pystate) (w : world C) : PM () :=
  if negb (same_statement (match p_statement (c_parseinfo (w_cur w)) with
                           | Some t => PyUnicode (before_nul t)
                           | None => PyNone
                           end) (PyUnicode (render st gs)))
     || (false && negb (y_bulk (s_cursor s)))
  then c_object al (CurParse (PyUnicode (render st gs)));; set_member al (M_reprepare true)
  else set_member al (M_reprepare false).

(** Parsed now, or by an earlier execution of the same text. *)
Lemma parse_step_run m st gs data vals s w :
  text_ready m st gs data vals w ->
  ∃ c', parse_step st gs s w s w = Done (s, inr ()) (with_cur c' w) ∧
        parsed_as st gs c' ∧ p_is_text (c_parseinfo c') = true ∧ c_cursor_type c' = c_cursor_type (w_cur w).
Proof.
  intros [Hw Ha Hst Hok Hne H0 Hlen Hd Hct Hcmd Hag]. unfold parse_step.
  rewrite orb_false_r. destruct (same_statement _ _) eqn:Es.
  - destruct (p_statement (c_parseinfo (w_cur w))) as [t|]; [|done].
    apply bool_decide_eq_true in Es as Et. cbn in Hag. rewrite Et in Hag. destruct Hag as [Hp Ht]; [done|].
    eexists. split; [apply set_member_run, Hw|]. done.
  - destruct (parse_request_run m st gs SQL_OTHER s w) as (c' & Hrun & (Hp & Ht & Hty & _) & _); [by split|].
    by exists c'.
Qed.

(** The rest of [_parse_execute]. *)
Lemma parse_execute_after st gs data vals s w c' :
  at_rest w -> st ≠ NONE -> names gs ≠ [] -> supplied st (names gs) data vals ->
  parse_step st gs s w s w = Done (s, inr ()) (with_cur c' w) ->
  parsed_as st gs c' -> c_cursor_type c' = CURSOR_TYPE_NO_CURSOR ->
  ∃ s', parse_execute al (PyUnicode (render st gs)) data false s w
        = Done (s', inr ()) (with_cur (set_c_data (Some data) c') w) ∧
        y_force_binary (s_cursor s') = y_force_binary (s_cursor s).
Proof.
  intros [Hw He] Hst Hne Hd Hstep Hp Hct. unfold parse_execute. cbn [py_true].
  rewrite bool_decide_eq_false_2 by (intros H; by apply render_marked in H). cbn [negb].
  erewrite pm_bind_run by apply get_statement_run. erewrite pm_bind_run by done.
  erewrite pm_bind_run by exact Hstep. do 3 (erewrite pm_bind_run by done). cbn [with_cur w_cur].
  rewrite Hct. erewrite pm_bind_run by done.
  erewrite pm_bind_run by (by apply set_member_run).
  set (s' := mkPyState _ _). exists s'. split; [|done].
  erewrite (check_params_run st gs data vals); try done.
Qed.

Lemma parse_execute_run m st gs data vals s w :
  text_ready m st gs data vals w ->
  ∃ s' c', parse_execute al (PyUnicode (render st gs)) data false s w
           = Done (s', inr ()) (with_cur c' w) ∧
           parsed_as st gs c' ∧ p_is_text (c_parseinfo c') = true ∧ c_data c' = Some data ∧
           y_force_binary (s_cursor s') = y_force_binary (s_cursor s).
Proof.
  intros Hr. destruct (parse_step_run m st gs data vals s w Hr) as (c' & Hstep & Hp & Ht & Hty).
  destruct Hr as [(Hrest & _) _ Hst _ Hne _ _ Hd Hct _ _].
  destruct (parse_execute_after st gs data vals s w c') as (s' & Hrun & Hfb); [done..|congruence|].
  by exists s', (set_c_data (Some data) c').
Qed.

(** ** Executing *)

(** Values for which [_check_text_types] keeps the text protocol. *)
Definition text_item (o : pyobj) : bool :=
  match o with
  | PyBytes _ | PyOther "bytearray" | PyDate _ _ _ | PyDateTime _ _ _ _ _ _ _ => false
  | _ => true
  end.

Definition text_items (data : pyobj) (n : nat) : Prop :=
  ∀ i, (i < n)%nat -> ∃ o, text_types_item data i = Some o ∧ text_item o = true.

Lemma text_types_run data i n w :
  lock_state true w -> text_items data (i + n) -> text_types_loop data i n w = Done (Some PyNone) w.
Proof.
  intros Hw. revert i. induction n as [|n IH]; intros i Ht; cbn.
  - unfold return_none. by rewrite bind_eq, py_held.
  - destruct (Ht i) as (o & Ho & Hi); [lia|]. rewrite bind_eq, Ho. cbn [nonnull mret M_ret].
    specialize (IH (S i)). replace (S i + n)%nat with (i + S n)%nat in IH by lia. specialize (IH Ht).
    destruct o; try done. unfold text_item in Hi. by repeat case_match.
Qed.

Lemma supplied_length st gs data vals :
  st ≠ NONE -> names gs ≠ [] -> supplied st (names gs) data vals ->
  py_true data = true ∧ (∃ n, py_len data = Some n ∧ n ≠ 0) ∧ length vals = length (names gs).
Proof.
  intros Hst Hne Hs. destruct (names gs) as [|name l] eqn:E; [done|].
  destruct st; [done|..].
  1-2: destruct data; try done; destruct Hs as [-> Hl]; (destruct vals; [done|]);
    (split_and!; [done|eexists; split; [done|cbn; lia]|done]).
  destruct data as [| | | | | | | | | | | | | |items|]; try done.
  destruct items as [|kv items]; [by inversion Hs|].
  split_and!; [done|eexists; split; [done|cbn; lia]|symmetry; by eapply Forall2_length].
Qed.

Lemma substitute_parameters_run m st gs data vals lits s w :
  calm_world m w -> st ≠ NONE -> names gs ≠ [] -> Forall (λ b, b ≠ 0) (render QMARK gs) ->
  parsed_as st gs (w_cur w) -> c_data (w_cur w) = Some data -> supplied st (names gs) data vals ->
  Forall2 (λ v r, printable v ∧ literal v = Some r) vals lits ->
  substitute_parameters al s w = Done (s, inr (fill gs lits)) w.
Proof.
  intros Hw Hst Hne H0 Hp Hd Hs Hl. unfold substitute_parameters.
  erewrite pm_bind_run by apply get_statement_run.
  destruct Hp as (Hp1 & Hp'). rewrite Hp1, before_nul_id by done.
  erewrite pm_bind_run by done. pose proof Hp' as (_ & _ & Hpl & _). rewrite Hpl.
  apply (substitute_run m _ gs vals lits [] 0 0 None); [done| |done|].
  - intros j v Hj. by apply (get_value_run st gs (w_cur w) data vals).
  - by eapply supplied_length.
Qed.

(** C9: In the text protocol [execute] submits exactly the statement in which
    every parameter is replaced by the literal of its value, in each of the
    three paramstyles and whatever the lengths of the literals; before that the
    library sees nothing but its local functions (version and escaping).

    The statement is one of [segment_ok] segments (see
    [ParserRoundtrip]): literals and comments may hold markers and pairs
    of quotes, but each quote inside them is closed there; it has a parameter,
    no NUL byte and fewer than 2^32 bytes, and its command is one that goes by
    the text protocol.  The values are None, the indicators NULL and DEFAULT,
    numbers, and objects whose text is escaped; bytes, dates and the indicators
    IGNORE and IGNORE_ROW are not among them (see [bytes_shift_parameters] and
    [ignore_repeats_value] for what the code does there).  [text_items] asks a
    dictionary for an entry at each parameter's position, which excludes a
    shorter one (see [text_types_repeated_name]).  The cursor is open, neither
    prepared nor forced to binary, and has no result set left from before; the
    connection is open, no exception is set, and allocations succeed. *)
Theorem execute_text_exact (m : nat) (st : enum_paramstyle) (gs : list segment) (data : pyobj)
    (vals : list pyobj) (lits : list (list Z)) (s : pystate) (w : world C)
    (Hready : text_ready m st gs data vals w)
    (Hopen : c_closed (w_cur w) = false) (Hfields : c_field_count (w_cur w) = 0)
    (Hprepared : y_prepared (s_cursor s) = false) (Hbinary : y_force_binary (s_cursor s) = false)
    (Hitems : text_items data (length (names gs)))
    (Hlits : Forall2 (λ v r, printable v ∧ literal v = Some r) vals lits) :
  ∃ s' w', execute al (PyUnicode (render st gs)) data None s w =
           ((c_object al (CurExecuteText (PyBytes (fill gs lits)));; c_object al CurReadResponse);;
            c_object al CurInitResult;; upd_pycursor (set_y_bulk false)) s' w' ∧
           w_lib w' = w_lib w ∧ w_live w' = w_live w ∧ w_conn w' = w_conn w.
Proof.
  pose proof Hready as [Hw _ Hst _ Hne H0 _ Hs _ _ _]. pose proof Hw as ([Hlock He] & Hm & Hl).
  destruct (supplied_length st gs data vals Hst Hne Hs) as (Htrue & (n & Hlen & Hn) & Hvals).
  unfold execute. erewrite pm_bind_run by (by apply (check_closed_open al m)).
  do 4 (erewrite pm_bind_run by done). rewrite Hfields. do 3 (erewrite pm_bind_run by done).
  cbn [s_cursor set_y_rowcount y_prepared y_force_binary]. rewrite Hprepared, Hbinary. cbn [andb].
  set (s1 := mkPyState _ _).
  destruct (parse_execute_run m st gs data vals s1 w Hready) as (s2 & c2 & Hrun & Hp & Ht & Hd & Hfb).
  erewrite pm_bind_run by exact Hrun. cbv zeta. unfold or_empty. rewrite Htrue.
  unfold p_len. rewrite Hlen. erewrite pm_bind_run by done. rewrite (proj2 (Z.eqb_neq _ _) Hn).
  erewrite pm_bind_run by (by apply set_member_run). erewrite pm_bind_run by done.
  set (w3 := with_cur _ _).
  assert (Htypes : c_object al CurCheckTextTypes s2 w3 = Done (s2, inr PyNone) w3).
  { apply c_object_run; [|done]. cbn -[text_types_loop].
    unfold fmap, M_fmap, MrdbCursor_check_text_types, mbind, M_bind, get_cur.
    rewrite py_held by done. cbn -[text_types_loop Z.to_nat].
    destruct Hp as (_ & _ & -> & _). by rewrite Nat2Z.id, text_types_run. }
  rewrite Htrue. erewrite pm_bind_run by (by erewrite pm_bind_run by exact Htypes).
  assert (Hsub : substitute_parameters al s2 w3 = Done (s2, inr (fill gs lits)) w3)
    by (by apply (substitute_parameters_run m st gs data vals)).
  assert (Hpos : (0 <? p_paramcount (c_parseinfo c2)) = true).
  { destruct Hp as (_ & _ & -> & _). destruct (names gs); [done|]. by apply Z.ltb_lt. }
  erewrite pm_bind_run by done. cbn [w3 with_cur w_cur set_c_data c_parseinfo write_member]. rewrite Ht, Hpos.
  eexists _, w3. split; [|done]. apply pm_bind_comes.
  erewrite pm_bind_run by (by erewrite pm_bind_run by exact Hsub). by erewrite pm_bind_run by done.
Qed.

End Text.

(** ** Witness *)

(** [SET @a=%(a)s, @b='?', @c=%(b)s] with a string that has a quote in it, and None. *)
Definition demo_statement : list segment :=
  [Code (bytes_of_string "SET @a="); Param (bytes_of_string "a"); Code (bytes_of_string ", @b=");
   Quoted 39 (bytes_of_string "?"); Code (bytes_of_string ", @c="); Param (bytes_of_string "b")].

Definition demo_data : pyobj :=
  PyDict [(bytes_of_string "b", PyNone); (bytes_of_string "a", PyUnicode (bytes_of_string "it's"))].

Definition demo_open : world demo_client :=
  after [ConnConnect (Some demo_args); CurInit (Some (0, 0, false, false))].

Definition demo_pystate : pystate :=
  mkPyState (mkPyCursor false PyNone false false 0) pyconnection_new.

Definition demo_literals : list (list Z) := [bytes_of_string "'it\'s'"; bytes_of_string "NULL"].

Example demo_fill :
  fill demo_statement demo_literals = bytes_of_string "SET @a='it\'s', @b='?', @c=NULL".
Proof. reflexivity. Qed.

Lemma demo_text_ready :
  text_ready demo_allocs 101100 0 PYFORMAT demo_statement demo_data
    [PyUnicode (bytes_of_string "it's"); PyNone] demo_open.
Proof.
  assert (Hs : p_statement (c_parseinfo (w_cur demo_open)) = None) by (vm_compute; reflexivity).
  assert (Hp : c_params (w_cur demo_open) = None ∧ c_value (w_cur demo_open) = None)
    by (split; vm_compute; reflexivity).
  assert (Hw : w_gil demo_open = true ∧ n_thread_state (w_conn demo_open) = false ∧
               w_err demo_open = None ∧ n_mysql (w_conn demo_open) = Some 0%nat)
    by (split_and!; vm_compute; reflexivity).
  assert (Hl : w_live demo_open !! 0%nat = Some KMysql) by (vm_compute; reflexivity).
  destruct Hw as (Hw1 & Hw2 & Hw3 & Hw4). split.
  - exact (conj (conj (conj Hw1 Hw2) Hw3) (conj Hw4 (mk_is_Some _ _ Hl))).
  - destruct Hp as [Hp Hv]. unfold arrays_ok. rewrite Hp, Hv. exact (conj I I).
  - done.
  - by vm_compute.
  - done.
  - apply (bool_decide_unpack _). by vm_compute.
  - by vm_compute.
  - repeat constructor.
  - vm_compute. reflexivity.
  - intros q Hq.
    assert (E : match MrdbParser_parse (al_keys demo_allocs)
                        (Some (init_parser 101100 (render PYFORMAT demo_statement))) false 128 with
                | ParseOk q => command q | _ => SQL_NONE end = SQL_OTHER) by (vm_compute; reflexivity).
    rewrite Hq in E. exact E.
  - rewrite Hs. discriminate.
Qed.

Lemma execute_text_exact_witness :
  ∃ s' w', execute demo_allocs (PyUnicode (render PYFORMAT demo_statement)) demo_data None
             demo_pystate demo_open =
           ((c_object demo_allocs (CurExecuteText (PyBytes (fill demo_statement demo_literals)));;
             c_object demo_allocs CurReadResponse);;
            c_object demo_allocs CurInitResult;; upd_pycursor (set_y_bulk false)) s' w' ∧
           w_lib w' = w_lib demo_open ∧ w_live w' = w_live demo_open ∧ w_conn w' = w_conn demo_open.
Proof.
  apply (execute_text_exact demo_allocs 101100 demo_escape) with (m := 0%nat)
    (vals := [PyUnicode (bytes_of_string "it's"); PyNone]).
  - intros m l. reflexivity.
  - intros m t l. reflexivity.
  - split_and!; reflexivity.
  - exact demo_text_ready.
  - vm_compute. reflexivity.
  - vm_compute. reflexivity.
  - reflexivity.
  - reflexivity.
  - intros [|[|i]] Hi; [by eexists..|cbn in Hi; lia].
  - repeat constructor. by eexists.
Defined.

(** ** Where the substitution goes wrong *)

(** The interpreter of the demonstration, which takes every text as UTF-8. *)
Definition utf8_pylib : PyLib :=
  Build_PyLib pl_atof pl_float_to_double pl_decimal_new (λ s, Some (utf8_chars s)) pl_is_num pl_str
    pl_as_double pl_net_field_length pl_pack_len.

Definition text_sent (stmt : string) (data : pyobj) : option (pyexn + list Z) :=
  match (parse_execute (P := utf8_pylib) demo_allocs (PyUnicode (bytes_of_string stmt)) data false;;
         substitute_parameters (P := utf8_pylib) demo_allocs) demo_pystate demo_open with
  | Done r _ => Some r.2
  | Stuck _ => None
  end.

(** [_check_text_types] looks at the first entries of a dictionary, as many as
    there are parameters, so a value of type bytes behind unused entries stays in
    the text protocol.  Its bytes from 128 on become two each, which the offset
    of the next parameter does not take into account: the question mark stays
    and the byte before it is lost. *)
Lemma bytes_shift_parameters :
  let data := PyDict [(bytes_of_string "x", PyLong 1); (bytes_of_string "y", PyLong 2);
                      (bytes_of_string "a", PyBytes [233]); (bytes_of_string "b", PyNone)] in
  text_types_loop data 0 2 demo_open = Done (Some PyNone) demo_open ∧
  text_sent "SELECT %(a)s, %(b)s" data =
  Some (inr (bytes_of_string "SELECT '" ++ [195; 169] ++ bytes_of_string "',NULL?")).
Proof. split; vm_compute; reflexivity. Qed.

(** [INDICATOR.IGNORE] has no text: behind another parameter the text of that
    one is used again, and as the first parameter it is an [UnboundLocalError]. *)
Lemma ignore_repeats_value :
  text_sent "SELECT ?, ?" (PyTuple [PyUnicode (bytes_of_string "z"); PyIndicator 3]) =
  Some (inr (bytes_of_string "SELECT 'z', 'z'")) ∧
  text_sent "SELECT ?" (PyTuple [PyIndicator 3]) = Some (inl (Builtin "UnboundLocalError")).
Proof. split; vm_compute; reflexivity. Qed.
