(* ===== verification/BinaryStatement.v ===== *)
(** * Statements of the binary protocol

    In the binary protocol the connector hands the statement with question marks
    and one bind structure per parameter to the library.  From the call of
    [execute] on, for parameters by position and by name, what the library gets
    is the question-mark form of the statement and, in order, structures that
    stand for exactly the Python values. *)

From stdpp Require Import gmap.
From S2P Require Import Prelude Parser ParserSpec ParserProps ParserRoundtrip Values DateTime Wire.
From S2P Require Import Fetch Exceptions Params ParamsProps Client Connection Cursor Session CursorLogic.
From S2P Require Import SessionSafety CursorProps CursorArrays CursorRuns Python PyCursor.
From S2P Require Import PyRuns Demo TextStatement.

(** The library's functions for statements that talk to no server: they succeed
    and make no report.  [caps] are the server's extended capabilities. *)
Record quiet_statements `{C : Client} (caps : Z) : Prop := {
  qs_init : ∀ m l, ∃ l', lib_call (mysql_stmt_init m) l = (true, [], l');
  qs_attr : ∀ s a z l, ∃ l', lib_call (mysql_stmt_attr_set s a z) l = (tt, [], l');
  qs_caps : ∀ m l, lib_call (mariadb_get_infov m INFO_EXTENDED_SERVER_CAPABILITIES) l
                   = (Some (InfoNumber caps), [], l);
}.

(** The values the bind structures stand for. *)
Definition bound (vals : list pyobj) (bs : list MYSQL_BIND) (vs : list MrdbParamValue) : Prop :=
  ∀ i o, vals !! i = Some o ->
  ∃ b v s, bs !! i = Some b ∧ vs !! i = Some v ∧ sent b v = Some s ∧ sends o s.

(** Data that [execute] takes for the parameters is what the C code finds. *)
Lemma find_list_find {A} (p : A -> bool) (l : list A) :
  find p l = snd <$> list_find (λ x, p x = true) l.
Proof.
  induction l as [|x l IH]; [done|]. cbn. destruct (p x) eqn:E; cbn; [done|].
  rewrite IH. by destruct (list_find _ l) as [[]|].
Qed.

Lemma supplied_dict items name v :
  snd <$> list_find (λ kv, kv.1 = name) items = Some (name, v) -> dict_get items name = Some v.
Proof.
  intros H. unfold dict_get. rewrite find_list_find.
  assert (E : list_find (λ kv, bool_decide (kv.1 = name) = true) items = list_find (λ kv, kv.1 = name) items).
  { clear H. induction items as [|kv items IH]; [done|]. cbn. rewrite IH.
    by destruct (decide (kv.1 = name)) as [->|Hn]; [rewrite bool_decide_eq_true_2|rewrite bool_decide_eq_false_2]. }
  rewrite E. destruct (list_find _ items) as [[j kv]|]; [|done]. by injection H as ->.
Qed.

Lemma supplied_arguments st gs c data vals bulk :
  parsed_as st gs c -> st ≠ NONE -> supplied st (names gs) data vals ->
  arguments (to_params c data bulk) vals.
Proof.
  intros (_ & Hst & _ & _ & Hk) Hn Hs i o Hi. unfold get_column. cbn. rewrite Hst.
  destruct st; [done|..].
  1-2: destruct data; try done; destruct Hs as [-> _]; cbn; by rewrite (proj2 (Z.leb_le _ _)), Nat2Z.id, Hi by lia.
  rewrite Hk by done. destruct data; try done.
  destruct (Forall2_lookup_r _ _ _ _ _ Hs Hi) as (name & Hname & Hv).
  rewrite (proj2 (Z.leb_le _ _)), Nat2Z.id, Hname by lia. cbn. by rewrite (supplied_dict _ _ _ Hv).
Qed.

Section Binary.

Context `{C : Client} `{P : PyLib} (al : allocations) (ver caps : Z).
Context (Hversion : local_version ver) (Hquiet : quiet_statements caps) (Hal : allocations_ok al).
Context (Hnum : num_types pl_is_num) (Hpy : python_ok pl_str pl_as_double).

Definition bulk_server : bool := negb (Z.land caps BULK_OPERATIONS =? 0).

Lemma load_parameters_run data vals (w : world C) :
  lock_state true w ->
  c_params (w_cur w) = None ∧ c_value (w_cur w) = None ∧ c_array_size (w_cur w) = 0 ->
  p_paramcount (c_parseinfo (w_cur w)) = Z.of_nat (length vals) -> vals ≠ [] ->
  arguments (to_params (w_cur w) data bulk_server) vals -> Forall loadable vals ->
  ∃ bs vs, load_parameters al data bulk_server w
           = Done true (with_cur (set_c_params (Some bs) (set_c_value (Some vs) (w_cur w))) w) ∧
           bound vals bs vs.
Proof.
  intros Hw Hfirst Hcount Hne Hargs Hload. destruct Hal as (_ & _ & _ & _ & Hap & Hav & _).
  destruct (parameters_loaded pl_is_num pl_str pl_as_double (to_params (w_cur w) data bulk_server) vals)
    as (self' & ps & bs & vs & Hcheck & Hself & Hps & Hup & Hb); try done.
  exists bs, vs. split; [|done]. unfold load_parameters, check_execute_parameters. rewrite !bind_eq, py_held by done.
  rewrite bind_eq. unfold get_cur at 1. cbv zeta. rewrite bind_eq, Hap, Hav.
  change (data) with (Params.data (to_params (w_cur w) data bulk_server)) at 2. rewrite Hcheck.
  cbn [raise_outcome mret M_ret]. rewrite bind_eq. cbn [upd_cur mret M_ret]. rewrite Hps, bind_eq.
  unfold get_cur at 1. cbn [w_cur set_c_params c_params]. rewrite bind_eq. cbn [nonnull mret M_ret]. rewrite bind_eq.
  unfold param_update. rewrite bind_eq, py_held by done. rewrite bind_eq. unfold get_cur at 1. rewrite bind_eq.
  assert (E : ∀ c, to_params (set_c_params (Some ps) (set_c_value (pvalues self') c)) data bulk_server
              = set_pvalues (pvalues self') (set_params (Some ps) (to_params c data bulk_server))) by done.
  cbn [w_cur]. rewrite E, <- Hself, Hup. cbn. by destruct w as [? ? ? ? ? [] ?].
Qed.

(** ** The C function *)

(** A cursor with a parsed statement that was not executed yet. *)
Record first_binary (st : enum_paramstyle) (gs : list segment) (data : pyobj) (c : MrdbCursor) : Prop := {
  fb_parsed : parsed_as st gs c;
  fb_data : c_data c = Some data;
  fb_stmt : c_stmt c = None;
  fb_params : c_params c = None;
  fb_value : c_value c = None;
}.

(** What is handed to the library: the handle of the statement, its text, and
    the bound values. *)
Record handed_over (h : nat) (gs : list segment) (vals : list pyobj) (w : world C) : Prop := {
  ho_stmt : c_stmt (w_cur w) = Some h;
  ho_live : w_live w !! h = Some KStmt;
  ho_statement : p_statement (c_parseinfo (w_cur w)) = Some (render QMARK gs);
  ho_count : p_paramcount (c_parseinfo (w_cur w)) = Z.of_nat (length vals);
  ho_bound : ∃ bs vs, c_params (w_cur w) = Some bs ∧ c_value (w_cur w) = Some vs ∧ bound vals bs vs;
}.

Lemma attr_run s a z (w : world C) :
  is_Some (w_live w !! s) -> ∃ l, call (mysql_stmt_attr_set s a z) w = Done tt (with_lib l w).
Proof.
  intros Hs. destruct (qs_attr _ Hquiet s a z (w_lib w)) as [l Hl]. exists l.
  apply call_silent; [|done|done]. cbn. by rewrite bool_decide_eq_true_2.
Qed.

Lemma caps_run (w : world C) m :
  n_mysql (w_conn w) = Some m -> is_Some (w_live w !! m) -> bulk_capability w = Done bulk_server w.
Proof.
  intros Hm Hl. unfold bulk_capability. rewrite bind_eq. unfold get_conn at 1. rewrite bind_eq, Hm.
  erewrite call_silent; [|cbn; by rewrite bool_decide_eq_true_2|apply (qs_caps _ Hquiet)|done].
  by destruct w.
Qed.

Lemma ensure_run m (w : world C) :
  n_mysql (w_conn w) = Some m -> is_Some (w_live w !! m) -> c_stmt (w_cur w) = None ->
  ∃ l, ensure_stmt w = Done (Some (w_next w))
         (mkWorld l (<[w_next w := KStmt]> (w_live w)) (S (w_next w)) (w_gil w) (w_conn w)
            (set_c_stmt (Some (w_next w)) (w_cur w)) (w_err w)).
Proof.
  intros Hm Hl Hs. destruct (qs_init _ Hquiet m (w_lib w)) as [l Hi]. exists l. unfold ensure_stmt.
  rewrite bind_eq. unfold get_cur at 1. rewrite Hs, bind_eq. unfold the_mysql. rewrite bind_eq.
  unfold get_conn at 1. rewrite Hm. cbn [nonnull mret M_ret]. rewrite bind_eq. unfold create. rewrite bind_eq.
  erewrite call_silent; [|cbn; by rewrite bool_decide_eq_true_2|apply Hi|done]. done.
Qed.

Lemma execute_binary_run m st gs data vals (w : world C) :
  calm_world m w -> st ≠ NONE -> names gs ≠ [] -> supplied st (names gs) data vals -> Forall loadable vals ->
  first_binary st gs data (w_cur w) ->
  ∃ w', MrdbCursor_execute_binary al w = submit_binary (w_next w) bulk_server w' ∧
        handed_over (w_next w) gs vals w' ∧ at_rest w'.
Proof.
  intros ([Hw He] & Hm & Hl) Hst Hne Hs Hload [Hp Hd Hstmt Hps Hv].
  destruct (supplied_length st gs data vals Hst Hne Hs) as (_ & _ & Hlen).
  unfold MrdbCursor_execute_binary, MARIADB_CHECK_CONNECTION. rewrite bind_eq. unfold get_conn at 1. rewrite Hm.
  destruct (ensure_run m w Hm Hl Hstmt) as [l1 E1]. rewrite bind_eq, E1. clear E1.
  set (h := w_next w). rewrite bind_eq. cbn [upd_cur]. set (w1 := mkWorld _ _ _ _ _ _ _).
  assert (Hh : w_live w1 !! h = Some KStmt) by (cbn; by rewrite lookup_insert_eq).
  assert (Hm1 : is_Some (w_live w1 !! m)) by (cbn; apply lookup_insert_is_Some; destruct (decide (h = m)); auto).
  destruct (attr_run h STMT_ATTR_ARRAY_SIZE 0 w1) as [l2 E2]; [by eexists|].
  rewrite bind_eq, E2. clear E2. rewrite bind_eq. unfold get_cur at 1. cbv zeta.
  rewrite bind_eq, (caps_run _ m) by done. cbn [with_lib w_cur w1 set_c_array_size set_c_stmt c_parseinfo c_data].
  pose proof Hp as (Hp1 & Hp2 & Hp3 & Hp4). rewrite Hd, Hp3.
  rewrite (proj2 (Z.eqb_neq _ 0)) by (destruct (names gs); [done|cbn; lia]).
  destruct (load_parameters_run data vals (with_lib l2 w1)) as (bs & vs & E3 & Hb); try done.
  { by rewrite Hlen, <- Hp3. }
  { intros ->. by destruct (names gs). }
  { by apply (supplied_arguments st gs). }
  rewrite bind_eq, E3. clear E3. cbn [negb]. set (w2 := with_cur _ _).
  assert (Hsub : ∀ l, handed_over h gs vals (with_lib l w2)).
  { intros l. split; [done|done|done|by cbn; rewrite Hp3, Hlen|]. by exists bs, vs. }
  destruct (c_reprepare _).
  - destruct (attr_run h STMT_ATTR_CURSOR_TYPE (c_cursor_type (w_cur w)) w2) as [l3 E3]; [by eexists|].
    destruct (attr_run h STMT_ATTR_PREBIND_PARAMS (Z.of_nat (length (names gs))) (with_lib l3 w2)) as [l4 E4]; [by eexists|].
    destruct (attr_run h STMT_ATTR_CB_USER_DATA 0 (with_lib l4 (with_lib l3 w2))) as [l5 E5]; [by eexists|].
    exists (with_lib l5 w2). split; [|split; [apply Hsub|done]].
    rewrite bind_eq, bind_eq. cbn [c_cursor_type set_c_array_size set_c_stmt]. rewrite E3, bind_eq, E4. by rewrite E5.
  - exists w2. split; [done|]. split; [|done]. exact (Hsub (w_lib w2)).
Qed.

(** ** [execute] *)

(** The reasons for the binary protocol: the command, the option [binary], or a
    value that has no literal. *)
Definition goes_binary (k : enum_binary_command) (forced : bool) (data : pyobj) (n : nat) : Prop :=
  is_text_command k = false ∨ forced = true ∨
  ∃ i o, (i < n)%nat ∧ text_types_item data i = Some o ∧ text_item o = false.

Lemma binary_item_found data i n j o (w : world C) :
  lock_state true w -> (∀ i', (i' < i + n)%nat -> is_Some (text_types_item data i')) ->
  (i <= j < i + n)%nat -> text_types_item data j = Some o -> text_item o = false ->
  text_types_loop data i n w = Done (Some (PyBool true)) w.
Proof.
  intros Hw. revert i. induction n as [|n IH]; intros i Hall Hj Ho Hb; [lia|]. cbn.
  destruct (Hall i) as [o' Ho']; [lia|]. rewrite bind_eq, Ho'. cbn [nonnull mret M_ret].
  assert (Ht : return_bool true w = Done (Some (PyBool true)) w) by (unfold return_bool; by rewrite bind_eq, py_held).
  destruct (decide (i = j)) as [->|Hne].
  - replace o' with o by congruence. unfold text_item in Hb. by repeat case_match.
  - assert (IH' : text_types_loop data (S i) n w = Done (Some (PyBool true)) w)
      by (apply IH; [intros; apply Hall; lia|lia|done|done]).
    by repeat case_match.
Qed.

(** Without one the answer is the same or None. *)
Lemma text_types_answer data i n (w : world C) :
  lock_state true w -> (∀ i', (i' < i + n)%nat -> is_Some (text_types_item data i')) ->
  ∃ o, text_types_loop data i n w = Done (Some o) w ∧ (o = PyBool true ∨ o = PyNone).
Proof.
  intros Hw. revert i. induction n as [|n IH]; intros i Hall; cbn.
  - exists PyNone. unfold return_none. rewrite bind_eq, py_held by done. auto.
  - destruct (Hall i) as [o' Ho']; [lia|]. rewrite bind_eq, Ho'. cbn [nonnull mret M_ret].
    assert (Ht : return_bool true w = Done (Some (PyBool true)) w) by (unfold return_bool; by rewrite bind_eq, py_held).
    destruct (IH (S i)) as (o & Hrun & Ho); [intros; apply Hall; lia|]. repeat case_match; eauto.
Qed.

Lemma text_off c : p_is_text (c_parseinfo c) = false -> write_member (M_text false) c = c.
Proof. by destruct c as [? ? ? ? ? ? ? ? ? ? []]; cbn; intros ->. Qed.

(** The steps of [execute] that choose the protocol. *)
Definition choose_protocol (forced : bool) (data : pyobj) : PM () :=
  (if forced then set_member al (M_text false) else mret ());;
  (if py_true data then
     o ← c_object al CurCheckTextTypes;
     match o with PyBool true => set_member al (M_text false) | _ => mret () end
   else mret ()).

Lemma types_request_run data n o s (w : world C) :
  at_rest w -> c_data (w_cur w) = Some data -> p_paramcount (c_parseinfo (w_cur w)) = Z.of_nat n ->
  text_types_loop data 0 n w = Done (Some o) w -> c_object al CurCheckTextTypes s w = Done (s, inr o) w.
Proof.
  intros [Hw He] Hd Hp Hrun. apply c_object_run; [|done]. cbn -[text_types_loop].
  unfold fmap, M_fmap, MrdbCursor_check_text_types, mbind, M_bind, get_cur.
  rewrite py_held by done. cbn -[text_types_loop Z.to_nat]. by rewrite Hd, Hp, Nat2Z.id, Hrun.
Qed.

Lemma choose_binary st gs k forced data s (w : world C) :
  at_rest w -> parsed_as st gs (w_cur w) -> p_is_text (c_parseinfo (w_cur w)) = is_text_command k ->
  c_data (w_cur w) = Some data -> py_true data = true ->
  (∀ i, (i < length (names gs))%nat -> is_Some (text_types_item data i)) ->
  goes_binary k forced data (length (names gs)) ->
  choose_protocol forced data s w = Done (s, inr ()) (with_cur (write_member (M_text false) (w_cur w)) w).
Proof.
  intros [Hw He] Hp Ht Hd Htrue Hitems Hbin. unfold choose_protocol. rewrite Htrue.
  set (w1 := if forced then with_cur (write_member (M_text false) (w_cur w)) w else w).
  assert (E1 : (if forced then set_member al (M_text false) else mret ()) s w = Done (s, inr ()) w1)
    by (destruct forced; [by apply set_member_run|done]).
  erewrite pm_bind_run by exact E1.
  assert (Hw1 : at_rest w1 ∧ c_data (w_cur w1) = Some data ∧
                p_paramcount (c_parseinfo (w_cur w1)) = Z.of_nat (length (names gs)))
    by (destruct Hp as (_ & _ & Hc & _); by destruct forced).
  destruct Hw1 as ([Hlw1 He1] & Hd1 & Hc1).
  assert (E2 : with_cur (write_member (M_text false) (w_cur w1)) w1
               = with_cur (write_member (M_text false) (w_cur w)) w)
    by (destruct forced; [|done]; by destruct w as [? ? ? ? ? [? ? ? ? ? ? ? ? ? ? []] ?]).
  destruct (text_types_answer data 0 (length (names gs)) w1 Hlw1 Hitems) as (o & Hrun & Ho).
  erewrite pm_bind_run by (by eapply types_request_run). destruct Ho as [->| ->].
  { rewrite set_member_run by done. by rewrite E2. }
  assert (Hoff : p_is_text (c_parseinfo (w_cur w1)) = false).
  { destruct Hbin as [Hk|[->|(j & o & Hj & Ho & Hb)]]; [|done|].
    - unfold w1. destruct forced; [done|]. congruence.
    - rewrite (binary_item_found data 0 _ j o w1) in Hrun by (done || lia). discriminate. }
  rewrite <- E2, text_off by done. by destruct w1.
Qed.

(** A statement in a world where [execute] runs it in the binary protocol, on a
    cursor that has not executed anything yet. *)
Record binary_ready (m : nat) (st : enum_paramstyle) (gs : list segment) (k : enum_binary_command)
    (data : pyobj) (vals : list pyobj) (s : pystate) (w : world C) : Prop := {
  br_parsable : parsable al ver m st gs k w;
  br_data : supplied st (names gs) data vals;
  br_values : Forall loadable vals;
  br_open : c_closed (w_cur w) = false;
  br_fields : c_field_count (w_cur w) = 0;
  br_first : p_statement (c_parseinfo (w_cur w)) = None ∧ c_stmt (w_cur w) = None;
  br_cursor_type : c_cursor_type (w_cur w) = CURSOR_TYPE_NO_CURSOR;
  br_prepared : y_prepared (s_cursor s) = false;
  br_items : ∀ i, (i < length (names gs))%nat -> is_Some (text_types_item data i);
  br_binary : goes_binary k (y_force_binary (s_cursor s)) data (length (names gs));
}.

(** C10: The first [execute] of a cursor, in the binary protocol, hands the
    library exactly the statement with question marks and, in order, one bind
    structure for each parameter that stands for its Python value, for
    parameters by position and by name.  The C function comes to the point
    where statement and structures are handed over, with the handle of a new
    prepared statement, the lock held and no exception set.

    The statement is one of [segment_ok] segments, as in the text protocol,
    with at least one parameter; the values are [loadable]: None, integers of 64
    bits, floats, decimals, strings, bytes, dates, times, and spans that do not
    overflow.  Parameters by name have an entry of the dictionary at each
    parameter's position ([br_items]): a statement that uses a name twice needs
    as many entries as parameters, and with fewer the code reads past the
    dictionary ([text_types_repeated_name]).  The cursor is open and has neither
    parsed nor executed anything, the connection is open, no exception is set,
    and allocations succeed. *)
Theorem execute_binary_exact (m : nat) (st : enum_paramstyle) (gs : list segment)
    (k : enum_binary_command) (data : pyobj) (vals : list pyobj) (s : pystate) (w : world C)
    (Hready : binary_ready m st gs k data vals s w) :
  ∃ s' w1 w2,
    execute al (PyUnicode (render st gs)) data None s w =
      (c_object al CurExecuteBinary;; c_object al CurInitResult;; upd_pycursor (set_y_bulk false)) s' w1 ∧
    w_lib w1 = w_lib w ∧ w_live w1 = w_live w ∧ w_next w1 = w_next w ∧
    MrdbCursor_execute_binary al w1 = submit_binary (w_next w) bulk_server w2 ∧
    handed_over (w_next w) gs vals w2 ∧ at_rest w2.
Proof.
  destruct Hready as [Hpb Hs Hload Hopen Hfields [Hfst Hfs] Hty Hprep Hitems Hbin].
  pose proof Hpb as [Hw _ Hst _ Hne _ _]. pose proof Hw as ([Hlock He] & Hm & Hl).
  destruct (supplied_length st gs data vals Hst Hne Hs) as (Htrue & (n & Hlen & Hn) & Hvals).
  unfold execute. erewrite pm_bind_run by (by apply (check_closed_open al m)).
  do 4 (erewrite pm_bind_run by done). rewrite Hfields. do 3 (erewrite pm_bind_run by done).
  cbn [s_cursor set_y_rowcount y_prepared y_force_binary]. rewrite Hprep. cbn [andb].
  set (s1 := mkPyState _ _).
  destruct (parse_request_run al ver Hversion Hal m st gs k s1 w Hpb)
    as (c' & Hrun & (Hp & Ht & Hty' & _ & Hst' & _ & _ & Hfresh) & _).
  assert (Hstep : parse_step al st gs s1 w s1 w = Done (s1, inr ()) (with_cur c' w))
    by (unfold parse_step; by rewrite Hfst).
  destruct (parse_execute_after al st gs data vals s1 w c') as (s2 & Hpe & Hfb); [done..|congruence|].
  erewrite pm_bind_run by exact Hpe. cbv zeta. unfold or_empty. rewrite Htrue.
  unfold p_len. rewrite Hlen. erewrite pm_bind_run by done. rewrite (proj2 (Z.eqb_neq _ _) Hn).
  erewrite pm_bind_run by (by apply set_member_run). set (w3 := with_cur _ _).
  assert (Hold : old_count (w_cur w) = 0) by (unfold old_count; by rewrite Hfst).
  destruct (Hfresh Hold) as [Hps Hv].
  assert (Hc : choose_protocol (y_force_binary (s_cursor s)) data s2 w3
               = Done (s2, inr ()) (with_cur (write_member (M_text false) (w_cur w3)) w3))
    by (by apply (choose_binary st gs k)).
  set (w4 := with_cur _ w3) in Hc.
  destruct (execute_binary_run m st gs data vals w4) as (w5 & Hx & Ho & Hr); try done.
  { split; [|done|cbn; congruence|done|done]. destruct Hp as (? & ? & ? & ? & ?). by split_and!. }
  exists s2, w4, w5. split_and!; try done. unfold choose_protocol in Hc.
  erewrite pm_bind_run_two by exact Hc. erewrite pm_bind_run by done.
  cbn [w4 with_cur w_cur write_member set_c_parseinfo c_parseinfo p_is_text set_p_is_text].
  apply pm_bind_comes. by erewrite pm_bind_run by (by apply set_member_run).
Qed.

End Binary.

(** ** Witness *)

(** [INSERT INTO t VALUES (%(a)s, '%(b)s', %(b)s)] with an integer and a date; the
    quoted marker is none. *)
Definition demo_insert : list segment :=
  [Code (bytes_of_string "INSERT INTO t VALUES ("); Param (bytes_of_string "a");
   Code (bytes_of_string ", "); Quoted 39 (bytes_of_string "%(b)s"); Code (bytes_of_string ", ");
   Param (bytes_of_string "b"); Code (bytes_of_string ")")].

Definition demo_row : pyobj :=
  PyDict [(bytes_of_string "b", PyDate 2024 2 29); (bytes_of_string "a", PyLong (-129))].

Definition demo_row_values : list pyobj := [PyLong (-129); PyDate 2024 2 29].

Lemma demo_quiet : quiet_statements (C := demo_client) BULK_OPERATIONS.
Proof. split; intros; [eexists; reflexivity..|reflexivity]. Qed.

Lemma demo_parsable : parsable demo_allocs 101100 0 PYFORMAT demo_insert SQL_INSERT demo_open.
Proof.
  destruct demo_text_ready as [Hw Ha _ _ _ _ _ _ _ _ _]. split; [exact Hw|exact Ha|done|by vm_compute|done|by vm_compute|].
  intros q Hq.
  assert (E : match MrdbParser_parse (al_keys demo_allocs)
                      (Some (init_parser 101100 (render PYFORMAT demo_insert))) false 128 with
              | ParseOk q => command q | _ => SQL_NONE end = SQL_INSERT) by (vm_compute; reflexivity).
  rewrite Hq in E. exact E.
Qed.

Lemma demo_binary_ready :
  binary_ready demo_allocs 101100 0 PYFORMAT demo_insert SQL_INSERT demo_row demo_row_values
    demo_pystate demo_open.
Proof.
  split.
  - exact demo_parsable.
  - repeat constructor.
  - repeat constructor; vm_compute; discriminate.
  - vm_compute. reflexivity.
  - vm_compute. reflexivity.
  - split; vm_compute; reflexivity.
  - vm_compute. reflexivity.
  - reflexivity.
  - intros [|[|i]] Hi; [by eexists..|cbn in Hi; lia].
  - left. reflexivity.
Qed.

Lemma execute_binary_exact_witness :
  ∃ s' w1 w2,
    execute demo_allocs (PyUnicode (render PYFORMAT demo_insert)) demo_row None demo_pystate demo_open =
      (c_object demo_allocs CurExecuteBinary;; c_object demo_allocs CurInitResult;;
       upd_pycursor (set_y_bulk false)) s' w1 ∧
    w_lib w1 = w_lib demo_open ∧ w_live w1 = w_live demo_open ∧ w_next w1 = w_next demo_open ∧
    MrdbCursor_execute_binary demo_allocs w1
      = submit_binary (w_next demo_open) (bulk_server BULK_OPERATIONS) w2 ∧
    handed_over (w_next demo_open) demo_insert demo_row_values w2 ∧ at_rest w2.
Proof.
  apply (execute_binary_exact demo_allocs 101100 BULK_OPERATIONS) with (m := 0%nat) (k := SQL_INSERT).
  - intros m l. reflexivity.
  - exact demo_quiet.
  - split_and!; reflexivity.
  - intros t [->|[n Hn]]; [reflexivity|]. by destruct t.
  - by split.
  - exact demo_binary_ready.
Defined.

Example demo_insert_text :
  render QMARK demo_insert = bytes_of_string "INSERT INTO t VALUES (?, '%(b)s', ?)".
Proof. reflexivity. Qed.
