(* ===== verification/Xa.v ===== *)
(** * Distributed transactions of the server

    The statements of [connections.py] for two-phase commit, read back the way
    the server reads them, and the states of a transaction on the server.  This
    is the specification against which the methods [tpc_begin], [tpc_prepare] and
    [tpc_commit] are proved. *)

From stdpp Require Import gmap.
From S2P Require Import Prelude Parser Values DateTime Wire Fetch Exceptions Params Client.
From S2P Require Import Connection Cursor Session CursorRuns Python PyCursor PyConnection.

(** ** Reading a statement *)

(** The steps of a two-phase commit, and the statement the methods send for
    each. *)
Inductive xa_verb := XA_BEGIN | XA_END | XA_PREPARE | XA_COMMIT | XA_COMMIT_ONE_PHASE | XA_ROLLBACK.

Definition xa_statement (v : xa_verb) (x : xid) : list Z :=
  match v with
  | XA_BEGIN => xa_begin x
  | XA_END => xa_end x
  | XA_PREPARE => xa_prepare x
  | XA_COMMIT => xa_commit x false
  | XA_COMMIT_ONE_PHASE => xa_commit x true
  | XA_ROLLBACK => xa_rollback x
  end.

Fixpoint strip (pre s : list Z) : option (list Z) :=
  match pre, s with
  | [], _ => Some s
  | a :: pre', b :: s' => if a =? b then strip pre' s' else None
  | _, [] => None
  end.

(** The text up to the closing quote; an identifier has no escapes here. *)
Fixpoint until_quote (s : list Z) : option (list Z * list Z) :=
  match s with
  | [] => None
  | c :: s' => if c =? 39 then Some ([], s') else prod_map (cons c) id <$> until_quote s'
  end.

Definition read_quoted (s : list Z) : option (list Z * list Z) :=
  match s with c :: s' => if c =? 39 then until_quote s' else None | [] => None end.

Definition read_int (s : list Z) : option (Z * list Z) :=
  let '(sgn, s1) := match s with c :: s' => if c =? 45 then (-1, s') else (1, s) | [] => (1, s) end in
  let ds := digits_prefix s1 in
  match ds with [] => None | _ => Some (sgn * dec_value ds, drop (length ds) s1) end.

Definition read_xid (s : list Z) : option (xid * list Z) :=
  '(t, s1) ← read_quoted s;
  s2 ← strip [44] s1;
  '(b, s3) ← read_quoted s2;
  s4 ← strip [44] s3;
  '(f, s5) ← read_int s4;
  Some (mkXid f t b, s5).

Definition xa_verbs : list (xa_verb * list Z) :=
  [(XA_BEGIN, bytes_of_string "XA BEGIN "); (XA_END, bytes_of_string "XA END ");
   (XA_PREPARE, bytes_of_string "XA PREPARE "); (XA_COMMIT, bytes_of_string "XA COMMIT ");
   (XA_ROLLBACK, bytes_of_string "XA ROLLBACK ")].

Definition read_verb (s : list Z) : option (xa_verb * list Z) :=
  foldr (λ e r, match strip e.2 s with Some s' => Some (e.1, s') | None => r end) None xa_verbs.

Definition parse_xa (s : list Z) : option (xa_verb * xid) :=
  '(v, s1) ← read_verb s;
  '(x, s2) ← read_xid s1;
  if bool_decide (s2 = []) then Some (v, x)
  else if bool_decide (s2 = bytes_of_string " ONE PHASE")
  then match v with XA_COMMIT => Some (XA_COMMIT_ONE_PHASE, x) | _ => None end
  else None.

(** ** The round trip *)

(** Identifiers that may stand between quotes as they are. *)
Definition clean (s : list Z) : bool := forallb (λ c, negb (c =? 39) && negb (c =? 92) && negb (c =? 0)) s.

Definition clean_xid (x : xid) : bool := clean (transaction_id x) && clean (branch_qualifier x).

Lemma strip_app pre s : strip pre (pre ++ s) = Some s.
Proof. induction pre as [|c pre IH]; [done|]. cbn. by rewrite Z.eqb_refl. Qed.

Lemma until_quote_app s rest : clean s = true -> until_quote (s ++ 39 :: rest) = Some (s, rest).
Proof.
  induction s as [|c s IH]; [done|]. cbn. intros [Hc Hs]%andb_true_iff.
  rewrite IH by done. destruct (c =? 39); [done|reflexivity].
Qed.

Lemma digits_of_spec fuel n acc :
  0 <= n < 2 ^ Z.of_nat fuel -> (0 < fuel)%nat ->
  ∃ ds, digits_of fuel n acc = ds ++ acc ∧ ds ≠ [] ∧ Forall (λ c, isdigit c = true) ds ∧ dec_value ds = n.
Proof.
  revert n acc. induction fuel as [|fuel IH]; intros n acc Hn Hf; [lia|]. cbn [digits_of].
  pose proof (Z.mod_pos_bound n 10 ltac:(lia)) as Hm. pose proof (Z.div_mod n 10 ltac:(lia)) as Hdm.
  assert (Hd : ∀ d, 0 <= d < 10 -> isdigit (48 + d) = true) by (intros; unfold isdigit; lia).
  destruct (n <? 10) eqn:E.
  - exists [48 + n mod 10]. split_and!; [done|done|apply Forall_singleton, Hd; lia|].
    unfold dec_value. cbn. rewrite Z.mod_small; lia.
  - apply Z.ltb_ge in E. destruct (IH (n / 10) (48 + n mod 10 :: acc)) as (ds & -> & Hne & Hds & Hv).
    + rewrite Nat2Z.inj_succ, Z.pow_succ_r in Hn by lia. split; [|apply Z.div_lt_upper_bound; lia].
      apply Z.div_pos; lia.
    + destruct fuel; [cbn in Hn; lia|lia].
    + exists (ds ++ [48 + n mod 10]). split_and!.
      * by rewrite <- app_assoc.
      * by destruct ds.
      * apply Forall_app_2; [done|]. apply Forall_singleton, Hd. lia.
      * unfold dec_value in *. rewrite fold_left_app, Hv. cbn. lia.
Qed.

Lemma log2_fuel z : 0 <= Z.abs z < 2 ^ Z.of_nat (S (Z.to_nat (Z.log2 (Z.abs z)))).
Proof.
  rewrite Nat2Z.inj_succ, Z2Nat.id by apply Z.log2_nonneg. split; [lia|].
  destruct (Z.eq_dec (Z.abs z) 0) as [->|Hz]; [done|]. apply Z.log2_spec. lia.
Qed.

Lemma digits_prefix_app ds rest :
  Forall (λ c, isdigit c = true) ds -> (match rest with c :: _ => isdigit c = false | [] => True end) ->
  digits_prefix (ds ++ rest) = ds.
Proof.
  intros Hd Hr. induction Hd as [|c ds Hc Hd IH]; cbn; [|by rewrite Hc, IH].
  destruct rest as [|c rest]; cbn; [done|]. by rewrite Hr.
Qed.

Lemma read_int_show z rest :
  (match rest with c :: _ => isdigit c = false | [] => True end) ->
  read_int (show_int z ++ rest) = Some (z, rest).
Proof.
  intros Hr. unfold show_int.
  destruct (digits_of_spec (S (Z.to_nat (Z.log2 (Z.abs z)))) (Z.abs z) []) as (ds & -> & Hne & Hds & Hv);
    [|lia|].
  { by apply log2_fuel. }
  assert (E : ∀ sgn, match digits_prefix (ds ++ rest) with
                     | [] => None
                     | _ => Some (sgn * dec_value (digits_prefix (ds ++ rest)),
                                  drop (length (digits_prefix (ds ++ rest))) (ds ++ rest))
                     end = Some (sgn * Z.abs z, rest)).
  { intros sgn. rewrite digits_prefix_app, drop_app_length, Hv by done. by destruct ds. }
  rewrite app_nil_r. unfold read_int. destruct (z <? 0) eqn:Ez; cbn [app].
  - cbn. rewrite E. f_equal. f_equal. lia.
  - destruct ds as [|d ds]; [done|]. cbn [app]. inversion_clear Hds as [|? ? Hd _].
    destruct (d =? 45) eqn:Ed; [apply Z.eqb_eq in Ed as ->; done|]. cbn [app] in E. rewrite E.
    f_equal. f_equal. lia.
Qed.

Lemma read_xid_show x rest :
  clean_xid x = true -> (match rest with c :: _ => isdigit c = false | [] => True end) ->
  read_xid (show_xid x ++ rest) = Some (x, rest).
Proof.
  intros [Ht Hb]%andb_true_iff Hr. destruct x as [f t b]. cbn in *. unfold read_xid, show_xid. cbn.
  rewrite <- app_assoc. cbn. rewrite until_quote_app by done. cbn.
  rewrite <- app_assoc. cbn. rewrite until_quote_app by done. cbn.
  by rewrite read_int_show.
Qed.

(** The words before and behind the identifier. *)
Definition xa_word (v : xa_verb) : list Z :=
  bytes_of_string (match v with
                   | XA_BEGIN => "XA BEGIN " | XA_END => "XA END " | XA_PREPARE => "XA PREPARE "
                   | XA_COMMIT | XA_COMMIT_ONE_PHASE => "XA COMMIT " | XA_ROLLBACK => "XA ROLLBACK "
                   end).

Definition xa_tail (v : xa_verb) : list Z :=
  match v with XA_COMMIT_ONE_PHASE => bytes_of_string " ONE PHASE" | _ => [] end.

Lemma xa_statement_words v x : xa_statement v x = xa_word v ++ show_xid x ++ xa_tail v.
Proof.
  by destruct v; cbn [xa_tail]; rewrite ?app_nil_r.
Qed.

Lemma xa_statement_parses (v : xa_verb) (x : xid) (Hclean : clean_xid x = true) :
  parse_xa (xa_statement v x) = Some (v, x).
Proof.
  unfold parse_xa. rewrite xa_statement_words. unfold xa_word, xa_tail.
  assert (E : ∀ rest, (match rest with c :: _ => isdigit c = false | [] => True end) ->
    read_xid (show_xid x ++ rest) = Some (x, rest)) by (intros; by apply read_xid_show).
  destruct v;
    match goal with |- context [show_xid x ++ ?tl] =>
      specialize (E tl); revert E; generalize (show_xid x ++ tl); intros t E end;
    match goal with |- context [read_verb ?s] =>
      let r := eval vm_compute in (read_verb s) in change (read_verb s) with r end;
    cbn [mbind option_bind]; rewrite E by done; reflexivity.
Qed.

(** C22: The statement for a step of a two-phase commit is read back as exactly
    that step for exactly that transaction, when the identifier has no quotes,
    backslashes or NUL bytes: transaction, branch and format, negative formats
    included. *)
Theorem xa_statement_roundtrip (v : xa_verb) (x : xid) (Hclean : clean_xid x = true) :
  parse_xa (xa_statement v x) = Some (v, x).
Proof. exact (xa_statement_parses v x Hclean). Qed.

Lemma xa_statement_roundtrip_witness :
  let x := mkXid (-7) (bytes_of_string "gtrid") (bytes_of_string "b 1") in
  clean_xid x = true ∧ parse_xa (xa_statement XA_COMMIT_ONE_PHASE x) = Some (XA_COMMIT_ONE_PHASE, x).
Proof.
  split; [reflexivity|].
  apply (xa_statement_roundtrip XA_COMMIT_ONE_PHASE
           (mkXid (-7) (bytes_of_string "gtrid") (bytes_of_string "b 1"))). reflexivity.
Defined.

(** An identifier with a quote can stand for another transaction. *)
Lemma xa_quote_ambiguous :
  let x := mkXid 1 (bytes_of_string "a','b") (bytes_of_string "c") in
  let y := mkXid 1 (bytes_of_string "a") (bytes_of_string "b','c") in
  x ≠ y ∧ xa_statement XA_COMMIT x = xa_statement XA_COMMIT y.
Proof. by split; vm_compute. Qed.

Lemma xa_statement_no_nul v x : clean_xid x = true -> Forall (λ c, c ≠ 0) (xa_statement v x).
Proof.
  intros [Ht Hb]%andb_true_iff.
  assert (Hc : ∀ s, clean s = true -> Forall (λ c, c ≠ 0) s).
  { intros s Hs. apply Forall_forall. intros c Hin. unfold clean in Hs. rewrite forallb_forall in Hs.
    specialize (Hs c Hin). cbn in Hs. lia. }
  assert (Hi : Forall (λ c, c ≠ 0) (show_int (format_id x))).
  { unfold show_int.
    destruct (digits_of_spec (S (Z.to_nat (Z.log2 (Z.abs (format_id x))))) (Z.abs (format_id x)) [])
      as (ds & -> & _ & Hds & _); [|lia|].
    - by apply log2_fuel.
    - rewrite app_nil_r. apply Forall_app_2; [by destruct (_ <? _); repeat constructor|].
      eapply Forall_impl; [|exact Hds]. intros c Hd. unfold isdigit in Hd. cbn in *. lia. }
  rewrite xa_statement_words. unfold xa_word, xa_tail, show_xid. apply Forall_app_2; [by destruct v; repeat constructor|].
  apply Forall_app_2; [|by destruct v; repeat constructor].
  constructor; [done|]. repeat (apply Forall_app_2; [first [by apply Hc | by repeat constructor]|]). done.
Qed.

(** ** The transaction on the server *)

#[global] Instance xid_eq_dec : EqDecision xid.
Proof. solve_decision. Defined.

Inductive xa_state := XaNone | XaActive (x : xid) | XaIdle (x : xid) | XaPrepared (x : xid).

(** What a statement does in the session that has the transaction; [None] is a
    statement that is not allowed in the state. *)
Definition xa_step (v : xa_verb) (x : xid) (a : xa_state) : option xa_state :=
  let own y r := if decide (x = y) then Some r else None in
  match v, a with
  | XA_BEGIN, XaNone => Some (XaActive x)
  | XA_END, XaActive y => own y (XaIdle x)
  | XA_PREPARE, XaIdle y => own y (XaPrepared x)
  | XA_COMMIT_ONE_PHASE, XaIdle y => own y XaNone
  | XA_COMMIT, XaPrepared y => own y XaNone
  | XA_ROLLBACK, (XaIdle y | XaPrepared y) => own y XaNone
  | _, _ => None
  end.

(** The identifiers a server documents: strings of at most 64 bytes and an
    unsigned format of 31 bits. *)
Definition server_xid (x : xid) : bool :=
  (length (transaction_id x) <=? 64)%nat && (length (branch_qualifier x) <=? 64)%nat
  && (0 <=? format_id x) && (format_id x <? 2 ^ 31).

Definition COMMIT : list Z := bytes_of_string "COMMIT".
Definition ROLLBACK : list Z := bytes_of_string "ROLLBACK".

(** A library with a server that answers: a statement is sent, and the answer
    to it is that of the server's transaction.  [XaNone] is a session without any
    open transaction, and [xa_unused] holds of the identifiers that no other
    session uses; a statement that the state of the transaction allows is carried
    out when its identifier is a documented one, and unused when the transaction
    begins.  Nothing is said about statements that the transaction does not
    allow, but for [XA BEGIN], which fails and changes nothing. *)
Class XaServer (C : Client) := {
  xa_of : lib_state -> xa_state;
  xa_sent : lib_state -> option (list Z);
  xa_unused : xid -> Prop;
  xa_send m stmt l :
    ∃ reports l', lib_call (mysql_send_query m stmt) l = (0, reports, l') ∧
      Forall harmless reports ∧ xa_of l' = xa_of l ∧ xa_sent l' = Some stmt;
  xa_accept m l stmt v x a :
    xa_sent l = Some stmt -> parse_xa stmt = Some (v, x) -> xa_step v x (xa_of l) = Some a ->
    server_xid x = true -> (v = XA_BEGIN -> xa_unused x) ->
    ∃ reports l', lib_call (db_read_query_result m) l = (0, reports, l') ∧
      Forall harmless reports ∧ xa_of l' = a;
  xa_refuse m l stmt x :
    xa_sent l = Some stmt -> parse_xa stmt = Some (XA_BEGIN, x) -> xa_of l ≠ XaNone ->
    ∃ rc reports l', lib_call (db_read_query_result m) l = (rc, reports, l') ∧ rc ≠ 0 ∧
      Forall harmless reports ∧ xa_of l' = xa_of l;
  xa_plain m l stmt :
    xa_sent l = Some stmt -> stmt = COMMIT ∨ stmt = ROLLBACK -> xa_of l = XaNone ->
    ∃ reports l', lib_call (db_read_query_result m) l = (0, reports, l') ∧
      Forall harmless reports ∧ xa_of l' = XaNone;
  xa_diag m l :
    ∃ d reports l', lib_call (mysql_diag m) l = (d, reports, l') ∧
      Forall harmless reports ∧ xa_of l' = xa_of l;
}.

(** ** Specification of the methods *)

Inductive tpc_op := TpcBegin (x : xid) | TpcPrepare | TpcCommit | Commit | Rollback.

(** What the application sees: success, a [ProgrammingError] of the object, an
    error of the server, something else. *)
Inductive tpc_outcome := Succeeds | Refused | ServerError | OtherError.

Definition tpc_spec (op : tpc_op) (a : xa_state) : tpc_outcome * xa_state :=
  match op, a with
  | TpcBegin x, XaNone => (Succeeds, XaActive x)
  | TpcBegin _, _ => (ServerError, a)
  | TpcPrepare, XaActive x => (Succeeds, XaPrepared x)
  | TpcCommit, (XaActive _ | XaPrepared _) => (Succeeds, XaNone)
  | (Commit | Rollback), XaNone => (Succeeds, XaNone)
  | _, _ => (Refused, a)
  end.

Fixpoint tpc_spec_run (ops : list tpc_op) (a : xa_state) : list tpc_outcome * xa_state :=
  match ops with
  | [] => ([], a)
  | op :: ops' =>
      let '(o, a1) := tpc_spec op a in
      let '(os, a2) := tpc_spec_run ops' a1 in (o :: os, a2)
  end.

Section Methods.

Context `{C : Client} `{P : PyLib} (al : allocations).

Definition tpc_perform (op : tpc_op) : PM () :=
  match op with
  | TpcBegin x => tpc_begin al (Some x)
  | TpcPrepare => tpc_prepare al
  | TpcCommit => tpc_commit al None
  | Commit => commit al
  | Rollback => rollback al
  end.

Definition outcome_of {A : Type} (r : pyexn + A) : tpc_outcome :=
  match r with
  | inr _ => Succeeds
  | inl (Raised (MariadbPlain Mariadb_ProgrammingError _)) => Refused
  | inl (Raised (Mariadb _)) => ServerError
  | inl _ => OtherError
  end.

(** An application that catches every exception. *)
Definition observe {A : Type} (m : PM A) : PM tpc_outcome := λ s,
  r ← m s; mret (r.1, inr (outcome_of r.2)).

Fixpoint tpc_run (ops : list tpc_op) : PM (list tpc_outcome) :=
  match ops with
  | [] => mret []
  | op :: ops' => o ← observe (tpc_perform op); os ← tpc_run ops'; mret (o :: os)
  end.

End Methods.

(** Identifiers that the statements carry as they are and the server takes. *)
Definition good_xid (x : xid) : bool := clean_xid x && server_xid x.

(** The attributes agree with the server. *)
Definition in_step (k : PyConnection) (a : xa_state) : Prop :=
  match a with
  | XaNone => k_tpc_state k = TPC_NONE
  | XaActive x => k_tpc_state k = TPC_XID ∧ k_xid k = Some x ∧ good_xid x = true
  | XaPrepared x => k_tpc_state k = TPC_PREPARE ∧ k_xid k = Some x ∧ good_xid x = true
  | XaIdle _ => False
  end.
