(* ===== verification/TpcProps.v ===== *)
(** * Two-phase commit

    The methods [tpc_begin], [tpc_prepare], [tpc_commit], [commit] and
    [rollback] implement the specification of [Xa]: what the application sees,
    what the server's transaction does and what the attributes of the connection
    say agree after every sequence of calls. *)

From stdpp Require Import gmap.
From S2P Require Import Prelude Parser Values DateTime Wire Fetch Exceptions Params Client.
From S2P Require Import Connection Cursor Session CursorLogic SessionSafety CursorProps CursorRuns.
From S2P Require Import Python PyCursor PyConnection PyRuns Xa Demo.

(** ** Statements and their answers *)

Section Statements.

Context `{C : Client} `{P : PyLib} `{X : !XaServer C} (al : allocations).

Definition open_conn (m : nat) (w : world C) : Prop :=
  at_rest w ∧ n_mysql (w_conn w) = Some m ∧ n_closed (w_conn w) = false ∧ is_Some (w_live w !! m).

Lemma live_handle m (w : world C) :
  open_conn m w -> forallb (λ h, bool_decide (is_Some (w_live w !! h))) [m] = true.
Proof. intros (_ & _ & _ & H). cbn. by rewrite bool_decide_eq_true_2. Qed.

Lemma send_run m stmt s w :
  open_conn m w -> Forall (λ c, c ≠ 0) stmt ->
  ∃ l, c_object al (ConnCommand (PyUnicode stmt)) s w = Done (s, inr PyNone) (with_lib l w) ∧
       xa_of l = xa_of (w_lib w) ∧ xa_sent l = Some stmt.
Proof.
  intros Ho H0. pose proof Ho as ([Hw He] & Hm & Hc & Hl).
  destruct (xa_send m stmt (w_lib w)) as (reports & l & Hcall & Hr & Hx & Hs).
  exists l. split; [|done]. apply c_object_run; [|done]. cbn. unfold fmap, M_fmap, MrdbConnection_executecommand,
    MARIADB_CHECK_CONNECTION. rewrite !bind_eq. unfold get_conn. rewrite Hm, bind_eq, py_held by done.
  rewrite before_nul_id by done. unfold unlocked_command.
  erewrite unlocked_run; [|done|by apply live_handle|exact Hcall|done|done].
  cbn. unfold return_none. by rewrite bind_eq, py_held.
Qed.

Lemma read_unlocked m (w : world C) rc reports l :
  open_conn m w -> lib_call (db_read_query_result m) (w_lib w) = (rc, reports, l) ->
  Forall harmless reports ->
  MrdbConnection_readresponse w =
  (if rc =? 0 then return_none else throw_diag (mysql_diag m);; mret None) (with_lib l w).
Proof.
  intros Ho Hcall Hr. pose proof Ho as ([Hw He] & Hm & Hc & Hl).
  assert (E : MrdbConnection_readresponse w =
    (MARIADB_BEGIN_ALLOW_THREADS;; rc ← call (db_read_query_result m); MARIADB_END_ALLOW_THREADS;;
     if rc =? 0 then return_none else throw_diag (mysql_diag m);; mret None) w).
  { unfold MrdbConnection_readresponse. rewrite bind_eq. unfold get_conn. rewrite Hm. done. }
  rewrite E. by erewrite unlocked_run; [|done|by apply live_handle|exact Hcall|done|done].
Qed.

Lemma read_ok m s w reports l :
  open_conn m w -> lib_call (db_read_query_result m) (w_lib w) = (0, reports, l) ->
  Forall harmless reports ->
  c_object al ConnReadResponse s w = Done (s, inr PyNone) (with_lib l w).
Proof.
  intros Ho Hcall Hr. pose proof Ho as ([Hw He] & _).
  apply c_object_run; [|done]. cbn. unfold fmap, M_fmap.
  erewrite bind_eq, read_unlocked by done. cbn. unfold return_none. by rewrite bind_eq, py_held.
Qed.

Lemma read_error m s w rc reports l :
  open_conn m w -> lib_call (db_read_query_result m) (w_lib w) = (rc, reports, l) -> rc ≠ 0 ->
  Forall harmless reports ->
  ∃ x l', c_object al ConnReadResponse s w = Done (s, inl (Raised (Mariadb x))) (with_lib l' w) ∧
          xa_of l' = xa_of l.
Proof.
  intros Ho Hcall Hrc Hr. pose proof Ho as ([Hw He] & _).
  destruct (xa_diag m l) as (d & reports' & l' & Hd & Hr' & Hx).
  destruct (throw_run (mysql_diag m) (with_lib l w) d reports' l') as (x & Ht);
    [done|by apply live_handle|done|done|done|].
  exists x, l'. split; [|done]. unfold c_object. eapply pm_bind_raise.
  rewrite (c_call_raise al _ (VObj None) (Mariadb x) s w
             (with_err (Some (Mariadb x)) (with_lib l' (with_lib l w)))); [|..|done|done].
  2: { cbn. unfold fmap, M_fmap. erewrite bind_eq, read_unlocked by done.
       rewrite (proj2 (Z.eqb_neq _ _) Hrc), bind_eq, Ht. done. }
  cbn. by destruct w; cbn in He; subst.
Qed.

(** A statement the server's transaction allows. *)
Lemma command_accept m v x a s w :
  open_conn m w -> good_xid x = true -> (v = XA_BEGIN -> xa_unused x) ->
  xa_step v x (xa_of (w_lib w)) = Some a ->
  ∃ l, command al (xa_statement v x) s w = Done (s, inr ()) (with_lib l w) ∧ xa_of l = a.
Proof.
  intros Ho Hg Hu Ha. pose proof Hg as [Hx Hd]%andb_true_iff.
  destruct (send_run m (xa_statement v x) s w) as (l1 & H1 & Hx1 & Hs); [done|by apply xa_statement_no_nul|].
  rewrite <- Hx1 in Ha.
  destruct (xa_accept m l1 _ v x a Hs (xa_statement_parses v x Hx) Ha Hd Hu) as (reports & l2 & Hcall & Hr & Hx2).
  exists l2. split; [|done]. unfold command. erewrite pm_bind_run by exact H1.
  by erewrite pm_bind_run by (by eapply (read_ok m _ (with_lib l1 w))).
Qed.

Lemma command_plain m stmt s w :
  open_conn m w -> stmt = COMMIT ∨ stmt = ROLLBACK -> xa_of (w_lib w) = XaNone ->
  ∃ l, command al stmt s w = Done (s, inr ()) (with_lib l w) ∧ xa_of l = XaNone.
Proof.
  intros Ho Hst Ha.
  destruct (send_run m stmt s w) as (l1 & H1 & Hx1 & Hs); [done|by destruct Hst as [-> | ->]; repeat constructor|].
  rewrite Ha in Hx1. destruct (xa_plain m l1 stmt Hs Hst Hx1) as (reports & l2 & Hcall & Hr & Hx2).
  exists l2. split; [|done]. unfold command. erewrite pm_bind_run by exact H1.
  by erewrite pm_bind_run by (by eapply (read_ok m _ (with_lib l1 w))).
Qed.

(** [XA BEGIN] in a transaction is an error of the server. *)
Lemma command_refuse m x s w :
  open_conn m w -> clean_xid x = true -> xa_of (w_lib w) ≠ XaNone ->
  ∃ e l, command al (xa_statement XA_BEGIN x) s w = Done (s, inl (Raised (Mariadb e))) (with_lib l w) ∧
         xa_of l = xa_of (w_lib w).
Proof.
  intros Ho Hx Ha.
  destruct (send_run m (xa_statement XA_BEGIN x) s w) as (l1 & H1 & Hx1 & Hs); [done|by apply xa_statement_no_nul|].
  rewrite <- Hx1 in Ha.
  destruct (xa_refuse m l1 _ x Hs (xa_statement_parses _ x Hx) Ha) as (rc & reports & l2 & Hcall & Hrc & Hr & Hx2).
  destruct (read_error m s (with_lib l1 w) rc reports l2) as (e & l3 & H3 & Hx3); [done..|].
  exists e, l3. split; [|congruence]. unfold command. erewrite pm_bind_run by exact H1.
  by eapply pm_bind_raise.
Qed.

Lemma or_reset_run m s s' w w' : m s w = Done (s', inr ()) w' -> or_reset m s w = Done (s', inr ()) w'.
Proof. intros E. unfold or_reset, on_error. by rewrite bind_eq, E. Qed.

Lemma end_phase_accept m x s w :
  open_conn m w -> good_xid x = true -> xa_of (w_lib w) = XaActive x ->
  ∃ l, end_phase al x s w = Done (s, inr ()) (with_lib l w) ∧ xa_of l = XaIdle x.
Proof.
  intros Ho Hg Ha. pose proof Hg as [Hx Hd]%andb_true_iff.
  destruct (send_run m (xa_statement XA_END x) s w) as (l1 & H1 & Hx1 & Hs); [done|by apply xa_statement_no_nul|].
  destruct (xa_accept m l1 _ XA_END x (XaIdle x) Hs (xa_statement_parses _ x Hx)) as (reports & l2 & Hcall & Hr & Hx2);
    [|done|done|].
  { rewrite Hx1, Ha. cbn. by rewrite decide_True. }
  exists l2. split; [|done]. unfold end_phase. erewrite pm_bind_run by exact H1.
  apply or_reset_run. by erewrite pm_bind_run by (by eapply (read_ok m _ (with_lib l1 w))).
Qed.

(** ** The methods *)

Lemma check_open m s w : open_conn m w -> connection_check_closed s w = Done (s, inr ()) w.
Proof.
  intros (_ & _ & Hc & _). unfold connection_check_closed. erewrite pm_bind_run by done. by rewrite Hc.
Qed.

Lemma observe_run {A} (m : PM A) s s' r w w' :
  m s w = Done (s', r) w' -> observe m s w = Done (s', inr (outcome_of r)) w'.
Proof. intros E. unfold observe. by rewrite bind_eq, E. Qed.

Lemma own_step (x : xid) a : (if decide (x = x) then Some a else None) = Some (a : xa_state).
Proof. by rewrite decide_True. Qed.

(** The identifiers of the calls: without quotes, backslashes and NUL bytes, as
    the server documents them, and used by no other session. *)
Definition op_good (op : tpc_op) : Prop :=
  match op with TpcBegin x => good_xid x = true ∧ xa_unused x | _ => True end.

(** One call: what the specification says, with the world changed in the
    library alone. *)
Definition keeps_step (op : tpc_op) (a : xa_state) (s : pystate) (w : world C) : Prop :=
  ∃ s' l, observe (tpc_perform al op) s w = Done (s', inr (tpc_spec op a).1) (with_lib l w) ∧
          in_step (s_connection s') (tpc_spec op a).2 ∧ xa_of l = (tpc_spec op a).2.

Lemma begin_step m x a s w :
  open_conn m w -> in_step (s_connection s) a -> xa_of (w_lib w) = a -> good_xid x = true -> xa_unused x ->
  keeps_step (TpcBegin x) a s w.
Proof.
  intros Ho Hk Ha Hg Hu. pose proof Hg as [Hx Hd]%andb_true_iff. unfold keeps_step. cbn [tpc_perform]. unfold tpc_begin.
  assert (Hbusy : a ≠ XaNone -> ∃ s' l,
    observe (connection_check_closed;; command al (xa_begin x);; set_tpc TPC_XID (Some x)) s w
    = Done (s', inr ServerError) (with_lib l w) ∧ in_step (s_connection s') a ∧ xa_of l = a).
  { intros Hn. destruct (command_refuse m x s w) as (e & l & E & El); [done|done|by rewrite Ha|].
    exists s, l. rewrite El, Ha. split; [|done].
    erewrite (observe_run _ s s (inl (Raised (Mariadb e)))); [done|].
    erewrite pm_bind_run by (by eapply check_open). by eapply pm_bind_raise. }
  destruct a as [|y|y|y]; [clear Hbusy|by apply Hbusy..].
  destruct (command_accept m XA_BEGIN x (XaActive x) s w) as (l & E & El); [done|done|done|by rewrite Ha|].
  eexists _, l. split; [|split; [|exact El]].
  { apply (observe_run _ s _ (inr ())). erewrite pm_bind_run by (by eapply check_open). by erewrite pm_bind_run by exact E. }
  done.
Qed.

(** A call the object refuses sends nothing. *)
Lemma refused_step m op a s w (r : pyexn + ()) :
  open_conn m w -> in_step (s_connection s) a -> xa_of (w_lib w) = a -> tpc_spec op a = (Refused, a) ->
  tpc_perform al op s w = Done (s, r) w -> outcome_of r = Refused -> keeps_step op a s w.
Proof.
  intros Ho Hk Ha Hspec E Hr. exists s, (w_lib w). rewrite Hspec. split; [|done].
  rewrite (observe_run _ _ _ _ _ _ E), Hr. by destruct w.
Qed.

Lemma prepare_step m a s w :
  open_conn m w -> in_step (s_connection s) a -> xa_of (w_lib w) = a -> keeps_step TpcPrepare a s w.
Proof.
  intros Ho Hk Ha.
  assert (E : tpc_prepare al s w = match k_tpc_state (s_connection s), k_xid (s_connection s) with
    | TPC_NONE, _ => raise (ProgrammingError "Transaction not started.")
    | TPC_PREPARE, _ => raise (ProgrammingError "Transaction is already in prepared state.")
    | TPC_XID, None => raise (Builtin "TypeError")
    | TPC_XID, Some x =>
        or_reset (command al (xa_end x));;
        or_reset (command al (xa_prepare x));;
        set_tpc TPC_PREPARE (Some x)
    end s w).
  { unfold tpc_prepare. erewrite pm_bind_run by (by eapply check_open). by erewrite pm_bind_run by done. }
  destruct a as [|x|x|x]; cbn in Hk; [|destruct Hk as (Hst & Hid & Hx)|done|destruct Hk as (Hst & Hid & Hx)].
  - eapply refused_step; [done..|cbn [tpc_perform]; rewrite E, Hk; reflexivity|done].
  - destruct (command_accept m XA_END x (XaIdle x) s w) as (l1 & E1 & Hl1);
      [done|done|done|by rewrite Ha; apply own_step|].
    destruct (command_accept m XA_PREPARE x (XaPrepared x) s (with_lib l1 w)) as (l2 & E2 & Hl2);
      [done|done|done|by cbn; rewrite Hl1; apply own_step|].
    eexists _, l2. split; [|split; [|exact Hl2]].
    { apply (observe_run _ s _ (inr ())). cbn [tpc_perform]. rewrite E, Hst, Hid.
      erewrite pm_bind_run by (by apply or_reset_run). by erewrite pm_bind_run by (by apply or_reset_run). }
    done.
  - eapply refused_step; [done..|cbn [tpc_perform]; rewrite E, Hst; reflexivity|done].
Qed.

Lemma commit_step m a s w :
  open_conn m w -> in_step (s_connection s) a -> xa_of (w_lib w) = a -> keeps_step TpcCommit a s w.
Proof.
  intros Ho Hk Ha.
  assert (E : tpc_commit al None s w = match k_tpc_state (s_connection s), k_xid (s_connection s) with
    | TPC_NONE, _ => raise (ProgrammingError "Transaction not started.")
    | TPC_XID, None => raise (ProgrammingError "Transaction is not prepared.")
    | TPC_PREPARE, None => raise (Builtin "TypeError")
    | TPC_XID, Some x =>
        end_phase al x;;
        or_reset (command al (xa_commit x true));;
        set_tpc TPC_NONE None
    | TPC_PREPARE, Some x =>
        or_reset (command al (xa_commit x false));;
        set_tpc TPC_NONE None
    end s w).
  { unfold tpc_commit. erewrite pm_bind_run by (by eapply check_open). by erewrite pm_bind_run by done. }
  destruct a as [|x|x|x]; cbn in Hk; [|destruct Hk as (Hst & Hid & Hx)|done|destruct Hk as (Hst & Hid & Hx)].
  - eapply refused_step; [done..|cbn [tpc_perform]; rewrite E, Hk; reflexivity|done].
  - destruct (end_phase_accept m x s w) as (l1 & E1 & Hl1); [done..|].
    destruct (command_accept m XA_COMMIT_ONE_PHASE x XaNone s (with_lib l1 w)) as (l2 & E2 & Hl2);
      [done|done|done|by cbn; rewrite Hl1; apply own_step|].
    eexists _, l2. split; [|split; [|exact Hl2]].
    { apply (observe_run _ s _ (inr ())). cbn [tpc_perform]. rewrite E, Hst, Hid.
      erewrite pm_bind_run by exact E1. by erewrite pm_bind_run by (by apply or_reset_run). }
    done.
  - destruct (command_accept m XA_COMMIT x XaNone s w) as (l1 & E1 & Hl1);
      [done|done|done|by rewrite Ha; apply own_step|].
    eexists _, l1. split; [|split; [|exact Hl1]].
    { apply (observe_run _ s _ (inr ())). cbn [tpc_perform]. rewrite E, Hst, Hid.
      by erewrite pm_bind_run by (by apply or_reset_run). }
    done.
Qed.

Lemma plain_step m op stmt msg a s w :
  tpc_perform al op =
    (connection_check_closed;; active ← tpc_active;
     if active : bool then raise (ProgrammingError msg) else command al stmt) ->
  stmt = COMMIT ∨ stmt = ROLLBACK ->
  tpc_spec op a = (match a with XaNone => Succeeds | _ => Refused end, a) ->
  open_conn m w -> in_step (s_connection s) a -> xa_of (w_lib w) = a -> keeps_step op a s w.
Proof.
  intros Hop Hst Hspec Ho Hk Ha.
  assert (E : tpc_perform al op s w =
    (if negb (bool_decide (k_tpc_state (s_connection s) = TPC_NONE))
     then raise (ProgrammingError msg) else command al stmt) s w).
  { rewrite Hop. erewrite pm_bind_run by (by eapply check_open). by erewrite pm_bind_run by done. }
  assert (Hbusy : k_tpc_state (s_connection s) ≠ TPC_NONE -> tpc_spec op a = (Refused, a) -> keeps_step op a s w).
  { intros Hn Hr. eapply refused_step; [done..| |]; [rewrite E, bool_decide_eq_false_2 by done; reflexivity|done]. }
  destruct a as [|x|x|x]; cbn in Hk; [|by apply Hbusy; [destruct Hk as [-> _]|]|done|by apply Hbusy; [destruct Hk as [-> _]|]].
  destruct (command_plain m stmt s w) as (l & El & Hl); [done..|].
  exists s, l. rewrite Hspec. split; [|done]. apply (observe_run _ s _ (inr ())).
  by rewrite E, bool_decide_eq_true_2.
Qed.

Lemma op_step m op a s w :
  open_conn m w -> in_step (s_connection s) a -> xa_of (w_lib w) = a -> op_good op ->
  keeps_step op a s w.
Proof.
  intros Ho Hk Ha Hc. destruct op.
  - destruct Hc. by apply (begin_step m).
  - by apply (prepare_step m).
  - by apply (commit_step m).
  - eapply (plain_step m _ COMMIT); try done; [by left|by destruct a].
  - eapply (plain_step m _ ROLLBACK); try done; [by right|by destruct a].
Qed.

(** C11: For every sequence of calls of [tpc_begin], [tpc_prepare], [tpc_commit]
    without an argument, [commit] and [rollback] on an open connection, every
    call returns; the application sees success, the object's [ProgrammingError]
    or the server's error exactly as the specification says, the transaction on
    the server is where the specification puts it, and the attributes
    [tpc_state] and [_xid] say so.

    The identifiers are [op_good]: free of quotes, backslashes and NUL bytes,
    which the code does not escape ([xa_quote_ambiguous]), at most 64 bytes each,
    with a format that is not negative, and used by no other session.  The server
    answers, and carries out what the state of the transaction allows
    ([XaServer]).  [tpc_rollback] is not among the calls: it leaves the
    attributes out of step ([tpc_rollback_out_of_step]). *)
Theorem tpc_refines_spec (m : nat) (ops : list tpc_op) (a : xa_state) (s : pystate) (w : world C)
    (Hopen : open_conn m w) (Hstep : in_step (s_connection s) a) (Hserver : xa_of (w_lib w) = a)
    (Hgood : Forall op_good ops) :
  ∃ s' w', tpc_run al ops s w = Done (s', inr (tpc_spec_run ops a).1) w' ∧
           in_step (s_connection s') (tpc_spec_run ops a).2 ∧
           xa_of (w_lib w') = (tpc_spec_run ops a).2 ∧ open_conn m w'.
Proof.
  revert a s w Hopen Hstep Hserver. induction ops as [|op ops IH]; intros a s w Ho Hk Ha; [by exists s, w|].
  apply Forall_cons_1 in Hgood as [Hc Hcs].
  destruct (op_step m op a s w Ho Hk Ha Hc) as (s1 & l1 & E1 & Hk1 & Ha1). cbn.
  destruct (tpc_spec op a) as [o a1]. cbn in *.
  destruct (IH Hcs a1 s1 (with_lib l1 w)) as (s2 & w2 & E2 & Hk2 & Ha2 & Ho2); [done..|].
  exists s2, w2. destruct (tpc_spec_run ops a1) as [os a2]. split_and!; [|done..].
  erewrite pm_bind_run by exact E1. by erewrite pm_bind_run by exact E2.
Qed.

End Statements.

(** ** A server *)

Definition xa_demo_state : Type := demo_state * xa_state * option (list Z).

Definition xa_answer {R : Type} (op : libop R) (l : xa_demo_state) : R * xa_demo_state :=
  let '(d, a, sent) := l in
  match op in libop R return R * xa_demo_state with
  | mysql_send_query _ stmt => (0, (d, a, Some stmt))
  | db_read_query_result _ =>
      match sent ≫= parse_xa with
      | Some (v, x) => match xa_step v x a with Some a' => (0, (d, a', None)) | None => (1, (d, a, None)) end
      | None => (0, (d, a, None))
      end
  | op => let '(r, d') := demo_answer op d in (r, (d', a, sent))
  end.

Definition xa_client : Client := {|
  lib_state := xa_demo_state;
  lib_call R op l := let '(r, l') := xa_answer op l in (r, demo_reports op, l');
  pending_results l := length (d_pending l.1.1);
  remaining_rows l := length (d_rows l.1.1);
|}.

#[local] Existing Instance xa_client.

#[local] Instance xa_demo_server : XaServer xa_client.
Proof.
  unshelve eapply (Build_XaServer xa_client (λ l : xa_demo_state, l.1.2) (λ l : xa_demo_state, l.2)
    (λ _, True)).
  - intros m stmt [[d a] sent]. do 2 eexists. split; [done|]. split_and!; [by repeat constructor|done|done].
  - intros m [[d a] sent] stmt v x a' Hs Hp Ha _ _. cbn in *. rewrite Hs. cbn. rewrite Hp, Ha.
    do 2 eexists. split; [done|]. split; [by repeat constructor|done].
  - intros m [[d a] sent] stmt x Hs Hp Ha. cbn in *. rewrite Hs. cbn. rewrite Hp.
    destruct a; [done|..]; do 3 eexists; (split; [done|]); (split_and!; [done|by repeat constructor|done]).
  - intros m [[d a] sent] stmt Hs Hst Ha. cbn in *. rewrite Hs.
    do 2 eexists. split; [by destruct Hst as [-> | ->]|]. split; [by repeat constructor|done].
  - intros m [[d a] sent]. do 3 eexists. split; [done|]. split; [by repeat constructor|done].
Defined.

Definition xa_world : world xa_client :=
  mkWorld (mkDemo [] [], XaNone, None) {[0%nat := KMysql]} 1 true
    (mkConn false (Some 0%nat) None false true None false) demo_cur None.

Definition demo_xid : xid := mkXid 1 (bytes_of_string "t1") (bytes_of_string "b1").

Definition demo_ops : list tpc_op :=
  [Commit; TpcPrepare; TpcBegin demo_xid; TpcBegin demo_xid; Commit; TpcPrepare; TpcPrepare; Rollback;
   TpcCommit; TpcCommit; TpcBegin demo_xid; TpcCommit].

Definition tpc_pystate : pystate :=
  mkPyState (mkPyCursor false PyNone false false 0) pyconnection_new.

Lemma tpc_refines_spec_witness :
  ∃ s' w', tpc_run demo_allocs demo_ops tpc_pystate xa_world =
           Done (s', inr [Succeeds; Refused; Succeeds; ServerError; Refused; Succeeds; Refused; Refused;
                          Succeeds; Refused; Succeeds; Succeeds]) w' ∧
           in_step (s_connection s') XaNone ∧ xa_of (w_lib w') = XaNone ∧ open_conn 0 w'.
Proof.
  apply (tpc_refines_spec demo_allocs 0 demo_ops XaNone tpc_pystate xa_world);
    [|reflexivity|reflexivity|].
  - exact (conj (conj (conj eq_refl eq_refl) eq_refl) (conj eq_refl (conj eq_refl (mk_is_Some _ KMysql eq_refl)))).
  - repeat constructor.
Defined.

(** ** Rolling back *)

(** Behind a successful [tpc_rollback] the object is in the state [PREPARE]
    though the server has no transaction any more: [commit] is refused, and
    [tpc_commit] sends a statement about the old transaction. *)
Lemma tpc_rollback_out_of_step :
  ∃ s' w', (tpc_begin demo_allocs (Some demo_xid);; tpc_rollback demo_allocs None) tpc_pystate xa_world
           = Done (s', inr ()) w' ∧
           k_tpc_state (s_connection s') = TPC_PREPARE ∧ xa_of (w_lib w') = XaNone ∧
           ∃ w1 w2 s2, observe (commit demo_allocs) s' w' = Done (s', inr Refused) w1 ∧
                       observe (tpc_commit demo_allocs None) s' w' = Done (s2, inr ServerError) w2.
Proof.
  eexists _, _. split; [vm_compute; reflexivity|]. split; [reflexivity|]. split; [reflexivity|].
  do 3 eexists. split; vm_compute; reflexivity.
Qed.
