(* ===== verification/Pool.v ===== *)
(** * The connection pool ([src/mariadb/connectionpool.py])

    The pool works on connection objects through their methods, which are the
    interface [Connections] here.  Connection objects have numbers: Python
    compares them by identity.  The attributes a pool keeps in the objects are a store that all
    pools share, and so is the dictionary of the pools. *)

From stdpp Require Import gmap strings.
From S2P Require Import Prelude Values Exceptions Python.

(** ** The interface *)

(** What the methods of a connection do to the environment.  [None] stands for
    undefined behaviour of the C code. *)
Definition step (env A : Type) : Type := env -> option (env * (pyexn + A)).

Class Connections (env : Type) := {
  (** [mariadb.Connection(kwargs)] for the object of a number *)
  k_connect : nat -> step env ();
  (** [_check_closed] *)
  k_check_closed : nat -> step env ();
  k_ping : nat -> step env ();
  k_reset : nat -> step env ();
  k_rollback : nat -> step env ();
  k_server_status : nat -> step env Z;
  (** [close] of the class of the C module *)
  k_close : nat -> step env ();
  (** [time.perf_counter_ns] *)
  k_clock : env -> env * Z;
}.

(** ** State *)

Definition MAX_POOL_SIZE : Z := 64.
Definition STATUS_IN_TRANS : Z := 1.

(** [p_lists] are [_connections_free] and [_connections_used], both None behind
    [close]; [p_configured] says whether [_conn_args] has entries. *)
Record pool := mkPool {
  p_name : string;
  p_size : Z;
  p_reset_connection : bool;
  p_validation_interval : Z;
  p_configured : bool;
  p_lists : option (list nat * list nat);
}.

Definition set_lists (v : option (list nat * list nat)) (p : pool) : pool :=
  mkPool (p_name p) (p_size p) (p_reset_connection p) (p_validation_interval p) (p_configured p) v.

(** The attributes [_Connection__pool], [_ConnectionPool__last_used], [_used]
    of a connection; the first is the name of the pool. *)
Record conn_attrs := mkAttrs { a_pool : option string; a_last_used : Z; a_used : Z }.

Definition set_a_pool (v : option string) (a : conn_attrs) : conn_attrs :=
  mkAttrs v (a_last_used a) (a_used a).
Definition set_a_last_used (v : Z) (a : conn_attrs) : conn_attrs := mkAttrs (a_pool a) v (a_used a).
Definition set_a_used (v : Z) (a : conn_attrs) : conn_attrs := mkAttrs (a_pool a) (a_last_used a) v.

(** [h_objs] are the pool objects, each under its name; [h_names] are the keys
    of [mariadb._CONNECTION_POOLS]; [h_next] numbers new connections. *)
Record heap (env : Type) := mkHeap {
  h_objs : gmap string pool;
  h_names : gset string;
  h_attrs : nat -> conn_attrs;
  h_next : nat;
  h_env : env;
}.
Arguments mkHeap {env} _ _ _ _ _.
Arguments h_objs {env} _.
Arguments h_names {env} _.
Arguments h_attrs {env} _ _.
Arguments h_next {env} _.
Arguments h_env {env} _.

(** The keyword arguments of a pool; [kp_configured] says whether any are left
    for the connections. *)
Record pool_kwargs := mkPoolKwargs {
  kp_name : option string;
  kp_size : Z;
  kp_reset_connection : bool;
  kp_validation_interval : Z;
  kp_configured : bool;
}.

Definition PoolError (msg : string) : pyexn := exn_of Mariadb_PoolError msg.
Definition pool_programming_error (msg : string) : pyexn := exn_of Mariadb_ProgrammingError msg.

(** ** Computations *)

Definition BM (env A : Type) : Type := heap env -> option (heap env * (pyexn + A)).

Section Pool.

Context {env : Type} `{K : !Connections env}.

#[global] Instance BM_ret : MRet (BM env) := λ A a h, Some (h, inr a).
#[global] Instance BM_bind : MBind (BM env) := λ A B f m h,
  '(h', r) ← m h;
  match r with inr a => f a h' | inl x => Some (h', inl x) end.

Definition b_raise {A : Type} (x : pyexn) : BM env A := λ h, Some (h, inl x).

(** [try: m except mariadb.Error: handler]. *)
Definition b_except {A : Type} (m : BM env A) (handler : BM env A) : BM env A := λ h,
  '(h', r) ← m h;
  match r with
  | inl x => if catches Mariadb_Error x then handler h' else Some (h', inl x)
  | inr a => Some (h', inr a)
  end.

(** [try: m finally: f]: an exception of [f] replaces that of [m]. *)
Definition b_finally (m f : BM env ()) : BM env () := λ h,
  '(h', r) ← m h;
  '(h'', r') ← f h';
  Some (h'', match r' with inl x => inl x | inr _ => r end).

Definition of_env {A : Type} (m : step env A) : BM env A := λ h,
  '(e, r) ← m (h_env h);
  Some (mkHeap (h_objs h) (h_names h) (h_attrs h) (h_next h) e, r).

Definition clock : BM env Z := λ h,
  let '(e, t) := k_clock (h_env h) in
  Some (mkHeap (h_objs h) (h_names h) (h_attrs h) (h_next h) e, inr t).

Definition the_attrs (c : nat) : BM env conn_attrs := λ h, Some (h, inr (h_attrs h c)).

Definition upd_conn_attrs (c : nat) (f : conn_attrs -> conn_attrs) : BM env () := λ h,
  Some (mkHeap (h_objs h) (h_names h) (λ c', if (c' =? c)%nat then f (h_attrs h c') else h_attrs h c')
          (h_next h) (h_env h), inr ()).

(** A pool object.  There is no other name for one, so the first case is that
    of a variable that is not assigned. *)
Definition the_pool (n : string) : BM env pool := λ h,
  match h_objs h !! n with
  | None => Some (h, inl (Builtin "NameError"))
  | Some p => Some (h, inr p)
  end.

Definition put_pool (p : pool) : BM env () := λ h,
  Some (mkHeap (<[p_name p := p]> (h_objs h)) (h_names h) (h_attrs h) (h_next h) (h_env h), inr ()).

Definition pool_names : BM env (gset string) := λ h, Some (h, inr (h_names h)).
Definition put_names (ns : gset string) : BM env () := λ h,
  Some (mkHeap (h_objs h) ns (h_attrs h) (h_next h) (h_env h), inr ()).

(** The lists of a pool; None in a place of a list is a [TypeError]. *)
Definition get_lists (n : string) : BM env (list nat * list nat) :=
  p ← the_pool n;
  match p_lists p with Some l => mret l | None => b_raise (Builtin "TypeError") end.

Definition put_lists (n : string) (v : option (list nat * list nat)) : BM env () :=
  p ← the_pool n; put_pool (set_lists v p).

(** [l.index(c); del l[x]]: the first occurrence. *)
Fixpoint remove1 (c : nat) (l : list nat) : list nat :=
  match l with
  | [] => []
  | d :: l' => if (d =? c)%nat then l' else d :: remove1 c l'
  end.

Definition total (l : list nat * list nat) : Z := Z.of_nat (length (l.1 ++ l.2)).

(** A new connection object. *)
Definition new_connection : BM env nat := λ h,
  let c := h_next h in
  (of_env (k_connect c);; mret c)
    (mkHeap (h_objs h) (h_names h)
       (λ c', if (c' =? c)%nat then mkAttrs None 0 0 else h_attrs h c') (S c) (h_env h)).

(** ** Operations *)

(** The argument is None or a connection object.  The second test for a missing
    configuration in the source cannot be reached.  The checks come before the
    lock is taken. *)
Definition add_check (n : string) : BM env () :=
  p ← the_pool n;
  if negb (p_configured p) then b_raise (PoolError "Couldn't get configuration for pool %s")
  else
    l ← get_lists n;
    if p_size p <=? total l
    then b_raise (PoolError "Can't add connection to pool %s: No free slot available (%s).")
    else mret ().

Definition add_locked (n : string) (connection : option nat) : BM env nat :=
  c ← match connection with Some c => mret c | None => new_connection end;
  upd_conn_attrs c (set_a_pool (Some n));;
  t ← clock;
  upd_conn_attrs c (set_a_last_used t);;
  l ← get_lists n;
  put_lists n (Some (l.1 ++ [c], l.2));;
  mret c.

Definition add_connection (n : string) (connection : option nat) : BM env nat :=
  add_check n;; add_locked n connection.

(** [Connection.close] of an object that belongs to no pool. *)
Definition close_plain (c : nat) : BM env () := of_env (k_check_closed c);; of_env (k_close c).

(** The object has left the pool when its [close] is called. *)
Definition replace_connection (n : string) (c : nat) : BM env nat :=
  l ← get_lists n;
  (if bool_decide (c ∈ l.1) then put_lists n (Some (remove1 c l.1, l.2))
   else if bool_decide (c ∈ l.2) then put_lists n (Some (l.1, remove1 c l.2))
   else mret ());;
  upd_conn_attrs c (set_a_pool None);;
  close_plain c;;
  add_connection n None.

(** [dt] is a quotient of floats in milliseconds, compared exactly here.  A
    connection object is always true. *)
Definition stale (p : pool) (a : conn_attrs) (now : Z) : bool :=
  p_validation_interval p * 1000000 <? now - a_last_used a.

Definition validate (n : string) (c : nat) : BM env nat :=
  p ← the_pool n;
  t ← clock;
  a ← the_attrs c;
  if stale p a t then b_except (of_env (k_ping c);; mret c) (replace_connection n c) else mret c.

Definition take_connection (n : string) (c : nat) : BM env nat :=
  upd_conn_attrs c (λ a, set_a_used (a_used a + 1) a);;
  l ← get_lists n;
  put_lists n (Some (l.1, l.2 ++ [c]));;
  (if bool_decide (c ∈ l.1) then put_lists n (Some (remove1 c l.1, l.2 ++ [c]))
   else b_raise (Builtin "ValueError"));;
  mret c.

(** The loop over the indices from [i] on, of which [k] are left; its body
    always returns or raises. *)
Definition get_loop (n : string) (i k : nat) : BM env nat :=
  match k with
  | O => b_raise (PoolError "No connection available")
  | S _ =>
      l ← get_lists n;
      match l.1 !! i with
      | None => b_raise (Builtin "IndexError")
      | Some c => c' ← validate n c; take_connection n c'
      end
  end.

Definition get_connection (n : string) : BM env nat :=
  l ← get_lists n; get_loop n 0 (length l.1).

(** [_close_connection]; the body of its [try] first. *)
Definition tidy (p : pool) (c : nat) : BM env () :=
  if p_reset_connection p then of_env (k_reset c)
  else
    z ← of_env (k_server_status c);
    if Z.land z STATUS_IN_TRANS =? 0 then mret () else of_env (k_rollback c).

Definition close_connection (n : string) (c : nat) : BM env () :=
  p ← the_pool n;
  b_except (tidy p c) (replace_connection n c;; mret ());;
  l ← get_lists n;
  if bool_decide (c ∈ l.2) then
    put_lists n (Some (l.1, remove1 c l.2));;
    t ← clock;
    upd_conn_attrs c (set_a_last_used t);;
    l ← get_lists n;
    put_lists n (Some (l.1 ++ [c], l.2))
  else mret ().

(** [Connection.close]. *)
Definition pooled_close (c : nat) : BM env () :=
  of_env (k_check_closed c);;
  a ← the_attrs c;
  match a_pool a with
  | Some n => close_connection n c
  | None => of_env (k_close c)
  end.

Definition set_config (n : string) (given : bool) : BM env () :=
  p ← the_pool n;
  put_pool (mkPool (p_name p) (p_size p) (p_reset_connection p) (p_validation_interval p) given (p_lists p)).

(** [del _CONNECTION_POOLS[name]]. *)
Definition unregister (n : string) : BM env () :=
  ns ← pool_names;
  if bool_decide (n ∈ ns) then put_names (ns ∖ {[n]}) else b_raise (Builtin "KeyError").

Fixpoint close_all (cs : list nat) : BM env () :=
  match cs with
  | [] => mret ()
  | c :: cs' => upd_conn_attrs c (set_a_pool None);; close_plain c;; close_all cs'
  end.

Definition pool_close (n : string) : BM env () :=
  b_finally (l ← get_lists n; close_all (l.1 ++ l.2)) (put_lists n None;; unregister n).

(** The loop of [__init__] over the indices of the list it shortens. *)
Fixpoint cleanup (n : string) (j k : nat) : BM env () :=
  match k with
  | O => mret ()
  | S k' =>
      l ← get_lists n;
      match l.1 !! j with
      | None => b_raise (Builtin "IndexError")
      | Some c =>
          b_except (pooled_close c) (mret ());;
          l ← get_lists n;
          (if (j <? length l.1)%nat then put_lists n (Some (delete j l.1, l.2))
           else b_raise (Builtin "IndexError"));;
          cleanup n (S j) k'
      end
  end.

(** [try: m except mariadb.Error: handler; raise]. *)
Definition b_reraise {A : Type} (m : BM env A) (handler : BM env ()) : BM env A := λ h,
  '(h', r) ← m h;
  match r with
  | inl x => if catches Mariadb_Error x then (handler;; b_raise x) h' else Some (h', inl x)
  | inr a => Some (h', inr a)
  end.

Fixpoint fill_pool (n : string) (k : nat) : BM env () :=
  match k with
  | O => mret ()
  | S k' =>
      c ← b_reraise new_connection (l ← get_lists n; cleanup n 0 (length l.1));
      add_connection n (Some c);;
      fill_pool n k'
  end.

(** [ConnectionPool.__init__]. *)
Definition pool_init (kw : pool_kwargs) : BM env () :=
  ns ← pool_names;
  match kp_name kw with
  | None => b_raise (pool_programming_error "No pool name specified")
  | Some n =>
      if bool_decide (n ∈ ns) then b_raise (pool_programming_error "Pool '%s' already exists")
      else if negb ((0 <? kp_size kw) && (kp_size kw <=? MAX_POOL_SIZE))
      then b_raise (pool_programming_error "Pool size must be in range of 1 and %s")
      else
        put_pool (mkPool n (kp_size kw) (kp_reset_connection kw) (kp_validation_interval kw)
                    (kp_configured kw) (Some ([], [])));;
        (if kp_configured kw then fill_pool n (Z.to_nat (kp_size kw)) else mret ());;
        ns ← pool_names;
        put_names ({[n]} ∪ ns)
  end.

(** [mariadb.connect] with [pool_name]. *)
Definition connect_pooled (n : string) (kw : pool_kwargs) : BM env nat :=
  ns ← pool_names;
  (if bool_decide (n ∈ ns) then mret () else pool_init kw);;
  get_connection n.

(** [mariadb.connect]: [pool] is given with the keyword [pool_name];
    [is_connection] says whether [connectionclass] is a subclass of
    [Connection]. *)
Definition connect (pool : option (string * pool_kwargs)) (is_connection : bool) : BM env nat :=
  match pool with
  | Some (n, kw) => connect_pooled n kw
  | None =>
      c ← new_connection;
      if is_connection then mret c
      else b_raise (pool_programming_error "%s is not an instance of mariadb.Connection")
  end.

(** [connection_count]: None has no length, which counts as 0. *)
Definition connection_count (n : string) : BM env Z :=
  p ← the_pool n;
  mret (match p_lists p with Some l => total l | None => 0 end).

End Pool.
