(* ===== verification/PoolProps.v ===== *)
(** * Properties of the connection pool *)

From stdpp Require Import gmap strings.
From S2P Require Import Prelude Values Exceptions Python Pool.

Section Pool.

Context {env : Type} `{K : !Connections env}.

(** The methods of the connections return or raise: nothing else is assumed of
    them. *)
Class Defined_steps : Prop := {
  def_connect c e : is_Some (k_connect c e);
  def_check c e : is_Some (k_check_closed c e);
  def_ping c e : is_Some (k_ping c e);
  def_reset c e : is_Some (k_reset c e);
  def_rollback c e : is_Some (k_rollback c e);
  def_status c e : is_Some (k_server_status c e);
  def_close c e : is_Some (k_close c e);
}.

Context `{D : Defined_steps}.

(** ** Total correctness with exceptions *)

Definition post (A : Type) : Type := pyexn + A -> heap env -> Prop.

Definition ends {A} (m : BM env A) (h : heap env) (Q : post A) : Prop :=
  ∃ h' r, m h = Some (h', r) ∧ Q r h'.

Lemma ends_ret {A} (a : A) h (Q : post A) : Q (inr a) h -> ends (mret a) h Q.
Proof. by exists h, (inr a). Qed.

Lemma ends_raise {A} x h (Q : post A) : Q (inl x) h -> ends (b_raise x) h Q.
Proof. by exists h, (inl x). Qed.

Lemma ends_bind {A B} (m : BM env A) (k : A -> BM env B) h (Q : post B) :
  ends m h (λ r h', match r with inr a => ends (k a) h' Q | inl x => Q (inl x) h' end) ->
  ends (m ≫= k) h Q.
Proof.
  intros (h1 & [x|a] & E & HQ).
  - exists h1, (inl x). unfold mbind, BM_bind. by rewrite E.
  - destruct HQ as (h2 & r & E2 & HQ). exists h2, r. unfold mbind, BM_bind. by rewrite E.
Qed.

Lemma ends_mono {A} (m : BM env A) h (Q Q' : post A) :
  ends m h Q -> (∀ r h', Q r h' -> Q' r h') -> ends m h Q'.
Proof. intros (h' & r & E & HQ) HI. exists h', r. auto. Qed.

Lemma ends_except {A} (m handler : BM env A) h (Q : post A) :
  ends m h (λ r h', match r with
                    | inr a => Q (inr a) h'
                    | inl x => if catches Mariadb_Error x then ends handler h' Q else Q (inl x) h'
                    end) ->
  ends (b_except m handler) h Q.
Proof.
  intros (h1 & [x|a] & E & HQ); unfold ends, b_except; rewrite E; cbn.
  - destruct (catches _ x); [|by exists h1, (inl x)]. destruct HQ as (h2 & r & -> & HQ). by exists h2, r.
  - by exists h1, (inr a).
Qed.

Definition with_env (e : env) (h : heap env) : heap env :=
  mkHeap (h_objs h) (h_names h) (h_attrs h) (h_next h) e.

Lemma ends_env {A} (m : step env A) h (Q : post A) :
  is_Some (m (h_env h)) ->
  (∀ e r, m (h_env h) = Some (e, r) -> Q r (with_env e h)) -> ends (of_env m) h Q.
Proof.
  intros [[e r] E] HQ. exists (with_env e h), r. split; [unfold of_env; by rewrite E|by apply HQ].
Qed.

Lemma ends_clock h (Q : post Z) :
  (∀ e t, k_clock (h_env h) = (e, t) -> Q (inr t) (with_env e h)) -> ends clock h Q.
Proof.
  intros HQ. destruct (k_clock (h_env h)) as [e t] eqn:E. exists (with_env e h), (inr t).
  split; [unfold clock; by rewrite E|by apply HQ].
Qed.

(** ** The invariant *)

(** The pool object of a name, its two lists without duplicates and together no
    longer than the size, their connections known and marked as the pool's, and
    no connection marked as another pool's. *)
Definition pool_member (n : string) (h : heap env) (c : nat) : Prop :=
  (c < h_next h)%nat ∧ a_pool (h_attrs h c) = Some n.

Record good (n : string) (p : pool) (f u : list nat) (h : heap env) : Prop := mkGood {
  g_obj : h_objs h !! n = Some p;
  g_name : p_name p = n;
  g_lists : p_lists p = Some (f, u);
  g_nodup : NoDup (f ++ u);
  g_size : Z.of_nat (length (f ++ u)) <= p_size p;
  g_member : Forall (pool_member n h) (f ++ u);
  g_marks : ∀ c, a_pool (h_attrs h c) = None ∨ a_pool (h_attrs h c) = Some n;
}.

Definition with_lists (f u : list nat) (p : pool) : pool := set_lists (Some (f, u)) p.

Definition with_pool (n : string) (p : pool) (h : heap env) : heap env :=
  mkHeap (<[n := p]> (h_objs h)) (h_names h) (h_attrs h) (h_next h) (h_env h).

Lemma ends_get_lists n p l h (Q : post (list nat * list nat)) :
  h_objs h !! n = Some p -> p_lists p = Some l -> Q (inr l) h -> ends (get_lists n) h Q.
Proof.
  intros Hp Hl HQ. exists h, (inr l). split; [|done].
  unfold get_lists, mbind, BM_bind, the_pool. rewrite Hp. cbn. by rewrite Hl.
Qed.

Lemma ends_put_lists n p v h (Q : post ()) :
  h_objs h !! n = Some p -> p_name p = n -> Q (inr ()) (with_pool n (set_lists v p) h) ->
  ends (put_lists n v) h Q.
Proof.
  intros Hp Hn HQ. exists (with_pool n (set_lists v p) h), (inr ()). split; [|done].
  unfold put_lists, mbind, BM_bind, the_pool. rewrite Hp. cbn. unfold put_pool. cbn. by rewrite Hn.
Qed.

Lemma ends_the_pool n p h (Q : post pool) :
  h_objs h !! n = Some p -> Q (inr p) h -> ends (the_pool n) h Q.
Proof. intros Hp HQ. exists h, (inr p). unfold the_pool. by rewrite Hp. Qed.

Definition with_attr (c : nat) (g : conn_attrs -> conn_attrs) (h : heap env) : heap env :=
  mkHeap (h_objs h) (h_names h) (λ c', if (c' =? c)%nat then g (h_attrs h c') else h_attrs h c')
    (h_next h) (h_env h).

Lemma ends_attr c g h (Q : post ()) : Q (inr ()) (with_attr c g h) -> ends (upd_conn_attrs c g) h Q.
Proof. by exists (with_attr c g h), (inr ()). Qed.

Lemma ends_attrs c h (Q : post conn_attrs) : Q (inr (h_attrs h c)) h -> ends (the_attrs c) h Q.
Proof. by exists h, (inr (h_attrs h c)). Qed.

(** What keeps the invariant: a step of the environment, an attribute that is
    no mark. *)
Lemma good_env n p f u h e : good n p f u h -> good n p f u (with_env e h).
Proof. by intros []. Qed.

Lemma good_attr n p f u h c g :
  good n p f u h -> (∀ a, a_pool (g a) = a_pool a) -> good n p f u (with_attr c g h).
Proof.
  intros [H1 H2 H3 H4 H5 H6 H7] Hg. split; try done.
  - eapply Forall_impl; [|exact H6]. intros d [Hd Hm]. split; [done|]. cbn.
    destruct (d =? c)%nat; [by rewrite Hg|done].
  - intros d. cbn. destruct (d =? c)%nat; [rewrite Hg|]; apply H7.
Qed.

(** New lists over marked connections. *)
Lemma good_lists n p f u f' u' h :
  good n p f u h -> NoDup (f' ++ u') -> Z.of_nat (length (f' ++ u')) <= p_size p ->
  Forall (pool_member n h) (f' ++ u') ->
  good n (with_lists f' u' p) f' u' (with_pool n (with_lists f' u' p) h).
Proof.
  intros [H1 H2 H3 H4 H5 H6 H7] Hd Hs Hm. split; try done. cbn. by rewrite lookup_insert_eq.
Qed.

(** ** Removing the first occurrence *)

Lemma remove1_notin c l : (c ∉ l) -> remove1 c l = l.
Proof.
  induction l as [|d l IH]; [done|]. intros [Hn Hl]%not_elem_of_cons. cbn.
  rewrite (proj2 (Nat.eqb_neq _ _)) by done. by rewrite IH.
Qed.

Lemma remove1_perm c l : c ∈ l -> l ≡ₚ c :: remove1 c l.
Proof.
  induction l as [|d l IH]; [by intros H%not_elem_of_nil|]. intros Hc. cbn.
  destruct (d =? c)%nat eqn:E; [by apply Nat.eqb_eq in E as ->|].
  apply elem_of_cons in Hc as [-> |Hc]; [by rewrite Nat.eqb_refl in E|].
  rewrite (IH Hc) at 1. apply Permutation_swap.
Qed.

(** Lists that some of the pool's connections have left. *)
Lemma good_sub n p f u f' u' k h :
  good n p f u h -> f ++ u ≡ₚ k ++ (f' ++ u') ->
  good n (with_lists f' u' p) f' u' (with_pool n (with_lists f' u' p) h).
Proof.
  intros Hg Hp. pose proof Hg as [_ _ _ Hd Hs Hm _]. rewrite Hp in Hd, Hm.
  apply Permutation_length in Hp. rewrite (length_app k) in Hp.
  apply list.NoDup_app in Hd as (_ & _ & Hd). apply Forall_app in Hm as [_ Hm].
  eapply good_lists; [exact Hg|done|lia|done].
Qed.

Lemma good_mark n p f u h c : good n p f u h -> good n p f u (with_attr c (set_a_pool (Some n)) h).
Proof.
  intros [H1 H2 H3 H4 H5 H6 H7]. split; try done.
  - eapply Forall_impl; [|exact H6]. intros d [Hd Hm]. split; [done|]. cbn. by destruct (d =? c)%nat.
  - intros d. cbn. destruct (d =? c)%nat; [by right|apply H7].
Qed.

Lemma good_unmark n p f u h c :
  good n p f u h -> (c ∉ f ++ u) -> good n p f u (with_attr c (set_a_pool None) h).
Proof.
  intros [H1 H2 H3 H4 H5 H6 H7] Hc. split; try done.
  - rewrite Forall_forall in H6 |- *. intros d Hd. destruct (H6 d Hd) as [Hn Hm]. split; [done|]. cbn.
    destruct (d =? c)%nat eqn:E; [apply Nat.eqb_eq in E as ->; by apply list_elem_of_In in Hd|done].
  - intros d. cbn. destruct (d =? c)%nat; [by left|apply H7].
Qed.

Definition fresh_heap (h : heap env) : heap env :=
  mkHeap (h_objs h) (h_names h)
    (λ c', if (c' =? h_next h)%nat then mkAttrs None 0 0 else h_attrs h c') (S (h_next h)) (h_env h).

Lemma good_fresh n p f u h : good n p f u h -> good n p f u (fresh_heap h).
Proof.
  intros [H1 H2 H3 H4 H5 H6 H7]. split; try done.
  - eapply Forall_impl; [|exact H6]. intros d [Hd Hm]. split; [cbn; lia|]. cbn.
    by rewrite (proj2 (Nat.eqb_neq _ _)) by lia.
  - intros d. cbn. destruct (d =? h_next h)%nat; [by left|apply H7].
Qed.

Lemma good_next n p f u h : good n p f u h -> (h_next h ∉ f ++ u).
Proof.
  intros [_ _ _ _ _ H6 _] Hc. rewrite Forall_forall in H6.
  apply list_elem_of_In, H6 in Hc as [Hc _]. lia.
Qed.

(** ** Adding *)

(** The part of [add_connection] behind the checks. *)
Lemma append_ends n p f u c h (Q : post nat) :
  good n p f u h -> (c ∉ f ++ u) -> (c < h_next h)%nat -> total (f, u) < p_size p ->
  (∀ h', good n (with_lists (f ++ [c]) u p) (f ++ [c]) u h' -> Q (inr c) h') ->
  ends (upd_conn_attrs c (set_a_pool (Some n));;
        t ← clock;
        upd_conn_attrs c (set_a_last_used t);;
        l ← get_lists n;
        put_lists n (Some (l.1 ++ [c], l.2));;
        mret c) h Q.
Proof.
  intros Hg Hc Hn Ht HQ.
  apply ends_bind, ends_attr, ends_bind, ends_clock. intros e t _. apply ends_bind, ends_attr.
  set (h1 := with_attr c (set_a_last_used t) _).
  assert (Hg1 : good n p f u h1) by (apply good_attr; [by apply good_env, good_mark|done]).
  apply ends_bind. eapply ends_get_lists; [by apply Hg1|by apply Hg1|].
  apply ends_bind. eapply ends_put_lists; [by apply Hg1|by apply Hg1|]. apply ends_ret, HQ. cbn [fst snd].
  assert (Hp : (f ++ [c]) ++ u ≡ₚ c :: (f ++ u))
    by (rewrite <- app_assoc; symmetry; apply Permutation_middle).
  unfold total in Ht. eapply good_lists; [exact Hg1|..]; rewrite Hp.
  - constructor; [done|by apply Hg].
  - cbn in *. lia.
  - constructor; [|by apply Hg1]. split; [done|]. cbn. by rewrite Nat.eqb_refl.
Qed.

Lemma new_ends n p f u h (Q : post nat) :
  good n p f u h ->
  (∀ x h', good n p f u h' -> (∃ e, k_connect (h_next h) (h_env h) = Some (e, inl x)) -> Q (inl x) h') ->
  (∀ h', good n p f u h' -> (h_next h < h_next h')%nat -> (h_next h ∉ f ++ u) -> Q (inr (h_next h)) h') ->
  ends new_connection h Q.
Proof.
  intros Hg Hno Hyes. apply (ends_bind (of_env (k_connect (h_next h))) _ (fresh_heap h)).
  apply ends_env; [apply def_connect|]. intros e [x|[]] E.
  - apply Hno; [by apply good_env, good_fresh|by exists e].
  - apply ends_ret, Hyes; [by apply good_env, good_fresh|cbn; lia|by eapply good_next].
Qed.

Lemma add_ends n p f u arg h (Q : post nat) :
  good n p f u h ->
  match arg with Some c => (c ∉ f ++ u) ∧ (c < h_next h)%nat | None => True end ->
  (∀ x h', good n p f u h' ->
     (p_configured p = true -> total (f, u) < p_size p ->
      ∃ e, k_connect (h_next h) (h_env h) = Some (e, inl x)) -> Q (inl x) h') ->
  (∀ c h', good n (with_lists (f ++ [c]) u p) (f ++ [c]) u h' ->
     (c ∉ f ++ u) -> match arg with Some c' => c = c' | None => c = h_next h end -> Q (inr c) h') ->
  ends (add_connection n arg) h Q.
Proof.
  intros Hg Harg Hno Hyes. unfold add_connection, add_check, add_locked. apply ends_bind, ends_bind.
  eapply ends_the_pool; [by apply Hg|]. destruct (p_configured p) eqn:Ec; cbn [negb].
  2: { apply ends_raise, Hno; [done|discriminate]. }
  apply ends_bind. eapply ends_get_lists; [by apply Hg|by apply Hg|].
  destruct (p_size p <=? total (f, u)) eqn:Es.
  { apply Z.leb_le in Es. apply ends_raise, Hno; [done|lia]. }
  apply Z.leb_gt in Es. apply ends_ret, ends_bind. destruct arg as [c|].
  - apply ends_ret. destruct Harg as [Hc Hn]. apply (append_ends n p f u c); auto.
  - eapply new_ends; [exact Hg|auto|]. intros h' Hg' Hn Hc. apply (append_ends n p f u (h_next h)); auto.
Qed.

(** ** Replacing *)

(** A server that accepts connections, connections that can be closed, and pings
    that fail with an error of the module. *)
Definition healthy : Prop :=
  (∀ c e, ∃ e', k_connect c e = Some (e', inr ())) ∧
  (∀ c e, ∃ e', k_check_closed c e = Some (e', inr ())) ∧
  (∀ c e, ∃ e', k_close c e = Some (e', inr ())) ∧
  (∀ c e e' x, k_ping c e = Some (e', inl x) -> catches Mariadb_Error x = true).

Lemma close_plain_ends c h (Q : post ()) :
  (∀ e x, (healthy -> False) -> Q (inl x) (with_env e h)) -> (∀ e, Q (inr ()) (with_env e h)) ->
  ends (close_plain c) h Q.
Proof.
  intros Hno Hyes. apply ends_bind, ends_env; [apply def_check|]. intros e [x|[]] E.
  - apply Hno. intros (_ & H & _). destruct (H c (h_env h)) as [e' E']. congruence.
  - apply ends_env; [apply def_close|]. intros e2 [x|[]] E2; [|apply Hyes].
    apply Hno. intros (_ & _ & H & _). destruct (H c (h_env (with_env e h))) as [e' E']. congruence.
Qed.

Lemma remove1_both n p f u c h :
  good n p f u h -> c ∈ f ++ u -> f ++ u ≡ₚ [c] ++ (remove1 c f ++ remove1 c u) ∧ (c ∉ remove1 c f ++ remove1 c u).
Proof.
  intros [_ _ _ Hd _ _ _] Hc.
  assert (Hp : f ++ u ≡ₚ [c] ++ (remove1 c f ++ remove1 c u)).
  { apply list.NoDup_app in Hd as (_ & Hd & _). apply elem_of_app in Hc as [Hc|Hc].
    - rewrite (remove1_notin c u) by (by apply Hd). by rewrite (remove1_perm c f Hc) at 1.
    - rewrite (remove1_notin c f) by (intros H; by apply (Hd c)).
      rewrite (remove1_perm c u Hc) at 1. cbn. symmetry. apply Permutation_middle. }
  split; [done|]. rewrite Hp in Hd. by apply NoDup_cons_1_1 in Hd.
Qed.

Lemma remove1_neither f u c : (c ∉ f ++ u) -> remove1 c f = f ∧ remove1 c u = u.
Proof. intros [Hf Hu]%not_elem_of_app. by rewrite !remove1_notin. Qed.

(** The lists without a connection. *)
Lemma leave_ends {A} n p f u c (k : BM env A) h (Q : post A) :
  good n p f u h ->
  (∀ h', good n (with_lists (remove1 c f) (remove1 c u) p) (remove1 c f) (remove1 c u) h' ->
     h_next h' = h_next h -> ends k h' Q) ->
  ends (l ← get_lists n;
        (if bool_decide (c ∈ l.1) then put_lists n (Some (remove1 c l.1, l.2))
         else if bool_decide (c ∈ l.2) then put_lists n (Some (l.1, remove1 c l.2))
         else mret ());; k) h Q.
Proof.
  intros Hg HQ. apply ends_bind. eapply ends_get_lists; [by apply Hg|by apply Hg|]. cbn [fst snd].
  assert (Hin : c ∈ f ++ u -> ∀ l, l = (remove1 c f, remove1 c u) ->
                ends (put_lists n (Some l);; k) h Q).
  { intros Hc l ->. destruct (remove1_both n p f u c h Hg Hc) as [Hp _].
    apply ends_bind. eapply ends_put_lists; [by apply Hg|by apply Hg|]. apply HQ; [by eapply good_sub|done]. }
  pose proof (g_nodup _ _ _ _ _ Hg) as Hd. apply list.NoDup_app in Hd as (_ & Hd & _).
  case_bool_decide as Hf.
  { apply Hin; [apply elem_of_app; by left|]. by rewrite (remove1_notin c u) by (by apply Hd). }
  case_bool_decide as Hu.
  { apply Hin; [apply elem_of_app; by right|]. by rewrite (remove1_notin c f). }
  destruct (remove1_neither f u c) as [Ef Eu]; [by apply not_elem_of_app|].
  apply ends_bind, ends_ret, HQ; [|done]. rewrite Ef, Eu. destruct Hg as [H1 H2 H3 H4 H5 H6 H7].
  assert (with_lists f u p = p) as -> by (destruct p; cbn in *; by subst). by split.
Qed.

Lemma replace_ends n p f u c h (Q : post nat) :
  good n p f u h ->
  (∀ x h', good n (with_lists (remove1 c f) (remove1 c u) p) (remove1 c f) (remove1 c u) h' ->
     (healthy -> p_configured p = true -> c ∈ f ++ u -> False) -> Q (inl x) h') ->
  (∀ c' h', good n (with_lists (remove1 c f ++ [c']) (remove1 c u) p) (remove1 c f ++ [c']) (remove1 c u) h' ->
     (c' ∉ remove1 c f ++ remove1 c u) -> c' = h_next h -> Q (inr c') h') ->
  ends (replace_connection n c) h Q.
Proof.
  intros Hg Hno Hyes. unfold replace_connection.
  assert (Hc : c ∉ remove1 c f ++ remove1 c u).
  { destruct (decide (c ∈ f ++ u)) as [Hc|Hc]; [by apply (remove1_both n p f u c h Hg)|].
    by destruct (remove1_neither f u c Hc) as [-> ->]. }
  assert (Hlt : c ∈ f ++ u -> total (remove1 c f, remove1 c u) < p_size p).
  { intros Hin. destruct (remove1_both n p f u c h Hg Hin) as [Hp _]. apply Permutation_length in Hp.
    pose proof (g_size _ _ _ _ _ Hg). unfold total. cbn in *. lia. }
  apply (leave_ends n p f u c); [done|]. intros h1 Hg1 Hnext.
  apply ends_bind, ends_attr. apply (good_unmark _ _ _ _ _ c) in Hg1; [|done].
  apply ends_bind, close_plain_ends.
  - intros e x Hh. apply Hno; [by apply good_env|auto].
  - intros e. apply (good_env _ _ _ _ _ e) in Hg1.
    eapply add_ends; [exact Hg1|done|..].
    + intros x h' Hg' Hx. apply Hno; [done|]. intros (Hcon & _) Hconf Hin.
      destruct Hx as [e' E]; [done|by apply Hlt|]. destruct (Hcon (h_next (with_env e (with_attr c (set_a_pool None) h1)))
        (h_env (with_env e (with_attr c (set_a_pool None) h1)))) as [e'' E']. congruence.
    + intros c' h' Hg' Hn ->. by apply Hyes.
Qed.

(** ** Taking a connection *)

Lemma remove1_last c l : (c ∉ l) -> remove1 c (l ++ [c]) = l.
Proof.
  induction l as [|d l IH]; cbn; [by rewrite Nat.eqb_refl|]. intros [Hn Hl]%not_elem_of_cons.
  rewrite (proj2 (Nat.eqb_neq _ _)) by done. by rewrite IH.
Qed.

Lemma take_ends n p f u c h (Q : post nat) :
  good n p f u h -> c ∈ f ->
  (∀ h', good n (with_lists (remove1 c f) (u ++ [c]) p) (remove1 c f) (u ++ [c]) h' -> Q (inr c) h') ->
  ends (take_connection n c) h Q.
Proof.
  intros Hg Hc HQ. unfold take_connection. apply ends_bind, ends_attr.
  set (h1 := with_attr c _ h). assert (Hg1 : good n p f u h1) by (by apply good_attr).
  apply ends_bind. eapply ends_get_lists; [by apply Hg1|by apply Hg1|]. cbn [fst snd].
  apply ends_bind. eapply ends_put_lists; [by apply Hg1|by apply Hg1|].
  rewrite bool_decide_eq_true_2 by done. apply ends_bind.
  eapply ends_put_lists; [cbn; by rewrite lookup_insert_eq|by apply Hg1|]. apply ends_ret, HQ.
  assert (Hp : f ++ u ≡ₚ [] ++ (remove1 c f ++ u ++ [c])).
  { rewrite (remove1_perm c f Hc) at 1. cbn. rewrite (assoc_L (++)). symmetry.
    rewrite (Permutation_app_comm _ [c]). done. }
  pose proof (good_sub n p f u (remove1 c f) (u ++ [c]) [] h1 Hg1 Hp) as [H1 H2 H3 H4 H5 H6 H7].
  split; try done. cbn. by rewrite lookup_insert_eq.
Qed.

Lemma validate_ends n p f u c h (Q : post nat) :
  good n p (c :: f) u h ->
  (∀ c' h' p' f', good n p' f' u h' -> c' ∈ f' -> remove1 c' f' = f -> p' = with_lists f' u p ->
     (c' = c ∨ (c' ∉ f ++ u)) -> Q (inr c') h') ->
  (∀ x h' f', good n (with_lists f' u p) f' u h' -> (f' = c :: f ∨ f' = f) ->
     (healthy -> p_configured p = true -> False) -> Q (inl x) h') ->
  ends (validate n c) h Q.
Proof.
  intros Hg Hyes Hno.
  assert (Hsame : with_lists (c :: f) u p = p) by (pose proof (g_lists _ _ _ _ _ Hg); destruct p; cbn in *; by subst).
  assert (Hkeep : ∀ h', good n p (c :: f) u h' -> Q (inr c) h').
  { intros h' Hg'. eapply Hyes; [exact Hg'|apply elem_of_cons; by left|cbn; by rewrite Nat.eqb_refl|done|by left]. }
  assert (Hu : remove1 c u = u).
  { apply remove1_notin. pose proof (g_nodup _ _ _ _ _ Hg) as Hd. cbn in Hd.
    apply NoDup_cons_1_1 in Hd. by apply not_elem_of_app in Hd as [_ Hd]. }
  unfold validate. apply ends_bind. eapply ends_the_pool; [by apply Hg|].
  apply ends_bind, ends_clock. intros e t _. apply ends_bind, ends_attrs.
  apply (good_env _ _ _ _ _ e) in Hg.
  destruct (stale p _ t); [|by apply ends_ret, Hkeep].
  apply ends_except, ends_bind, ends_env; [apply def_ping|]. intros e2 [x|[]] E.
  2: { apply ends_ret, Hkeep. by apply good_env. }
  apply (good_env _ _ _ _ _ e2) in Hg. destruct (catches Mariadb_Error x) eqn:Ex.
  - assert (Hrc : remove1 c (c :: f) = f) by (cbn; by rewrite Nat.eqb_refl).
    eapply replace_ends; [exact Hg|..]; rewrite Hu, Hrc.
    + intros x' h' Hg' Hx. eapply Hno; [exact Hg'|by right|]. intros H1 H2. apply Hx; [done..|].
      apply elem_of_app; left. apply elem_of_cons; by left.
    + intros c' h' Hg' Hn _. eapply Hyes; [exact Hg'|apply elem_of_app; right; by apply list_elem_of_singleton|
        apply remove1_last; by apply not_elem_of_app in Hn as [Hn _]|done|by right].
  - eapply (Hno _ _ (c :: f)); [by rewrite Hsame|by left|]. intros (_ & _ & _ & H) _.
    by rewrite (H _ _ _ _ E) in Ex.
Qed.

Lemma get_ends n p f u h (Q : post nat) :
  good n p f u h ->
  (f = [] -> Q (inl (PoolError "No connection available")) h) ->
  (∀ c f1, f = c :: f1 -> ∀ c' h', good n (with_lists f1 (u ++ [c']) p) f1 (u ++ [c']) h' ->
     (c' = c ∨ (c' ∉ f1 ++ u)) -> Q (inr c') h') ->
  (∀ c f1, f = c :: f1 -> ∀ x h' f', good n (with_lists f' u p) f' u h' -> (f' = f ∨ f' = f1) ->
     (healthy -> p_configured p = true -> False) -> Q (inl x) h') ->
  ends (get_connection n) h Q.
Proof.
  intros Hg Hempty Hyes Hno. unfold get_connection. apply ends_bind.
  eapply ends_get_lists; [by apply Hg|by apply Hg|]. destruct f as [|c f]; cbn [fst length get_loop].
  { apply ends_raise. by apply Hempty. }
  apply ends_bind. eapply ends_get_lists; [by apply Hg|by apply Hg|]. cbn [fst lookup list_lookup].
  apply ends_bind. eapply validate_ends; [exact Hg|..].
  - intros c' h' p' f' Hg' Hin Hrem -> Hc'. eapply take_ends; [exact Hg'|done|]. rewrite Hrem.
    intros h2 Hg2. by eapply (Hyes c f).
  - intros x h' f' Hg' Hf' Hh. by eapply (Hno c f).
Qed.

(** ** Returning a connection *)

Lemma tidy_ends p c h (Q : post ()) :
  (∀ e r, tidy p c h = Some (with_env e h, r) -> Q r (with_env e h)) -> ends (tidy p c) h Q.
Proof.
  intros HQ.
  assert (H : ends (tidy p c) h (λ r h', ∃ e, h' = with_env e h)).
  { unfold tidy. destruct (p_reset_connection p).
    - apply ends_env; [apply def_reset|]. intros e r _. by exists e.
    - apply ends_bind, ends_env; [apply def_status|]. intros e [x|z] _; [by exists e|].
      destruct (_ =? 0); [apply ends_ret; by exists e|].
      apply ends_env; [apply def_rollback|]. intros e2 r _. by exists e2. }
  destruct H as (h' & r & E & e & ->). exists (with_env e h), r. auto.
Qed.

Lemma give_back_ends n p f u c h (Q : post ()) :
  good n p f u h ->
  (∀ h', c ∈ u -> good n (with_lists (f ++ [c]) (remove1 c u) p) (f ++ [c]) (remove1 c u) h' -> Q (inr ()) h') ->
  ((c ∉ u) -> Q (inr ()) h) ->
  ends (l ← get_lists n;
        if bool_decide (c ∈ l.2) then
          put_lists n (Some (l.1, remove1 c l.2));;
          t ← clock;
          upd_conn_attrs c (set_a_last_used t);;
          l ← get_lists n;
          put_lists n (Some (l.1 ++ [c], l.2))
        else mret ()) h Q.
Proof.
  intros Hg Hin Hout. apply ends_bind. eapply ends_get_lists; [by apply Hg|by apply Hg|]. cbn [fst snd].
  case_bool_decide as Hc; [|apply ends_ret; auto].
  apply ends_bind. eapply ends_put_lists; [by apply Hg|by apply Hg|].
  apply ends_bind, ends_clock. intros e t _. apply ends_bind, ends_attr.
  apply ends_bind. eapply ends_get_lists; [cbn; by rewrite lookup_insert_eq|done|]. cbn [fst snd].
  eapply ends_put_lists; [cbn; by rewrite lookup_insert_eq|by apply Hg|]. apply Hin; [done|].
  assert (Hp : f ++ u ≡ₚ [] ++ ((f ++ [c]) ++ remove1 c u)).
  { rewrite (remove1_perm c u Hc) at 1. cbn. by rewrite <- app_assoc. }
  assert (Hg1 : good n p f u (with_attr c (set_a_last_used t) (with_env e h)))
    by (apply good_attr; [by apply good_env|done]).
  pose proof (good_sub n p f u _ _ [] _ Hg1 Hp) as [H1 H2 H3 H4 H5 H6 H7].
  split; try done. cbn. by rewrite lookup_insert_eq.
Qed.

(** The three ways a connection comes back: tidied up, replaced because that
    failed with an error of the module, or not at all because of another
    exception. *)
Lemma close_connection_ends n p f u c h (Q : post ()) :
  good n p f u h ->
  (∀ h' e, tidy p c h = Some (with_env e h, inr ()) -> c ∈ u ->
     good n (with_lists (f ++ [c]) (remove1 c u) p) (f ++ [c]) (remove1 c u) h' -> Q (inr ()) h') ->
  (∀ e, tidy p c h = Some (with_env e h, inr ()) -> (c ∉ u) -> Q (inr ()) (with_env e h)) ->
  (∀ e x h', tidy p c h = Some (with_env e h, inl x) -> catches Mariadb_Error x = true ->
     good n (with_lists (remove1 c f ++ [h_next h]) (remove1 c u) p) (remove1 c f ++ [h_next h]) (remove1 c u) h' ->
     Q (inr ()) h') ->
  (∀ e x x' h', tidy p c h = Some (with_env e h, inl x) -> catches Mariadb_Error x = true ->
     good n (with_lists (remove1 c f) (remove1 c u) p) (remove1 c f) (remove1 c u) h' ->
     (healthy -> p_configured p = true -> c ∈ f ++ u -> False) -> Q (inl x') h') ->
  (∀ e x, tidy p c h = Some (with_env e h, inl x) -> catches Mariadb_Error x = false ->
     Q (inl x) (with_env e h)) ->
  ends (close_connection n c) h Q.
Proof.
  intros Hg Hback Hout Hrepl Hlost Hraise. unfold close_connection. apply ends_bind.
  eapply ends_the_pool; [by apply Hg|]. apply ends_bind, ends_except, tidy_ends.
  intros e [x|[]] E.
  - destruct (catches Mariadb_Error x) eqn:Ex; [|by eapply Hraise].
    apply (good_env _ _ _ _ _ e) in Hg. apply ends_bind. eapply replace_ends; [exact Hg|..].
    + intros x' h' Hg' Hbad. by eapply Hlost.
    + intros c' h' Hg' Hn ->. apply ends_ret. eapply give_back_ends; [exact Hg'|..].
      { intros h2 Hc. destruct (decide (c ∈ f ++ u)) as [Hin|Hin].
        - destruct (remove1_both _ _ _ _ _ _ Hg Hin) as [_ Hn2]. by apply not_elem_of_app in Hn2 as [_ Hn2].
        - destruct (remove1_neither f u c Hin) as [_ Hu]. rewrite Hu in Hc.
          by apply not_elem_of_app in Hin as [_ Hin]. }
      intros _. by eapply Hrepl.
  - apply (good_env _ _ _ _ _ e) in Hg. eapply give_back_ends; [exact Hg|..].
    + intros h' Hc Hg'. by eapply Hback.
    + intros Hc. by apply Hout.
Qed.

(** ** The operations keep the invariant *)

Definition sized (p : pool) : Prop := 0 < p_size p <= MAX_POOL_SIZE.

(** A closed pool has no lists. *)
Record closed_pool (n : string) (p : pool) (h : heap env) : Prop := mkClosed {
  cl_obj : h_objs h !! n = Some p;
  cl_name : p_name p = n;
  cl_lists : p_lists p = None;
  cl_marks : ∀ c, a_pool (h_attrs h c) = None ∨ a_pool (h_attrs h c) = Some n;
}.

Definition pool_ok (n : string) (h : heap env) : Prop :=
  ∃ p, sized p ∧ ((∃ f u, good n p f u h) ∨ closed_pool n p h).

Lemma ends_holds {A} (m : BM env A) h h' r (P : heap env -> Prop) :
  m h = Some (h', r) -> ends m h (λ _, P) -> P h'.
Proof. intros E (h2 & r2 & E2 & HP). congruence. Qed.

Lemma ok_good n p f' u' h : sized p -> good n (with_lists f' u' p) f' u' h -> pool_ok n h.
Proof. intros Hs Hg. exists (with_lists f' u' p). split; [done|]. left. by exists f', u'. Qed.

Lemma ok_env n h e : pool_ok n h -> pool_ok n (with_env e h).
Proof.
  intros (p & Hs & [(f & u & Hg)|[H1 H2 H3 H4]]); exists p; (split; [done|]).
  - left. exists f, u. by apply good_env.
  - by right.
Qed.

Lemma ok_names n h ns :
  pool_ok n h -> pool_ok n (mkHeap (h_objs h) ns (h_attrs h) (h_next h) (h_env h)).
Proof.
  intros (p & Hs & [(f & u & [])|[]]); exists p; (split; [done|]); [left; by exists f, u|by right].
Qed.

(** The methods of a closed pool raise. *)
Lemma closed_lists n p h (Q : post (list nat * list nat)) :
  closed_pool n p h -> Q (inl (Builtin "TypeError")) h -> ends (get_lists n) h Q.
Proof.
  intros [H1 H2 H3 H4] HQ. eexists h, _. split; [|exact HQ].
  unfold get_lists, mbind, BM_bind, the_pool. rewrite H1. cbn. by rewrite H3.
Qed.

Lemma add_ok n arg h :
  pool_ok n h ->
  (∀ c p f u, arg = Some c -> h_objs h !! n = Some p -> p_lists p = Some (f, u) ->
     (c ∉ f ++ u) ∧ (c < h_next h)%nat) ->
  ends (add_connection n arg) h (λ _ h', pool_ok n h').
Proof.
  intros (p & Hs & [(f & u & Hg)|Hc]) Harg.
  - eapply add_ends; [exact Hg|..].
    + destruct arg as [c|]; [|done]. by eapply Harg; [|apply Hg|apply Hg].
    + intros x h' Hg' _. exists p. split; [done|]. left. by exists f, u.
    + intros c h' Hg' _ _. by eapply ok_good.
  - unfold add_connection, add_check. apply ends_bind, ends_bind. eapply ends_the_pool; [by apply Hc|].
    assert (pool_ok n h) by (exists p; by eauto).
    destruct (p_configured p); cbn [negb]; [|by apply ends_raise].
    apply ends_bind. by eapply closed_lists.
Qed.

Lemma new_connection_ok n h : pool_ok n h -> ends new_connection h (λ _ h', pool_ok n h').
Proof.
  intros Hok. unfold new_connection.
  assert (Hf : pool_ok n (fresh_heap h)).
  { destruct Hok as (p & Hs & [(f & u & Hg)|[H1 H2 H3 H4]]); exists p; (split; [done|]).
    - left. exists f, u. by apply good_fresh.
    - right. split; try done. intros c. cbn. destruct (_ =? _)%nat; [by left|apply H4]. }
  apply (ends_bind (of_env (k_connect (h_next h))) _ (fresh_heap h)).
  apply ends_env; [apply def_connect|]. intros e [x|[]] _; [by apply ok_env|].
  apply ends_ret. by apply ok_env.
Qed.

Lemma get_ok n h : pool_ok n h -> ends (get_connection n) h (λ _ h', pool_ok n h').
Proof.
  intros Hok. pose proof Hok as (p & Hs & [(f & u & Hg)|Hc]).
  - eapply get_ends; [exact Hg|done|..].
    + intros c f1 -> c' h' Hg' _. by eapply ok_good.
    + intros c f1 -> x h' f' Hg' _ _. by eapply ok_good.
  - unfold get_connection. apply ends_bind. by eapply closed_lists.
Qed.

Lemma close_connection_ok n c h : pool_ok n h -> ends (close_connection n c) h (λ _ h', pool_ok n h').
Proof.
  intros Hok. pose proof Hok as (p & Hs & [(f & u & Hg)|Hc]).
  - eapply close_connection_ends; [exact Hg|..]; intros; [by eapply ok_good|by apply ok_env|by eapply ok_good..|].
    by apply ok_env.
  - unfold close_connection. apply ends_bind. eapply ends_the_pool; [by apply Hc|].
    assert (Hce : ∀ e, closed_pool n p (with_env e h)) by (intros e; by destruct Hc).
    apply ends_bind, ends_except, tidy_ends. intros e [x|[]] _.
    + destruct (catches _ _); [|by apply ok_env]. apply ends_bind. unfold replace_connection. apply ends_bind.
      eapply closed_lists; [apply Hce|by apply ok_env].
    + apply ends_bind. eapply closed_lists; [apply Hce|by apply ok_env].
Qed.

Lemma marks_of n h : pool_ok n h -> ∀ c, a_pool (h_attrs h c) = None ∨ a_pool (h_attrs h c) = Some n.
Proof. intros (p & _ & [(f & u & [])|[]]); done. Qed.

Lemma conn_close_ok n c h : pool_ok n h -> ends (pooled_close c) h (λ _ h', pool_ok n h').
Proof.
  intros Hok. unfold pooled_close. apply ends_bind, ends_env; [apply def_check|].
  intros e [x|[]] _; [by apply ok_env|]. apply ends_bind, ends_attrs.
  destruct (marks_of n _ Hok c) as [E|E]; cbn [with_env h_attrs]; rewrite E.
  - apply ends_env; [apply def_close|]. intros e2 r _. by apply ok_env, ok_env.
  - by apply close_connection_ok, ok_env.
Qed.

(** Closing every connection changes attributes and the environment. *)
Lemma close_all_ends n cs h (Q : post ()) :
  (∀ r h', h_objs h' = h_objs h ->
     ((∀ c, a_pool (h_attrs h c) = None ∨ a_pool (h_attrs h c) = Some n) ->
      ∀ c, a_pool (h_attrs h' c) = None ∨ a_pool (h_attrs h' c) = Some n) -> Q r h') ->
  ends (close_all cs) h Q.
Proof.
  revert h. induction cs as [|c cs IH]; intros h HQ; cbn [close_all]; [by apply ends_ret, HQ|].
  apply ends_bind, ends_attr.
  assert (Hm : (∀ c, a_pool (h_attrs h c) = None ∨ a_pool (h_attrs h c) = Some n) ->
     ∀ d, a_pool (h_attrs (with_attr c (set_a_pool None) h) d) = None ∨
          a_pool (h_attrs (with_attr c (set_a_pool None) h) d) = Some n).
  { intros H d. cbn. destruct (d =? c)%nat; [by left|apply H]. }
  apply ends_bind, close_plain_ends.
  - intros e x _. by apply HQ.
  - intros e. apply IH. intros r h' Ho Hr. apply HQ; [by rewrite Ho|]. intros H. by apply Hr, Hm.
Qed.

Lemma ends_unregister n h (Q : post ()) :
  (∀ r ns, Q r (mkHeap (h_objs h) ns (h_attrs h) (h_next h) (h_env h))) -> ends (unregister n) h Q.
Proof.
  intros HQ. unfold unregister. apply ends_bind. exists h, (inr (h_names h)). split; [done|].
  destruct (bool_decide _); [by eexists _, _|]. apply ends_raise. destruct h. apply HQ.
Qed.

Lemma pool_close_ok n h : pool_ok n h -> ends (pool_close n) h (λ _ h', pool_ok n h').
Proof.
  intros Hok. pose proof Hok as (p & Hs & Hp).
  assert (Hobj : h_objs h !! n = Some p ∧ p_name p = n) by (destruct Hp as [(f & u & [])|[]]; done).
  assert (Hfin : ∀ h1, h_objs h1 = h_objs h ->
     (∀ c, a_pool (h_attrs h1 c) = None ∨ a_pool (h_attrs h1 c) = Some n) ->
     ends (put_lists n None;; unregister n) h1 (λ _ h', pool_ok n h')).
  { intros h1 Ho Hm. apply ends_bind. eapply ends_put_lists; [rewrite Ho; apply Hobj|apply Hobj|].
    set (h2 := with_pool n _ h1).
    assert (Hok2 : pool_ok n h2).
    { exists (set_lists None p). split; [done|]. right. split; [cbn; by rewrite lookup_insert_eq|apply Hobj|done|done]. }
    apply ends_unregister. intros r ns. by apply ok_names. }
  assert (Hb : ends (l ← get_lists n; close_all (l.1 ++ l.2)) h (λ r h1, h_objs h1 = h_objs h ∧
     (∀ c, a_pool (h_attrs h1 c) = None ∨ a_pool (h_attrs h1 c) = Some n))).
  { apply ends_bind. pose proof (marks_of n h Hok) as Hm. destruct Hp as [(f & u & Hg)|Hc].
    - eapply ends_get_lists; [by apply Hg|by apply Hg|]. apply (close_all_ends n). intros r h' Ho Hr. auto.
    - eapply closed_lists; [exact Hc|]. done. }
  destruct Hb as (h1 & r1 & E1 & Ho & Hm). destruct (Hfin h1 Ho Hm) as (h2 & r2 & E2 & Hok2).
  exists h2, (match r2 with inl x => inl x | inr _ => r1 end). split; [|done].
  unfold pool_close, b_finally. rewrite E1. cbn. by rewrite E2.
Qed.

Lemma set_config_ok n given h : pool_ok n h -> ends (set_config n given) h (λ _ h', pool_ok n h').
Proof.
  intros (p & Hs & Hp).
  assert (Hobj : h_objs h !! n = Some p ∧ p_name p = n) by (destruct Hp as [(f & u & [])|[]]; done).
  destruct Hobj as [Hobj Hn]. apply ends_bind. eapply ends_the_pool; [exact Hobj|].
  set (q := mkPool _ _ _ _ _ _).
  exists (with_pool n q h), (inr ()). split; [unfold put_pool; cbn; by rewrite Hn|].
  assert (Hq : h_objs (with_pool n q h) !! n = Some q) by (cbn; by rewrite lookup_insert_eq).
  exists q. split; [exact Hs|]. destruct Hp as [(f & u & [])|[]]; [left; exists f, u|right]; by split.
Qed.

(** The connection taken last: used once, not free, the pool's. *)
Lemma used_last n p f u d h :
  good n p f (u ++ [d]) h ->
  (d ∉ u) ∧ (d ∉ f) ∧ a_pool (h_attrs h d) = Some n ∧ (d < h_next h)%nat.
Proof.
  intros [_ _ _ Hd _ Hm _]. rewrite Forall_forall in Hm.
  assert (Hin : d ∈ u ++ [d]) by (apply elem_of_app; right; by apply list_elem_of_singleton).
  destruct (Hm d) as [Hlt Hp]; [apply list_elem_of_In, elem_of_app; by right|].
  apply list.NoDup_app in Hd as (_ & Hdis & Hd). apply list.NoDup_app in Hd as (_ & Hd & _).
  split_and!; [|by intros Hf; apply (Hdis d)|done..].
  intros Hu. apply (Hd d Hu). by apply list_elem_of_singleton.
Qed.



(** ** Creating a pool *)

Lemma ends_reraise {A} (m : BM env A) handler h (Q : post A) :
  ends m h (λ r h', match r with inr a => Q (inr a) h' | inl _ => False end) ->
  ends (b_reraise m handler) h Q.
Proof. intros (h1 & [x|a] & E & HQ); [done|]. exists h1, (inr a). unfold b_reraise. by rewrite E. Qed.

Lemma fill_ends n k p f h (Q : post ()) :
  good n p f [] h -> p_configured p = true -> healthy -> Z.of_nat (length f + k) <= p_size p ->
  (∀ h' f', good n (with_lists f' [] p) f' [] h' -> length f' = (length f + k)%nat -> Q (inr ()) h') ->
  ends (fill_pool n k) h Q.
Proof.
  revert p f h. induction k as [|k IH]; intros p f h Hg Hconf Hup Hs HQ; cbn [fill_pool].
  { apply ends_ret, (HQ _ f); [|lia].
    assert (with_lists f [] p = p) as -> by (pose proof (g_lists _ _ _ _ _ Hg); destruct p; cbn in *; by subst).
    done. }
  pose proof Hup as (Hcon & _).
  apply ends_bind, ends_reraise. eapply new_ends; [exact Hg|..].
  { intros x h' _ [e E]. destruct (Hcon (h_next h) (h_env h)) as [e' E']. congruence. }
  intros h1 Hg1 Hn Hc. apply ends_bind. eapply add_ends; [exact Hg1|done|..].
  { intros x h' _ Hx. destruct Hx as [e E]; [done|unfold total; cbn; rewrite app_nil_r; lia|].
    destruct (Hcon (h_next h1) (h_env h1)) as [e' E']. congruence. }
  intros c h2 Hg2 _ _. eapply IH; [exact Hg2|done|done|rewrite length_app; cbn; lia|].
  intros h' f' Hg' Hl. apply (HQ h' f'); [done|]. rewrite Hl, length_app. cbn. lia.
Qed.


End Pool.

(** ** Connections that answer as a script says *)

(** The clock, and the connections that have been closed. *)
Definition script_env : Type := Z * list nat.

Definition script_error : pyexn := exn_of Mariadb_OperationalError "server has gone away".

(** The numbers of the connections that cannot be made, that do not answer and
    that cannot be closed. *)
Definition script (unmade silent stuck : nat -> bool) : Connections script_env := {|
  k_connect c e := Some (e, if unmade c then inl script_error else inr ());
  k_check_closed c e := Some (e, inr ());
  k_ping c e := Some (e, if silent c then inl script_error else inr ());
  k_reset c e := Some (e, if silent c then inl script_error else inr ());
  k_rollback c e := Some (e, inr ());
  k_server_status c e := Some (e, inr 0);
  k_close c e := if stuck c then Some (e, inl script_error) else Some ((e.1, e.2 ++ [c]), inr ());
  k_clock e := ((e.1 + 600000000, e.2), e.1);
|}.

Definition nobody : nat -> bool := λ _, false.
Definition only (c : nat) : nat -> bool := λ d, (d =? c)%nat.

Lemma script_defined unmade silent stuck : Defined_steps (K := script unmade silent stuck).
Proof. split; intros; cbn; try (by eexists). destruct (stuck c); by eexists. Qed.

Lemma script_healthy silent : healthy (K := script nobody silent nobody).
Proof.
  unfold healthy. split_and!; [intros c e; by eexists..|]. intros c e e' x. cbn. destruct (silent c); [|done]. by intros [= _ <-].
Qed.

Definition demo_pool (lists : list nat * list nat) : pool :=
  mkPool "p" 3 true 500 true (Some lists).

(** Three connections, of which the third is used. *)
Definition demo_heap : heap script_env :=
  mkHeap {["p" := demo_pool ([0; 1]%nat, [2]%nat)]} {["p"]} (λ c, if (c <? 3)%nat then mkAttrs (Some "p") 0 0 else mkAttrs None 0 0)
    3 (1000000000, []).

Lemma demo_good : good "p" (demo_pool ([0; 1]%nat, [2]%nat)) [0; 1]%nat [2]%nat demo_heap.
Proof.
  split; try done.
  - apply (bool_decide_unpack _). by vm_compute.
  - by repeat constructor.
  - intros c. unfold demo_heap, h_attrs. destruct (c <? 3)%nat; [by right|by left].
Qed.

Definition heap_after {A} (r : option (heap script_env * A)) : heap script_env :=
  match r with Some (h, _) => h | None => demo_heap end.

Definition broken_first : Connections script_env := script nobody (only 0) nobody.



Definition empty_heap : heap script_env := mkHeap ∅ ∅ (λ _, mkAttrs None 0 0) 0 (0, []).

Definition demo_kwargs : pool_kwargs := mkPoolKwargs (Some "p"%string) 3 true 500 true.


(** ** Where the pool goes wrong *)

Definition lists_of (n : string) {A} (r : option (heap script_env * A)) : option (option (list nat * list nat)) :=
  '(h, _) ← r; p_lists <$> h_objs h !! n.

(** When the third connection of a new pool cannot be made, the loop that
    should close the others shortens the list it indexes: the application gets
    an [IndexError] in place of the error, and as the connections belong to the
    pool already, closing one only resets it. *)
Lemma init_failure_masked :
  let r := pool_init (K := script (only 2) nobody nobody) demo_kwargs empty_heap in
  snd <$> r = Some (inl (Builtin "IndexError")) ∧ lists_of "p" r = Some (Some ([1], [])%nat) ∧
  (λ hr, (h_env hr.1).2) <$> r = Some [].
Proof. split_and!; vm_compute; reflexivity. Qed.

(** When a broken connection cannot be replaced the pool loses it. *)
Lemma failed_replacement_shrinks :
  let r := get_connection (K := script (only 3) (only 0) nobody) "p" demo_heap in
  snd <$> r = Some (inl script_error) ∧ lists_of "p" r = Some (Some ([1], [2])%nat).
Proof. split; vm_compute; reflexivity. Qed.

(** An error while the pool is closed leaves the connections behind it open. *)
Lemma close_stops_at_error :
  let r := pool_close (K := script nobody nobody (only 1)) "p" demo_heap in
  snd <$> r = Some (inl script_error) ∧ lists_of "p" r = Some None ∧
  (λ hr, (h_env hr.1).2) <$> r = Some [0%nat].
Proof. split_and!; vm_compute; reflexivity. Qed.

(** [add_connection] takes a connection that the pool has already. *)
Lemma add_connection_twice :
  let K := script nobody nobody nobody in
  let h := mkHeap {["p" := demo_pool ([0]%nat, [])]} {["p"]} (λ c, mkAttrs (Some "p"%string) 0 0) 1 (0, []) in
  lists_of "p" (add_connection (K := K) "p" (Some 0%nat) h) = Some (Some ([0; 0], [])%nat).
Proof. by vm_compute. Qed.

(** The size is checked before the lock is taken: two threads that both pass
    the check make the pool larger than its size. *)
Lemma add_connection_race :
  let K := script nobody nobody nobody in
  let h := mkHeap {["p" := demo_pool ([0; 1]%nat, [])]} {["p"]} (λ c, mkAttrs (Some "p"%string) 0 0) 2 (0, []) in
  lists_of "p" ((add_check "p";; add_check "p";;
                 add_locked (K := K) "p" None;; add_locked (K := K) "p" None) h)
  = Some (Some ([0; 1; 2; 3], [])%nat).
Proof. by vm_compute. Qed.
