(* ===== verification/PoolHistories.v ===== *)
(** * Histories of a connection pool

    What holds after every sequence of calls, one at a time, on one pool: the
    bound on the number of its connections, whatever connections the application
    hands over, and the whole invariant of [PoolProps] when it only hands over
    connections that belong to no pool. *)

From stdpp Require Import gmap strings.
From S2P Require Import Prelude Values Exceptions Python Pool PoolProps.

Section Histories.

Context {env : Type} `{K : !Connections env} `{D : !Defined_steps}.

(** ** The bound *)

(** The part of the invariant that also holds when a connection is in the lists
    twice. *)
Record bounded (n : string) (p : pool) (f u : list nat) (h : heap env) : Prop := mkBounded {
  b_obj : h_objs h !! n = Some p;
  b_name : p_name p = n;
  b_lists : p_lists p = Some (f, u);
  b_sized : sized p;
  b_size : Z.of_nat (length (f ++ u)) <= p_size p;
  b_marks : ∀ c, a_pool (h_attrs h c) = None ∨ a_pool (h_attrs h c) = Some n;
}.

Definition within (n : string) (h : heap env) : Prop :=
  (∃ p f u, bounded n p f u h) ∨ (∃ p, sized p ∧ closed_pool n p h).

(** What an operation on an open pool leaves; a connection it returns is free. *)
Definition leaves (n : string) (r : pyexn + nat) (h : heap env) : Prop :=
  ∃ p f u, bounded n p f u h ∧ ∀ c, r = inr c -> c ∈ f.

Lemma within_ok n h : pool_ok n h -> within n h.
Proof. intros (p & Hs & [(f & u & [])|Hc]); [left; by exists p, f, u|right; by exists p]. Qed.

Lemma leaves_within n r h : leaves n r h -> within n h.
Proof. intros (p & f & u & H & _). left. by exists p, f, u. Qed.

Lemma within_marks n h : within n h -> ∀ c, a_pool (h_attrs h c) = None ∨ a_pool (h_attrs h c) = Some n.
Proof. intros [(p & f & u & [])|(p & _ & [])]; done. Qed.

Lemma bounded_env n p f u h e : bounded n p f u h -> bounded n p f u (with_env e h).
Proof. by intros []. Qed.

Lemma within_env n h e : within n h -> within n (with_env e h).
Proof.
  intros [(p & f & u & H)|(p & Hs & [])]; [left; exists p, f, u; by apply bounded_env|right].
  exists p. by split.
Qed.

(** Attributes may change as long as the marks stay the pool's. *)
Lemma bounded_attr n p f u h c g :
  bounded n p f u h -> (∀ a, a_pool (g a) = a_pool a ∨ a_pool (g a) = None ∨ a_pool (g a) = Some n) ->
  bounded n p f u (with_attr c g h).
Proof.
  intros [H1 H2 H3 H4 H5 H6] Hg. split; try done. intros d. cbn. destruct (d =? c)%nat; [|apply H6].
  destruct (Hg (h_attrs h d)) as [-> |[-> | ->]]; [apply H6|by left|by right].
Qed.

Lemma bounded_lists n p f u f' u' h :
  bounded n p f u h -> Z.of_nat (length (f' ++ u')) <= p_size p ->
  bounded n (with_lists f' u' p) f' u' (with_pool n (with_lists f' u' p) h).
Proof. intros [H1 H2 H3 H4 H5 H6] Hs. split; try done. cbn. by rewrite lookup_insert_eq. Qed.

Lemma bounded_fresh n p f u h : bounded n p f u h -> bounded n p f u (fresh_heap h).
Proof.
  intros [H1 H2 H3 H4 H5 H6]. split; try done. intros d. cbn. destruct (_ =? _)%nat; [by left|apply H6].
Qed.

Lemma leaves_raised n p f u x h : bounded n p f u h -> leaves n (inl x) h.
Proof. intros H. by exists p, f, u. Qed.

Lemma length_remove1 c l : c ∈ l -> length l = S (length (remove1 c l)).
Proof. intros H. by rewrite (Permutation_length (remove1_perm c l H)) at 1. Qed.

(** ** The operations on an open pool *)

Lemma add_bound n p f u arg h :
  bounded n p f u h -> ends (add_connection n arg) h (leaves n).
Proof.
  intros Hb. unfold add_connection, add_check, add_locked. apply ends_bind, ends_bind.
  eapply ends_the_pool; [by apply Hb|]. destruct (p_configured p); cbn [negb].
  2: { by eapply ends_raise, leaves_raised. }
  apply ends_bind. eapply ends_get_lists; [by apply Hb|by apply Hb|].
  destruct (Z.leb_spec (p_size p) (total (f, u))) as [Hs|Hs]; [by eapply ends_raise, leaves_raised|].
  assert (Happ : ∀ c h1, bounded n p f u h1 ->
    ends (upd_conn_attrs c (set_a_pool (Some n));; t ← clock; upd_conn_attrs c (set_a_last_used t);;
          l ← get_lists n; put_lists n (Some (l.1 ++ [c], l.2));; mret c) h1 (leaves n)).
  { intros c h1 H1. apply ends_bind, ends_attr, ends_bind, ends_clock. intros e t _.
    apply ends_bind, ends_attr. set (h2 := with_attr c (set_a_last_used t) _).
    assert (H2 : bounded n p f u h2) by (repeat first [apply bounded_attr|apply bounded_env]; auto).
    apply ends_bind. eapply ends_get_lists; [by apply H2|by apply H2|].
    apply ends_bind. eapply ends_put_lists; [by apply H2|by apply H2|]. apply ends_ret.
    eexists _, _, _. split; [eapply (bounded_lists _ _ _ _ (f ++ [c]) u); [exact H2|]|].
    - unfold total in Hs. cbn in Hs. rewrite !length_app in *. cbn. lia.
    - intros ? [= <-]. apply elem_of_app; right. by apply list_elem_of_singleton. }
  apply ends_ret, ends_bind. destruct arg as [c|]; [by apply ends_ret, Happ|].
  apply (ends_bind (of_env (k_connect (h_next h))) _ (fresh_heap h)).
  apply ends_env; [apply def_connect|]. intros e [x|[]] _.
  - by eapply leaves_raised, bounded_env, bounded_fresh.
  - apply ends_ret, Happ. by apply bounded_env, bounded_fresh.
Qed.

Lemma replace_bound n p f u c h :
  bounded n p f u h -> ends (replace_connection n c) h (leaves n).
Proof.
  intros Hb. unfold replace_connection. apply ends_bind. eapply ends_get_lists; [by apply Hb|by apply Hb|].
  cbn [fst snd].
  assert (Hk : ∀ p1 f1 u1 h1, bounded n p1 f1 u1 h1 ->
    ends (upd_conn_attrs c (set_a_pool None);; close_plain c;; add_connection n None) h1 (leaves n)).
  { intros p1 f1 u1 h1 H1. apply ends_bind, ends_attr.
    assert (H2 : bounded n p1 f1 u1 (with_attr c (set_a_pool None) h1)) by (apply bounded_attr; auto).
    apply ends_bind, close_plain_ends.
    - intros e x _. by eapply leaves_raised, bounded_env.
    - intros e. by eapply add_bound, bounded_env. }
  pose proof (b_size _ _ _ _ _ Hb) as Hs. rewrite length_app in Hs.
  case_bool_decide as Hf; [|case_bool_decide as Hu].
  - apply ends_bind. eapply ends_put_lists; [by apply Hb|by apply Hb|]. eapply Hk.
    eapply (bounded_lists _ _ _ _ (remove1 c f) u); [exact Hb|]. apply length_remove1 in Hf. rewrite length_app. lia.
  - apply ends_bind. eapply ends_put_lists; [by apply Hb|by apply Hb|]. eapply Hk.
    eapply (bounded_lists _ _ _ _ f (remove1 c u)); [exact Hb|]. apply length_remove1 in Hu. rewrite length_app. lia.
  - apply ends_bind, ends_ret. by eapply Hk.
Qed.

Lemma validate_bound n p f u c h :
  bounded n p f u h -> c ∈ f -> ends (validate n c) h (leaves n).
Proof.
  intros Hb Hc. unfold validate. apply ends_bind. eapply ends_the_pool; [by apply Hb|].
  apply ends_bind, ends_clock. intros e t _. apply ends_bind, ends_attrs.
  assert (Hkeep : ∀ h', bounded n p f u h' -> leaves n (inr c) h').
  { intros h' H'. exists p, f, u. split; [done|]. by intros ? [= <-]. }
  apply (bounded_env _ _ _ _ _ e) in Hb. destruct (stale p _ t); [|by apply ends_ret, Hkeep].
  apply ends_except, ends_bind, ends_env; [apply def_ping|]. intros e2 [x|[]] _.
  - apply (bounded_env _ _ _ _ _ e2) in Hb. destruct (catches _ x); [by eapply replace_bound|].
    by eapply leaves_raised.
  - apply ends_ret, Hkeep. by apply bounded_env.
Qed.

Lemma take_bound n p f u c h :
  bounded n p f u h -> c ∈ f -> ends (take_connection n c) h (λ _ h', within n h').
Proof.
  intros Hb Hc. unfold take_connection. apply ends_bind, ends_attr. set (h1 := with_attr c _ h).
  assert (H1 : bounded n p f u h1) by (apply bounded_attr; auto).
  apply ends_bind. eapply ends_get_lists; [by apply H1|by apply H1|]. cbn [fst snd].
  apply ends_bind. eapply ends_put_lists; [by apply H1|by apply H1|].
  rewrite bool_decide_eq_true_2 by done. apply ends_bind.
  eapply ends_put_lists; [cbn; by rewrite lookup_insert_eq|by apply H1|]. apply ends_ret. left.
  exists (with_lists (remove1 c f) (u ++ [c]) p), (remove1 c f), (u ++ [c]).
  destruct H1 as [E1 E2 E3 E4 E5 E6]. split; try done; [cbn; by rewrite lookup_insert_eq|].
  apply length_remove1 in Hc. rewrite !length_app in *. cbn in *. lia.
Qed.

Lemma get_bound n h : within n h -> ends (get_connection n) h (λ _ h', within n h').
Proof.
  intros [(p & f & u & Hb)|(p & Hs & Hc)]; unfold get_connection; apply ends_bind.
  2: { eapply closed_lists; [exact Hc|]. right. by exists p. }
  eapply ends_get_lists; [by apply Hb|by apply Hb|]. destruct f as [|c f]; cbn [fst length get_loop].
  { apply ends_raise. left. by exists p, [], u. }
  apply ends_bind. eapply ends_get_lists; [by apply Hb|by apply Hb|]. cbn [fst lookup list_lookup].
  apply ends_bind. eapply ends_mono; [eapply validate_bound; [exact Hb|apply elem_of_cons; by left]|].
  intros [x|c'] h' H'; [by eapply leaves_within|]. destruct H' as (p' & f' & u' & Hb' & Hin).
  eapply take_bound; [exact Hb'|by apply Hin].
Qed.

(** ** Returning and closing *)

Lemma give_back_bound n c h :
  within n h ->
  ends (l ← get_lists n;
        if bool_decide (c ∈ l.2) then
          put_lists n (Some (l.1, remove1 c l.2));;
          t ← clock;
          upd_conn_attrs c (set_a_last_used t);;
          l ← get_lists n;
          put_lists n (Some (l.1 ++ [c], l.2))
        else mret ()) h (λ _ h', within n h').
Proof.
  intros [(p & f & u & Hb)|(p & Hs & Hc)]; apply ends_bind.
  2: { eapply closed_lists; [exact Hc|]. right. by exists p. }
  eapply ends_get_lists; [by apply Hb|by apply Hb|]. cbn [fst snd].
  case_bool_decide as Hin; [|apply ends_ret; left; by exists p, f, u].
  apply ends_bind. eapply ends_put_lists; [by apply Hb|by apply Hb|].
  apply ends_bind, ends_clock. intros e t _. apply ends_bind, ends_attr.
  apply ends_bind. eapply ends_get_lists; [cbn; by rewrite lookup_insert_eq|done|]. cbn [fst snd].
  eapply ends_put_lists; [cbn; by rewrite lookup_insert_eq|by apply Hb|]. left.
  exists (with_lists (f ++ [c]) (remove1 c u) p), (f ++ [c]), (remove1 c u).
  assert (H1 : bounded n p f u (with_attr c (set_a_last_used t) (with_env e h)))
    by (apply bounded_attr; [by apply bounded_env|auto]).
  destruct H1 as [E1 E2 E3 E4 E5 E6]. split; try done; [cbn; by rewrite lookup_insert_eq|].
  apply length_remove1 in Hin. rewrite !length_app in *. cbn in *. lia.
Qed.

Lemma within_pool n h : within n h -> ∃ p, h_objs h !! n = Some p ∧ p_name p = n ∧ sized p.
Proof. intros [(p & f & u & [])|(p & Hs & [])]; by exists p. Qed.

Lemma close_connection_bound n c h : within n h -> ends (close_connection n c) h (λ _ h', within n h').
Proof.
  intros Hw. destruct (within_pool n h Hw) as (p & Hp & _). unfold close_connection.
  apply ends_bind. eapply ends_the_pool; [exact Hp|]. apply ends_bind, ends_except, tidy_ends.
  intros e [x|[]] _; [|by apply give_back_bound, within_env].
  apply (within_env _ _ e) in Hw. destruct (catches _ x); [|done]. apply ends_bind.
  destruct Hw as [(q & f & u & Hb)|(q & Hs & Hc)].
  - eapply ends_mono; [by eapply replace_bound|]. intros [x'|c'] h' H'; apply leaves_within in H'; [done|].
    by apply ends_ret, give_back_bound.
  - unfold replace_connection. apply ends_bind. eapply closed_lists; [exact Hc|]. right. by exists q.
Qed.

Lemma return_bound n c h : within n h -> ends (pooled_close c) h (λ _ h', within n h').
Proof.
  intros Hw. unfold pooled_close. apply ends_bind, ends_env; [apply def_check|].
  intros e [x|[]] _; [by apply within_env|]. apply ends_bind, ends_attrs.
  destruct (within_marks n _ Hw c) as [E|E]; cbn [with_env h_attrs]; rewrite E.
  - apply ends_env; [apply def_close|]. intros e2 r _. by apply within_env, within_env.
  - by apply close_connection_bound, within_env.
Qed.

Lemma within_add n arg h : within n h -> ends (add_connection n arg) h (λ _ h', within n h').
Proof.
  intros [(p & f & u & Hb)|(p & Hs & Hc)].
  - eapply ends_mono; [by eapply add_bound|]. intros r h'. apply leaves_within.
  - assert (within n h) by (right; by exists p).
    unfold add_connection, add_check. apply ends_bind, ends_bind. eapply ends_the_pool; [by apply Hc|].
    destruct (p_configured p); cbn [negb]; [|by apply ends_raise]. apply ends_bind. by eapply closed_lists.
Qed.

Lemma new_bound n h : within n h -> ends new_connection h (λ _ h', within n h').
Proof.
  intros Hw. assert (Hf : within n (fresh_heap h)).
  { destruct Hw as [(p & f & u & Hb)|(p & Hs & [H1 H2 H3 H4])].
    - left. exists p, f, u. by apply bounded_fresh.
    - right. exists p. split; [done|]. split; try done. intros d. cbn. destruct (_ =? _)%nat; [by left|apply H4]. }
  apply (ends_bind (of_env (k_connect (h_next h))) _ (fresh_heap h)).
  apply ends_env; [apply def_connect|]. intros e [x|[]] _; [by apply within_env|].
  apply ends_ret. by apply within_env.
Qed.

Lemma config_bound n given h : within n h -> ends (set_config n given) h (λ _ h', within n h').
Proof.
  intros Hw. destruct (within_pool n h Hw) as (p & Hp & Hn & Hs). apply ends_bind.
  eapply ends_the_pool; [exact Hp|]. set (q := mkPool _ _ _ _ _ _).
  exists (with_pool n q h), (inr ()). split; [unfold put_pool; cbn; by rewrite Hn|].
  assert (Hq : h_objs (with_pool n q h) !! n = Some q) by (cbn; by rewrite lookup_insert_eq).
  destruct Hw as [(p' & f & u & [])|(p' & Hs' & [])]; simplify_eq.
  - left. exists q, f, u. by split.
  - right. exists q. split; [exact Hs|]. by split.
Qed.

Lemma close_bound n h : within n h -> ends (pool_close n) h (λ _ h', within n h').
Proof.
  intros Hw. destruct (within_pool n h Hw) as (p & Hp & Hn & Hs).
  assert (Hb : ends (l ← get_lists n; close_all (l.1 ++ l.2)) h (λ r h1, h_objs h1 = h_objs h ∧
     (∀ c, a_pool (h_attrs h1 c) = None ∨ a_pool (h_attrs h1 c) = Some n))).
  { apply ends_bind. pose proof (within_marks n h Hw) as Hm. destruct Hw as [(q & f & u & Hb)|(q & Hq & Hc)].
    - eapply ends_get_lists; [by apply Hb|by apply Hb|]. apply (close_all_ends n). auto.
    - by eapply closed_lists. }
  destruct Hb as (h1 & r1 & E1 & Ho & Hm).
  assert (Hfin : ends (put_lists n None;; unregister n) h1 (λ _ h', within n h')).
  { apply ends_bind. eapply ends_put_lists; [by rewrite Ho|done|]. apply ends_unregister. intros r ns.
    right. exists (set_lists None p). split; [done|]. split; try done. cbn. by rewrite lookup_insert_eq. }
  destruct Hfin as (h2 & r2 & E2 & H2).
  exists h2, (match r2 with inl x => inl x | inr _ => r1 end). split; [|done].
  unfold pool_close, b_finally. rewrite E1. cbn. by rewrite E2.
Qed.
(** ** Every history *)

(** What can happen between two calls of the application, which has one thread
    and one pool: it uses the pool and its connections, makes connections of its
    own and hands them over; time passes and connections break.  A polite
    application only hands over a connection that exists and belongs to no
    pool. *)
Inductive pool_step (polite : bool) (n : string) (h : heap env) : heap env -> Prop :=
  | StepGet h' r : get_connection n h = Some (h', r) -> pool_step polite n h h'
  | StepReturn c h' r : pooled_close c h = Some (h', r) -> pool_step polite n h h'
  | StepAdd h' r : add_connection n None h = Some (h', r) -> pool_step polite n h h'
  | StepAddGiven c h' r :
      (polite = true -> (c < h_next h)%nat ∧ a_pool (h_attrs h c) = None) ->
      add_connection n (Some c) h = Some (h', r) -> pool_step polite n h h'
  | StepConfig given h' r : set_config n given h = Some (h', r) -> pool_step polite n h h'
  | StepClose h' r : pool_close n h = Some (h', r) -> pool_step polite n h h'
  | StepConnect h' r : new_connection h = Some (h', r) -> pool_step polite n h h'
  | StepEnv e : pool_step polite n h (with_env e h).

(** A connection without a mark is in no list of the pool. *)
Lemma unmarked_outside n (h : heap env) c p f u :
  pool_ok n h -> a_pool (h_attrs h c) = None -> h_objs h !! n = Some p -> p_lists p = Some (f, u) -> c ∉ f ++ u.
Proof.
  intros (q & _ & [(f' & u' & [E1 _ E3 _ _ Hm _])|[E1 _ E3 _]]) Ha Hp Hl Hc; [|congruence].
  assert (q = p) as -> by congruence. rewrite E3 in Hl. injection Hl as -> ->. rewrite Forall_forall in Hm.
  destruct (Hm c) as [_ Ec]; [by apply list_elem_of_In|congruence].
Qed.

Lemma add_given_ok n c h :
  pool_ok n h -> (c < h_next h)%nat -> a_pool (h_attrs h c) = None ->
  ends (add_connection n (Some c)) h (λ _ h', pool_ok n h').
Proof.
  intros Hok Hn Ha. apply add_ok; [done|]. intros c' p f u [= <-] Hp Hl. split; [|done].
  by eapply unmarked_outside.
Qed.

Lemma step_within polite n h h' : within n h -> pool_step polite n h h' -> within n h'.
Proof.
  intros Hw Hst. destruct Hst as [h' r E|c h' r E|h' r E|c h' r _ E|b h' r E|h' r E|h' r E|e].
  - by eapply ends_holds; [|apply get_bound].
  - by eapply ends_holds; [|apply (return_bound n)].
  - by eapply ends_holds; [|apply within_add].
  - by eapply ends_holds; [|apply within_add].
  - by eapply ends_holds; [|apply config_bound].
  - by eapply ends_holds; [|apply close_bound].
  - by eapply ends_holds; [|apply new_bound].
  - by apply within_env.
Qed.

Lemma step_ok n h h' : pool_ok n h -> pool_step true n h h' -> pool_ok n h'.
Proof.
  intros Hok Hst. destruct Hst as [h' r E|c h' r E|h' r E|c h' r Hc E|b h' r E|h' r E|h' r E|e].
  - by eapply ends_holds; [|apply get_ok].
  - by eapply ends_holds; [|apply (conn_close_ok n)].
  - by eapply ends_holds; [|apply (add_ok n None)].
  - destruct Hc as [Hn Ha]; [done|]. by eapply ends_holds; [|by apply add_given_ok].
  - by eapply ends_holds; [|apply set_config_ok].
  - by eapply ends_holds; [|apply pool_close_ok].
  - by eapply ends_holds; [|apply new_connection_ok].
  - by apply ok_env.
Qed.

(** C12: Through every history of a pool that is used by one thread at a time,
    whatever its connections answer and whatever connections are handed to
    [add_connection], the free and the used connections are together never more
    than the size of the pool, which is between 1 and 64.  When the application
    is polite, that is, only hands over connections that belong to no pool, the
    two lists moreover have no duplicate and no connection in common, and each of
    their connections is marked as the pool's.  (An application that adds a
    connection twice gets it twice: [add_connection_twice]; two threads can
    exceed the size: [add_connection_race].) *)
Theorem pool_invariant (polite : bool) (n : string) (h h' : heap env) (Hok : pool_ok n h)
    (Hrun : rtc (pool_step polite n) h h') :
  ∃ p, h_objs h' !! n = Some p ∧ 0 < p_size p <= 64 ∧
       match p_lists p with
       | Some (f, u) =>
           Z.of_nat (length f + length u) <= p_size p ∧
           (polite = true ->
            NoDup f ∧ NoDup u ∧ (∀ c, c ∈ f -> c ∉ u) ∧
            ∀ c, c ∈ f ∨ c ∈ u -> a_pool (h_attrs h' c) = Some n)
       | None => True
       end.
Proof.
  assert (Hw : within n h') by (apply within_ok in Hok; clear -Hok Hrun D; induction Hrun; eauto using step_within).
  assert (Hk : polite = true -> pool_ok n h') by (intros ->; clear Hw; induction Hrun; eauto using step_ok).
  clear Hok Hrun.
  destruct Hw as [(p & f & u & [E1 E2 E3 E4 E5 E6])|(p & Hs & [E1 E2 E3 E4])]; exists p; rewrite E3; [|done].
  split_and!; [done|apply E4|apply E4|rewrite length_app in E5; lia|]. intros Hp.
  destruct (Hk Hp) as (q & _ & [(f' & u' & [F1 F2 F3 F4 F5 F6 F7])|[F1 F2 F3 F4]]); [|congruence].
  rewrite E1 in F1. injection F1 as <-. rewrite E3 in F3. injection F3 as <- <-.
  apply list.NoDup_app in F4 as (Hf & Hd & Hu). split_and!; [done..|]. intros c Hc. rewrite Forall_forall in F6.
  apply F6, list_elem_of_In, elem_of_app, Hc.
Qed.

End Histories.

Definition demo_heap1 : heap script_env := heap_after (pooled_close (K := broken_first) 2 demo_heap).
Definition demo_heap2 : heap script_env := heap_after (get_connection (K := broken_first) "p" demo_heap1).

(** The used connection is closed, the first free one does not answer and is
    replaced when it is asked for, and the new one is handed out. *)
Lemma pool_invariant_witness :
  p_lists <$> h_objs demo_heap2 !! "p" = Some (Some ([1; 2], [3])%nat) ∧
  ∃ p, h_objs demo_heap2 !! "p" = Some p ∧ 0 < p_size p <= 64 ∧
       match p_lists p with
       | Some (f, u) =>
           Z.of_nat (length f + length u) <= p_size p ∧
           (true = true ->
            NoDup f ∧ NoDup u ∧ (∀ c, c ∈ f -> c ∉ u) ∧
            ∀ c, c ∈ f ∨ c ∈ u -> a_pool (h_attrs demo_heap2 c) = Some "p"%string)
       | None => True
       end.
Proof.
  split; [vm_compute; reflexivity|].
  apply (pool_invariant (K := broken_first) (D := script_defined _ _ _) true "p" demo_heap demo_heap2).
  - exists (demo_pool ([0; 1], [2])%nat). split; [done|]. left. exists [0; 1]%nat, [2]%nat. exact demo_good.
  - eapply rtc_l; [apply (StepReturn (K := broken_first) true "p" demo_heap 2 demo_heap1 (inr ())); vm_compute; reflexivity|].
    eapply rtc_l; [apply (StepGet (K := broken_first) true "p" demo_heap1 demo_heap2 (inr 3%nat)); vm_compute; reflexivity|].
    apply rtc_refl.
Defined.
