(* ===== verification/HandleLogic.v ===== *)
(** * Which handles are alive

    A logic for the question whether a computation passes a dead handle to the
    library.  It works on the part of the world that matters, the [view]: the
    handles that are alive, those the connection and the cursor hold, and the
    fields of the cursor that decide which of them a function uses.  Most
    functions leave the view alone ([framed]); for the others there is a rule
    with a postcondition ([hwp]).  The handles of other cursors of the same
    connection are a [guard], a part of the live handles that no function of
    this cursor may end. *)

From stdpp Require Import gmap.
From S2P Require Import Prelude Parser Values DateTime Wire Fetch Exceptions Params Client.
From S2P Require Import Connection Cursor Session CursorLogic.

Record view := mkView {
  v_live : gmap nat hkind;
  v_next : nat;
  v_mysql : option nat;
  v_closed : bool;
  v_stmt : option nat;
  v_result : option nat;
  v_text : bool;
  v_fields : Z;
  v_buffered : bool;
}.

Definition view_of `{C : Client} (w : world C) : view :=
  mkView (w_live w) (w_next w) (n_mysql (w_conn w)) (n_closed (w_conn w)) (c_stmt (w_cur w))
    (c_result (w_cur w)) (p_is_text (c_parseinfo (w_cur w))) (c_field_count (w_cur w))
    (c_is_buffered (w_cur w)).

(** What a cursor or a connection that was read says about the view. *)
Record cur_of (v : view) (c : MrdbCursor) : Prop := mkCurOf {
  co_stmt : c_stmt c = v_stmt v;
  co_result : c_result c = v_result v;
  co_text : p_is_text (c_parseinfo c) = v_text v;
  co_fields : c_field_count c = v_fields v;
  co_buffered : c_is_buffered c = v_buffered v;
}.

Record conn_of (v : view) (n : MrdbConnection) : Prop := mkConnOf {
  no_mysql : n_mysql n = v_mysql v;
  no_closed : n_closed n = v_closed v;
}.

Definition alive (v : view) (h : nat) : Prop := is_Some (v_live v !! h).

(** The handles that belong to other cursors, statements and result sets, and
    what they rely on of the connection: its handle and whether it is closed. *)
Class Guard := mkGuard {
  guard : gmap nat hkind;
  guard_kinds : map_Forall (λ _ k, k ≠ KMysql) guard;
  guard_conn : option (option nat * bool);
}.

Program Definition no_guard : Guard := mkGuard ∅ _ None.
Next Obligation. apply map_Forall_empty. Qed.

(** What is left of them when the connection is closed. *)
Program Definition closed_guard (G : Guard) : Guard := mkGuard (filter (λ kv, kv.2 ≠ KRes false) guard) _ None.
Next Obligation. intros G h k H. apply map_lookup_filter_Some in H as [H _]. exact (guard_kinds h k H). Qed.

(** The handles of the connection and of the prepared statement are alive, a new
    handle is none of those in use, the handles of the other cursors are alive
    and not this one's, and the connection is as they know it. *)
Record well `{G : Guard} (v : view) : Prop := mkWell {
  wl_fresh : ∀ h, (v_next v <= h)%nat -> v_live v !! h = None;
  wl_mysql : ∀ m, v_mysql v = Some m -> v_live v !! m = Some KMysql;
  wl_stmt : ∀ s, v_stmt v = Some s -> v_live v !! s = Some KStmt;
  wl_private : ∀ s, v_stmt v = Some s -> guard !! s = None;
  wl_guard : guard ⊆ v_live v;
  wl_conn : ∀ x, guard_conn = Some x -> (v_mysql v, v_closed v) = x;
}.

Section Well.

Context {G : Guard}.

Lemma well_mysql v m : well v -> v_mysql v = Some m -> alive v m.
Proof. intros W H. exists KMysql. by apply (wl_mysql _ W). Qed.
Lemma well_stmt v s : well v -> v_stmt v = Some s -> alive v s.
Proof. intros W H. exists KStmt. by apply (wl_stmt _ W). Qed.
Lemma well_conn v n m : well v -> conn_of v n -> n_mysql n = Some m -> alive v m.
Proof. intros W N H. apply (well_mysql _ _ W). by rewrite <- (no_mysql _ _ N). Qed.
Lemma well_cur v c s : well v -> cur_of v c -> c_stmt c = Some s -> alive v s.
Proof. intros W N H. apply (well_stmt _ _ W). by rewrite <- (co_stmt _ _ N). Qed.

(** A handle that is not alive is nobody's. *)
Lemma well_nobody v h : well v -> v_live v !! h = None -> guard !! h = None.
Proof. intros W H. by eapply lookup_weaken_None; [|apply (wl_guard _ W)]. Qed.

Lemma well_next v : well v -> guard !! v_next v = None.
Proof. intros W. apply (well_nobody _ _ W), (wl_fresh _ W). lia. Qed.

End Well.

(** The result set of the cursor is alive. *)
Definition result_alive (v : view) : Prop := ∀ r, v_result v = Some r -> alive v r.

Lemma result_cur v c r : result_alive v -> cur_of v c -> c_result c = Some r -> alive v r.
Proof. intros W N H. apply W. by rewrite <- (co_result _ _ N). Qed.

Definition set_live (live : gmap nat hkind) (v : view) : view :=
  mkView live (v_next v) (v_mysql v) (v_closed v) (v_stmt v) (v_result v) (v_text v) (v_fields v)
    (v_buffered v).

(** Calls that end no handle. *)
Definition keeps_handles {R : Type} (op : libop R) : bool :=
  match op with mysql_close _ | mysql_free_result _ | mysql_stmt_close _ => false | _ => true end.

Lemma keeps_after {R} (op : libop R) live : keeps_handles op = true -> after_call op live = live.
Proof. by destruct op. Qed.

Section Logic.

Context `{C : Client}.

Definition hwp {A : Type} (m : M A) (Q : A -> view -> Prop) (v : view) : Prop :=
  ∀ w : world C, view_of w = v ->
  match m w with
  | Done a w' => Q a (view_of w')
  | Stuck s => s ≠ InvalidHandle
  end.

Definition framed {A : Type} (v : view) (m : M A) : Prop := hwp m (λ _ v', v' = v) v.

(** ** Rules *)

Lemma hwp_ret {A} (a : A) Q v : Q a v -> hwp (mret a) Q v.
Proof. by intros H w <-. Qed.

Lemma hwp_bind {A B} (m : M A) (k : A -> M B) Q v :
  hwp m (λ a v', hwp (k a) Q v') v -> hwp (m ≫= k) Q v.
Proof.
  intros H w E. specialize (H w E). unfold mbind, M_bind. destruct (m w) as [a w1|s]; [|done].
  by apply H.
Qed.

Lemma hwp_mono {A} (m : M A) (Q Q' : A -> view -> Prop) v :
  hwp m Q v -> (∀ a v', Q a v' -> Q' a v') -> hwp m Q' v.
Proof. intros H HQ w E. specialize (H w E). destruct (m w); auto. Qed.

(** A first step that leaves the view alone. *)
Lemma hwp_framed {A B} (m : M A) (k : A -> M B) Q v :
  framed v m -> (∀ a, hwp (k a) Q v) -> hwp (m ≫= k) Q v.
Proof. intros H Hk. apply hwp_bind. eapply hwp_mono; [exact H|]. by intros a v' ->. Qed.

Lemma hwp_get_cur {B} (k : MrdbCursor -> M B) Q v :
  (∀ c, cur_of v c -> hwp (k c) Q v) -> hwp (get_cur ≫= k) Q v.
Proof. intros H w <-. exact (H (w_cur w) ltac:(by split) w eq_refl). Qed.

Lemma hwp_get_conn {B} (k : MrdbConnection -> M B) Q v :
  (∀ n, conn_of v n -> hwp (k n) Q v) -> hwp (get_conn ≫= k) Q v.
Proof. intros H w <-. exact (H (w_conn w) ltac:(by split) w eq_refl). Qed.

Lemma hwp_nonnull {A B} (o : option A) (k : A -> M B) Q v :
  (∀ a, o = Some a -> hwp (k a) Q v) -> hwp (nonnull o ≫= k) Q v.
Proof. intros H. destruct o as [a|]; [exact (H a eq_refl)|]. by intros w _. Qed.

Lemma hwp_fail {A} s (Q : A -> view -> Prop) v : s ≠ InvalidHandle -> hwp (fail s) Q v.
Proof. by intros H w _. Qed.

(** An update of the cursor, in terms of the view. *)
Definition with_cursor (c : MrdbCursor) (v : view) : view :=
  mkView (v_live v) (v_next v) (v_mysql v) (v_closed v) (c_stmt c) (c_result c)
    (p_is_text (c_parseinfo c)) (c_field_count c) (c_is_buffered c).

Lemma hwp_upd_cur f (Q : () -> view -> Prop) v :
  (∀ c, cur_of v c -> Q () (with_cursor (f c) v)) -> hwp (upd_cur f) Q v.
Proof. intros H w <-. exact (H (w_cur w) ltac:(by split)). Qed.

Lemma hwp_upd_conn f (Q : () -> view -> Prop) v :
  (∀ n, conn_of v n ->
     Q () (mkView (v_live v) (v_next v) (n_mysql (f n)) (n_closed (f n)) (v_stmt v) (v_result v)
             (v_text v) (v_fields v) (v_buffered v))) ->
  hwp (upd_conn f) Q v.
Proof. intros H w <-. exact (H (w_conn w) ltac:(by split)). Qed.

(** ** Computations that leave the view alone *)

Lemma framed_ret {A} (a : A) v : framed v (mret a).
Proof. by apply hwp_ret. Qed.
Lemma framed_fail {A} s v : s ≠ InvalidHandle -> framed (A := A) v (fail s).
Proof. apply hwp_fail. Qed.
Lemma framed_bind {A B} (m : M A) (k : A -> M B) v :
  framed v m -> (∀ a, framed v (k a)) -> framed v (m ≫= k).
Proof. apply hwp_framed. Qed.
Lemma framed_get_cur {B} (k : MrdbCursor -> M B) v :
  (∀ c, cur_of v c -> framed v (k c)) -> framed v (get_cur ≫= k).
Proof. apply hwp_get_cur. Qed.
Lemma framed_get_conn {B} (k : MrdbConnection -> M B) v :
  (∀ n, conn_of v n -> framed v (k n)) -> framed v (get_conn ≫= k).
Proof. apply hwp_get_conn. Qed.
Lemma framed_nonnull {A B} (o : option A) (k : A -> M B) v :
  (∀ a, o = Some a -> framed v (k a)) -> framed v (nonnull o ≫= k).
Proof. apply hwp_nonnull. Qed.

Lemma framed_upd_cur f v :
  (∀ c, c_stmt (f c) = c_stmt c ∧ c_result (f c) = c_result c ∧
        p_is_text (c_parseinfo (f c)) = p_is_text (c_parseinfo c) ∧
        c_field_count (f c) = c_field_count c ∧ c_is_buffered (f c) = c_is_buffered c) ->
  framed v (upd_cur f).
Proof.
  intros H. apply hwp_upd_cur. intros c [E1 E2 E3 E4 E5]. destruct (H c) as (F1 & F2 & F3 & F4 & F5).
  unfold with_cursor. rewrite F1, F2, F3, F4, F5, E1, E2, E3, E4, E5. by destruct v.
Qed.

Lemma framed_upd_conn f v :
  (∀ n, n_mysql (f n) = n_mysql n ∧ n_closed (f n) = n_closed n) -> framed v (upd_conn f).
Proof.
  intros H. apply hwp_upd_conn. intros n [E1 E2]. destruct (H n) as (F1 & F2).
  rewrite F1, F2, E1, E2. by destruct v.
Qed.

(** A computation that does nothing but end or leave the world as it is. *)
Lemma framed_prim {A} v (m : M A) :
  (∀ w, match m w with Done _ w' => view_of w' = view_of w | Stuck s => s ≠ InvalidHandle end) ->
  framed v m.
Proof. intros H w <-. exact (H w). Qed.

End Logic.

Create HintDb framed discriminated.

Ltac framed_step :=
  intros; match goal with
  | |- framed _ (mbind _ get_cur) => apply framed_get_cur
  | |- framed _ (mbind _ get_conn) => apply framed_get_conn
  | |- framed _ (mbind _ (nonnull _)) => apply framed_nonnull
  | |- framed _ (mbind _ _) => apply framed_bind
  | |- framed _ (let _ := _ in _) => cbv zeta
  | |- framed _ (match ?x with _ => _ end) => destruct x eqn:?
  | |- framed _ (upd_cur _) => apply framed_upd_cur; intros; split_and!; reflexivity
  | |- framed _ (upd_conn _) => apply framed_upd_conn; intros; split_and!; reflexivity
  | |- framed _ (fail _) => apply framed_fail; discriminate
  | |- framed _ (mret _) => apply framed_ret
  | |- framed _ _ => solve [eauto 3 with framed nocore]
  end.

Ltac framed_auto := repeat framed_step.

Section Primitives.

Context `{C : Client}.

Lemma framed_cur v : framed v get_cur. Proof. by apply framed_prim. Qed.
Lemma framed_conn v : framed v get_conn. Proof. by apply framed_prim. Qed.
Lemma framed_gil v : framed v get_gil. Proof. by apply framed_prim. Qed.
Lemma framed_err v : framed v get_err. Proof. by apply framed_prim. Qed.
Lemma framed_lib v : framed v get_lib. Proof. by apply framed_prim. Qed.
Lemma framed_live v : framed v get_live. Proof. by apply framed_prim. Qed.
Lemma framed_set_gil v b : framed v (set_gil b). Proof. by apply framed_prim. Qed.
Lemma framed_put_err v e : framed v (put_err e). Proof. by apply framed_prim. Qed.
Lemma framed_deliver v : framed v deliver_err. Proof. by apply framed_prim. Qed.
Lemma framed_lib_step {R} v (op : libop R) : framed v (lib_step op).
Proof. apply framed_prim. intros w. unfold lib_step. by destruct (lib_call _ _) as [[r reports] l]. Qed.
#[local] Hint Resolve framed_cur framed_conn framed_gil framed_err framed_lib framed_live framed_set_gil
  framed_put_err framed_lib_step : framed.

Lemma framed_null {A} v (o : option A) : framed v (nonnull o).
Proof. unfold nonnull. framed_auto. Qed.
Lemma framed_py v : framed v py.
Proof. unfold py. framed_auto. Qed.
#[local] Hint Resolve framed_null framed_py : framed.
Lemma framed_begin v : framed v MARIADB_BEGIN_ALLOW_THREADS.
Proof. unfold MARIADB_BEGIN_ALLOW_THREADS, PyEval_SaveThread. framed_auto. Qed.
Lemma framed_end v : framed v MARIADB_END_ALLOW_THREADS.
Proof. unfold MARIADB_END_ALLOW_THREADS, PyEval_RestoreThread. framed_auto. Qed.
Lemma framed_unblock v : framed v MARIADB_UNBLOCK_THREADS.
Proof. unfold MARIADB_UNBLOCK_THREADS, PyEval_RestoreThread. framed_auto. Qed.
Lemma framed_block v b : framed v (MARIADB_BLOCK_THREADS b).
Proof. unfold MARIADB_BLOCK_THREADS, PyEval_SaveThread. framed_auto. Qed.
Lemma framed_set_err v e : framed v (set_err e).
Proof. unfold set_err. framed_auto. Qed.
#[local] Hint Resolve framed_begin framed_end framed_unblock framed_block framed_set_err : framed.
Lemma framed_throw_message v e msg : framed v (throw_message e msg).
Proof. unfold throw_message. framed_auto. Qed.
Lemma framed_PyErr v : framed v PyErr_Occurred.
Proof. unfold PyErr_Occurred. framed_auto. Qed.
Lemma framed_c_long v r : framed v (c_long r).
Proof. unfold c_long. framed_auto. Qed.
#[local] Hint Resolve framed_throw_message framed_PyErr : framed.

Lemma framed_reports v l : framed v (process_reports l).
Proof. induction l; simpl; unfold MrdbConnection_process_status_info; framed_auto. Qed.
#[local] Hint Resolve framed_reports : framed.

(** ** Calls of the library *)

Lemma hwp_call {R} (op : libop R) (Q : R -> view -> Prop) v :
  Forall (alive v) (handles_of op) ->
  (∀ r, Q r (set_live (after_call op (v_live v)) v)) ->
  hwp (call op) Q v.
Proof.
  intros Ha HQ w Ev. unfold call, mbind, M_bind, get_live.
  assert (E : forallb (λ h, bool_decide (is_Some (w_live w !! h))) (handles_of op) = true).
  { rewrite forallb_forall. intros h Hh. apply bool_decide_eq_true.
    rewrite Forall_forall in Ha. specialize (Ha h Hh). by subst v. }
  rewrite E. unfold lib_step. destruct (lib_call op (w_lib w)) as [[r reports] l] eqn:El.
  cbn. set (w2 := mkWorld _ _ _ _ _ _ _). pose proof (framed_reports (view_of w2) reports w2 eq_refl) as Hr.
  destruct (process_reports reports w2) as [u w3|s]; [|done]. cbn. rewrite Hr. subst v w2. apply HQ.
Qed.

Lemma framed_call {R} (op : libop R) v :
  keeps_handles op = true -> Forall (alive v) (handles_of op) -> framed v (call op).
Proof. intros Hk Ha. apply hwp_call; [done|]. intros r. rewrite keeps_after by done. by destruct v. Qed.

(** A new handle. *)
Definition add_handle (k : hkind) (v : view) : view :=
  mkView (<[v_next v := k]> (v_live v)) (S (v_next v)) (v_mysql v) (v_closed v) (v_stmt v) (v_result v)
    (v_text v) (v_fields v) (v_buffered v).

Lemma hwp_create op k (Q : option nat -> view -> Prop) v :
  keeps_handles op = true -> Forall (alive v) (handles_of op) ->
  Q None v -> Q (Some (v_next v)) (add_handle k v) -> hwp (create op k) Q v.
Proof.
  intros Hk Ha Hn Hs. unfold create. apply hwp_framed; [by apply framed_call|]. intros [].
  - intros w <-. exact Hs.
  - by apply hwp_ret.
Qed.

End Primitives.

#[export] Hint Resolve framed_cur framed_conn framed_gil framed_err framed_lib framed_live framed_set_gil
  framed_put_err framed_deliver framed_null framed_py framed_begin framed_end framed_unblock framed_block
  framed_set_err framed_throw_message framed_PyErr framed_c_long : framed.

Lemma Forall_option {A} (Q : A -> Prop) (o : option A) :
  (∀ a, o = Some a -> Q a) -> Forall Q (option_list o).
Proof. intros H. destruct o; [|done]. apply Forall_cons; [by apply H|done]. Qed.

Lemma Forall_some {A} (Q : A -> Prop) (a : A) : Q a -> Forall Q (option_list (Some a)).
Proof. intros H. by apply Forall_option; intros ? [= <-]. Qed.

(** The handles of a call are alive. *)
Ltac alive_auto :=
  cbn [handles_of];
  first [apply Forall_some | apply Forall_option; intros | apply Forall_cons; [|apply Forall_nil] | apply Forall_nil];
  first [assumption | eapply well_mysql; eassumption | eapply well_stmt; eassumption
        | eapply well_conn; eassumption | eapply well_cur; eassumption | eapply result_cur; eassumption].

#[export] Hint Extern 2 (framed _ (call _)) => apply framed_call; [reflexivity|solve [alive_auto]] : framed.

(** ** Views that grow *)

(** Handles came and may have gone again; the old ones are as they were. *)
Record grows (v v' : view) : Prop := mkGrows {
  gr_next : (v_next v <= v_next v')%nat;
  gr_old : ∀ h, (h < v_next v)%nat -> v_live v' !! h = v_live v !! h;
  gr_fresh : ∀ h, (v_next v' <= h)%nat -> v_live v' !! h = None;
  gr_mysql : v_mysql v' = v_mysql v;
  gr_closed : v_closed v' = v_closed v;
  gr_stmt : v_stmt v' = v_stmt v;
  gr_result : v_result v' = v_result v;
  gr_text : v_text v' = v_text v;
  gr_fields : v_fields v' = v_fields v;
  gr_buffered : v_buffered v' = v_buffered v;
}.

Section Grows.

Context {G : Guard}.

Lemma grows_refl v : well v -> grows v v.
Proof. intros W. split; try done. apply (wl_fresh _ W). Qed.

Lemma grows_trans v1 v2 v3 : grows v1 v2 -> grows v2 v3 -> grows v1 v3.
Proof.
  intros G1 G2. pose proof (gr_next _ _ G1). pose proof (gr_next _ _ G2). split; [lia| | |destruct G1, G2; congruence..].
  - intros h Hh. rewrite (gr_old _ _ G2) by lia. by apply (gr_old _ _ G1).
  - apply (gr_fresh _ _ G2).
Qed.

(** A handle that is alive is an old one. *)
Lemma well_old v h k : well v -> v_live v !! h = Some k -> (h < v_next v)%nat.
Proof.
  intros W H. destruct (decide (v_next v <= h)%nat) as [Hn|]; [|lia]. by rewrite (wl_fresh _ W h Hn) in H.
Qed.

Lemma grows_alive v v' h k : well v -> grows v v' -> v_live v !! h = Some k -> v_live v' !! h = Some k.
Proof. intros W Gr H. rewrite (gr_old _ _ Gr) by by eapply well_old. done. Qed.

Lemma grows_well v v' : well v -> grows v v' -> well v'.
Proof.
  intros W Gr. split.
  - apply (gr_fresh _ _ Gr).
  - intros m. rewrite (gr_mysql _ _ Gr). intros H. eapply grows_alive; [done..|]. by apply (wl_mysql _ W).
  - intros s. rewrite (gr_stmt _ _ Gr). intros H. eapply grows_alive; [done..|]. by apply (wl_stmt _ W).
  - intros s. rewrite (gr_stmt _ _ Gr). apply (wl_private _ W).
  - apply map_subseteq_spec. intros h k H. eapply grows_alive; [done..|].
    by eapply lookup_weaken; [|apply (wl_guard _ W)].
  - rewrite (gr_mysql _ _ Gr), (gr_closed _ _ Gr). apply (wl_conn _ W).
Qed.

(** ** Cursors and their result sets *)

(** Well-formedness after an update of the cursor, after a result set ended,
    and with a new handle. *)
Lemma well_with_cursor v c :
  well v ->
  (c_stmt c = v_stmt v ∨ ∀ s, c_stmt c = Some s -> v_live v !! s = Some KStmt ∧ guard !! s = None) ->
  well (with_cursor c v).
Proof.
  intros [Hf Hm Hs Hp Hg Hc] H. split; cbn; [done..| | |done|done]; intros s E;
    destruct H as [H|H]; try (by apply H); rewrite H in E; auto.
Qed.

(** A handle that is nobody else's ends. *)
Lemma guard_delete live h : guard ⊆ live -> guard !! h = None -> guard ⊆ delete h live.
Proof.
  intros Hg Hh. apply map_subseteq_spec. intros h' k H.
  rewrite lookup_delete_ne by congruence. by eapply lookup_weaken.
Qed.

Lemma well_delete v r b :
  well v -> v_live v !! r = Some (KRes b) -> guard !! r = None -> well (set_live (delete r (v_live v)) v).
Proof.
  intros [Hf Hm Hs Hp Hg Hc] Hr Hn. split; cbn; [| | |done|by apply guard_delete|done].
  - intros h Hh. by rewrite lookup_delete_None, Hf; [right|].
  - intros m E. apply Hm in E. rewrite lookup_delete_ne by congruence. done.
  - intros s E. apply Hs in E. rewrite lookup_delete_ne by congruence. done.
Qed.

Lemma well_add v k : well v -> well (add_handle k v).
Proof.
  intros W. pose proof W as [Hf Hm Hs Hp Hg Hc]. split; cbn; [| | |done| |done].
  - intros h Hh. rewrite lookup_insert_ne by lia. apply Hf. lia.
  - intros m E. apply Hm in E. pose proof (well_old _ _ _ W E). rewrite lookup_insert_ne by lia. done.
  - intros s E. apply Hs in E. pose proof (well_old _ _ _ W E). rewrite lookup_insert_ne by lia. done.
  - by apply insert_subseteq_r, Hg; apply well_next.
Qed.

(** A result set that came and went. *)
Lemma grows_temporary v k :
  well v -> grows v (set_live (delete (v_next v) (v_live (add_handle k v))) (add_handle k v)).
Proof.
  intros W. split; cbn; try done.
  - lia.
  - intros h Hh. rewrite lookup_delete_ne, lookup_insert_ne by lia. done.
  - intros h Hh. rewrite lookup_delete_ne, lookup_insert_ne by lia. apply (wl_fresh _ W). lia.
Qed.

(** A cursor without a result set. *)
Definition idle (v : view) : Prop := well v ∧ v_result v = None.

(** A result set the cursor holds is one of a text statement with columns, and
    it is buffered when the cursor says so. *)
Definition result_held (v : view) : Prop :=
  ∀ r, v_result v = Some r ->
  v_text v = true ∧ v_fields v ≠ 0 ∧ v_live v !! r = Some (KRes (v_buffered v)) ∧ guard !! r = None.

Definition holds (v : view) : Prop := well v ∧ result_held v.

(** The connection was closed under a cursor that is not buffered: its result
    set went with it. *)
Definition lost (v : view) : Prop := v_mysql v = None ∧ v_closed v = true ∧ v_buffered v = false.

(** Between two calls of an application. *)
Definition settled (v : view) : Prop := well v ∧ (result_held v ∨ lost v).

Lemma idle_holds v : idle v -> holds v.
Proof. intros [W E]. split; [done|]. intros r. by rewrite E. Qed.
Lemma holds_settled v : holds v -> settled v.
Proof. intros [W E]. split; auto. Qed.
Lemma held_alive v : result_held v -> result_alive v.
Proof. intros H r E. eexists. by apply H. Qed.
Lemma idle_alive v : idle v -> result_alive v.
Proof. intros [W E] r. by rewrite E. Qed.

Lemma idle_with_cursor v c :
  idle v -> c_stmt c = v_stmt v -> c_result c = v_result v -> idle (with_cursor c v).
Proof. intros [W E] Hs Hr. split; [apply well_with_cursor; auto|]. cbn. congruence. Qed.

End Grows.
