(* ===== verification/HandleRuns.v ===== *)
(** * The handles of connections and cursors

    What the entry points of [Connection] and [Cursor] do to the handles: those
    that leave the view alone, those that keep a cursor without a result set
    ([idle]), those that take a result set or give it back. *)

From stdpp Require Import gmap.
From S2P Require Import Prelude Parser Values DateTime Wire Fetch Exceptions Params Client.
From S2P Require Import Connection Cursor Session CursorLogic HandleLogic.

(** ** Connections *)

Section Connections.

Context `{C : Client} `{P : PyLib}.

Context {G : Guard}.

Variable v : view.
Hypothesis W : well v.

Lemma framed_throw_diag op : keeps_handles op = true -> Forall (alive v) (handles_of op) ->
  framed v (throw_diag op).
Proof. intros. unfold throw_diag. apply framed_bind; [by apply framed_call|]. framed_auto. Qed.

Lemma framed_none : framed v return_none.
Proof. unfold return_none. framed_auto. Qed.
Lemma framed_bool b : framed v (return_bool b).
Proof. unfold return_bool. framed_auto. Qed.
Lemma framed_long z : framed v (return_long z).
Proof. unfold return_long. framed_auto. Qed.
Lemma framed_unicode s : framed v (return_unicode s).
Proof. unfold return_unicode. framed_auto. Qed.

End Connections.

#[export] Hint Resolve framed_none framed_bool framed_long framed_unicode : framed.
#[export] Hint Extern 2 (framed _ (throw_diag _)) =>
  apply framed_throw_diag; [reflexivity|solve [alive_auto]] : framed.

Section ConnectionRequests.

Context `{C : Client} `{P : PyLib}.

Context {G : Guard}.

Variable v : view.
Hypothesis W : well v.

Lemma framed_unlocked m op : alive v m -> keeps_handles op = true -> Forall (alive v) (handles_of op) ->
  framed v (unlocked_command m op).
Proof.
  intros Hm Hk Ha. unfold unlocked_command. apply framed_bind; [framed_auto|intros _].
  apply framed_bind; [by apply framed_call|]. framed_auto.
Qed.

Lemma framed_check_connection {A} (ret : A) k :
  (∀ m, v_mysql v = Some m -> framed v (k m)) -> framed v (MARIADB_CHECK_CONNECTION ret k).
Proof.
  intros Hk. unfold MARIADB_CHECK_CONNECTION. apply framed_get_conn. intros n N.
  rewrite (no_mysql _ _ N). destruct (v_mysql v) eqn:E; [by apply Hk|]. framed_auto.
Qed.

(** The requests to a connection that neither open nor close it. *)
Definition conn_request (r : request) : bool :=
  match r with
  | ConnPing | ConnReset | ConnReconnect | ConnDump | ConnChangeUser _ | ConnCommand _ | ConnReadResponse
  | ConnGetReconnect | ConnSetReconnect _ | ConnId | ConnWarnings | ConnSocket | ConnEscape _ _
  | ConnInfo _ | ConnConverter _ | ConnTls _ | ConnRepr _ => true
  | _ => false
  end.

Ltac checked :=
  apply framed_check_connection; intros m Hm; pose proof (well_mysql _ _ W Hm).

#[local] Hint Extern 2 (framed _ (unlocked_command _ _)) =>
  apply framed_unlocked; [assumption|reflexivity|solve [alive_auto]] : framed.

Lemma framed_X509 info : framed v (MrdbConnection_X509info info).
Proof. unfold MrdbConnection_X509info. framed_auto. Qed.
#[local] Hint Resolve framed_X509 : framed.

Lemma framed_conn_request al r : conn_request r = true -> framed v (perform al r).
Proof.
  intros Hr. destruct r; try done; cbn [perform]; unfold fmap, M_fmap;
    (apply framed_bind; [|framed_auto]);
    unfold MrdbConnection_ping, MrdbConnection_reset, MrdbConnection_reconnect,
      MrdbConnection_dump_debug_info, MrdbConnection_change_user, MrdbConnection_executecommand,
      MrdbConnection_connection_id, MrdbConnection_warnings, MrdbConnection_socket,
      MrdbConnection_escape_string; try (checked; framed_auto).
  - unfold MrdbConnection_readresponse. framed_auto.
  - unfold MrdbConnection_getreconnect. framed_auto.
  - unfold MrdbConnection_setreconnect. framed_auto.
  - unfold MrdbConnection_getinfo. framed_auto.
  - framed_auto.
  - framed_auto.
  - unfold MrdbConnection_repr. framed_auto.
Qed.

End ConnectionRequests.

(** ** Cursors: functions that leave the view alone *)

Lemma hwp_the_mysql `{C : Client} {B} v (k : nat -> M B) Q :
  (∀ m, v_mysql v = Some m -> hwp (k m) Q v) -> hwp (the_mysql ≫= k) Q v.
Proof.
  intros H w E. subst v. unfold the_mysql, mbind, M_bind, get_conn, nonnull.
  destruct (n_mysql (w_conn w)) eqn:Em; [|done]. cbn. by apply H.
Qed.

Lemma framed_the_mysql `{C : Client} {B} v (k : nat -> M B) :
  (∀ m, v_mysql v = Some m -> framed v (k m)) -> framed v (the_mysql ≫= k).
Proof. apply hwp_the_mysql. Qed.

Ltac framed_cursor :=
  repeat (intros; first
    [ match goal with |- framed _ (mbind _ the_mysql) => apply framed_the_mysql end
    | framed_step ]); intros.

Section Cursors.

Context `{C : Client} `{P : PyLib} (al : allocations).

Context {G : Guard}.

Variable v : view.
Hypothesis W : well v.

Lemma framed_upd_parseinfo f :
  (∀ i, p_is_text (f i) = p_is_text i) -> framed v (upd_parseinfo f).
Proof. intros H. apply framed_upd_cur. intros c. split_and!; try done. apply H. Qed.

Lemma framed_by_protocol text stmt :
  (∀ m, v_mysql v = Some m -> framed v (text m)) ->
  (∀ s, keeps_handles (stmt s) = true ∧ handles_of (stmt s) = [s]) ->
  framed v (by_protocol text stmt).
Proof.
  intros Ht Hs. unfold by_protocol. framed_cursor.
  destruct (Hs n) as [Hk Hh]. apply framed_call; [done|]. rewrite Hh. alive_auto.
Qed.

#[local] Hint Extern 2 (framed _ (by_protocol _ _)) =>
  apply framed_by_protocol; [intros; apply framed_call; [reflexivity|alive_auto]|by intros] : framed.

Lemma framed_field_count : framed v CURSOR_FIELD_COUNT.
Proof. unfold CURSOR_FIELD_COUNT. framed_cursor. Qed.
Lemma framed_warning_count : framed v CURSOR_WARNING_COUNT.
Proof. unfold CURSOR_WARNING_COUNT. framed_cursor. Qed.
Lemma framed_affected_rows : framed v CURSOR_AFFECTED_ROWS.
Proof. unfold CURSOR_AFFECTED_ROWS. framed_cursor. Qed.
Lemma framed_insert_id : framed v CURSOR_INSERT_ID.
Proof. unfold CURSOR_INSERT_ID. framed_cursor. Qed.
Lemma framed_check_stmt : framed v MARIADB_CHECK_STMT.
Proof. unfold MARIADB_CHECK_STMT. framed_cursor. Qed.
Lemma framed_check_stmt_fetch : framed v MARIADB_CHECK_STMT_FETCH.
Proof. unfold MARIADB_CHECK_STMT_FETCH. framed_cursor. Qed.
Lemma framed_read_fields : framed v read_fields.
Proof. unfold read_fields. framed_cursor. Qed.
#[local] Hint Resolve framed_field_count framed_warning_count framed_affected_rows framed_insert_id
  framed_check_stmt framed_check_stmt_fetch framed_read_fields : framed.

(** *** Fetching *)

Lemma framed_fetch_column column codec : framed v (fetch_column column codec).
Proof. unfold fetch_column. framed_cursor. Qed.
#[local] Hint Resolve framed_fetch_column : framed.
Lemma framed_text_columns row i n : framed v (text_columns row i n).
Proof. revert i. induction n; intros i; simpl; unfold column_fromtext; framed_cursor. Qed.
Lemma framed_binary_columns calls : framed v (binary_columns calls).
Proof. induction calls as [|[]]; simpl; unfold column_callback; framed_cursor. Qed.
#[local] Hint Resolve framed_text_columns framed_binary_columns : framed.

Lemma framed_set_columns row i n : framed v (set_columns row i n).
Proof. revert row i. induction n; intros row i; simpl; unfold ma_set_result_column_value, set_item; framed_cursor. Qed.
#[local] Hint Resolve framed_set_columns : framed.
Lemma framed_build_row : framed v build_row.
Proof. unfold build_row, mariadb_get_sequence_or_tuple. framed_cursor. Qed.
#[local] Hint Resolve framed_build_row : framed.

(** *** Parameters *)

Lemma framed_raise_outcome {A} (o : outcome A) : framed v (raise_outcome o).
Proof. unfold raise_outcome. framed_cursor. Qed.
#[local] Hint Resolve framed_raise_outcome : framed.
Lemma framed_check_execute data caps : framed v (check_execute_parameters al data caps).
Proof. unfold check_execute_parameters. framed_cursor. Qed.
Lemma framed_check_bulk data caps : framed v (check_bulk_parameters al data caps).
Proof. unfold check_bulk_parameters. destruct (is_sequence data); framed_cursor. Qed.
Lemma framed_param_update data caps bs n : framed v (param_update data caps bs n).
Proof. unfold param_update. framed_cursor. Qed.
#[local] Hint Resolve framed_check_execute framed_check_bulk framed_param_update : framed.
Lemma framed_param_callbacks data caps bs rows : framed v (param_callbacks data caps bs rows).
Proof. revert bs. induction rows; intros bs; simpl; framed_cursor. Qed.
Lemma framed_load data caps : framed v (load_parameters al data caps).
Proof. unfold load_parameters. framed_cursor. Qed.
Lemma framed_bulk_capability : framed v bulk_capability.
Proof. unfold bulk_capability. framed_cursor. Qed.
Lemma framed_free_values : framed v MrdbCursor_FreeValues.
Proof. unfold MrdbCursor_FreeValues. framed_cursor. Qed.
Lemma framed_parser_keys ks i n : framed v (parser_keys ks i n).
Proof. revert i. induction n; intros i; simpl; framed_cursor. Qed.
Lemma framed_end_parser p : framed v (end_parser p).
Proof. unfold end_parser. framed_cursor. Qed.
Lemma framed_text_types data i n : framed v (text_types_loop data i n).
Proof. revert i. induction n; intros i; simpl; framed_cursor. Qed.
Lemma framed_describe i n acc : framed v (describe_fields i n acc).
Proof. revert i acc. induction n; intros i acc; simpl; framed_cursor. Qed.
#[local] Hint Resolve framed_param_callbacks framed_text_types framed_describe : framed.

(** *** Requests *)

(** The requests to a cursor that leave the view alone whatever its result
    set. *)
Definition plain_request (r : request) : bool :=
  match r with
  | CurMetadata | CurDescription | CurRowNumber | CurWarnings | CurClosed | CurInsertId
  | CurExecuteText _ | CurCheckTextTypes | CurRepr _
  | CurMember (M_data _ | M_data_deleted | M_reprepare _ | M_cursor_type _ | M_rownumber _ | M_arraysize _
              | M_resulttype _ | M_command _) => true
  | _ => conn_request r
  end.

Lemma framed_execute_text stmt : framed v (MrdbCursor_execute_text stmt).
Proof.
  apply framed_check_connection. intros m Hm. pose proof (well_mysql _ _ W Hm).
  framed_cursor; intros; (apply framed_unlocked; [done|done|alive_auto]).
Qed.
#[local] Hint Resolve framed_execute_text : framed.

Lemma framed_request r : plain_request r = true -> framed v (perform al r).
Proof.
  intros Hr. destruct (conn_request r) eqn:Hc; [by apply framed_conn_request|].
  destruct r as [| | | | | | | | | | | | | | | | | | | | | | | | | | | | | | | | | | | | | | | | | | | | f];
    try done; cbn [perform]; unfold fmap, M_fmap; (apply framed_bind; [|framed_cursor]);
    unfold MrdbCursor_metadata, MrdbCursor_description, Mariadb_row_number, MrdbCursor_warnings,
      MrdbCursor_closed, cursor_insert_id, MrdbCursor_check_text_types, MrdbCursor_repr; try solve [framed_cursor].
  apply framed_upd_cur. intros c. by destruct f.
Qed.

(** With the result set alive. *)
Hypothesis R : result_alive v.

Lemma framed_num_rows : framed v CURSOR_NUM_ROWS.
Proof. unfold CURSOR_NUM_ROWS. framed_cursor. Qed.
#[local] Hint Resolve framed_num_rows : framed.

Lemma framed_fetchinternal : framed v MrdbCursor_fetchinternal.
Proof. unfold MrdbCursor_fetchinternal. framed_cursor. Qed.
#[local] Hint Resolve framed_fetchinternal : framed.

Lemma framed_fetch_loop fuel i n acc : framed v (fetch_loop fuel i n acc).
Proof. revert i acc. induction fuel; intros i acc; simpl; framed_cursor. Qed.
#[local] Hint Resolve framed_fetch_loop : framed.

Definition result_request (r : request) : bool :=
  match r with CurFetchOne | CurFetchRows _ | CurSeek _ | CurRowCount => true | _ => false end.

Lemma framed_result_request r : result_request r = true -> framed v (perform al r).
Proof.
  intros Hr. destruct r; try done; cbn [perform]; unfold fmap, M_fmap;
    (apply framed_bind; [|framed_cursor]);
    unfold MrdbCursor_fetchone, MrdbCursor_fetchrows, fetch_rows_loop, MrdbCursor_seek, Mariadb_row_count;
    framed_cursor.
Qed.

End Cursors.

#[export] Hint Resolve framed_field_count framed_warning_count framed_affected_rows framed_insert_id
  framed_check_stmt framed_check_stmt_fetch framed_read_fields framed_check_execute framed_check_bulk
  framed_param_update framed_param_callbacks framed_load framed_bulk_capability framed_free_values
  framed_parser_keys framed_end_parser framed_num_rows : framed.

(** One step of a computation with a postcondition; a step that leaves the view
    alone is passed over. *)
Ltac hstep :=
  intros;
  lazymatch goal with
  | |- hwp (mbind _ get_cur) _ _ => apply hwp_get_cur; intros
  | |- hwp (mbind _ get_conn) _ _ => apply hwp_get_conn; intros
  | |- hwp (mbind _ (nonnull _)) _ _ => apply hwp_nonnull; intros
  | |- hwp (mbind _ _) _ _ => apply hwp_framed; [solve [framed_cursor]|intros]
  end.
