(* ===== verification/HandleRequests.v ===== *)
(** * Requests that change the handles

    Clearing, closing, parsing, executing, and taking the result set: what they
    do to a cursor without a result set ([idle]), to one that holds one
    ([holds]), and to the handles of the connection. *)

From stdpp Require Import gmap.
From S2P Require Import Prelude Parser Values DateTime Wire Fetch Exceptions Params Client.
From S2P Require Import Connection Cursor Session CursorLogic HandleLogic HandleRuns.

(** The result set, if there is one, is gone; nothing else changed but the
    supply of handles. *)
Record result_cleared `{G : Guard} (v v' : view) : Prop := mkCleared {
  cl_well : well v';
  cl_result : v_result v' = None;
  cl_mysql : v_mysql v' = v_mysql v;
  cl_closed : v_closed v' = v_closed v;
  cl_stmt : v_stmt v' = v_stmt v;
  cl_text : v_text v' = v_text v;
  cl_fields : v_fields v' = v_fields v;
  cl_buffered : v_buffered v' = v_buffered v;
}.

Lemma result_cleared_idle `{G : Guard} v v' : result_cleared v v' -> idle v'.
Proof. by intros []. Qed.

(** The result set, if there is one, is a result set that is alive and nobody
    else's. *)
Definition result_kind `{G : Guard} (v : view) : Prop :=
  ∀ r, v_result v = Some r -> (∃ b, v_live v !! r = Some (KRes b)) ∧ guard !! r = None.

Lemma held_kind `{G : Guard} v : result_held v -> result_kind v.
Proof. intros H r E. destruct (H r E) as (_ & _ & Hl & Hg). split; [by eexists|done]. Qed.
Lemma idle_kind `{G : Guard} v : idle v -> result_kind v.
Proof. intros [_ E] r. by rewrite E. Qed.

Section Requests.

Context `{C : Client} `{P : PyLib} {G : Guard} (al : allocations).

(** ** Clearing *)

Lemma framed_drain_stmt fuel s v : alive v s -> framed v (drain_stmt fuel s).
Proof. intros Hs. induction fuel; simpl; framed_cursor. Qed.

Lemma hwp_drain_text fuel m v :
  well v -> v_mysql v = Some m -> hwp (drain_text fuel m) (λ _ v', grows v v') v.
Proof.
  revert v. induction fuel as [|fuel IH]; intros v W Hm; cbn [drain_text]; [by apply hwp_fail|].
  assert (Hnext : ∀ v', grows v v' ->
    hwp (rc ← call (mysql_next_result m); if rc =? 0 then drain_text fuel m else mret ())
      (λ _ v'', grows v v'') v').
  { intros v' Gr. pose proof (grows_well _ _ W Gr) as W'.
    assert (v_mysql v' = Some m) by by rewrite (gr_mysql _ _ Gr).
    hstep. destruct (_ =? 0); [|by apply hwp_ret].
    eapply hwp_mono; [by apply IH|]. intros ? v''. by apply grows_trans. }
  apply hwp_bind, hwp_create; [done|alive_auto| |].
  - apply hwp_bind, hwp_ret, Hnext. by apply grows_refl.
  - apply hwp_bind, hwp_call; [|intros _; apply Hnext, grows_temporary, W].
    apply Forall_cons; [|done]. unfold alive. cbn. rewrite lookup_insert_eq. by eexists.
Qed.

(** Behind the drain: the lock, the pointer, and None. *)
Lemma hwp_clear_end v0 v :
  well v -> v_mysql v = v_mysql v0 -> v_closed v = v_closed v0 -> v_stmt v = v_stmt v0 ->
  v_text v = v_text v0 -> v_fields v = v_fields v0 -> v_buffered v = v_buffered v0 ->
  hwp (MARIADB_END_ALLOW_THREADS;; upd_cur (set_c_result None);; return_none)
    (λ _ v', result_cleared v0 v') v.
Proof.
  intros W H1 H2 H3 H4 H5 H6. hstep. apply hwp_bind, hwp_upd_cur. intros c [].
  set (v1 := with_cursor _ _). eapply hwp_mono; [apply framed_none|]. intros ? v' ->.
  split; try (cbn; congruence). apply well_with_cursor; [done|]. by left.
Qed.

Lemma hwp_clear_result v :
  well v -> result_kind v -> hwp MrdbCursor_clear_result (λ _ v', result_cleared v v') v.
Proof.
  intros W R. unfold MrdbCursor_clear_result. apply hwp_get_cur. intros c Hc.
  rewrite (co_text _ _ Hc). destruct (v_text v) eqn:Et.
  - apply hwp_bind. rewrite (co_result _ _ Hc).
    assert (Hrest : ∀ v1, well v1 -> v_mysql v1 = v_mysql v -> v_closed v1 = v_closed v ->
      v_stmt v1 = v_stmt v -> v_text v1 = v_text v -> v_fields v1 = v_fields v -> v_buffered v1 = v_buffered v ->
      hwp (n ← get_conn; match n_mysql n with Some m => drain_text_results m | None => mret () end)
        (λ _ v2, hwp (MARIADB_END_ALLOW_THREADS;; upd_cur (set_c_result None);; return_none)
                   (λ _ v', result_cleared v v') v2) v1).
    { intros v1 W1 H1 H2 H3 H4 H5 H6. apply hwp_get_conn. intros n Hn. rewrite (no_mysql _ _ Hn).
      destruct (v_mysql v1) as [m|] eqn:Em.
      - unfold drain_text_results. hstep. eapply hwp_mono; [by apply hwp_drain_text|].
        intros ? v2 Gr. pose proof (grows_well _ _ W1 Gr). destruct Gr. apply hwp_clear_end; congruence.
      - apply hwp_ret, hwp_clear_end; congruence. }
    apply hwp_bind. destruct (v_result v) as [r|] eqn:Er.
    + destruct (R r Er) as [[b Hb] Hg]. apply hwp_call; [|].
      { apply Forall_cons; [|done]. by exists (KRes b). }
      intros _. apply Hrest; try done. by eapply well_delete.
    + by apply hwp_ret, Hrest.
  - destruct (c_stmt c) as [s|] eqn:Es.
    + apply hwp_framed; [|intros; by apply hwp_clear_end]. pose proof (well_cur _ _ _ W Hc Es).
      framed_cursor. unfold drain_stmt_results. framed_cursor. by apply framed_drain_stmt.
    + apply hwp_bind, hwp_ret. by apply hwp_clear_end.
Qed.

(** ** Cursors without a result set *)

Definition keeps_idle {A : Type} (m : M A) : Prop := ∀ v, idle v -> hwp m (λ _ v', idle v') v.

Lemma hwp_idle_bind {A B} (m : M A) (k : A -> M B) Q v :
  hwp m (λ _ v', idle v') v -> (∀ a v', idle v' -> hwp (k a) Q v') -> hwp (m ≫= k) Q v.
Proof. intros Hm Hk. apply hwp_bind. eapply hwp_mono; [exact Hm|]. auto. Qed.

Lemma idle_framed {A} (m : M A) v : idle v -> framed v m -> hwp m (λ _ v', idle v') v.
Proof. intros Hi Hm. eapply hwp_mono; [exact Hm|]. by intros ? ? ->. Qed.

Lemma idle_upd_cur f v :
  idle v -> (∀ c, c_stmt (f c) = c_stmt c ∧ c_result (f c) = c_result c) ->
  hwp (upd_cur f) (λ _ v', idle v') v.
Proof.
  intros Hi Hf. apply hwp_upd_cur. intros c Hc. destruct (Hf c) as [E1 E2]. destruct Hc.
  apply idle_with_cursor; congruence.
Qed.

Lemma idle_clear_result : keeps_idle MrdbCursor_clear_result.
Proof.
  intros v Hi. eapply hwp_mono; [apply hwp_clear_result; [apply Hi|by apply idle_kind]|].
  intros ? v'. apply result_cleared_idle.
Qed.

Lemma idle_clearparseinfo : keeps_idle MrdbCursor_clearparseinfo.
Proof.
  intros v Hi. unfold MrdbCursor_clearparseinfo. hstep. apply idle_upd_cur; [done|]. by intros.
Qed.

Lemma hwp_clear v : well v -> result_kind v -> hwp (MrdbCursor_clear false) (λ _ v', idle v') v.
Proof.
  intros W R. unfold MrdbCursor_clear. apply hwp_bind. eapply hwp_mono; [by apply hwp_clear_result|].
  intros ? v1 Hc%result_cleared_idle. pose proof Hc as [W1 _]. hstep. hstep. hstep. hstep.
  eapply hwp_idle_bind; [by apply idle_clearparseinfo|]. intros ? v2 H2.
  apply idle_framed; [done|]. framed_cursor.
Qed.

(** ** Closing a cursor *)

Lemma idle_close_stmt s v :
  idle v -> v_stmt v = Some s ->
  hwp (MARIADB_BEGIN_ALLOW_THREADS;; call (mysql_stmt_close s);; MARIADB_END_ALLOW_THREADS;;
       upd_cur (set_c_stmt None)) (λ _ v', idle v') v.
Proof.
  intros [W E] Hs. hstep. apply hwp_bind, hwp_call; [alive_auto|]. intros u. hstep.
  apply hwp_upd_cur. intros c Hc. split; [|cbn; by rewrite (co_result _ _ Hc)].
  pose proof W as [Hf Hm Hst Hp Hg Hcn]. split; cbn; [|intros m Em|done|done| |done].
  - intros h Hh. rewrite lookup_delete_None. right. by apply Hf.
  - apply Hm in Em. apply Hst in Hs. rewrite lookup_delete_ne by congruence. done.
  - by apply guard_delete, Hp.
Qed.

Lemma hwp_cursor_close v : well v -> result_kind v -> hwp ma_cursor_close (λ _ v', v' = v ∨ idle v') v.
Proof.
  intros W R. unfold ma_cursor_close. hstep. destruct (c_closed _); [by apply hwp_ret; left|].
  apply hwp_bind. eapply hwp_mono; [by apply hwp_clear_result|].
  intros ? v1 Hc%result_cleared_idle. hstep.
  eapply hwp_idle_bind.
  { match goal with H : cur_of v1 ?c |- _ => rewrite (co_text _ _ H), (co_stmt _ _ H) end.
    destruct (v_text v1); [by apply hwp_ret|]. destruct (v_stmt v1) eqn:Es; [|by apply hwp_ret].
    by apply idle_close_stmt. }
  intros ? v2 [W2 E2]. eapply hwp_idle_bind; [apply hwp_clear; [done|]; intros r; by rewrite E2|].
  intros ? v3 Hi3. eapply hwp_idle_bind; [by apply idle_clearparseinfo|]. intros ? v4 H4.
  eapply hwp_mono; [apply idle_framed; [exact H4|framed_cursor]|].
  intros ? v5 H5. by right.
Qed.

(** ** Parsing *)

Lemma idle_upd_parseinfo f : keeps_idle (upd_parseinfo f).
Proof. intros v Hi. by apply idle_upd_cur. Qed.

Lemma idle_save_parser old p : keeps_idle (save_parser al old p).
Proof.
  intros v Hi. pose proof Hi as [W _]. unfold save_parser. hstep.
  eapply hwp_idle_bind; [by apply idle_upd_parseinfo|]. intros ? v1 H1.
  hstep. cbv zeta. eapply hwp_idle_bind; [by apply idle_upd_parseinfo|]. intros ? v2 H2.
  destruct (paramstyle p), (keys p); try by apply hwp_ret.
  hstep. hstep. by apply idle_upd_parseinfo.
Qed.

Lemma framed_server_version v : well v -> framed v server_version.
Proof.
  intros W. unfold server_version. apply framed_get_conn. intros n Hn. rewrite (no_mysql _ _ Hn).
  destruct (v_mysql v) as [m|] eqn:E; [|by apply framed_ret].
  pose proof (well_mysql _ _ W E). apply framed_call; [reflexivity|alive_auto].
Qed.

Lemma framed_parser_mysql v r : framed v (parser_mysql r).
Proof. unfold parser_mysql. framed_cursor. Qed.

Lemma idle_parse stmt : keeps_idle (MrdbCursor_parse al stmt).
Proof.
  intros v Hi. unfold MrdbCursor_parse, parseinfo. hstep. cbv zeta.
  eapply hwp_idle_bind.
  { destruct (p_statement _); [by apply idle_clearparseinfo|by apply hwp_ret]. }
  intros ? v1 H1. pose proof H1 as [W1 _]. hstep.
  apply hwp_framed; [by apply framed_server_version|]. intros ver.
  destruct (MrdbParser_init _ _ _ _) as [|p|]; [| |by apply hwp_fail].
  - apply idle_framed; [done|]. framed_cursor.
  - cbv zeta. apply hwp_framed; [apply framed_parser_mysql|]. intros _.
    destruct (MrdbParser_parse _ _ _ _) as [q|q msg| |]; [| |by apply hwp_fail..].
    + eapply hwp_idle_bind; [by apply idle_save_parser|]. intros ? v2 H2.
      apply idle_framed; [done|]. framed_cursor.
    + apply idle_framed; [done|]. framed_cursor.
Qed.

(** ** Executing *)

(** The statement handle, old or new. *)
Lemma hwp_ensure_stmt v :
  idle v -> hwp ensure_stmt (λ o v', idle v' ∧ (is_Some o -> v_stmt v' = o)) v.
Proof.
  intros [W E]. unfold ensure_stmt. apply hwp_get_cur. intros c Hc. rewrite (co_stmt _ _ Hc).
  destruct (v_stmt v) as [s|] eqn:Es; [by apply hwp_ret|].
  apply hwp_the_mysql. intros m Hm. apply hwp_bind, hwp_create; [done|alive_auto| |].
  - apply hwp_bind, hwp_upd_cur. intros c' Hc'.
    assert (W' : idle (with_cursor (set_c_stmt None c') v)).
    { split; [apply well_with_cursor; [done|]; by right|]. cbn. by rewrite (co_result _ _ Hc'). }
    destruct W' as [W1 E1]. assert (Hm1 : v_mysql (with_cursor (set_c_stmt None c') v) = Some m) by done.
    hstep. apply hwp_ret. split; [by split|]. by intros [].
  - apply hwp_bind, hwp_upd_cur. intros c' Hc'. set (v2 := with_cursor _ _).
    assert (W2 : idle v2).
    { split; [apply well_with_cursor; [by apply well_add|]; right|cbn; by rewrite (co_result _ _ Hc')].
      intros s [= <-]. cbn. rewrite lookup_insert_eq. split; [done|by apply well_next]. }
    apply hwp_bind, hwp_ret, hwp_ret. split; [done|]. by intros _.
Qed.

Lemma hwp_execute_direct s statement v :
  idle v -> v_stmt v = Some s ->
  hwp (Mrdb_execute_direct s statement) (λ _ v', idle v' ∧ v_stmt v' = Some s) v.
Proof.
  intros Hi Hs. pose proof Hi as [W _]. unfold Mrdb_execute_direct. hstep. hstep.
  apply hwp_bind. eapply hwp_mono; [apply hwp_clear_result; [done|by apply idle_kind]|].
  intros ? v1 Hc. pose proof (result_cleared_idle _ _ Hc) as Hi1. pose proof Hi1 as [W1 _].
  assert (Hs1 : v_stmt v1 = Some s) by by rewrite (cl_stmt _ _ Hc).
  hstep. hstep. hstep. by apply hwp_ret.
Qed.

Lemma idle_execute_binary : keeps_idle (MrdbCursor_execute_binary al).
Proof.
  intros v Hi. unfold MrdbCursor_execute_binary, submit_binary, MARIADB_CHECK_CONNECTION. hstep.
  destruct (n_mysql _); [|apply idle_framed; [done|framed_cursor]].
  apply hwp_bind. eapply hwp_mono; [by apply hwp_ensure_stmt|]. intros [s|] v1 [H1 Hs]; [|by apply hwp_ret].
  specialize (Hs ltac:(by eexists)). pose proof H1 as [W1 _].
  do 3 hstep. cbv zeta. do 2 hstep. destruct (negb _); [by apply hwp_ret|].
  hstep. hstep. hstep. hstep. hstep. destruct (negb _); [by apply hwp_ret|].
  hstep. apply hwp_bind. eapply hwp_mono; [by apply hwp_execute_direct|]. intros rc v2 [Hi2 Hs2].
  pose proof Hi2 as [W2 _]. destruct (negb _); [apply idle_framed; [done|framed_cursor]|].
  hstep. eapply hwp_idle_bind; [by apply idle_upd_cur|]. intros ? v3 Hi3.
  apply idle_framed; [done|framed_cursor].
Qed.

Lemma idle_readresponse : keeps_idle MrdbCursor_readresponse.
Proof.
  intros v Hi. pose proof Hi as [W _]. unfold MrdbCursor_readresponse, MARIADB_CHECK_CONNECTION.
  apply hwp_get_conn. intros n Hn.
  destruct (n_mysql n) eqn:E; [|apply idle_framed; [done|framed_cursor]].
  hstep. destruct (p_is_text _); [|apply idle_framed; [done|framed_cursor]].
  do 3 hstep. destruct (_ =? 0); [|apply idle_framed; [done|framed_cursor]].
  hstep. eapply hwp_idle_bind; [by apply idle_upd_cur|]. intros ? v3 Hi3.
  apply idle_framed; [done|framed_cursor].
Qed.

(** ** Taking the result set *)

Lemma holds_framed {A} (m : M A) v : holds v -> framed v m -> hwp m (λ _ v', holds v') v.
Proof. intros Hi Hm. eapply hwp_mono; [exact Hm|]. by intros ? ? ->. Qed.

(** A new result set of the kind the cursor asks for. *)
Lemma hwp_take_result m v :
  idle v -> v_mysql v = Some m -> v_text v = true -> v_fields v ≠ 0 ->
  hwp (r ← (if v_buffered v then create (mysql_store_result m) (KRes true)
            else create (mysql_use_result m) (KRes false));
       upd_cur (set_c_result r);;
       match r with
       | Some _ => mret false
       | None => throw_diag (mysql_diag m);; mret true
       end) (λ _ v', holds v') v.
Proof.
  intros [W E] Hm Ht Hf.
  assert (Hnone : hwp (upd_cur (set_c_result None);; throw_diag (mysql_diag m);; mret true)
                    (λ _ v', holds v') v).
  { apply hwp_bind, hwp_upd_cur. intros c Hc. set (v1 := with_cursor _ _).
    assert (Hi : idle v1) by (split; [apply well_with_cursor; [done|left; apply Hc]|done]).
    assert (Hm1 : v_mysql v1 = Some m) by done. pose proof Hi as [W1 _].
    apply holds_framed; [by apply idle_holds|]. framed_cursor. }
  assert (Hsome : hwp (upd_cur (set_c_result (Some (v_next v)));; mret false)
                    (λ _ v', holds v') (add_handle (KRes (v_buffered v)) v)).
  { apply hwp_bind, hwp_upd_cur. intros c [Cs Cr Ct Cf Cb]. apply hwp_ret.
    split; [apply well_with_cursor; [by apply well_add|by left]|].
    intros r [= <-]. cbn. rewrite Ct, Cf, Cb, lookup_insert_eq. split_and!; [done..|by apply well_next]. }
  destruct (v_buffered v); (apply hwp_bind, hwp_create; [done|alive_auto|done|done]).
Qed.

Lemma hwp_GetFieldInfo v : idle v -> hwp (Mrdb_GetFieldInfo al) (λ _ v', holds v') v.
Proof.
  intros Hi. pose proof Hi as [W _]. unfold Mrdb_GetFieldInfo. hstep. apply hwp_get_cur. intros c Hc.
  destruct (c_field_count c =? 0) eqn:Ef; [by apply hwp_ret, idle_holds|].
  apply Z.eqb_neq in Ef. rewrite (co_fields _ _ Hc) in Ef.
  apply hwp_bind. eapply (hwp_mono _ (λ _ v', holds v')).
  - rewrite (co_text _ _ Hc), (co_buffered _ _ Hc). destruct (v_text v) eqn:Et.
    + apply hwp_the_mysql. intros m Hm. by apply hwp_take_result.
    + apply holds_framed; [by apply idle_holds|]. framed_cursor.
  - intros err v' Hh. pose proof Hh as [W' R']. apply held_alive in R'. destruct err; [by apply hwp_ret|].
    apply holds_framed; [done|]. framed_cursor.
Qed.

Lemma hwp_InitResultSet v : idle v -> hwp (MrdbCursor_InitResultSet al) (λ _ v', holds v') v.
Proof.
  intros Hi. pose proof Hi as [W E]. unfold MrdbCursor_InitResultSet. hstep. apply hwp_get_cur. intros c Hc.
  rewrite (co_result _ _ Hc), E. apply hwp_bind, hwp_ret, hwp_bind.
  eapply (hwp_mono _ (λ _ v', holds v')).
  - destruct (_ =? 0); [apply holds_framed; [by apply idle_holds|framed_cursor]|].
    apply hwp_bind. eapply hwp_mono; [by apply hwp_GetFieldInfo|]. intros rc v1 Hh.
    pose proof Hh as [W1 R1]. apply held_alive in R1. apply holds_framed; [done|]. framed_cursor.
  - intros ok v1 Hh. pose proof Hh as [W1 _]. apply holds_framed; [done|]. framed_cursor.
Qed.

(** A result set is given back. *)
Lemma hwp_give_back v :
  well v -> result_kind v ->
  hwp (match v_result v with
       | Some r => call (mysql_free_result r);; upd_cur (set_c_result None)
       | None => mret ()
       end) (λ _ v', idle v') v.
Proof.
  intros W R. destruct (v_result v) as [r|] eqn:Er; [|by apply hwp_ret].
  destruct (R r Er) as [[b Hb] Hg]. apply hwp_bind, hwp_call.
  { apply Forall_cons; [|done]. by exists (KRes b). }
  intros u. apply hwp_upd_cur. intros c Hc. split; [|done].
  apply well_with_cursor; [by eapply well_delete|]. left. apply Hc.
Qed.

(** The next result set: the one before it is given back first. *)
Lemma hwp_nextset v : holds v -> hwp (MrdbCursor_nextset al) (λ _ v', holds v') v.
Proof.
  intros Hh. pose proof Hh as [W R]. unfold MrdbCursor_nextset. hstep. hstep.
  destruct a0; [by apply hwp_ret|]. apply hwp_get_cur. intros c Hc. apply hwp_bind.
  apply (hwp_mono _ (λ _ v', idle v')).
  - rewrite (co_text _ _ Hc), (co_result _ _ Hc). destruct (v_text v) eqn:Et.
    + eapply hwp_idle_bind; [apply hwp_give_back; [done|by apply held_kind]|]. intros ? v1 H1. pose proof H1 as [W1 _].
      apply idle_framed; [done|]. framed_cursor.
    + assert (Hi : idle v).
      { split; [done|]. destruct (v_result v) eqn:Er; [|done]. destruct (R _ Er). congruence. }
      apply idle_framed; [done|]. framed_cursor.
  - intros rc v1 H1. pose proof H1 as [W1 _]. destruct rc as [[| |]|]; 
      try solve [apply holds_framed; [by apply idle_holds|framed_cursor]].
    hstep. eapply hwp_idle_bind; [by apply idle_upd_cur|]. intros ? v2 H2.
    destruct (_ =? 0); [apply holds_framed; [by apply idle_holds|framed_cursor]|].
    apply hwp_bind. eapply hwp_mono; [by apply hwp_InitResultSet|]. intros r v3 H3.
    apply holds_framed; [done|]. framed_cursor.
Qed.

(** ** Bulk execution *)

Lemma idle_bulk_error : keeps_idle bulk_error.
Proof.
  intros v Hi. unfold bulk_error. eapply hwp_idle_bind.
  - apply hwp_clear; [apply Hi|by apply idle_kind].
  - intros ? v' H'. by apply hwp_ret.
Qed.

Lemma holds_bulk_error v : idle v -> hwp bulk_error (λ _ v', holds v') v.
Proof. intros Hi. eapply hwp_mono; [by apply idle_bulk_error|]. intros ? v'. apply idle_holds. Qed.

Lemma hwp_execute_bulk v : idle v -> hwp (MrdbCursor_execute_bulk al) (λ _ v', holds v') v.
Proof.
  intros Hi. pose proof Hi as [W _]. unfold MrdbCursor_execute_bulk. hstep. hstep.
  destruct a0; [by apply hwp_ret, idle_holds|]. hstep.
  destruct (c_data _) as [data|]; [|apply holds_framed; [by apply idle_holds|framed_cursor]].
  apply hwp_bind. eapply hwp_mono; [by apply hwp_ensure_stmt|].
  intros [s|] v1 [H1 Hs]; [|by apply holds_bulk_error].
  specialize (Hs ltac:(by eexists)). pose proof H1 as [W1 _].
  do 2 hstep. destruct (negb _); [by apply holds_bulk_error|].
  do 7 hstep. destruct (negb _); [hstep; by apply holds_bulk_error|].
  hstep. apply hwp_bind. eapply hwp_mono; [by apply hwp_execute_direct|]. intros rc v2 [Hi2 Hs2].
  pose proof Hi2 as [W2 _]. destruct (negb _); [hstep; by apply holds_bulk_error|].
  hstep. eapply hwp_idle_bind; [by apply idle_upd_cur|]. intros ? v3 Hi3. pose proof Hi3 as [W3 _].
  destruct (_ =? 0); [apply holds_framed; [by apply idle_holds|framed_cursor]|].
  apply hwp_bind. eapply hwp_mono; [by apply hwp_InitResultSet|]. intros r v4 Hh.
  apply holds_framed; [done|]. framed_cursor.
Qed.

(** ** Opening and closing *)

Lemma idle_cursor_initialize args : keeps_idle (MrdbCursor_initialize args).
Proof.
  intros v Hi. unfold MrdbCursor_initialize. hstep.
  destruct args as [[[[prefetch ?] prepared] ?]|]; [|apply idle_framed; [done|framed_cursor]].
  do 2 hstep. destruct (bool_decide _); [apply idle_framed; [done|framed_cursor]|].
  destruct (_ && _); [apply idle_framed; [done|framed_cursor]|].
  eapply hwp_idle_bind; [|intros ? v1 H1; eapply hwp_idle_bind; [by apply idle_upd_parseinfo|]].
  - apply hwp_upd_cur. intros c1 Hc. destruct Hi as [W E].
    split; [apply well_with_cursor; [done|by right]|]. cbn. by rewrite (co_result _ _ Hc).
  - intros ? v2 H2. by apply hwp_ret.
Qed.

Lemma framed_set_options m l v : alive v m -> framed v (set_options m l).
Proof. intros Hm. induction l; simpl; framed_cursor. Qed.

Lemma framed_connect_unlocked a m v : alive v m -> framed v (connect_unlocked a m).
Proof.
  intros Hm. unfold connect_unlocked. pose proof framed_set_options. framed_cursor.
Qed.

Lemma idle_Initialize args : guard_conn = None -> keeps_idle (MrdbConnection_Initialize args).
Proof.
  intros Hcn v Hi. unfold MrdbConnection_Initialize, connect_end. hstep.
  destruct args as [a'|]; [|apply idle_framed; [done|framed_cursor]].
  destruct (a_dsn a'); [apply idle_framed; [done|framed_cursor]|]. hstep.
  destruct Hi as [W E]. apply hwp_bind, hwp_create; [done|done| |].
  - apply hwp_bind, hwp_upd_conn. intros n Hn. set (v1 := mkView _ _ _ _ _ _ _ _ _).
    assert (idle v1) by (destruct W; split; [split; try done; by rewrite Hcn|done]). apply idle_framed; [done|framed_cursor].
  - apply hwp_bind, hwp_upd_conn. intros n Hn. set (v1 := mkView _ _ _ _ _ _ _ _ _).
    assert (Hi : idle v1).
    { destruct (well_add v KMysql W). split; [split; try done|done]; [|by rewrite Hcn]. intros m [= <-]. cbn.
      by rewrite lookup_insert_eq. }
    assert (Hm : alive v1 (v_next v)) by (apply (well_mysql v1); [apply Hi|done]).
    pose proof framed_connect_unlocked. apply idle_framed; [done|]. framed_cursor.
Qed.

(** Fewer handles to guard are guarded as well. *)
Lemma settled_weaken (G' : Guard) v :
  guard (Guard := G') ⊆ guard (Guard := G) ->
  (guard_conn (Guard := G') = None ∨ guard_conn (Guard := G') = guard_conn (Guard := G)) ->
  settled (G := G) v -> settled (G := G') v.
Proof.
  intros Hsub Hcn [[Hf Hm Hst Hp Hg Hc] H].
  assert (Hn : ∀ h, guard (Guard := G) !! h = None -> guard (Guard := G') !! h = None)
    by (intros h Hh; by eapply lookup_weaken_None).
  split; [split; auto; [by etrans|destruct Hcn as [->| ->]; auto; done]|]. destruct H as [R|]; [left|by right].
  intros r E. destruct (R r E) as (? & ? & ? & ?). auto.
Qed.

Lemma settled_closed v : settled v -> settled (G := closed_guard G) v.
Proof. intros H. apply settled_weaken; [apply map_filter_subseteq|by left|done]. Qed.

(** The result set that goes with the connection is one the cursor does not
    claim to have buffered. *)
Lemma hwp_connection_close v :
  settled v -> hwp MrdbConnection_close (λ _ v', settled (G := closed_guard G) v') v.
Proof.
  intros Hs. unfold MrdbConnection_close, MARIADB_CHECK_CONNECTION. apply hwp_get_conn. intros n Hn.
  rewrite (no_mysql _ _ Hn). destruct (v_mysql v) as [m|] eqn:Em.
  2: { eapply hwp_mono; [apply hwp_framed; [framed_cursor|intros; by apply framed_ret]|].
       intros ? ? ->. by apply settled_closed. }
  destruct Hs as [W [R|(? & _)]]; [|congruence]. unfold close_handle. apply hwp_bind.
  hstep. apply hwp_bind, hwp_call; [alive_auto|]. intros u. hstep.
  apply hwp_upd_conn. intros n1 Hn1. apply hwp_bind, hwp_upd_conn. intros n2 Hn2. cbn.
  set (v1 := mkView _ _ _ _ _ _ _ _ _). eapply hwp_mono; [apply framed_none|]. intros ? v' ->.
  pose proof W as [Hf Hm Hst Hp Hg _]. specialize (Hm m Em).
  assert (Hold : ∀ h k, v_live v !! h = Some k -> k ≠ KMysql -> k ≠ KRes false -> v_live v1 !! h = Some k).
  { intros h k Hk Hk1 Hk2. cbn. apply map_lookup_filter_Some. split; [|done].
    rewrite lookup_delete_ne by congruence. done. }
  split; [split|].
  - intros h Hh. cbn. apply map_lookup_filter_None. left. rewrite lookup_delete_None. right. by apply Hf.
  - cbn. rewrite (no_mysql _ _ Hn2). done.
  - intros s Es. apply Hold; [by apply Hst|done..].
  - intros s Es. cbn. apply map_lookup_filter_None. left. by apply Hp.
  - apply map_subseteq_spec. intros h k Hk. cbn in Hk. apply map_lookup_filter_Some in Hk as [Hk Hk'].
    apply Hold; [by eapply lookup_weaken|exact (guard_kinds h k Hk)|done].
  - done.
  - destruct (v_buffered v) eqn:Eb; [left|right; split_and!; cbn; try done; by rewrite (no_mysql _ _ Hn2)].
    intros r Er. destruct (R r Er) as (Ht & Hfc & Hl & Hn'). split_and!; [done..| |].
    + apply (Hold r); [|done..]. by rewrite Eb in Hl.
    + cbn. apply map_lookup_filter_None. by left.
Qed.

End Requests.
