(* ===== verification/HandleSafety.v ===== *)
(** * Applications and the handles of the library

    An application opens a connection, makes a cursor and then calls what it
    likes, in any order, closing the connection under the cursor included.  No
    call passes a handle to the library that the library has ended. *)

From stdpp Require Import gmap.
From S2P Require Import Prelude Parser Values DateTime Wire Fetch Exceptions Params Client.
From S2P Require Import Connection Cursor Session CursorLogic Demo Python PyCursor PyConnection PyApi.
From S2P Require Import PyRuns HandleLogic HandleRuns HandleRequests.

(** ** The methods of the Python classes *)

Section Rules.

Context `{C : Client} `{P : PyLib} {G : Guard} (al : allocations).

(** No exception is set before and behind a method. *)
Definition pwp {A : Type} (m : PM A) (Q : pyexn + A -> view -> Prop) (v : view) : Prop :=
  ∀ s (w : world C), view_of w = v -> w_err w = None ->
  match m s w with
  | Done (_, r) w' => w_err w' = None ∧ Q r (view_of w')
  | Stuck st => st ≠ InvalidHandle
  end.

(** Whatever the outcome, an invariant holds behind the method. *)
Definition pinv {A : Type} (m : PM A) (J : view -> Prop) (v : view) : Prop := pwp m (λ _ v', J v') v.

Lemma pwp_mono {A} (m : PM A) (Q Q' : pyexn + A -> view -> Prop) v :
  pwp m Q v -> (∀ r v', Q r v' -> Q' r v') -> pwp m Q' v.
Proof.
  intros H HQ s w E He. specialize (H s w E He). destruct (m s w) as [[s' r] w'|]; [|done].
  destruct H. auto.
Qed.

Lemma pwp_bind {A B} (m : PM A) (k : A -> PM B) Q v :
  pwp m (λ r v', match r with inr a => pwp (k a) Q v' | inl x => Q (inl x) v' end) v ->
  pwp (m ≫= k) Q v.
Proof.
  intros H s w E He. specialize (H s w E He). unfold mbind, PM_bind, mbind, M_bind.
  destruct (m s w) as [[s' [x|a]] w'|]; [done| |done]. destruct H as [He' H]. by apply H.
Qed.

Lemma pinv_ret {A} (a : A) (J : view -> Prop) v : J v -> pinv (mret a) J v.
Proof. by intros H s w <- He. Qed.
Lemma pinv_raise {A} x (J : view -> Prop) v : J v -> pinv (raise (A := A) x) J v.
Proof. by intros H s w <- He. Qed.

(** A first part under an invariant of its own. *)
Lemma pinv_bind {A B} (m : PM A) (k : A -> PM B) (I J : view -> Prop) v :
  pinv m I v -> (∀ v', I v' -> J v') -> (∀ a v', I v' -> pinv (k a) J v') -> pinv (m ≫= k) J v.
Proof. intros Hm HJ Hk. apply pwp_bind. eapply pwp_mono; [exact Hm|]. intros [x|a] v' H; [by apply HJ|by apply Hk]. Qed.

Lemma pinv_mono {A} (m : PM A) (I J : view -> Prop) v : pinv m I v -> (∀ v', I v' -> J v') -> pinv m J v.
Proof. intros H HJ. eapply pwp_mono; [exact H|]. intros r v'. apply HJ. Qed.

Lemma pinv_the_cursor {B} (k : MrdbCursor -> PM B) J v :
  (∀ c, cur_of v c -> pinv (k c) J v) -> pinv (the_cursor ≫= k) J v.
Proof. intros H s w <- He. exact (H (w_cur w) ltac:(by split) s w eq_refl He). Qed.

Lemma pinv_the_connection {B} (k : MrdbConnection -> PM B) J v :
  (∀ n, conn_of v n -> pinv (k n) J v) -> pinv (the_connection ≫= k) J v.
Proof. intros H s w <- He. exact (H (w_conn w) ltac:(by split) s w eq_refl He). Qed.

Lemma pinv_attrs (J : view -> Prop) v : J v -> pinv attrs J v.
Proof. by intros H s w <- He. Qed.
Lemma pinv_upd_attrs f (J : view -> Prop) v : J v -> pinv (upd_attrs f) J v.
Proof. by intros H s w <- He. Qed.

(** A C entry point: what holds behind it holds behind the call. *)
Lemma pinv_call r (J : view -> Prop) v : hwp (perform al r) (λ _ v', J v') v -> pinv (c_call al r) J v.
Proof.
  intros H s w E He. specialize (H w E). unfold c_call, mbind, M_bind. destruct (perform al r w) as [x w'|]; [|done].
  cbn. by split.
Qed.

Lemma pinv_object r (J : view -> Prop) v : hwp (perform al r) (λ _ v', J v') v -> pinv (c_object al r) J v.
Proof.
  intros H. apply (pinv_bind _ _ J); [by apply pinv_call|done|]. intros a v' HJ. by apply pinv_ret.
Qed.

(** One that leaves the view alone. *)
Lemma pinv_framed r (J : view -> Prop) v : J v -> framed v (perform al r) -> pinv (c_call al r) J v.
Proof. intros HJ H. apply pinv_call. eapply hwp_mono; [exact H|]. by intros ? ? ->. Qed.

(** A write of a member raises nothing. *)
Lemma pwp_member f (Q : pyexn + () -> view -> Prop) v :
  (∀ c, cur_of v c -> Q (inr ()) (with_cursor (write_member f c) v)) -> pwp (set_member al f) Q v.
Proof.
  intros H s w <- He. rewrite set_member_run by done. split; [done|]. exact (H (w_cur w) ltac:(by split)).
Qed.

Lemma pinv_handler {A} cls (m : PM A) h (J : view -> Prop) v :
  pinv m J v -> (∀ v', J v' -> pinv h J v') -> pinv (on_error cls m h) J v.
Proof.
  intros Hm Hh s w E He. specialize (Hm s w E He). unfold on_error, mbind, M_bind.
  destruct (m s w) as [[s' [x|a]] w'|]; [|done|done]. destruct Hm as [He' HJ]. cbn.
  destruct (catches cls x); [|done].
  refine (pinv_bind h _ J J _ _ _ _ s' w' eq_refl He'); [by apply Hh|done|]. intros. by apply pinv_raise.
Qed.

Lemma pinv_try {A} cls (m h : PM A) (J : view -> Prop) v :
  pinv m J v -> (∀ v', J v' -> pinv h J v') -> pinv (try_except cls m h) J v.
Proof.
  intros Hm Hh s w E He. specialize (Hm s w E He). unfold try_except, mbind, M_bind.
  destruct (m s w) as [[s' [x|a]] w'|]; [|done|done]. destruct Hm as [He' HJ]. cbn.
  destruct (catches cls x); [|done]. exact (Hh _ HJ s' w' eq_refl He').
Qed.

End Rules.

(** ** Methods that keep an invariant *)

(** An invariant under which the handles of the connection and of the prepared
    statement are alive. *)
Class WellInv `{G : Guard} (J : view -> Prop) : Prop := inv_well v : J v -> well v.

#[global] Instance well_idle `{G : Guard} : WellInv idle.
Proof. by intros v []. Qed.
#[global] Instance well_settled `{G : Guard} : WellInv settled.
Proof. by intros v []. Qed.

Definition pkeep `{C : Client} {A : Type} (J : view -> Prop) (m : PM A) : Prop := ∀ v, J v -> pinv m J v.

Section Keep.

Context `{C : Client} `{P : PyLib} {G : Guard} (al : allocations) (J : view -> Prop) `{W : !WellInv J}.

Lemma pkeep_ret {A} (a : A) : pkeep J (mret a).
Proof. intros v. apply pinv_ret. Qed.
Lemma pkeep_raise {A} x : pkeep J (raise (A := A) x).
Proof. intros v. apply pinv_raise. Qed.
Lemma pkeep_bind {A B} (m : PM A) (k : A -> PM B) : pkeep J m -> (∀ a, pkeep J (k a)) -> pkeep J (m ≫= k).
Proof. intros Hm Hk v HJ. eapply pinv_bind; [by apply Hm|done|]. intros a v' H'. by apply Hk. Qed.
Lemma pkeep_on_error {A} cls (m : PM A) h : pkeep J m -> pkeep J h -> pkeep J (on_error cls m h).
Proof. intros Hm Hh v HJ. apply pinv_handler; [by apply Hm|]. apply Hh. Qed.
Lemma pkeep_try {A} cls (m h : PM A) : pkeep J m -> pkeep J h -> pkeep J (try_except cls m h).
Proof. intros Hm Hh v HJ. apply pinv_try; [by apply Hm|]. apply Hh. Qed.
Lemma pkeep_attrs : pkeep J attrs.
Proof. intros v. apply pinv_attrs. Qed.
Lemma pkeep_upd_attrs f : pkeep J (upd_attrs f).
Proof. intros v. apply pinv_upd_attrs. Qed.
Lemma pkeep_the_cursor : pkeep J the_cursor.
Proof. by intros v H s w <- He. Qed.
Lemma pkeep_the_connection : pkeep J the_connection.
Proof. by intros v H s w <- He. Qed.

(** The requests that leave the view alone. *)
Lemma pkeep_call r : plain_request r = true -> pkeep J (c_call al r).
Proof. intros Hr v HJ. apply pinv_framed; [done|]. apply (framed_request al (G := G)); [by apply inv_well|done]. Qed.

End Keep.

Create HintDb pkeep discriminated.
#[export] Hint Resolve pkeep_ret pkeep_raise pkeep_attrs pkeep_upd_attrs pkeep_the_cursor
  pkeep_the_connection : pkeep.
#[export] Hint Extern 2 (pkeep _ (c_call _ _)) => apply pkeep_call; [assumption || apply _|reflexivity] : pkeep.

Ltac pkeep_auto :=
  repeat (intros; match goal with
  | |- pkeep _ (mbind _ _) => apply pkeep_bind
  | |- pkeep _ (let _ := _ in _) => cbv zeta
  | |- pkeep _ (match ?x with _ => _ end) => destruct x eqn:?
  | |- pkeep _ (on_error _ _ _) => apply pkeep_on_error
  | |- pkeep _ (try_except _ _ _) => apply pkeep_try
  | |- pkeep _ _ => solve [eauto 3 with pkeep nocore]
  end).

Section Methods.

Context `{C : Client} `{P : PyLib} {G : Guard} (al : allocations) (J : view -> Prop) `{W : !WellInv J}.

Lemma pkeep_object r : plain_request r = true -> pkeep J (c_object al r).
Proof. intros Hr. unfold c_object. apply pkeep_bind; [by apply pkeep_call|]. pkeep_auto. Qed.
Lemma pkeep_member f : plain_request (CurMember f) = true -> pkeep J (set_member al f).
Proof. intros Hr. unfold set_member. apply pkeep_bind; [by apply pkeep_call|]. pkeep_auto. Qed.
#[local] Hint Extern 2 (pkeep _ (c_object _ _)) => apply pkeep_object; reflexivity : pkeep.
#[local] Hint Extern 2 (pkeep _ (set_member _ _)) => apply pkeep_member; reflexivity : pkeep.

Lemma pkeep_pycursor f : pkeep J (upd_pycursor f).
Proof. unfold upd_pycursor. pkeep_auto. Qed.
Lemma pkeep_pyconn f : pkeep J (upd_pyconn f).
Proof. unfold upd_pyconn. pkeep_auto. Qed.
Lemma pkeep_len o : pkeep J (p_len o).
Proof. unfold p_len. pkeep_auto. Qed.
Lemma pkeep_int o : pkeep J (int_of o).
Proof. unfold int_of. pkeep_auto. Qed.
Lemma pkeep_statement : pkeep J get_statement.
Proof. unfold get_statement. pkeep_auto. Qed.
Lemma pkeep_conn_check : pkeep J connection_check_closed.
Proof. unfold connection_check_closed. pkeep_auto. Qed.
#[local] Hint Resolve pkeep_pycursor pkeep_pyconn pkeep_len pkeep_int pkeep_statement pkeep_conn_check : pkeep.

Lemma pkeep_check_closed : pkeep J (check_closed al).
Proof. unfold check_closed, get_closed. pkeep_auto. Qed.
Lemma pkeep_get_info what : pkeep J (get_info al what).
Proof. unfold get_info. pkeep_auto. Qed.
Lemma pkeep_get_value c i : pkeep J (get_value c i).
Proof. unfold get_value. pkeep_auto. Qed.
Lemma pkeep_replacement o : pkeep J (replacement al o).
Proof. unfold replacement, quote_escaped. pkeep_auto. Qed.
#[local] Hint Resolve pkeep_check_closed pkeep_get_info pkeep_get_value pkeep_replacement : pkeep.
Lemma pkeep_substitute_loop c l i r d st : pkeep J (substitute_loop al c l i r d st).
Proof. revert i r d st. induction l; intros i r d st; simpl; pkeep_auto. Qed.
#[local] Hint Resolve pkeep_substitute_loop : pkeep.
Lemma pkeep_substitute : pkeep J (substitute_parameters al).
Proof. unfold substitute_parameters. pkeep_auto. Qed.
Lemma pkeep_check_params : pkeep J check_execute_params.
Proof. unfold check_execute_params. pkeep_auto. Qed.
Lemma pkeep_items o : pkeep J (items_of o).
Proof. unfold items_of. pkeep_auto. Qed.
#[local] Hint Resolve pkeep_items : pkeep.
Lemma pkeep_first o : pkeep J (first_item o).
Proof. unfold first_item. pkeep_auto. Qed.

Lemma pkeep_command q : pkeep J (command al q).
Proof. unfold command. pkeep_auto. Qed.
#[local] Hint Resolve pkeep_command : pkeep.
Lemma pkeep_or_reset m : pkeep J m -> pkeep J (or_reset m).
Proof. intros Hm. apply pkeep_on_error; [done|]. unfold set_tpc. pkeep_auto. Qed.
Lemma pkeep_end_phase x : pkeep J (end_phase al x).
Proof. apply pkeep_bind; [pkeep_auto|intros _]. apply pkeep_or_reset. pkeep_auto. Qed.
Lemma pkeep_autocommit b : pkeep J (set_autocommit al b).
Proof. unfold set_autocommit, get_autocommit, server_status. pkeep_auto. Qed.
#[local] Hint Resolve pkeep_end_phase pkeep_autocommit : pkeep.
#[local] Hint Extern 1 (pkeep _ (or_reset _)) => apply pkeep_or_reset; pkeep_auto : pkeep.

(** The calls that never touch a result set. *)
Definition plain_api (c : api_call) : bool :=
  match c with
  | ApiLastRowId | ApiSpOutParams | ApiCommit | ApiRollback | ApiBegin | ApiKill _ | ApiTpcBegin _
  | ApiTpcPrepare | ApiTpcCommit _ | ApiTpcRollback _ | ApiAutocommit _ | ApiOpen | ApiVersionInfo
  | ApiSelectDb _ | ApiProperty _ _ | ApiThreadId | ApiSocket | ApiInherited _ => true
  | _ => false
  end.

Lemma pkeep_plain_api c : plain_api c = true -> pkeep J (api al c).
Proof.
  intros Hc. destruct c as [| | | | | | | | | | | | | | | | | | | | | | | | | | | | |i|]; try done; simpl;
    try (destruct i); unfold ignore, lastrowid, sp_outparams, commit,
    rollback, begin_, kill, tpc_active, tpc_begin, tpc_prepare, tpc_commit, tpc_rollback, set_tpc, is_open,
    server_version_info, read_property, thread_id, socket, select_db, set_database; pkeep_auto.
Qed.

End Methods.

#[export] Hint Extern 2 (pkeep _ (c_object _ _)) => apply pkeep_object; [assumption || apply _|reflexivity] : pkeep.
#[export] Hint Extern 2 (pkeep _ (set_member _ _)) => apply pkeep_member; [assumption || apply _|reflexivity] : pkeep.
#[export] Hint Resolve pkeep_pycursor pkeep_pyconn pkeep_len pkeep_int pkeep_statement pkeep_conn_check
  pkeep_check_closed pkeep_get_info pkeep_substitute pkeep_check_params pkeep_items pkeep_first
  pkeep_autocommit well_idle well_settled : pkeep.

(** ** Executing *)

Section Execute.

Context `{C : Client} `{P : PyLib} {G : Guard} (al : allocations).

Lemma idle_settled v : idle v -> settled v.
Proof. intros H. by apply holds_settled, idle_holds. Qed.

(** A cursor whose connection is open, or which is buffered, has its result
    set. *)
Lemma settled_held v : settled v -> v_mysql v ≠ None ∨ v_buffered v = true -> result_held v.
Proof. intros [W [R|(Hm & Hc & Hb)]] [H|H]; [exact R|exact R|congruence..]. Qed.

(** A request to a cursor without a result set. *)
Lemma pidle_call r : keeps_idle (perform al r) -> pkeep idle (c_object al r).
Proof. intros Hr v Hi. by apply pinv_object, Hr. Qed.

Lemma keeps_idle_fmap {A B} (f : A -> B) (m : M A) : keeps_idle m -> keeps_idle (f <$> m).
Proof.
  intros Hm v Hi. unfold fmap, M_fmap. eapply hwp_idle_bind; [by apply Hm|]. intros a v' H'. by apply hwp_ret.
Qed.

Lemma pidle_parse st : pkeep idle (c_object al (CurParse st)).
Proof. apply pidle_call, keeps_idle_fmap, idle_parse. Qed.
Lemma pidle_read : pkeep idle (c_object al CurReadResponse).
Proof. apply pidle_call, keeps_idle_fmap, idle_readresponse. Qed.
Lemma pidle_binary : pkeep idle (c_object al CurExecuteBinary).
Proof. apply pidle_call, keeps_idle_fmap, idle_execute_binary. Qed.
Lemma pidle_member f : pkeep idle (set_member al f).
Proof.
  intros v Hi. apply pwp_member. intros c Hc. pose proof Hc as [].
  apply idle_with_cursor; [done| |]; by destruct f.
Qed.
#[local] Hint Resolve pidle_parse pidle_read pidle_binary pidle_member : pkeep.

Lemma pidle_parse_execute st data b : pkeep idle (parse_execute al st data b).
Proof. unfold parse_execute. pkeep_auto. Qed.
#[local] Hint Resolve pidle_parse_execute : pkeep.

(** What is known behind a check that did not raise. *)
Lemma get_closed_run s (w : world C) :
  w_err w = None ->
  get_closed al s w =
  if w_gil w then Done (s, inr (c_closed (w_cur w) || bool_decide (n_mysql (w_conn w) = None))) w
  else Stuck GilViolation.
Proof.
  intros He. assert (Hp : perform al CurClosed w =
    if w_gil w then Done (VObj (Some (PyBool (c_closed (w_cur w) || bool_decide (n_mysql (w_conn w) = None))))) w
    else Stuck GilViolation) by (unfold perform, fmap, M_fmap, MrdbCursor_closed, return_bool, get_cur,
      get_conn, py, get_gil, mbind, M_bind; by destruct (w_gil w)).
  unfold get_closed. revert Hp. destruct (w_gil w); intros Hp.
  - by erewrite pm_bind_run by exact (c_object_run al _ _ s w w Hp He).
  - unfold c_object, c_call, mbind, PM_bind, mbind, M_bind. by rewrite Hp.
Qed.

Lemma check_closed_open_view v :
  pwp (check_closed al) (λ r v', v' = v ∧ (r = inr () -> v_mysql v ≠ None)) v.
Proof.
  intros s w <- He. unfold check_closed, mbind, PM_bind, mbind, M_bind. rewrite get_closed_run by done.
  destruct (w_gil w); [|done]. cbn. destruct (c_closed _ || _) eqn:E; cbn.
  - unfold connection_check_closed, the_connection, mbind, PM_bind, mbind, M_bind, get_conn. cbn.
    by destruct (n_closed (w_conn w)).
  - split; [done|]. split; [done|]. intros _. apply orb_false_iff in E as [_ E].
    by apply bool_decide_eq_false in E.
Qed.

(** The rest of a method behind the check. *)
Lemma pinv_check_closed {B} (k : () -> PM B) (J : view -> Prop) v :
  J v -> (v_mysql v ≠ None -> pinv (k ()) J v) -> pinv (check_closed al ≫= k) J v.
Proof.
  intros HJ Hk. apply pwp_bind. eapply pwp_mono; [apply check_closed_open_view|].
  intros [x|[]] v' [-> Hm]; [done|]. by apply Hk, Hm.
Qed.

(** The result set of the last statement is given back before a new one. *)
Definition clearable (v : view) : Prop :=
  well v ∧ result_kind v ∧ (v_fields v = 0 -> v_result v = None).

Lemma held_clearable v : well v -> result_held v -> clearable v.
Proof.
  intros W R. split_and!; [done|by apply held_kind|]. intros Hf. destruct (v_result v) eqn:E; [|done].
  by destruct (R _ E) as (_ & ? & _).
Qed.

Lemma clearable_with_cursor v c b :
  clearable v -> cur_of v c -> clearable (with_cursor (set_c_is_buffered b c) v).
Proof.
  intros (W & K & Hz) [? Hr ? Hf ?]. split_and!.
  - apply well_with_cursor; [done|]. by left.
  - intros r E. apply (K r). cbn in E. congruence.
  - cbn. rewrite Hf, Hr. exact Hz.
Qed.

Lemma pinv_clear {B} (k : () -> PM B) (J : view -> Prop) v :
  clearable v -> (∀ v', idle v' -> J v') -> (∀ v', idle v' -> pinv (k ()) J v') ->
  pinv (c ← the_cursor;
        (if c_field_count c =? 0 then mret () else c_object al CurClearResult;; mret ()) ≫= k) J v.
Proof.
  intros (W & R & Hf) HJ Hk. apply pinv_the_cursor. intros c Hc. rewrite (co_fields _ _ Hc).
  eapply (pinv_bind _ _ idle); [|done|by intros []]. destruct (v_fields v =? 0) eqn:E.
  - apply Z.eqb_eq in E. apply pinv_ret. split; [done|by apply Hf].
  - eapply (pinv_bind _ _ idle); [|done|intros; by apply pinv_ret]. apply pinv_object. cbn.
    unfold fmap, M_fmap. apply hwp_bind. eapply hwp_mono; [by apply hwp_clear_result|].
    intros a v' Hc'. by apply hwp_ret, (result_cleared_idle v).
Qed.

Lemma pinv_init v : idle v -> pinv (c_object al CurInitResult) settled v.
Proof.
  intros Hi. apply pinv_object. cbn. unfold fmap, M_fmap. apply hwp_bind.
  eapply hwp_mono; [by apply hwp_InitResultSet|]. intros a v' Hh. by apply hwp_ret, holds_settled.
Qed.

(** A part that keeps the cursor idle, before the result set is taken. *)
Lemma pinv_idle {A B} (m : PM A) (k : A -> PM B) v :
  pkeep idle m -> idle v -> (∀ a v', idle v' -> pinv (k a) settled v') -> pinv (m ≫= k) settled v.
Proof. intros Hm Hi Hk. eapply pinv_bind; [by apply Hm|apply idle_settled|done]. Qed.

(** A part that changes no handle. *)
Lemma pinv_same {A B} (m : PM A) (k : A -> PM B) (J : view -> Prop) v :
  pinv m (λ v', v' = v) v -> J v -> (∀ a, pinv (k a) J v) -> pinv (m ≫= k) J v.
Proof. intros Hm HJ Hk. eapply pinv_bind; [exact Hm|by intros ? ->|by intros a ? ->]. Qed.

Lemma psettled_execute st data b : pkeep settled (execute al st data b).
Proof.
  intros v Hs. unfold execute. apply pinv_check_closed; [done|]. intros Hm.
  pose proof (settled_held v Hs (or_introl Hm)) as R. pose proof Hs as [W _].
  apply pinv_same; [by apply pinv_upd_attrs|done|intros _].
  apply pinv_same; [by apply pinv_upd_attrs|done|intros _].
  apply pwp_bind. eapply (pwp_mono _ (λ r v', r = inr () ∧ clearable v')).
  { pose proof (held_clearable v W R) as Hc. destruct b as [b|]; [|by intros s w <- He].
    apply pwp_member. intros c Hc'. split; [done|]. by apply clearable_with_cursor. }
  intros ? v1 [-> Hc]. apply pinv_clear; [done|apply idle_settled|]. intros v2 Hi.
  repeat (apply pinv_idle; [solve [pkeep_auto]|assumption|]; intros; cbv zeta).
  eapply pinv_bind; [by apply pinv_init|done|]. intros ? v3 Hv3. by apply pinv_upd_attrs.
Qed.

Lemma psettled_callproc sp data : pkeep settled (callproc al sp data).
Proof. unfold callproc. pose proof psettled_execute. pkeep_auto. Qed.

(** ** Results *)

(** A request that uses the result set. *)
Lemma pinv_result r (J : view -> Prop) v :
  result_request r = true -> settled v -> J v -> result_held v -> pinv (c_call al r) J v.
Proof.
  intros Hr Hs HJ R. apply pinv_framed; [done|]. apply (framed_result_request al (G := G)); [apply Hs| |done].
  by apply held_alive.
Qed.

(** Behind the check of cursors that are not buffered the result set is there. *)
Lemma pinv_check_unbuffered {B} (k : () -> PM B) v :
  settled v -> (result_held v -> pinv (k ()) settled v) -> pinv (check_unbuffered al ≫= k) settled v.
Proof.
  intros Hs Hk. apply pwp_bind.
  apply (pwp_mono _ (λ r v', v' = v ∧ (r = inr () -> result_held v))).
  - unfold check_unbuffered. intros s w Ev He. unfold the_cursor, mbind at 1, PM_bind, mbind, M_bind, get_cur.
    cbn. destruct (c_is_buffered (w_cur w)) eqn:Eb.
    + cbn. split_and!; [done..|]. intros _. apply settled_held; [done|]. right. by subst v.
    + pose proof (check_closed_open_view v s w Ev He) as H. destruct (check_closed al s w) as [[s' r] w'|]; [|done].
      destruct H as (He' & Ev' & Hr). split_and!; [done..|]. intros E. apply settled_held; [done|]. auto.
  - intros [x|[]] v' [-> H]; [done|]. by apply Hk, H.
Qed.

Lemma psettled_fetchone : pkeep settled (fetchone al).
Proof.
  intros v Hs. unfold fetchone. apply pinv_check_unbuffered; [done|]. intros R.
  apply pinv_check_unbuffered; [done|]. intros _. apply pinv_the_cursor. intros c Hc.
  destruct (_ =? 0); [by apply pinv_raise|].
  apply (pinv_bind _ _ settled); [by apply pinv_result|done|]. intros x v' H'. by apply pinv_ret.
Qed.

Lemma psettled_fetchrows n v : settled v -> result_held v -> pinv (fetchrows al n) settled v.
Proof.
  intros Hs R. unfold fetchrows. apply (pinv_bind _ _ settled); [by apply pinv_result|done|].
  intros x v' H'. by apply pinv_ret.
Qed.

Lemma psettled_fetchmany n : pkeep settled (fetchmany al n).
Proof.
  intros v Hs. unfold fetchmany. apply pinv_check_unbuffered; [done|]. intros R.
  apply pinv_the_cursor. intros c Hc. by apply psettled_fetchrows.
Qed.

Lemma psettled_fetchall : pkeep settled (fetchall al).
Proof.
  intros v Hs. unfold fetchall. apply pinv_check_unbuffered; [done|]. intros R. by apply psettled_fetchrows.
Qed.

Lemma pinv_rowcount (J : view -> Prop) v : settled v -> J v -> pinv (get_rowcount al) J v.
Proof.
  intros Hs HJ. unfold get_rowcount. apply pinv_the_cursor. intros c Hc.
  apply pinv_same; [by apply pinv_attrs|done|intros s0]. cbv zeta.
  assert (Hcount : result_held v -> pinv
    (if 0 <? y_rowcount (s_cursor s0) then mret (PyLong (y_rowcount (s_cursor s0)))
     else c_object al CurRowCount) J v).
  { intros R. destruct (0 <? _); [by apply pinv_ret|].
    apply (pinv_bind _ _ J); [by apply pinv_result|done|]. intros x v' H'. by apply pinv_ret. }
  destruct (c_is_buffered c) eqn:Eb.
  - apply Hcount, settled_held; [done|]. right. by rewrite <- (co_buffered _ _ Hc).
  - apply pwp_bind, (pwp_mono _ (λ r v', v' = v ∧ (r = inr false -> v_mysql v ≠ None))).
    + intros s w Ev He. unfold try_except, mbind at 1, M_bind.
      pose proof (check_closed_open_view v s w Ev He) as H. unfold mbind, PM_bind, mbind, M_bind.
      destruct (check_closed al s w) as [[s' [x|[]]] w'|]; [| |done]; destruct H as (He' & Ev' & Hr); cbn.
      * destruct (catches _ x); by split_and!.
      * split_and!; [done..|]. intros _. by apply Hr.
    + intros [x|[]] v' [-> H]; [done|by apply pinv_ret|]. apply Hcount, settled_held; [done|]. left. by apply H.
Qed.

Lemma psettled_rowcount : pkeep settled (get_rowcount al).
Proof. intros v Hs. by apply pinv_rowcount. Qed.

Lemma psettled_rows st rows n : pkeep settled (execute_rows al st rows n).
Proof.
  revert n. pose proof psettled_execute. pose proof psettled_rowcount.
  induction rows; intros n; simpl; pkeep_auto.
Qed.

Lemma psettled_bulk v : idle v -> pinv (c_object al CurExecuteBulk) settled v.
Proof.
  intros Hi. apply pinv_object. cbn. unfold fmap, M_fmap. apply hwp_bind.
  eapply hwp_mono; [by apply hwp_execute_bulk|]. intros a v' Hh. by apply hwp_ret, holds_settled.
Qed.

Lemma psettled_executemany st ps : pkeep settled (executemany al st ps).
Proof.
  intros v Hs. unfold executemany. apply pinv_check_closed; [done|]. intros Hm.
  pose proof (settled_held v Hs (or_introl Hm)) as R. pose proof Hs as [W _].
  apply pinv_same; [destruct (py_true ps); [unfold p_len; destruct (py_len ps)|];
                    by (apply pinv_ret || apply pinv_raise)|done|intros n].
  destruct (n =? 0); [by apply pinv_raise|].
  apply pinv_same; [by apply pinv_upd_attrs|done|intros _].
  apply pinv_clear; [by apply held_clearable|apply idle_settled|]. intros v2 Hi.
  apply pinv_idle; [pkeep_auto|done|]. intros o v3 H3.
  apply pinv_idle; [pkeep_auto|done|]. intros caps v4 H4.
  destruct (_ =? 0).
  - apply pinv_idle; [pkeep_auto|done|]. intros rows v5 H5.
    eapply pinv_bind; [by apply psettled_rows, idle_settled|done|]. intros count v6 H6. by apply pinv_upd_attrs.
  - repeat (apply pinv_idle; [solve [pkeep_auto]|assumption|]; intros).
    eapply pinv_bind; [by apply psettled_bulk|done|]. intros ? v6 H6. by apply pinv_upd_attrs.
Qed.

Lemma psettled_nextset : pkeep settled (nextset al).
Proof.
  intros v Hs. unfold nextset. apply pinv_check_closed; [done|]. intros Hm.
  pose proof (settled_held v Hs (or_introl Hm)) as R. pose proof Hs as [W _].
  apply pinv_object. cbn. unfold fmap, M_fmap. apply hwp_bind.
  eapply hwp_mono; [by apply hwp_nextset|]. intros a v' Hh. by apply hwp_ret, holds_settled.
Qed.

Lemma psettled_seek z beyond v : settled v -> result_held v -> pinv (seek_below al z beyond) settled v.
Proof.
  intros Hs R. unfold seek_below. cbv zeta. destruct (z <? 0); [by apply pinv_raise|].
  apply pinv_same; [by apply pinv_rowcount|done|intros o].
  apply pinv_same; [unfold int_of; destruct (as_long o); by (apply pinv_ret || apply pinv_raise)|done|intros n].
  destruct (beyond n); [by apply pinv_raise|].
  apply (pinv_bind _ _ settled); [|done|].
  - apply (pinv_bind _ _ settled); [by apply pinv_result|done|]. intros x v' H'. by apply pinv_ret.
  - intros x v' H'. by apply (pkeep_member al settled).
Qed.

Lemma psettled_scroll z mode : pkeep settled (scroll al z mode).
Proof.
  intros v Hs. unfold scroll. apply pinv_the_cursor. intros c Hc. destruct (_ =? 0); [by apply pinv_raise|].
  destruct (c_is_buffered c) eqn:Eb; cbn; [|by apply pinv_raise].
  assert (R : result_held v) by (apply settled_held; [done|right; by rewrite <- (co_buffered _ _ Hc)]).
  destruct mode; [by apply psettled_seek| |by apply pinv_raise].
  destruct (_ =? 0); [by apply pinv_raise|].
  apply pinv_same; [|done|intros o].
  { eapply (pinv_bind _ _ (λ v', v' = v)); [|done|intros a ? ->; by apply pinv_ret].
    apply pinv_framed; [done|]. apply (framed_request al (G := G)); [apply Hs|done]. }
  apply pinv_same; [unfold int_of; destruct (as_long o); by (apply pinv_ret || apply pinv_raise)|done|intros n].
  by apply psettled_seek.
Qed.

(** ** Opening and closing *)

Lemma psettled_close : pkeep settled (close al).
Proof.
  intros v Hs. unfold close. apply pinv_the_cursor. intros c Hc.
  apply pinv_same; [|done|intros _].
  { destruct (py_true _); [|by apply pinv_ret]. apply pwp_member. intros c' [].
    unfold with_cursor. cbn. destruct v; cbn in *; congruence. }
  apply pinv_the_connection. intros n Hn. rewrite (no_closed _ _ Hn).
  destruct (v_closed v) eqn:Ec; [by apply pinv_ret|].
  destruct Hs as [W [R|(_ & ? & _)]]; [|congruence].
  eapply (pinv_bind _ _ settled); [|done|intros; by apply pinv_ret]. apply pinv_object. cbn.
  unfold fmap, M_fmap, MrdbCursor_close. apply hwp_bind, hwp_bind.
  eapply hwp_mono; [by apply hwp_cursor_close, held_kind|]. intros ? v' Hv'.
  assert (settled v') by (destruct Hv' as [->|Hi]; [by apply holds_settled|by apply idle_settled]).
  eapply hwp_mono; [apply framed_none|]. intros ? ? ->. by apply hwp_ret.
Qed.

(** Closing the connection ends the result sets that other cursors have not
    buffered. *)
Lemma psettled_conn_close v : settled v -> pinv (conn_close al) (settled (G := closed_guard G)) v.
Proof.
  intros Hs. unfold conn_close. eapply (pinv_bind _ _ settled); [by apply (pkeep_conn_check settled)| |].
  - intros v'. apply settled_closed.
  - intros _ v' Hs'. eapply (pinv_bind _ _ (settled (G := closed_guard G))); [|done|by intros; apply pinv_ret].
    apply pinv_object. cbn. unfold fmap, M_fmap. apply hwp_bind.
    eapply hwp_mono; [by apply hwp_connection_close|]. intros ? v1 H1. by apply hwp_ret.
Qed.

Lemma pidle_connect kw : guard_conn = None -> pkeep idle (Connection_init al kw).
Proof.
  intros Hcn. unfold Connection_init. apply pkeep_bind; [pkeep_auto|intros _]. apply pkeep_bind; [pkeep_auto|intros _].
  destruct (kc_bad_host kw); [pkeep_auto|].
  apply pkeep_bind; [|pkeep_auto]. intros v Hi. apply pinv_call.
  by apply (keeps_idle_fmap VInt), Hi; apply idle_Initialize.
Qed.

Lemma pidle_cursor kw : pkeep idle (cursor al kw).
Proof.
  assert (Hi : ∀ args, pkeep idle (c_call al (CurInit args))).
  { intros args v Hi. apply pinv_call. by apply (keeps_idle_fmap VInt), Hi; apply idle_cursor_initialize. }
  unfold cursor, Cursor_init. pkeep_auto.
Qed.

End Execute.

(** ** Applications *)

Section Applications.

Context `{C : Client} `{P : PyLib} {G : Guard} (al : allocations).

(** What an application does with the objects it has: everything but making
    them. *)
Definition uses_objects (c : api_call) : bool :=
  match c with ApiConnect _ | ApiCursor _ => false | _ => true end.

Lemma psettled_api c : uses_objects c = true -> c ≠ ApiConnClose -> pkeep settled (api al c).
Proof.
  intros Hc Hn. destruct (plain_api c) eqn:Hp; [by apply pkeep_plain_api; [apply _|]|].
  destruct c; try done; simpl; unfold ignore;
    auto using psettled_execute, psettled_executemany, psettled_callproc, psettled_scroll, psettled_close;
    (apply pkeep_bind; [|pkeep_auto]);
    auto using psettled_fetchone, psettled_fetchmany, psettled_fetchall, psettled_nextset,
      psettled_rowcount.
Qed.

End Applications.

(** ** One cursor *)

Section OneCursor.

Context `{C : Client} `{P : PyLib} (al : allocations).

#[local] Existing Instance no_guard.

(** A computation of the world from one invariant to another. *)
Definition reaches {A : Type} (I J : view -> Prop) (m : M A) : Prop :=
  ∀ w : world C, w_err w = None -> I (view_of w) ->
  match m w with
  | Done _ w' => w_err w' = None ∧ J (view_of w')
  | Stuck st => st ≠ InvalidHandle
  end.

Lemma reaches_app_cons c cs s (I J K : view -> Prop) :
  pkeep I (api al c) -> (∀ v, I v -> J v) -> (∀ s', reaches J K (application al cs s')) ->
  reaches I K (application al (c :: cs) s).
Proof.
  intros Hc HIJ Hcs w He Hw. simpl. unfold mbind, M_bind. specialize (Hc _ Hw s w eq_refl He).
  destruct (api al c s w) as [[s1 r1] w1|]; [|done]. destruct Hc as [He1 Hw1].
  specialize (Hcs s1 w1 He1 (HIJ _ Hw1)). simpl. by destruct (application al cs s1 w1) as [[s2 r2] w2|].
Qed.

Lemma psettled_any c : uses_objects c = true -> pkeep settled (api al c).
Proof.
  intros Hc. assert (c = ApiConnClose ∨ c ≠ ApiConnClose) as [->|Hn] by (destruct c; auto); [|by apply psettled_api].
  intros v Hs. eapply pinv_mono; [by apply psettled_conn_close|].
  intros v' Hs'. apply (settled_weaken (G := closed_guard no_guard) no_guard); [apply map_empty_subseteq|by left|done].
Qed.

Lemma reaches_settled cs s :
  Forall (λ c, uses_objects c = true) cs -> reaches settled settled (application al cs s).
Proof.
  intros Hcs. revert s. induction Hcs as [|c cs Hc Hcs IH]; intros s; [by intros w He Hw|].
  eapply reaches_app_cons; [by apply psettled_any|done|done].
Qed.

(** Objects that were just made: no handle exists. *)
Definition pristine (w : world C) : Prop :=
  w_live w = ∅ ∧ n_mysql (w_conn w) = None ∧ c_stmt (w_cur w) = None ∧ c_result (w_cur w) = None ∧
  w_err w = None.

Lemma pristine_idle w : pristine w -> idle (view_of w).
Proof.
  intros (El & Em & Es & Er & _). split; [|done].
  split; cbn; [|by rewrite Em|by rewrite Es|by rewrite Es|apply map_empty_subseteq|done].
  intros h _. rewrite El. apply lookup_empty.
Qed.

End OneCursor.

(** An application that opens a connection, makes a cursor and then calls
    whatever it likes with whatever arguments, in any order and handling any
    exceptions, never passes a handle to the library that is not alive: not the
    result set that went with a closed connection, nor a statement that was
    closed, nor a connection that could not be made.  Behind every such sequence
    the handles in the objects are alive again, but for the result set of an
    unbuffered cursor whose connection was closed.  Nothing is assumed of the
    library or of the allocator. *)
Theorem application_handles_alive `{C : Client} `{P : PyLib} (al : allocations)
    (connection : connection_kwargs) (kwargs : option cursor_kwargs) (cs : list api_call) (s : pystate) (w : world C) :
  pristine w -> Forall (λ c, uses_objects c = true) cs ->
  match application al (ApiConnect connection :: ApiCursor kwargs :: cs) s w with
  | Done _ w' => settled (G := no_guard) (view_of w')
  | Stuck st => st ≠ InvalidHandle
  end.
Proof.
  intros Hw Hcs.
  assert (H : reaches (idle (G := no_guard)) (settled (G := no_guard))
    (application al (ApiConnect connection :: ApiCursor kwargs :: cs) s)).
  { eapply reaches_app_cons; [by apply pidle_connect|done|]. intros s1.
    eapply reaches_app_cons; [apply pidle_cursor|apply idle_settled|]. intros s2. by apply reaches_settled. }
  specialize (H w ltac:(apply Hw) (pristine_idle w Hw)).
  destruct (application _ _ _ _) as [r w'|]; [apply H|done].
Qed.

(** An unbuffered cursor whose connection is closed in the middle of a result
    set, and which is used and closed behind that. *)
Definition demo_application : list api_call :=
  [ApiExecute (PyUnicode (bytes_of_string "SELECT a FROM t")) (PyTuple []) None; ApiFetchOne; ApiConnClose;
   ApiFetchOne; ApiExecute (PyUnicode (bytes_of_string "SELECT 1")) (PyTuple []) (Some true); ApiRowCount;
   ApiScroll 1 Absolute; ApiCursorClose; ApiCommit].

Definition demo_unbuffered : cursor_kwargs := mkKwargs false None false false false 0 0.

Definition demo_pystate : pystate :=
  mkPyState (mkPyCursor false PyNone false false 0) pyconnection_new.

Lemma application_handles_alive_witness :
  ∃ r w', application demo_allocs (ApiConnect (demo_connection true true) :: ApiCursor (Some demo_unbuffered)
            :: demo_application) demo_pystate demo_world = Done r w' ∧
    settled (G := no_guard) (view_of w') ∧ c_result (w_cur w') = Some 1%nat ∧ w_live w' !! 1%nat = None.
Proof.
  pose proof (application_handles_alive demo_allocs (demo_connection true true) (Some demo_unbuffered)
    demo_application demo_pystate demo_world ltac:(by split_and!)
    ltac:(repeat (apply Forall_cons; [reflexivity|]); apply Forall_nil)) as H.
  assert (E : match application demo_allocs (ApiConnect (demo_connection true true)
                :: ApiCursor (Some demo_unbuffered) :: demo_application) demo_pystate demo_world with
              | Done _ w' => bool_decide (c_result (w_cur w') = Some 1%nat ∧ w_live w' !! 1%nat = None)
              | Stuck _ => false
              end = true) by (vm_compute; reflexivity).
  destruct (application demo_allocs _ demo_pystate demo_world) as [r w'|st]; [|discriminate E].
  exists r, w'. apply bool_decide_eq_true in E. exact (conj eq_refl (conj H E)).
Defined.

(** The attribute [buffered] can be written at any time: an application that
    sets it behind the close makes [fetchone] use the result set that is gone. *)
Lemma buffered_attribute_unchecked :
  match application demo_allocs (ApiConnect (demo_connection true true) :: ApiCursor (Some demo_unbuffered)
          :: take 3 demo_application) demo_pystate demo_world with
  | Done r w => (set_member demo_allocs (M_buffered true);; fetchone demo_allocs) r.1 w = Stuck InvalidHandle
  | Stuck _ => False
  end.
Proof. by vm_compute. Qed.
