(* ===== verification/MultiCursor.v ===== *)
(** * Several cursors of one connection

    An application makes as many cursors of a connection as it likes, uses them
    in any order and drops them.  The functions of [Cursor] work on the object
    they are called with, the [w_cur] of the world: a method of a cursor loads
    its C structure, runs, and leaves it behind.  The methods of [Connection]
    that make a cursor for their own use are here as well. *)

From stdpp Require Import gmap.
From S2P Require Import Prelude Parser Values DateTime Wire Fetch Exceptions Params Client.
From S2P Require Import Connection Cursor Session CursorLogic Python PyCursor PyConnection PyApi.

(** The memory of a new object is zero. *)
Definition cursor_zero : MrdbCursor :=
  mkMrdbCursor None None None 0 0 None None None None false parseinfo_zero 0 0 0 0 0 0 0
    RESULT_TUPLE false false false false false None.

Definition pycursor_new : PyCursor := mkPyCursor false PyNone false false 0.

(** The cursors an application holds, by number, the number of the next one,
    and the attributes of the connection object. *)
Record app := mkApp {
  a_cursors : gmap nat (MrdbCursor * PyCursor);
  a_next : nat;
  a_conn : PyConnection;
}.

Inductive app_call :=
  | MakeCursor (kwargs : option cursor_kwargs)
  | OnCursor (i : nat) (c : api_call)
  | OnConnection (c : api_call)
  | DropCursor (i : nat)
  | ShowWarnings
  | TpcRecover.

(** The calls that are methods and attributes of a cursor, and those of a
    connection. *)
Definition of_cursor (c : api_call) : bool :=
  match c with
  | ApiExecute _ _ _ | ApiExecuteMany _ _ | ApiCallProc _ _ | ApiFetchOne | ApiFetchMany _ | ApiFetchAll
  | ApiNextSet | ApiScroll _ _ | ApiRowCount | ApiLastRowId | ApiSpOutParams | ApiCursorClose => true
  | ApiInherited i =>
      match i with Description | Metadata | Cursor_warnings | Row_number | Closed | Set_arraysize _
      | Cursor_repr _ => true
      | _ => false end
  | _ => false
  end.

Definition of_connection (c : api_call) : bool :=
  match c with ApiConnect _ | ApiCursor _ => false | _ => negb (of_cursor c) end.

Section MultiCursor.

Context `{C : Client} `{P : PyLib} (al : allocations).

(** ** Cursors for the use of a method *)

(** [del cursor], or the end of the frame that holds it: the object is
    finalized whether the method raised or not. *)
Definition finally_drop {A : Type} (m : PM A) : PM A := λ s,
  r ← m s;
  f ← c_call al CurFinalize r.1;
  mret (f.1, r.2).

(** A cursor whose [__init__] raised has no connection: its finalizer does
    nothing. *)
Definition with_cursor_of {A : Type} (stmt : string) (m : PM A) : PM A :=
  cursor al None;;
  finally_drop (execute al (PyUnicode (bytes_of_string stmt)) (PyTuple []) None;; m).

(** [None] is the object None. *)
Definition show_warnings : PM (option (list pyrow)) :=
  connection_check_closed;;
  o ← c_object al ConnWarnings;
  if py_true o then rows ← with_cursor_of "SHOW WARNINGS" (fetchall al); mret (Some rows)
  else mret None.

Definition tpc_recover : PM (list pyrow) :=
  connection_check_closed;;
  with_cursor_of "XA RECOVER" (fetchall al).

(** ** Applications *)

(** A method of the cursor [c]: its outcome, what is left of the cursor, and
    the connection object. *)
Definition run_on {A : Type} (c : MrdbCursor * PyCursor) (k : PyConnection) (m : PM A) :
    M (MrdbCursor * PyCursor * PyConnection * (pyexn + A)) :=
  upd_cur (λ _, c.1);;
  r ← m (mkPyState c.2 k);
  c' ← get_cur;
  mret (c', s_cursor r.1, s_connection r.1, r.2).

(** A method of the connection; [m] starts from a new object if it makes one. *)
Definition run_conn (m : PM ()) (a : app) : M (app * (pyexn + ())) :=
  r ← run_on (cursor_zero, pycursor_new) (a_conn a) m;
  let '(_, _, k, x) := r in
  mret (mkApp (a_cursors a) (a_next a) k, x).

(** An application cannot name a cursor it does not hold. *)
Definition app_step (c : app_call) (a : app) : M (app * (pyexn + ())) :=
  match c with
  | MakeCursor kwargs =>
      r ← run_on (cursor_zero, pycursor_new) (a_conn a) (cursor al kwargs);
      let '(c', y, k, x) := r in
      match x with
      | inr _ => mret (mkApp (<[a_next a := (c', y)]> (a_cursors a)) (S (a_next a)) k, x)
      | inl _ => mret (mkApp (a_cursors a) (a_next a) k, x)
      end
  | OnCursor i c =>
      match a_cursors a !! i with
      | Some cy =>
          if of_cursor c then
            r ← run_on cy (a_conn a) (api al c);
            let '(c', y, k, x) := r in
            mret (mkApp (<[i := (c', y)]> (a_cursors a)) (a_next a) k, x)
          else mret (a, inr ())
      | None => mret (a, inr ())
      end
  | OnConnection c => if of_connection c then run_conn (api al c) a else mret (a, inr ())
  | DropCursor i =>
      match a_cursors a !! i with
      | Some cy =>
          r ← run_on cy (a_conn a) (c_call al CurFinalize);
          let '(_, _, k, _) := r in
          mret (mkApp (delete i (a_cursors a)) (a_next a) k, inr ())
      | None => mret (a, inr ())
      end
  | ShowWarnings => run_conn (ignore show_warnings) a
  | TpcRecover => run_conn (ignore tpc_recover) a
  end.

Fixpoint app_run (cs : list app_call) (a : app) : M (app * list (pyexn + ())) :=
  match cs with
  | [] => mret (a, [])
  | c :: cs' =>
      r ← app_step c a;
      rs ← app_run cs' r.1;
      mret (rs.1, r.2 :: rs.2)
  end.

(** The constructor of the connection first; there is no cursor yet. *)
Definition app_main (connection : connection_kwargs) (cs : list app_call) : M (app * list (pyexn + ())) :=
  r ← run_conn (Connection_init al connection)
        (mkApp ∅ 0 pyconnection_new);
  rs ← app_run cs r.1;
  mret (rs.1, r.2 :: rs.2).

End MultiCursor.
