(* ===== verification/MultiCursorProps.v ===== *)
(** * Handles of several cursors

    No application with any number of cursors of one connection passes a dead
    handle to the library.  The handles of the cursors that do not run are the
    guard of the one that does: its methods end none of them. *)

From stdpp Require Import gmap.
From S2P Require Import Prelude Parser Values DateTime Wire Fetch Exceptions Params Client.
From S2P Require Import Connection Cursor Session CursorLogic SessionSafety Demo Python PyCursor PyConnection.
From S2P Require Import PyApi PyRuns HandleLogic HandleRuns HandleRequests HandleSafety MultiCursor.

(** ** What the cursors claim *)

(** The result set of an unbuffered cursor went with the connection. *)
Definition result_lost (v : view) (c : MrdbCursor) : bool :=
  bool_decide (v_mysql v = None) && v_closed v && negb (c_is_buffered c).

Definition claims (v : view) (c : MrdbCursor) : list nat :=
  option_list (c_stmt c) ++ (if result_lost v c then [] else option_list (c_result c)).

Definition all_claims (v : view) (cs : gmap nat (MrdbCursor * PyCursor)) : list nat :=
  map_to_list cs ≫= λ icy, claims v icy.2.1.

Lemma elem_of_option {A} (o : option A) a : a ∈ option_list o ↔ o = Some a.
Proof. destruct o; simpl; [rewrite list_elem_of_singleton; naive_solver|]. split; [by intros ?%elem_of_nil|done]. Qed.

Lemma result_lost_spec v c : result_lost v c = true ↔ lost (with_cursor c v).
Proof.
  unfold result_lost, lost. cbn. rewrite !andb_true_iff, bool_decide_eq_true, negb_true_iff. tauto.
Qed.

Lemma elem_of_claims v c h :
  h ∈ claims v c ↔ c_stmt c = Some h ∨ (¬ lost (with_cursor c v) ∧ c_result c = Some h).
Proof.
  unfold claims. rewrite elem_of_app, elem_of_option, <- result_lost_spec.
  destruct (result_lost v c); [|rewrite elem_of_option; intuition congruence].
  split; [intros [?|?%elem_of_nil]; [by left|done]|intros [?|[? _]]; [by left|done]].
Qed.

Lemma elem_of_all_claims v cs h :
  h ∈ all_claims v cs ↔ ∃ i cy, cs !! i = Some cy ∧ h ∈ claims v cy.1.
Proof.
  unfold all_claims. rewrite list_elem_of_bind. split.
  - intros ([i cy] & Hh & Hi). apply elem_of_map_to_list in Hi. by exists i, cy.
  - intros (i & cy & Hi & Hh). exists (i, cy). split; [done|]. by apply elem_of_map_to_list.
Qed.

(** The handles of a group of cursors, for those that run in their presence. *)
Program Definition guard_of (v : view) (cs : gmap nat (MrdbCursor * PyCursor)) : Guard :=
  mkGuard (filter (λ kv, kv.1 ∈ all_claims v cs ∧ kv.2 ≠ KMysql) (v_live v)) _ (Some (v_mysql v, v_closed v)).
Next Obligation. intros v cs h k H. by apply map_lookup_filter_Some in H as (_ & _ & ?). Qed.

(** Every cursor is as if it were alone, and no two of them claim the same. *)
Record cursors_ok (v : view) (cs : gmap nat (MrdbCursor * PyCursor)) : Prop := mkCursorsOk {
  ok_base : well (G := no_guard) (with_cursor cursor_zero v);
  ok_alone : ∀ i cy, cs !! i = Some cy -> settled (G := no_guard) (with_cursor cy.1 v);
  ok_apart : ∀ i j cy1 cy2 h, cs !! i = Some cy1 -> cs !! j = Some cy2 -> i ≠ j ->
    h ∈ claims v cy1.1 -> h ∉ claims v cy2.1;
}.

Lemma with_cursor_id v c : cur_of v c -> with_cursor c v = v.
Proof. intros []. unfold with_cursor. destruct v; cbn in *; congruence. Qed.

(** What a cursor claims is alive, and no connection. *)
Lemma claim_alive v c h :
  settled (G := no_guard) (with_cursor c v) -> h ∈ claims v c ->
  v_live v !! h = Some (if bool_decide (c_stmt c = Some h) then KStmt else KRes (c_is_buffered c)).
Proof.
  intros [W R] [Hs|[Hl Hr]]%elem_of_claims.
  - rewrite bool_decide_true by done. by apply (wl_stmt _ W).
  - destruct R as [R|]; [|done]. destruct (R h Hr) as (_ & _ & Hk & _). cbn in Hk.
    case_bool_decide as Hs; [|done]. by apply (wl_stmt _ W) in Hs.
Qed.

Section Apart.

Context (v : view) (cs : gmap nat (MrdbCursor * PyCursor)) (Hok : cursors_ok v cs).

Lemma guarded i cy h :
  cs !! i = Some cy -> h ∈ claims v cy.1 -> guard (Guard := guard_of v cs) !! h = v_live v !! h.
Proof.
  intros Hi Hh. pose proof (claim_alive _ _ _ (ok_alone _ _ Hok i cy Hi) Hh) as Hl. rewrite Hl. cbn.
  apply map_lookup_filter_Some. split_and!; cbn; [done| |by case_bool_decide].
  apply elem_of_all_claims. by exists i, cy.
Qed.

Lemma unguarded h : h ∉ all_claims v cs -> guard (Guard := guard_of v cs) !! h = None.
Proof. intros Hh. apply map_lookup_filter_None. right. by intros k _ [? _]. Qed.

(** A cursor that claims nothing of the others runs under their guard. *)
Lemma to_settled c :
  settled (G := no_guard) (with_cursor c v) -> (∀ h, h ∈ claims v c -> h ∉ all_claims v cs) ->
  settled (G := guard_of v cs) (with_cursor c v).
Proof.
  intros [[Hf Hm Hs _ _ _] R] Hc. split.
  - split; try done; [|by apply map_filter_subseteq|by intros ? [= <-]].
    intros s E. apply unguarded, Hc, elem_of_claims. by left.
  - destruct (decide (lost (with_cursor c v))) as [Hl|Hl]; [by right|left].
    destruct R as [R|]; [|done]. intros r E. destruct (R r E) as (? & ? & ? & _). split_and!; [done..|].
    apply unguarded, Hc, elem_of_claims. by right.
Qed.

End Apart.

(** Losing what the cursors may lose with the connection. *)
Definition same_or_closed (v v' : view) : Prop :=
  (v_mysql v' = v_mysql v ∧ v_closed v' = v_closed v) ∨ (v_mysql v' = None ∧ v_closed v' = true).

Lemma lost_stays v v' c : same_or_closed v v' -> lost (with_cursor c v) -> lost (with_cursor c v').
Proof. unfold lost. cbn. intros [[-> ->]|[-> ->]] (? & ? & ?); auto. Qed.

Lemma claims_shrink v v' c h : same_or_closed v v' -> h ∈ claims v' c -> h ∈ claims v c.
Proof. intros Hv. rewrite !elem_of_claims. intros [?|[Hl ?]]; [by left|right; eauto using lost_stays]. Qed.

(** Cursors survive what leaves their handles alive. *)
Lemma cursors_survive v v' cs :
  cursors_ok v cs -> well (G := no_guard) v' -> same_or_closed v v' ->
  (∀ i cy h, cs !! i = Some cy -> h ∈ claims v' cy.1 -> v_live v' !! h = v_live v !! h) ->
  cursors_ok v' cs.
Proof.
  intros Hok [Hf Hm _ _ _ _] Hv Hl. split.
  - split; cbn; try done. apply map_empty_subseteq.
  - intros i cy Hi. pose proof (ok_alone _ _ Hok i cy Hi) as [[_ _ Hs _ _ _] R]. split.
    + split; cbn; try done; [|apply map_empty_subseteq]. intros s E.
      rewrite (Hl i cy) by (done || by apply elem_of_claims; left). by apply Hs.
    + destruct (decide (lost (with_cursor cy.1 v'))) as [?|Hn]; [by right|left]. intros r E.
      destruct R as [R|?]; [|by destruct Hn; eauto using lost_stays].
      destruct (R r E) as (? & ? & Hk & _). split_and!; [done..| |done].
      cbn. rewrite (Hl i cy); [done..|]. apply elem_of_claims. by right.
  - intros i j cy1 cy2 h Hi Hj Hne H1 H2. apply (ok_apart _ _ Hok i j cy1 cy2 h); eauto using claims_shrink.
Qed.

(** Behind a method of another cursor. *)
Lemma survive_method v v' cs :
  cursors_ok v cs -> settled (G := guard_of v cs) v' ->
  cursors_ok v' cs ∧ settled (G := no_guard) v' ∧
  ∀ c, cur_of v' c -> ∀ h, h ∈ claims v' c -> h ∉ all_claims v' cs.
Proof.
  intros Hok Hs. assert (Hv : same_or_closed v v').
  { left. pose proof (wl_conn _ (proj1 Hs) _ eq_refl) as [= -> ->]. done. }
  assert (Hn : settled (G := no_guard) v')
    by (apply (settled_weaken (G := guard_of v cs) no_guard); [apply map_empty_subseteq|by left|done]).
  split_and!; [|done|].
  - apply (cursors_survive v); [done|apply Hn|done|]. intros i cy h Hi Hh. apply (claims_shrink v) in Hh; [|done].
    pose proof (claim_alive _ _ _ (ok_alone _ _ Hok i cy Hi) Hh) as Hl. rewrite Hl.
    eapply lookup_weaken; [|apply (wl_guard _ (proj1 Hs))]. by rewrite (guarded _ _ Hok i cy).
  - intros c Hc h Hh (i & cy & Hi & Hcy)%elem_of_all_claims. apply (claims_shrink v) in Hcy; [|done].
    pose proof (claim_alive _ _ _ (ok_alone _ _ Hok i cy Hi) Hcy) as Hl.
    rewrite <- (guarded _ _ Hok i cy) in Hl by done. rewrite <- (with_cursor_id _ _ Hc) in Hs.
    destruct Hs as [W R]. apply elem_of_claims in Hh as [E|[Hne E]].
    + pose proof (wl_private _ W h E). congruence.
    + destruct R as [R|]; [|done]. destruct (R h E) as (_ & _ & _ & ?). congruence.
Qed.

(** Behind a close of the connection. *)
Lemma survive_close v v' cs :
  cursors_ok v cs -> settled (G := closed_guard (guard_of v cs)) v' ->
  v_live v' = v_live v ∧ v_mysql v' = v_mysql v ∧ v_closed v' = v_closed v ∨
  v_mysql v' = None ∧ v_closed v' = true ->
  cursors_ok v' cs.
Proof.
  intros Hok Hs Hv. assert (Hsc : same_or_closed v v') by (unfold same_or_closed; tauto).
  apply (cursors_survive v); [done| |done|].
  - apply (settled_weaken (G := closed_guard (guard_of v cs)) no_guard); [apply map_empty_subseteq|by left|done].
  - intros i cy h Hi Hh. destruct Hv as [[-> _]|[Em Ec]]; [done|].
    pose proof (claims_shrink _ _ _ _ Hsc Hh) as Hh'.
    pose proof (claim_alive _ _ _ (ok_alone _ _ Hok i cy Hi) Hh') as Hl. rewrite Hl.
    eapply lookup_weaken; [|apply (wl_guard _ (proj1 Hs))]. apply map_lookup_filter_Some.
    rewrite (guarded _ _ Hok i cy), Hl by done. split; [done|]. cbn. case_bool_decide as Hst; [done|].
    apply elem_of_claims in Hh as [?|[Hn _]]; [done|]. intros [= E]. apply Hn. by split_and!.
Qed.

(** ** Sets of cursors *)

Lemma cursors_ok_delete v cs i : cursors_ok v cs -> cursors_ok v (delete i cs).
Proof.
  intros [Hb Ha Hd]. split; [done|..].
  - intros j cy [_ H]%lookup_delete_Some. eauto.
  - intros j k cy1 cy2 h [_ H1]%lookup_delete_Some [_ H2]%lookup_delete_Some. eauto.
Qed.

Lemma cursors_ok_insert v cs i cy :
  cursors_ok v (delete i cs) -> settled (G := no_guard) (with_cursor cy.1 v) ->
  (∀ h, h ∈ claims v cy.1 -> h ∉ all_claims v (delete i cs)) -> cursors_ok v (<[i := cy]> cs).
Proof.
  intros [Hb Ha Hd] Hs Hc. assert (Hdel : ∀ j cj, j ≠ i -> <[i := cy]> cs !! j = Some cj -> delete i cs !! j = Some cj).
  { intros j cj Hj. by rewrite lookup_insert_ne, lookup_delete_ne. }
  split; [done|..].
  - intros j cj Hj. destruct (decide (j = i)) as [->|]; [|by eapply Ha, Hdel].
    by rewrite lookup_insert_eq in Hj; simplify_eq.
  - intros j k cj ck h Hj Hk Hne Hh Hh'.
    destruct (decide (j = i)) as [->|]; [|destruct (decide (k = i)) as [->|]].
    + rewrite lookup_insert_eq in Hj. simplify_eq. apply (Hc h Hh), elem_of_all_claims. eauto.
    + rewrite lookup_insert_eq in Hk. simplify_eq. apply (Hc h Hh'), elem_of_all_claims. eauto.
    + by apply (Hd j k cj ck h); auto.
Qed.

(** The cursor of a number among the others. *)
Lemma cursor_settled v cs i cy :
  cursors_ok v cs -> cs !! i = Some cy -> settled (G := guard_of v (delete i cs)) (with_cursor cy.1 v).
Proof.
  intros Hok Hi. apply to_settled; [by apply (ok_alone _ _ Hok i)|].
  intros h Hh (j & cj & [Hne Hj]%lookup_delete_Some & Hh')%elem_of_all_claims.
  by apply (ok_apart _ _ Hok i j cy cj h).
Qed.

(** A new cursor. *)
Lemma new_cursor_idle v cs : cursors_ok v cs -> idle (G := guard_of v cs) (with_cursor cursor_zero v).
Proof.
  intros Hok. destruct (to_settled v cs cursor_zero) as [W _]; [|by intros h [[=]|[_ [=]]]%elem_of_claims|by split].
  apply holds_settled, idle_holds. by split; [apply (ok_base _ _ Hok)|].
Qed.

(** ** Methods *)

Section Methods.

Context `{C : Client} `{P : PyLib} {G : Guard} (al : allocations).

Lemma hwp_finalize v : settled v -> hwp MrdbCursor_finalize (λ _ v', settled v') v.
Proof.
  intros Hs. unfold MrdbCursor_finalize. apply hwp_get_conn. intros n Hn. rewrite (no_mysql _ _ Hn).
  destruct (v_mysql v) eqn:Em; [|by apply hwp_ret].
  assert (R : result_held v) by (apply settled_held; [done|left; congruence]). destruct Hs as [W _].
  eapply hwp_mono; [by apply hwp_cursor_close, held_kind|]. intros ? v' [->|Hi]; [by apply holds_settled|].
  by apply idle_settled.
Qed.

Lemma psettled_finalize : pkeep settled (c_call al CurFinalize).
Proof.
  intros v Hs. apply pinv_call. cbn. unfold fmap, M_fmap. apply hwp_bind.
  eapply hwp_mono; [by apply hwp_finalize|]. intros ? v' H'. by apply hwp_ret.
Qed.

Lemma psettled_finally {A} (m : PM A) : pkeep settled m -> pkeep settled (finally_drop al m).
Proof.
  intros Hm v Hs s w E He. specialize (Hm v Hs s w E He). unfold finally_drop, mbind, M_bind.
  destruct (m s w) as [[s' r] w'|]; [|done]. destruct Hm as [He' Hs']. cbn [fst].
  pose proof (psettled_finalize _ Hs' s' w' eq_refl He') as Hf.
  by destruct (c_call al CurFinalize s' w') as [[s2 r2] w2|].
Qed.

Lemma pinv_with_cursor_of {A} stmt (m : PM A) v :
  pkeep settled m -> idle v -> pinv (with_cursor_of al stmt m) settled v.
Proof.
  intros Hm Hi. unfold with_cursor_of.
  apply (pinv_bind _ _ idle); [by apply pidle_cursor|apply idle_settled|]. intros _ v' Hi'.
  apply psettled_finally; [|by apply idle_settled]. apply pkeep_bind; [apply psettled_execute|done].
Qed.

Lemma pinv_show_warnings v : idle v -> pinv (show_warnings al) settled v.
Proof.
  intros Hi. unfold show_warnings. pose proof idle_settled.
  apply (pinv_bind _ _ idle); [by apply (pkeep_conn_check idle)|done|]. intros _ v1 H1.
  apply (pinv_bind _ _ idle); [by apply (pkeep_object al idle)|done|]. intros o v2 H2.
  destruct (py_true o); [|by apply pinv_ret, idle_settled].
  apply (pinv_bind _ _ settled); [by apply pinv_with_cursor_of; [apply psettled_fetchall|]|done|].
  intros rows v3 H3. by apply pinv_ret.
Qed.

Lemma pinv_tpc_recover v : idle v -> pinv (tpc_recover al) settled v.
Proof.
  intros Hi. unfold tpc_recover. pose proof idle_settled.
  apply (pinv_bind _ _ idle); [by apply (pkeep_conn_check idle)|done|]. intros _ v1 H1.
  by apply pinv_with_cursor_of; [apply psettled_fetchall|].
Qed.

Lemma pinv_ignore {A} (m : PM A) v : pinv m settled v -> pinv (ignore m) settled v.
Proof. intros H. apply (pinv_bind _ _ settled); [done|done|]. intros. by apply pinv_ret. Qed.

(** The connection is as it was, or closed. *)
Definition kept_or_closed (v v' : view) : Prop := v' = v ∨ v_mysql v' = None ∧ v_closed v' = true.

Lemma hwp_close_outcome v : well v -> hwp MrdbConnection_close (λ _ v', kept_or_closed v v') v.
Proof.
  intros W. unfold MrdbConnection_close, MARIADB_CHECK_CONNECTION. apply hwp_get_conn. intros n Hn.
  rewrite (no_mysql _ _ Hn). destruct (v_mysql v) as [m|] eqn:Em.
  2: { eapply hwp_mono; [apply hwp_framed; [framed_auto|intros; by apply framed_ret]|]. intros ? ? ->. by left. }
  unfold close_handle. apply hwp_bind. hstep. apply hwp_bind, hwp_call; [alive_auto|]. intros u. hstep.
  apply hwp_upd_conn. intros n1 Hn1. apply hwp_bind, hwp_upd_conn. intros n2 Hn2.
  eapply hwp_mono; [apply framed_none|]. intros ? v' ->. right. cbn. by rewrite (no_mysql _ _ Hn2).
Qed.

Lemma pinv_close_outcome v : well v -> pinv (conn_close al) (kept_or_closed v) v.
Proof.
  intros W. unfold conn_close. apply pinv_same; [|by left|intros _].
  - unfold connection_check_closed. apply pinv_the_connection. intros n Hn.
    destruct (n_closed n); [by apply pinv_raise|by apply pinv_ret].
  - eapply (pinv_bind _ _ (kept_or_closed v)); [|done|by intros; apply pinv_ret]. apply pinv_object. cbn.
    unfold fmap, M_fmap. apply hwp_bind. eapply hwp_mono; [by apply hwp_close_outcome|].
    intros ? v' H'. by apply hwp_ret.
Qed.

Lemma pinv_and {A} (m : PM A) (I J : view -> Prop) v :
  pinv m I v -> pinv m J v -> pinv m (λ v', I v' ∧ J v') v.
Proof.
  intros HI HJ s w E He. specialize (HI s w E He). specialize (HJ s w E He).
  destruct (m s w) as [[s' r] w'|]; [|done]. by destruct HI, HJ.
Qed.

End Methods.

(** ** Applications *)

Section Applications.

Context `{C : Client} `{P : PyLib} (al : allocations).

Lemma traced_lock {A} (m : M A) : traced al m -> lock (K := lock_only) true true m.
Proof.
  intros Hm w Hw. destruct (Hm w) as [rs Hrs]. pose proof (lock_requests al rs w Hw) as H.
  unfold lock_at in *. rewrite Hrs in H. by destruct (m w).
Qed.

Lemma traced_with_cursor {A} stmt (m : PM A) : tracedP al m -> tracedP al (with_cursor_of al stmt m).
Proof.
  intros Hm. unfold with_cursor_of. apply tracedP_bind; [exact (traced_api al (ApiCursor None))|intros _ s].
  apply traced_bind; [|intros r; apply traced_bind; [apply tracedP_call|intros; apply traced_ret]].
  apply tracedP_bind; [apply traced_execute|done].
Qed.

Lemma traced_fetchall : tracedP al (fetchall al).
Proof. unfold fetchall, fetchrows. pose proof (traced_check_unbuffered al). traced_auto. Qed.

Lemma traced_show_warnings : tracedP al (ignore (show_warnings al)).
Proof.
  unfold ignore, show_warnings. pose proof (traced_with_cursor "SHOW WARNINGS" _ traced_fetchall).
  pose proof (traced_conn_check al). pose proof (traced_object al). traced_auto.
Qed.

Lemma traced_tpc_recover : tracedP al (ignore (tpc_recover al)).
Proof.
  unfold ignore, tpc_recover. pose proof (traced_with_cursor "XA RECOVER" _ traced_fetchall).
  pose proof (traced_conn_check al). traced_auto.
Qed.

(** Between two calls. *)
Record app_ok (a : app) (w : world C) : Prop := mkAppOk {
  ao_lock : lock_state true w;
  ao_err : w_err w = None;
  ao_cursors : cursors_ok (view_of w) (a_cursors a);
}.

Definition app_safe {A : Type} (m : M (app * A)) (w : world C) : Prop :=
  match m w with Done r w' => app_ok r.1 w' | Stuck st => st ≠ InvalidHandle ∧ st ≠ GilViolation end.

(** A method on a cursor that is loaded, and what the application makes of its
    outcome. *)
Lemma safe_run {A B} (m : PM A) cy k (J : view -> Prop) (f : _ -> M (app * B)) w :
  tracedP al m -> lock_state true w -> w_err w = None -> pinv m J (with_cursor cy.1 (view_of w)) ->
  (∀ c' y k' x w', lock_state true w' -> w_err w' = None -> J (view_of w') -> cur_of (view_of w') c' ->
     app_safe (f (c', y, k', x)) w') ->
  app_safe (run_on cy k m ≫= f) w.
Proof.
  intros Ht Hl He Hm Hf. unfold app_safe, run_on, mbind, M_bind. cbn.
  set (w1 := mkWorld _ _ _ _ _ _ _). specialize (Hm (mkPyState cy.2 k) w1 eq_refl He).
  pose proof (traced_lock _ (Ht (mkPyState cy.2 k)) w1 Hl) as Hl2. unfold lock_at in Hl2.
  destruct (m _ w1) as [[s r] w2|]; [|done]. destruct Hm as [He2 HJ]. cbn.
  apply (Hf (w_cur w2) _ _ _ w2); [done..|]. by split.
Qed.

Lemma safe_ret {A} a (x : A) w : app_ok a w -> app_safe (mret (a, x)) w.
Proof. done. Qed.

(** A method of the connection keeps the cursors. *)
Lemma safe_conn m a w :
  app_ok a w -> tracedP al m ->
  (∀ (G : Guard) v, idle (G := G) v -> pinv m (settled (G := G)) v) ->
  app_safe (run_conn m a) w.
Proof.
  intros [Hl He Hok] Ht Hm. unfold run_conn. eapply safe_run; [done..|by apply (Hm (guard_of (view_of w) (a_cursors a))), new_cursor_idle|].
  intros c' y k' x w' Hl' He' Hs Hc. apply safe_ret. split; [done..|]. by eapply survive_method.
Qed.

Lemma safe_close a w : app_ok a w -> app_safe (run_conn (conn_close al) a) w.
Proof.
  intros [Hl He Hok]. pose proof (new_cursor_idle _ _ Hok) as Hi. unfold run_conn.
  eapply safe_run; [exact (traced_api al ApiConnClose)|done|done|apply pinv_and|].
  { by apply (psettled_conn_close (G := guard_of (view_of w) (a_cursors a))), idle_settled. }
  { by apply (pinv_close_outcome (G := guard_of (view_of w) (a_cursors a))), Hi. }
  intros c' y k' x w' Hl' He' [Hs Hv] Hc. apply safe_ret. split; [done..|]. eapply survive_close; [done..|].
  destruct Hv as [->|?]; [by left|by right].
Qed.

(** A method of a cursor. *)
Lemma safe_cursor {A B} (m : PM A) a i cy (f : _ -> M (app * B)) w :
  app_ok a w -> a_cursors a !! i = Some cy -> tracedP al m ->
  (∀ G : Guard, pkeep (settled (G := G)) m) ->
  (∀ c' y k' x w', lock_state true w' -> cursors_ok (view_of w') (delete i (a_cursors a)) -> w_err w' = None ->
     (∀ y', cursors_ok (view_of w') (<[i := (c', y')]> (a_cursors a))) -> app_safe (f (c', y, k', x)) w') ->
  app_safe (run_on cy (a_conn a) m ≫= f) w.
Proof.
  intros [Hl He Hok] Hi Ht Hm Hf. eapply safe_run; [done..|by apply (Hm (guard_of (view_of w) (delete i (a_cursors a)))), cursor_settled|].
  intros c' y k' x w' Hl' He' Hs Hc.
  destruct (survive_method _ _ _ (cursors_ok_delete _ _ i Hok) Hs) as (Hd & Hn & Ha).
  apply Hf; [done..|]. intros y'. apply cursors_ok_insert; [done| |by apply Ha]. cbn. by rewrite with_cursor_id.
Qed.

Lemma safe_make kwargs a w : app_ok a w -> app_safe (app_step al (MakeCursor kwargs) a) w.
Proof.
  intros [Hl He Hok]. cbn [app_step]. eapply safe_run; [exact (traced_api al (ApiCursor kwargs))|done|done|eapply pinv_mono|].
  - by apply (pidle_cursor (G := guard_of (view_of w) (a_cursors a))), (new_cursor_idle _ _ Hok).
  - intros v'. apply idle_settled.
  - intros c' y k' x w' Hl' He' Hs Hc. destruct (survive_method _ _ _ Hok Hs) as (Hd & Hn & Ha).
    destruct x as [|u]; apply safe_ret; (split; [done..|]); [done|]. cbn.
    apply cursors_ok_insert; [by apply cursors_ok_delete|cbn; by rewrite with_cursor_id|].
    intros h Hh (j & cj & [_ Hj]%lookup_delete_Some & Hh')%elem_of_all_claims.
    apply (Ha c' Hc h Hh), elem_of_all_claims. eauto.
Qed.

Lemma app_step_safe c a w : app_ok a w -> app_safe (app_step al c a) w.
Proof.
  intros Hok. destruct c as [kwargs|i c|c|i| |]; [by apply safe_make|..]; cbn [app_step].
  - destruct (a_cursors a !! i) as [cy|] eqn:Hi; [|done]. destruct (of_cursor c) eqn:Hc; [|done].
    apply (safe_cursor _ a i); [done..|apply traced_api|intros G; apply psettled_api; by destruct c|]. intros. apply safe_ret. by split; cbn; auto.
  - destruct (of_connection c) eqn:Hc; [|done].
    assert (c = ApiConnClose ∨ c ≠ ApiConnClose) as [->|Hn] by (destruct c; auto); [by apply safe_close|].
    apply safe_conn; [done|apply traced_api|]. intros G v Hi. apply psettled_api; [by destruct c|done|by apply idle_settled].
  - destruct (a_cursors a !! i) as [cy|] eqn:Hi; [|done].
    apply (safe_cursor _ a i); [done..|apply tracedP_call|intros G; apply psettled_finalize|]. intros. apply safe_ret. by split; cbn; auto.
  - apply safe_conn; [done|apply traced_show_warnings|]. intros G v Hi. by apply pinv_ignore, pinv_show_warnings.
  - apply safe_conn; [done|apply traced_tpc_recover|]. intros G v Hi. by apply pinv_ignore, pinv_tpc_recover.
Qed.

Lemma app_run_safe cs a w : app_ok a w -> app_safe (app_run al cs a) w.
Proof.
  revert a w. induction cs as [|c cs IH]; intros a w Hok; [done|]. cbn [app_run].
  pose proof (app_step_safe c a w Hok) as H. unfold app_safe, mbind, M_bind in *.
  destruct (app_step al c a w) as [[a1 x] w1|]; [|done]. specialize (IH a1 w1 H). cbn.
  by destruct (app_run al cs a1 w1) as [[a2 xs] w2|].
Qed.

End Applications.

Lemma cursors_ok_empty v : idle (G := no_guard) v -> cursors_ok v ∅.
Proof.
  intros [[Hf Hm _ _ _ _] _]. split.
  - split; cbn; try done. apply map_empty_subseteq.
  - by intros i cy.
  - by intros i j cy1.
Qed.

(** C7: An application opens a connection and then makes any number of cursors of
    it, calls whatever methods of any of them and of the connection it likes, in
    any order and with whatever arguments, drops cursors, closes the connection
    under them, reads warnings and pending transactions, and handles any
    exceptions.  No handle that is not alive is passed to the library, neither
    because another cursor ended it nor because the connection was closed, and
    no interpreter function is called without the lock.  Behind every call each
    cursor has its own handles, alive, but for the result sets of unbuffered
    cursors whose connection was closed; no two cursors hold the same handle.
    Nothing is assumed of the library or of the allocator.  Using a cursor means
    calling its methods and reading its properties; assigning to its attribute
    [buffered] is left out ([buffered_attribute_unchecked]). *)
Theorem cursors_handles_alive `{C : Client} `{P : PyLib} (al : allocations)
    (connection : connection_kwargs) (cs : list app_call) (w : world C) :
  pristine w -> lock_state true w ->
  match app_main al connection cs w with
  | Done r w' => app_ok r.1 w'
  | Stuck st => st ≠ InvalidHandle ∧ st ≠ GilViolation
  end.
Proof.
  intros Hw Hl. unfold app_main, mbind at 1, M_bind.
  assert (H : app_safe (run_conn (Connection_init al connection)
                (mkApp ∅ 0 pyconnection_new)) w).
  { unfold run_conn. eapply (safe_run al);
      [exact (traced_api al (ApiConnect connection))|done|apply Hw| |].
    - apply (pidle_connect (G := no_guard) al); [done|]. apply (idle_with_cursor (G := no_guard)); [by apply pristine_idle|..];
        symmetry; apply Hw.
    - intros c' y k' x w' Hl' He' Hi _. apply safe_ret. split; [done..|]. by apply cursors_ok_empty. }
  unfold app_safe in H. destruct (run_conn _ _ w) as [[a x] w1|]; [|done].
  pose proof (app_run_safe al cs a w1 H) as H2. unfold app_safe, mbind, M_bind in *. cbn [fst].
  by destruct (app_run al cs a w1) as [[a2 xs] w2|].
Qed.

(** An unbuffered cursor in the middle of its result set, a buffered one beside
    it, and a connection that is closed under both. *)
Definition demo_cursors : list app_call :=
  [MakeCursor (Some demo_unbuffered); MakeCursor None;
   OnCursor 1 (ApiExecute (PyUnicode (bytes_of_string "SELECT a FROM t")) (PyTuple []) None);
   OnCursor 0 (ApiExecute (PyUnicode (bytes_of_string "SELECT a FROM t")) (PyTuple []) None);
   OnCursor 0 ApiFetchOne; ShowWarnings; OnConnection ApiConnClose; OnCursor 0 ApiFetchOne;
   OnCursor 1 ApiFetchOne; DropCursor 0; OnCursor 1 ApiCursorClose].

Lemma cursors_handles_alive_witness :
  ∃ r w', app_main demo_allocs (demo_connection true true) demo_cursors demo_world = Done r w' ∧
    app_ok r.1 w' ∧ size (a_cursors r.1) = 1%nat.
Proof.
  pose proof (cursors_handles_alive demo_allocs (demo_connection true true) demo_cursors demo_world
    ltac:(by split_and!) ltac:(by split)) as H.
  assert (E : match app_main demo_allocs (demo_connection true true) demo_cursors demo_world with
              | Done r w' => bool_decide (size (a_cursors r.1) = 1%nat)
              | Stuck _ => false
              end = true) by (vm_compute; reflexivity).
  destruct (app_main demo_allocs _ _ demo_world) as [r w'|st]; [|discriminate E].
  exists r, w'. apply bool_decide_eq_true in E. exact (conj eq_refl (conj H E)).
Defined.

(** Dropping a cursor whose connection is closed frees nothing: the result set it
    had buffered stays. *)
Lemma closed_connection_leaks :
  match app_main demo_allocs (demo_connection true true) (demo_cursors ++ [DropCursor 1]) demo_world with
  | Done r w => a_cursors r.1 = ∅ ∧ w_live w = {[1%nat := KRes true]}
  | Stuck _ => False
  end.
Proof. vm_compute. split; reflexivity. Qed.
