(* ===== verification/PoolConnections.v ===== *)
(** * Pools of connections

    The interface of [Pool] discharged with the connections of [PyConnection]:
    every method the pool calls returns or raises, and leaves a connection on
    which that is so again.  With it the theorems on the pool hold for pools of
    such connections. *)

From stdpp Require Import gmap strings.
From S2P Require Import Prelude Parser Values DateTime Wire Fetch Exceptions Params Client.
From S2P Require Import Connection Cursor Session CursorLogic SessionSafety CursorProps CursorRuns Demo.
From S2P Require Import Python PyCursor PyConnection PyApi PyRuns.
From S2P Require Import HandleLogic HandleRuns HandleRequests Pool PoolProps PoolHistories.

(** Nobody else has handles of these connections. *)
#[local] Existing Instance no_guard.

(** The information the pool asks for has the type the documentation says. *)
Definition status_is_number (C : Client) : Prop :=
  ∀ m (l l' : lib_state) r reports,
  lib_call (mariadb_get_infov m INFO_SERVER_STATUS) l = (r, reports, l') ->
  match r with Some (InfoNumber _) | None => True | Some _ => False end.

(** ** No null pointers, no endless loops *)

Section Clean.

Context `{C : Client} `{P : PyLib}.

(** Undefined behaviour, if any, is a matter of the lock or of handles. *)
Definition clean_at {A : Type} (m : M A) (w : world C) : Prop :=
  match m w with Stuck s => s = GilViolation ∨ s = InvalidHandle | Done _ _ => True end.

Definition clean {A : Type} (m : M A) : Prop := ∀ w, clean_at m w.

Lemma clean_bind_at {A B} (m : M A) (k : A -> M B) w :
  clean m -> (∀ a w', m w = Done a w' -> clean_at (k a) w') -> clean_at (m ≫= k) w.
Proof.
  intros Hm Hk. specialize (Hm w). unfold clean_at, mbind, M_bind in *. destruct (m w) as [a w'|]; [|done].
  by apply Hk.
Qed.

Lemma clean_bind {A B} (m : M A) (k : A -> M B) : clean m -> (∀ a, clean (k a)) -> clean (m ≫= k).
Proof. intros Hm Hk w. apply clean_bind_at; [done|]. intros a w' _. apply Hk. Qed.

Lemma clean_ret {A} (a : A) : clean (mret a). Proof. done. Qed.
Lemma clean_get_cur : clean get_cur. Proof. done. Qed.
Lemma clean_get_conn : clean get_conn. Proof. done. Qed.
Lemma clean_get_gil : clean get_gil. Proof. done. Qed.
Lemma clean_get_err : clean get_err. Proof. done. Qed.
Lemma clean_get_live : clean get_live. Proof. done. Qed.
Lemma clean_upd_conn f : clean (upd_conn f). Proof. done. Qed.
Lemma clean_set_gil b : clean (set_gil b). Proof. done. Qed.
Lemma clean_put_err e : clean (put_err e). Proof. done. Qed.
Lemma clean_put_live l : clean (put_live l). Proof. done. Qed.
Lemma clean_new_handle k : clean (new_handle k). Proof. done. Qed.
Lemma clean_gil_violation {A} : clean (fail (A := A) GilViolation). Proof. intros w. by left. Qed.
Lemma clean_invalid_handle {A} : clean (fail (A := A) InvalidHandle). Proof. intros w. by right. Qed.

End Clean.

Create HintDb clean discriminated.
#[export] Hint Resolve clean_ret clean_get_cur clean_get_conn clean_get_gil clean_get_err clean_get_live
  clean_upd_conn clean_set_gil clean_put_err clean_put_live clean_new_handle clean_gil_violation
  clean_invalid_handle : clean.

Ltac clean_auto :=
  repeat (intros; match goal with
  | |- clean (mbind _ _) => apply clean_bind
  | |- clean (let _ := _ in _) => cbv zeta
  | |- clean (match ?x with _ => _ end) => destruct x eqn:?
  | |- clean _ => solve [eauto 2 with clean nocore]
  end).

Section Requests.

Context `{C : Client} `{P : PyLib} (Hfit : reports_fit (C := C)).

Lemma clean_py : clean py.
Proof. unfold py. clean_auto. Qed.
#[local] Hint Resolve clean_py : clean.
Lemma clean_begin : clean MARIADB_BEGIN_ALLOW_THREADS.
Proof. unfold MARIADB_BEGIN_ALLOW_THREADS, PyEval_SaveThread. clean_auto. Qed.
Lemma clean_end : clean MARIADB_END_ALLOW_THREADS.
Proof. unfold MARIADB_END_ALLOW_THREADS, PyEval_RestoreThread. clean_auto. Qed.
Lemma clean_unblock : clean MARIADB_UNBLOCK_THREADS.
Proof. unfold MARIADB_UNBLOCK_THREADS, PyEval_RestoreThread. clean_auto. Qed.
Lemma clean_block b : clean (MARIADB_BLOCK_THREADS b).
Proof. unfold MARIADB_BLOCK_THREADS, PyEval_SaveThread. clean_auto. Qed.
Lemma clean_set_err e : clean (set_err e).
Proof. unfold set_err. clean_auto. Qed.
#[local] Hint Resolve clean_begin clean_end clean_unblock clean_block clean_set_err : clean.
Lemma clean_throw_message e msg : clean (throw_message e msg).
Proof. unfold throw_message. cbn. clean_auto. Qed.
Lemma clean_PyErr : clean PyErr_Occurred.
Proof. unfold PyErr_Occurred. clean_auto. Qed.
#[local] Hint Resolve clean_throw_message clean_PyErr : clean.

Lemma clean_status i : report_fits i -> clean (MrdbConnection_process_status_info i).
Proof.
  intros Hi. unfold MrdbConnection_process_status_info. apply clean_bind; [clean_auto|intros c].
  destruct i as [| | |key v|]; [clean_auto| clean_auto| clean_auto| |clean_auto]. cbn in Hi. rewrite (proj2 (Nat.ltb_lt _ _) Hi). clean_auto.
Qed.

Lemma clean_reports l : Forall report_fits l -> clean (process_reports l).
Proof. induction 1; simpl; [clean_auto|]. apply clean_bind; [by apply clean_status|done]. Qed.

Lemma clean_call {R} (op : libop R) : clean (call op).
Proof.
  intros w. unfold call. apply clean_bind_at; [clean_auto|]. intros live w1 [= <- <-].
  destruct (forallb _ _); [|by right]. unfold clean_at, mbind, M_bind, lib_step.
  destruct (lib_call op (w_lib w)) as [[r reports] l] eqn:E. cbn.
  pose proof (clean_reports reports (Hfit _ _ _ _ _ _ E)) as H.
  match goal with |- context [process_reports reports ?w1] => specialize (H w1) end.
  unfold clean_at in H. by destruct (process_reports _ _).
Qed.
#[local] Hint Resolve clean_call : clean.

(** What the library answers is known to the rest. *)
Lemma clean_call_bind {R B} (op : libop R) (k : R -> M B) :
  (∀ r reports l l', lib_call op l = (r, reports, l') -> clean (k r)) -> clean (call op ≫= k).
Proof.
  intros Hk w. apply clean_bind_at; [clean_auto|]. intros r w' H.
  apply call_Done in H as (_ & _ & _ & reports & H). by eapply Hk.
Qed.

Lemma clean_create op k : clean (create op k).
Proof. unfold create. clean_auto. Qed.
Lemma clean_throw_diag op : clean (throw_diag op).
Proof. unfold throw_diag. cbn. clean_auto. Qed.
Lemma clean_c_long r : clean (c_long r).
Proof. unfold c_long. clean_auto. Qed.
#[local] Hint Resolve clean_create clean_throw_diag clean_c_long : clean.
Lemma clean_unlocked m op : clean (unlocked_command m op).
Proof. unfold unlocked_command, return_none. clean_auto. Qed.
Lemma clean_set_options m l : clean (set_options m l).
Proof. induction l; simpl; clean_auto. Qed.
#[local] Hint Resolve clean_unlocked clean_set_options : clean.
Lemma clean_Initialize args : clean (MrdbConnection_Initialize args).
Proof. unfold MrdbConnection_Initialize, connect_unlocked, connect_end. clean_auto. Qed.
#[local] Hint Resolve clean_Initialize : clean.

(** The requests of the pool that need nothing else. *)
Definition pool_request (r : request) : bool :=
  match r with
  | ConnInit _ | ConnClose | ConnPing | ConnReset | ConnSetReconnect _ | ConnConverter _
  | ConnCommand (PyUnicode _) => true
  | _ => false
  end.

Lemma clean_request al r : pool_request r = true -> clean (perform al r).
Proof.
  intros Hr. destruct r; try done; cbn [perform pool_request] in *; try (case_match; try done);
    unfold fmap, M_fmap, MrdbConnection_close, close_handle, MrdbConnection_ping, MrdbConnection_reset,
      MrdbConnection_setreconnect, MrdbConnection_executecommand, MARIADB_CHECK_CONNECTION, return_none;
    clean_auto.
Qed.

Lemma clean_info al : status_is_number C -> clean (perform al (ConnInfo (PyLong INFO_SERVER_STATUS))).
Proof.
  intros Hn. cbn [perform]. unfold fmap, M_fmap. apply clean_bind; [|clean_auto].
  unfold MrdbConnection_getinfo. cbn [as_long].
  change (as_ulonglong (PyLong INFO_SERVER_STATUS)) with (30, false).
  intros w. apply clean_bind_at; [clean_auto|]. intros n w1 H1.
  assert (n = 30) as -> by (unfold c_long in H1; cbn in H1; apply bind_Done in H1 as (? & ? & ? & [=]); congruence).
  change (u32 30) with INFO_SERVER_STATUS. cbv zeta.
  match goal with |- clean_at ?k _ => enough (Hc : clean k) by apply Hc end.
  apply clean_bind; [clean_auto|intros c]. apply clean_call_bind. intros r reports l l' E.
  apply Hn in E. destruct r as [[s|z|x]|]; [done| |done|clean_auto].
  change (bool_decide (INFO_SERVER_STATUS ∈ string_infos)) with false.
  change (bool_decide (INFO_SERVER_STATUS ∈ number_infos)) with true.
  cbv iota. unfold return_long. clean_auto.
Qed.

(** The answer to a command is read on a connection that is there. *)
Lemma clean_readresponse al (w : world C) :
  n_mysql (w_conn w) ≠ None -> clean_at (perform al ConnReadResponse) w.
Proof.
  intros Hm. cbn [perform]. unfold fmap, M_fmap.
  assert (H : clean_at MrdbConnection_readresponse w).
  { unfold MrdbConnection_readresponse. apply clean_bind_at; [clean_auto|]. intros c w1 [= <- <-].
    destruct (n_mysql (w_conn w)) as [m|]; [|done]. cbn [nonnull].
    match goal with |- clean_at ?k _ => enough (Hc : clean k) by apply Hc end.
    unfold return_none. clean_auto. }
  unfold clean_at, mbind, M_bind in *. by destruct (MrdbConnection_readresponse w).
Qed.

End Requests.

(** ** Methods that return or raise *)

Section Total.

Context `{C : Client} `{P : PyLib} (al : allocations).
Context (Hfit : reports_fit (C := C)) (Hnum : status_is_number C).

(** A connection between two calls: the lock is held, no exception is set, and
    its handle, if it has one, is alive.  Nobody uses a cursor of it. *)
Definition conn_ok (w : world C) : Prop := at_rest w ∧ idle (view_of w).

(** The result set of the cursor is no matter of the connection. *)
Lemma close_keeps_result v :
  well v -> hwp MrdbConnection_close (λ _ v', v_result v' = v_result v) v.
Proof.
  intros W. unfold MrdbConnection_close, MARIADB_CHECK_CONNECTION, close_handle. apply hwp_get_conn.
  intros n Hn. rewrite (no_mysql _ _ Hn). destruct (v_mysql v) as [m|] eqn:Em.
  - apply hwp_bind. hstep. apply hwp_bind, hwp_call; [alive_auto|]. intros u. hstep.
    apply hwp_upd_conn. intros n1 Hn1. apply hwp_bind, hwp_upd_conn. intros n2 Hn2.
    eapply hwp_mono; [apply framed_none|]. by intros ? ? ->.
  - eapply hwp_mono; [apply hwp_framed; [framed_cursor|intros; by apply framed_ret]|]. by intros ? ? ->.
Qed.

Lemma idle_connection_close : keeps_idle MrdbConnection_close.
Proof.
  intros v Hi w E. pose proof (hwp_connection_close v (holds_settled _ (idle_holds _ Hi)) w E) as H1.
  pose proof (close_keeps_result v ltac:(apply Hi) w E) as H2.
  destruct (MrdbConnection_close w) as [a w'|]; [|done].
  split; [|rewrite H2; apply Hi].
  apply (settled_weaken (G := closed_guard no_guard) no_guard); [apply map_empty_subseteq|by left|done].
Qed.

Lemma idle_pool_request r :
  pool_request r = true ∨ conn_request r = true -> keeps_idle (perform al r).
Proof.
  intros Hr. destruct (conn_request r) eqn:Hc.
  { intros v Hi. apply idle_framed; [done|]. apply framed_conn_request; [apply Hi|done]. }
  destruct Hr as [Hr|]; [|done]. destruct r; try done; cbn [perform]; intros v Hi; unfold fmap, M_fmap;
    (eapply hwp_idle_bind; [first [by apply idle_connection_close | by apply idle_Initialize]|]);
    intros a v' H'; by apply hwp_ret.
Qed.

(** Behind a request the exception is handed over. *)
Definition requested (w' : world C) : Prop := lock_state true w' ∧ idle (view_of w').

Lemma request_runs r w :
  pool_request r = true ∨ conn_request r = true -> clean_at (perform al r) w -> conn_ok w ->
  ∃ v w', perform al r w = Done v w' ∧ requested w'.
Proof.
  intros Hr Hc [[Hl He] Hi]. pose proof (lock_request al r w Hl) as H1.
  pose proof (idle_pool_request r Hr _ Hi w eq_refl) as H2. unfold clean_at, lock_at in *.
  destruct (perform al r w) as [v w'|s]; [by exists v, w'|]. cbn in H1. by destruct Hc as [->| ->].
Qed.

Definition total_at {A : Type} (m : PM A) (s : pystate) (w : world C) : Prop :=
  match m s w with Done _ w' => conn_ok w' | Stuck _ => False end.

Lemma total_bind_at {A B} (m : PM A) (k : A -> PM B) s w :
  total_at m s w ->
  (∀ s' a w', m s w = Done (s', inr a) w' -> conn_ok w' -> total_at (k a) s' w') -> total_at (m ≫= k) s w.
Proof.
  intros Hm Hk. unfold total_at, mbind, PM_bind, mbind, M_bind in *.
  destruct (m s w) as [[s' [x|a]] w'|]; [done| |done]. by apply Hk.
Qed.

(** A method that returns or raises. *)
Definition ptotal {A : Type} (m : PM A) : Prop := ∀ s w, conn_ok w -> total_at m s w.

Lemma ptotal_bind {A B} (m : PM A) (k : A -> PM B) :
  ptotal m -> (∀ a, ptotal (k a)) -> ptotal (m ≫= k).
Proof. intros Hm Hk s w Hw. apply total_bind_at; [by apply Hm|]. intros s' a w' _. apply Hk. Qed.

Lemma ptotal_ret {A} (a : A) : ptotal (mret a). Proof. by intros s w Hw. Qed.
Lemma ptotal_raise {A} x : ptotal (raise (A := A) x). Proof. by intros s w Hw. Qed.
Lemma ptotal_attrs : ptotal attrs. Proof. by intros s w Hw. Qed.
Lemma ptotal_upd_attrs f : ptotal (upd_attrs f). Proof. by intros s w Hw. Qed.
Lemma ptotal_the_connection : ptotal the_connection. Proof. by intros s w Hw. Qed.

Lemma ptotal_call_at r s w :
  pool_request r = true ∨ conn_request r = true -> clean_at (perform al r) w -> conn_ok w ->
  total_at (c_call al r) s w.
Proof.
  intros Hr Hc Hw. destruct (request_runs r w Hr Hc Hw) as (v & w' & E & [Hl Hi]).
  unfold total_at, c_call, mbind, M_bind. rewrite E. cbn. by split; [split|].
Qed.

Lemma ptotal_call r : pool_request r = true -> ptotal (c_call al r).
Proof. intros Hr s w Hw. apply ptotal_call_at; [by left|by apply clean_request|done]. Qed.

Lemma ptotal_object r : pool_request r = true -> ptotal (c_object al r).
Proof. intros Hr. apply ptotal_bind; [by apply ptotal_call|]. intros a. apply ptotal_ret. Qed.

Lemma ptotal_info : ptotal (c_object al (ConnInfo (PyLong INFO_SERVER_STATUS))).
Proof.
  apply ptotal_bind; [|intros a; apply ptotal_ret]. intros s w Hw.
  apply ptotal_call_at; [by right|by apply clean_info|done].
Qed.

(** A command that was sent went through a connection that is there. *)
Lemma command_sent q s s' o w w' :
  conn_ok w -> c_call al (ConnCommand (PyUnicode q)) s w = Done (s', inr o) w' -> n_mysql (w_conn w') ≠ None.
Proof.
  intros [[Hl He] Hi] H. destruct (n_mysql (w_conn w)) as [m|] eqn:Em.
  - assert (Hf : framed (view_of w) (perform al (ConnCommand (PyUnicode q)))).
    { apply framed_conn_request; [apply Hi|done]. }
    specialize (Hf w eq_refl). unfold c_call, mbind, M_bind in H.
    destruct (perform al (ConnCommand (PyUnicode q)) w) as [v w1|]; [|done]. injection H as _ _ <-.
    apply (f_equal v_mysql) in Hf. cbn in *. congruence.
  - exfalso. assert (E : ∃ e, perform al (ConnCommand (PyUnicode q)) w = Done (VObj None) (with_err (Some e) w)).
    { cbn [perform]. unfold fmap, M_fmap, MrdbConnection_executecommand, MARIADB_CHECK_CONNECTION.
      unfold throw_message, set_err. cbn [mariadb_throw_exception]. unfold mbind, M_bind, get_conn. rewrite Em.
      rewrite py_held by done. by eexists. }
    destruct E as [e E]. by erewrite c_call_raise in H.
Qed.

Lemma ptotal_command q : ptotal (command al q).
Proof.
  intros s w Hw. unfold command, c_object. apply total_bind_at.
  - apply ptotal_object; [done|exact Hw].
  - intros s1 o w1 E1 H1. apply total_bind_at; [|intros ? ? ? _; apply ptotal_ret].
    assert (Hm : n_mysql (w_conn w1) ≠ None).
    { unfold mbind, PM_bind, mbind, M_bind in E1.
      destruct (c_call al (ConnCommand (PyUnicode q)) s w) as [[s2 [x|v]] w2|] eqn:E2; [done| |done].
      injection E1 as -> _ ->. eapply command_sent; [exact Hw|exact E2]. }
    apply total_bind_at; [|intros ? ? ? _; apply ptotal_ret].
    apply ptotal_call_at; [by right|by apply clean_readresponse|done].
Qed.

Lemma ptotal_conn_check : ptotal connection_check_closed.
Proof.
  apply ptotal_bind; [apply ptotal_the_connection|intros n].
  destruct (n_closed n); [apply ptotal_raise|apply ptotal_ret].
Qed.

Lemma ptotal_server_status : ptotal (server_status al).
Proof.
  apply ptotal_bind; [apply ptotal_bind; [apply ptotal_conn_check|intros _; apply ptotal_info]|intros o].
  unfold int_of. destruct (as_long o); [apply ptotal_ret|apply ptotal_raise].
Qed.

Lemma ptotal_rollback : ptotal (rollback al).
Proof.
  apply ptotal_bind; [apply ptotal_conn_check|intros _].
  apply ptotal_bind; [apply ptotal_bind; [apply ptotal_attrs|intros; apply ptotal_ret]|intros []];
    [apply ptotal_raise|apply ptotal_command].
Qed.

Lemma ptotal_autocommit b : ptotal (set_autocommit al b).
Proof.
  apply ptotal_bind; [apply ptotal_conn_check|intros _]. apply ptotal_bind; [|intros now].
  - apply ptotal_bind; [apply ptotal_conn_check|intros _].
    apply ptotal_bind; [apply ptotal_server_status|intros; apply ptotal_ret].
  - destruct (eqb b now); [apply ptotal_ret|apply ptotal_command].
Qed.

Lemma ptotal_connect kw : ptotal (Connection_init al kw).
Proof.
  apply ptotal_bind; [apply ptotal_upd_attrs|intros _]. apply ptotal_bind; [by apply ptotal_call|intros _].
  destruct (kc_bad_host kw); [apply ptotal_raise|]. apply ptotal_bind; [by apply ptotal_call|intros _].
  apply ptotal_bind; [apply ptotal_autocommit|intros _].
  apply ptotal_bind; [by apply ptotal_call|intros _]. apply ptotal_ret.
Qed.

(** ** The interface *)

(** The connection objects by number, and the time. *)
Record conn_env := mkConnEnv {
  ce_conn : nat -> pystate * world C;
  ce_time : Z;
  ce_ok : ∀ c, conn_ok (ce_conn c).2;
}.

Definition put_conn (c : nat) (x : pystate * world C) (e : conn_env) : nat -> pystate * world C :=
  λ d, if decide (d = c) then x else ce_conn e d.

Lemma put_conn_ok c x e : conn_ok x.2 -> ∀ d, conn_ok (put_conn c x e d).2.
Proof. intros Hx d. unfold put_conn. destruct (decide _); [done|apply ce_ok]. Qed.

(** A method of the connection of a number. *)
Definition on_conn {A : Type} (m : PM A) (Hm : ptotal m) (c : nat) : step conn_env A := λ e,
  match m (ce_conn e c).1 (ce_conn e c).2 as x
    return match x with Done _ w' => conn_ok w' | Stuck _ => False end -> option (conn_env * (pyexn + A)) with
  | Done (s', r) w' => λ H, Some (mkConnEnv (put_conn c (s', w') e) (ce_time e) (put_conn_ok c (s', w') e H), r)
  | Stuck _ => λ _, None
  end (Hm _ _ (ce_ok e c)).

Lemma on_conn_defined {A} (m : PM A) (Hm : ptotal m) c e : is_Some (on_conn m Hm c e).
Proof.
  unfold on_conn. generalize (Hm (ce_conn e c).1 (ce_conn e c).2 (ce_ok e c)). unfold total_at.
  destruct (m (ce_conn e c).1 (ce_conn e c).2) as [[s' r] w'|]; [|done]. intros H. by eexists.
Qed.

Definition done_unit (r : request) : PM () := c_object al r;; mret ().

Lemma ptotal_unit r : pool_request r = true -> ptotal (done_unit r).
Proof. intros Hr. apply ptotal_bind; [by apply ptotal_object|]. intros a. apply ptotal_ret. Qed.

Definition python_connections (kw : connection_kwargs) : Connections conn_env := {|
  k_connect := on_conn (Connection_init al kw) (ptotal_connect kw);
  k_check_closed := on_conn connection_check_closed ptotal_conn_check;
  k_ping := on_conn (done_unit ConnPing) (ptotal_unit ConnPing eq_refl);
  k_reset := on_conn (done_unit ConnReset) (ptotal_unit ConnReset eq_refl);
  k_rollback := on_conn (rollback al) ptotal_rollback;
  k_server_status := on_conn (server_status al) ptotal_server_status;
  k_close := on_conn (done_unit ConnClose) (ptotal_unit ConnClose eq_refl);
  k_clock e := (mkConnEnv (ce_conn e) (ce_time e + 1) (ce_ok e), ce_time e);
|}.

Lemma python_connections_defined kw :
  Defined_steps (K := python_connections kw).
Proof. split; intros; apply on_conn_defined. Qed.

End Total.

(** ** Histories of a pool *)

(** What an application does with a pool and its connections; it handles the
    exceptions.  [OpAdd] is [add_connection] without an argument or with a
    connection. *)
Inductive pool_op :=
  | OpGet | OpReturn (c : nat) | OpAdd (arg : option nat) | OpConfig (given : bool) | OpClose | OpConnect.

Section Histories.

Context {env : Type} `{K : !Connections env}.

Definition run_op (n : string) (o : pool_op) (h : heap env) : option (heap env) :=
  match o with
  | OpGet => fst <$> get_connection n h
  | OpReturn c => fst <$> pooled_close c h
  | OpAdd arg => fst <$> add_connection n arg h
  | OpConfig given => fst <$> set_config n given h
  | OpClose => fst <$> pool_close n h
  | OpConnect => fst <$> new_connection h
  end.

Fixpoint run_ops (n : string) (os : list pool_op) (h : heap env) : option (heap env) :=
  match os with
  | [] => Some h
  | o :: os' => h' ← run_op n o h; run_ops n os' h'
  end.

(** A connection is only added when it exists and belongs to no pool. *)
Definition polite_op (o : pool_op) (h : heap env) : Prop :=
  match o with
  | OpAdd (Some c) => (c < h_next h)%nat ∧ a_pool (h_attrs h c) = None
  | _ => True
  end.

Fixpoint polite_ops (n : string) (os : list pool_op) (h : heap env) : Prop :=
  match os with
  | [] => True
  | o :: os' => polite_op o h ∧ match run_op n o h with Some h' => polite_ops n os' h' | None => True end
  end.

Context `{D : !Defined_steps}.

(** An operation that ends runs. *)
Lemma ends_run {A} (m : BM env A) h (P : heap env -> Prop) :
  ends m h (λ _ h', P h') -> ∃ h', fst <$> m h = Some h' ∧ P h'.
Proof. intros (h' & r & -> & Hk). by exists h'. Qed.

Lemma run_op_within n o h : within n h -> ∃ h', run_op n o h = Some h' ∧ within n h'.
Proof.
  intros Hk. destruct o; simpl; apply ends_run.
  - by apply get_bound.
  - by apply return_bound.
  - by apply within_add.
  - by apply config_bound.
  - by apply close_bound.
  - by apply new_bound.
Qed.

Lemma run_op_ok n o h : pool_ok n h -> polite_op o h -> ∃ h', run_op n o h = Some h' ∧ pool_ok n h'.
Proof.
  intros Hk Hp. destruct o as [|c|[c|]|given| |]; simpl; apply ends_run.
  - by apply get_ok.
  - by apply conn_close_ok.
  - destruct Hp. by apply add_given_ok.
  - by apply add_ok.
  - by apply set_config_ok.
  - by apply pool_close_ok.
  - by apply new_connection_ok.
Qed.

Lemma run_ops_within n os h : within n h -> ∃ h', run_ops n os h = Some h' ∧ within n h'.
Proof.
  revert h. induction os as [|o os IH]; intros h Hk; simpl; [by exists h|].
  destruct (run_op_within n o h Hk) as (h1 & E & Hk1). rewrite E. by apply IH.
Qed.

Lemma run_ops_ok n os h : pool_ok n h -> polite_ops n os h -> ∃ h', run_ops n os h = Some h' ∧ pool_ok n h'.
Proof.
  revert h. induction os as [|o os IH]; intros h Hk Hp; simpl; [by exists h|]. simpl in Hp. destruct Hp as [Hp Hps].
  destruct (run_op_ok n o h Hk Hp) as (h1 & E & Hk1). rewrite E in *. by apply IH.
Qed.

End Histories.

(** C13: A pool over the connections of the connector, with a library that keeps
    its contract, has no undefined behaviour: every history, in one thread, of
    checking connections out and returning them, adding new connections or any
    given ones, configuring and closing the pool runs to its end, through
    whatever failures of the server and exceptions, and behind it the pool holds
    no more connections than its size.  When given connections are added only if
    they belong to no pool the whole invariant [pool_ok] holds behind it: no
    connection is in the lists twice, and each is marked as the pool's.  The
    connections the pool closes twice, pings when they are closed or uses before
    they are connected raise; none of its calls reaches the library with a handle
    that is not alive, and the interpreter lock is held behind each. *)
Theorem pool_over_connections `{C : Client} `{P : PyLib} (al : allocations) (Hfit : reports_fit (C := C))
    (Hnum : status_is_number C) (kw : connection_kwargs) (n : string) (os : list pool_op) (h : heap (conn_env (C := C))) :
  pool_ok n h ->
  ∃ h', run_ops (K := python_connections al Hfit Hnum kw) n os h = Some h' ∧ within n h' ∧
        (polite_ops (K := python_connections al Hfit Hnum kw) n os h -> pool_ok n h') ∧
        ∀ c, conn_ok (ce_conn (h_env h') c).2.
Proof.
  intros Hk. pose proof (python_connections_defined al Hfit Hnum kw) as D.
  destruct (run_ops_within (D := D) n os h (within_ok n h Hk)) as (h' & E & Hw). exists h'.
  split_and!; [done..| |apply ce_ok]. intros Hp.
  destruct (run_ops_ok (D := D) n os h Hk Hp) as (h2 & E2 & Hk2). congruence.
Qed.

(** A pool of two places with one connection that was not opened yet. *)
Definition unopened_env : conn_env (C := demo_client) :=
  mkConnEnv (λ _, (mkPyState (mkPyCursor false PyNone false false 0) pyconnection_new,
                   demo_world)) 0
    (λ _, conj (conj (conj eq_refl eq_refl) eq_refl)
               (conj (mkWell _ (view_of demo_world) (λ h _, lookup_empty h) ltac:(discriminate) ltac:(discriminate)
                       ltac:(discriminate) (map_empty_subseteq _) ltac:(discriminate))
                     eq_refl)).

Definition unopened_pool : heap (conn_env (C := demo_client)) :=
  mkHeap {[ "p"%string := mkPool "p" 2 false 0 true (Some ([0%nat], [])) ]} {[ "p"%string ]}
    (λ _, mkAttrs (Some "p"%string) (-1) 0) 1 unopened_env.

Lemma unopened_pool_ok : pool_ok "p" unopened_pool.
Proof.
  exists (mkPool "p" 2 false 0 true (Some ([0%nat], []))). split; [by split|]. left. exists [0%nat], [].
  split; try done.
  - apply NoDup_singleton.
  - apply Forall_cons; [|done]. split; [apply Nat.lt_0_1|done].
  - by right.
Qed.

Lemma demo_status_is_number : status_is_number demo_client.
Proof. intros m l l' r reports. cbn. by intros [= <- _ _]. Qed.

Definition demo_history : list pool_op := [OpGet; OpAdd None; OpGet; OpReturn 1; OpReturn 7; OpAdd (Some 1); OpClose; OpGet]%nat.

Lemma pool_over_connections_witness :
  ∃ h', run_ops (K := python_connections demo_allocs demo_reports_fit demo_status_is_number (demo_connection false false)) "p" demo_history unopened_pool = Some h' ∧ within "p" h'.
Proof.
  destruct (pool_over_connections demo_allocs demo_reports_fit demo_status_is_number (demo_connection false false)
    "p" demo_history unopened_pool unopened_pool_ok) as (h' & E & Hk & _).
  exact (ex_intro _ h' (conj E Hk)).
Defined.

(** The history step by step: the connection that was never opened is given up,
    a new one is made, handed out and taken back, added once more, which puts it
    into the list twice, and closed with the pool. *)
Example demo_history_lists :
  (λ k, h ← run_ops (K := python_connections demo_allocs demo_reports_fit demo_status_is_number
                           (demo_connection false false)) "p" (take k demo_history) unopened_pool;
        p ← h_objs h !! "p"%string; p_lists p) <$> [0; 1; 2; 3; 4; 5; 6; 7]%nat
  = [Some ([0], []); Some ([], []); Some ([1], []); Some ([], [1]); Some ([1], []); Some ([1], []); Some ([1; 1], []); None]%nat.
Proof. vm_compute. reflexivity. Qed.
